(* ===== verification/_CoqProject ===== *)
-Q . S2P
Prelude.v
Prog.v
BpfMap.v
ProgBounds.v
Compose.v
Owned.v
Bits.v
FutexSnoop.v
FutexSnoopSpec.v
FutexSnoopConc.v
OnCpu.v
OnCpuSpec.v
Syscall.v
SyscallSpec.v
CacheStat.v
CacheStatSpec.v
CacheStatConc.v
OffCpu.v
OffCpuSpec.v
OffCpuConc.v
Layout.v
KernelTypes.v
Vmlinux518.v
Vmlinux510.v
CoreRead.v
Endian.v
Tracing.v
Probes.v
Kernel.v
KernelSpec.v
Wrappers.v
CoreReadSpec.v
Usdt.v
Skel.v
SkelSpec.v
SkelData.v
Wire.v
WireSpec.v
WellTyped.v
WellTypedProgs.v
Machine.v
MachineSpec.v
SyscallTable.v
SyscallTableSpec.v
Pthread.v
PthreadTheory.v
TestPrograms.v
GoLib.v
Trie.v
TrieSpec.v
TrieCodec.v
SpyEvent.v
DataBlock.v
Exporters.v
ExportersSpec.v
Detectors.v
Symtab.v
SymtabSpec.v
Sessions.v
AgentSpec.v
AgentOffCpu.v
AgentOther.v
OnCpuReset.v
Pipeline.v
PipelineSpec.v
Delivery.v
Uploads.v
Config.v
ConfigSpec.v
Launch.v
LaunchSpec.v
Workers.v
WorkersSpec.v
AgentDelivery.v
Host.v
HostSpec.v
EndToEnd.v
EndToEndOffCpu.v
EndToEndSyscall.v
