(* ===== verification/Prelude.v ===== *)
(** * spycat: its eBPF programs and its agent

    spycat is an observability agent for Linux.  Small C programs run in the kernel
    (src/pkg/ebpf/): they are attached to tracepoints, kprobes, uprobes and perf
    events, keep their state in eBPF maps and send records through perf buffers.  An
    agent in Go (src/pkg/) loads them, writes their arguments into a map, reads the
    records, turns them into events and events into blocks of labels and metrics, and
    passes the blocks to an exporter.  This library models the C programs completely, the
    kernel's types they look into, the headers they are written with, the boundary
    between them and the agent, what the agent does with a record from its bytes to
    the exporter, and the test programs, and proves what they count, what they report
    and what they lose.

    ** The program and the files

    - [Prelude]: machine integers ([uN], [sN] and their laws), record update, sums over
      lists, tactics.
    - [Prog]: a program is a finite tree of atomic actions on the shared state.  [run]
      executes it alone; [pool_step] interleaves the actions of programs that run on
      several CPUs.  [adds] is the calculus for counters that survive interleaving.
      [ProgBounds] has two more: how far a program can raise a measure with reads and writes
      that are not atomic ([at_most]), and that it keeps a property of the state at each of
      its actions ([typed]).  [Compose]: programs on a part of a larger state ([lift]).
    - [BpfMap]: the kernel's maps as an interface: the class [BpfMaps] has the
      operations, [BpfMapsLaws] their documented behaviour (capacity and the flags
      BPF_ANY and BPF_NOEXIST included).  [gmap_maps] implements it.  Every component
      is proved against the interface.  A pointer into a map is the key of its
      element: an access through it is an action of its own, so aliasing between
      programs is there.  [bpf_env] has what the other helpers return.
    - [FutexSnoop] (cpu/futexsnoop/futexsnoop.bpf.c, futexsnoop.h) with [Bits]
      (bits.bpf.h): [futex_enter], [futex_exit]; properties in [FutexSnoopSpec], on several
      CPUs in [FutexSnoopConc].
    - [OnCpu] (cpu/oncpu/): [do_perf_event]; properties in [OnCpuSpec].
    - [Syscall] (cpu/syscall/syscall.bpf.c, syscall.h): [sys_enter], [sys_exit]; properties
      in [SyscallSpec].  [SyscallTable] has both tables of syscall_table.h and the agent's
      translation of names and numbers (cpu/syscall.go); properties in
      [SyscallTableSpec].
    - [CacheStat] (mem/cachestat/): [vfs_write_hook], [vfs_read_hook]; properties in
      [CacheStatSpec], on several CPUs in [CacheStatConc].
    - [OffCpu] (cpu/offcpu/): [try_to_wake_up_hook], [sched_switch_hook] with
      [sched_cache_update], [sched_cache_dump]; properties in [OffCpuSpec], with the
      hooks of all CPUs interleaved in [OffCpuConc], which rests on [Owned]: runs that
      only write to a part of the state of their own.
    - [Probes] (cpu/kprobe/kprobe.c, uprobe/uretprobe.c): [kprobe_execve],
      [uretprobe_bash_readline], with the property of the first.
    - [Machine]: all of them together on one machine, [handler] being a run of one of the
      eleven programs; [WellTyped] and [WellTypedProgs] say and prove what is well typed;
      properties in [MachineSpec].
    - [KernelTypes], [Vmlinux518], [Vmlinux510] (headers/x86/vmlinux_518.h,
      headers/arm64/vmlinux_510.h): C types with unions and bit-fields, their layout, and
      the types the programs look into, with all they contain by value.
    - [Tracing] (headers/bpf/bpf_tracing.h, and the older headers/bpf_tracing.h that the
      uretprobe includes): the choice of the target and the register macros.
    - [Kernel]: the programs with their raw contexts, reading the kernel's memory;
      properties in [KernelSpec].
    - The headers of libbpf that have code: [Wrappers] (the second half of
      bpf_tracing.h: BPF_PROG, BPF_PROG2, BPF_KPROBE, BPF_KSYSCALL), [CoreRead] with
      [CoreReadSpec] (bpf_core_read.h), [Endian] (bpf_endian.h), [Usdt] (usdt.bpf.h), [Skel]
      with [SkelSpec] and [SkelData] (skel_internal.h).
    - [Layout], [Wire]: the bytes of records and arguments, and the agent's decoding of
      them (cpu/*.go, uprobe/bpf_bpfel_x86.go); properties in [WireSpec].
    - [Pthread]: POSIX threads with a mutex and a condition variable as a step relation;
      [PthreadTheory]: programs that keep to the rules of their mutex, and listing the
      reachable configurations of small ones; [TestPrograms]: the load generators of
      src/test with their properties.
    - The agent.  [GoLib]: results that can be a panic or an error ([go_result]), binary
      search and variable-length integers (pkg/util/varint).  [Trie] (pkg/util/trie), the
      prefix tree of the profiles; properties in [TrieSpec], those of its codecs in
      [TrieCodec].  [SpyEvent], [DataBlock] (pkg/core/model): events with their attributes,
      labels, metrics, blocks.  [Symtab] (pkg/symtab): symbol tables, their cache and the
      printing of stacks; properties in [SymtabSpec].  [Sessions] (pkg/ebpf/*/*.go): from
      the bytes of a record to events; [OnCpuReset] (oncpu.go): the rounds in which the
      profile is read and emptied, as steps between samples.  [Detectors] (pkg/component/detector, processor):
      from events to blocks, the profiles and their uploads, routing.  [Exporters]
      (pkg/component/exporter): rows and batches; properties in [ExportersSpec].
      [Pipeline] (internal/app/appspy.go, pkg/component/receiver): the goroutines and the
      channels between them as a step relation.  [AgentSpec], [AgentOffCpu] and
      [AgentOther] follow a record of each tool to its block; [PipelineSpec], [Delivery]
      and [Uploads] have the properties of the pipeline, [EndToEnd], [EndToEndOffCpu] and
      [EndToEndSyscall] join the machine, the sessions and the pipeline.
    - What a run of the agent consists of.  [Config] (internal/app/config/config.go, CopyStruct
      of pkg/util, initArgsMap of pkg/ebpf/*/*.go): the options of the tools and the bytes of the
      arguments that reach the programs; properties in [ConfigSpec].  [Launch]
      (cmd/spycat/main.go, internal/app/cmd.go, pkg/config/config.go, appspy.go): the
      commands, the file spycat.yaml and what they start; properties in [LaunchSpec].
      [Workers]: the pipeline with as many goroutines as have been started; its invariants in
      [WorkersSpec], and [AgentDelivery] shows that an agent that was started once is
      simulated by [Pipeline].  [Host] (pkg/util/util.go): the files of the kernel that
      the agent looks into; lemmas in [HostSpec].

    A state record has one field per map of the C file, under the map's name, and for
    a perf buffer the list of the records sent so far; [args_map] is what a lookup of
    its only used entry returns.  The C functions keep their names.

    ** What is shown

    - Futex snooper: the user count of a lock is the number of threads that wait on it and
      the histograms summarise exactly the completed waits, in every reachable state (C1,
      C2); when a call is timed (C38) and what the handlers report (C3, C4); atomic
      counters survive interleaving (C13), while a lemma shows that two simultaneous first
      waiters do not; the logarithm and its slot (C14); counts leak when a map is full (C15);
      lemmas on the minimum of the durations and on the maximum, which depends on a branch of
      an #ifdef.
    - From the kernel to the exporter (C5, C6): the records of the futex snooper and of the
      off-CPU profiler, sent by any interleaving of all programs, end as exactly their
      blocks, in order, after any run of the agent, those of the profiler with the records
      of the ring that it reads.  For the system call tracer even from the options of the
      command (C7): the blocks are those of the completed calls that the options select.
      C8 is the agent's part of it for all tools, with the goroutines that its start makes: nothing is lost, repeated or overtaken between the
      sessions and the exporter, and the queues can always empty; lemmas of [AgentDelivery]:
      an agent started twice can reorder, and one without a server has no profile.
    - From the configuration to the programs: what a spycat.yaml starts, with which
      arguments, and when it panics (C9); what the options of each tool select, which for
      the futex snooper and the profiler is not what their help says (C10).
    - All programs at once (C12): at every moment of every interleaving no program has
      written behind the end of an array ([array_update] leaves none when it does), and every
      element agrees with the key it is stored under.  Lemmas: everything in the maps and
      everything sent has its declared type, so that the agent decodes every record.
    - On-CPU profiler (C16, C17): the profile is the histogram of the samples; on several
      CPUs samples can be lost but not invented.  The agent empties it while it grows, its
      steps between the single accesses of the samples (C18): no sample is sent twice unless
      an element is deleted under a sample in flight (a lemma shows that it happens), and
      those that are lost are those of overlapping samples and of a round without a batch.
    - Slow system calls (C19): the records refine the list of completed slow calls; lemmas
      say what happens when [start] is full, and with entries that are never removed.
    - Page cache (C20, C21): the totals per process and file; on several CPUs they can
      be too low (a lemma) but not too high.
    - Off-CPU profiler (C11, C22 to C24, C39): the events refine an abstract profiler
      ([spec_step]) that remembers for every task when it left and who woke it; however the
      hooks of all CPUs interleave, the ring of a CPU holds its last 512 switches and the copy
      of a ring is a snapshot.  An event is put together from a shared element word by word
      ([copy_words]): each of its members comes from a hook that ran for its task, but its
      times need not come from one run ([idle_event_inconsistent]).  The mark of a copied
      ring is never taken back; lemmas say when and with what a return is reported, and the
      effects of stale or shared state.
    - Contexts and kernel objects (C25): the hooks run on the tasks (and, a lemma, the
      names of files) that are in memory behind the addresses the probed function was
      given; a lemma: the register macros name the argument registers of the calling
      convention.  Lemmas of [WireSpec] and [SyscallTableSpec] say exactly what the two sides
      read of each other where their structures differ, and which names of system calls
      determine their numbers.
    - Test programs (C26): lock.c ends whatever the order of its threads, if the system grants
      them; lemmas: what it does if it does not; thread_wake.c can hang, and when; the other two never end.
    - Headers of libbpf (C27, C40): the loader of light skeletons meets its contract, and
      the arguments of user-space tracepoints are found ([Usdt]); lemmas on the life of a
      skeleton's data ([SkelData]), the parameters of wrapped handlers
      ([Wrappers]), the attributes, errors, chains of CO-RE reads, bit-fields and byte order.
    - What a record becomes (C28 to C30): the block of every tool's record, label by label,
      and what is lost or wrong in it; a string of C is read from the memory behind its
      address, which may be more than its array ([GoString], [memory_from]).
    - The agent's parts: no profile is ever uploaded (C31); the trie is a map, and its
      bytes are read back by both readers (C32, C33); attributes of events (C34); batches
      (C35); symbols and stacks (C36, C37; a lemma: tables are looked at again once per
      round); lemmas: the list of CPUs that the kernel prints is read back ([HostSpec]).

    ** Bounds

    No eBPF program has fuel: the programs have no loops and [prog] is inductive, so
    every program terminates, as the kernel's verifier demands; no theorem is claimed of
    that.  [explore] in [PthreadTheory] has fuel, and a
    list it makes is only used when it has been checked to be closed under steps.  Of the
    agent, [Search] has as much fuel as there are elements, which halve; [findNodeAt] one
    more than the key has bytes, which every turn shortens; the loops over nodes as much as
    the tree has nodes, or the input bytes; [walk_frames] counts its 127 turns down, and
    [put_uvarint] has the 10 bytes that a [uint64] can take; theorems state that [NoFuel] is
    not the result ([Returned] is).  Channels have the capacities of the configuration, of
    which only that they are positive matters.  Map
    capacities are those of the C files.  Integers have the width
    of the C type at every assignment and conversion; times are [u64] nanoseconds, and
    a property that needs times to be ordered or short says so.

    ** What is taken from outside

    The kernel is a parameter: the maps by their laws, the results of the other helpers
    by [bpf_env], memory by a function from addresses to bytes ([kmem]).  Reordering
    and lost updates are those of sequentially consistent single accesses of up to eight
    bytes; names of 16 bytes that a helper writes, and elements that a program copies to its
    own stack or that the kernel copies in a call, are one access.  An element that is
    deleted while a program points to it is gone for it; the kernel may give its memory to
    another key.  The
    layout is the one clang has for the bpf target on structures like these.

    ** What is not modelled

    Of the agent: loading and attaching programs, the reading of the page-cache statistics,
    the deletion of stacks (only their ids are there), the parsing of
    flags and of YAML (cobra, viper and yaml.v3 hand over the values), help texts and the
    signals that end it, logging, JSON and HTTP, the parsing of ELF files and bcc's library,
    which resolves addresses (both parameters of [Symtab]); the aggregation of the
    processor, which nothing calls; stopping, which panics (finding) or, with SQLite, hangs
    (C35).  Goroutines take one step at a time, in any order; a detector's handling of an
    event and an upload of the tries are one step each, as their lock makes them.  The bodies of the
    helpers and the stack-trace map are in the kernel, those of libbpf's functions in
    libbpf: bpf_helper_defs.h, bpf.h, btf.h and libbpf.h are declarations.  Of
    bpf_core_read.h the macros that only ask the loader for a relocation, of the generated
    headers the types that nothing here looks into.  Spurious wake-ups of a condition
    variable are left out of [Pthread].  Worth adding: the whole way for the readers of maps
    as C5 to C7 have it, how long after its event a ring may be read to be still that of
    the event. *)
From Stdlib Require Export ZArith Lia.
From stdpp Require Export base tactics numbers list option gmap.

Open Scope Z_scope.

(** * Scopes and record update *)

Declare Scope bpf_scope.
Delimit Scope bpf_scope with bpf.
Open Scope bpf_scope.

(** A record type with its eta-expanded identity.  [r <| f := v |>] is the
    record [r] with the field [f] replaced, as a C assignment [r.f = v]. *)
Class Eta (T : Type) := eta_id : T -> T.

Ltac with_field r f v :=
  let T := type of r in
  let inst := constr:(_ : Eta T) in
  let body := eval hnf in inst in
  let p := eval pattern f in body in
  lazymatch p with
  | ?F _ => let t := eval cbv beta in (F (fun _ => v)) in exact (t r)
  end.

Notation "r <| f := v |>" := (ltac:(with_field r f v))
  (at level 1, left associativity, only parsing) : bpf_scope.

(** * Machine integers

    A C integer of width [n] is a [Z]; conversions to an unsigned type reduce
    modulo [2^n], conversions to a signed type are two's complement. *)

Definition uN (n x : Z) : Z := x mod 2 ^ n.

Definition sN (n x : Z) : Z :=
  let y := uN n x in if y <? 2 ^ (n - 1) then y else y - 2 ^ n.

Abbreviation u8 := (uN 8).
Abbreviation u16 := (uN 16).
Abbreviation u32 := (uN 32).
Abbreviation u64 := (uN 64).
Abbreviation s32 := (sN 32).
Abbreviation s64 := (sN 64).

Definition is_uN (n x : Z) : Prop := 0 <= x < 2 ^ n.
Abbreviation is_u32 := (is_uN 32).
Abbreviation is_u64 := (is_uN 64).

#[export] Instance is_uN_dec n x : Decision (is_uN n x).
Proof. unfold is_uN. apply _. Defined.

(** [(u32)-1], the value a [u32] field holds when it was assigned -1: the
    comparison [x == -1] of a [u32] against the [int] -1 is against this. *)
Definition UINT32_MAX : Z := 2 ^ 32 - 1.

(** C truth of an integer condition. *)
Definition nz (x : Z) : bool := negb (x =? 0).

Create HintDb cint discriminated.
Create Rewrite HintDb cint.

Section CInt.
Context (n : Z) (Hn : 0 < n).

Lemma pow_pos_n : 0 < 2 ^ n.
Proof. apply Z.pow_pos_nonneg; lia. Qed.

Lemma pow_half : 2 ^ n = 2 * 2 ^ (n - 1).
Proof. rewrite <- Z.pow_succ_r by lia. f_equal. lia. Qed.

Lemma uN_range x : is_uN n (uN n x).
Proof. apply Z.mod_pos_bound, pow_pos_n. Qed.

Lemma uN_id x : is_uN n x -> uN n x = x.
Proof. apply Z.mod_small. Qed.

Lemma uN_uN x : uN n (uN n x) = uN n x.
Proof. apply uN_id, uN_range. Qed.

Lemma uN_add_l x y : uN n (uN n x + y) = uN n (x + y).
Proof. unfold uN. apply Zplus_mod_idemp_l. Qed.

Lemma uN_add_r x y : uN n (x + uN n y) = uN n (x + y).
Proof. unfold uN. apply Zplus_mod_idemp_r. Qed.

Lemma uN_sub_l x y : uN n (uN n x - y) = uN n (x - y).
Proof. unfold uN. apply Zminus_mod_idemp_l. Qed.

Lemma uN_sub_r x y : uN n (x - uN n y) = uN n (x - y).
Proof. unfold uN. apply Zminus_mod_idemp_r. Qed.

Lemma uN_0 : uN n 0 = 0.
Proof. apply Z.mod_0_l. pose proof pow_pos_n. lia. Qed.

Lemma sN_range x : - 2 ^ (n - 1) <= sN n x < 2 ^ (n - 1).
Proof.
  unfold sN. pose proof (uN_range x) as [? ?]. pose proof pow_half.
  cbv zeta. destruct (Z.ltb_spec (uN n x) (2 ^ (n - 1))); lia.
Qed.

Lemma sN_id x : - 2 ^ (n - 1) <= x < 2 ^ (n - 1) -> sN n x = x.
Proof.
  intros Hx. unfold sN. pose proof pow_half as Hp. cbv zeta.
  destruct (Z.le_gt_cases 0 x).
  - rewrite uN_id by (split; lia). destruct (Z.ltb_spec x (2 ^ (n - 1))); lia.
  - replace (uN n x) with (x + 2 ^ n).
    + destruct (Z.ltb_spec (x + 2 ^ n) (2 ^ (n - 1))); lia.
    + symmetry. unfold uN. replace x with (x + 2 ^ n + -1 * 2 ^ n) at 1 by lia.
      rewrite Z.mod_add by lia. apply Z.mod_small. lia.
Qed.

Lemma uN_sN x : uN n (sN n x) = uN n x.
Proof.
  unfold sN. cbv zeta. destruct (_ <? _); [apply uN_uN|].
  rewrite <- (uN_uN x) at 2. unfold uN at 1 3.
  replace (uN n x - 2 ^ n) with (uN n x + -1 * 2 ^ n) by lia.
  apply Z.mod_add. pose proof pow_pos_n. lia.
Qed.

Lemma sN_uN x : sN n (uN n x) = sN n x.
Proof. unfold sN. cbv zeta. by rewrite uN_uN. Qed.

(** The sign test of a two's complement conversion. *)
Lemma sN_nonneg x : 0 <= sN n x <-> uN n x < 2 ^ (n - 1).
Proof.
  unfold sN. pose proof (uN_range x) as [? ?]. cbv zeta.
  destruct (Z.ltb_spec (uN n x) (2 ^ (n - 1))); lia.
Qed.
End CInt.

#[export] Hint Resolve uN_range sN_range : cint.
#[export] Hint Extern 1 (0 < _)%Z => lia : cint.
#[export] Hint Rewrite uN_uN uN_add_l uN_add_r uN_sub_l uN_sub_r uN_sN sN_uN
  using lia : cint.

Lemma uN_mono m n x : 0 < m <= n -> is_uN m x -> is_uN n x.
Proof.
  intros [? ?] [? ?]. split; [done|].
  assert (2 ^ m <= 2 ^ n) by (apply Z.pow_le_mono_r; lia). lia.
Qed.

(** [pid_tgid >> 32] and [(u32)pid_tgid]. *)
Definition hi32 (x : Z) : Z := Z.shiftr x 32.
Definition lo32 (x : Z) : Z := u32 x.

Lemma hi32_range x : is_u64 x -> is_u32 (hi32 x).
Proof.
  intros [? ?]. unfold hi32, is_uN. rewrite Z.shiftr_div_pow2 by lia.
  split; [apply Z.div_pos; lia | apply Z.div_lt_upper_bound; lia].
Qed.

Lemma pid_tgid_split x : x = hi32 x * 2 ^ 32 + lo32 x.
Proof.
  unfold hi32, lo32, uN. rewrite Z.shiftr_div_pow2 by lia.
  pose proof (Z.div_mod x (2 ^ 32) ltac:(lia)). lia.
Qed.

(** High bits and the low bits below them. *)
Lemma lor_add a c k : 0 <= k -> 0 <= c < 2 ^ k -> Z.lor (a * 2 ^ k) c = a * 2 ^ k + c.
Proof.
  intros Hk Hc. rewrite <- Z.add_lor_land. replace (Z.land (a * 2 ^ k) c) with 0; [lia|].
  symmetry. apply Z.bits_inj'. intros i Hi. rewrite Z.bits_0, Z.land_spec, Z.mul_pow2_bits by lia.
  destruct (Z.lt_ge_cases i k) as [Hik | Hik].
  - by rewrite Z.testbit_neg_r by lia.
  - rewrite <- (Z.mod_small c (2 ^ k)), Z.mod_pow2_bits_high, andb_false_r by lia. done.
Qed.

(** * Tactics *)

(** Turn boolean comparisons of [Z] into propositions. *)
Ltac zbool :=
  repeat match goal with
  | H : _ && _ = true |- _ => apply andb_true_iff in H as [? ?]
  | H : _ || _ = false |- _ => apply orb_false_iff in H as [? ?]
  | H : negb _ = true |- _ => apply negb_true_iff in H
  | H : negb _ = false |- _ => apply negb_false_iff in H
  | H : (_ =? _) = true |- _ => apply Z.eqb_eq in H
  | H : (_ =? _) = false |- _ => apply Z.eqb_neq in H
  | H : (_ <? _) = true |- _ => apply Z.ltb_lt in H
  | H : (_ <? _) = false |- _ => apply Z.ltb_ge in H
  | H : (_ <=? _) = true |- _ => apply Z.leb_le in H
  | H : (_ <=? _) = false |- _ => apply Z.leb_gt in H
  end.

(** Split an innermost boolean [if] of the goal. *)
Ltac case_if :=
  match goal with
  | |- context [if ?b then _ else _] =>
      lazymatch type of b with bool => idtac end;
      lazymatch b with context [if _ then _ else _] => fail | _ => idtac end;
      let E := fresh "E" in destruct b eqn:E
  end.

(** * Lists *)

Definition sumZ {A} (f : A -> Z) (l : list A) : Z := foldr (fun a s => f a + s) 0 l.

Section SumZ.
Context {A : Type}.
Implicit Types (f : A -> Z) (l : list A).

Lemma sumZ_nil f : sumZ f [] = 0.
Proof. done. Qed.

Lemma sumZ_cons f a l : sumZ f (a :: l) = f a + sumZ f l.
Proof. done. Qed.

Lemma sumZ_app f l1 l2 : sumZ f (l1 ++ l2) = sumZ f l1 + sumZ f l2.
Proof. induction l1 as [|a l1 IH]; simpl; [done|]. rewrite IH. lia. Qed.

Lemma sumZ_nonneg f l : (forall a, a ∈ l -> 0 <= f a) -> 0 <= sumZ f l.
Proof.
  induction l as [|a l IH]; intros H; simpl; [lia|].
  pose proof (H a ltac:(left)). assert (0 <= sumZ f l) by (apply IH; intros; apply H; by right).
  lia.
Qed.

Lemma sumZ_insert f l i a b :
  l !! i = Some a -> sumZ f (<[i := b]> l) = sumZ f l - f a + f b.
Proof.
  revert i. induction l as [|c l IH]; intros [|i] H; simplify_eq/=; [lia|].
  rewrite (IH i) by done. lia.
Qed.
End SumZ.

Lemma sumZ_const {A} (c : Z) (l : list A) :
  sumZ (fun _ => c) l = c * Z.of_nat (length l).
Proof. induction l as [|a l IH]; simpl; [lia|]. rewrite IH. lia. Qed.

Create Rewrite HintDb sums.
#[export] Hint Rewrite @sumZ_nil @sumZ_cons @sumZ_app : sums.

(** A store to the element [i] of an array.  There is no element behind the end of an
    array: such a store hits something else, and here it leaves no array at all, so that
    the theorems on the lengths of arrays are theorems on the indices used. *)
Definition array_update {A} (f : A -> A) (i : nat) (l : list A) : list A :=
  if (i <? length l)%nat then alter f i l else [].

Section ArrayUpdate.
Context {A : Type}.
Implicit Types (f g : A -> A) (l : list A) (i : nat).

Lemma array_update_in f i l : (i < length l)%nat -> array_update f i l = alter f i l.
Proof. intros Hi. unfold array_update. by rewrite (proj2 (Nat.ltb_lt _ _)). Qed.

Lemma length_array_update f i l : (i < length l)%nat -> length (array_update f i l) = length l.
Proof. intros Hi. by rewrite array_update_in, length_alter. Qed.

Lemma array_update_update f g i l : array_update f i (array_update g i l) = array_update (f ∘ g) i l.
Proof.
  unfold array_update. destruct (Nat.ltb_spec i (length l)) as [Hi | Hi]; [|done].
  by rewrite length_alter, (proj2 (Nat.ltb_lt _ _)), list_alter_alter_eq.
Qed.

Lemma array_update_ext f g i l : (forall a, f a = g a) -> array_update f i l = array_update g i l.
Proof. intros Hfg. unfold array_update. case_match; [|done]. by apply list_alter_ext. Qed.

Lemma Forall_array_update (P : A -> Prop) f i l :
  Forall P l -> (forall a, P a -> P (f a)) -> Forall P (array_update f i l).
Proof. intros Hl Hf. unfold array_update. case_match; [|done]. apply Forall_alter; auto. Qed.
End ArrayUpdate.
