(* ===== verification/Prog.v ===== *)
(** Programs on shared state.

    An eBPF program is a finite tree of atomic actions on the state it shares
    with the other programs (the maps and the perf buffers): [Ret a] is a
    finished program and [Act f k] performs the action [f] atomically and
    continues with [k] on its result.  The type is inductive, so every program
    terminates, which is what the kernel's verifier demands of eBPF code.

    One definition of a handler has two readings: [run] executes it alone, and
    [pool_step] interleaves the actions of several programs that run on
    different CPUs. *)
From S2P Require Import Prelude.
From stdpp Require Import relations.
Open Scope Z_scope.
Open Scope bpf_scope.

Inductive prog (S A : Type) : Type :=
| Ret (a : A)
| Act {X : Type} (f : S -> X * S) (k : X -> prog S A).
Arguments Ret {S A} a.
Arguments Act {S A X} f k.

Fixpoint bind {S A B} (p : prog S A) (q : A -> prog S B) : prog S B :=
  match p with
  | Ret a => q a
  | Act f k => Act f (fun x => bind (k x) q)
  end.

Definition act {S X} (f : S -> X * S) : prog S X := Act f Ret.

(** An action that only reads, and one that only writes. *)
Definition get {S X} (f : S -> X) : prog S X := act (fun s => (f s, s)).
Definition put {S} (f : S -> S) : prog S unit := act (fun s => (tt, f s)).

Notation "x <- p ;; q" := (bind p (fun x => q))
  (at level 100, p at next level, right associativity) : bpf_scope.
Notation "p ;;; q" := (bind p (fun _ => q))
  (at level 100, right associativity) : bpf_scope.

(** * Running alone *)

Fixpoint run {S A} (p : prog S A) (s : S) : A * S :=
  match p with
  | Ret a => (a, s)
  | Act f k => let xs := f s in run (k xs.1) xs.2
  end.

Section Run.
Context {S A B : Type}.
Implicit Types (s : S).

Lemma run_bind (p : prog S A) (q : A -> prog S B) s :
  run (bind p q) s = run (q (run p s).1) (run p s).2.
Proof.
  revert s. induction p as [a | X f k IH]; intros s; simpl; [done|]. by rewrite IH.
Qed.

Lemma run_get (f : S -> A) s : run (get f) s = (f s, s).
Proof. done. Qed.

Lemma run_put (f : S -> S) s : run (put f) s = (tt, f s).
Proof. done. Qed.

(** The state predicate [I] is preserved by every action of [p], whatever
    state satisfying [I] the action finds. *)
Fixpoint preserves (I : S -> Prop) (p : prog S A) : Prop :=
  match p with
  | Ret _ => True
  | Act f k => forall s, I s -> I (f s).2 /\ preserves I (k (f s).1)
  end.

Lemma run_preserves (I : S -> Prop) p s : preserves I p -> I s -> I (run p s).2.
Proof.
  revert s. induction p as [a | X f k IH]; intros s H Hs; simpl; [done|].
  destruct (H s Hs). by apply IH.
Qed.
End Run.

(** A sequence of programs, each running to its end before the next. *)
Definition run_all {S A} (ps : list (prog S A)) (s : S) : S :=
  foldl (fun s p => (run p s).2) s ps.

Lemma run_all_invariant {S A} (I : S -> Prop) (ps : list (prog S A)) s :
  (forall p s, p ∈ ps -> I s -> I (run p s).2) -> I s -> I (run_all ps s).
Proof.
  revert s. induction ps as [|p ps IH]; intros s H Hs; simpl; [done|].
  apply IH; [|by apply H; [left|]]. intros q s' Hq. apply H. by right.
Qed.

(** * Interleaving *)

(** The next action of a program. *)
Definition step1 {S A} (p : prog S A) (s : S) : option (prog S A * S) :=
  match p with
  | Ret _ => None
  | Act f k => let xs := f s in Some (k xs.1, xs.2)
  end.

Section Pool.
Context {S A : Type}.
Implicit Types (p : prog S A) (ps : list (prog S A)) (s : S).

(** One program of the pool performs its next action. *)
Inductive pool_step : relation (list (prog S A) * S) :=
| PoolStep ps i p p' s s' :
    ps !! i = Some p -> step1 p s = Some (p', s') ->
    pool_step (ps, s) (<[i := p']> ps, s').

Definition finished p : Prop := match p with Ret _ => True | Act _ _ => False end.

(** Some interleaving runs every program of the pool to its end. *)
Definition pool_runs ps s s' : Prop :=
  exists qs, rtc pool_step (ps, s) (qs, s') /\ Forall finished qs.

(** An execution of the pool by an explicit schedule: at each turn the named
    program performs one action (a turn of a finished program is skipped). *)
Fixpoint run_schedule (sched : list nat) ps s : list (prog S A) * S :=
  match sched with
  | [] => (ps, s)
  | i :: sched =>
      match ps !! i ≫= fun p => step1 p s with
      | Some (p', s') => run_schedule sched (<[i := p']> ps) s'
      | None => run_schedule sched ps s
      end
  end.

Lemma run_schedule_steps sched ps s :
  rtc pool_step (ps, s) (run_schedule sched ps s).
Proof.
  revert ps s. induction sched as [|i sched IH]; intros ps s; simpl; [done|].
  destruct (ps !! i) as [p|] eqn:Hi; simpl; [|apply IH].
  destruct (step1 p s) as [[p' s']|] eqn:Hp; [|apply IH].
  eapply rtc_l; [by eapply PoolStep|]. apply IH.
Qed.

Lemma run_schedule_pool_runs sched ps s :
  Forall finished (run_schedule sched ps s).1 ->
  pool_runs ps s (run_schedule sched ps s).2.
Proof.
  intros Hf. exists (run_schedule sched ps s).1. split; [|done].
  rewrite <- surjective_pairing. apply run_schedule_steps.
Qed.

(** Running the programs one after the other is one of the interleavings. *)
Lemma run_pool_steps ps i p s :
  ps !! i = Some p ->
  rtc pool_step (ps, s) (<[i := Ret (run p s).1]> ps, (run p s).2).
Proof.
  revert ps s. induction p as [a | X f k IH]; intros ps s Hi; simpl.
  - rewrite list_insert_id by done. done.
  - eapply rtc_l; [by eapply PoolStep|].
    rewrite <- (list_insert_insert_eq ps i (Ret _) (k (f s).1)). apply IH.
    apply list_lookup_insert_eq. by eapply lookup_lt_Some.
Qed.

(** [adds I c m p n]: from any state satisfying [I], whatever the other
    programs do in between while keeping [I], the actions of [p] keep [I] and
    change the measure [c] by [n] in total, modulo [m]. *)
Fixpoint adds (I : S -> Prop) (c : S -> Z) (m : Z) p (n : Z) : Prop :=
  match p with
  | Ret _ => n = 0
  | Act f k => exists d, forall s, I s ->
      I (f s).2 /\ c (f s).2 mod m = (c s + d) mod m /\ adds I c m (k (f s).1) (n - d)
  end.

Lemma adds_step1 I c m p n s p' s' :
  step1 p s = Some (p', s') -> adds I c m p n -> I s ->
  I s' /\ exists d, c s' mod m = (c s + d) mod m /\ adds I c m p' (n - d).
Proof.
  destruct p as [a | X f k]; intros [= <- <-] [d Hd] Hs.
  destruct (Hd s Hs) as (? & ? & ?). eauto.
Qed.

Lemma adds_pool_step I c m ps s ps' s' ns :
  pool_step (ps, s) (ps', s') -> I s -> Forall2 (adds I c m) ps ns ->
  exists ns', I s' /\ Forall2 (adds I c m) ps' ns' /\
    (c s' + sumZ id ns') mod m = (c s + sumZ id ns) mod m.
Proof.
  inversion 1 as [? i p p' ? ? Hi Hp]; subst. intros Hs Hns.
  destruct (Forall2_lookup_l _ _ _ _ _ Hns Hi) as (n & Hn & Ha).
  destruct (adds_step1 _ _ _ _ _ _ _ _ Hp Ha Hs) as (Hs' & d & Hd & Ha').
  exists (<[i := n - d]> ns). split; [done|]. split; [by apply Forall2_insert|].
  rewrite (sumZ_insert _ _ _ n) by done. unfold id.
  rewrite Zplus_mod, Hd, <- Zplus_mod. f_equal. lia.
Qed.

Lemma adds_finished I c m ps ns :
  Forall2 (adds I c m) ps ns -> Forall finished ps -> sumZ id ns = 0.
Proof.
  induction 1 as [|p n ps ns Hp _ IH]; intros Hf; [done|].
  apply Forall_cons in Hf as [Hf Hfs]. destruct p; simpl in Hp; [|done]. subst.
  rewrite sumZ_cons, IH by done. done.
Qed.

(** However the programs interleave, their contributions add up. *)
Lemma pool_runs_adds I c m ps s s' ns :
  pool_runs ps s s' -> I s -> Forall2 (adds I c m) ps ns ->
  I s' /\ c s' mod m = (c s + sumZ id ns) mod m.
Proof.
  intros (qs & Hsteps & Hf) Hs Hns.
  remember (ps, s) as x eqn:Hx. remember (qs, s') as y eqn:Hy.
  revert ps s ns Hx Hs Hns.
  induction Hsteps as [x | x [ps1 s1] y Hstep _ IH]; intros ps s ns Hx Hs Hns; simplify_eq.
  - rewrite (adds_finished _ _ _ _ _ Hns) by done. split; [done|]. f_equal. lia.
  - destruct (adds_pool_step _ _ _ _ _ _ _ _ Hstep Hs Hns) as (ns' & Hs1 & Hns' & Hc).
    destruct (IH eq_refl ps1 s1 ns' eq_refl Hs1 Hns') as [? ->]. by rewrite Hc.
Qed.

(** A state predicate every action of every program keeps. *)
Lemma pool_steps_invariant (I : S -> Prop) ps s qs s' :
  rtc pool_step (ps, s) (qs, s') -> Forall (preserves I) ps -> I s -> I s'.
Proof.
  intros Hsteps Hps Hs.
  remember (ps, s) as x eqn:Hx. remember (qs, s') as y eqn:Hy.
  revert ps s Hx Hps Hs.
  induction Hsteps as [x | x [ps1 s1] y Hstep _ IH]; intros ps s Hx Hps Hs; simplify_eq; [done|].
  inversion Hstep as [? i p p' ? ? Hi Hp]; subst.
  pose proof (Forall_lookup_1 _ _ _ _ Hps Hi) as Hpi.
  destruct p as [a | X f k]; simplify_eq/=. destruct (Hpi s Hs) as [HI Hk].
  eapply IH; [done | done | | done]. by apply Forall_insert.
Qed.
End Pool.

Section Adds.
Context {S : Type} (I : S -> Prop) (c : S -> Z) (m : Z).

Lemma adds_ret {A} (a : A) : adds I c m (Ret a) 0.
Proof. done. Qed.

Lemma adds_bind {A B} (p : prog S A) (q : A -> prog S B) n1 n2 :
  adds I c m p n1 -> (forall a, adds I c m (q a) n2) -> adds I c m (bind p q) (n1 + n2).
Proof.
  revert n1. induction p as [a | X f k IH]; intros n1 Hp Hq; cbn in *.
  - subst n1. apply Hq.
  - destruct Hp as [d Hd]. exists d. intros s Hs. destruct (Hd s Hs) as (? & ? & ?).
    split_and!; [done..|]. replace (n1 + n2 - d) with (n1 - d + n2) by lia. by apply IH.
Qed.

(** The continuation needs to be considered only for the results that occur. *)
Lemma adds_get_bind {A B} (f : S -> A) (q : A -> prog S B) n :
  (forall s, I s -> adds I c m (q (f s)) n) -> adds I c m (bind (get f) q) n.
Proof.
  intros H. exists 0. intros s Hs. cbn. rewrite Z.add_0_r, Z.sub_0_r. auto.
Qed.

Lemma adds_get {A} (f : S -> A) : adds I c m (get f) 0.
Proof. exists 0. intros s Hs. by rewrite Z.add_0_r. Qed.

Lemma adds_act {A} (f : S -> A * S) d :
  (forall s, I s -> I (f s).2 /\ c (f s).2 mod m = (c s + d) mod m) ->
  adds I c m (act f) d.
Proof.
  intros H. exists d. intros s Hs. destruct (H s Hs). split_and!; [done..|]. cbn. lia.
Qed.

Lemma adds_put (g : S -> S) d :
  (forall s, I s -> I (g s) /\ c (g s) mod m = (c s + d) mod m) ->
  adds I c m (put g) d.
Proof. intros H. by apply adds_act. Qed.

Lemma adds_if {A} (b : bool) (p q : prog S A) n :
  adds I c m p n -> adds I c m q n -> adds I c m (if b then p else q) n.
Proof. by destruct b. Qed.

Lemma adds_eq {A} (p : prog S A) n n' : adds I c m p n -> n = n' -> adds I c m p n'.
Proof. by intros ? <-. Qed.
End Adds.
