(* ===== verification/BpfMap.v ===== *)
(** The eBPF maps, as an interface.

    The kernel's map implementation is not part of this repository: [BpfMaps]
    names the operations the programs call and [BpfMapsLaws] states the helper
    behaviour documented in headers/bpf/bpf_helper_defs.h that they rely on.
    Every component is developed against the interface; [gmap_maps] shows that
    it can be implemented, and the witnesses run on it.

    The second half gives the programs' view: map helpers, accesses through the
    pointer a lookup returned, and perf-buffer output, as atomic actions. *)
From S2P Require Import Prelude Prog.
Open Scope Z_scope.
Open Scope bpf_scope.

(** headers/common.h, the flags of bpf_map_update_elem *)
Definition BPF_ANY : Z := 0.
Definition BPF_NOEXIST : Z := 1.
Definition BPF_EXIST : Z := 2.

Definition EEXIST : Z := 17.

(** [bm_store m k f] is a write through the pointer [bm_lookup m k] returned. *)
Class BpfMaps := {
  bmap (K : Type) `{Countable K} (V : Type) : Type;
  bm_create {K} `{Countable K} {V} (max_entries : nat) : bmap K V;
  bm_max {K} `{Countable K} {V} (m : bmap K V) : nat;
  bm_lookup {K} `{Countable K} {V} (m : bmap K V) (k : K) : option V;
  bm_update {K} `{Countable K} {V} (m : bmap K V) (k : K) (v : V) (flags : Z) : Z * bmap K V;
  bm_delete {K} `{Countable K} {V} (m : bmap K V) (k : K) : Z * bmap K V;
  bm_store {K} `{Countable K} {V} (m : bmap K V) (k : K) (f : V -> V) : bmap K V;
  bm_dom {K} `{Countable K} {V} (m : bmap K V) : gset K
}.

Class BpfMapsLaws (BM : BpfMaps) : Prop := {
  bm_lookup_create {K} `{Countable K} {V} n (k : K) :
    bm_lookup (bm_create (V := V) n) k = None;
  bm_elem_of_dom {K} `{Countable K} {V} (m : bmap K V) k :
    k ∈ bm_dom m <-> is_Some (bm_lookup m k);
  (** "Return: 0 on success, or a negative error in case of failure." *)
  bm_update_ok {K} `{Countable K} {V} (m : bmap K V) k v flags k' :
    (bm_update m k v flags).1 = 0 ->
    bm_lookup (bm_update m k v flags).2 k' =
      if decide (k = k') then Some v else bm_lookup m k';
  bm_update_err {K} `{Countable K} {V} (m : bmap K V) k v flags :
    (bm_update m k v flags).1 <> 0 -> (bm_update m k v flags).2 = m;
  (** "BPF_NOEXIST: The entry for key must not exist in the map." *)
  bm_update_noexist {K} `{Countable K} {V} (m : bmap K V) k v :
    is_Some (bm_lookup m k) -> (bm_update m k v BPF_NOEXIST).1 = - EEXIST;
  (** "BPF_ANY: No condition on the existence of the entry for key." *)
  bm_update_any {K} `{Countable K} {V} (m : bmap K V) k v :
    is_Some (bm_lookup m k) -> (bm_update m k v BPF_ANY).1 = 0;
  (** A new entry is accepted exactly while the map has fewer than
      [max_entries] of them. *)
  bm_update_room {K} `{Countable K} {V} (m : bmap K V) k v flags :
    flags = BPF_ANY \/ flags = BPF_NOEXIST -> bm_lookup m k = None ->
    (bm_update m k v flags).1 = 0 <-> (size (bm_dom m) < bm_max m)%nat;
  bm_lookup_delete {K} `{Countable K} {V} (m : bmap K V) k k' :
    bm_lookup (bm_delete m k).2 k' = if decide (k = k') then None else bm_lookup m k';
  bm_lookup_store {K} `{Countable K} {V} (m : bmap K V) k f k' :
    bm_lookup (bm_store m k f) k' =
      if decide (k = k') then f <$> bm_lookup m k' else bm_lookup m k';
  bm_max_create {K} `{Countable K} {V} n : bm_max (bm_create (K := K) (V := V) n) = n;
  bm_max_update {K} `{Countable K} {V} (m : bmap K V) k v flags :
    bm_max (bm_update m k v flags).2 = bm_max m;
  bm_max_delete {K} `{Countable K} {V} (m : bmap K V) k :
    bm_max (bm_delete m k).2 = bm_max m;
  bm_max_store {K} `{Countable K} {V} (m : bmap K V) k f :
    bm_max (bm_store m k f) = bm_max m
}.

(** * Consequences of the laws *)

Section Laws.
Context {BM : BpfMaps} {BL : BpfMapsLaws BM}.
Context {K : Type} `{Countable K} {V : Type}.
Implicit Types (m : bmap K V) (k : K) (v : V).

Lemma bm_update_ok_eq m k v fl :
  (bm_update m k v fl).1 = 0 -> bm_lookup (bm_update m k v fl).2 k = Some v.
Proof. intros E. rewrite bm_update_ok by done. by rewrite decide_True. Qed.

Lemma bm_update_ne m k v fl k' :
  k <> k' -> bm_lookup (bm_update m k v fl).2 k' = bm_lookup m k'.
Proof.
  intros Hne. destruct (decide ((bm_update m k v fl).1 = 0)).
  - rewrite bm_update_ok by done. by rewrite decide_False.
  - by rewrite bm_update_err.
Qed.

(** An update either has taken effect or has left the map alone. *)
Lemma bm_update_cases m k v fl k' :
  bm_lookup (bm_update m k v fl).2 k' =
    if decide (k = k' /\ (bm_update m k v fl).1 = 0) then Some v else bm_lookup m k'.
Proof.
  destruct (decide ((bm_update m k v fl).1 = 0)).
  - rewrite bm_update_ok by done. repeat case_decide; naive_solver.
  - rewrite bm_update_err by done. case_decide; naive_solver.
Qed.

Lemma bm_store_eq m k f : bm_lookup (bm_store m k f) k = f <$> bm_lookup m k.
Proof. rewrite bm_lookup_store. by rewrite decide_True. Qed.

Lemma bm_store_ne m k f k' :
  k <> k' -> bm_lookup (bm_store m k f) k' = bm_lookup m k'.
Proof. intros. rewrite bm_lookup_store. by rewrite decide_False. Qed.

Lemma bm_delete_eq m k : bm_lookup (bm_delete m k).2 k = None.
Proof. rewrite bm_lookup_delete. by rewrite decide_True. Qed.

Lemma bm_delete_ne m k k' :
  k <> k' -> bm_lookup (bm_delete m k).2 k' = bm_lookup m k'.
Proof. intros. rewrite bm_lookup_delete. by rewrite decide_False. Qed.

(** Two maps with the same lookups.  It is coarser than equality: the
    interface does not say how an implementation stores its elements. *)
#[export] Instance bmap_equiv : Equiv (bmap K V) :=
  fun m1 m2 => forall k, bm_lookup m1 k = bm_lookup m2 k.

#[export] Instance bmap_equivalence : Equivalence (≡@{bmap K V}).
Proof.
  split; [by intros m k | by intros m1 m2 E k; rewrite E|].
  intros m1 m2 m3 E1 E2 k. by rewrite E1, E2.
Qed.

#[export] Instance bm_lookup_proper : Proper ((≡) ==> eq ==> eq) (bm_lookup (K := K) (V := V)).
Proof. intros m1 m2 Hm k ? <-. apply Hm. Qed.

#[export] Instance bm_store_proper :
  Proper ((≡) ==> eq ==> eq ==> (≡)) (bm_store (K := K) (V := V)).
Proof. intros m1 m2 Hm k ? <- f ? <- k'. by rewrite !bm_lookup_store, (Hm k'). Qed.

#[export] Instance bm_dom_proper : Proper ((≡) ==> eq) (bm_dom (K := K) (V := V)).
Proof.
  intros m1 m2 Hm. apply leibniz_equiv. intros k. by rewrite !bm_elem_of_dom, (Hm k).
Qed.

(** Stores through the same pointer compose; through different ones commute. *)
Lemma bm_store_store m k f g :
  bm_store (bm_store m k f) k g ≡ bm_store m k (g ∘ f).
Proof.
  intros k'. rewrite !bm_lookup_store. case_decide; [|done].
  by rewrite option_fmap_compose.
Qed.

Lemma bm_store_comm m k1 k2 f g :
  k1 <> k2 -> bm_store (bm_store m k1 f) k2 g ≡ bm_store (bm_store m k2 g) k1 f.
Proof. intros Hne k'. rewrite !bm_lookup_store. repeat case_decide; simplify_eq; done. Qed.

Lemma bm_dom_create n : bm_dom (bm_create (K := K) (V := V) n) = ∅.
Proof.
  apply leibniz_equiv. intros k. rewrite bm_elem_of_dom, bm_lookup_create.
  split; [by intros [] | set_solver].
Qed.

Lemma bm_dom_store m k f : bm_dom (bm_store m k f) = bm_dom m.
Proof.
  apply leibniz_equiv. intros k'. rewrite !bm_elem_of_dom, bm_lookup_store.
  case_decide; [|done]. by rewrite fmap_is_Some.
Qed.

Lemma bm_dom_update m k v fl :
  (bm_update m k v fl).1 = 0 -> bm_dom (bm_update m k v fl).2 = {[k]} ∪ bm_dom m.
Proof.
  intros E. apply leibniz_equiv. intros k'.
  rewrite elem_of_union, elem_of_singleton, !bm_elem_of_dom, bm_update_ok by done.
  case_decide; naive_solver.
Qed.

Lemma bm_dom_delete m k : bm_dom (bm_delete m k).2 = bm_dom m ∖ {[k]}.
Proof.
  apply leibniz_equiv. intros k'.
  rewrite elem_of_difference, elem_of_singleton, !bm_elem_of_dom, bm_lookup_delete.
  case_decide; split; rewrite ?is_Some_alt; naive_solver.
Qed.
End Laws.

Create Rewrite HintDb bmap.
#[export] Hint Rewrite @bm_store_eq @bm_delete_eq @bm_dom_store @bm_max_update
  @bm_max_delete @bm_max_store using typeclasses eauto : bmap.
#[export] Hint Rewrite @bm_store_ne @bm_delete_ne @bm_update_ne
  using first [typeclasses eauto | congruence] : bmap.

(** * Keys that find room *)

#[local] Arguments Nat.ltb : simpl never.

Section Admission.
Context {K : Type} `{Countable K}.
Implicit Types (D : gset K) (k : K) (ks : list K).

(** The keys among [ks] that a map of [n] entries has room for, first come first
    served, when it holds those of [D] already. *)
Fixpoint admitted (n : nat) (D : gset K) (ks : list K)
    : gset K :=
  match ks with
  | [] => D
  | k :: ks =>
      admitted n (if decide (k ∈ D) then D
                  else if (size D <? n)%nat then {[k]} ∪ D else D) ks
  end.

Lemma admitted_snoc n D ks k :
  admitted n D (ks ++ [k]) =
    let A := admitted n D ks in
    if decide (k ∈ A) then A else if (size A <? n)%nat then {[k]} ∪ A else A.
Proof. revert D. induction ks as [|k' ks IH]; intros D; [done|]. apply IH. Qed.

(** The set only grows, and a key that occurred is missing only if it is full. *)
Lemma admitted_subseteq n D ks : D ⊆ admitted n D ks.
Proof.
  revert D. induction ks as [|k ks IH]; intros D; [done|]. cbn.
  etrans; [|apply IH]. repeat case_match; set_solver.
Qed.

Lemma admitted_full n D ks k :
  k ∈ ks -> k ∉ admitted n D ks -> (n <= size (admitted n D ks))%nat.
Proof.
  revert D. induction ks as [|k' ks IH]; intros D Hin Hout; [by apply elem_of_nil in Hin|].
  cbn in *. apply elem_of_cons in Hin as [<- | Hin]; [|by apply IH]. revert Hout.
  pose proof (admitted_subseteq n D ks) as Hsub.
  case_decide as HD; [intros Hout; contradict Hout; by apply Hsub|].
  destruct (size D <? n)%nat eqn:Hn; intros Hout.
  - contradict Hout. apply admitted_subseteq. set_solver.
  - apply Nat.ltb_ge in Hn. apply subseteq_size in Hsub. lia.
Qed.

Lemma admitted_all n D ks :
  (size (D ∪ list_to_set ks) <= n)%nat -> admitted n D ks = D ∪ list_to_set ks.
Proof.
  revert D. induction ks as [|k ks IH]; intros D Hs; cbn in *; [set_solver|].
  case_decide as Hk; [rewrite IH; [set_solver|]; by replace (D ∪ list_to_set ks)
    with (D ∪ ({[k]} ∪ list_to_set ks)) by set_solver|].
  replace (D ∪ ({[k]} ∪ list_to_set ks)) with ({[k]} ∪ D ∪ list_to_set ks) in * by set_solver.
  rewrite (proj2 (Nat.ltb_lt _ _)); [by apply IH|].
  assert (Hsub : {[k]} ∪ D ⊆ {[k]} ∪ D ∪ list_to_set ks) by set_solver.
  apply subseteq_size in Hsub. rewrite size_union, size_singleton in Hsub by set_solver. lia.
Qed.

Lemma admitted_elem n D ks k : k ∈ admitted n D ks -> k ∈ D \/ k ∈ ks.
Proof.
  revert D. induction ks as [|k' ks IH]; intros D Hk; [by left|].
  apply IH in Hk as [Hk | Hk]; [|set_solver]. repeat case_match; set_solver.
Qed.
End Admission.

(** * An implementation of the interface *)

Record cmap (K : Type) `{Countable K} (V : Type) := CMap {
  cm_max : nat;
  cm_map : gmap K V
}.
Arguments CMap {K _ _ V} _ _.
Arguments cm_max {K _ _ V} _.
Arguments cm_map {K _ _ V} _.

Section CMap.
Context {K : Type} `{Countable K} {V : Type}.

Definition cm_update (m : cmap K V) (k : K) (v : V) (flags : Z) : Z * cmap K V :=
  match cm_map m !! k with
  | Some _ =>
      if flags =? BPF_NOEXIST then (- EEXIST, m)
      else (0, CMap (cm_max m) (<[k := v]> (cm_map m)))
  | None =>
      if flags =? BPF_EXIST then (-2, m)
      else if (size (cm_map m) <? cm_max m)%nat
      then (0, CMap (cm_max m) (<[k := v]> (cm_map m)))
      else (-7, m)
  end.
End CMap.

#[export] Instance gmap_maps : BpfMaps := {
  bmap K _ _ V := cmap K V;
  bm_create _ _ _ _ n := CMap n ∅;
  bm_max _ _ _ _ m := cm_max m;
  bm_lookup _ _ _ _ m k := cm_map m !! k;
  bm_update _ _ _ _ m k v flags := cm_update m k v flags;
  bm_delete _ _ _ _ m k := (0, CMap (cm_max m) (delete k (cm_map m)));
  bm_store _ _ _ _ m k f := CMap (cm_max m) (alter f k (cm_map m));
  bm_dom _ _ _ _ m := dom (cm_map m)
}.

Section CMapLaws.
Context {K : Type} `{Countable K} {V : Type}.
Implicit Types (m : cmap K V) (k : K) (v : V).

(** Whether the update of [k] under [flags] is accepted. *)
Definition cm_accepts m k (flags : Z) : bool :=
  match cm_map m !! k with
  | Some _ => negb (flags =? BPF_NOEXIST)
  | None => negb (flags =? BPF_EXIST) && (size (cm_map m) <? cm_max m)%nat
  end.

Lemma cm_update_accepts m k v flags :
  if cm_accepts m k flags
  then cm_update m k v flags = (0, CMap (cm_max m) (<[k := v]> (cm_map m)))
  else (cm_update m k v flags).1 < 0 /\ (cm_update m k v flags).2 = m.
Proof.
  unfold cm_accepts, cm_update, EEXIST.
  destruct (cm_map m !! k) as [w|]; simpl.
  - by destruct (flags =? BPF_NOEXIST).
  - destruct (flags =? BPF_EXIST); simpl; [done|]. by destruct (_ <? _)%nat.
Qed.

Lemma cm_update_ok m k v flags :
  (cm_update m k v flags).1 = 0 <-> cm_accepts m k flags = true.
Proof.
  pose proof (cm_update_accepts m k v flags) as Ha.
  destruct (cm_accepts m k flags); [by rewrite Ha|].
  destruct Ha as [Ha _]. split; [lia | done].
Qed.
End CMapLaws.

#[export] Instance gmap_maps_laws : BpfMapsLaws gmap_maps.
Proof.
  split; intros K ? HK V; simpl; intros.
  - apply lookup_empty.
  - apply elem_of_dom.
  - pose proof (cm_update_accepts m k v flags) as Ha.
    rewrite (proj1 (cm_update_ok _ _ _ _) H) in Ha. rewrite Ha. apply lookup_insert.
  - pose proof (cm_update_accepts m k v flags) as Ha. rewrite cm_update_ok in H.
    destruct (cm_accepts m k flags); [done|]. apply Ha.
  - unfold cm_update. destruct H as [w ->]. done.
  - apply cm_update_ok. unfold cm_accepts. by destruct H as [w ->].
  - rewrite cm_update_ok, size_dom. unfold cm_accepts. rewrite H0.
    destruct H as [-> | ->]; simpl; apply Nat.ltb_lt.
  - apply lookup_delete.
  - rewrite lookup_alter. by case_decide; subst.
  - done.
  - pose proof (cm_update_accepts m k v flags) as Ha.
    destruct (cm_accepts m k flags); [by rewrite Ha|]. by destruct Ha as [_ ->].
  - done.
  - done.
Qed.

(** * The programs' view *)

(** A component of the shared state: how to read it and how to replace it. *)
Record lens (S M : Type) := Lens { lget : S -> M; lset : M -> S -> S }.
Arguments Lens {S M} _ _.
Arguments lget {S M} _ _.
Arguments lset {S M} _ _ _.

Section Helpers.
Context {BM : BpfMaps} {S : Type} {K : Type} `{Countable K} {V : Type}.
Context (L : lens S (bmap K V)).

(** [p = bpf_map_lookup_elem(&map, &k)]: [None] is NULL, [Some v] a pointer
    to an element that holds [v] now. *)
Definition map_lookup (k : K) : prog S (option V) :=
  get (fun s => bm_lookup (lget L s) k).

(** [err = bpf_map_update_elem(&map, &k, &v, flags)] *)
Definition map_update (k : K) (v : V) (flags : Z) : prog S Z :=
  act (fun s => let em := bm_update (lget L s) k v flags in (em.1, lset L em.2 s)).

(** [err = bpf_map_delete_elem(&map, &k)] *)
Definition map_delete (k : K) : prog S Z :=
  act (fun s => let em := bm_delete (lget L s) k in (em.1, lset L em.2 s)).

(** [p->field], a read through the pointer of element [k].  [v] is what the
    element held when it was looked up: it is what the memory still holds if
    the element was deleted from the map in the meantime. *)
Definition load {X} (k : K) (v : V) (field : V -> X) : prog S X :=
  get (fun s => field (default v (bm_lookup (lget L s) k))).

(** [p->field = ...]: [f] makes the assignment. *)
Definition store (k : K) (f : V -> V) : prog S unit :=
  put (fun s => lset L (bm_store (lget L s) k f) s).

(** [__sync_fetch_and_add(&p->field, d)] whose result is not used: [f] adds
    [d] to the field, in one atomic action. *)
Definition fetch_and_add (k : K) (f : V -> V) : prog S unit := store k f.
End Helpers.

(** [bpf_perf_event_output]: the record is handed to the perf buffer. *)
Definition perf_event_output {S E} (L : lens S (list E)) (e : E) : prog S unit :=
  put (fun s => lset L (lget L s ++ [e]) s).

(** What the helpers that read the current task, clock and CPU return during
    one run of a program.  [stackid flags] is the result of [bpf_get_stackid]
    with these flags: a stack id, or a negative error. *)
Record bpf_env := {
  ktime_ns : Z;
  current_pid_tgid : Z;
  smp_processor_id : Z;
  current_comm : list Z;
  stackid : Z -> Z
}.

(** headers/x86/vmlinux_518.h, the flags of bpf_get_stackid *)
Definition BPF_F_USER_STACK : Z := 256.
Definition BPF_F_FAST_STACK_CMP : Z := 512.

Definition TASK_COMM_LEN : nat := 16.

(** A helper environment as the kernel provides it. *)
Record env_ok (e : bpf_env) : Prop := {
  env_ktime : is_u64 (ktime_ns e);
  env_pid_tgid : is_u64 (current_pid_tgid e);
  env_cpu : is_u32 (smp_processor_id e);
  env_comm : length (current_comm e) = TASK_COMM_LEN
}.

(** * Programs that work on one element

    Most handlers look an element up and then work on it through the pointer.
    [updates L LO k p v a v' evs]: run where element [k] holds [v], the program
    [p] returns [a], leaves [v'] in the element, sends the records [evs] and
    touches nothing else. *)

Class LensOk {S M} (L : lens S M) : Prop := {
  lget_lset m s : lget L (lset L m s) = m;
  lset_lget s : lset L (lget L s) s = s;
  lset_lset m m' s : lset L m (lset L m' s) = lset L m s
}.

Class LensIndep {S M N} (L : lens S M) (L' : lens S N) : Prop := {
  lget_lset_l m s : lget L' (lset L m s) = lget L' s;
  lget_lset_r m s : lget L (lset L' m s) = lget L s;
  lset_comm m m' s : lset L m (lset L' m' s) = lset L' m' (lset L m s)
}.

Ltac solve_lens :=
  split; intros; first [reflexivity | match goal with |- _ = ?s => destruct s; reflexivity end].

Section Updates.
Context {BM : BpfMaps} {BL : BpfMapsLaws BM}.
Context {S K V E : Type} `{Countable K}.
Context (L : lens S (bmap K V)) (LO : lens S (list E)).
Context `{!LensOk L, !LensOk LO, !LensIndep L LO}.

Definition updates {A} (k : K) (p : prog S A) (v : V) (a : A) (v' : V) (evs : list E) : Prop :=
  forall s, bm_lookup (lget L s) k = Some v ->
  exists m', run p s = (a, lset LO (lget LO s ++ evs) (lset L m' s)) /\
    forall k', bm_lookup m' k' = if decide (k = k') then Some v' else bm_lookup (lget L s) k'.

Lemma updates_ret {A} k (a : A) v : updates k (Ret a) v a v [].
Proof.
  intros s Hs. exists (lget L s). rewrite app_nil_r, !lset_lget. split; [done|].
  intros k'. case_decide; by subst.
Qed.

Lemma updates_bind {A B} k (p : prog S A) (q : A -> prog S B) v a v1 e1 b v2 e2 :
  updates k p v a v1 e1 -> updates k (q a) v1 b v2 e2 ->
  updates k (bind p q) v b v2 (e1 ++ e2).
Proof.
  intros Hp Hq s Hs. destruct (Hp s Hs) as (m1 & Hr1 & Hm1).
  set (s1 := lset LO (lget LO s ++ e1) (lset L m1 s)) in *.
  assert (HL : lget L s1 = m1) by (subst s1; by rewrite lget_lset_r, lget_lset).
  assert (HLO : lget LO s1 = lget LO s ++ e1) by (subst s1; by rewrite lget_lset).
  destruct (Hq s1) as (m2 & Hr2 & Hm2).
  { rewrite HL, Hm1. by rewrite decide_True. }
  exists m2. rewrite run_bind, Hr1. cbn. rewrite Hr2, HLO, <- app_assoc.
  split; [|intros k'; rewrite Hm2, HL, Hm1; by case_decide].
  subst s1. by rewrite (lset_comm (L := L) (L' := LO)), !lset_lset.
Qed.

Lemma updates_load {X} k v0 (f : V -> X) v : updates k (load L k v0 f) v (f v) v [].
Proof.
  intros s Hs. exists (lget L s). rewrite app_nil_r, !lset_lget. unfold load.
  rewrite run_get, Hs. split; [done|]. intros k'. case_decide; by subst.
Qed.

Lemma updates_store k f v : updates k (store L k f) v tt (f v) [].
Proof.
  intros s Hs. exists (bm_store (lget L s) k f). unfold store.
  rewrite run_put, app_nil_r, <- (lset_comm (L := L) (L' := LO)), lset_lget. split; [done|].
  intros k'. rewrite bm_lookup_store. case_decide; subst; by rewrite ?Hs.
Qed.

Lemma updates_emit k ev v : updates k (perf_event_output LO ev) v tt v [ev].
Proof.
  intros s Hs. exists (lget L s). unfold perf_event_output.
  rewrite run_put, lset_lget. split; [done|]. intros k'. case_decide; by subst.
Qed.

Lemma updates_assoc {A B C} k (p : prog S A) (q : A -> prog S B) (r : B -> prog S C) v c v' evs :
  updates k (bind p (fun x => bind (q x) r)) v c v' evs ->
  updates k (bind (bind p q) r) v c v' evs.
Proof. intros H0 s Hs. destruct (H0 s Hs) as (m' & Hr & Hm). exists m'. by rewrite !run_bind in *. Qed.

Lemma updates_ret_bind {A B} k (a : A) (q : A -> prog S B) v b v' evs :
  updates k (q a) v b v' evs -> updates k (bind (Ret a) q) v b v' evs.
Proof. done. Qed.

Lemma updates_silent_bind {A B} k (p : prog S A) (q : A -> prog S B) v a v1 b v' evs :
  updates k p v a v1 [] -> updates k (q a) v1 b v' evs -> updates k (bind p q) v b v' evs.
Proof. intros Hp Hq. change evs with ([] ++ evs). by eapply updates_bind. Qed.

Lemma updates_load_bind {X B} k v0 (f : V -> X) (q : X -> prog S B) v b v' evs :
  updates k (q (f v)) v b v' evs -> updates k (bind (load L k v0 f) q) v b v' evs.
Proof. intros Hq. eapply updates_silent_bind; [apply updates_load | done]. Qed.

Lemma updates_store_bind {B} k f (q : unit -> prog S B) v b v' evs :
  updates k (q tt) (f v) b v' evs -> updates k (bind (store L k f) q) v b v' evs.
Proof. intros Hq. eapply updates_silent_bind; [apply updates_store | done]. Qed.

Lemma updates_emit_bind {B} k ev (q : unit -> prog S B) v b v' evs :
  updates k (q tt) v b v' evs ->
  updates k (bind (perf_event_output LO ev) q) v b v' (ev :: evs).
Proof. intros Hq. change (ev :: evs) with ([ev] ++ evs).
  eapply updates_bind; [apply updates_emit | done]. Qed.

Lemma updates_eq {A} k (p : prog S A) v a v' evs a' v'' evs' :
  updates k p v a v' evs -> a = a' -> v' = v'' -> evs = evs' -> updates k p v a' v'' evs'.
Proof. by intros ? -> -> ->. Qed.
End Updates.

(** Follow a program statement by statement, keeping the element's current
    value in normal form; conditionals are split.  The goals left compare the
    computed element and records with the claimed ones. *)
Ltac updates_side :=
  try lazymatch goal with
  | |- LensOk _ => apply _
  | |- LensIndep _ _ => apply _
  | |- BpfMapsLaws _ => apply _
  end.

Ltac updates_cbn :=
  cbn -[updates bind load store fetch_and_add perf_event_output map_lookup map_update].

Ltac updates_step :=
  lazymatch goal with
  | |- updates _ _ _ (bind (bind _ _) _) _ _ _ _ => apply updates_assoc
  | |- updates _ _ _ (bind (load _ _ _ _) _) _ _ _ _ => apply updates_load_bind
  | |- updates _ _ _ (bind (store _ _ _) _) _ _ _ _ => apply updates_store_bind
  | |- updates _ _ _ (bind (fetch_and_add _ _ _) _) _ _ _ _ => apply updates_store_bind
  | |- updates _ _ _ (bind (perf_event_output _ _) _) _ _ _ _ => apply updates_emit_bind
  | |- updates _ _ _ (bind (Ret _) _) _ _ _ _ => apply updates_ret_bind
  | |- updates _ _ _ (bind (if ?c then _ else _) _) _ _ _ _ => let E := fresh "E" in destruct c eqn:E
  | |- updates _ _ _ (if ?c then _ else _) _ _ _ _ => let E := fresh "E" in destruct c eqn:E
  | |- updates _ _ _ (load _ _ _ _) _ _ _ _ => eapply updates_eq; [apply updates_load | ..]
  | |- updates _ _ _ (store _ _ _) _ _ _ _ => eapply updates_eq; [apply updates_store | ..]
  | |- updates _ _ _ (fetch_and_add _ _ _) _ _ _ _ => eapply updates_eq; [apply updates_store | ..]
  | |- updates _ _ _ (perf_event_output _ _) _ _ _ _ => eapply updates_eq; [apply updates_emit | ..]
  | |- updates _ _ _ (Ret _) _ _ _ _ => eapply updates_eq; [apply updates_ret | ..]
  end; updates_side; updates_cbn; rewrite ?Z.eqb_refl.

(** Rewrite with the outcomes of the conditionals met on the way. *)
Ltac use_conds :=
  repeat (cbn; match goal with
    | E : ?b = true |- context [?b] => rewrite E
    | E : ?b = false |- context [?b] => rewrite E
    end).
