(* ===== verification/ProgBounds.v ===== *)
(** Two ways to bound what programs do, whatever they are interleaved with: how far they
    can raise a measure of the state with reads and writes that are not atomic
    ([at_most]), and which values they let into the maps ([typed]). *)
From S2P Require Import Prelude Prog BpfMap.
From stdpp Require Import relations.
Open Scope Z_scope.
Open Scope bpf_scope.

(** * Measures that are raised by separate reads and writes *)

(** [at_most I c p b n]: if the measure [c] is below [b] when [p] starts, and
    whatever the others do to it -- each step of theirs raises the bound that
    holds for [c] by what it may add -- the steps of [p] raise that bound by no
    more than [n] in total.  The writes of [p] may depend on what it read while a
    lower bound held: unlike [adds] this allows lost updates. *)
Fixpoint at_most {S A} (I : S -> Prop) (c : S -> Z) (p : prog S A) (b n : Z) : Prop :=
  match p with
  | Ret _ => 0 <= n
  | Act f k => forall b' s, b <= b' -> I s -> c s <= b' ->
      exists d, 0 <= d /\ I (f s).2 /\ c (f s).2 <= b' + d /\ at_most I c (k (f s).1) (b' + d) (n - d)
  end.

Section AtMost.
Context {S : Type} (I : S -> Prop) (c : S -> Z).

Lemma at_most_mono {A} (p : prog S A) b b' n : at_most I c p b n -> b <= b' -> at_most I c p b' n.
Proof.
  destruct p as [a | X f k]; [done|]. cbn. intros Hp Hb b1 s Hb1. apply Hp. lia.
Qed.

Lemma at_most_le {A} (p : prog S A) b n m : at_most I c p b n -> n <= m -> at_most I c p b m.
Proof.
  revert b n m. induction p as [a | X f k IH]; intros b n m Hp Hle; cbn in *; [lia|].
  intros b' s Hb Hs Hc. destruct (Hp b' s Hb Hs Hc) as (d & ? & ? & ? & ?).
  exists d. split_and!; [done..|]. eapply IH; [done | lia].
Qed.

Lemma at_most_ret {A} (a : A) b : at_most I c (Ret a) b 0.
Proof. done. Qed.

(** A read: what it returns is below a bound that still holds afterwards. *)
Lemma at_most_get {X A} (f : S -> X) (q : X -> prog S A) b n :
  (forall b' s, b <= b' -> I s -> c s <= b' -> at_most I c (q (f s)) b' n) ->
  at_most I c (bind (get f) q) b n.
Proof.
  intros Hq b' s Hb Hs Hc. exists 0. cbn. rewrite Z.add_0_r, Z.sub_0_r. auto with lia.
Qed.

Lemma at_most_act {X A} (f : S -> X * S) (q : X -> prog S A) b n d :
  0 <= d ->
  (forall b' s, b <= b' -> I s -> c s <= b' ->
    I (f s).2 /\ c (f s).2 <= b' + d /\ at_most I c (q (f s).1) (b' + d) n) ->
  at_most I c (bind (act f) q) b (n + d).
Proof.
  intros Hd Hf b' s Hb Hs Hc. destruct (Hf b' s Hb Hs Hc) as (? & ? & ?). exists d. cbn.
  replace (n + d - d) with n by lia. auto.
Qed.

Lemma at_most_put {A} (g : S -> S) (q : unit -> prog S A) b n d :
  0 <= d ->
  (forall b' s, b <= b' -> I s -> c s <= b' -> I (g s) /\ c (g s) <= b' + d) ->
  at_most I c (q tt) b n -> at_most I c (bind (put g) q) b (n + d).
Proof.
  intros Hd Hg Hq. apply at_most_act; [done|]. intros b' s Hb Hs Hc.
  destruct (Hg b' s Hb Hs Hc). split_and!; [done..|]. eapply at_most_mono; [done | lia].
Qed.

Lemma at_most_bind_ret {A B} (p : prog S A) (a : B) b n :
  at_most I c p b n -> at_most I c (bind p (fun _ => Ret a)) b n.
Proof.
  revert b n. induction p as [x | X f k IH]; intros b n Hp; [done|]. intros b' s Hb Hs Hc.
  destruct (Hp b' s Hb Hs Hc) as (d & ? & ? & ? & ?). exists d. auto.
Qed.

Lemma at_most_step {A} (p p' : prog S A) b n s s' :
  step1 p s = Some (p', s') -> at_most I c p b n -> I s -> c s <= b ->
  exists d, 0 <= d /\ I s' /\ c s' <= b + d /\ at_most I c p' (b + d) (n - d).
Proof. destruct p as [a | X f k]; intros [= <- <-] Hp Hs Hc. by apply Hp. Qed.

Lemma at_most_finished {A} (ps : list (prog S A)) ns b :
  Forall2 (fun p n => at_most I c p b n) ps ns -> Forall finished ps -> 0 <= sumZ id ns.
Proof.
  induction 1 as [|p n ps ns Hp _ IH]; intros Hf; [done|].
  apply Forall_cons in Hf as [Hf Hfs]. destruct p; [|done]. cbn in Hp.
  specialize (IH Hfs). rewrite sumZ_cons. change (id n) with n. lia.
Qed.

(** However the programs interleave, the measure ends below the sum. *)
Lemma pool_runs_at_most {A} (ps : list (prog S A)) s s' b ns :
  pool_runs ps s s' -> I s -> c s <= b ->
  Forall2 (fun p n => at_most I c p b n) ps ns -> I s' /\ c s' <= b + sumZ id ns.
Proof.
  intros (qs & Hsteps & Hf) Hs Hc Hns.
  remember (ps, s) as x eqn:Hx. remember (qs, s') as y eqn:Hy.
  revert ps s b ns Hx Hs Hc Hns.
  induction Hsteps as [x | x [ps1 s1] y Hstep _ IH]; intros ps s b ns Hx Hs Hc Hns; simplify_eq.
  - pose proof (at_most_finished _ _ _ Hns Hf). split; [done | lia].
  - inversion Hstep as [? i p p' ? ? Hi Hp]; subst.
    destruct (Forall2_lookup_l _ _ _ _ _ Hns Hi) as (n & Hn & Ha).
    destruct (at_most_step _ _ _ _ _ _ Hp Ha Hs Hc) as (d & Hd & Hs1 & Hc1 & Ha1).
    destruct (IH eq_refl _ _ (b + d) (<[i := n - d]> ns) eq_refl Hs1 Hc1) as [HI Hle].
    + apply Forall2_insert; [|done]. eapply Forall2_impl; [exact Hns|].
      intros q m Hq. eapply at_most_mono; [exact Hq | lia].
    + split; [done|]. rewrite (sumZ_insert _ _ _ n) in Hle by done. unfold id in *. lia.
Qed.
End AtMost.

(** * Values in the maps *)

(** [typed I p Q]: in any state satisfying [I] every action of [p] keeps [I], and
    the result satisfies [Q]. *)
Fixpoint typed {S A} (I : S -> Prop) (p : prog S A) (Q : A -> Prop) : Prop :=
  match p with
  | Ret a => Q a
  | Act f k => forall s, I s -> I (f s).2 /\ typed I (k (f s).1) Q
  end.

(** [I] says that the elements of a map satisfy [P] ... *)
Class MapTyped {BM : BpfMaps} {S K V} `{Countable K} (I : S -> Prop) (L : lens S (bmap K V))
    (P : K -> V -> Prop) : Prop := {
  map_typed_get s k v : I s -> bm_lookup (lget L s) k = Some v -> P k v;
  map_typed_set s m : I s -> (forall k v, bm_lookup m k = Some v -> P k v) -> I (lset L m s)
}.

(** ... and that the records of a buffer satisfy [P]. *)
Class BufTyped {S E} (I : S -> Prop) (L : lens S (list E)) (P : E -> Prop) : Prop := {
  buf_typed_emit s e : I s -> P e -> I (lset L (lget L s ++ [e]) s)
}.

Section Typed.
Context {S : Type} (I : S -> Prop).

Lemma typed_preserves {A} (p : prog S A) Q : typed I p Q -> preserves I p.
Proof.
  induction p as [a | X f k IH]; [done|]. cbn. intros Hp s Hs.
  destruct (Hp s Hs) as [? ?]. split; [done | by apply IH].
Qed.

Lemma typed_bind {A B} (p : prog S A) (q : A -> prog S B) R Q :
  typed I p R -> (forall a, R a -> typed I (q a) Q) -> typed I (bind p q) Q.
Proof.
  induction p as [a | X f k IH]; cbn; [auto|]. intros Hp Hq s Hs.
  destruct (Hp s Hs) as [? ?]. split; [done | by apply IH].
Qed.

Lemma typed_weaken {A} (p : prog S A) (R Q : A -> Prop) :
  typed I p R -> (forall a, R a -> Q a) -> typed I p Q.
Proof.
  induction p as [a | X f k IH]; cbn; [auto|]. intros Hp HQ s Hs.
  destruct (Hp s Hs) as [? ?]. split; [done | by apply IH].
Qed.

Lemma typed_get {X} (f : S -> X) (Q : X -> Prop) :
  (forall s, I s -> Q (f s)) -> typed I (get f) Q.
Proof. intros HQ s Hs. cbn. auto. Qed.

Section Maps.
Context {BM : BpfMaps} {BL : BpfMapsLaws BM} {K V : Type} `{Countable K}.
Context (L : lens S (bmap K V)) (P : K -> V -> Prop) `{!MapTyped I L P}.

Lemma typed_lookup k : typed I (map_lookup L k) (fun o => forall v, o = Some v -> P k v).
Proof. apply typed_get. intros s Hs v Hv. by eapply map_typed_get. Qed.

Lemma typed_update k v flags : P k v -> typed I (map_update L k v flags) (fun _ => True).
Proof.
  intros Hv s Hs. cbn. split; [|done]. apply map_typed_set; [done|]. intros k' v' Hl.
  rewrite bm_update_cases in Hl. case_decide as Hd; [destruct Hd; by simplify_eq|].
  by eapply map_typed_get.
Qed.

Lemma typed_delete k : typed I (map_delete L k) (fun _ => True).
Proof.
  intros s Hs. cbn. split; [|done]. apply map_typed_set; [done|]. intros k' v' Hl.
  rewrite bm_lookup_delete in Hl. case_decide; [done|]. by eapply map_typed_get.
Qed.

Lemma typed_load {X} k v0 (f : V -> X) :
  P k v0 -> typed I (load L k v0 f) (fun x => exists v, P k v /\ x = f v).
Proof.
  intros Hv. apply typed_get. intros s Hs. eexists. split; [|reflexivity].
  destruct (bm_lookup (lget L s) k) eqn:E; [by eapply map_typed_get | done].
Qed.

Lemma typed_store k f : (forall v, P k v -> P k (f v)) -> typed I (store L k f) (fun _ => True).
Proof.
  intros Hf s Hs. cbn. split; [|done]. apply map_typed_set; [done|]. intros k' v' Hl.
  rewrite bm_lookup_store in Hl. case_decide; subst; [|by eapply map_typed_get].
  apply fmap_Some in Hl as (v & Hv & ->). apply Hf. by eapply map_typed_get.
Qed.
End Maps.

Lemma typed_output {E} (L : lens S (list E)) (P : E -> Prop) `{!BufTyped I L P} e :
  P e -> typed I (perf_event_output L e) (fun _ => True).
Proof. intros He s Hs. cbn. split; [by apply buf_typed_emit | done]. Qed.

(** Whatever the interleaving and however far it has come. *)
Lemma typed_pool_steps {A} (ps : list (prog S A)) s qs s' :
  rtc pool_step (ps, s) (qs, s') -> Forall (fun p => typed I p (fun _ => True)) ps ->
  I s -> I s'.
Proof.
  intros Hrun Hps. eapply pool_steps_invariant; [exact Hrun|].
  eapply Forall_impl; [exact Hps|]. intros p. apply typed_preserves.
Qed.
End Typed.

(** Follow a program; what is left are the types of the values that are written
    and sent. *)
Create HintDb typed discriminated.
Ltac typed_side :=
  try match goal with
  | |- MapTyped _ _ _ => apply _
  | |- BufTyped _ _ _ => apply _
  | |- BpfMapsLaws _ => apply _
  end.
Ltac typed_step :=
  lazymatch goal with
  | |- typed _ (bind (Ret _) _) _ => cbn [bind]
  | |- typed _ (bind _ _) _ => eapply typed_bind; [| intros ? ?; cbv beta in *]
  | |- typed _ (Ret _) _ => cbn [typed]
  | |- typed _ (get _) _ => apply (typed_get _ _ (fun _ => True)); done
  | |- typed _ (map_lookup _ _) ?Q =>
      first
        [is_evar Q; eapply typed_lookup; typed_side
        |eapply typed_weaken; [eapply typed_lookup; typed_side | intros ? ?; cbv beta in *]]
  | |- typed _ (map_update _ _ _ _) _ => eapply typed_update; typed_side
  | |- typed _ (map_delete _ _) _ => eapply typed_delete; typed_side
  | |- typed _ (load _ _ _ _) _ => eapply typed_load; typed_side
  | |- typed _ (store _ _ _) _ => eapply typed_store; typed_side; intros ? ?
  | |- typed _ (fetch_and_add _ _ _) _ => eapply typed_store; typed_side; intros ? ?
  | |- typed _ (perf_event_output _ _) _ => eapply typed_output; typed_side
  | |- typed _ (let x := _ in _) _ => cbv zeta
  | |- typed _ (if ?b then _ else _) _ => let E := fresh "E" in destruct b eqn:E
  | |- typed _ (match ?o with Some _ => _ | None => _ end) _ => let E := fresh "E" in destruct o eqn:E
  | |- typed _ _ _ => solve [eauto 2 with typed]
  end; cbv beta.

(** A call of the function [f], whose type is the lemma [H]. *)
Ltac typed_head p := lazymatch p with ?g _ => typed_head g | _ => p end.
Ltac typed_call f H :=
  lazymatch goal with
  | |- typed _ ?p _ => let g := typed_head p in constr_eq g f; eapply H
  end.
