(* ===== verification/Compose.v ===== *)
(** Programs of one component as programs of a machine that runs several: [lift L p] is the
    program [p] on the part [L] of a larger state, and keeps what [p] keeps. *)
From S2P Require Import Prelude Prog BpfMap ProgBounds.
From stdpp Require Import relations.
Open Scope Z_scope.
Open Scope bpf_scope.

Fixpoint lift {S T A} (L : lens S T) (p : prog T A) : prog S A :=
  match p with
  | Ret a => Ret a
  | Act f k => Act (fun s => let xt := f (lget L s) in (xt.1, lset L xt.2 s)) (fun x => lift L (k x))
  end.

Section Lift.
Context {S T : Type} (L : lens S T).

Lemma typed_lift {A} (J : S -> Prop) (I : T -> Prop) (p : prog T A) Q :
  (forall s, J s -> I (lget L s)) -> (forall s t, J s -> I t -> J (lset L t s)) ->
  typed I p Q -> typed J (lift L p) Q.
Proof.
  intros Hget Hset. induction p as [a | X f k IH]; cbn; [done|]. intros Hp s Hs.
  destruct (Hp (lget L s) (Hget s Hs)) as [? ?]. auto.
Qed.

End Lift.
