(* ===== verification/Owned.v ===== *)
(** Programs that each own a part of the shared state.

    Every CPU has elements of its own in the per-CPU maps.  [owns i p v Q]: the
    program [p] of CPU [i], whose part of the state is [v], keeps the invariant
    [I] of the shared part and the invariant [J i] of its own part with every
    action, leaves the parts of the other CPUs alone, and ends with a result and
    a part that satisfy [Q] -- whatever the other programs do to the shared part in
    between.  Owners can be interleaved freely. *)
From S2P Require Import Prelude Prog BpfMap.
From stdpp Require Import relations.
Open Scope Z_scope.
Open Scope bpf_scope.

Section Owned.
Context {S V : Type} (I : S -> Prop) (view : nat -> S -> V) (J : nat -> V -> Prop).
Implicit Types (s : S) (v : V) (i j : nat).

(** An action of CPU [i] may take the state [s] to [s']. *)
Definition guarantee i s s' : Prop :=
  I s' /\ J i (view i s') /\ forall j, j <> i -> view j s' = view j s.

Fixpoint owns {A} i (p : prog S A) v (Q : A -> V -> Prop) : Prop :=
  match p with
  | Ret a => Q a v
  | Act f k => forall s, I s -> J i v -> view i s = v ->
      guarantee i s (f s).2 /\ owns i (k (f s).1) (view i (f s).2) Q
  end.

Lemma owns_bind {A B} i (p : prog S A) (q : A -> prog S B) v R Q :
  owns i p v R -> (forall a w, R a w -> owns i (q a) w Q) -> owns i (bind p q) v Q.
Proof.
  revert v. induction p as [a | X f k IH]; intros v Hp Hq; cbn in *; [by apply Hq|].
  intros s Hs HJ Hv. destruct (Hp s Hs HJ Hv) as [? ?]. split; [done | by apply IH].
Qed.

Lemma owns_weaken {A} i (p : prog S A) v (R Q : A -> V -> Prop) :
  owns i p v R -> (forall a w, R a w -> Q a w) -> owns i p v Q.
Proof.
  revert v. induction p as [a | X f k IH]; intros v Hp HQ; cbn in *; [auto|].
  intros s Hs HJ Hv. destruct (Hp s Hs HJ Hv) as [? ?]. split; [done | by apply IH].
Qed.

(** A read: it finds the own part as it was left, and some shared part. *)
Lemma owns_get {X} i (f : S -> X) v (Q : X -> V -> Prop) :
  (forall s, I s -> view i s = v -> Q (f s) v) -> owns i (get f) v Q.
Proof. intros HQ s Hs HJ Hv. subst v. cbn. split; [done | by apply HQ]. Qed.

(** An action that changes the own part by [g]. *)
Lemma owns_act {X} i (f : S -> X * S) v (g : V -> V) (Q : X -> V -> Prop) :
  (forall s, I s -> view i s = v -> I (f s).2 /\ view i (f s).2 = g v /\
    (forall j, j <> i -> view j (f s).2 = view j s) /\ Q (f s).1 (g v)) ->
  (J i v -> J i (g v)) -> owns i (act f) v Q.
Proof.
  intros Hf HJ s Hs Hi Hv. destruct (Hf s Hs Hv) as (? & Hg & ? & ?).
  unfold guarantee. cbn. rewrite Hg. auto.
Qed.

(** * Interleaving owners *)

Section Pool.
Context {A : Type} (Q : nat -> A -> V -> Prop).
Implicit Types (ps : list (prog S A)).

Definition owned_pool ps s : Prop :=
  I s /\ forall i p, ps !! i = Some p -> J i (view i s) /\ owns i p (view i s) (Q i).

Lemma owned_pool_step ps s ps' s' :
  pool_step (ps, s) (ps', s') -> owned_pool ps s -> owned_pool ps' s'.
Proof.
  inversion 1 as [? i p p' ? ? Hi Hp]; subst. intros [Hs Hps].
  destruct p as [a | X f k]; [done|]. cbn in Hp. injection Hp as <- <-.
  destruct (Hps i _ Hi) as [HJ Ho]. destruct (Ho s Hs HJ eq_refl) as [(HI' & HJ' & Hj) Hk].
  split; [done|]. intros j q Hq. destruct (decide (i = j)) as [<- | Hne].
  - rewrite list_lookup_insert_eq in Hq by by eapply lookup_lt_Some. by injection Hq as <-.
  - rewrite list_lookup_insert_ne in Hq by done. rewrite Hj by done. by apply Hps.
Qed.

Lemma owned_pool_steps ps s ps' s' :
  rtc pool_step (ps, s) (ps', s') -> owned_pool ps s -> owned_pool ps' s'.
Proof.
  intros Hrun. remember (ps, s) as x eqn:Hx. remember (ps', s') as y eqn:Hy.
  revert ps s Hx. induction Hrun as [x | x [ps1 s1] y Hstep _ IH]; intros ps s Hx; simplify_eq;
    [done|].
  intros Hps. apply (IH eq_refl ps1 s1 eq_refl). by eapply owned_pool_step.
Qed.

(** A program that has come to its end ends as it promised. *)
Lemma owned_pool_finished ps s i a :
  owned_pool ps s -> ps !! i = Some (Ret a) -> Q i a (view i s).
Proof. intros [_ Hps] Hi. by destruct (Hps i _ Hi). Qed.
End Pool.
End Owned.
