(* ===== verification/Bits.v ===== *)
(** Integer logarithms: pkg/ebpf/cpu/futexsnoop/bits.bpf.h.

    [log2] and [log2l] find the position of the most significant bit by binary
    search; they compute [Z.log2] on every [u32] and [u64]. *)
From S2P Require Import Prelude.
Open Scope Z_scope.

(** [u64 log2(u32 v)]: in C, a comparison is the [int] 0 or 1. *)
Definition log2 (v : Z) : Z :=
  let r := Z.shiftl (Z.b2z (0xFFFF <? v)) 4 in
  let v := Z.shiftr v r in
  let shift := Z.shiftl (Z.b2z (0xFF <? v)) 3 in
  let v := Z.shiftr v shift in
  let r := Z.lor r shift in
  let shift := Z.shiftl (Z.b2z (0xF <? v)) 2 in
  let v := Z.shiftr v shift in
  let r := Z.lor r shift in
  let shift := Z.shiftl (Z.b2z (0x3 <? v)) 1 in
  let v := Z.shiftr v shift in
  let r := Z.lor r shift in
  Z.lor r (Z.shiftr v 1).

(** [u64 log2l(u64 v)] *)
Definition log2l (v : Z) : Z :=
  let hi := u32 (Z.shiftr v 32) in
  if nz hi then log2 hi + 32 else log2 (u32 v).

(** One halving: a value below [2^(2k)] loses its low [k] bits if it has
    others, and the logarithm accounts for them. *)
Lemma halve_log2 k (b : bool) v :
  0 < k -> b = (2 ^ k - 1 <? v) -> 0 <= v < 2 ^ (2 * k) ->
  let v' := Z.shiftr v (if b then k else 0) in
  0 <= v' < 2 ^ k /\ Z.log2 v = (if b then k else 0) + Z.log2 v'.
Proof.
  intros Hk Hb Hv v'. subst v'. replace (2 * k) with (k + k) in Hv by lia.
  rewrite Z.pow_add_r in Hv by lia. destruct b.
  - symmetry in Hb. apply Z.ltb_lt in Hb.
    assert (k <= Z.log2 v) by (apply Z.log2_le_pow2; lia).
    rewrite Z.log2_shiftr, Z.shiftr_div_pow2 by lia.
    split; [|lia]. split; [apply Z.div_pos; lia|]. apply Z.div_lt_upper_bound; lia.
  - symmetry in Hb. apply Z.ltb_ge in Hb. rewrite Z.shiftr_0_r. lia.
Qed.

Lemma log2_small v : 0 <= v < 4 -> Z.log2 v = Z.shiftr v 1.
Proof.
  intros Hv. assert (v = 0 \/ v = 1 \/ v = 2 \/ v = 3) as [-> | [-> | [-> | ->]]] by lia; done.
Qed.

Lemma shiftr1_bit v : 0 <= v < 4 -> Z.shiftr v 1 = 0 \/ Z.shiftr v 1 = 1.
Proof.
  intros Hv. assert (v = 0 \/ v = 1 \/ v = 2 \/ v = 3) as [-> | [-> | [-> | ->]]] by lia; auto.
Qed.

Lemma shiftl_b2z (b : bool) k : 0 <= k -> Z.shiftl (Z.b2z b) k = if b then 2 ^ k else 0.
Proof. intros Hk. destruct b; simpl; [by rewrite Z.shiftl_1_l | apply Z.shiftl_0_l]. Qed.

Lemma log2_is_log2 v : is_u32 v -> log2 v = Z.log2 v.
Proof.
  intros Hv. unfold log2. cbv zeta. rewrite !shiftl_b2z by lia.
  destruct (halve_log2 16 _ v ltac:(lia) eq_refl Hv) as [Hv1 ->]; clear Hv.
  change (2 ^ 16 - 1) with 0xFFFF in *. change (2 ^ 4) with 16.
  set (v1 := Z.shiftr v _) in *. clearbody v1.
  destruct (halve_log2 8 _ v1 ltac:(lia) eq_refl Hv1) as [Hv2 ->]; clear Hv1.
  change (2 ^ 8 - 1) with 0xFF in *. change (2 ^ 3) with 8.
  set (v2 := Z.shiftr v1 _) in *. clearbody v2.
  destruct (halve_log2 4 _ v2 ltac:(lia) eq_refl Hv2) as [Hv3 ->]; clear Hv2.
  change (2 ^ 4 - 1) with 0xF in *. change (2 ^ 2) with 4.
  set (v3 := Z.shiftr v2 _) in *. clearbody v3.
  destruct (halve_log2 2 _ v3 ltac:(lia) eq_refl Hv3) as [Hv4 ->]; clear Hv3.
  change (2 ^ 2 - 1) with 0x3 in *. change (2 ^ 1) with 2.
  set (v4 := Z.shiftr v3 _) in *. clearbody v4.
  rewrite (log2_small v4) by done.
  destruct (shiftr1_bit v4 Hv4) as [-> | ->]; by repeat case_if.
Qed.

Lemma log2l_is_log2 v : is_u64 v -> log2l v = Z.log2 v.
Proof.
  intros Hv. pose proof (hi32_range v Hv) as Hhi. unfold hi32 in Hhi.
  unfold log2l. cbv zeta. rewrite uN_id by done. unfold nz.
  destruct (Z.eqb_spec (Z.shiftr v 32) 0) as [E | E]; simpl.
  - assert (is_u32 v).
    { destruct Hv. split; [done|]. rewrite Z.shiftr_div_pow2 in E by lia.
      apply Z.div_small_iff in E; lia. }
    rewrite uN_id by done. by apply log2_is_log2.
  - rewrite log2_is_log2 by done.
    destruct Hhi as [? ?]. assert (0 < v) by (destruct (decide (v = 0)); [by subst | destruct Hv; lia]).
    rewrite Z.log2_shiftr by lia.
    assert (32 <= Z.log2 v); [|lia]. apply Z.log2_le_pow2; [lia|].
    destruct (Z.le_gt_cases (2 ^ 32) v); [done|]. exfalso. apply E.
    rewrite Z.shiftr_div_pow2 by lia. apply Z.div_small. lia.
Qed.

Lemma log2l_range v : is_u64 v -> 0 <= log2l v < 64.
Proof.
  intros Hv. rewrite log2l_is_log2 by done. split; [apply Z.log2_nonneg|].
  destruct (decide (v = 0)) as [-> |]; [done|]. apply Z.log2_lt_pow2; destruct Hv; lia.
Qed.
