(* ===== verification/FutexSnoop.v ===== *)
(** The futex snooper: pkg/ebpf/cpu/futexsnoop/futexsnoop.bpf.c and
    futexsnoop.h.

    [futex_enter] and [futex_exit] run at the entry and the exit of the futex
    system call.  [start] remembers when a thread began to wait on which
    address, [lock_map] counts the waiters of every address and [hists_map]
    accumulates the durations of the waits.  A lock with too many waiters and a
    wait that is longer than the average are reported to user space. *)
From S2P Require Import Prelude Prog BpfMap Bits.
Open Scope Z_scope.
Open Scope bpf_scope.

(** * Data *)

Definition MAX_ENTRIES : nat := Z.to_nat 10240.
#[global] Arguments MAX_ENTRIES : simpl never.
Definition MAX_SLOTS : Z := 24.
Definition FUTEX_WAIT : Z := 0.
Definition FUTEX_PRIVATE_FLAG : Z := 128.
Definition FUTEX_CLOCK_REALTIME : Z := 256.
Definition FUTEX_CMD_MASK : Z := Z.lnot (Z.lor FUTEX_PRIVATE_FLAG FUTEX_CLOCK_REALTIME).

Record val_t := { v_ts : Z; v_uaddr : Z }.

Record hist_key := { hk_pid_tgid : Z; hk_uaddr : Z; hk_user_stack_id : Z }.

Record user_args := {
  targ_pid : Z;
  targ_tid : Z;
  targ_lock : Z;
  arg_stack : bool;
  min_dur_ms : Z;
  max_dur_ms : Z;
  max_lock_hold_users : Z
}.

Record hist := {
  slots : list Z;
  h_comm : list Z;
  h_pid_tgid : Z;
  h_uaddr : Z;
  h_user_stack_id : Z;
  h_pad : Z;
  contended : Z;
  total_elapsed : Z;
  min_dur : Z;
  max_dur : Z;
  delta_dur : Z;
  max_dur_ts : Z
}.

Record lock_stat := {
  user_cnt : Z;
  max_user_cnt : Z;
  l_uaddr : Z;
  l_comm : list Z;
  l_pid_tgid : Z;
  l_ts : Z
}.

#[export] Instance eta_hist : Eta hist := fun r => {|
  slots := slots r; h_comm := h_comm r; h_pid_tgid := h_pid_tgid r; h_uaddr := h_uaddr r;
  h_user_stack_id := h_user_stack_id r; h_pad := h_pad r; contended := contended r;
  total_elapsed := total_elapsed r; min_dur := min_dur r; max_dur := max_dur r;
  delta_dur := delta_dur r; max_dur_ts := max_dur_ts r |}.

#[export] Instance eta_lock_stat : Eta lock_stat := fun r => {|
  user_cnt := user_cnt r; max_user_cnt := max_user_cnt r; l_uaddr := l_uaddr r;
  l_comm := l_comm r; l_pid_tgid := l_pid_tgid r; l_ts := l_ts r |}.

#[export] Instance hist_key_eq_dec : EqDecision hist_key.
Proof. solve_decision. Defined.

#[export] Instance hist_key_countable : Countable hist_key.
Proof.
  refine (inj_countable' (fun k => (hk_pid_tgid k, hk_uaddr k, hk_user_stack_id k))
    (fun t => let '(a, b, c) := t in Build_hist_key a b c) _).
  by intros [].
Defined.

(** The records sent through [perf_map]. *)
Inductive fx_event := EvLock (l : lock_stat) | EvHist (h : hist).

Definition zero_comm : list Z := replicate TASK_COMM_LEN 0.

(** [struct hist initial_hist = {}] *)
Definition initial_hist : hist := {|
  slots := replicate (Z.to_nat MAX_SLOTS) 0; h_comm := zero_comm; h_pid_tgid := 0;
  h_uaddr := 0; h_user_stack_id := 0; h_pad := 0; contended := 0; total_elapsed := 0;
  min_dur := 0; max_dur := 0; delta_dur := 0; max_dur_ts := 0 |}.

(** [lock_init] after [lock_init.uaddr = uaddr] *)
Definition lock_init (uaddr : Z) : lock_stat := {|
  user_cnt := 1; max_user_cnt := 1; l_uaddr := uaddr; l_comm := zero_comm;
  l_pid_tgid := 0; l_ts := 0 |}.

(** The arguments of the tracepoints. *)
Record sys_enter_futex := { enter_args0 : Z; enter_args1 : Z }.
Record sys_exit_futex := { exit_ret : Z }.

Section FutexSnoop.
Context {BM : BpfMaps}.
(** Whether [__TARGET_ARCH_amd64] is defined; the Makefile defines
    [__TARGET_ARCH_x86] or [__TARGET_ARCH_arm64]. *)
Context (target_arch_amd64 : bool).

(** The maps.  [args_map] is what a lookup of its entry 0 returns. *)
Record fx_state := {
  start : bmap Z val_t;
  args_map : option user_args;
  lock_map : bmap Z lock_stat;
  hists_map : bmap hist_key hist;
  perf_map : list fx_event
}.

#[export] Instance eta_fx_state : Eta fx_state := fun r => {|
  start := start r; args_map := args_map r; lock_map := lock_map r;
  hists_map := hists_map r; perf_map := perf_map r |}.

Definition fx_init (args : option user_args) : fx_state := {|
  start := bm_create MAX_ENTRIES; args_map := args; lock_map := bm_create MAX_ENTRIES;
  hists_map := bm_create MAX_ENTRIES; perf_map := [] |}.

Definition l_start : lens fx_state (bmap Z val_t) :=
  Lens start (fun m s => s <| start := m |>).
Definition l_lock : lens fx_state (bmap Z lock_stat) :=
  Lens lock_map (fun m s => s <| lock_map := m |>).
Definition l_hists : lens fx_state (bmap hist_key hist) :=
  Lens hists_map (fun m s => s <| hists_map := m |>).
Definition l_perf : lens fx_state (list fx_event) :=
  Lens perf_map (fun m s => s <| perf_map := m |>).

(** [bpf_map_lookup_or_try_init] *)
Definition bpf_map_lookup_or_try_init {K} `{Countable K} {V}
    (L : lens fx_state (bmap K V)) (key : K) (init : V) : prog fx_state (option V) :=
  val <- map_lookup L key ;;
  match val with
  | Some v => Ret (Some v)
  | None =>
      err <- map_update L key init BPF_NOEXIST ;;
      if nz err && negb (err =? - EEXIST) then Ret None else map_lookup L key
  end.

(** The filters of [futex_enter] on the configured task and lock. *)
Definition enter_filter (args : user_args) (pid tid uaddr : Z) : bool :=
  negb (nz (targ_pid args) && negb (targ_pid args =? pid)) &&
  negb (nz (targ_tid args) && negb (targ_tid args =? tid)) &&
  negb (nz (targ_lock args) && negb (targ_lock args =? uaddr)).

(** The lock is known: one more user, and an event if there are too many. *)
Definition enter_known_lock (args : user_args) (pid_tgid : Z) (v : val_t)
    (l0 : lock_stat) (e : bpf_env) : prog fx_state unit :=
  let k := v_uaddr v in
  fetch_and_add l_lock k (fun l => l <| user_cnt := u32 (user_cnt l + 1) |>) ;;;
  (cnt <- load l_lock k l0 user_cnt ;;
   max <- load l_lock k l0 max_user_cnt ;;
   if max <? cnt then
     (cnt <- load l_lock k l0 user_cnt ;;
      store l_lock k (fun l => l <| max_user_cnt := cnt |>))
   else Ret tt) ;;;
  max <- load l_lock k l0 max_user_cnt ;;
  if max_lock_hold_users args <? max then
    event <- load l_lock k l0 id ;;
    perf_event_output l_perf (EvLock (event <| l_pid_tgid := pid_tgid |>
      <| l_ts := v_ts v |> <| l_comm := current_comm e |>))
  else Ret tt.

(** [futex_enter], at tracepoint/syscalls/sys_enter_futex *)
Definition futex_enter (ctx : sys_enter_futex) (e : bpf_env) : prog fx_state Z :=
  if negb (Z.land (s32 (enter_args1 ctx)) FUTEX_CMD_MASK =? FUTEX_WAIT) then Ret 0 else
  let v := {| v_uaddr := enter_args0 ctx; v_ts := ktime_ns e |} in
  args <- get args_map ;;
  match args with
  | None => Ret 0
  | Some args =>
      let pid_tgid := current_pid_tgid e in
      let tid := lo32 pid_tgid in
      let pid := hi32 pid_tgid in
      if negb (enter_filter args pid tid (v_uaddr v)) then Ret 0 else
      map_update l_start pid_tgid v BPF_ANY ;;;
      lock <- map_lookup l_lock (v_uaddr v) ;;
      match lock with
      | Some l0 => enter_known_lock args pid_tgid v l0 e ;;; Ret 0
      | None =>
          map_update l_lock (v_uaddr v) (lock_init (v_uaddr v)) BPF_ANY ;;;
          Ret 0
      end
  end.

(** The histogram slot of a duration in microseconds. *)
Definition slot_of (delta : Z) : Z :=
  let slot := log2l (u64 delta) in
  if MAX_SLOTS <=? slot then MAX_SLOTS - 1 else slot.

(** Minimum and maximum, with atomic operations ([__TARGET_ARCH_amd64]). *)
Definition update_min_max_atomic (k : hist_key) (h0 : hist) (delta ts : Z)
    : prog fx_state unit :=
  min <- load l_hists k h0 min_dur ;;
  (if (min =? 0) || (u64 delta <? min) then
     store l_hists k (fun h => if min_dur h =? min then h <| min_dur := u64 delta |> else h)
   else Ret tt) ;;;
  max <- load l_hists k h0 max_dur ;;
  if max <? u64 delta then
    store l_hists k (fun h => if max_dur h =? max then h <| max_dur := u64 delta |> else h) ;;;
    store l_hists k (fun h => h <| max_dur_ts := ts |>)
  else Ret tt.

(** Minimum and maximum, the other branch of the [#ifdef]. *)
Definition update_min_max_plain (k : hist_key) (h0 : hist) (delta ts : Z)
    : prog fx_state unit :=
  min <- load l_hists k h0 min_dur ;;
  (if (min =? 0) || (u64 delta <? min) then
     store l_hists k (fun h => h <| min_dur := u64 delta |>)
   else Ret tt) ;;;
  max <- load l_hists k h0 max_dur ;;
  if max <? u64 delta then
    store l_hists k (fun h => h <| max_dur := max |>) ;;;
    store l_hists k (fun h => h <| max_dur_ts := ts |>)
  else Ret tt.

(** The part of [futex_exit] that works on the histogram [histp]. *)
Definition exit_record (args : user_args) (hkey : hist_key) (h0 : hist) (delta ts : Z)
    (e : bpf_env) : prog fx_state unit :=
  (* delta /= 1000U *)
  let delta := Z.quot delta 1000 in
  let slot := slot_of delta in
  fetch_and_add l_hists hkey (fun h =>
    h <| slots := array_update (fun c => u32 (c + 1)) (Z.to_nat slot) (slots h) |>) ;;;
  fetch_and_add l_hists hkey (fun h => h <| contended := u64 (contended h + 1) |>) ;;;
  fetch_and_add l_hists hkey (fun h => h <| total_elapsed := u64 (total_elapsed h + delta) |>) ;;;
  (if target_arch_amd64 then update_min_max_atomic hkey h0 delta ts
   else update_min_max_plain hkey h0 delta ts) ;;;
  total <- load l_hists hkey h0 total_elapsed ;;
  cont <- load l_hists hkey h0 contended ;;
  let avg := total / cont in
  store l_hists hkey (fun h => h <| h_comm := current_comm e |>) ;;;
  if (min_dur_ms args <? delta) && (delta <? max_dur_ms args) && (avg <? u64 delta) then
    store l_hists hkey (fun h => h <| h_uaddr := hk_uaddr hkey |>) ;;;
    store l_hists hkey (fun h => h <| h_pid_tgid := hk_pid_tgid hkey |>) ;;;
    store l_hists hkey (fun h => h <| h_user_stack_id := hk_user_stack_id hkey |>) ;;;
    store l_hists hkey (fun h => h <| delta_dur := u64 delta |>) ;;;
    event <- load l_hists hkey h0 id ;;
    perf_event_output l_perf (EvHist event)
  else Ret tt.

(** [cleanup:] *)
Definition exit_cleanup (pid_tgid : Z) : prog fx_state Z :=
  map_delete l_start pid_tgid ;;; Ret 0.

(** The lock has one user less. *)
Definition exit_unlock (uaddr : Z) : prog fx_state unit :=
  lock <- map_lookup l_lock uaddr ;;
  match lock with
  | Some _ => fetch_and_add l_lock uaddr (fun l => l <| user_cnt := u32 (user_cnt l + -1) |>)
  | None => Ret tt
  end.

(** The rest of [futex_exit]: the duration of a successful wait is accounted. *)
Definition exit_account (ctx : sys_exit_futex) (v0 : val_t) (e : bpf_env) : prog fx_state Z :=
  let ts := ktime_ns e in
  let pid_tgid := current_pid_tgid e in
  if s32 (exit_ret ctx) <? 0 then exit_cleanup pid_tgid else
  vts <- load l_start pid_tgid v0 v_ts ;;
  let delta := s64 (ts - vts) in
  if delta <? 0 then exit_cleanup pid_tgid else
  uaddr <- load l_start pid_tgid v0 v_uaddr ;;
  args <- get args_map ;;
  match args with
  | None => Ret 0
  | Some args =>
      let hkey := {| hk_pid_tgid := pid_tgid; hk_uaddr := uaddr;
        hk_user_stack_id :=
          if arg_stack args then s32 (stackid e BPF_F_USER_STACK) else 0 |} in
      histp <- bpf_map_lookup_or_try_init l_hists hkey initial_hist ;;
      match histp with
      | None => exit_cleanup pid_tgid
      | Some h0 => exit_record args hkey h0 delta ts e ;;; exit_cleanup pid_tgid
      end
  end.

(** [futex_exit], at tracepoint/syscalls/sys_exit_futex *)
Definition futex_exit (ctx : sys_exit_futex) (e : bpf_env) : prog fx_state Z :=
  vp <- map_lookup l_start (current_pid_tgid e) ;;
  match vp with
  | None => Ret 0
  | Some v0 =>
      uaddr <- load l_start (current_pid_tgid e) v0 v_uaddr ;;
      exit_unlock uaddr ;;;
      exit_account ctx v0 e
  end.
End FutexSnoop.
