(* ===== verification/FutexSnoopSpec.v ===== *)
(** What the futex snooper does: properties of [FutexSnoop]. *)
From S2P Require Import Prelude Prog BpfMap Bits FutexSnoop.
Open Scope Z_scope.
Open Scope bpf_scope.

(** * Reference behaviour on one lock and on one histogram *)

(** One more user of a lock. *)
Definition bump (l : lock_stat) : lock_stat :=
  let c := u32 (user_cnt l + 1) in
  l <| user_cnt := c |> <| max_user_cnt := if max_user_cnt l <? c then c else max_user_cnt l |>.

(** One user less. *)
Definition unbump (l : lock_stat) : lock_stat := l <| user_cnt := u32 (user_cnt l - 1) |>.

(** The minimum after a wait of [d] microseconds: 0 stands for "none yet". *)
Definition next_min (m d : Z) : Z := if (m =? 0) || (d <? m) then d else m.

(** The maximum after a wait of [d] microseconds: it is only written back on the
    architecture whose branch stores the new value. *)
Definition next_max (amd : bool) (m d : Z) : Z := if amd && (m <? d) then d else m.

(** The histogram after a wait of [d] microseconds that ended at [ts]. *)
Definition add_wait (amd : bool) (d ts : Z) (comm : list Z) (h : hist) : hist :=
  {| slots := array_update (fun c => u32 (c + 1)) (Z.to_nat (slot_of d)) (slots h);
     contended := u64 (contended h + 1);
     total_elapsed := u64 (total_elapsed h + d);
     min_dur := next_min (min_dur h) (u64 d);
     max_dur := next_max amd (max_dur h) (u64 d);
     max_dur_ts := if max_dur h <? u64 d then ts else max_dur_ts h;
     h_comm := comm;
     h_pid_tgid := h_pid_tgid h; h_uaddr := h_uaddr h;
     h_user_stack_id := h_user_stack_id h; h_pad := h_pad h; delta_dur := delta_dur h |}.

(** Whether a wait of [d] microseconds that gave the histogram [h] is reported. *)
Definition reports (args : user_args) (d : Z) (h : hist) : bool :=
  (min_dur_ms args <? d) && (d <? max_dur_ms args) &&
  (total_elapsed h / contended h <? u64 d).

(** The fields filled in for a report. *)
Definition report (hkey : hist_key) (d : Z) (h : hist) : hist :=
  h <| h_uaddr := hk_uaddr hkey |> <| h_pid_tgid := hk_pid_tgid hkey |>
    <| h_user_stack_id := hk_user_stack_id hkey |> <| delta_dur := u64 d |>.

Definition add_wait_report amd args hkey d ts comm h : hist :=
  let h' := add_wait amd d ts comm h in
  if reports args d h' then report hkey d h' else h'.

Lemma reports_report args hkey d h : reports args d (report hkey d h) = reports args d h.
Proof. done. Qed.

(** Whether a futex call of [pid_tgid] is traced. *)
Definition enter_traces (args : user_args) (ctx : sys_enter_futex) (pid_tgid : Z) : bool :=
  (Z.land (s32 (enter_args1 ctx)) FUTEX_CMD_MASK =? FUTEX_WAIT) &&
  enter_filter args (hi32 pid_tgid) (lo32 pid_tgid) (enter_args0 ctx).

(** * The handlers, run alone *)

#[local] Arguments enter_known_lock {BM} : simpl never.
#[local] Arguments exit_record {BM} : simpl never.
#[local] Arguments exit_unlock {BM} : simpl never.
#[local] Arguments exit_account {BM} : simpl never.
#[local] Arguments bpf_map_lookup_or_try_init {BM K _ _ V} : simpl never.

Section Runs.
Context {BM : BpfMaps} {BL : BpfMapsLaws BM}.

#[export] Instance l_start_ok : LensOk l_start.
Proof. solve_lens. Qed.
#[export] Instance l_lock_ok : LensOk l_lock.
Proof. solve_lens. Qed.
#[export] Instance l_hists_ok : LensOk l_hists.
Proof. solve_lens. Qed.
#[export] Instance l_perf_ok : LensOk l_perf.
Proof. solve_lens. Qed.
#[export] Instance l_lock_perf : LensIndep l_lock l_perf.
Proof. solve_lens. Qed.
#[export] Instance l_hists_perf : LensIndep l_hists l_perf.
Proof. solve_lens. Qed.

(** An event for a lock with too many users. *)
Definition lock_events (args : user_args) (pt ts : Z) (comm : list Z) (l : lock_stat)
    : list fx_event :=
  if max_lock_hold_users args <? max_user_cnt l
  then [EvLock (l <| l_pid_tgid := pt |> <| l_ts := ts |> <| l_comm := comm |>)]
  else [].

Lemma enter_known_lock_updates args pt v l0 e l :
  updates l_lock l_perf (v_uaddr v) (enter_known_lock args pt v l0 e) l tt (bump l)
    (lock_events args pt (v_ts v) (current_comm e) (bump l)).
Proof.
  unfold enter_known_lock, lock_events, bump. cbv zeta. repeat updates_step.
  all: use_conds; first [done | by destruct l].
Qed.

Lemma update_min_max_updates (amd : bool) (k : hist_key) (h0 : hist) (d ts : Z) (h : hist) :
  updates l_hists l_perf k
    (if amd then update_min_max_atomic k h0 d ts else update_min_max_plain k h0 d ts) h tt
    (h <| min_dur := next_min (min_dur h) (u64 d) |>
       <| max_dur := next_max amd (max_dur h) (u64 d) |>
       <| max_dur_ts := if max_dur h <? u64 d then ts else max_dur_ts h |>) [].
Proof.
  unfold next_min, next_max, update_min_max_atomic, update_min_max_plain.
  destruct amd; repeat updates_step. all: use_conds; first [done | by destruct h].
Qed.

Lemma exit_record_updates amd args hkey h0 d0 ts e h :
  let d := Z.quot d0 1000 in
  let h' := add_wait_report amd args hkey d ts (current_comm e) h in
  updates l_hists l_perf hkey (exit_record amd args hkey h0 d0 ts e) h tt h'
    (if reports args d h' then [EvHist h'] else []).
Proof.
  intros d h'. unfold exit_record. cbv zeta. fold d.
  do 3 updates_step.
  eapply updates_silent_bind; updates_side; [apply update_min_max_updates|]. updates_cbn.
  repeat updates_step; try done.
  all: match type of E with _ = ?b =>
    change (reports args d (add_wait amd d ts (current_comm e) h) = b) in E end.
  all: subst h'; unfold add_wait_report; cbv zeta; rewrite E; try done.
  all: rewrite ?reports_report, E; done.
Qed.

(** A call that is not traced changes nothing. *)
Lemma futex_enter_skips ctx e s :
  (forall args, args_map s = Some args -> enter_traces args ctx (current_pid_tgid e) = false) ->
  run (futex_enter ctx e) s = (0, s).
Proof.
  unfold futex_enter, enter_traces. intros H.
  destruct (_ =? FUTEX_WAIT); [|done]. cbn.
  destruct (args_map s) as [args|]; [|done]. cbn.
  specialize (H args eq_refl). cbn in H. by rewrite H.
Qed.

Lemma futex_enter_run args ctx e s :
  args_map s = Some args -> enter_traces args ctx (current_pid_tgid e) = true ->
  let pt := current_pid_tgid e in
  let ua := enter_args0 ctx in
  let s' := (run (futex_enter ctx e) s).2 in
  start s' = (bm_update (start s) pt {| v_ts := ktime_ns e; v_uaddr := ua |} BPF_ANY).2 /\
  args_map s' = args_map s /\ hists_map s' = hists_map s /\
  (forall k, bm_lookup (lock_map s') k =
    match bm_lookup (lock_map s) ua with
    | Some l => if decide (ua = k) then Some (bump l) else bm_lookup (lock_map s) k
    | None => bm_lookup (bm_update (lock_map s) ua (lock_init ua) BPF_ANY).2 k
    end) /\
  perf_map s' = perf_map s ++
    match bm_lookup (lock_map s) ua with
    | Some l => lock_events args pt (ktime_ns e) (current_comm e) (bump l)
    | None => []
    end.
Proof.
  intros Ha Ht. apply andb_true_iff in Ht as [Hw Hf].
  unfold futex_enter. rewrite Hw. cbn. rewrite Ha, Hf. cbn.
  destruct (bm_lookup (lock_map s) (enter_args0 ctx)) as [l|] eqn:Hl.
  - rewrite run_bind.
    match goal with |- context [run (enter_known_lock ?a ?pt ?v ?l0 ?e) ?st] =>
      destruct (enter_known_lock_updates a pt v l0 e l st Hl) as (m & -> & Hm) end.
    done.
  - cbn. by rewrite app_nil_r.
Qed.

(** The histogram [bpf_map_lookup_or_try_init] finds or creates. *)
Definition wait_hist (m : bmap hist_key hist) (k : hist_key) : option hist :=
  match bm_lookup m k with
  | Some h => Some h
  | None => if decide ((bm_update m k initial_hist BPF_NOEXIST).1 = 0)
            then Some initial_hist else None
  end.

Lemma lookup_or_try_init_run k s :
  let r := run (bpf_map_lookup_or_try_init l_hists k initial_hist) s in
  r.1 = wait_hist (hists_map s) k /\
  exists m, r.2 = lset l_hists m s /\
    (forall k', k <> k' -> bm_lookup m k' = bm_lookup (hists_map s) k') /\
    bm_lookup m k = wait_hist (hists_map s) k.
Proof.
  unfold bpf_map_lookup_or_try_init, wait_hist. cbn.
  destruct (bm_lookup (hists_map s) k) as [h|] eqn:Hk; cbn.
  - split; [done|]. exists (hists_map s). split; [by destruct s|]. by rewrite Hk.
  - set (em := bm_update (hists_map s) k initial_hist BPF_NOEXIST).
    assert (Hlk : bm_lookup em.2 k = if decide (em.1 = 0) then Some initial_hist else None).
    { subst em. rewrite bm_update_cases. repeat case_decide; naive_solver. }
    assert (Hne : forall k', k <> k' -> bm_lookup em.2 k' = bm_lookup (hists_map s) k').
    { intros k' ?. by apply bm_update_ne. }
    unfold nz. destruct (Z.eqb_spec em.1 0) as [E | E]; cbn.
    + rewrite Hlk. split; [done|]. by exists em.2.
    + rewrite decide_False in * by done.
      destruct (Z.eqb_spec em.1 (- EEXIST)); cbn; rewrite ?Hlk; (split; [done|]; by exists em.2).
Qed.

(** The duration in nanoseconds of a successful wait. *)
Definition exit_duration (ctx : sys_exit_futex) (e : bpf_env) (v : val_t) : option Z :=
  if s32 (exit_ret ctx) <? 0 then None
  else let d := s64 (ktime_ns e - v_ts v) in if d <? 0 then None else Some d.

Definition exit_key (args : user_args) (e : bpf_env) (v : val_t) : hist_key :=
  {| hk_pid_tgid := current_pid_tgid e; hk_uaddr := v_uaddr v;
     hk_user_stack_id := if arg_stack args then s32 (stackid e BPF_F_USER_STACK) else 0 |}.

(** What a call of [futex_exit] accounts: the histogram's key, the duration in
    microseconds and the histogram so far. *)
Definition exit_wait (args : user_args) (ctx : sys_exit_futex) (e : bpf_env)
    (v : val_t) (m : bmap hist_key hist) : option (hist_key * Z * hist) :=
  match exit_duration ctx e v, wait_hist m (exit_key args e v) with
  | Some d, Some h => Some (exit_key args e v, Z.quot d 1000, h)
  | _, _ => None
  end.

(** Without a recorded start the exit is ignored. *)
Lemma futex_exit_skips amd ctx e s :
  bm_lookup (start s) (current_pid_tgid e) = None ->
  run (futex_exit amd ctx e) s = (0, s).
Proof. intros Hv. unfold futex_exit. cbn. by rewrite Hv. Qed.

Lemma exit_unlock_run ua s :
  exists m, (run (exit_unlock ua) s).2 = lset l_lock m s /\
    forall k, bm_lookup m k =
      if decide (ua = k) then unbump <$> bm_lookup (lock_map s) k
      else bm_lookup (lock_map s) k.
Proof.
  unfold exit_unlock. cbn. destruct (bm_lookup (lock_map s) ua) as [l|] eqn:Hl; cbn.
  - eexists. split; [done|]. intros k. rewrite bm_lookup_store. by case_decide.
  - exists (lock_map s). split; [by destruct s|]. intros k.
    case_decide; subst; by rewrite ?Hl.
Qed.

Lemma exit_account_run amd args ctx e v s :
  args_map s = Some args -> bm_lookup (start s) (current_pid_tgid e) = Some v ->
  let s' := (run (exit_account amd ctx v e) s).2 in
  start s' = (bm_delete (start s) (current_pid_tgid e)).2 /\
  args_map s' = args_map s /\ lock_map s' = lock_map s /\
  match exit_wait args ctx e v (hists_map s) with
  | Some (hkey, d, h) =>
      let h' := add_wait_report amd args hkey d (ktime_ns e) (current_comm e) h in
      (forall k, bm_lookup (hists_map s') k =
        if decide (hkey = k) then Some h' else bm_lookup (hists_map s) k) /\
      perf_map s' = perf_map s ++ if reports args d h' then [EvHist h'] else []
  | None =>
      (forall k, bm_lookup (hists_map s') k = bm_lookup (hists_map s) k) /\
      perf_map s' = perf_map s
  end.
Proof.
  intros Ha Hv. unfold exit_account, exit_wait, exit_duration.
  destruct (s32 (exit_ret ctx) <? 0) eqn:Hret; [done|]. cbn. rewrite Hv. cbn.
  destruct (s64 (ktime_ns e - v_ts v) <? 0) eqn:Hd; [done|]. cbn. rewrite Hv, Ha. cbn.
  fold (exit_key args e v). rewrite run_bind.
  destruct (lookup_or_try_init_run (exit_key args e v) s) as (-> & m & -> & Hne & Heq).
  destruct (wait_hist (hists_map s) (exit_key args e v)) as [h|] eqn:Hw.
  - rewrite run_bind.
    match goal with |- context [run (exit_record ?am ?a ?k ?h0 ?d0 ?ts ?e) ?st] =>
      destruct (exit_record_updates am a k h0 d0 ts e h st Heq) as (m' & -> & Hm') end.
    cbn. split_and!; try done. intros k. rewrite Hm'. cbn. case_decide; [done|]. by apply Hne.
  - cbn. split_and!; try done. intros k.
    destruct (decide (exit_key args e v = k)) as [<-|]; [|by apply Hne].
    rewrite Heq. unfold wait_hist in Hw. by destruct (bm_lookup (hists_map s) _).
Qed.

Lemma futex_exit_run amd args ctx e v s :
  args_map s = Some args -> bm_lookup (start s) (current_pid_tgid e) = Some v ->
  let s' := (run (futex_exit amd ctx e) s).2 in
  start s' = (bm_delete (start s) (current_pid_tgid e)).2 /\
  args_map s' = args_map s /\
  (forall k, bm_lookup (lock_map s') k =
    if decide (v_uaddr v = k) then unbump <$> bm_lookup (lock_map s) k
    else bm_lookup (lock_map s) k) /\
  match exit_wait args ctx e v (hists_map s) with
  | Some (hkey, d, h) =>
      let h' := add_wait_report amd args hkey d (ktime_ns e) (current_comm e) h in
      (forall k, bm_lookup (hists_map s') k =
        if decide (hkey = k) then Some h' else bm_lookup (hists_map s) k) /\
      perf_map s' = perf_map s ++ if reports args d h' then [EvHist h'] else []
  | None =>
      (forall k, bm_lookup (hists_map s') k = bm_lookup (hists_map s) k) /\
      perf_map s' = perf_map s
  end.
Proof.
  intros Ha Hv. unfold futex_exit. cbn. rewrite Hv. cbn. rewrite Hv, run_bind. cbn.
  destruct (exit_unlock_run (v_uaddr v) s) as (m & -> & Hm).
  pose proof (exit_account_run amd args ctx e v (lset l_lock m s) Ha Hv) as Hrun.
  destruct Hrun as (-> & -> & -> & Hw). done.
Qed.
End Runs.

(** * Histograms as summaries of the waits they account *)

Lemma slot_of_range d : is_u64 d -> 0 <= slot_of d < MAX_SLOTS.
Proof.
  intros Hd. unfold slot_of, MAX_SLOTS. cbv zeta. rewrite uN_id by done.
  pose proof (log2l_range d Hd). destruct (Z.leb_spec 24 (log2l d)); lia.
Qed.

(** A histogram that accounts exactly the waits of [ds] microseconds. *)
Record summary (amd : bool) (ds : list Z) (h : hist) : Prop := {
  sum_length : length (slots h) = Z.to_nat MAX_SLOTS;
  sum_slots i : 0 <= i < MAX_SLOTS ->
    slots h !! Z.to_nat i = Some (u32 (sumZ (fun d => Z.b2z (slot_of d =? i)) ds));
  sum_contended : contended h = u64 (Z.of_nat (length ds));
  sum_total : total_elapsed h = u64 (sumZ id ds);
  sum_min : min_dur h = foldl next_min 0 ds;
  sum_max : max_dur h = foldl (next_max amd) 0 ds
}.

Lemma initial_hist_summary amd : summary amd [] initial_hist.
Proof.
  split; try done. intros i Hi. unfold MAX_SLOTS in Hi. cbn [initial_hist slots].
  apply lookup_replicate_2. unfold MAX_SLOTS. lia.
Qed.

Lemma add_wait_summary amd ds d ts comm h :
  is_u64 d -> summary amd ds h -> summary amd (ds ++ [d]) (add_wait amd d ts comm h).
Proof.
  intros Hd [Hlen Hslots Hcont Htot Hmin Hmax]. pose proof (slot_of_range d Hd) as Hs.
  split; cbn [add_wait slots contended total_elapsed min_dur max_dur].
  - rewrite length_array_update; [done|]. rewrite Hlen. lia.
  - intros i Hi. rewrite array_update_in by (rewrite Hlen; lia). rewrite sumZ_app, sumZ_cons, sumZ_nil, Z.add_0_r.
    destruct (Z.eqb_spec (slot_of d) i) as [E | E].
    + rewrite E, list_lookup_alter_eq, Hslots by lia. cbn. by rewrite uN_add_l.
    + rewrite list_lookup_alter_ne by lia. rewrite Hslots by lia. cbn. by rewrite Z.add_0_r.
  - rewrite Hcont, uN_add_l, length_app by lia. cbn. f_equal. lia.
  - rewrite Htot, uN_add_l, sumZ_app by lia. cbn. unfold id. f_equal. lia.
  - by rewrite foldl_app, Hmin, (uN_id _ d).
  - by rewrite foldl_app, Hmax, (uN_id _ d).
Qed.

Lemma add_wait_report_summary amd args hkey ds d ts comm h :
  is_u64 d -> summary amd ds h ->
  summary amd (ds ++ [d]) (add_wait_report amd args hkey d ts comm h).
Proof.
  intros Hd Hh. unfold add_wait_report. cbv zeta. case_if; [|by apply add_wait_summary].
  by destruct (add_wait_summary amd ds d ts comm h Hd Hh).
Qed.

Lemma foldl_next_max_plain ds m : foldl (next_max false) m ds = m.
Proof. by induction ds. Qed.

Lemma foldl_next_max_from m ds :
  0 <= m -> foldl (next_max true) m ds = Z.max m (foldr Z.max 0 ds).
Proof.
  revert m. induction ds as [|d ds IH]; intros m Hm; cbn; [lia|].
  unfold next_max at 2. cbn. destruct (Z.ltb_spec m d); rewrite IH; lia.
Qed.

Lemma foldl_next_max_amd ds : foldl (next_max true) 0 ds = foldr Z.max 0 ds.
Proof. rewrite foldl_next_max_from by lia. induction ds; cbn in *; lia. Qed.

Lemma foldl_next_min_from m ds :
  0 < m -> Forall (fun d => 0 < d) ds ->
  let r := foldl next_min m ds in
  r <= m /\ Forall (fun d => r <= d) ds /\ (r = m \/ r ∈ ds).
Proof.
  intros Hm Hds. revert m Hm. induction Hds as [|d ds Hd _ IH]; intros m Hm; cbn.
  { split_and!; [lia | done | by left]. }
  assert (Hn : next_min m d = Z.min m d).
  { unfold next_min. rewrite (proj2 (Z.eqb_neq m 0)) by lia. cbn. destruct (Z.ltb_spec d m); lia. }
  destruct (IH (next_min m d)) as (Hle & Hall & Hin); [lia|]. rewrite Hn in *.
  split_and!; [lia | constructor; [lia | done] |].
  destruct Hin as [-> | Hin]; [|right; by right].
  destruct (Z.min_spec m d) as [[_ ->] | [_ ->]]; [by left | right; by left].
Qed.

Lemma foldl_next_min_spec ds :
  ds <> [] -> Forall (fun d => 0 < d) ds ->
  foldl next_min 0 ds ∈ ds /\ Forall (fun d => foldl next_min 0 ds <= d) ds.
Proof.
  intros Hne Hds. destruct Hds as [|d ds Hd Hds]; [done|].
  cbn. change (next_min 0 d) with d.
  destruct (foldl_next_min_from d ds Hd Hds) as (Hle & Hall & Hin).
  split; [|by constructor]. destruct Hin as [-> | Hin]; [by left | by right].
Qed.

(** * The snooper over time *)

#[local] Arguments futex_enter {BM} : simpl never.
#[local] Arguments futex_exit {BM} : simpl never.

Section System.
Context {BM : BpfMaps} {BL : BpfMapsLaws BM} (amd : bool) (args : user_args).

(** The maps, the threads that are inside the futex system call and the waits
    accounted so far. *)
Record fx_sys := FxSys {
  sys_st : fx_state;
  sys_inside : gset Z;
  sys_waits : list (hist_key * Z)
}.

Definition exit_log (ctx : sys_exit_futex) (e : bpf_env) (s : fx_state) : list (hist_key * Z) :=
  match bm_lookup (start s) (current_pid_tgid e) with
  | Some v =>
      match exit_wait args ctx e v (hists_map s) with
      | Some (k, d, _) => [(k, d)]
      | None => []
      end
  | None => []
  end.

(** A thread enters the system call only when it is outside, and leaves it
    only when it is inside; the maps have room for the thread and the lock. *)
Inductive fx_step : fx_sys -> fx_sys -> Prop :=
| FxEnter ctx e s i w :
    current_pid_tgid e ∉ i ->
    (size (bm_dom (start s)) < bm_max (start s))%nat ->
    (size (bm_dom (lock_map s)) < bm_max (lock_map s))%nat ->
    fx_step (FxSys s i w)
      (FxSys (run (futex_enter ctx e) s).2 ({[current_pid_tgid e]} ∪ i) w)
| FxExit ctx e s i w :
    current_pid_tgid e ∈ i ->
    fx_step (FxSys s i w)
      (FxSys (run (futex_exit amd ctx e) s).2 (i ∖ {[current_pid_tgid e]})
         (w ++ exit_log ctx e s)).

Definition fx_sys_init : fx_sys := FxSys (fx_init (Some args)) ∅ [].

Definition fx_reachable (x : fx_sys) : Prop := rtc fx_step fx_sys_init x.

(** The threads that wait on [ua] according to [start]. *)
Definition waiters (m : bmap Z val_t) (ua : Z) : gset Z :=
  filter (fun t => v_uaddr <$> bm_lookup m t = Some ua) (bm_dom m).

Definition n_waiters (m : bmap Z val_t) (ua : Z) : Z := Z.of_nat (size (waiters m ua)).

(** The durations accounted under a key. *)
Definition waits_of (k : hist_key) (w : list (hist_key * Z)) : list Z :=
  (filter (fun kd => kd.1 = k) w).*2.

Lemma elem_of_waiters m ua t :
  t ∈ waiters m ua <-> v_uaddr <$> bm_lookup m t = Some ua.
Proof.
  unfold waiters. rewrite elem_of_filter, bm_elem_of_dom.
  split; [by intros [? _]|]. intros Ht. split; [done|].
  destruct (bm_lookup m t); [by eexists | done].
Qed.

Lemma waiters_le_dom m ua : (size (waiters m ua) <= size (bm_dom m))%nat.
Proof. apply subseteq_size. unfold waiters. set_solver. Qed.

Lemma n_waiters_update m t v ua :
  bm_lookup m t = None -> (bm_update m t v BPF_ANY).1 = 0 ->
  n_waiters (bm_update m t v BPF_ANY).2 ua =
    n_waiters m ua + if decide (v_uaddr v = ua) then 1 else 0.
Proof.
  intros Ht Hok. unfold n_waiters.
  assert (Hsub : forall t', t' ∈ waiters (bm_update m t v BPF_ANY).2 ua <->
    (t' = t /\ v_uaddr v = ua) \/ t' ∈ waiters m ua).
  { intros t'. rewrite !elem_of_waiters, bm_update_ok by done.
    case_decide as Hd; [subst t'; rewrite Ht; cbn|]; naive_solver. }
  case_decide as Hua.
  - assert (waiters (bm_update m t v BPF_ANY).2 ua = {[t]} ∪ waiters m ua) as ->.
    { apply leibniz_equiv. intros t'. rewrite Hsub. set_solver. }
    rewrite size_union, size_singleton; [lia|].
    assert (t ∉ waiters m ua); [|set_solver]. by rewrite elem_of_waiters, Ht.
  - assert (waiters (bm_update m t v BPF_ANY).2 ua = waiters m ua) as ->; [|lia].
    apply leibniz_equiv. intros t'. rewrite Hsub. set_solver.
Qed.

Lemma n_waiters_delete m t v ua :
  bm_lookup m t = Some v ->
  n_waiters (bm_delete m t).2 ua = n_waiters m ua - if decide (v_uaddr v = ua) then 1 else 0.
Proof.
  intros Ht. unfold n_waiters.
  assert (Hsub : waiters (bm_delete m t).2 ua = waiters m ua ∖ {[t]}).
  { apply leibniz_equiv. intros t'.
    rewrite elem_of_difference, elem_of_singleton, !elem_of_waiters, bm_lookup_delete.
    case_decide; naive_solver. }
  rewrite Hsub. case_decide as Hua.
  - assert (Hin : {[t]} ⊆ waiters m ua).
    { apply singleton_subseteq_l. rewrite elem_of_waiters, Ht. cbn. by rewrite Hua. }
    pose proof (subseteq_size _ _ Hin) as Hle.
    rewrite size_difference by done. rewrite size_singleton in *. lia.
  - rewrite difference_disjoint_L; [lia|].
    assert (t ∉ waiters m ua); [|set_solver]. rewrite elem_of_waiters, Ht. cbn. congruence.
Qed.

Record fx_inv (x : fx_sys) : Prop := {
  inv_args : args_map (sys_st x) = Some args;
  inv_inside t : is_Some (bm_lookup (start (sys_st x)) t) -> t ∈ sys_inside x;
  inv_max : bm_max (start (sys_st x)) = MAX_ENTRIES;
  inv_size : (size (bm_dom (start (sys_st x))) <= MAX_ENTRIES)%nat;
  inv_locks ua :
    match bm_lookup (lock_map (sys_st x)) ua with
    | Some l => user_cnt l = n_waiters (start (sys_st x)) ua /\ user_cnt l <= max_user_cnt l
    | None => n_waiters (start (sys_st x)) ua = 0
    end;
  inv_hists k :
    match bm_lookup (hists_map (sys_st x)) k with
    | Some h => summary amd (waits_of k (sys_waits x)) h
    | None => waits_of k (sys_waits x) = []
    end
}.

Lemma fx_inv_init : fx_inv fx_sys_init.
Proof.
  assert (Hdom : bm_dom (bm_create (K := Z) (V := val_t) MAX_ENTRIES) = ∅).
  { apply leibniz_equiv. intros t. rewrite bm_elem_of_dom, bm_lookup_create.
    split; [by intros [] | set_solver]. }
  split; cbn.
  - done.
  - intros t. rewrite bm_lookup_create. by intros [].
  - apply bm_max_create.
  - rewrite Hdom, size_empty. lia.
  - intros ua. rewrite bm_lookup_create. unfold n_waiters.
    pose proof (waiters_le_dom (bm_create MAX_ENTRIES) ua) as Hle.
    rewrite Hdom, size_empty in Hle. lia.
  - intros k. by rewrite bm_lookup_create.
Qed.

Lemma n_waiters_range x ua : fx_inv x -> 0 <= n_waiters (start (sys_st x)) ua <= 10240.
Proof.
  intros Hx. pose proof (waiters_le_dom (start (sys_st x)) ua) as Hle.
  pose proof (inv_size x Hx) as Hs. unfold n_waiters, MAX_ENTRIES in *. lia.
Qed.

(** Entering keeps the invariant. *)
Lemma fx_inv_enter ctx e s i w :
  fx_inv (FxSys s i w) -> current_pid_tgid e ∉ i ->
  (size (bm_dom (start s)) < bm_max (start s))%nat ->
  (size (bm_dom (lock_map s)) < bm_max (lock_map s))%nat ->
  fx_inv (FxSys (run (futex_enter ctx e) s).2 ({[current_pid_tgid e]} ∪ i) w).
Proof.
  intros Hx Hi Hroom Hroom'. pose proof Hx as [Ha Hin Hm Hs Hl Hh]. cbn in *.
  destruct (enter_traces args ctx (current_pid_tgid e)) eqn:Ht.
  2:{ rewrite futex_enter_skips by (intros a Ha'; congruence).
      split; cbn; try done. intros t Hts. apply Hin in Hts. set_solver. }
  destruct (futex_enter_run args ctx e s Ha Ht) as (Es & Ea & Eh & El & _).
  assert (Hnone : bm_lookup (start s) (current_pid_tgid e) = None).
  { destruct (bm_lookup (start s) (current_pid_tgid e)) eqn:E; [|done].
    exfalso. apply Hi, Hin. by rewrite E. }
  assert (Hok : forall v, (bm_update (start s) (current_pid_tgid e) v BPF_ANY).1 = 0).
  { intros v. apply bm_update_room; [by left | done | done]. }
  split; cbn; rewrite ?Es, ?Ea, ?Eh; try done.
  - intros t. rewrite bm_update_ok by done. case_decide; [set_solver|].
    intros Hts. apply Hin in Hts. set_solver.
  - by rewrite bm_max_update.
  - rewrite bm_dom_update by done.
    pose proof (size_union_alt {[current_pid_tgid e]} (bm_dom (start s))) as Hu.
    rewrite Hu, size_singleton.
    pose proof (subseteq_size (bm_dom (start s) ∖ {[current_pid_tgid e]}) (bm_dom (start s))
      ltac:(set_solver)). lia.
  - intros ua. rewrite El, n_waiters_update by done. cbn.
    pose proof (n_waiters_range _ ua Hx) as Hr. cbn in Hr. pose proof (Hl ua) as Hlua.
    destruct (bm_lookup (lock_map s) (enter_args0 ctx)) as [l|] eqn:Hlk.
    + case_decide as Hd; [subst ua; rewrite Hlk in Hlua|]; [|by rewrite Z.add_0_r].
      destruct Hlua as [Hc Hmx]. unfold bump. cbn.
      rewrite uN_id by (unfold is_uN; lia). case_if; zbool; lia.
    + rewrite bm_update_ok by (apply bm_update_room; [by left | done | done]).
      case_decide as Hd; [subst ua; rewrite Hlk in Hlua; cbn; lia|]. by rewrite Z.add_0_r.
Qed.

Lemma exit_wait_range ctx e v m k d h :
  exit_wait args ctx e v m = Some (k, d, h) -> is_u64 d.
Proof.
  unfold exit_wait, exit_duration. intros H. repeat case_match; simplify_eq. zbool.
  pose proof (sN_range 64 ltac:(lia) (ktime_ns e - v_ts v)) as Hr.
  rewrite Z.quot_div_nonneg by lia. split; [apply Z.div_pos; lia|].
  apply Z.div_lt_upper_bound; lia.
Qed.

Lemma waits_of_snoc k w k' d :
  waits_of k (w ++ [(k', d)]) = waits_of k w ++ if decide (k' = k) then [d] else [].
Proof.
  unfold waits_of. rewrite filter_app, fmap_app. f_equal.
  rewrite filter_cons, filter_nil. cbn. by case_decide.
Qed.

Lemma fx_inv_exit_locks ctx e s i w v ua :
  fx_inv (FxSys s i w) -> bm_lookup (start s) (current_pid_tgid e) = Some v ->
  let s' := (run (futex_exit amd ctx e) s).2 in
  match bm_lookup (lock_map s') ua with
  | Some l => user_cnt l = n_waiters (start s') ua /\ user_cnt l <= max_user_cnt l
  | None => n_waiters (start s') ua = 0
  end.
Proof.
  intros Hx Hv s'. pose proof Hx as [Ha _ _ _ Hl _]. cbn [sys_st sys_inside sys_waits] in *.
  destruct (futex_exit_run amd args ctx e v s Ha Hv) as (Es & _ & El & _). subst s'.
  rewrite El, Es, (n_waiters_delete _ _ v) by done. specialize (Hl ua).
  pose proof (n_waiters_range _ ua Hx) as Hr. cbn in Hr.
  case_decide as Hd; [|by rewrite Z.sub_0_r].
  assert (1 <= n_waiters (start s) ua).
  { unfold n_waiters. enough (size (waiters (start s) ua) <> 0%nat) by lia.
    intros Hz. apply size_empty_inv in Hz.
    assert (Hin : current_pid_tgid e ∈ waiters (start s) ua); [|set_solver].
    rewrite elem_of_waiters, Hv. cbn. by rewrite Hd. }
  destruct (bm_lookup (lock_map s) ua) as [l|]; cbn; [|lia].
  destruct Hl as [Hc Hmx]. rewrite uN_id by (unfold is_uN; lia). lia.
Qed.

Lemma fx_inv_exit_hists ctx e s i w v k :
  fx_inv (FxSys s i w) -> bm_lookup (start s) (current_pid_tgid e) = Some v ->
  match bm_lookup (hists_map (run (futex_exit amd ctx e) s).2) k with
  | Some h => summary amd (waits_of k (w ++ exit_log ctx e s)) h
  | None => waits_of k (w ++ exit_log ctx e s) = []
  end.
Proof.
  intros [Ha _ _ _ _ Hh] Hv. cbn [sys_st sys_inside sys_waits] in *.
  destruct (futex_exit_run amd args ctx e v s Ha Hv) as (_ & _ & _ & Eh).
  unfold exit_log. rewrite Hv. specialize (Hh k).
  destruct (exit_wait args ctx e v (hists_map s)) as [[[hkey d] h]|] eqn:Hw.
  2:{ destruct Eh as [-> _]. by rewrite app_nil_r. }
  destruct Eh as [-> _]. rewrite waits_of_snoc. case_decide as Hk; [|by rewrite app_nil_r].
  subst hkey. apply add_wait_report_summary; [by eapply exit_wait_range|].
  unfold exit_wait, wait_hist in Hw. repeat case_match; simplify_eq; [done|].
  rewrite Hh. apply initial_hist_summary.
Qed.

(** Leaving keeps the invariant. *)
Lemma fx_inv_exit ctx e s i w :
  fx_inv (FxSys s i w) ->
  fx_inv (FxSys (run (futex_exit amd ctx e) s).2 (i ∖ {[current_pid_tgid e]})
            (w ++ exit_log ctx e s)).
Proof.
  intros Hx. pose proof Hx as [Ha Hin Hm Hs Hl Hh]. cbn [sys_st sys_inside sys_waits] in *.
  destruct (bm_lookup (start s) (current_pid_tgid e)) as [v|] eqn:Hv.
  2:{ unfold exit_log. rewrite futex_exit_skips, Hv, app_nil_r by done.
      split; cbn; try done. intros t Ht. pose proof (Hin t Ht).
      assert (t <> current_pid_tgid e); [|set_solver]. intros ->. rewrite Hv in Ht. by destruct Ht. }
  destruct (futex_exit_run amd args ctx e v s Ha Hv) as (Es & Ea & _).
  split; cbn [sys_st sys_inside sys_waits].
  - congruence.
  - intros t. rewrite Es, bm_lookup_delete. case_decide; [by intros []|].
    intros Ht. apply Hin in Ht. set_solver.
  - by rewrite Es, bm_max_delete.
  - rewrite Es, bm_dom_delete. etrans; [|exact Hs]. apply subseteq_size. set_solver.
  - intros ua. by eapply fx_inv_exit_locks.
  - intros k. by eapply fx_inv_exit_hists.
Qed.

Lemma fx_reachable_inv x : fx_reachable x -> fx_inv x.
Proof.
  unfold fx_reachable. intros Hr. pose proof fx_inv_init as Hi. revert Hi.
  induction Hr as [x | x y z Hxy _ IH]; [done|]. intros Hx. apply IH.
  destruct Hxy; [by apply fx_inv_enter | by apply fx_inv_exit].
Qed.

(** C1: in every reachable state the [user_cnt] of a lock is exactly the number
    of threads that wait on it, and never exceeds its [max_user_cnt]. *)
Theorem user_cnt_counts_waiters x ua l :
  fx_reachable x -> bm_lookup (lock_map (sys_st x)) ua = Some l ->
  user_cnt l = n_waiters (start (sys_st x)) ua /\ user_cnt l <= max_user_cnt l.
Proof.
  intros Hx Hl. pose proof (inv_locks x (fx_reachable_inv x Hx) ua) as Hi.
  by rewrite Hl in Hi.
Qed.

(** C2: in every reachable state each histogram is the summary of exactly the
    waits accounted under its key: the counts per power-of-two slot, the number
    and the sum of the durations, and the minimum and maximum as the code keeps
    them. *)
Theorem hists_summarise_waits x k h :
  fx_reachable x -> bm_lookup (hists_map (sys_st x)) k = Some h ->
  summary amd (waits_of k (sys_waits x)) h.
Proof.
  intros Hx Hl. pose proof (inv_hists x (fx_reachable_inv x Hx) k) as Hi.
  by rewrite Hl in Hi.
Qed.

(** Where the maximum is stored by the branch for other architectures than
    amd64 (the branch every build takes, since the build defines
    __TARGET_ARCH_x86 or __TARGET_ARCH_arm64), it stays 0 for ever; with the
    amd64 branch it is the maximum of the accounted waits. *)
Lemma max_dur_recorded x k h :
  fx_reachable x -> bm_lookup (hists_map (sys_st x)) k = Some h ->
  max_dur h = if amd then foldr Z.max 0 (waits_of k (sys_waits x)) else 0.
Proof.
  intros Hx Hl. pose proof (inv_hists x (fx_reachable_inv x Hx) k) as Hi.
  rewrite Hl in Hi. rewrite (sum_max _ _ _ Hi).
  destruct amd; [apply foldl_next_max_amd | apply foldl_next_max_plain].
Qed.

(** As long as no accounted wait is shorter than a microsecond, [min_dur]
    is the shortest accounted wait. *)
Lemma min_dur_is_minimum x k h :
  fx_reachable x -> bm_lookup (hists_map (sys_st x)) k = Some h ->
  waits_of k (sys_waits x) <> [] ->
  Forall (fun d => 0 < d) (waits_of k (sys_waits x)) ->
  min_dur h ∈ waits_of k (sys_waits x) /\
  Forall (fun d => min_dur h <= d) (waits_of k (sys_waits x)).
Proof.
  intros Hx Hl Hne Hpos. pose proof (inv_hists x (fx_reachable_inv x Hx) k) as Hi.
  rewrite Hl in Hi. rewrite (sum_min _ _ _ Hi). by apply foldl_next_min_spec.
Qed.
End System.

(** * Single calls *)

Section Calls.
Context {BM : BpfMaps} {BL : BpfMapsLaws BM}.

(** C38: a futex call begins to be timed exactly when it is a FUTEX_WAIT
    (private or not, on either clock) and each configured filter is 0 or equal
    to the caller's process, thread or futex address. *)
Theorem futex_enter_timed_iff args ctx e s :
  args_map s = Some args -> bm_lookup (start s) (current_pid_tgid e) = None ->
  (size (bm_dom (start s)) < bm_max (start s))%nat ->
  is_Some (bm_lookup (start (run (futex_enter ctx e) s).2) (current_pid_tgid e)) <->
    Z.land (s32 (enter_args1 ctx)) FUTEX_CMD_MASK = FUTEX_WAIT /\
    (targ_pid args = 0 \/ targ_pid args = hi32 (current_pid_tgid e)) /\
    (targ_tid args = 0 \/ targ_tid args = lo32 (current_pid_tgid e)) /\
    (targ_lock args = 0 \/ targ_lock args = enter_args0 ctx).
Proof.
  intros Ha Hnone Hroom.
  assert (Ht : enter_traces args ctx (current_pid_tgid e) = true <->
    Z.land (s32 (enter_args1 ctx)) FUTEX_CMD_MASK = FUTEX_WAIT /\
    (targ_pid args = 0 \/ targ_pid args = hi32 (current_pid_tgid e)) /\
    (targ_tid args = 0 \/ targ_tid args = lo32 (current_pid_tgid e)) /\
    (targ_lock args = 0 \/ targ_lock args = enter_args0 ctx)).
  { unfold enter_traces, enter_filter, nz.
    rewrite !andb_true_iff, !negb_true_iff, !andb_false_iff, !negb_false_iff, !Z.eqb_eq. tauto. }
  rewrite <- Ht. destruct (enter_traces args ctx (current_pid_tgid e)) eqn:E.
  - destruct (futex_enter_run args ctx e s Ha E) as (-> & _).
    rewrite bm_update_ok_eq by (apply bm_update_room; [by left | done | done]).
    split; [done | by eexists].
  - rewrite futex_enter_skips by (intros a Ha'; congruence). cbn. rewrite Hnone.
    split; [by intros [] | done].
Qed.

(** C3: a timed entry on a known lock counts the caller and sends one record,
    the counts of the lock with the caller's identity, exactly when the largest
    number of users ever seen is above the configured limit. *)
Theorem futex_enter_reports_crowd args ctx e l s :
  args_map s = Some args -> enter_traces args ctx (current_pid_tgid e) = true ->
  bm_lookup (lock_map s) (enter_args0 ctx) = Some l ->
  let c := u32 (user_cnt l + 1) in
  let mx := Z.max (max_user_cnt l) c in
  let s' := (run (futex_enter ctx e) s).2 in
  bm_lookup (lock_map s') (enter_args0 ctx) =
    Some (l <| user_cnt := c |> <| max_user_cnt := mx |>) /\
  perf_map s' = perf_map s ++
    if max_lock_hold_users args <? mx then
      [EvLock {| user_cnt := c; max_user_cnt := mx; l_uaddr := l_uaddr l;
         l_comm := current_comm e; l_pid_tgid := current_pid_tgid e; l_ts := ktime_ns e |}]
    else [].
Proof.
  intros Ha Ht Hl c mx s'. subst s'.
  destruct (futex_enter_run args ctx e s Ha Ht) as (_ & _ & _ & El & ->).
  rewrite El, Hl, decide_True by done. unfold lock_events, bump. cbv zeta. cbn. fold c.
  assert ((if max_user_cnt l <? c then c else max_user_cnt l) = mx) as ->; [|done].
  subst mx. destruct (Z.ltb_spec (max_user_cnt l) c); lia.
Qed.


(** C15: when [start] has no room the entry is counted all the same, but the
    exit does not find the thread and does not take it off again: the lock keeps
    a user that does not wait. *)
Theorem user_cnt_leaks_when_full amd args ctx ctx' e e' l s :
  args_map s = Some args -> enter_traces args ctx (current_pid_tgid e) = true ->
  bm_lookup (lock_map s) (enter_args0 ctx) = Some l ->
  bm_lookup (start s) (current_pid_tgid e) = None ->
  (bm_max (start s) <= size (bm_dom (start s)))%nat ->
  current_pid_tgid e' = current_pid_tgid e ->
  let s' := run_all [futex_enter ctx e; futex_exit amd ctx' e'] s in
  start s' = start s /\
  bm_lookup (lock_map s') (enter_args0 ctx) = Some (bump l).
Proof.
  intros Ha Ht Hl Hnone Hfull Hpt s'. subst s'.
  destruct (futex_enter_run args ctx e s Ha Ht) as (Es & _ & _ & El & _).
  assert (Hno : (bm_update (start s) (current_pid_tgid e)
      {| v_ts := ktime_ns e; v_uaddr := enter_args0 ctx |} BPF_ANY).1 <> 0).
  { rewrite bm_update_room by (done || by left). lia. }
  rewrite bm_update_err in Es by done. unfold run_all. cbn [foldl].
  rewrite futex_exit_skips by (by rewrite Es, Hpt). cbn [snd].
  by rewrite El, Hl, decide_True, Es.
Qed.
End Calls.

(** C14: the histogram slot of a duration is its base-2 logarithm, cut off at the
    last slot; the write to [slots] is always inside the array. *)
Theorem slot_of_is_log2 d :
  is_u64 d -> slot_of d = Z.min (Z.log2 d) (MAX_SLOTS - 1) /\ 0 <= slot_of d < MAX_SLOTS.
Proof.
  intros Hd. split; [|by apply slot_of_range]. unfold slot_of, MAX_SLOTS. cbv zeta.
  rewrite uN_id, log2l_is_log2 by done. destruct (Z.leb_spec 24 (Z.log2 d)); lia.
Qed.

(** * Concrete runs *)

Definition demo_args : user_args := {|
  targ_pid := 0; targ_tid := 0; targ_lock := 0; arg_stack := false;
  min_dur_ms := 0; max_dur_ms := 1000000; max_lock_hold_users := 100 |}.

Definition demo_env (ts pid_tgid : Z) : bpf_env := {|
  ktime_ns := ts; current_pid_tgid := pid_tgid; smp_processor_id := 0;
  current_comm := zero_comm; stackid := fun _ => 0 |}.

Definition demo_wait (ua : Z) : sys_enter_futex := {| enter_args0 := ua; enter_args1 := 0 |}.


(** The system calls of a run, and the state they lead to. *)
Inductive fx_call :=
| CallEnter (ctx : sys_enter_futex) (e : bpf_env)
| CallExit (ctx : sys_exit_futex) (e : bpf_env).

Section Exec.
Context {BM : BpfMaps} {BL : BpfMapsLaws BM} (amd : bool) (args : user_args).

Definition fx_exec1 (x : fx_sys) (c : fx_call) : fx_sys :=
  match c with
  | CallEnter ctx e =>
      FxSys (run (futex_enter ctx e) (sys_st x)).2
        ({[current_pid_tgid e]} ∪ sys_inside x) (sys_waits x)
  | CallExit ctx e =>
      FxSys (run (futex_exit amd ctx e) (sys_st x)).2
        (sys_inside x ∖ {[current_pid_tgid e]}) (sys_waits x ++ exit_log args ctx e (sys_st x))
  end.

Definition fx_check1 (x : fx_sys) (c : fx_call) : bool :=
  match c with
  | CallEnter _ e =>
      bool_decide (current_pid_tgid e ∉ sys_inside x) &&
      (size (bm_dom (start (sys_st x))) <? bm_max (start (sys_st x)))%nat &&
      (size (bm_dom (lock_map (sys_st x))) <? bm_max (lock_map (sys_st x)))%nat
  | CallExit _ e => bool_decide (current_pid_tgid e ∈ sys_inside x)
  end.

Fixpoint fx_exec (cs : list fx_call) (x : fx_sys) : option fx_sys :=
  match cs with
  | [] => Some x
  | c :: cs => if fx_check1 x c then fx_exec cs (fx_exec1 x c) else None
  end.

Lemma fx_exec_steps cs x y : fx_exec cs x = Some y -> rtc (fx_step amd args) x y.
Proof.
  revert x. induction cs as [|c cs IH]; intros [s i w] H; cbn [fx_exec] in H; [by simplify_eq|].
  destruct (fx_check1 _ c) eqn:Hc; [|done]. eapply rtc_l; [|by apply IH].
  destruct c as [ctx e | ctx e]; cbn in Hc |- *.
  - apply andb_true_iff in Hc as [[Hc1 Hc2]%andb_true_iff Hc3].
    apply bool_decide_eq_true in Hc1. apply Nat.ltb_lt in Hc2, Hc3. by apply FxEnter.
  - apply bool_decide_eq_true in Hc. by apply FxExit.
Qed.
End Exec.

(** The thread 71 waits on the lock 1000 from each time to the other. *)
Definition demo_calls (waits : list (Z * Z)) : list fx_call :=
  flat_map (fun ft => [CallEnter (demo_wait 1000) (demo_env ft.1 71);
                       CallExit {| exit_ret := 0 |} (demo_env ft.2 71)]) waits.

Definition demo_key : hist_key :=
  {| hk_pid_tgid := 71; hk_uaddr := 1000; hk_user_stack_id := 0 |}.

Definition demo_sys (amd : bool) (cs : list fx_call) : fx_sys :=
  default (fx_sys_init demo_args) (fx_exec amd demo_args cs (fx_sys_init demo_args)).

Definition demo_hist (x : fx_sys) : hist :=
  default initial_hist (bm_lookup (hists_map (sys_st x)) demo_key).

Lemma demo_sys_reachable amd cs :
  is_Some (fx_exec amd demo_args cs (fx_sys_init demo_args)) ->
  fx_reachable amd demo_args (demo_sys amd cs).
Proof.
  intros [y Hy]. unfold demo_sys. rewrite Hy. by apply fx_exec_steps in Hy.
Qed.

(** A wait of less than a microsecond makes the code forget the minimum: after
    waits of 7, 0 and 9 microseconds [min_dur] is 9, which is not the minimum. *)
Lemma min_dur_forgets :
  exists x k h, fx_reachable false demo_args x /\
    bm_lookup (hists_map (sys_st x)) k = Some h /\
    waits_of k (sys_waits x) = [7; 0; 9] /\ min_dur h = 9.
Proof.
  exists (demo_sys false (demo_calls [(0, 7000); (10000, 10500); (20000, 29000)])), demo_key.
  eexists. split; [|split; [vm_compute; reflexivity|]]; [|split; vm_compute; reflexivity].
  apply demo_sys_reachable. vm_compute. by eexists.
Qed.

(** ** Witnesses *)

(** One thread has waited twice and another waits. *)
Definition demo_crowd : fx_sys :=
  demo_sys false (demo_calls [(0, 7000); (10000, 12500)] ++
    [CallEnter (demo_wait 1000) (demo_env 20000 72)]).

Lemma demo_crowd_reachable : fx_reachable false demo_args demo_crowd.
Proof. apply demo_sys_reachable. vm_compute. by eexists. Defined.

Lemma user_cnt_counts_waiters_witness :
  exists l, bm_lookup (lock_map (sys_st demo_crowd)) 1000 = Some l /\
    user_cnt l = n_waiters (start (sys_st demo_crowd)) 1000 /\ user_cnt l <= max_user_cnt l.
Proof.
  eexists. split; [vm_compute; reflexivity|].
  apply (user_cnt_counts_waiters false demo_args demo_crowd 1000 _ demo_crowd_reachable).
  vm_compute. reflexivity.
Defined.

Lemma hists_summarise_waits_witness :
  summary false (waits_of demo_key (sys_waits demo_crowd)) (demo_hist demo_crowd).
Proof.
  apply (hists_summarise_waits false demo_args demo_crowd demo_key _ demo_crowd_reachable).
  vm_compute. reflexivity.
Defined.

Lemma max_dur_recorded_witness : max_dur (demo_hist demo_crowd) = 0.
Proof.
  apply (max_dur_recorded false demo_args demo_crowd demo_key _ demo_crowd_reachable).
  vm_compute. reflexivity.
Defined.

Lemma min_dur_is_minimum_witness : min_dur (demo_hist demo_crowd) ∈ [7; 2].
Proof.
  refine (proj1 (min_dur_is_minimum false demo_args demo_crowd demo_key _ demo_crowd_reachable _ _ _)).
  - vm_compute. reflexivity.
  - by vm_compute.
  - change (Forall (fun d => 0 < d) [7; 2]). repeat constructor.
Defined.

Lemma futex_enter_timed_iff_witness :
  is_Some (bm_lookup (start (run (futex_enter (demo_wait 1000) (demo_env 5 71))
    (fx_init (Some demo_args))).2) 71).
Proof.
  apply (futex_enter_timed_iff demo_args (demo_wait 1000) (demo_env 5 71) (fx_init (Some demo_args)));
    [reflexivity | reflexivity | vm_compute; lia |].
  vm_compute. tauto.
Defined.

Definition crowd_args : user_args := {|
  targ_pid := 0; targ_tid := 0; targ_lock := 0; arg_stack := false;
  min_dur_ms := 0; max_dur_ms := 1000000; max_lock_hold_users := 1 |}.

(** A lock with one waiter, seen with a limit of one user. *)
Definition crowd_state : fx_state :=
  (fx_init (Some crowd_args)) <| lock_map := CMap MAX_ENTRIES {[ 1000 := lock_init 1000 ]} |>.

Lemma futex_enter_reports_crowd_witness :
  perf_map (run (futex_enter (demo_wait 1000) (demo_env 5 71)) crowd_state).2 =
    [EvLock {| user_cnt := 2; max_user_cnt := 2; l_uaddr := 1000; l_comm := zero_comm;
               l_pid_tgid := 71; l_ts := 5 |}].
Proof.
  exact (proj2 (futex_enter_reports_crowd crowd_args (demo_wait 1000) (demo_env 5 71)
    (lock_init 1000) crowd_state eq_refl eq_refl eq_refl)).
Defined.



(** [start] holds one entry at most, and another thread has it. *)
Definition full_state : fx_state :=
  crowd_state <| start := CMap 1 {[ 5 := {| v_ts := 0; v_uaddr := 1000 |} ]} |>.

Lemma user_cnt_leaks_when_full_witness :
  bm_lookup (lock_map (run_all [futex_enter (demo_wait 1000) (demo_env 5 71);
    futex_exit false {| exit_ret := 0 |} (demo_env 9 71)] full_state)) 1000 =
  Some (bump (lock_init 1000)).
Proof.
  refine (proj2 (user_cnt_leaks_when_full false crowd_args (demo_wait 1000) {| exit_ret := 0 |}
    (demo_env 5 71) (demo_env 9 71) (lock_init 1000) full_state eq_refl eq_refl eq_refl eq_refl _ eq_refl)).
  vm_compute. lia.
Defined.

Lemma slot_of_is_log2_witness : slot_of 80 = Z.min (Z.log2 80) 23.
Proof. refine (proj1 (slot_of_is_log2 80 _)). split; [lia | reflexivity]. Defined.
