(* ===== verification/FutexSnoopConc.v ===== *)
(** The futex snooper on several CPUs: which of the counters of [FutexSnoop]
    survive the interleaving of the programs. *)
From S2P Require Import Prelude Prog BpfMap Bits FutexSnoop FutexSnoopSpec.
Open Scope Z_scope.
Open Scope bpf_scope.

#[local] Arguments enter_known_lock {BM} : simpl never.

Section Conc.
Context {BM : BpfMaps} {BL : BpfMapsLaws BM} (args : user_args) (ua : Z).

(** The lock [ua] is known and the programs are configured. *)
Definition lock_known (s : fx_state) : Prop :=
  args_map s = Some args /\ is_Some (bm_lookup (lock_map s) ua).

(** The number of users of the lock [ua]. *)
Definition lock_users (s : fx_state) : Z :=
  default 0 (user_cnt <$> bm_lookup (lock_map s) ua).

(** What a write to the lock [k] does to the two. *)
Lemma lock_store_known k f s :
  lock_known s -> lock_known (s <| lock_map := bm_store (lock_map s) k f |>).
Proof.
  intros [Ha Hl]. split; [done|]. cbn. rewrite bm_lookup_store.
  case_decide; [by rewrite fmap_is_Some | done].
Qed.

Lemma lock_store_users k f d s :
  lock_known s ->
  (k = ua -> forall l, user_cnt (f l) mod 2 ^ 32 = (user_cnt l + d) mod 2 ^ 32) ->
  (k <> ua -> d = 0) ->
  lock_users (s <| lock_map := bm_store (lock_map s) k f |>) mod 2 ^ 32 =
    (lock_users s + d) mod 2 ^ 32.
Proof.
  intros [_ [l Hl]] Hf Hd. unfold lock_users. cbn. rewrite bm_lookup_store.
  case_decide as Hk; [subst k|]; rewrite Hl; cbn; [by apply Hf|].
  by rewrite Hd, Z.add_0_r by done.
Qed.

(** A write that leaves the lock's user count alone. *)
Lemma adds_store_other k f :
  (forall l, user_cnt (f l) = user_cnt l) ->
  adds lock_known lock_users (2 ^ 32) (store l_lock k f) 0.
Proof.
  intros Hf. apply adds_put. intros s Hs. split; [by apply lock_store_known|].
  apply lock_store_users; [done | | done]. intros _ l. by rewrite Hf, Z.add_0_r.
Qed.

(** An atomic addition to the lock's user count. *)
Lemma adds_fetch_and_add k f d :
  k = ua -> (forall l, user_cnt (f l) = u32 (user_cnt l + d)) ->
  adds lock_known lock_users (2 ^ 32) (fetch_and_add l_lock k f) d.
Proof.
  intros Hk Hf. apply adds_put. intros s Hs. split; [by apply lock_store_known|].
  apply lock_store_users; [done | | done]. intros _ l. rewrite Hf. apply (uN_uN 32). lia.
Qed.

Lemma adds_emit ev : adds lock_known lock_users (2 ^ 32) (perf_event_output l_perf ev) 0.
Proof. apply adds_put. intros s Hs. by rewrite Z.add_0_r. Qed.

Lemma enter_known_lock_adds pt v l0 e :
  v_uaddr v = ua ->
  adds lock_known lock_users (2 ^ 32) (enter_known_lock args pt v l0 e) 1.
Proof.
  intros Hua. unfold enter_known_lock.
  apply (adds_bind _ _ _ _ _ 1 0); [by apply adds_fetch_and_add|]. intros _.
  apply (adds_bind _ _ _ _ _ 0 0).
  - apply (adds_bind _ _ _ _ _ 0 0); [apply adds_get|]. intros cnt.
    apply (adds_bind _ _ _ _ _ 0 0); [apply adds_get|]. intros max. apply adds_if; [|done].
    apply (adds_bind _ _ _ _ _ 0 0); [apply adds_get|]. intros cnt'. by apply adds_store_other.
  - intros _. apply (adds_bind _ _ _ _ _ 0 0); [apply adds_get|]. intros max.
    apply adds_if; [|done]. apply (adds_bind _ _ _ _ _ 0 0); [apply adds_get|].
    intros ev. apply adds_emit.
Qed.

(** A traced call of [futex_enter] on the lock adds one user. *)
Lemma futex_enter_adds ctx e :
  enter_args0 ctx = ua -> enter_traces args ctx (current_pid_tgid e) = true ->
  adds lock_known lock_users (2 ^ 32) (futex_enter ctx e) 1.
Proof.
  intros Hua Ht. apply andb_true_iff in Ht as [Hw Hf].
  unfold futex_enter. rewrite Hw. cbn [negb].
  apply adds_get_bind. intros s [-> _]. cbn [v_uaddr]. rewrite Hf. cbn [negb].
  apply (adds_bind _ _ _ _ _ 0 1).
  { apply adds_act. intros s' Hs'. split; [done|]. by rewrite Z.add_0_r. }
  intros _. apply adds_get_bind. intros s' [_ [l Hl]]. cbn. rewrite Hua, Hl. cbn.
  apply (adds_bind _ _ _ _ _ 1 0); [by apply enter_known_lock_adds | done].
Qed.

(** [futex_exit]'s release of the lock removes one. *)
Lemma exit_unlock_adds :
  adds lock_known lock_users (2 ^ 32) (exit_unlock ua ;;; Ret 0) (-1).
Proof.
  unfold exit_unlock. apply (adds_bind _ _ _ _ _ (-1) 0); [|done].
  apply adds_get_bind. intros s [_ [l Hl]]. cbn. rewrite Hl. by apply adds_fetch_and_add.
Qed.

(** What a CPU runs on the lock: a traced entry, or the release at an exit. *)
Inductive lock_prog : prog fx_state Z -> Z -> Prop :=
| LockEnter ctx e :
    enter_args0 ctx = ua -> enter_traces args ctx (current_pid_tgid e) = true ->
    lock_prog (futex_enter ctx e) 1
| LockExit : lock_prog (exit_unlock ua ;;; Ret 0) (-1).

(** C13: however traced entries and releases of a known lock interleave on
    different CPUs, action by action, no increment or decrement of its
    [user_cnt] is lost. *)
Theorem user_cnt_concurrent ps ns s s' :
  lock_known s -> Forall2 lock_prog ps ns -> pool_runs ps s s' ->
  lock_known s' /\ lock_users s' mod 2 ^ 32 = (lock_users s + sumZ id ns) mod 2 ^ 32.
Proof.
  intros Hs Hps Hrun. eapply pool_runs_adds; [done | done |].
  eapply Forall2_impl; [exact Hps|]. intros p n [ctx e Hua Ht |];
    [by apply futex_enter_adds | apply exit_unlock_adds].
Qed.
End Conc.

(** * A race on [max_user_cnt] *)

(** One thread waits on the lock 1000 already. *)
Definition race_state : fx_state :=
  (fx_init (Some demo_args))
    <| lock_map := CMap MAX_ENTRIES {[ 1000 := lock_init 1000 ]} |>.

Definition race_progs : list (prog fx_state Z) :=
  [futex_enter (demo_wait 1000) (demo_env 5 71); futex_enter (demo_wait 1000) (demo_env 6 72)].

(** The first CPU stops right before it stores the maximum; the second runs to
    its end; then the first goes on. *)
Definition race_schedule : list nat :=
  replicate 7 0%nat ++ replicate 9 1%nat ++ replicate 2 0%nat.

(** The maximum is not maintained atomically: two threads that begin to wait on a
    lock at the same time, on two CPUs, can leave it with three users and a recorded
    maximum of two. *)
Lemma max_user_cnt_race :
  exists s' l, pool_runs race_progs race_state s' /\
    bm_lookup (lock_map s') 1000 = Some l /\ user_cnt l = 3 /\ max_user_cnt l = 2.
Proof.
  exists (run_schedule race_schedule race_progs race_state).2.
  eexists. split; [|split; [vm_compute; reflexivity|]; done].
  apply run_schedule_pool_runs. vm_compute. repeat constructor.
Qed.

(** The counters of a lock are exact only once the lock is known: the first two
    threads that begin to wait on it at the same time can both find it unknown and
    both create it, so that one of them is not counted; and when both have returned
    the number of users has fallen below zero, to 2^32-1. *)
Lemma first_waiters_race :
  let s0 := fx_init (Some demo_args) in
  exists s' l l', pool_runs race_progs s0 s' /\
    bm_lookup (lock_map s') 1000 = Some l /\ user_cnt l = 1 /\
    (forall tid, tid ∈ [71; 72] -> is_Some (bm_lookup (start s') (current_pid_tgid (demo_env 0 tid)))) /\
    let s'' := run_all [futex_exit false {| exit_ret := 0 |} (demo_env 5000 71);
                        futex_exit false {| exit_ret := 0 |} (demo_env 6000 72)] s' in
    bm_lookup (lock_map s'') 1000 = Some l' /\ user_cnt l' = UINT32_MAX.
Proof.
  intros s0. exists (run_schedule [0; 0; 0; 1; 1; 1; 1; 0]%nat race_progs s0).2. eexists _, _.
  split; [|split; [vm_compute; reflexivity|split; [reflexivity|split; [|split; [vm_compute; reflexivity | vm_compute; reflexivity]]]]].
  - apply run_schedule_pool_runs. vm_compute. repeat constructor.
  - intros tid Ht. repeat (apply elem_of_cons in Ht as [-> | Ht]; [eexists; vm_compute; reflexivity|]).
    by apply elem_of_nil in Ht.
Qed.

Lemma user_cnt_concurrent_witness :
  lock_known demo_args 1000 race_state /\
  lock_users 1000 (run_all race_progs race_state) mod 2 ^ 32 =
    (lock_users 1000 race_state + 2) mod 2 ^ 32.
Proof.
  assert (Hk : lock_known demo_args 1000 race_state).
  { split; [reflexivity|]. eexists. vm_compute. reflexivity. }
  split; [exact Hk|].
  assert (Hps : Forall2 (lock_prog demo_args 1000) race_progs [1; 1]).
  { repeat constructor. }
  refine (proj2 (user_cnt_concurrent demo_args 1000 race_progs [1; 1] race_state _ Hk Hps _)).
  replace (run_all race_progs race_state)
    with (run_schedule (replicate 9 0%nat ++ replicate 9 1%nat) race_progs race_state).2
    by (vm_compute; reflexivity).
  apply run_schedule_pool_runs. vm_compute. repeat constructor.
Defined.
