(* ===== verification/OnCpu.v ===== *)
(** The on-CPU profiler: pkg/ebpf/cpu/oncpu/oncpu.bpf.c and oncpu.h.

    [do_perf_event] runs at every sample of the CPU-clock perf event and counts
    the sample in [counts], under the sampled process and its two stacks. *)
From S2P Require Import Prelude Prog BpfMap.
Open Scope Z_scope.
Open Scope bpf_scope.

(** * Data *)

Definition PROFILE_MAPS_SIZE : nat := Z.to_nat 16384.
#[global] Arguments PROFILE_MAPS_SIZE : simpl never.

Record profile_key_t := {
  pk_pid : Z;
  kern_stack : Z;
  user_stack : Z;
  pk_comm : list Z
}.

Record profile_bss_args_t := {
  tgid_filter : Z;
  cpu_filter : Z;
  space_filter : Z
}.

#[export] Instance profile_key_eq_dec : EqDecision profile_key_t.
Proof. solve_decision. Defined.

#[export] Instance profile_key_countable : Countable profile_key_t.
Proof.
  refine (inj_countable' (fun k => (pk_pid k, kern_stack k, user_stack k, pk_comm k))
    (fun t => let '(a, b, c, d) := t in Build_profile_key_t a b c d) _).
  by intros [].
Defined.

Definition KERN_STACKID_FLAGS : Z := Z.lor 0 BPF_F_FAST_STACK_CMP.
Definition USER_STACKID_FLAGS : Z := Z.lor (Z.lor 0 BPF_F_FAST_STACK_CMP) BPF_F_USER_STACK.

Section OnCpu.
Context {BM : BpfMaps}.

(** The maps.  [args] is what a lookup of its entry 0 returns. *)
Record oc_state := {
  counts : bmap profile_key_t Z;
  args : option profile_bss_args_t
}.

#[export] Instance eta_oc_state : Eta oc_state := fun r => {|
  counts := counts r; args := args r |}.

Definition oc_init (a : option profile_bss_args_t) : oc_state := {|
  counts := bm_create PROFILE_MAPS_SIZE; args := a |}.

Definition l_counts : lens oc_state (bmap profile_key_t Z) :=
  Lens counts (fun m s => s <| counts := m |>).

(** The key of a sample. *)
Definition sample_key (e : bpf_env) : profile_key_t := {|
  pk_pid := u32 (hi32 (current_pid_tgid e));
  kern_stack := s64 (stackid e KERN_STACKID_FLAGS);
  user_stack := s64 (stackid e USER_STACKID_FLAGS);
  pk_comm := current_comm e
|}.

(** The sample is counted: the increment of the counter [val] points to is a
    read and a separate write. *)
Definition count_sample (key : profile_key_t) : prog oc_state unit :=
  val <- map_lookup l_counts key ;;
  match val with
  | Some v0 =>
      v <- load l_counts key v0 id ;;
      store l_counts key (fun _ => u32 (v + 1))
  | None => map_update l_counts key 1 BPF_NOEXIST ;;; Ret tt
  end.

(** [do_perf_event] *)
Definition do_perf_event (e : bpf_env) : prog oc_state Z :=
  let id := current_pid_tgid e in
  let tgid := u32 (hi32 id) in
  let pid := lo32 id in
  arg <- get args ;;
  match arg with
  | None => Ret 0
  | Some arg =>
      if negb (tgid_filter arg =? 0) && negb (tgid =? tgid_filter arg) then Ret 0 else
      if (pid =? 0) && (space_filter arg =? 0) then Ret 0 else
      count_sample (sample_key e) ;;;
      Ret 0
  end.
End OnCpu.
