(* ===== verification/OnCpuSpec.v ===== *)
(** What the on-CPU profiler does: properties of [OnCpu]. *)
From S2P Require Import Prelude Prog BpfMap ProgBounds OnCpu.
Open Scope Z_scope.
Open Scope bpf_scope.

(** * Reference behaviour *)

(** Whether a sample is taken: of the configured process if there is one, and
    not of the idle task unless kernel space is profiled too. *)
Definition samples (a : profile_bss_args_t) (e : bpf_env) : bool :=
  let tgid := hi32 (current_pid_tgid e) in
  ((tgid_filter a =? 0) || (tgid =? tgid_filter a)) &&
  (nz (lo32 (current_pid_tgid e)) || nz (space_filter a)).

(** The keys of the samples taken, in order. *)
Definition sampled_keys (a : profile_bss_args_t) (es : list bpf_env) : list profile_key_t :=
  sample_key <$> filter (fun e => samples a e = true) es.

(** How often [k] occurs. *)
Definition occurrences (k : profile_key_t) (ks : list profile_key_t) : Z :=
  sumZ (fun k' => if decide (k' = k) then 1 else 0) ks.

(** * Runs *)

Section Runs.
Context {BM : BpfMaps} {BL : BpfMapsLaws BM}.
Implicit Types (s : oc_state) (k : profile_key_t).

(** A sample that passes the filters is counted, one that does not is ignored. *)
Lemma do_perf_event_run a e s :
  is_u64 (current_pid_tgid e) -> args s = Some a ->
  run (do_perf_event e) s =
    (0, if samples a e then (run (count_sample (sample_key e)) s).2 else s).
Proof.
  intros He Ha. unfold do_perf_event, samples. cbn [bind get act run]. rewrite Ha. cbn.
  rewrite (uN_id 32 (hi32 _)) by by apply hi32_range.
  unfold nz.
  destruct (tgid_filter a =? 0), (hi32 (current_pid_tgid e) =? tgid_filter a),
    (lo32 (current_pid_tgid e) =? 0), (space_filter a =? 0); cbn; try done;
    rewrite run_bind; by destruct (run (count_sample (sample_key e)) s).
Qed.

Lemma count_sample_run k s :
  let s' := (run (count_sample k) s).2 in
  args s' = args s /\ bm_max (counts s') = bm_max (counts s) /\
  match bm_lookup (counts s) k with
  | Some v =>
      bm_dom (counts s') = bm_dom (counts s) /\
      forall k', bm_lookup (counts s') k' =
        if decide (k = k') then Some (u32 (v + 1)) else bm_lookup (counts s) k'
  | None =>
      let room := (size (bm_dom (counts s)) <? bm_max (counts s))%nat in
      bm_dom (counts s') =
        (if room then {[k]} ∪ bm_dom (counts s) else bm_dom (counts s)) /\
      forall k', bm_lookup (counts s') k' =
        if room && bool_decide (k = k') then Some 1 else bm_lookup (counts s) k'
  end.
Proof.
  unfold count_sample. cbn [bind map_lookup get act run fst snd l_counts lget].
  destruct (bm_lookup (counts s) k) as [v|] eqn:Hk.
  - cbn. rewrite Hk. cbn. split_and!; [done | apply bm_max_store | apply bm_dom_store |].
    intros k'. rewrite bm_lookup_store. case_decide; [subst; by rewrite Hk | done].
  - pose proof (bm_update_room (counts s) k 1 BPF_NOEXIST ltac:(auto) Hk) as Hroom.
    destruct (Nat.ltb_spec (size (bm_dom (counts s))) (bm_max (counts s))) as [Hlt | Hge]; cbn;
      (split_and!; [done | apply bm_max_update | |]).
    + by apply bm_dom_update, Hroom.
    + intros k'. rewrite bm_update_ok by by apply Hroom. case_decide; case_bool_decide; done.
    + rewrite bm_update_err; [done|]. rewrite Hroom. lia.
    + intros k'. rewrite bm_update_err; [done|]. rewrite Hroom. lia.
Qed.
End Runs.

(** * The profile *)

Section Profile.
Context {BM : BpfMaps} {BL : BpfMapsLaws BM} (a : profile_bss_args_t).
Implicit Types (s : oc_state) (k : profile_key_t).

(** The counts are those of the samples [ks], for the keys that found room. *)
Record profile_of (ks : list profile_key_t) s : Prop := {
  po_args : args s = Some a;
  po_max : bm_max (counts s) = PROFILE_MAPS_SIZE;
  po_dom : bm_dom (counts s) = admitted PROFILE_MAPS_SIZE ∅ ks;
  po_counts k : k ∈ bm_dom (counts s) ->
    bm_lookup (counts s) k = Some (u32 (occurrences k ks))
}.

Lemma occurrences_snoc k ks k' :
  occurrences k (ks ++ [k']) = occurrences k ks + if decide (k' = k) then 1 else 0.
Proof. unfold occurrences. rewrite sumZ_app. cbn. lia. Qed.

Lemma occurrences_0 k ks : k ∉ ks -> occurrences k ks = 0.
Proof.
  unfold occurrences. induction ks as [|k' ks IH]; [done|]. intros Hk.
  rewrite sumZ_cons, IH by set_solver. case_decide; [set_solver | done].
Qed.

Lemma profile_of_init : profile_of [] (oc_init (Some a)).
Proof.
  split; cbn; [done | apply bm_max_create | apply bm_dom_create |].
  rewrite bm_dom_create. set_solver.
Qed.

Lemma profile_of_count ks k s :
  profile_of ks s -> profile_of (ks ++ [k]) (run (count_sample k) s).2.
Proof.
  intros [Ha Hm Hd Hc]. destruct (count_sample_run k s) as (Ha' & Hm' & Hk).
  pose proof (bm_elem_of_dom (counts s) k) as Hin.
  destruct (bm_lookup (counts s) k) as [v|] eqn:Hv; destruct Hk as [Hd' Hl].
  - assert (k ∈ bm_dom (counts s)) as Hk by (by apply Hin).
    split; [congruence | congruence | |].
    + rewrite Hd', Hd, admitted_snoc. cbn zeta. rewrite Hd in Hk. by rewrite decide_True.
    + intros k' Hk'. rewrite Hl, occurrences_snoc. case_decide; [subst k'|].
      * rewrite Hc in Hv by done. injection Hv as <-. by rewrite uN_add_l.
      * rewrite Z.add_0_r. apply Hc. by rewrite <- Hd'.
  - assert (k ∉ bm_dom (counts s)) as Hk by (rewrite Hin; by intros []).
    rewrite Hm in *. split; [congruence | congruence | |].
    + rewrite Hd', Hd, admitted_snoc. cbn zeta. rewrite Hd in Hk. by rewrite decide_False.
    + intros k' Hk'. rewrite Hl, occurrences_snoc. rewrite Hd' in Hk'.
      destruct (Nat.ltb_spec (size (bm_dom (counts s))) PROFILE_MAPS_SIZE) as [Hlt|Hge]; cbn.
      * case_bool_decide as Hkk; [subst k'; rewrite decide_True by done|].
        { rewrite occurrences_0; [done|]. intros Hks.
          pose proof (admitted_full PROFILE_MAPS_SIZE ∅ ks k Hks) as Hf.
          rewrite <- Hd in Hf. specialize (Hf Hk). lia. }
        rewrite decide_False, Z.add_0_r by done. apply Hc. set_solver.
      * rewrite decide_False by (intros ->; by apply Hk). rewrite Z.add_0_r. by apply Hc.
Qed.

Lemma profile_of_run ks e s :
  is_u64 (current_pid_tgid e) -> profile_of ks s ->
  profile_of (ks ++ sampled_keys a [e]) (run (do_perf_event e) s).2.
Proof.
  intros He Hs. rewrite (do_perf_event_run a) by (done || apply Hs).
  unfold sampled_keys. destruct (samples a e) eqn:E.
  - rewrite filter_cons_True by done. by apply profile_of_count.
  - rewrite filter_cons_False by (by rewrite E). cbn. by rewrite app_nil_r.
Qed.

Lemma profile_of_run_all es ks s :
  Forall (fun e => is_u64 (current_pid_tgid e)) es -> profile_of ks s ->
  profile_of (ks ++ sampled_keys a es) (run_all (do_perf_event <$> es) s).
Proof.
  intros Hes. revert ks s. induction Hes as [|e es He _ IH]; intros ks s Hs.
  - unfold sampled_keys. cbn. by rewrite app_nil_r.
  - apply (profile_of_run _ e) in Hs; [|done]. apply IH in Hs.
    rewrite <- app_assoc in Hs. unfold sampled_keys in *.
    by rewrite <- fmap_app, <- filter_app in Hs.
Qed.

(** C16: after any number of samples the profile is the histogram of the samples
    that passed the filters: every key that found room is counted exactly as
    often as it was sampled (modulo the 32 bits of the counter), and only keys
    beyond the 16384 first ones are missing. *)
Theorem profile_counts_samples es k :
  Forall (fun e => is_u64 (current_pid_tgid e)) es ->
  let ks := sampled_keys a es in
  bm_lookup (counts (run_all (do_perf_event <$> es) (oc_init (Some a)))) k =
    if decide (k ∈ admitted PROFILE_MAPS_SIZE ∅ ks) then Some (u32 (occurrences k ks)) else None.
Proof.
  intros Hes ks. pose proof (profile_of_run_all es [] _ Hes profile_of_init) as [_ _ Hd Hc].
  fold ks in Hd, Hc. cbn in Hd, Hc. rewrite <- Hd. case_decide as Hk; [by apply Hc|].
  rewrite bm_elem_of_dom in Hk. by apply eq_None_not_Some.
Qed.

(** As long as the samples have no more than 16384 distinct keys, none of them is
    lost. *)
Lemma profile_complete es k :
  Forall (fun e => is_u64 (current_pid_tgid e)) es ->
  let ks := sampled_keys a es in
  (size (list_to_set ks : gset profile_key_t) <= PROFILE_MAPS_SIZE)%nat ->
  k ∈ ks ->
  bm_lookup (counts (run_all (do_perf_event <$> es) (oc_init (Some a)))) k =
    Some (u32 (occurrences k ks)).
Proof.
  intros Hes ks Hsize Hk. pose proof (profile_of_run_all es [] _ Hes profile_of_init) as [_ _ Hd Hc].
  apply Hc. rewrite Hd. fold ks. cbn. rewrite admitted_all by by rewrite union_empty_l_L.
  set_solver.
Qed.
End Profile.

(** * Several CPUs *)

Section Concurrent.
Context {BM : BpfMaps} {BL : BpfMapsLaws BM} (a : profile_bss_args_t).
Implicit Types (s : oc_state) (k : profile_key_t).

(** The count of [k], and that it is a count. *)
Definition count_of (k : profile_key_t) (s : oc_state) : Z := default 0 (bm_lookup (counts s) k).
Definition counts_ok (s : oc_state) : Prop :=
  args s = Some a /\ forall k v, bm_lookup (counts s) k = Some v -> 0 <= v.

Lemma count_of_nonneg k s : counts_ok s -> 0 <= count_of k s.
Proof. intros [_ Hs]. unfold count_of. destruct (bm_lookup _ k) eqn:E; [by eapply Hs | done]. Qed.

(** A write of [v] to the count of [k']. *)
Lemma count_store k k' v b s :
  0 <= v -> counts_ok s -> count_of k s <= b -> (k' = k -> v <= b + 1) ->
  let s' := s <| counts := bm_store (counts s) k' (fun _ => v) |> in
  counts_ok s' /\ count_of k s' <= b + (if decide (k' = k) then 1 else 0).
Proof.
  intros Hv Hs Hc Hb. split.
  - destruct Hs as [Ha Hs]. split; [done|]. cbn. intros k1 v1. rewrite bm_lookup_store.
    case_decide; [|by apply Hs]. destruct (bm_lookup (counts s) k1); by intros [= <-].
  - unfold count_of in *. cbn. rewrite bm_lookup_store. case_decide as Hk; [|lia].
    specialize (Hb Hk). subst k'. destruct (bm_lookup (counts s) k); cbn in *; lia.
Qed.

(** A new key. *)
Lemma count_update k k' b s :
  counts_ok s -> count_of k s <= b ->
  let s' := s <| counts := (bm_update (counts s) k' 1 BPF_NOEXIST).2 |> in
  counts_ok s' /\ count_of k s' <= b + (if decide (k' = k) then 1 else 0).
Proof.
  intros Hs Hc. pose proof (count_of_nonneg k s Hs). split.
  - destruct Hs as [Ha Hs]. split; [done|]. cbn. intros k1 v1. rewrite bm_update_cases.
    case_decide; [by intros [= <-] | by apply Hs].
  - unfold count_of in *. cbn. rewrite bm_update_cases.
    destruct (decide (k' = k)) as [->|]; case_decide as Hd; cbn; try lia; by destruct Hd.
Qed.

Lemma count_sample_at_most k k' b :
  at_most counts_ok (count_of k) (count_sample k') b (if decide (k' = k) then 1 else 0).
Proof.
  unfold count_sample. apply at_most_get. intros b1 s1 Hb1 Hs1 Hc1. cbn [l_counts lget].
  destruct (bm_lookup (counts s1) k') as [v0|] eqn:Hv0.
  - apply at_most_get. intros b2 s2 Hb2 Hs2 Hc2. cbn [l_counts lget].
    set (v := id (default v0 (bm_lookup (counts s2) k'))).
    assert (Hv : 0 <= v /\ (k' = k -> v <= b2)).
    { destruct Hs1 as [_ Hs1], Hs2 as [_ Hs2]. unfold v, id. unfold count_of in *.
      destruct (bm_lookup (counts s2) k') as [v2|] eqn:Hv2; cbn.
      - split; [by eapply Hs2|]. intros ->. by rewrite Hv2 in Hc2.
      - split; [by eapply Hs1|]. intros ->. rewrite Hv0 in Hc1. cbn in Hc1. lia. }
    intros b3 s3 Hb3 Hs3 Hc3.
    assert (Hu : 0 <= u32 (v + 1) <= v + 1).
    { split; [apply uN_range; lia | apply Z.mod_le; lia]. }
    destruct (count_store k k' (u32 (v + 1)) b3 s3) as [Hok Hle];
      [lia | done | done | intros Hk; apply Hv in Hk; lia |].
    eexists. split; [|split; [exact Hok | split; [exact Hle|]]]; [by case_decide|]. cbn. by rewrite Z.sub_diag.
  - intros b2 s2 Hb2 Hs2 Hc2. destruct (count_update k k' b2 s2 Hs2 Hc2) as [Hok Hle].
    eexists. split; [|split; [exact Hok | split; [exact Hle|]]]; [by case_decide|]. cbn. by rewrite Z.sub_diag.
Qed.

Lemma occurrences_one k e :
  occurrences k (sampled_keys a [e]) =
    if samples a e then (if decide (sample_key e = k) then 1 else 0) else 0.
Proof.
  unfold sampled_keys. destruct (samples a e) eqn:E.
  - rewrite filter_cons_True by done. cbn. apply Z.add_0_r.
  - by rewrite filter_cons_False by (by rewrite E).
Qed.

Lemma do_perf_event_at_most k e b :
  is_u64 (current_pid_tgid e) ->
  at_most counts_ok (count_of k) (do_perf_event e) b (occurrences k (sampled_keys a [e])).
Proof.
  intros He. rewrite occurrences_one. unfold do_perf_event. apply at_most_get.
  intros b1 s1 _ [-> _] _. cbn zeta.
  unfold samples, nz. rewrite (uN_id 32 (hi32 _)) by by apply hi32_range.
  destruct (tgid_filter a =? 0), (hi32 (current_pid_tgid e) =? tgid_filter a),
    (lo32 (current_pid_tgid e) =? 0), (space_filter a =? 0);
    cbn [negb andb orb]; first [apply at_most_bind_ret, count_sample_at_most | apply at_most_ret].
Qed.

(** C17: however the samples of any number of CPUs interleave, no key is ever
    counted more often than it was sampled. *)
Theorem profile_never_overcounts es k s' :
  Forall (fun e => is_u64 (current_pid_tgid e)) es ->
  pool_runs (do_perf_event <$> es) (oc_init (Some a)) s' ->
  count_of k s' <= occurrences k (sampled_keys a es).
Proof.
  intros Hes Hrun.
  destruct (pool_runs_at_most counts_ok (count_of k) _ _ _ 0
    ((fun e => occurrences k (sampled_keys a [e])) <$> es) Hrun) as [_ Hle].
  - split; [done|]. cbn. intros k0 v. by rewrite bm_lookup_create.
  - unfold count_of. cbn. by rewrite bm_lookup_create.
  - clear Hrun. induction Hes as [|e es He _ IH]; constructor; [by apply do_perf_event_at_most | exact IH].
  - etrans; [exact Hle|]. apply Z.eq_le_incl. clear. induction es as [|e es IH]; [done|].
    cbn [fmap list_fmap]. rewrite sumZ_cons. unfold sampled_keys, occurrences in *.
    change (e :: es) with ([e] ++ es). rewrite filter_app, fmap_app, sumZ_app. unfold id in *. lia.
Qed.
End Concurrent.

(** * Examples *)

Definition oncpu_args : profile_bss_args_t :=
  {| tgid_filter := 7; cpu_filter := 0; space_filter := 0 |}.

(** A sample of thread [tid] of process [tgid] in the stack [st]. *)
Definition oncpu_env (tgid tid st : Z) : bpf_env := {|
  ktime_ns := 0; current_pid_tgid := tgid * 2 ^ 32 + tid; smp_processor_id := 0;
  current_comm := replicate TASK_COMM_LEN 0; stackid := fun _ => st |}.

Definition oncpu_key (tgid st : Z) : profile_key_t := {|
  pk_pid := tgid; kern_stack := st; user_stack := st; pk_comm := replicate TASK_COMM_LEN 0 |}.

Definition oncpu_envs : list bpf_env :=
  [oncpu_env 7 70 1; oncpu_env 8 80 1; oncpu_env 7 71 1; oncpu_env 7 71 2; oncpu_env 7 0 2].

Lemma oncpu_envs_ok : Forall (fun e => is_u64 (current_pid_tgid e)) oncpu_envs.
Proof. repeat constructor; by vm_compute. Qed.

Lemma profile_counts_samples_witness :
  bm_lookup (counts (run_all (do_perf_event <$> oncpu_envs) (oc_init (Some oncpu_args))))
    (oncpu_key 7 1) = Some 2.
Proof.
  rewrite (profile_counts_samples oncpu_args oncpu_envs _ oncpu_envs_ok).
  vm_compute. reflexivity.
Defined.

Lemma profile_never_overcounts_witness :
  count_of (oncpu_key 7 1) (run_schedule [0; 0; 1; 1; 1; 0; 0; 1]%nat
    (do_perf_event <$> [oncpu_env 7 70 1; oncpu_env 7 71 1]) (oc_init (Some oncpu_args))).2 <= 2.
Proof.
  refine (profile_never_overcounts oncpu_args [oncpu_env 7 70 1; oncpu_env 7 71 1] (oncpu_key 7 1) _ _ _).
  - repeat constructor; by vm_compute.
  - apply run_schedule_pool_runs. vm_compute. repeat constructor.
Defined.

(** The increment is not atomic: two samples of one key that are taken at the
    same time on two CPUs can be counted as one. *)
Lemma profile_loses_samples :
  let s0 := run_all [do_perf_event (oncpu_env 7 70 1)] (oc_init (Some oncpu_args)) in
  let ps := [do_perf_event (oncpu_env 7 70 1); do_perf_event (oncpu_env 7 71 1)] in
  bm_lookup (counts s0) (oncpu_key 7 1) = Some 1 /\
  exists s', pool_runs ps s0 s' /\ bm_lookup (counts s') (oncpu_key 7 1) = Some 2.
Proof.
  intros s0 ps. split; [vm_compute; reflexivity|].
  exists (run_schedule [0; 0; 0; 1; 1; 1; 1; 0]%nat ps s0).2.
  split; [|vm_compute; reflexivity].
  apply run_schedule_pool_runs. vm_compute. repeat constructor.
Qed.
