(* ===== verification/Syscall.v ===== *)
(** The slow-syscall tracer: pkg/ebpf/cpu/syscall/syscall.bpf.c and syscall.h.

    [sys_enter] notes in [start] when a thread entered a system call, [sys_exit]
    sends a record when the call took as long as the user asked for. *)
From S2P Require Import Prelude Prog BpfMap.
Open Scope Z_scope.
Open Scope bpf_scope.

(** * Data *)

Definition MAX_ENTRIES : nat := Z.to_nat 10240.
#[global] Arguments MAX_ENTRIES : simpl never.

Record user_args := {
  arg_pid : Z;
  arg_tid : Z;
  min_syscall_ms : Z;
  max_syscall_ms : Z;
  arg_stack : bool;
  arg_syscall_id : Z
}.

Record syscall_event := {
  ev_pid : Z;
  ev_tid : Z;
  ts_ns : Z;
  dur_us : Z;
  u_stack_id : Z;
  k_stack_id : Z;
  ev_syscall_id : Z;
  ev_comm : list Z
}.

#[export] Instance eta_syscall_event : Eta syscall_event := fun r => {|
  ev_pid := ev_pid r; ev_tid := ev_tid r; ts_ns := ts_ns r; dur_us := dur_us r;
  u_stack_id := u_stack_id r; k_stack_id := k_stack_id r;
  ev_syscall_id := ev_syscall_id r; ev_comm := ev_comm r |}.

(** [struct syscall_event event = { 0 }] *)
Definition zero_event : syscall_event := {|
  ev_pid := 0; ev_tid := 0; ts_ns := 0; dur_us := 0; u_stack_id := 0; k_stack_id := 0;
  ev_syscall_id := 0; ev_comm := replicate TASK_COMM_LEN 0 |}.

(** The argument of the tracepoints that the programs read: [args->id], a
    [long]. *)
Record raw_sys := { raw_id : Z }.

Section Syscall.
Context {BM : BpfMaps}.

(** The maps.  [args_map] is what a lookup of its entry 0 returns. *)
Record sc_state := {
  start : bmap Z syscall_event;
  args_map : option user_args;
  perf_map : list syscall_event
}.

#[export] Instance eta_sc_state : Eta sc_state := fun r => {|
  start := start r; args_map := args_map r; perf_map := perf_map r |}.

Definition sc_init (a : option user_args) : sc_state := {|
  start := bm_create MAX_ENTRIES; args_map := a; perf_map := [] |}.

Definition l_start : lens sc_state (bmap Z syscall_event) :=
  Lens start (fun m s => s <| start := m |>).
Definition l_perf : lens sc_state (list syscall_event) :=
  Lens perf_map (fun m s => s <| perf_map := m |>).

(** The filters both programs apply.  [pid] is a [pid_t], which the comparison
    with a [u32] converts. *)
Definition sys_filter (ua : user_args) (pid tid syscall_id : Z) : bool :=
  negb (nz (arg_pid ua) && negb (arg_pid ua =? u32 pid)) &&
  negb (nz (arg_tid ua) && negb (arg_tid ua =? tid)) &&
  negb (negb (arg_syscall_id ua =? UINT32_MAX) && negb (arg_syscall_id ua =? syscall_id)).

(** [sys_enter], at tracepoint/raw_syscalls/sys_enter *)
Definition sys_enter (args : raw_sys) (e : bpf_env) : prog sc_state Z :=
  let pid_tgid := current_pid_tgid e in
  let pid := s32 (hi32 pid_tgid) in
  let tid := lo32 pid_tgid in
  user_args <- get args_map ;;
  match user_args with
  | None => Ret 0
  | Some ua =>
      let syscall_id := u32 (raw_id args) in
      if negb (sys_filter ua pid tid syscall_id) then Ret 0 else
      let event := zero_event <| ts_ns := ktime_ns e |> <| ev_pid := u32 pid |>
        <| ev_tid := tid |> in
      map_update l_start tid event BPF_ANY ;;;
      Ret 0
  end.

(** The record of a call that took [dur] nanoseconds. *)
Definition fill_event (ua : user_args) (event : syscall_event) (dur syscall_id : Z)
    (e : bpf_env) : syscall_event :=
  let event := event <| dur_us := dur / 1000 |> in
  let event :=
    if arg_stack ua then
      event <| u_stack_id := s64 (stackid e (Z.lor BPF_F_USER_STACK BPF_F_FAST_STACK_CMP)) |>
        <| k_stack_id := s64 (stackid e BPF_F_FAST_STACK_CMP) |>
    else event in
  event <| ev_syscall_id := syscall_id |> <| ev_comm := current_comm e |>.

(** [sys_exit], at tracepoint/raw_syscalls/sys_exit *)
Definition sys_exit (args : raw_sys) (e : bpf_env) : prog sc_state Z :=
  let pid_tgid := current_pid_tgid e in
  let pid := s32 (hi32 pid_tgid) in
  let tid := lo32 pid_tgid in
  if raw_id args =? -1 then Ret 0 else
  user_args <- get args_map ;;
  match user_args with
  | None => Ret 0
  | Some ua =>
      let syscall_id := u32 (raw_id args) in
      if negb (sys_filter ua pid tid syscall_id) then Ret 0 else
      eventp <- map_lookup l_start tid ;;
      match eventp with
      | None => Ret 0
      | Some ev0 =>
          ts <- load l_start tid ev0 ts_ns ;;
          let dur := u64 (ktime_ns e - ts) in
          if (min_syscall_ms ua <=? dur / 1000000) && (dur / 1000000 <=? max_syscall_ms ua)
          then
            event <- load l_start tid ev0 (fun ev => ev) ;;
            perf_event_output l_perf (fill_event ua event dur syscall_id e) ;;;
            Ret 0
          else Ret 0
      end
  end.
End Syscall.
