(* ===== verification/SyscallSpec.v ===== *)
(** What the slow-syscall tracer does: properties of [Syscall]. *)
From S2P Require Import Prelude Prog BpfMap Syscall.
Open Scope Z_scope.
Open Scope bpf_scope.

(** * Reference behaviour *)

(** The entry that [start] holds for a thread that entered a call at [ts]. *)
Definition entered (pid_tgid ts : Z) : syscall_event :=
  zero_event <| ts_ns := ts |> <| ev_pid := u32 (hi32 pid_tgid) |>
    <| ev_tid := lo32 pid_tgid |>.

Definition call_traced (ua : user_args) (pid_tgid id : Z) : bool :=
  sys_filter ua (s32 (hi32 pid_tgid)) (lo32 pid_tgid) (u32 id).

(** Whether a duration in nanoseconds is in the window the user asked for. *)
Definition in_window (ua : user_args) (dur : Z) : bool :=
  (min_syscall_ms ua <=? dur / 1000000) && (dur / 1000000 <=? max_syscall_ms ua).

(** The record of the call [id] that began at [ts] and whose exit ran in [e]. *)
Definition call_record (ua : user_args) (ts id : Z) (e : bpf_env) : syscall_event :=
  let dur := u64 (ktime_ns e - ts) in
  {| ev_pid := u32 (hi32 (current_pid_tgid e)); ev_tid := lo32 (current_pid_tgid e);
     ts_ns := ts; dur_us := dur / 1000;
     u_stack_id := if arg_stack ua then s64 (stackid e 768) else 0;
     k_stack_id := if arg_stack ua then s64 (stackid e 512) else 0;
     ev_syscall_id := u32 id; ev_comm := current_comm e |}.

(** What a completed call contributes to the records. *)
Definition call_records (ua : user_args) (ts id : Z) (e : bpf_env) : list syscall_event :=
  if negb (id =? -1) && call_traced ua (current_pid_tgid e) id
     && in_window ua (u64 (ktime_ns e - ts))
  then [call_record ua ts id e] else [].

(** * Runs *)

Section Runs.
Context {BM : BpfMaps} {BL : BpfMapsLaws BM}.
Implicit Types (s : sc_state).

Lemma sys_enter_run ua args e s :
  args_map s = Some ua ->
  (run (sys_enter args e) s).2 =
    if call_traced ua (current_pid_tgid e) (raw_id args)
    then s <| start := (bm_update (start s) (lo32 (current_pid_tgid e))
                          (entered (current_pid_tgid e) (ktime_ns e)) BPF_ANY).2 |>
    else s.
Proof.
  intros Ha. unfold sys_enter, call_traced, entered. cbn. rewrite Ha. cbn.
  destruct (sys_filter _ _ _ _); cbn; [|done]. by rewrite uN_sN, Ha by lia.
Qed.

(** What [sys_exit] sends, whatever [start] holds for the thread. *)
Lemma sys_exit_run ua args e s :
  args_map s = Some ua ->
  (run (sys_exit args e) s).2 =
    match bm_lookup (start s) (lo32 (current_pid_tgid e)) with
    | Some ev =>
        if negb (raw_id args =? -1) && call_traced ua (current_pid_tgid e) (raw_id args)
           && in_window ua (u64 (ktime_ns e - ts_ns ev))
        then s <| perf_map := perf_map s ++
          [fill_event ua ev (u64 (ktime_ns e - ts_ns ev)) (u32 (raw_id args)) e] |>
        else s
    | None => s
    end.
Proof.
  intros Ha. unfold sys_exit, call_traced, in_window.
  destruct (raw_id args =? -1); cbn; [by case_match|]. rewrite Ha. cbn.
  destruct (sys_filter _ _ _ _); cbn; [|by case_match].
  destruct (bm_lookup (start s) _) as [ev|] eqn:Hev; cbn; [|done]. rewrite Hev. cbn.
  destruct (_ && _) eqn:Hw; cbn; [by rewrite Hev, Ha | done].
Qed.

(** On the entry that the matching [sys_enter] left, it sends the call's record. *)
Lemma fill_entered ua ts id e :
  fill_event ua (entered (current_pid_tgid e) ts) (u64 (ktime_ns e - ts)) (u32 id) e =
    call_record ua ts id e.
Proof. unfold fill_event, call_record. by destruct (arg_stack ua). Qed.
End Runs.

(** * The tracer over time *)

#[local] Arguments sys_enter {BM} : simpl never.
#[local] Arguments sys_exit {BM} : simpl never.

Section System.
Context {BM : BpfMaps} {BL : BpfMapsLaws BM} (ua : user_args).

(** The maps, what every thread inside a system call is doing (its call and the
    time of its entry), and the records of the calls completed so far. *)
Record sc_sys := ScSys {
  sys_st : sc_state;
  sys_inside : gmap Z (Z * Z * Z);
  sys_sent : list syscall_event
}.

(** A thread, named by its tid, enters a call when it is outside, and leaves the
    call that it is in; an interrupted call is left with the id -1.  [start] has
    room for the entering thread.  A thread may also leave a call that it entered before
    the tracer was there, if it has no entry yet. *)
Inductive sc_step : sc_sys -> sc_sys -> Prop :=
| ScEnter args e s i w :
    i !! lo32 (current_pid_tgid e) = None ->
    is_Some (bm_lookup (start s) (lo32 (current_pid_tgid e))) \/
      (size (bm_dom (start s)) < bm_max (start s))%nat ->
    sc_step (ScSys s i w)
      (ScSys (run (sys_enter args e) s).2
         (<[lo32 (current_pid_tgid e) := (current_pid_tgid e, raw_id args, ktime_ns e)]> i) w)
| ScExit args e s i w id ts :
    i !! lo32 (current_pid_tgid e) = Some (current_pid_tgid e, id, ts) ->
    raw_id args = id \/ raw_id args = -1 ->
    sc_step (ScSys s i w)
      (ScSys (run (sys_exit args e) s).2 (delete (lo32 (current_pid_tgid e)) i)
         (w ++ call_records ua ts (raw_id args) e))
| ScLate args e s i w :
    i !! lo32 (current_pid_tgid e) = None -> bm_lookup (start s) (lo32 (current_pid_tgid e)) = None ->
    sc_step (ScSys s i w) (ScSys (run (sys_exit args e) s).2 i w).

Definition sc_sys_init : sc_sys := ScSys (sc_init (Some ua)) ∅ [].

Definition sc_reachable (x : sc_sys) : Prop := rtc sc_step sc_sys_init x.

Record sc_inv (x : sc_sys) : Prop := {
  sci_args : args_map (sys_st x) = Some ua;
  sci_inside tid pt id ts :
    sys_inside x !! tid = Some (pt, id, ts) -> call_traced ua pt id = true ->
    bm_lookup (start (sys_st x)) tid = Some (entered pt ts);
  sci_sent : perf_map (sys_st x) = sys_sent x
}.

Lemma sc_inv_step x y : sc_step x y -> sc_inv x -> sc_inv y.
Proof.
  intros [args e s i w Hout Hroom | args e s i w id ts Hin Hid | args e s i w Hout Hnone] [Ha Hi Hs]; cbn in *.
  - pose proof (sys_enter_run ua args e s Ha) as Hrun.
    destruct (call_traced ua (current_pid_tgid e) (raw_id args)) eqn:Ht; rewrite Hrun;
      (split; cbn; [done | | done]); intros tid pt id ts;
      (destruct (decide (lo32 (current_pid_tgid e) = tid)) as [<- | Hne];
        [rewrite lookup_insert_eq; intros [= <- <- <-] Htr
        |rewrite lookup_insert_ne by done; intros Hl Htr]); try congruence; try by eapply Hi.
    + apply bm_update_ok_eq. destruct Hroom as [Hsome | Hroom]; [by apply bm_update_any|].
      destruct (bm_lookup (start s) (lo32 (current_pid_tgid e))) eqn:Hl.
      * by apply bm_update_any.
      * apply bm_update_room; auto.
    + rewrite bm_update_ne by done. by eapply Hi.
  - rewrite (sys_exit_run ua) by done. unfold call_records.
    assert (Hrec : negb (raw_id args =? -1) && call_traced ua (current_pid_tgid e) (raw_id args) = true ->
      bm_lookup (start s) (lo32 (current_pid_tgid e)) = Some (entered (current_pid_tgid e) ts)).
    { intros H. zbool. destruct Hid as [<- |]; [|done]. by eapply Hi. }
    split; cbn.
    + by repeat case_match.
    + intros tid pt id' ts' [Hne Hl]%lookup_delete_Some Htr.
      repeat case_match; cbn; by eapply Hi.
    + destruct (negb _ && call_traced _ _ _) eqn:Hc; cbn.
      * rewrite Hrec by done. cbn [ts_ns entered zero_event].
        destruct (in_window _ _); cbn; [by rewrite Hs, fill_entered | by rewrite app_nil_r].
      * rewrite app_nil_r. by case_match.
  - rewrite (sys_exit_run ua), Hnone by done. by split.
Qed.

Lemma sc_reachable_inv x : sc_reachable x -> sc_inv x.
Proof.
  intros Hx. unfold sc_reachable in Hx. remember sc_sys_init as x0 eqn:E.
  assert (H0 : sc_inv x0) by (subst; split; cbn; [done | by intros | done]).
  clear E. induction Hx as [|x y z Hxy _ IH]; [done|]. apply IH. by eapply sc_inv_step.
Qed.

(** C19: as long as [start] has room, the records sent are exactly those of the
    completed calls of the traced kind whose duration is in the window, each
    with the thread, the entry time, the duration, the stacks and the call's
    number -- although the programs never remove an entry of [start]. *)
Theorem records_are_slow_calls x :
  sc_reachable x -> perf_map (sys_st x) = sys_sent x.
Proof. intros Hx. by apply sc_reachable_inv. Qed.

(** * Sequences of calls *)

Inductive sc_call :=
| CallEnter (args : raw_sys) (e : bpf_env)
| CallExit (args : raw_sys) (e : bpf_env).

Definition call_prog (c : sc_call) : prog sc_state Z :=
  match c with
  | CallEnter args e => sys_enter args e
  | CallExit args e => sys_exit args e
  end.

(** A completed call: its number on the way out, when it began, and where it ended. *)
Record done_call := { done_id : Z; done_ts : Z; done_env : bpf_env }.

(** The calls that the threads complete, in the order of their ends; [seen] are the threads
    that have entered a call, [inside] what the threads are doing.  Nothing if a thread
    enters a call inside another, or leaves another call than it is in; a thread may
    leave a call that it was in from the beginning. *)
Fixpoint completed (seen : gset Z) (inside : gmap Z (Z * Z * Z)) (cs : list sc_call) : option (list done_call) :=
  match cs with
  | [] => Some []
  | CallEnter args e :: cs =>
      let tid := lo32 (current_pid_tgid e) in
      match inside !! tid with
      | Some _ => None
      | None => completed ({[tid]} ∪ seen) (<[tid := (current_pid_tgid e, raw_id args, ktime_ns e)]> inside) cs
      end
  | CallExit args e :: cs =>
      let tid := lo32 (current_pid_tgid e) in
      match inside !! tid with
      | Some (pt, id, ts) =>
          if (pt =? current_pid_tgid e) && ((raw_id args =? id) || (raw_id args =? -1)) then
            more ← completed seen (delete tid inside) cs;
            Some ({| done_id := raw_id args; done_ts := ts; done_env := e |} :: more)
          else None
      | None => if decide (tid ∈ seen) then None else completed seen inside cs
      end
  end.

(** The threads that enter a call. *)
Fixpoint threads (cs : list sc_call) : gset Z :=
  match cs with
  | [] => ∅
  | CallEnter _ e :: cs => {[lo32 (current_pid_tgid e)]} ∪ threads cs
  | CallExit _ _ :: cs => threads cs
  end.

Lemma exit_keeps_start args e s : args_map s = Some ua -> start (run (sys_exit args e) s).2 = start s.
Proof. intros Ha. rewrite (sys_exit_run ua) by done. by repeat case_match. Qed.

Lemma enter_start args e s :
  args_map s = Some ua ->
  bm_max (start (run (sys_enter args e) s).2) = bm_max (start s) /\
  bm_dom (start (run (sys_enter args e) s).2) ⊆ {[lo32 (current_pid_tgid e)]} ∪ bm_dom (start s).
Proof.
  intros Ha. rewrite (sys_enter_run ua) by done. case_match; cbn; [|split; [done | set_solver]].
  split; [apply bm_max_update|]. intros t. rewrite elem_of_union, elem_of_singleton, !bm_elem_of_dom, bm_update_cases.
  case_decide as Hd; [destruct Hd; by left | by right].
Qed.

(** A sequence of calls of no more threads than [start] has room for is a run of the
    system. *)
Lemma completed_reachable cs s i w seen calls :
  sc_reachable (ScSys s i w) -> bm_dom (start s) ⊆ seen ->
  (size (seen ∪ threads cs) <= bm_max (start s))%nat -> completed seen i cs = Some calls ->
  exists i', sc_reachable (ScSys (run_all (call_prog <$> cs) s) i'
    (w ++ (calls ≫= fun c => call_records ua (done_ts c) (done_id c) (done_env c)))).
Proof.
  revert s i w seen calls. induction cs as [|[args e | args e] cs IH]; intros s i w seen calls Hr Hdom Hsize;
    pose proof (sci_args _ (sc_reachable_inv _ Hr)) as Ha; cbn [sys_st] in Ha; cbn [completed].
  - intros [= <-]. exists i. cbn. by rewrite app_nil_r.
  - destruct (i !! _) eqn:Hi; [done|]. intros Hc. destruct (enter_start args e s Ha) as [Hm Hd].
    cbn [threads] in Hsize. eapply IH; [| | |exact Hc].
    + eapply rtc_r; [exact Hr|]. apply ScEnter; [done|].
      destruct (decide (lo32 (current_pid_tgid e) ∈ bm_dom (start s))) as [Hin | Hin];
        [left; by apply bm_elem_of_dom | right].
      eapply Nat.lt_le_trans; [|exact Hsize]. apply subset_size. set_solver.
    + set_solver.
    + cbn [call_prog]. rewrite Hm. etrans; [|exact Hsize]. apply subseteq_size. set_solver.
  - cbn [threads] in Hsize. destruct (i !! _) as [[[pt id] ts]|] eqn:Hi.
    + destruct (_ && _) eqn:Hok; [|done]. apply andb_true_iff in Hok as [->%Z.eqb_eq Hid%orb_true_iff].
      rewrite !Z.eqb_eq in Hid. destruct (completed seen _ cs) as [more|] eqn:Hc; [|done].
      intros [= <-]. destruct (IH (run (sys_exit args e) s).2 (delete (lo32 (current_pid_tgid e)) i)
        (w ++ call_records ua ts (raw_id args) e) seen more) as [i' Hi']; [| | |done|].
      * eapply rtc_r; [exact Hr|]. by eapply ScExit.
      * by rewrite exit_keeps_start.
      * by rewrite exit_keeps_start.
      * exists i'. cbn [mbind list_bind done_ts done_id done_env]. by rewrite app_assoc.
    + case_decide as Hin; [done|]. intros Hc. eapply IH; [| | |exact Hc].
      * eapply rtc_r; [exact Hr|]. apply ScLate; [done|].
        destruct (bm_lookup (start s) _) eqn:Hl; [|done]. destruct Hin. apply Hdom, bm_elem_of_dom. by rewrite Hl.
      * cbn [call_prog]; by rewrite exit_keeps_start.
      * cbn [call_prog]; by rewrite exit_keeps_start.
Qed.

Lemma completed_records cs calls :
  completed ∅ ∅ cs = Some calls -> (size (threads cs) <= MAX_ENTRIES)%nat ->
  perf_map (run_all (call_prog <$> cs) (sc_init (Some ua))) =
    calls ≫= fun c => call_records ua (done_ts c) (done_id c) (done_env c).
Proof.
  intros Hc Hs. destruct (completed_reachable cs (sc_init (Some ua)) ∅ [] ∅ calls) as [i' Hr]; [| | |done|].
  - apply rtc_refl.
  - intros t. rewrite bm_elem_of_dom. cbn. rewrite bm_lookup_create. by intros [].
  - cbn. by rewrite (left_id_L ∅ (∪)), bm_max_create.
  - by apply sc_reachable_inv in Hr as [_ _ Hsent].
Qed.

(** * The tracer when [start] is full *)

(** [start] is full and [tid] is not in it; every entry is filed under the tid
    it holds. *)
Record blind_to (tid : Z) (w : list syscall_event) (s : sc_state) : Prop := {
  bl_args : args_map s = Some ua;
  bl_full : (bm_max (start s) <= size (bm_dom (start s)))%nat;
  bl_tid : bm_lookup (start s) tid = None;
  bl_keys t ev : bm_lookup (start s) t = Some ev -> ev_tid ev = t;
  bl_sent : filter (fun ev => ev_tid ev = tid) (perf_map s) = w
}.

Lemma blind_to_update tid w t pt ts s :
  lo32 pt = t -> blind_to tid w s ->
  blind_to tid w (s <| start := (bm_update (start s) t (entered pt ts) BPF_ANY).2 |>).
Proof.
  intros <- [Ha Hf Ht Hk Hw].
  destruct (bm_lookup (start s) (lo32 pt)) as [ev|] eqn:Hl.
  - assert (Hok : (bm_update (start s) (lo32 pt) (entered pt ts) BPF_ANY).1 = 0)
      by by apply bm_update_any.
    split; cbn; [done | | | |done].
    + rewrite bm_max_update, bm_dom_update by done.
      etrans; [exact Hf|]. apply subseteq_size. set_solver.
    + rewrite bm_update_ok by done. case_decide; congruence.
    + intros t ev'. rewrite bm_update_ok by done. case_decide; [|apply Hk].
      by intros [= <-].
  - rewrite bm_update_err; [by split|]. rewrite bm_update_room by auto. lia.
Qed.

Lemma blind_to_run tid w c s :
  blind_to tid w s -> blind_to tid w (run (call_prog c) s).2.
Proof.
  intros Hs. pose proof (bl_args _ _ _ Hs) as Ha. destruct c as [args e | args e]; cbn [call_prog].
  - rewrite (sys_enter_run ua) by done. case_match; [|done]. by apply blind_to_update.
  - rewrite (sys_exit_run ua) by done.
    destruct (bm_lookup (start s) (lo32 (current_pid_tgid e))) as [ev|] eqn:Hev; [|done].
    case_match; [|done]. destruct Hs as [_ Hf Ht Hk Hw]. split; cbn; try done.
    rewrite filter_app, Hw, filter_cons_False; [by rewrite app_nil_r|].
    assert (ev_tid (fill_event ua ev (u64 (ktime_ns e - ts_ns ev)) (u32 (raw_id args)) e) = ev_tid ev)
      as -> by (unfold fill_event; by destruct (arg_stack ua)).
    rewrite (Hk _ _ Hev). intros <-. congruence.
Qed.

(** Entries of [start] are never removed: once it is full, a thread that is
    not in it is never traced again, whatever calls it and the other threads
    make, until the tracer is restarted. *)
Lemma full_start_is_blind tid s cs :
  args_map s = Some ua ->
  (bm_max (start s) <= size (bm_dom (start s)))%nat ->
  bm_lookup (start s) tid = None ->
  (forall t ev, bm_lookup (start s) t = Some ev -> ev_tid ev = t) ->
  let s' := run_all (call_prog <$> cs) s in
  bm_lookup (start s') tid = None /\
  filter (fun ev => ev_tid ev = tid) (perf_map s') =
    filter (fun ev => ev_tid ev = tid) (perf_map s).
Proof.
  intros Ha Hf Ht Hk s'.
  assert (H : blind_to tid (filter (fun ev => ev_tid ev = tid) (perf_map s)) s'); [|by destruct H].
  apply run_all_invariant; [|by split].
  intros p s1 (c & -> & _)%list_elem_of_fmap. by apply blind_to_run.
Qed.

(** An exit that has no matching entry -- the first one of a thread whose tid
    was used before -- is reported with the time since the old thread's last
    entry, because that entry is still there. *)
Lemma stale_entry_reported args args' e e' e'' s :
  args_map s = Some ua ->
  (bm_update (start s) (lo32 (current_pid_tgid e))
     (entered (current_pid_tgid e) (ktime_ns e)) BPF_ANY).1 = 0 ->
  lo32 (current_pid_tgid e') = lo32 (current_pid_tgid e) ->
  lo32 (current_pid_tgid e'') = lo32 (current_pid_tgid e) ->
  call_traced ua (current_pid_tgid e) (raw_id args) = true ->
  call_traced ua (current_pid_tgid e'') (raw_id args') = true ->
  raw_id args' <> -1 ->
  in_window ua (u64 (ktime_ns e'' - ktime_ns e)) = true ->
  exists w ev,
    perf_map (run_all [sys_enter args e; sys_exit args e'; sys_exit args' e''] s) =
      perf_map s ++ w ++ [ev] /\
    ts_ns ev = ktime_ns e /\ ev_syscall_id ev = u32 (raw_id args') /\
    dur_us ev = u64 (ktime_ns e'' - ktime_ns e) / 1000.
Proof.
  intros Ha Hok He' He'' Ht Ht'' Hid Hwin. cbn [run_all foldl].
  rewrite (sys_enter_run ua), Ht by done.
  match goal with |- context [run (sys_exit args e') ?st] => set (s1 := st) end.
  assert (Ha1 : args_map s1 = Some ua) by done.
  assert (Hl : bm_lookup (start s1) (lo32 (current_pid_tgid e)) =
    Some (entered (current_pid_tgid e) (ktime_ns e))) by by apply bm_update_ok_eq.
  assert (H2 : exists w, (run (sys_exit args e') s1).2 = s1 <| perf_map := perf_map s ++ w |>).
  { rewrite (sys_exit_run ua), He', Hl by done.
    case_if; [by eexists | exists []; by rewrite app_nil_r]. }
  destruct H2 as [w ->]. rewrite (sys_exit_run ua) by done. cbn [start].
  rewrite He'', Hl, Ht''. cbn [ts_ns entered zero_event].
  rewrite Hwin, (proj2 (Z.eqb_neq _ _)) by done. cbn [negb andb perf_map].
  exists w. eexists. rewrite <- app_assoc. split; [done|].
  unfold fill_event. by destruct (arg_stack ua).
Qed.
End System.

(** * Examples *)

(** Calls of at least 10 ms, of any process and any kind. *)
Definition slow_args : user_args := {|
  arg_pid := 0; arg_tid := 0; min_syscall_ms := 10; max_syscall_ms := 100000;
  arg_stack := true; arg_syscall_id := UINT32_MAX |}.

Definition sc_env (tgid tid ts : Z) : bpf_env := {|
  ktime_ns := ts; current_pid_tgid := tgid * 2 ^ 32 + tid; smp_processor_id := 0;
  current_comm := replicate TASK_COMM_LEN 97; stackid := fun flags => flags + 1 |}.

Definition read_call : raw_sys := {| raw_id := 0 |}.
Definition futex_call : raw_sys := {| raw_id := 202 |}.

Definition after_enter : sc_sys :=
  ScSys (run (sys_enter futex_call (sc_env 7 70 1000)) (sc_init (Some slow_args))).2
    (<[lo32 (7 * 2 ^ 32 + 70) := (7 * 2 ^ 32 + 70, 202, 1000)]> ∅) [].

Definition after_exit : sc_sys :=
  ScSys (run (sys_exit futex_call (sc_env 7 70 20001000)) (sys_st after_enter)).2
    (delete (lo32 (7 * 2 ^ 32 + 70)) (sys_inside after_enter))
    (sys_sent after_enter ++ call_records slow_args 1000 202 (sc_env 7 70 20001000)).

Lemma after_exit_reachable : sc_reachable slow_args after_exit.
Proof.
  apply (rtc_l _ _ after_enter); [|apply rtc_once].
  - apply (ScEnter slow_args futex_call (sc_env 7 70 1000)); [reflexivity|]. right.
    apply Nat.ltb_lt. vm_compute. reflexivity.
  - apply (ScExit slow_args futex_call (sc_env 7 70 20001000) _ _ _ 202 1000);
      [vm_compute; reflexivity|]. by left.
Qed.

Lemma records_are_slow_calls_witness :
  perf_map (sys_st after_exit) =
    [{| ev_pid := 7; ev_tid := 70; ts_ns := 1000; dur_us := 20000; u_stack_id := 769;
        k_stack_id := 513; ev_syscall_id := 202; ev_comm := replicate TASK_COMM_LEN 97 |}].
Proof.
  rewrite (records_are_slow_calls slow_args after_exit after_exit_reachable).
  vm_compute. reflexivity.
Defined.

(** [start] holds one entry at most, and thread 5 has it. *)
Definition full_start : sc_state :=
  (sc_init (Some slow_args)) <| start := CMap 1 {[ 5 := entered 5 0 ]} |>.

Lemma full_start_is_blind_witness :
  perf_map (run_all (call_prog <$> [CallEnter futex_call (sc_env 7 70 1000);
    CallExit futex_call (sc_env 7 70 20001000)]) full_start) = [].
Proof.
  pose proof (full_start_is_blind slow_args 70 full_start [CallEnter futex_call (sc_env 7 70 1000);
    CallExit futex_call (sc_env 7 70 20001000)] eq_refl) as H.
  vm_compute in H |- *. destruct H as [_ H]; [lia | done | | exact H].
  intros t ev. simpl. destruct (decide (t = 5)) as [-> | Hne].
  - vm_compute. by intros [= <-].
  - intros Hl. exfalso. revert Hl. change (({[ 5 := entered 5 0 ]} : gmap Z _) !! t = Some ev -> False).
    by rewrite lookup_singleton_ne.
Defined.

Lemma stale_entry_reported_witness :
  exists w ev,
    perf_map (run_all [sys_enter read_call (sc_env 7 70 0); sys_exit read_call (sc_env 7 70 100);
      sys_exit futex_call (sc_env 8 70 60000000000)] (sc_init (Some slow_args))) = w ++ [ev] /\
    ts_ns ev = 0 /\ dur_us ev = 60000000.
Proof.
  destruct (stale_entry_reported slow_args read_call futex_call (sc_env 7 70 0) (sc_env 7 70 100)
    (sc_env 8 70 60000000000) (sc_init (Some slow_args))) as (w & ev & Hw & Hts & _ & Hdur);
    try reflexivity; [done|]. exists w, ev. split_and!; [exact Hw | exact Hts | exact Hdur].
Defined.
