(* ===== verification/CacheStat.v ===== *)
(** The page-cache statistics: pkg/ebpf/mem/cachestat/cachestat.bpf.c and
    cachestat.h.

    [vfs_write_hook] and [vfs_read_hook] run at the entry of the kernel's
    vfs_write and vfs_read and add the size of the request to the entry that
    [cachestat_map] keeps for the process and the file. *)
From S2P Require Import Prelude Prog BpfMap.
Open Scope Z_scope.
Open Scope bpf_scope.

(** * Data *)

Definition CACHE_FILE_SIZE : nat := 64.
Definition CACHESTAT_MAP_SIZE : nat := Z.to_nat 10240.
#[global] Arguments CACHESTAT_MAP_SIZE : simpl never.
Definition CACHESTAT_MAX_ENTRIES : nat := CACHESTAT_MAP_SIZE.
#[global] Arguments CACHESTAT_MAX_ENTRIES : simpl never.

Definition READ_WRITE_CACHE : Z := 0.
Definition READ_CACHE : Z := 1.
Definition WRITE_CACHE : Z := 2.

Record user_args := {
  arg_pid : Z;
  cache_type : Z;
  arg_cpu : Z;
  arg_pad : Z
}.

(** [ck_file] is the address of the file's name. *)
Record cache_key := { ck_pid : Z; ck_file : Z }.

Record cache_info := {
  ci_pid : Z;
  ci_cpu : Z;
  ci_comm : list Z;
  ci_file : list Z;
  read_size : Z;
  write_size : Z;
  cnt : Z
}.

#[export] Instance eta_cache_info : Eta cache_info := fun r => {|
  ci_pid := ci_pid r; ci_cpu := ci_cpu r; ci_comm := ci_comm r; ci_file := ci_file r;
  read_size := read_size r; write_size := write_size r; cnt := cnt r |}.

#[export] Instance cache_key_eq_dec : EqDecision cache_key.
Proof. solve_decision. Defined.

#[export] Instance cache_key_countable : Countable cache_key.
Proof.
  refine (inj_countable' (fun k => (ck_pid k, ck_file k))
    (fun t => Build_cache_key t.1 t.2) _).
  by intros [].
Defined.

(** The registers of the probed call that the hooks read. *)
Record vfs_regs := { parm1 : Z; parm3 : Z }.

(** What the probe reads of the kernel's memory return (0 where the address is
    not readable): [f->f_path.dentry], [de->d_name.name] and the bytes at an
    address. *)
Record vfs_mem := {
  file_dentry : Z -> Z;
  dentry_name : Z -> Z;
  kernel_bytes : Z -> nat -> list Z
}.

Section CacheStat.
Context {BM : BpfMaps}.

(** The maps.  [args_map] is what a lookup of its entry 0 returns. *)
Record cs_state := {
  cachestat_map : bmap cache_key cache_info;
  args_map : option user_args
}.

#[export] Instance eta_cs_state : Eta cs_state := fun r => {|
  cachestat_map := cachestat_map r; args_map := args_map r |}.

Definition cs_init (a : option user_args) : cs_state := {|
  cachestat_map := bm_create CACHESTAT_MAX_ENTRIES; args_map := a |}.

Definition l_cache : lens cs_state (bmap cache_key cache_info) :=
  Lens cachestat_map (fun m s => s <| cachestat_map := m |>).

(** The filters on the process and the CPU, the same in both hooks. *)
Definition cs_filter (a : user_args) (pid cpu : Z) : bool :=
  negb (negb (arg_pid a =? UINT32_MAX) && negb (arg_pid a =? pid)) &&
  negb (negb (arg_cpu a =? UINT32_MAX) && negb (arg_cpu a =? cpu)).

(** [cache_info.file]: the name, or a question mark. *)
Definition file_field (mem : vfs_mem) (name : Z) : list Z :=
  if negb (name =? 0) then kernel_bytes mem name CACHE_FILE_SIZE
  else <[0%nat := 63]> (replicate CACHE_FILE_SIZE 0).

(** [cache_info], zero but for the fields both hooks set. *)
Definition new_info (mem : vfs_mem) (name pid : Z) (e : bpf_env) : cache_info := {|
  ci_pid := u32 pid;
  ci_cpu := smp_processor_id e;
  ci_comm := current_comm e;
  ci_file := file_field mem name;
  read_size := 0;
  write_size := 0;
  cnt := 1 |}.

(** [vfs_write_hook], at kprobe/vfs_write *)
Definition vfs_write_hook (ctx : vfs_regs) (mem : vfs_mem) (e : bpf_env) : prog cs_state Z :=
  let pid_tgid := current_pid_tgid e in
  let cpu := smp_processor_id e in
  let pid := hi32 pid_tgid in
  args <- get args_map ;;
  match args with
  | None => Ret 0
  | Some args =>
      if negb (cs_filter args pid cpu) then Ret 0 else
      if cache_type args =? READ_CACHE then Ret 0 else
      let de := file_dentry mem (parm1 ctx) in
      let name := dentry_name mem de in
      let count := s32 (parm3 ctx) in
      let key := {| ck_pid := pid; ck_file := name |} in
      info <- map_lookup l_cache key ;;
      match info with
      | None =>
          let cache_info := (new_info mem name pid e) <| write_size := u64 count |> in
          map_update l_cache key cache_info BPF_ANY ;;;
          Ret 0
      | Some i0 =>
          store l_cache key (fun i => i <| ci_cpu := cpu |>) ;;;
          w <- load l_cache key i0 write_size ;;
          store l_cache key (fun i => i <| write_size := u64 (w + count) |>) ;;;
          c <- load l_cache key i0 cnt ;;
          store l_cache key (fun i => i <| cnt := u64 (c + 1) |>) ;;;
          Ret 0
      end
  end.

(** [vfs_read_hook], at kprobe/vfs_read *)
Definition vfs_read_hook (ctx : vfs_regs) (mem : vfs_mem) (e : bpf_env) : prog cs_state Z :=
  let pid_tgid := current_pid_tgid e in
  let cpu := smp_processor_id e in
  let pid := hi32 pid_tgid in
  args <- get args_map ;;
  match args with
  | None => Ret 0
  | Some args =>
      if negb (cs_filter args pid cpu) then Ret 0 else
      if cache_type args =? WRITE_CACHE then Ret 0 else
      let de := file_dentry mem (parm1 ctx) in
      let name := dentry_name mem de in
      let count := s32 (parm3 ctx) in
      let key := {| ck_pid := pid; ck_file := name |} in
      info <- map_lookup l_cache key ;;
      match info with
      | None =>
          let cache_info := (new_info mem name pid e) <| read_size := u64 count |> in
          map_update l_cache key cache_info BPF_ANY ;;;
          Ret 0
      | Some i0 =>
          store l_cache key (fun i => i <| ci_cpu := cpu |>) ;;;
          r <- load l_cache key i0 read_size ;;
          store l_cache key (fun i => i <| read_size := u64 (r + count) |>) ;;;
          c <- load l_cache key i0 cnt ;;
          store l_cache key (fun i => i <| cnt := u64 (c + 1) |>) ;;;
          Ret 0
      end
  end.
End CacheStat.
