(* ===== verification/CacheStatSpec.v ===== *)
(** What the page-cache statistics add up to: properties of [CacheStat]. *)
From S2P Require Import Prelude Prog BpfMap CacheStat.
Open Scope Z_scope.
Open Scope bpf_scope.

(** * Reference behaviour *)

(** A call of vfs_write or vfs_read, with the registers, the memory and the task
    its hook sees. *)
Record vfs_op := VfsOp {
  is_write : bool;
  op_regs : vfs_regs;
  op_mem : vfs_mem;
  op_env : bpf_env
}.

Definition op_prog `{BpfMaps} (o : vfs_op) : prog cs_state Z :=
  if is_write o then vfs_write_hook (op_regs o) (op_mem o) (op_env o)
  else vfs_read_hook (op_regs o) (op_mem o) (op_env o).

Definition op_pid (o : vfs_op) : Z := hi32 (current_pid_tgid (op_env o)).
Definition op_name (o : vfs_op) : Z :=
  dentry_name (op_mem o) (file_dentry (op_mem o) (parm1 (op_regs o))).
Definition op_key (o : vfs_op) : cache_key := {| ck_pid := op_pid o; ck_file := op_name o |}.

(** The size of the request, as the hook sees it. *)
Definition op_count (o : vfs_op) : Z := s32 (parm3 (op_regs o)).
Definition op_written (o : vfs_op) : Z := if is_write o then op_count o else 0.
Definition op_read (o : vfs_op) : Z := if is_write o then 0 else op_count o.

(** Whether the user asked for this kind of call, process and CPU. *)
Definition op_accepted (a : user_args) (o : vfs_op) : bool :=
  cs_filter a (op_pid o) (smp_processor_id (op_env o)) &&
  negb (cache_type a =? if is_write o then READ_CACHE else WRITE_CACHE).

(** The entry that the calls [ops] of one process on one file add up to. *)
Definition total_of (ops : list vfs_op) : option cache_info :=
  match ops with
  | [] => None
  | o :: _ => Some {|
      ci_pid := op_pid o;
      ci_cpu := smp_processor_id (op_env (List.last ops o));
      ci_comm := current_comm (op_env o);
      ci_file := file_field (op_mem o) (op_name o);
      read_size := u64 (sumZ op_read ops);
      write_size := u64 (sumZ op_written ops);
      cnt := u64 (Z.of_nat (length ops)) |}
  end.

(** The entry after one more call. *)
Definition add_op (o : vfs_op) (i : cache_info) : cache_info := {|
  ci_pid := ci_pid i;
  ci_cpu := smp_processor_id (op_env o);
  ci_comm := ci_comm i;
  ci_file := ci_file i;
  read_size := if is_write o then read_size i else u64 (read_size i + op_count o);
  write_size := if is_write o then u64 (write_size i + op_count o) else write_size i;
  cnt := u64 (cnt i + 1) |}.

(** The entry a first call makes. *)
Definition first_info (o : vfs_op) : cache_info := {|
  ci_pid := u32 (op_pid o);
  ci_cpu := smp_processor_id (op_env o);
  ci_comm := current_comm (op_env o);
  ci_file := file_field (op_mem o) (op_name o);
  read_size := if is_write o then 0 else u64 (op_count o);
  write_size := if is_write o then u64 (op_count o) else 0;
  cnt := 1 |}.

Lemma total_of_one o :
  is_u64 (current_pid_tgid (op_env o)) -> total_of [o] = Some (first_info o).
Proof.
  intros Ho. unfold total_of, first_info.
  rewrite !sumZ_cons, !sumZ_nil, !Z.add_0_r, (uN_id 32 (op_pid o)) by by apply hi32_range.
  unfold op_read, op_written. by destruct (is_write o).
Qed.

Lemma total_of_snoc ops o i :
  total_of ops = Some i -> total_of (ops ++ [o]) = Some (add_op o i).
Proof.
  destruct ops as [|o1 ops]; [done|]. intros [= <-].
  change ((o1 :: ops) ++ [o]) with (o1 :: (ops ++ [o])). unfold total_of, add_op.
  change (o1 :: (ops ++ [o])) with ((o1 :: ops) ++ [o]).
  rewrite last_last, !sumZ_app, length_app, !sumZ_cons, !sumZ_nil.
  cbn [read_size write_size cnt ci_pid ci_comm ci_file]. f_equal. f_equal.
  - unfold op_read. destruct (is_write o); rewrite ?uN_add_l by lia; f_equal; lia.
  - unfold op_written. destruct (is_write o); rewrite ?uN_add_l by lia; f_equal; lia.
  - rewrite uN_add_l by lia. f_equal. cbn [length]. lia.
Qed.

(** * Runs *)

Section Runs.
Context {BM : BpfMaps} {BL : BpfMapsLaws BM}.
Implicit Types (s : cs_state) (k : cache_key).

(** An accepted call is added to the entry of its key, or makes a new one. *)
Lemma op_prog_run a o s :
  args_map s = Some a ->
  (run (op_prog o) s).2 =
    if op_accepted a o then
      s <| cachestat_map :=
        match bm_lookup (cachestat_map s) (op_key o) with
        | None => (bm_update (cachestat_map s) (op_key o) (first_info o) BPF_ANY).2
        | Some i =>
            bm_store (bm_store (bm_store (cachestat_map s) (op_key o)
              (fun i => i <| ci_cpu := smp_processor_id (op_env o) |>)) (op_key o)
              (fun i' => if is_write o then i' <| write_size := u64 (write_size i + op_count o) |>
                         else i' <| read_size := u64 (read_size i + op_count o) |>)) (op_key o)
              (fun i' => i' <| cnt := u64 (cnt i + 1) |>)
        end |>
    else s.
Proof.
  intros Ha. destruct o as [w ctx mem e].
  unfold op_prog, op_accepted, first_info, op_key, op_count, op_name, op_pid.
  cbn [is_write op_regs op_mem op_env].
  set (pid := hi32 (current_pid_tgid e)).
  set (name := dentry_name mem (file_dentry mem (parm1 ctx))).
  destruct w; (unfold vfs_write_hook || unfold vfs_read_hook); cbn [bind get act run fst snd];
    rewrite Ha; fold pid; fold name;
    (destruct (cs_filter a _ _); [|done]); cbn [negb andb].
  all: destruct (cache_type a =? _); [done|]; cbn [negb map_lookup get act bind run fst snd].
  all: cbn [l_cache lget].
  all: destruct (bm_lookup (cachestat_map s) {| ck_pid := pid; ck_file := name |}) as [i|] eqn:Hi.
  all: cbn; rewrite ?bm_store_eq, ?Hi; cbn; by rewrite ?Ha.
Qed.
End Runs.

(** * The statistics over time *)

Section System.
Context {BM : BpfMaps} {BL : BpfMapsLaws BM} (a : user_args).
Implicit Types (s : cs_state) (k : cache_key).

Definition op_ok (o : vfs_op) : Prop := is_u64 (current_pid_tgid (op_env o)).

(** The accepted calls, and those of one key. *)
Definition accepted (ops : list vfs_op) : list vfs_op :=
  filter (fun o => op_accepted a o = true) ops.
Definition ops_of k (ops : list vfs_op) : list vfs_op := filter (fun o => op_key o = k) ops.

Record stats_of (ops : list vfs_op) s : Prop := {
  so_args : args_map s = Some a;
  so_max : bm_max (cachestat_map s) = CACHESTAT_MAX_ENTRIES;
  so_dom : bm_dom (cachestat_map s) = admitted CACHESTAT_MAX_ENTRIES ∅ (op_key <$> ops);
  so_total k : k ∈ bm_dom (cachestat_map s) ->
    bm_lookup (cachestat_map s) k = total_of (ops_of k ops)
}.

Lemma stats_of_init : stats_of [] (cs_init (Some a)).
Proof.
  split; cbn; [done | apply bm_max_create | apply bm_dom_create |].
  rewrite bm_dom_create. set_solver.
Qed.

Lemma ops_of_snoc k ops o :
  ops_of k (ops ++ [o]) = ops_of k ops ++ if decide (op_key o = k) then [o] else [].
Proof.
  unfold ops_of. rewrite filter_app. case_decide.
  - by rewrite filter_cons_True.
  - by rewrite filter_cons_False.
Qed.

Lemma keys_snoc ops o : op_key <$> (ops ++ [o]) = (op_key <$> ops) ++ [op_key o].
Proof. by rewrite fmap_app. Qed.

(** A key that is missing although it occurred means that the map is full. *)
Lemma ops_of_new k ops s :
  stats_of ops s -> k ∉ bm_dom (cachestat_map s) ->
  (size (bm_dom (cachestat_map s)) < CACHESTAT_MAX_ENTRIES)%nat -> ops_of k ops = [].
Proof.
  intros [_ _ Hd _] Hk Hsize. rewrite Hd in Hk, Hsize.
  destruct (ops_of k ops) as [|o l] eqn:E; [done|]. exfalso.
  assert (Ho : o ∈ ops_of k ops) by (rewrite E; left).
  apply list_elem_of_filter in Ho as [<- Ho].
  apply admitted_full in Hk; [lia | by apply list_elem_of_fmap_2].
Qed.

Lemma stats_of_add ops o s i :
  op_accepted a o = true -> stats_of ops s ->
  bm_lookup (cachestat_map s) (op_key o) = Some i ->
  stats_of (ops ++ [o]) (run (op_prog o) s).2.
Proof.
  intros Hacc [Ha Hm Hd Ht] Hi. rewrite (op_prog_run a), Hacc, Hi by done.
  assert (Hk : op_key o ∈ bm_dom (cachestat_map s)) by (rewrite bm_elem_of_dom; by eexists).
  split; cbn; [done | by rewrite !bm_max_store | |].
  - rewrite !bm_dom_store, keys_snoc, admitted_snoc. cbn zeta. rewrite <- Hd. by rewrite decide_True.
  - intros k. rewrite !bm_dom_store, !bm_lookup_store, ops_of_snoc. intros Hkd.
    case_decide as Hok; [subst k|by rewrite app_nil_r, <- Ht].
    rewrite Hi. symmetry. erewrite total_of_snoc by (by rewrite <- Ht). cbn. f_equal.
    unfold add_op. by destruct (is_write o).
Qed.

Lemma stats_of_new ops o s :
  op_ok o -> op_accepted a o = true -> stats_of ops s ->
  bm_lookup (cachestat_map s) (op_key o) = None ->
  stats_of (ops ++ [o]) (run (op_prog o) s).2.
Proof.
  intros Ho Hacc Hs Hi. pose proof Hs as [Ha Hm Hd Ht].
  rewrite (op_prog_run a), Hacc, Hi by done.
  assert (Hk : op_key o ∉ bm_dom (cachestat_map s)) by (rewrite bm_elem_of_dom, Hi; by intros []).
  pose proof (bm_update_room (cachestat_map s) (op_key o) (first_info o) BPF_ANY ltac:(auto) Hi)
    as Hroom. rewrite Hm in Hroom.
  split; cbn; [done | by rewrite bm_max_update | |].
  - rewrite keys_snoc, admitted_snoc. cbn zeta. rewrite <- Hd, decide_False by done.
    destruct (Nat.ltb_spec (size (bm_dom (cachestat_map s))) CACHESTAT_MAX_ENTRIES).
    + by apply bm_dom_update, Hroom.
    + rewrite bm_update_err; [done|]. rewrite Hroom. lia.
  - intros k Hkd. rewrite bm_update_cases, ops_of_snoc.
    destruct (decide ((bm_update (cachestat_map s) (op_key o) (first_info o) BPF_ANY).1 = 0))
      as [Hok | Herr].
    + rewrite bm_dom_update in Hkd by done. destruct (decide (op_key o = k)) as [<- | Hne].
      * rewrite decide_True, (ops_of_new _ ops s) by (done || by apply Hroom).
        symmetry. by apply total_of_one.
      * rewrite decide_False, app_nil_r by naive_solver. apply Ht. set_solver.
    + rewrite bm_update_err in Hkd by done.
      rewrite !decide_False, app_nil_r by naive_solver. by apply Ht.
Qed.

Lemma stats_of_op ops o s :
  op_ok o -> op_accepted a o = true -> stats_of ops s ->
  stats_of (ops ++ [o]) (run (op_prog o) s).2.
Proof.
  intros. destruct (bm_lookup (cachestat_map s) (op_key o)) eqn:?;
    [by eapply stats_of_add | by apply stats_of_new].
Qed.

Lemma stats_of_run_all ops : forall ops0 s,
  Forall op_ok ops -> stats_of ops0 s ->
  stats_of (ops0 ++ accepted ops) (run_all (op_prog <$> ops) s).
Proof.
  induction ops as [|o ops IH]; intros ops0 s Hok Hs.
  { unfold accepted. cbn. by rewrite app_nil_r. }
  apply Forall_cons in Hok as [Ho Hok]. unfold accepted in *. cbn [fmap list_fmap run_all foldl].
  destruct (op_accepted a o) eqn:E.
  - rewrite filter_cons_True by done.
    change (ops0 ++ o :: filter _ ops) with (ops0 ++ [o] ++ filter (fun o => op_accepted a o = true) ops).
    rewrite app_assoc. apply IH; [done|]. by apply stats_of_op.
  - rewrite filter_cons_False by by rewrite E.
    rewrite (op_prog_run a), E by apply Hs. by apply IH.
Qed.

(** C20: after any sequence of calls of vfs_write and vfs_read, the entry of a
    process and a file holds the total of the accepted calls -- the bytes
    requested by writes, those requested by reads and the number of calls, modulo
    the 64 bits of the counters, with the last CPU -- and only keys beyond the
    10240 first ones are missing. *)
Theorem cache_totals ops k :
  Forall op_ok ops ->
  bm_lookup (cachestat_map (run_all (op_prog <$> ops) (cs_init (Some a)))) k =
    if decide (k ∈ admitted CACHESTAT_MAX_ENTRIES ∅ (op_key <$> accepted ops))
    then total_of (ops_of k (accepted ops)) else None.
Proof.
  intros Hok. destruct (stats_of_run_all ops [] _ Hok stats_of_init) as [_ _ Hd Ht].
  cbn in Hd, Ht. rewrite <- Hd. case_decide as Hk; [by apply Ht|].
  rewrite bm_elem_of_dom in Hk. by apply eq_None_not_Some.
Qed.
End System.

(** The size of a request is cut down to an [int]: a write of 2 to 4 GiB is
    accounted as a negative number of bytes and lowers the total. *)
Lemma large_write_lowers_total {BM : BpfMaps} {BL : BpfMapsLaws BM} a o i (s : cs_state) :
  args_map s = Some a -> is_write o = true -> op_accepted a o = true ->
  2 ^ 31 <= parm3 (op_regs o) < 2 ^ 32 ->
  bm_lookup (cachestat_map s) (op_key o) = Some i ->
  2 ^ 32 <= write_size i < 2 ^ 64 ->
  exists i', bm_lookup (cachestat_map (run (op_prog o) s).2) (op_key o) = Some i' /\
    write_size i' = write_size i - (2 ^ 32 - parm3 (op_regs o)).
Proof.
  intros Ha Hw Hacc Hn Hi Hi'. rewrite (op_prog_run a), Hacc, Hi, Hw by done. cbn.
  rewrite !bm_store_eq, Hi. eexists. split; [reflexivity|]. cbn.
  unfold op_count, sN. cbv zeta. rewrite (uN_id 32) by (split; lia).
  rewrite (proj2 (Z.ltb_ge _ _)) by lia. rewrite uN_id; [lia|]. split; lia.
Qed.

(** * Examples *)

(** Every process and CPU, reads and writes. *)
Definition cs_args : user_args :=
  {| arg_pid := UINT32_MAX; cache_type := READ_WRITE_CACHE; arg_cpu := UINT32_MAX; arg_pad := 0 |}.

Definition cs_mem : vfs_mem := {|
  file_dentry := fun f => f + 1; dentry_name := fun d => d + 1;
  kernel_bytes := fun _ n => replicate n 97 |}.

(** A call of process 7 on the file at 100, of [n] bytes, on a CPU. *)
Definition cs_op (w : bool) (n cpu : Z) : vfs_op := {|
  is_write := w; op_regs := {| parm1 := 100; parm3 := n |}; op_mem := cs_mem;
  op_env := {| ktime_ns := 0; current_pid_tgid := 7 * 2 ^ 32 + 70; smp_processor_id := cpu;
               current_comm := replicate TASK_COMM_LEN 98; stackid := fun _ => 0 |} |}.

Definition cs_key : cache_key := {| ck_pid := 7; ck_file := 102 |}.

Definition cs_info (r w c cpu : Z) : cache_info := {|
  ci_pid := 7; ci_cpu := cpu; ci_comm := replicate TASK_COMM_LEN 98;
  ci_file := replicate CACHE_FILE_SIZE 97; read_size := r; write_size := w; cnt := c |}.

Definition cs_ops : list vfs_op := [cs_op true 4096 0; cs_op false 10 1; cs_op true 100 2].

Lemma cache_totals_witness :
  bm_lookup (cachestat_map (run_all (op_prog <$> cs_ops) (cs_init (Some cs_args)))) cs_key =
    Some (cs_info 10 4196 3 2).
Proof.
  rewrite (cache_totals cs_args cs_ops cs_key).
  - vm_compute. reflexivity.
  - repeat constructor; by vm_compute.
Defined.

Definition cs_large : cs_state :=
  (cs_init (Some cs_args)) <| cachestat_map := CMap CACHESTAT_MAX_ENTRIES
    {[ cs_key := cs_info 0 (2 ^ 33) 1 0 ]} |>.

Lemma large_write_lowers_total_witness :
  exists i', bm_lookup (cachestat_map (run (op_prog (cs_op true (3 * 2 ^ 30) 0)) cs_large).2)
    cs_key = Some i' /\ write_size i' = 2 ^ 33 - 2 ^ 30.
Proof.
  refine (large_write_lowers_total cs_args (cs_op true (3 * 2 ^ 30) 0) (cs_info 0 (2 ^ 33) 1 0)
    cs_large eq_refl eq_refl eq_refl _ eq_refl _); vm_compute; split; congruence.
Defined.

(** The totals are updated by separate reads and writes: of two writes to
    the same file that run at the same time on two CPUs both can be counted and
    the bytes of one be lost. *)
Lemma cache_totals_race :
  let s0 := run_all [op_prog (cs_op true 1000 0)] (cs_init (Some cs_args)) in
  exists s', pool_runs [op_prog (cs_op true 200 0); op_prog (cs_op true 30 1)] s0 s' /\
    bm_lookup (cachestat_map s') cs_key = Some (cs_info 0 1200 3 1).
Proof.
  intros s0. set (ps := [op_prog (cs_op true 200 0); op_prog (cs_op true 30 1)]).
  exists (run_schedule ([0; 0; 0; 0] ++ replicate 7 1 ++ [0; 0; 0])%nat ps s0).2.
  split; [|vm_compute; reflexivity].
  apply run_schedule_pool_runs. vm_compute. repeat constructor.
Qed.
