(* ===== verification/CacheStatConc.v ===== *)
(** The page-cache statistics on several CPUs: the totals are updated by separate
    reads and writes, so calls can be lost but never counted twice. *)
From S2P Require Import Prelude Prog BpfMap ProgBounds CacheStat CacheStatSpec.
Open Scope Z_scope.
Open Scope bpf_scope.

(** * One total *)

Section Total.
Context {BM : BpfMaps} {BL : BpfMapsLaws BM} (a : user_args) (k : cache_key).
(** The member of the entries that is looked at. *)
Context (F : cache_info -> Z).

Definition total (s : cs_state) : Z := default 0 (F <$> bm_lookup (cachestat_map s) k).
Definition total_ok (s : cs_state) : Prop :=
  args_map s = Some a /\ forall k' i, bm_lookup (cachestat_map s) k' = Some i -> 0 <= F i.

Abbreviation bounded := (at_most total_ok total).
Abbreviation if_key k' n := (if decide (k' = k) then n else 0).

Lemma total_nonneg s : total_ok s -> 0 <= total s.
Proof. intros [_ Hs]. unfold total. destruct (bm_lookup _ k) eqn:E; [by eapply Hs | done]. Qed.

(** A write that leaves the total alone. *)
Lemma bounded_other {A} k' g (q : unit -> prog cs_state A) b n :
  (forall i, F (g i) = F i) -> bounded (q tt) b n -> bounded (bind (store l_cache k' g) q) b n.
Proof.
  intros Hg Hq. rewrite <- (Z.add_0_r n). apply at_most_put; [done | | done].
  intros b' s _ [Ha Hs] Hc. unfold total_ok, total in *. cbn. split; [split; [done|]|].
  - intros k1 i1. rewrite bm_lookup_store. case_decide; [|by apply Hs].
    destruct (bm_lookup _ k1) as [i|] eqn:Hi; [|done]. intros [= <-]. rewrite Hg. by eapply Hs.
  - rewrite bm_lookup_store, Z.add_0_r. case_decide; [|done]. by destruct (bm_lookup _ k); cbn; rewrite ?Hg.
Qed.

(** The total of the key [k'] is written. *)
Lemma bounded_write {A} k' g v (q : unit -> prog cs_state A) b n m :
  (forall i, F (g i) = v) -> 0 <= v -> 0 <= n -> (k' = k -> v <= b + n) ->
  bounded (q tt) b m -> bounded (bind (store l_cache k' g) q) b (m + if_key k' n).
Proof.
  intros Hg Hv Hn Hb Hq. apply at_most_put; [by case_decide | | done].
  intros b' s Hb' [Ha Hs] Hc. unfold total_ok, total in *. cbn. split; [split; [done|]|].
  - intros k1 i1. rewrite bm_lookup_store. case_decide; [|by apply Hs].
    destruct (bm_lookup _ k1) as [i|] eqn:Hi; [|done]. intros [= <-]. by rewrite Hg.
  - rewrite bm_lookup_store. case_decide as Hk; [|lia]. specialize (Hb Hk). subst k'.
    destruct (bm_lookup _ k); cbn in *; rewrite ?Hg; lia.
Qed.

(** A new entry. *)
Lemma bounded_new {A} k' i fl (q : Z -> prog cs_state A) b n m :
  0 <= F i <= n -> (forall e, bounded (q e) b m) ->
  bounded (bind (map_update l_cache k' i fl) q) b (m + if_key k' n).
Proof.
  intros Hi Hq. apply at_most_act; [case_decide; lia|].
  intros b' s Hb' Hs Hc. pose proof (total_nonneg s Hs). split; [|split].
  - destruct Hs as [Ha Hs]. split; [done|]. cbn. intros k1 i1. rewrite bm_update_cases.
    case_decide; [intros [= <-]; lia | by apply Hs].
  - unfold total in *. cbn. rewrite bm_update_cases.
    destruct (decide (k' = k)) as [-> |]; case_decide as Hd; cbn; try lia; by destruct Hd.
  - eapply at_most_mono; [apply Hq | case_decide; lia].
Qed.

(** What is read is below the bound that holds then. *)
Lemma bounded_read {A} k' i0 (q : Z -> prog cs_state A) b n :
  0 <= F i0 -> (k' = k -> F i0 <= b) ->
  (forall b' v, b <= b' -> 0 <= v -> (k' = k -> v <= b') -> bounded (q v) b' n) ->
  bounded (bind (load l_cache k' i0 F) q) b n.
Proof.
  intros H0 Hb Hq. apply at_most_get. intros b' s Hb' [Ha Hs] Hc. apply Hq; [done | |].
  - destruct (bm_lookup _ k') eqn:E; cbn; [by eapply Hs | done].
  - intros ->. unfold total in Hc. cbn. destruct (bm_lookup _ k) eqn:E; cbn in *; [done|].
    specialize (Hb eq_refl). lia.
Qed.

Lemma bounded_get {X A} (f : cs_state -> X) (q : X -> prog cs_state A) b n :
  (forall x b', b <= b' -> bounded (q x) b' n) -> bounded (bind (get f) q) b n.
Proof. intros Hq. apply at_most_get. intros b' s Hb _ _. by apply Hq. Qed.

(** What a call may add. *)
Context (contrib : vfs_op -> Z).
Definition op_adds (o : vfs_op) : Z :=
  if op_accepted a o then if_key (op_key o) (contrib o) else 0.

Lemma pool_total ops s' :
  Forall (fun o => forall b, bounded (op_prog o) b (op_adds o)) ops -> pool_runs (op_prog <$> ops) (cs_init (Some a)) s' ->
  total s' <= sumZ contrib (ops_of k (accepted a ops)).
Proof.
  intros Hops Hrun.
  destruct (pool_runs_at_most total_ok total _ _ _ 0 (op_adds <$> ops) Hrun) as [_ Hle].
  - split; [done|]. cbn. intros k0 v. by rewrite bm_lookup_create.
  - unfold total. cbn. by rewrite bm_lookup_create.
  - clear Hrun. induction Hops as [|o ops Ho _ IH]; constructor; [apply Ho | exact IH].
  - etrans; [exact Hle|]. apply Z.eq_le_incl. clear. induction ops as [|o ops IH]; [done|].
    cbn [fmap list_fmap]. rewrite sumZ_cons. unfold accepted, ops_of in *.
    change (o :: ops) with ([o] ++ ops). rewrite !filter_app, sumZ_app, <- IH. unfold id, op_adds.
    destruct (op_accepted a o) eqn:E.
    + rewrite (filter_cons_True _ o) by done. change (filter (fun o => op_accepted a o = true) []) with (@nil vfs_op).
      case_decide; [rewrite filter_cons_True by done | rewrite filter_cons_False by done]; cbn; lia.
    + rewrite (filter_cons_False _ o) by by rewrite E. cbn. lia.
Qed.
End Total.

(** * The three totals *)

Section Totals.
Context {BM : BpfMaps} {BL : BpfMapsLaws BM} (a : user_args) (k : cache_key).

(** Follow a hook behind its filters; [tac] treats the accesses to the total. *)
Ltac hook_filters o Hw :=
  apply at_most_get; intros ? ? _ [-> _] _; unfold op_adds, op_accepted; rewrite Hw; cbv beta iota zeta;
  change (hi32 (current_pid_tgid (op_env o))) with (op_pid o);
  change (dentry_name (op_mem o) (file_dentry (op_mem o) (parm1 (op_regs o)))) with (op_name o);
  change {| ck_pid := op_pid o; ck_file := op_name o |} with (op_key o);
  change (s32 (parm3 (op_regs o))) with (op_count o);
  destruct (cs_filter _ _ _); cbn [negb andb]; [|apply at_most_ret];
  destruct (cache_type _ =? _); cbn [negb]; [apply at_most_ret|];
  apply at_most_get; intros ? ? _ ? ?; cbn [lget l_cache];
  let Hi := fresh "Hi" in destruct (bm_lookup _ _) eqn:Hi.

(** The entry that was found is below the bound. *)
Lemma found_below F s b o i0 :
  total_ok a F s -> total k F s <= b -> bm_lookup (cachestat_map s) (op_key o) = Some i0 ->
  0 <= F i0 /\ (op_key o = k -> F i0 <= b).
Proof.
  intros [_ Hs] Hc Hi. split; [by eapply Hs|]. intros <-. unfold total in Hc. by rewrite Hi in Hc.
Qed.

Lemma u64_add_le v n : 0 <= v -> 0 <= n -> 0 <= u64 (v + n) <= v + n.
Proof. intros. split; [apply uN_range; lia | apply Z.mod_le; lia]. Qed.

Ltac found F :=
  match goal with
  | Ht : total_ok _ F ?s, Hc : total _ F ?s <= _, Hi : bm_lookup (cachestat_map ?s) _ = Some ?i |- _ =>
      destruct (found_below F s _ _ i Ht Hc Hi)
  end.

(** An access to another member. *)
Ltac skip :=
  match goal with
  | |- at_most _ _ (bind (store _ _ _) _) _ _ => apply bounded_other; [done|]
  | |- at_most _ _ (bind (load _ _ _ _) _) _ _ => apply bounded_get; intros ? ? ?
  end.

(** The member is raised by what a call of size [n] adds. *)
Ltac raise n :=
  apply bounded_read; [done | let Hk := fresh in intros Hk; etrans; [eauto | lia] |]; 
  let v := fresh "v" in let Hv := fresh "Hv" in let Hle := fresh "Hle" in intros ? v ? Hv Hle;
  pose proof (u64_add_le v n Hv ltac:(lia));
  match goal with |- at_most _ _ _ _ ?m => rewrite <- (Z.add_0_l m) end;
  apply bounded_write with (v := u64 (v + n)); [done | lia | lia | let Hk := fresh in intros Hk; specialize (Hle Hk); lia |].

Lemma cnt_bounded o b :
  at_most (total_ok a cnt) (total k cnt) (op_prog o) b (op_adds a k (fun _ => 1) o).
Proof.
  unfold op_prog. destruct (is_write o) eqn:Hw; [unfold vfs_write_hook | unfold vfs_read_hook];
    hook_filters o Hw.
  1, 3: found cnt; do 3 skip; raise 1; apply at_most_ret.
  all: rewrite <- (Z.add_0_l (if decide _ then _ else _)); apply bounded_new; [cbn; lia | done].
Qed.

Lemma written_bounded o b :
  0 <= op_count o ->
  at_most (total_ok a write_size) (total k write_size) (op_prog o) b (op_adds a k op_written o).
Proof.
  intros Hn. pose proof (u64_add_le 0 (op_count o) ltac:(lia) Hn). rewrite Z.add_0_l in *.
  unfold op_prog. destruct (is_write o) eqn:Hw; [unfold vfs_write_hook | unfold vfs_read_hook];
    hook_filters o Hw; unfold op_written; rewrite Hw.
  - found write_size. skip. raise (op_count o). do 2 skip. apply at_most_ret.
  - rewrite <- (Z.add_0_l (if decide _ then _ else _)). apply bounded_new; [cbn; lia | done].
  - do 5 skip. by case_decide.
  - rewrite <- (Z.add_0_l (if decide _ then _ else _)). apply bounded_new; [cbn; lia | done].
Qed.

Lemma read_bounded o b :
  0 <= op_count o ->
  at_most (total_ok a read_size) (total k read_size) (op_prog o) b (op_adds a k op_read o).
Proof.
  intros Hn. pose proof (u64_add_le 0 (op_count o) ltac:(lia) Hn). rewrite Z.add_0_l in *.
  unfold op_prog. destruct (is_write o) eqn:Hw; [unfold vfs_write_hook | unfold vfs_read_hook];
    hook_filters o Hw; unfold op_read; rewrite Hw.
  - do 5 skip. by case_decide.
  - rewrite <- (Z.add_0_l (if decide _ then _ else _)). apply bounded_new; [cbn; lia | done].
  - found read_size. skip. raise (op_count o). do 2 skip. apply at_most_ret.
  - rewrite <- (Z.add_0_l (if decide _ then _ else _)). apply bounded_new; [cbn; lia | done].
Qed.

(** C21: however the calls of any number of CPUs interleave, an entry never holds
    more calls, more written bytes or more read bytes than the accepted calls of its
    process on its file add up to, as long as no request has 2 GiB or more. *)
Theorem cache_never_overcounts ops s' i :
  Forall (fun o => 0 <= op_count o) ops ->
  pool_runs (op_prog <$> ops) (cs_init (Some a)) s' ->
  bm_lookup (cachestat_map s') k = Some i ->
  let mine := ops_of k (accepted a ops) in
  cnt i <= Z.of_nat (length mine) /\
  write_size i <= sumZ op_written mine /\ read_size i <= sumZ op_read mine.
Proof.
  intros Hops Hrun Hi mine.
  assert (Ht : forall F, total k F s' = F i) by (intros F; unfold total; by rewrite Hi).
  rewrite <- (Ht cnt), <- (Ht write_size), <- (Ht read_size). split; [|split].
  - etrans; [eapply (pool_total a k cnt (fun _ => 1)); [|exact Hrun]|].
    + apply Forall_forall. intros o _ b. apply cnt_bounded.
    + rewrite sumZ_const. unfold mine. lia.
  - eapply pool_total; [|exact Hrun]. eapply Forall_impl; [exact Hops|].
    intros o Ho b. by apply written_bounded.
  - eapply pool_total; [|exact Hrun]. eapply Forall_impl; [exact Hops|].
    intros o Ho b. by apply read_bounded.
Qed.
End Totals.

Lemma cache_never_overcounts_witness :
  exists s', pool_runs (op_prog <$> cs_ops) (cs_init (Some cs_args)) s' /\
    forall i, bm_lookup (cachestat_map s') cs_key = Some i -> cnt i <= 3.
Proof.
  exists (run_schedule (replicate 5 0 ++ concat (replicate 7 [1; 2]))%nat (op_prog <$> cs_ops)
    (cs_init (Some cs_args))).2.
  assert (Hrun : pool_runs (op_prog <$> cs_ops) (cs_init (Some cs_args))
    (run_schedule (replicate 5 0 ++ concat (replicate 7 [1; 2]))%nat (op_prog <$> cs_ops)
      (cs_init (Some cs_args))).2).
  { apply run_schedule_pool_runs. vm_compute. repeat constructor. }
  split; [exact Hrun|]. intros i Hi.
  refine (proj1 (cache_never_overcounts cs_args cs_key cs_ops _ i _ Hrun Hi)).
  repeat constructor; by vm_compute.
Defined.
