(* ===== verification/OffCpu.v ===== *)
(** The off-CPU profiler: pkg/ebpf/cpu/offcpu/offcpu.bpf.c and offcpu.h.

    [try_to_wake_up_hook] notes who wakes a task, [sched_switch_hook] notes when
    a task leaves a CPU and, when it comes back, reports how long it was away.
    [start] holds one element per traced task.  Every CPU also keeps the last 512
    context switches in a ring buffer ([sched_cache_map]), which is copied to
    [sched_cache_backup_map] when a task waited too long for its CPU. *)
From S2P Require Import Prelude Prog BpfMap.
Open Scope Z_scope.
Open Scope bpf_scope.

(** * Data *)

Definition MAX_ENTRIES : nat := Z.to_nat 10240.
#[global] Arguments MAX_ENTRIES : simpl never.
Definition BACKUP_ENTRIES : nat := Z.to_nat 1024.
#[global] Arguments BACKUP_ENTRIES : simpl never.
Definition SCHED_CACHE_SIZE : Z := 512.
#[global] Arguments SCHED_CACHE_SIZE : simpl never.
Definition SCHED_CACHE_RECORD_ON : Z := 0.
Definition SCHED_CACHE_RECORD_OFF : Z := 1.

Record user_args := {
  arg_pid : Z;
  arg_tgid : Z;
  min_offcpu_ms : Z;
  max_offcpu_ms : Z;
  arg_rq_dur_ms : Z
}.

Record waker_t := {
  wk_pid : Z;
  wk_tgid : Z;
  wk_t_pid : Z;
  wk_pad : Z;
  wk_t_comm : list Z;
  wk_user_stack_id : Z;
  wk_kern_stack_id : Z;
  wk_comm : list Z;
  wk_oncpu_ns : Z;
  wk_offcpu_ns : Z;
  wk_onrq_ns : Z;
  wk_offcpu_id : Z;
  wk_oncpu_id : Z;
  wk_run_delay_ns : Z
}.

Record target_t := {
  tg_pid : Z;
  tg_tgid : Z;
  tg_w_pid : Z;
  tg_pad : Z;
  tg_w_comm : list Z;
  tg_user_stack_id : Z;
  tg_kern_stack_id : Z;
  tg_comm : list Z;
  tg_oncpu_ns : Z;
  tg_offcpu_ns : Z;
  tg_onrq_ns : Z;
  tg_offcpu_id : Z;
  tg_oncpu_id : Z;
  tg_run_delay_ns : Z
}.

Record trace_event_t := { waker : waker_t; target : target_t }.

Record perf_event_t := {
  pe_waker : waker_t;
  pe_target : target_t;
  dur_ms : Z;
  pe_rq_dur_ms : Z;
  pe_ts_ns : Z;
  is_sched_cache_dump : Z;
  pe_cpu : Z
}.

Record sched_record := { sr_pid : Z; sr_prio : Z; sr_comm : list Z; sr_ts : Z }.

Record sched_cached := {
  sc_status : Z;
  sc_cpu : Z;
  sc_id : Z;
  sc_pad : Z;
  records : list sched_record
}.

(** What the hooks read of a [struct task_struct].  [__state] and [state] are
    the words at these fields; only one of the two fields exists. *)
Record task_struct := {
  tk_pid : Z;
  tk_tgid : Z;
  tk_on_rq : Z;
  tk___state : Z;
  tk_state : Z;
  tk_prio : Z;
  tk_comm : list Z;
  tk_run_delay : Z
}.

#[export] Instance eta_waker : Eta waker_t := fun r => {|
  wk_pid := wk_pid r; wk_tgid := wk_tgid r; wk_t_pid := wk_t_pid r; wk_pad := wk_pad r;
  wk_t_comm := wk_t_comm r; wk_user_stack_id := wk_user_stack_id r;
  wk_kern_stack_id := wk_kern_stack_id r; wk_comm := wk_comm r;
  wk_oncpu_ns := wk_oncpu_ns r; wk_offcpu_ns := wk_offcpu_ns r;
  wk_onrq_ns := wk_onrq_ns r; wk_offcpu_id := wk_offcpu_id r;
  wk_oncpu_id := wk_oncpu_id r; wk_run_delay_ns := wk_run_delay_ns r |}.

#[export] Instance eta_target : Eta target_t := fun r => {|
  tg_pid := tg_pid r; tg_tgid := tg_tgid r; tg_w_pid := tg_w_pid r; tg_pad := tg_pad r;
  tg_w_comm := tg_w_comm r; tg_user_stack_id := tg_user_stack_id r;
  tg_kern_stack_id := tg_kern_stack_id r; tg_comm := tg_comm r;
  tg_oncpu_ns := tg_oncpu_ns r; tg_offcpu_ns := tg_offcpu_ns r;
  tg_onrq_ns := tg_onrq_ns r; tg_offcpu_id := tg_offcpu_id r;
  tg_oncpu_id := tg_oncpu_id r; tg_run_delay_ns := tg_run_delay_ns r |}.

#[export] Instance eta_trace_event : Eta trace_event_t := fun r => {|
  waker := waker r; target := target r |}.

#[export] Instance eta_perf_event : Eta perf_event_t := fun r => {|
  pe_waker := pe_waker r; pe_target := pe_target r; dur_ms := dur_ms r;
  pe_rq_dur_ms := pe_rq_dur_ms r; pe_ts_ns := pe_ts_ns r;
  is_sched_cache_dump := is_sched_cache_dump r; pe_cpu := pe_cpu r |}.

#[export] Instance eta_sched_record : Eta sched_record := fun r => {|
  sr_pid := sr_pid r; sr_prio := sr_prio r; sr_comm := sr_comm r; sr_ts := sr_ts r |}.

#[export] Instance eta_sched_cached : Eta sched_cached := fun r => {|
  sc_status := sc_status r; sc_cpu := sc_cpu r; sc_id := sc_id r; sc_pad := sc_pad r;
  records := records r |}.

Definition zero_comm : list Z := replicate TASK_COMM_LEN 0.

Definition zero_waker : waker_t := {|
  wk_pid := 0; wk_tgid := 0; wk_t_pid := 0; wk_pad := 0; wk_t_comm := zero_comm;
  wk_user_stack_id := 0; wk_kern_stack_id := 0; wk_comm := zero_comm; wk_oncpu_ns := 0;
  wk_offcpu_ns := 0; wk_onrq_ns := 0; wk_offcpu_id := 0; wk_oncpu_id := 0;
  wk_run_delay_ns := 0 |}.

Definition zero_target : target_t := {|
  tg_pid := 0; tg_tgid := 0; tg_w_pid := 0; tg_pad := 0; tg_w_comm := zero_comm;
  tg_user_stack_id := 0; tg_kern_stack_id := 0; tg_comm := zero_comm; tg_oncpu_ns := 0;
  tg_offcpu_ns := 0; tg_onrq_ns := 0; tg_offcpu_id := 0; tg_oncpu_id := 0;
  tg_run_delay_ns := 0 |}.

(** The elements of the per-CPU arrays before the first program runs. *)
Definition zero_perf_event : perf_event_t := {|
  pe_waker := zero_waker; pe_target := zero_target; dur_ms := 0; pe_rq_dur_ms := 0;
  pe_ts_ns := 0; is_sched_cache_dump := 0; pe_cpu := 0 |}.

Definition zero_record : sched_record :=
  {| sr_pid := 0; sr_prio := 0; sr_comm := zero_comm; sr_ts := 0 |}.

Definition zero_cached : sched_cached := {|
  sc_status := 0; sc_cpu := 0; sc_id := 0; sc_pad := 0;
  records := replicate (Z.to_nat SCHED_CACHE_SIZE) zero_record |}.

(** * Copies of structures

    A structure is copied by its words of eight bytes.  A word takes the members that are
    in it [from] one structure [to] another one; a name of sixteen characters is in two
    words. *)
Definition word (T : Type) : Type := T -> T -> T.

Definition lo8 (from to : list Z) : list Z := take 8 from ++ drop 8 to.
Definition hi8 (from to : list Z) : list Z := take (length (take 8 from)) to ++ drop 8 from.

Definition waker_words : list (word waker_t) := [
  (fun w t : waker_t => t <| wk_pid := wk_pid w |> <| wk_tgid := wk_tgid w |>);
  (fun w t : waker_t => t <| wk_t_pid := wk_t_pid w |> <| wk_pad := wk_pad w |>);
  (fun w t : waker_t => t <| wk_t_comm := lo8 (wk_t_comm w) (wk_t_comm t) |>);
  (fun w t : waker_t => t <| wk_t_comm := hi8 (wk_t_comm w) (wk_t_comm t) |>);
  (fun w t : waker_t => t <| wk_user_stack_id := wk_user_stack_id w |> <| wk_kern_stack_id := wk_kern_stack_id w |>);
  (fun w t : waker_t => t <| wk_comm := lo8 (wk_comm w) (wk_comm t) |>);
  (fun w t : waker_t => t <| wk_comm := hi8 (wk_comm w) (wk_comm t) |>);
  (fun w t : waker_t => t <| wk_oncpu_ns := wk_oncpu_ns w |>);
  (fun w t : waker_t => t <| wk_offcpu_ns := wk_offcpu_ns w |>);
  (fun w t : waker_t => t <| wk_onrq_ns := wk_onrq_ns w |>);
  (fun w t : waker_t => t <| wk_offcpu_id := wk_offcpu_id w |> <| wk_oncpu_id := wk_oncpu_id w |>);
  (fun w t : waker_t => t <| wk_run_delay_ns := wk_run_delay_ns w |>)].

Definition target_words : list (word target_t) := [
  (fun s t : target_t => t <| tg_pid := tg_pid s |> <| tg_tgid := tg_tgid s |>);
  (fun s t : target_t => t <| tg_w_pid := tg_w_pid s |> <| tg_pad := tg_pad s |>);
  (fun s t : target_t => t <| tg_w_comm := lo8 (tg_w_comm s) (tg_w_comm t) |>);
  (fun s t : target_t => t <| tg_w_comm := hi8 (tg_w_comm s) (tg_w_comm t) |>);
  (fun s t : target_t => t <| tg_user_stack_id := tg_user_stack_id s |> <| tg_kern_stack_id := tg_kern_stack_id s |>);
  (fun s t : target_t => t <| tg_comm := lo8 (tg_comm s) (tg_comm t) |>);
  (fun s t : target_t => t <| tg_comm := hi8 (tg_comm s) (tg_comm t) |>);
  (fun s t : target_t => t <| tg_oncpu_ns := tg_oncpu_ns s |>);
  (fun s t : target_t => t <| tg_offcpu_ns := tg_offcpu_ns s |>);
  (fun s t : target_t => t <| tg_onrq_ns := tg_onrq_ns s |>);
  (fun s t : target_t => t <| tg_offcpu_id := tg_offcpu_id s |> <| tg_oncpu_id := tg_oncpu_id s |>);
  (fun s t : target_t => t <| tg_run_delay_ns := tg_run_delay_ns s |>)].

(** The stack ids the hooks ask for. *)
Definition kern_stack (e : bpf_env) : Z := s32 (stackid e BPF_F_FAST_STACK_CMP).
Definition user_stack (e : bpf_env) : Z :=
  s32 (stackid e (Z.lor BPF_F_USER_STACK BPF_F_FAST_STACK_CMP)).

Section OffCpu.
Context {BM : BpfMaps}.
(** Whether the kernel's [task_struct] has the field [__state]:
    [bpf_core_field_exists] decides it when the program is loaded. *)
Context (task_has___state : bool).

(** The maps.  [args_map] is what a lookup of its entry 0 returns.  A per-CPU
    array of one entry maps every possible CPU to the element it sees. *)
Record of_state := {
  start : bmap Z trace_event_t;
  sched_cache_map : bmap Z sched_cached;
  perf_event_cache_map : bmap Z perf_event_t;
  sched_cache_backup_map : bmap Z sched_cached;
  args_map : option user_args;
  perf_map : list perf_event_t
}.

#[export] Instance eta_of_state : Eta of_state := fun r => {|
  start := start r; sched_cache_map := sched_cache_map r;
  perf_event_cache_map := perf_event_cache_map r;
  sched_cache_backup_map := sched_cache_backup_map r; args_map := args_map r;
  perf_map := perf_map r |}.

Definition l_start : lens of_state (bmap Z trace_event_t) :=
  Lens start (fun m s => s <| start := m |>).
Definition l_cache : lens of_state (bmap Z sched_cached) :=
  Lens sched_cache_map (fun m s => s <| sched_cache_map := m |>).
Definition l_pevent : lens of_state (bmap Z perf_event_t) :=
  Lens perf_event_cache_map (fun m s => s <| perf_event_cache_map := m |>).
Definition l_backup : lens of_state (bmap Z sched_cached) :=
  Lens sched_cache_backup_map (fun m s => s <| sched_cache_backup_map := m |>).
Definition l_perf : lens of_state (list perf_event_t) :=
  Lens perf_map (fun m s => s <| perf_map := m |>).

(** A per-CPU array of one zeroed entry, for [n] possible CPUs. *)
Fixpoint percpu_fill {V} (zero : V) (n : nat) (m : bmap Z V) : bmap Z V :=
  match n with
  | O => m
  | S n' => (bm_update (percpu_fill zero n' m) (Z.of_nat n') zero BPF_ANY).2
  end.
Definition percpu {V} (zero : V) (n : nat) : bmap Z V := percpu_fill zero n (bm_create n).

(** The maps when the programs are loaded on a machine with [ncpu] CPUs. *)
Definition of_init (ncpu : nat) (a : option user_args) : of_state := {|
  start := bm_create MAX_ENTRIES;
  sched_cache_map := percpu zero_cached ncpu;
  perf_event_cache_map := percpu zero_perf_event ncpu;
  sched_cache_backup_map := bm_create BACKUP_ENTRIES;
  args_map := a;
  perf_map := [] |}.

(** [ep->waker.f = ...] and [ep->target.f = ...] *)
Definition store_waker (k : Z) (f : waker_t -> waker_t) : prog of_state unit :=
  store l_start k (fun ep => ep <| waker := f (waker ep) |>).
Definition store_target (k : Z) (f : target_t -> target_t) : prog of_state unit :=
  store l_start k (fun ep => ep <| target := f (target ep) |>).

(** [is_target_task] *)
Definition is_target (args : option user_args) (tgid pid : Z) : bool :=
  match args with
  | None => true
  | Some args =>
      if (arg_tgid args =? UINT32_MAX) && (arg_pid args =? UINT32_MAX) then true
      else if negb (arg_tgid args =? UINT32_MAX) && (arg_tgid args =? tgid) then true
      else if negb (arg_pid args =? UINT32_MAX) && (arg_pid args =? pid) then true
      else false
  end.
Definition is_target_task (tgid pid : Z) : prog of_state bool :=
  args <- get args_map ;; Ret (is_target args tgid pid).

(** [get_task_state] *)
Definition get_task_state (t : task_struct) : Z :=
  if task_has___state then s32 (tk___state t) else s32 (tk_state t).

(** The element for a task that is woken before it was seen to leave a CPU. *)
Definition wake_event (task : task_struct) (e : bpf_env) : trace_event_t := {|
  waker := {|
    wk_pid := lo32 (current_pid_tgid e); wk_tgid := u32 (hi32 (current_pid_tgid e));
    wk_t_pid := u32 (tk_pid task); wk_pad := 0; wk_t_comm := tk_comm task;
    wk_user_stack_id := user_stack e; wk_kern_stack_id := kern_stack e;
    wk_comm := current_comm e; wk_oncpu_ns := 0; wk_offcpu_ns := ktime_ns e;
    wk_onrq_ns := 0; wk_offcpu_id := 0; wk_oncpu_id := 0; wk_run_delay_ns := 0 |};
  target := {|
    tg_pid := u32 (tk_pid task); tg_tgid := u32 (tk_tgid task); tg_w_pid := 0; tg_pad := 0;
    tg_w_comm := zero_comm; tg_user_stack_id := 0; tg_kern_stack_id := 0;
    tg_comm := tk_comm task; tg_oncpu_ns := 0; tg_offcpu_ns := 0;
    tg_onrq_ns := ktime_ns e; tg_offcpu_id := 0; tg_oncpu_id := 0; tg_run_delay_ns := 0 |}
|}.

(** [try_to_wake_up_hook], at kprobe/try_to_wake_up *)
Definition try_to_wake_up_hook (task : task_struct) (parm2 : Z) (e : bpf_env)
    : prog of_state Z :=
  let state := s32 parm2 in
  let pid := u32 (tk_pid task) in
  let tgid := u32 (tk_tgid task) in
  let on_rq := s32 (tk_on_rq task) in
  let task_state := get_task_state task in
  if negb (nz (Z.land task_state state)) || (on_rq =? 1) then Ret 0 else
  is_target <- is_target_task tgid pid ;;
  if negb is_target then Ret 0 else
  let pid_tgid := current_pid_tgid e in
  let ts := ktime_ns e in
  ep <- map_lookup l_start pid ;;
  match ep with
  | Some _ =>
      store_waker pid (fun w => w <| wk_pid := lo32 pid_tgid |>) ;;;
      store_waker pid (fun w => w <| wk_tgid := u32 (hi32 pid_tgid) |>) ;;;
      store_waker pid (fun w => w <| wk_comm := current_comm e |>) ;;;
      store_waker pid (fun w => w <| wk_kern_stack_id := kern_stack e |>) ;;;
      store_waker pid (fun w => w <| wk_user_stack_id := user_stack e |>) ;;;
      store_target pid (fun t => t <| tg_onrq_ns := ts |>) ;;;
      store_waker pid (fun w => w <| wk_offcpu_ns := ts |>) ;;;
      Ret 0
  | None =>
      map_update l_start pid (wake_event task e) BPF_ANY ;;;
      Ret 0
  end.

(** [sched_cache_dump] *)
Definition sched_cache_dump (cpu : Z) : prog of_state unit :=
  cache <- map_lookup l_cache cpu ;;
  match cache with
  | None => Ret tt
  | Some c0 =>
      store l_cache cpu (fun c => c <| sc_status := SCHED_CACHE_RECORD_OFF |>) ;;;
      c <- load l_cache cpu c0 (fun c => c) ;;
      map_update l_backup cpu c BPF_ANY ;;;
      store l_cache cpu (fun c => c <| sc_status := SCHED_CACHE_RECORD_ON |>)
  end.

(** [cache->records[id].f = ...] *)
Definition store_record (cpu id : Z) (f : sched_record -> sched_record) : prog of_state unit :=
  store l_cache cpu (fun c => c <| records := array_update f (Z.to_nat id) (records c) |>).

(** [sched_cache_update] *)
Definition sched_cache_update (p : task_struct) (ts cpu : Z) : prog of_state unit :=
  cache <- map_lookup l_cache cpu ;;
  match cache with
  | None => Ret tt
  | Some c0 =>
      cid <- load l_cache cpu c0 sc_id ;;
      let id := cid mod SCHED_CACHE_SIZE in
      status <- load l_cache cpu c0 sc_status ;;
      if (id <? SCHED_CACHE_SIZE) && (status =? SCHED_CACHE_RECORD_ON) then
        store l_cache cpu (fun c => c <| sc_cpu := cpu |>) ;;;
        store_record cpu id (fun r => r <| sr_pid := u32 (tk_pid p) |>) ;;;
        store_record cpu id (fun r => r <| sr_ts := ts |>) ;;;
        store_record cpu id (fun r => r <| sr_prio := u32 (tk_prio p) |>) ;;;
        store_record cpu id (fun r => r <| sr_comm := tk_comm p |>) ;;;
        store l_cache cpu (fun c => c <| sc_id := u32 (sc_id c + 1) |>)
      else Ret tt
  end.

(** The element for a task that leaves a CPU before it was ever woken. *)
Definition new_task_event (ts cpu : Z) (task : task_struct) : trace_event_t := {|
  waker := zero_waker;
  target := {|
    tg_pid := u32 (tk_pid task); tg_tgid := u32 (tk_tgid task); tg_w_pid := 0; tg_pad := 0;
    tg_w_comm := zero_comm; tg_user_stack_id := 0; tg_kern_stack_id := 0;
    tg_comm := tk_comm task; tg_oncpu_ns := 0; tg_offcpu_ns := ts; tg_onrq_ns := 0;
    tg_offcpu_id := cpu; tg_oncpu_id := 0; tg_run_delay_ns := tk_run_delay task |}
|}.

(** [update_new_task_info] *)
Definition update_new_task_info (ts cpu : Z) (task : task_struct) : prog of_state unit :=
  map_update l_start (u32 (tk_pid task)) (new_task_event ts cpu task) BPF_ANY ;;;
  Ret tt.

(** [sched_switch_hook]: record prev task info *)
Definition record_prev (pre_task : task_struct) (curr_ts cpu_id : Z) : prog of_state unit :=
  let pid := u32 (tk_pid pre_task) in
  is_target <- is_target_task (u32 (tk_tgid pre_task)) pid ;;
  if is_target then
    ep <- map_lookup l_start pid ;;
    match ep with
    | None => update_new_task_info curr_ts cpu_id pre_task
    | Some _ =>
        store_target pid (fun t => t <| tg_offcpu_ns := curr_ts |>) ;;;
        store_target pid (fun t => t <| tg_offcpu_id := cpu_id |>) ;;;
        store_target pid (fun t => t <| tg_run_delay_ns := tk_run_delay pre_task |>)
    end
  else Ret tt.

(** [delta] and [runq_dur]: milliseconds between two times, cut to an [s32]. *)
Definition ms_between (now before : Z) : Z := s32 (u64 (now - before) / 1000000).

(** [perf_event->f = ep->f] for a member [f] that is a structure: the element [ep] is shared
    with the other CPUs, so that every word is read at its own time. *)
Definition copy_words {T} (from : trace_event_t -> T) (into : (T -> T) -> perf_event_t -> perf_event_t)
    (k : Z) (ep0 : trace_event_t) (cpu : Z) (ws : list (word T)) : prog of_state unit :=
  foldr (fun w q =>
    v <- load l_start k ep0 (fun ep => w (from ep)) ;;
    store l_pevent cpu (into v) ;;; q) (Ret tt) ws.

Definition into_target (f : target_t -> target_t) (p : perf_event_t) : perf_event_t :=
  p <| pe_target := f (pe_target p) |>.
Definition into_waker (f : waker_t -> waker_t) (p : perf_event_t) : perf_event_t :=
  p <| pe_waker := f (pe_waker p) |>.

(** [sched_switch_hook]: the event of a task that was away for [delta] ms *)
Definition output_event (args : user_args) (cur_task : task_struct) (ep0 : trace_event_t)
    (pe0 : perf_event_t) (curr_ts cpu_id delta : Z) (e : bpf_env) : prog of_state unit :=
  let pid := u32 (tk_pid cur_task) in
  rd <- load l_start pid ep0 (fun ep => tg_run_delay_ns (target ep)) ;;
  let runq_dur := ms_between (tk_run_delay cur_task) rd in
  copy_words target into_target pid ep0 cpu_id target_words ;;;
  store l_pevent cpu_id (into_target (fun t : target_t => t <| tg_kern_stack_id := kern_stack e |>)) ;;;
  store l_pevent cpu_id (into_target (fun t : target_t => t <| tg_user_stack_id := user_stack e |>)) ;;;
  store l_pevent cpu_id (into_target (fun t : target_t => t <| tg_comm := current_comm e |>)) ;;;
  copy_words waker into_waker pid ep0 cpu_id waker_words ;;;
  store l_pevent cpu_id (fun p => p <| pe_ts_ns := curr_ts |>) ;;;
  store l_pevent cpu_id (fun p => p <| dur_ms := u64 delta |>) ;;;
  store l_pevent cpu_id (fun p => p <| pe_rq_dur_ms := u64 runq_dur |>) ;;;
  (if (arg_rq_dur_ms args <? u32 runq_dur) && negb (arg_rq_dur_ms args =? 0) then
     sched_cache_dump cpu_id ;;;
     store l_pevent cpu_id (fun p => p <| is_sched_cache_dump := 1 |>) ;;;
     store l_pevent cpu_id (fun p => p <| pe_cpu := cpu_id |>)
   else Ret tt) ;;;
  event <- load l_pevent cpu_id pe0 (fun p => p) ;;
  perf_event_output l_perf event.

(** [sched_switch_hook]: record current task info *)
Definition record_current (args : user_args) (cur_task : task_struct) (ep0 : trace_event_t)
    (curr_ts cpu_id : Z) (e : bpf_env) : prog of_state Z :=
  let pid := u32 (tk_pid cur_task) in
  let finish :=
    store_target pid (fun t => t <| tg_run_delay_ns := tk_run_delay cur_task |>) ;;; Ret 0 in
  store_target pid (fun t => t <| tg_oncpu_id := cpu_id |>) ;;;
  store_target pid (fun t => t <| tg_oncpu_ns := curr_ts |>) ;;;
  off <- load l_start pid ep0 (fun ep => tg_offcpu_ns (target ep)) ;;
  let delta := ms_between curr_ts off in
  off <- load l_start pid ep0 (fun ep => tg_offcpu_ns (target ep)) ;;
  if (min_offcpu_ms args <=? u32 delta) && (u32 delta <=? max_offcpu_ms args) &&
     negb (off =? 0)
  then
    perf_event <- map_lookup l_pevent cpu_id ;;
    match perf_event with
    | None => Ret 0
    | Some pe0 => output_event args cur_task ep0 pe0 curr_ts cpu_id delta e ;;; finish
    end
  else finish.

(** [sched_switch_hook], at kprobe/finish_task_switch *)
Definition sched_switch_hook (pre_task cur_task : task_struct) (e : bpf_env)
    : prog of_state Z :=
  args <- get args_map ;;
  match args with
  | None => Ret 0
  | Some args =>
      let curr_ts := ktime_ns e in
      let cpu_id := smp_processor_id e in
      (if nz (arg_rq_dur_ms args) then sched_cache_update pre_task curr_ts cpu_id
       else Ret tt) ;;;
      record_prev pre_task curr_ts cpu_id ;;;
      let pid := u32 (tk_pid cur_task) in
      is_target <- is_target_task (u32 (tk_tgid cur_task)) pid ;;
      if negb is_target then Ret 0 else
      ep <- map_lookup l_start pid ;;
      match ep with
      | None => Ret 0
      | Some ep0 => record_current args cur_task ep0 curr_ts cpu_id e
      end
  end.
End OffCpu.
