(* ===== verification/OffCpuSpec.v ===== *)
(** What the off-CPU profiler reports: properties of [OffCpu]. *)
From S2P Require Import Prelude Prog BpfMap OffCpu.
Open Scope Z_scope.
Open Scope bpf_scope.

(** * Reference behaviour *)

(** A task is woken. *)
Definition wake (e : bpf_env) (ep : trace_event_t) : trace_event_t := {|
  waker := {|
    wk_pid := lo32 (current_pid_tgid e); wk_tgid := u32 (hi32 (current_pid_tgid e));
    wk_t_pid := wk_t_pid (waker ep); wk_pad := wk_pad (waker ep);
    wk_t_comm := wk_t_comm (waker ep);
    wk_user_stack_id := user_stack e; wk_kern_stack_id := kern_stack e;
    wk_comm := current_comm e; wk_oncpu_ns := wk_oncpu_ns (waker ep);
    wk_offcpu_ns := ktime_ns e; wk_onrq_ns := wk_onrq_ns (waker ep);
    wk_offcpu_id := wk_offcpu_id (waker ep); wk_oncpu_id := wk_oncpu_id (waker ep);
    wk_run_delay_ns := wk_run_delay_ns (waker ep) |};
  target := (target ep) <| tg_onrq_ns := ktime_ns e |> |}.

(** A task leaves a CPU. *)
Definition leave (task : task_struct) (ts cpu : Z) (ep : trace_event_t) : trace_event_t := {|
  waker := waker ep;
  target := {|
    tg_pid := tg_pid (target ep); tg_tgid := tg_tgid (target ep);
    tg_w_pid := tg_w_pid (target ep); tg_pad := tg_pad (target ep);
    tg_w_comm := tg_w_comm (target ep); tg_user_stack_id := tg_user_stack_id (target ep);
    tg_kern_stack_id := tg_kern_stack_id (target ep); tg_comm := tg_comm (target ep);
    tg_oncpu_ns := tg_oncpu_ns (target ep); tg_offcpu_ns := ts;
    tg_onrq_ns := tg_onrq_ns (target ep); tg_offcpu_id := cpu;
    tg_oncpu_id := tg_oncpu_id (target ep); tg_run_delay_ns := tk_run_delay task |} |}.

(** A task comes back to a CPU; [rd] is the run delay that is recorded. *)
Definition come_back (rd ts cpu : Z) (ep : trace_event_t) : trace_event_t := {|
  waker := waker ep;
  target := {|
    tg_pid := tg_pid (target ep); tg_tgid := tg_tgid (target ep);
    tg_w_pid := tg_w_pid (target ep); tg_pad := tg_pad (target ep);
    tg_w_comm := tg_w_comm (target ep); tg_user_stack_id := tg_user_stack_id (target ep);
    tg_kern_stack_id := tg_kern_stack_id (target ep); tg_comm := tg_comm (target ep);
    tg_oncpu_ns := ts; tg_offcpu_ns := tg_offcpu_ns (target ep);
    tg_onrq_ns := tg_onrq_ns (target ep); tg_offcpu_id := tg_offcpu_id (target ep);
    tg_oncpu_id := cpu; tg_run_delay_ns := rd |} |}.

(** Whether an absence that began at [off] and ends at [ts] is reported. *)
Definition reported (a : user_args) (ts off : Z) : bool :=
  let delta := u32 (ms_between ts off) in
  (min_offcpu_ms a <=? delta) && (delta <=? max_offcpu_ms a) && negb (off =? 0).

(** Whether a task waited so long for the CPU that the ring is dumped. *)
Definition overloaded (a : user_args) (run_delay rd : Z) : bool :=
  (arg_rq_dur_ms a <? u32 (ms_between run_delay rd)) && negb (arg_rq_dur_ms a =? 0).

(** The event of the task [cur] whose element is [ep] (it has come back). *)
Definition event_of (a : user_args) (cur : task_struct) (ep : trace_event_t)
    (p : perf_event_t) (e : bpf_env) : perf_event_t :=
  let dump := overloaded a (tk_run_delay cur) (tg_run_delay_ns (target ep)) in
  {| pe_waker := waker ep;
     pe_target := {|
       tg_pid := tg_pid (target ep); tg_tgid := tg_tgid (target ep);
       tg_w_pid := tg_w_pid (target ep); tg_pad := tg_pad (target ep);
       tg_w_comm := tg_w_comm (target ep); tg_user_stack_id := user_stack e;
       tg_kern_stack_id := kern_stack e; tg_comm := current_comm e;
       tg_oncpu_ns := tg_oncpu_ns (target ep); tg_offcpu_ns := tg_offcpu_ns (target ep);
       tg_onrq_ns := tg_onrq_ns (target ep); tg_offcpu_id := tg_offcpu_id (target ep);
       tg_oncpu_id := tg_oncpu_id (target ep);
       tg_run_delay_ns := tg_run_delay_ns (target ep) |};
     dur_ms := u64 (ms_between (ktime_ns e) (tg_offcpu_ns (target ep)));
     pe_rq_dur_ms := u64 (ms_between (tk_run_delay cur) (tg_run_delay_ns (target ep)));
     pe_ts_ns := ktime_ns e;
     is_sched_cache_dump := if dump then 1 else is_sched_cache_dump p;
     pe_cpu := if dump then smp_processor_id e else pe_cpu p |}.

Definition task_pid (t : task_struct) : Z := u32 (tk_pid t).
Definition task_tgid (t : task_struct) : Z := u32 (tk_tgid t).

(** The record of a context switch away from [p]. *)
Definition record_of (p : task_struct) (ts : Z) : sched_record := {|
  sr_pid := task_pid p; sr_prio := u32 (tk_prio p); sr_comm := tk_comm p; sr_ts := ts |}.

(** The ring after one more switch. *)
Definition push_record (p : task_struct) (ts cpu : Z) (c : sched_cached) : sched_cached := {|
  sc_status := sc_status c; sc_cpu := cpu; sc_id := u32 (sc_id c + 1); sc_pad := sc_pad c;
  records := array_update (fun _ => record_of p ts) (Z.to_nat (sc_id c mod SCHED_CACHE_SIZE)) (records c) |}.

(** * Runs *)

#[local] Arguments is_target : simpl never.

(** The maps [m] and [m'] differ in the element of [k] only, which is [v']. *)
Definition changes `{BM : BpfMaps} `{Countable K} {V} (k : K) (v' : option V) (m m' : bmap K V)
    : Prop :=
  forall k', bm_lookup m' k' = if decide (k = k') then v' else bm_lookup m k'.

Section Runs.
Context {BM : BpfMaps} {BL : BpfMapsLaws BM} (new : bool).
Implicit Types (s : of_state).

Lemma changes_eq {V} k (v' : option V) m m' :
  changes (K := Z) k v' m m' -> bm_lookup m' k = v'.
Proof. intros Hm. pose proof (Hm k) as H. by rewrite decide_True in H. Qed.

Lemma changes_ne {V} k (v' : option V) m m' k' :
  changes (K := Z) k v' m m' -> k <> k' -> bm_lookup m' k' = bm_lookup m k'.
Proof. intros Hm Hne. pose proof (Hm k') as H. by rewrite decide_False in H. Qed.

Lemma changes_trans {V} k (v1 v2 : option V) m1 m2 m3 :
  changes (K := Z) k v1 m1 m2 -> changes k v2 m2 m3 -> changes k v2 m1 m3.
Proof. intros H1 H2 k'. rewrite (H2 k'), (H1 k'). by case_decide. Qed.

Lemma changes_update {V} m k (v : V) :
  is_Some (bm_lookup m k) \/ (size (bm_dom m) < bm_max m)%nat ->
  changes (K := Z) k (Some v) m (bm_update m k v BPF_ANY).2.
Proof.
  intros Hroom k'. apply bm_update_ok. destruct Hroom as [|Hroom]; [by apply bm_update_any|].
  destruct (bm_lookup m k) eqn:Hk; [by apply bm_update_any; rewrite Hk|].
  apply bm_update_room; auto.
Qed.

Lemma sched_cache_update_run p ts cpu c s :
  bm_lookup (sched_cache_map s) cpu = Some c -> sc_status c = SCHED_CACHE_RECORD_ON ->
  exists m, (run (sched_cache_update p ts cpu) s).2 = s <| sched_cache_map := m |> /\
    bm_dom m = bm_dom (sched_cache_map s) /\
    changes cpu (Some (push_record p ts cpu c)) (sched_cache_map s) m.
Proof.
  intros Hc Hst. unfold sched_cache_update. cbn. rewrite Hc. cbn. rewrite !Hc. cbn. rewrite Hst.
  rewrite (proj2 (Z.ltb_lt _ _)) by (apply Z.mod_pos_bound; done). cbn.
  eexists. split; [reflexivity|]. split; [by rewrite !bm_dom_store|].
  intros k'. rewrite !bm_lookup_store. case_decide; [subst k' | done].
  rewrite Hc. cbn. f_equal. unfold push_record. f_equal.
  rewrite !array_update_update. by apply array_update_ext.
Qed.

Lemma is_target_task_run {A} a tgid pid (q : bool -> prog of_state A) s :
  args_map s = Some a ->
  run (bind (is_target_task tgid pid) q) s = run (q (is_target (Some a) tgid pid)) s.
Proof. intros Ha. cbn. by rewrite Ha. Qed.

Lemma record_prev_run a pre ts cpu s :
  args_map s = Some a ->
  is_Some (bm_lookup (start s) (task_pid pre)) \/ (size (bm_dom (start s)) < bm_max (start s))%nat ->
  let pid := task_pid pre in
  exists m, (run (record_prev pre ts cpu) s).2 = s <| start := m |> /\
    if is_target (Some a) (task_tgid pre) pid then
      changes pid (Some match bm_lookup (start s) pid with
                        | Some ep => leave pre ts cpu ep
                        | None => new_task_event ts cpu pre
                        end) (start s) m
    else m = start s.
Proof.
  intros Ha Hroom pid. unfold record_prev. fold (task_pid pre) (task_tgid pre) pid. cbv zeta.
  rewrite (is_target_task_run a) by done.
  destruct (is_target _ _ _); [|exists (start s); split; [by destruct s | done]].
  cbn. destruct (bm_lookup (start s) pid) as [ep|] eqn:Hep; cbn.
  - eexists. split; [reflexivity|]. intros k'. rewrite !bm_lookup_store.
    case_decide; [subst k' | done]. by rewrite Hep.
  - eexists. split; [reflexivity|]. by apply changes_update.
Qed.

Lemma sched_cache_dump_run cpu c s :
  bm_lookup (sched_cache_map s) cpu = Some c ->
  exists m b, (run (sched_cache_dump cpu) s).2 =
      s <| sched_cache_map := m |> <| sched_cache_backup_map := b |> /\
    bm_dom m = bm_dom (sched_cache_map s) /\
    changes cpu (Some (c <| sc_status := SCHED_CACHE_RECORD_ON |>)) (sched_cache_map s) m /\
    b = (bm_update (sched_cache_backup_map s) cpu
           (c <| sc_status := SCHED_CACHE_RECORD_OFF |>) BPF_ANY).2.
Proof.
  intros Hc. unfold sched_cache_dump. cbn. rewrite Hc. cbn. rewrite bm_store_eq, Hc. cbn.
  do 2 eexists. split; [reflexivity|]. split; [by rewrite !bm_dom_store|]. split; [|done].
  intros k'. rewrite !bm_lookup_store. case_decide; [subst k' | done]. by rewrite Hc.
Qed.
(** What a dump leaves of the ring and of the backup map. *)
Definition dumped (cpu : Z) (c : sched_cached) (m m' b b' : bmap Z sched_cached) : Prop :=
  bm_dom m' = bm_dom m /\
  changes cpu (Some (c <| sc_status := SCHED_CACHE_RECORD_ON |>)) m m' /\
  b' = (bm_update b cpu (c <| sc_status := SCHED_CACHE_RECORD_OFF |>) BPF_ANY).2.

#[local] Arguments sched_cache_dump {BM} : simpl never.

(** A structure that is copied while nobody writes to it is the same structure. *)
Lemma hi8_lo8 l l' : hi8 l (lo8 l l') = l.
Proof. unfold hi8, lo8. by rewrite take_app_length, take_drop. Qed.

Lemma copy_words_run {T} (from : trace_event_t -> T) into k ep0 ep cpu p ws s :
  bm_lookup (start s) k = Some ep -> bm_lookup (perf_event_cache_map s) cpu = Some p ->
  exists mp, run (copy_words from into k ep0 cpu ws) s = (tt, s <| perf_event_cache_map := mp |>) /\
    bm_dom mp = bm_dom (perf_event_cache_map s) /\
    changes cpu (Some (foldl (fun p w => into (w (from ep)) p) p ws)) (perf_event_cache_map s) mp.
Proof.
  intros Hep. revert s p Hep. induction ws as [|w ws IH]; intros s p Hep Hp.
  - exists (perf_event_cache_map s). split; [by destruct s|]. split; [done|]. intros k'. by case_decide; subst.
  - cbn [copy_words foldr]. fold (copy_words from into k ep0 cpu ws). cbn [bind load store get put act run fst snd].
    cbn [lget l_start]. rewrite Hep. cbn [default from_option id].
    set (v := w (from ep)).
    destruct (IH (lset l_pevent (bm_store (lget l_pevent s) cpu (into v)) s) (into v p)) as (mp & Hrun & Hd & Hc).
    { done. }
    { cbn. by rewrite bm_store_eq, Hp. }
    rewrite Hrun. exists mp. split; [done|]. cbn in Hd, Hc. rewrite bm_dom_store in Hd. split; [done|].
    eapply changes_trans; [|exact Hc]. intros k'. rewrite bm_lookup_store. case_decide; [subst k'; by rewrite Hp | done].
Qed.

Lemma copy_target_words t p : foldl (fun p w => into_target (w t) p) p target_words = p <| pe_target := t |>.
Proof. destruct t, p as [? [] ? ? ? ? ?]. lazy -[lo8 hi8]. by rewrite !hi8_lo8. Qed.
Lemma copy_waker_words w p : foldl (fun p v => into_waker (v w) p) p waker_words = p <| pe_waker := w |>.
Proof. destruct w, p as [[] ? ? ? ? ? ?]. lazy -[lo8 hi8]. by rewrite !hi8_lo8. Qed.

#[local] Arguments copy_words {BM T} : simpl never.

(** The element [ep] has come back: the event is sent and, if the task waited too
    long, the ring is dumped. *)
Lemma output_event_run a cur ep0 ep pe0 p c e s :
  let cpu := smp_processor_id e in
  bm_lookup (start s) (task_pid cur) = Some ep ->
  bm_lookup (perf_event_cache_map s) cpu = Some p ->
  bm_lookup (sched_cache_map s) cpu = Some c ->
  exists mp mc mb,
    (run (output_event a cur ep0 pe0 (ktime_ns e) cpu
            (ms_between (ktime_ns e) (tg_offcpu_ns (target ep))) e) s).2 =
      {| start := start s; sched_cache_map := mc; perf_event_cache_map := mp;
         sched_cache_backup_map := mb; args_map := args_map s;
         perf_map := perf_map s ++ [event_of a cur ep p e] |} /\
    bm_dom mp = bm_dom (perf_event_cache_map s) /\
    changes cpu (Some (event_of a cur ep p e)) (perf_event_cache_map s) mp /\
    if overloaded a (tk_run_delay cur) (tg_run_delay_ns (target ep))
    then dumped cpu c (sched_cache_map s) mc (sched_cache_backup_map s) mb
    else mc = sched_cache_map s /\ mb = sched_cache_backup_map s.
Proof.
  intros cpu Hep Hp Hc. unfold output_event, event_of. fold (task_pid cur).
  rewrite run_bind. cbn [run load get act fst snd lget l_start]. rewrite Hep. cbn [default from_option id].
  cbv zeta. rewrite run_bind.
  destruct (copy_words_run target into_target (task_pid cur) ep0 ep cpu p target_words s Hep Hp) as (m1 & -> & Hd1 & Hc1).
  rewrite copy_target_words in Hc1. apply changes_eq in Hc1 as Hp1. cbn [fst snd].
  do 3 (rewrite run_bind; cbn [run store put act fst snd]). rewrite run_bind.
  match goal with |- context [run (copy_words waker _ _ _ _ _) ?st] => 
    destruct (copy_words_run waker into_waker (task_pid cur) ep0 ep cpu
      (into_target (fun t : target_t => t <| tg_comm := current_comm e |>) (into_target (fun t : target_t => t <| tg_user_stack_id := user_stack e |>)
        (into_target (fun t : target_t => t <| tg_kern_stack_id := kern_stack e |>) (p <| pe_target := target ep |>))))
      waker_words st Hep) as (m2 & -> & Hd2 & Hc2) end.
  { cbn. by rewrite !bm_store_eq, Hp1. }
  rewrite copy_waker_words in Hc2. apply changes_eq in Hc2 as Hp2. cbn in Hd2. rewrite !bm_dom_store in Hd2.
  assert (Hc3 : changes cpu (Some ((into_target (fun t : target_t => t <| tg_comm := current_comm e |>)
    (into_target (fun t : target_t => t <| tg_user_stack_id := user_stack e |>) (into_target (fun t : target_t => t <| tg_kern_stack_id := kern_stack e |>)
      (p <| pe_target := target ep |>)))) <| pe_waker := waker ep |>)) (perf_event_cache_map s) m2).
  { intros k'. specialize (Hc2 k'). cbn in Hc2. rewrite Hc2. case_decide; [done|]. rewrite !bm_store_ne by done.
    specialize (Hc1 k'). by rewrite decide_False in Hc1. }
  clear Hc1 Hc2 Hp1. cbn in Hp2, Hc3 |- *.
  fold (overloaded a (tk_run_delay cur) (tg_run_delay_ns (target ep))).
  destruct (overloaded _ _ _); rewrite run_bind.
  - rewrite run_bind. match goal with |- context [run (sched_cache_dump _) ?st] =>
      destruct (sched_cache_dump_run cpu c st Hc) as (mc & mb & -> & Hdom & Hmc & ->) end.
    cbn. rewrite !bm_store_eq, Hp2. cbn. do 3 eexists. split; [reflexivity|].
    split; [rewrite !bm_dom_store; congruence|]. split; [|done].
    intros k'. rewrite !bm_lookup_store, (Hc3 k'). by case_decide.
  - cbn. rewrite !bm_store_eq, Hp2. cbn. do 3 eexists. split; [reflexivity|].
    split; [rewrite !bm_dom_store; congruence|]. split; [|done].
    intros k'. rewrite !bm_lookup_store, (Hc3 k'). by case_decide.
Qed.
#[local] Arguments output_event {BM} : simpl never.

(** [ep->target.run_delay_ns = cur_task_run_delay_ns] at the end. *)
Lemma changes_run_delay cur rd e ep (m0 m : bmap Z trace_event_t) :
  bm_dom m = bm_dom m0 ->
  changes (task_pid cur) (Some (come_back rd (ktime_ns e) (smp_processor_id e) ep)) m0 m ->
  let m' := bm_store m (task_pid cur)
    (fun ep => ep <| target := (target ep) <| tg_run_delay_ns := tk_run_delay cur |> |>) in
  changes (task_pid cur)
    (Some (come_back (tk_run_delay cur) (ktime_ns e) (smp_processor_id e) ep)) m0 m' /\
  bm_dom m' = bm_dom m0.
Proof.
  intros Hdom Hch. split; [|by rewrite bm_dom_store]. intros k'.
  rewrite bm_lookup_store. pose proof (Hch k') as Hk. case_decide; [|done]. by rewrite Hk.
Qed.

Lemma record_current_run a cur ep0 ep p c e s :
  let cpu := smp_processor_id e in
  let off := tg_offcpu_ns (target ep) in
  let rd := tg_run_delay_ns (target ep) in
  let event := event_of a cur (come_back rd (ktime_ns e) cpu ep) p e in
  bm_lookup (start s) (task_pid cur) = Some ep ->
  bm_lookup (perf_event_cache_map s) cpu = Some p ->
  bm_lookup (sched_cache_map s) cpu = Some c ->
  exists ms mp mc mb,
    (run (record_current a cur ep0 (ktime_ns e) cpu e) s).2 =
      {| start := ms; sched_cache_map := mc; perf_event_cache_map := mp;
         sched_cache_backup_map := mb; args_map := args_map s;
         perf_map := perf_map s ++ if reported a (ktime_ns e) off then [event] else [] |} /\
    changes (task_pid cur) (Some (come_back (tk_run_delay cur) (ktime_ns e) cpu ep)) (start s) ms /\
    bm_dom ms = bm_dom (start s) /\
    bm_dom mp = bm_dom (perf_event_cache_map s) /\
    (if reported a (ktime_ns e) off
     then changes cpu (Some event) (perf_event_cache_map s) mp
     else mp = perf_event_cache_map s) /\
    if reported a (ktime_ns e) off && overloaded a (tk_run_delay cur) rd
    then dumped cpu c (sched_cache_map s) mc (sched_cache_backup_map s) mb
    else mc = sched_cache_map s /\ mb = sched_cache_backup_map s.
Proof.
  intros cpu off rd event Hep Hp Hc. unfold record_current. fold (task_pid cur). cbn zeta.
  match goal with |- context [run (bind ?st1 (fun _ => bind ?st2 ?k)) s] =>
    set (K := k); assert (H1 : exists m1, run (bind st1 (fun _ => bind st2 K)) s =
      run (K tt) (s <| start := m1 |>) /\ bm_dom m1 = bm_dom (start s) /\
      changes (task_pid cur) (Some (come_back rd (ktime_ns e) cpu ep)) (start s) m1) end.
  { eexists. split; [reflexivity|]. cbn. split; [by rewrite !bm_dom_store|].
    intros k'. rewrite !bm_lookup_store. case_decide; [subst k'; by rewrite Hep | done]. }
  destruct H1 as (m1 & -> & Hdom1 & Hm1). subst K.
  assert (Hep1 : bm_lookup m1 (task_pid cur) = Some (come_back rd (ktime_ns e) cpu ep)).
  { by eapply changes_eq. }
  cbn [bind load get act run start lget l_start fst snd]. rewrite Hep1.
  cbn [default from_option id].
  match goal with |- context [run (if ?b then _ else _)] =>
    change b with (reported a (ktime_ns e) off) end.
  destruct (reported a (ktime_ns e) off).
  - rewrite run_bind. cbn [map_lookup get act run fst snd l_pevent lget perf_event_cache_map].
    rewrite Hp, run_bind.
    match goal with |- context [run (output_event _ _ _ _ _ _ _ _) ?st] =>
      destruct (output_event_run a cur ep0 _ p p c e st Hep1 Hp Hc)
        as (mp & mc & mb & Hrun & Hdomp & Hmp & Hd) end.
    fold cpu in Hrun. rewrite Hrun. cbn. destruct (changes_run_delay cur rd e ep (start s) m1 Hdom1 Hm1). do 4 eexists. split; [reflexivity|].
    cbn in *. split_and!; done.
  - cbn. rewrite app_nil_r. destruct (changes_run_delay cur rd e ep (start s) m1 Hdom1 Hm1).
    do 4 eexists. split; [reflexivity|]. split_and!; done.
Qed.
(** Whether a wake-up is traced: the task sleeps in a state that [st] wakes, it
    is not on a run queue and it is a target. *)
Definition wakes (a : user_args) (task : task_struct) (st : Z) : bool :=
  nz (Z.land (get_task_state new task) (s32 st)) && negb (s32 (tk_on_rq task) =? 1) &&
  is_target (Some a) (task_tgid task) (task_pid task).

Lemma try_to_wake_up_run a task st e s :
  args_map s = Some a ->
  is_Some (bm_lookup (start s) (task_pid task)) \/ (size (bm_dom (start s)) < bm_max (start s))%nat ->
  let pid := task_pid task in
  exists m, (run (try_to_wake_up_hook new task st e) s).2 = s <| start := m |> /\
    if wakes a task st then
      changes pid (Some match bm_lookup (start s) pid with
                        | Some ep => wake e ep
                        | None => wake_event task e
                        end) (start s) m
    else m = start s.
Proof.
  intros Ha Hroom pid. unfold try_to_wake_up_hook, wakes.
  fold (task_pid task) (task_tgid task) pid. cbv zeta.
  destruct (nz _), (s32 (tk_on_rq task) =? 1); cbn [negb orb andb].
  1, 3, 4: exists (start s); split; [by destruct s | done].
  rewrite (is_target_task_run a) by done.
  destruct (is_target _ _ _); [|exists (start s); split; [by destruct s | done]].
  cbn. destruct (bm_lookup (start s) pid) as [ep|] eqn:Hep; cbn.
  - eexists. split; [reflexivity|]. intros k'. rewrite !bm_lookup_store.
    case_decide; [subst k' | done]. by rewrite Hep.
  - eexists. split; [reflexivity|]. by apply changes_update.
Qed.
End Runs.

(** * The abstract profiler

    It remembers, for every task, when it last left a CPU and who last woke it,
    and for every CPU its context switches. *)

Record off_event := {
  oe_pid : Z;
  oe_left : Z;
  oe_back : Z;
  oe_cpu : Z;
  oe_dur_ms : Z;
  oe_waker : Z * Z * Z
}.

Record off_spec := OffSpec {
  sp_left : gmap Z Z;
  sp_woken : gmap Z bpf_env;
  sp_switches : gmap Z (list (task_struct * Z));
  sp_events : list off_event
}.

#[export] Instance eta_off_spec : Eta off_spec := fun r => {|
  sp_left := sp_left r; sp_woken := sp_woken r; sp_switches := sp_switches r;
  sp_events := sp_events r |}.

(** What identifies the waker: its thread, its process and the time. *)
Definition waker_of (w : option bpf_env) : Z * Z * Z :=
  match w with
  | Some e => (lo32 (current_pid_tgid e), u32 (hi32 (current_pid_tgid e)), ktime_ns e)
  | None => (0, 0, 0)
  end.
Definition abs_waker (w : waker_t) : Z * Z * Z := (wk_pid w, wk_tgid w, wk_offcpu_ns w).

(** What an event says. *)
Definition abs_event (p : perf_event_t) : off_event := {|
  oe_pid := tg_pid (pe_target p);
  oe_left := tg_offcpu_ns (pe_target p);
  oe_back := tg_oncpu_ns (pe_target p);
  oe_cpu := tg_oncpu_id (pe_target p);
  oe_dur_ms := dur_ms p;
  oe_waker := abs_waker (pe_waker p) |}.

Inductive off_call :=
| Wake (task : task_struct) (st : Z) (e : bpf_env)
| Switch (pre cur : task_struct) (e : bpf_env).

(** The task that may become known by a call, and the CPU it runs on. *)
Definition call_pid (c : off_call) : Z :=
  match c with Wake task _ _ => task_pid task | Switch pre _ _ => task_pid pre end.
Definition call_cpu (c : off_call) : Z :=
  match c with Wake _ _ e | Switch _ _ e => smp_processor_id e end.

Definition switches_of (sp : off_spec) (cpu : Z) : list (task_struct * Z) :=
  default [] (sp_switches sp !! cpu).

Section Abstract.
Context (new : bool) (a : user_args).

Definition spec_log (pre : task_struct) (e : bpf_env) (sp : off_spec) : off_spec :=
  if nz (arg_rq_dur_ms a) then
    let cpu := smp_processor_id e in
    sp <| sp_switches :=
      <[cpu := switches_of sp cpu ++ [(pre, ktime_ns e)]]> (sp_switches sp) |>
  else sp.

Definition spec_leave (pre : task_struct) (e : bpf_env) (sp : off_spec) : off_spec :=
  if is_target (Some a) (task_tgid pre) (task_pid pre)
  then sp <| sp_left := <[task_pid pre := ktime_ns e]> (sp_left sp) |> else sp.

Definition spec_event (cur : task_struct) (off : Z) (e : bpf_env) (sp : off_spec) : off_event := {|
  oe_pid := task_pid cur; oe_left := off; oe_back := ktime_ns e; oe_cpu := smp_processor_id e;
  oe_dur_ms := u64 (ms_between (ktime_ns e) off);
  oe_waker := waker_of (sp_woken sp !! task_pid cur) |}.

Definition spec_back (cur : task_struct) (e : bpf_env) (sp : off_spec) : off_spec :=
  if is_target (Some a) (task_tgid cur) (task_pid cur) then
    match sp_left sp !! task_pid cur with
    | Some off =>
        if reported a (ktime_ns e) off
        then sp <| sp_events := sp_events sp ++ [spec_event cur off e sp] |> else sp
    | None => sp
    end
  else sp.

Definition spec_step (sp : off_spec) (c : off_call) : off_spec :=
  match c with
  | Wake task st e =>
      if wakes new a task st
      then sp <| sp_woken := <[task_pid task := e]> (sp_woken sp) |> else sp
  | Switch pre cur e => spec_back cur e (spec_leave pre e (spec_log pre e sp))
  end.

Definition spec_init : off_spec := OffSpec ∅ ∅ ∅ [].
End Abstract.

(** * The ring *)

(** The ring [c] holds the last 512 of the switches [l]. *)
Record ring_of (l : list (task_struct * Z)) (c : sched_cached) : Prop := {
  ring_length : length (records c) = Z.to_nat SCHED_CACHE_SIZE;
  ring_id : sc_id c = u32 (Z.of_nat (length l));
  ring_records j p ts :
    l !! j = Some (p, ts) -> Z.of_nat (length l) - Z.of_nat j <= SCHED_CACHE_SIZE ->
    records c !! Z.to_nat (Z.of_nat j mod SCHED_CACHE_SIZE) = Some (record_of p ts)
}.

Lemma ring_of_init : ring_of [] zero_cached.
Proof. split; [by apply length_replicate | done | done]. Qed.

(** The index stays right when the 32-bit count of switches wraps around. *)
Lemma u32_mod_size n : u32 n mod SCHED_CACHE_SIZE = n mod SCHED_CACHE_SIZE.
Proof.
  unfold uN, SCHED_CACHE_SIZE. rewrite (Z.div_mod n (2 ^ 32)) at 2 by lia.
  replace (2 ^ 32 * (n / 2 ^ 32) + n mod 2 ^ 32)
    with (n mod 2 ^ 32 + (2 ^ 23 * (n / 2 ^ 32)) * 512) by lia.
  by rewrite Z.mod_add.
Qed.

Lemma ring_of_push l p ts cpu c :
  ring_of l c -> ring_of (l ++ [(p, ts)]) (push_record p ts cpu c).
Proof.
  intros [Hlen Hid Hrec].
  assert (Hin : (Z.to_nat (sc_id c mod SCHED_CACHE_SIZE) < length (records c))%nat).
  { rewrite Hlen. apply Z2Nat.inj_lt; [apply Z.mod_pos_bound; done | done | by apply Z.mod_pos_bound]. }
  unfold push_record. rewrite array_update_in by done. split; cbn [records sc_id].
  - by rewrite length_alter.
  - rewrite Hid, uN_add_l, length_app by lia. f_equal. cbn. lia.
  - rewrite length_app. cbn [length]. intros j q ts' Hj Hlast. rewrite Hid, u32_mod_size.
    apply lookup_snoc_Some in Hj as [[Hlt Hj] | [-> [= <- <-]]].
    + rewrite list_lookup_alter_ne; [apply Hrec; [done | lia]|].
      intros Heq. apply Z2Nat.inj in Heq; [| apply Z.mod_pos_bound; done..].
      assert (Hd : (Z.of_nat (length l) - Z.of_nat j) mod SCHED_CACHE_SIZE = 0).
      { rewrite Zminus_mod, Heq, Z.sub_diag. done. }
      rewrite Z.mod_small in Hd; lia.
    + rewrite list_lookup_alter_eq.
      destruct (lookup_lt_is_Some_2 (records c)
        (Z.to_nat (Z.of_nat (length l) mod SCHED_CACHE_SIZE))) as [r ->]; [|done].
      rewrite Hlen. apply Z2Nat.inj_lt; [apply Z.mod_pos_bound; done | done |].
      by apply Z.mod_pos_bound.
Qed.

Lemma ring_of_status l c st : ring_of l c -> ring_of l (c <| sc_status := st |>).
Proof. by intros []. Qed.

(** * The profiler over time *)

#[local] Arguments sched_cache_update {BM} : simpl never.
#[local] Arguments record_prev {BM} : simpl never.
#[local] Arguments record_current {BM} : simpl never.
#[local] Arguments try_to_wake_up_hook {BM} : simpl never.
#[local] Arguments sched_switch_hook {BM} : simpl never.
#[local] Arguments ms_between : simpl never.
#[local] Arguments reported : simpl never.
#[local] Arguments event_of : simpl never.
#[local] Arguments spec_event : simpl never.
#[local] Arguments abs_event : simpl never.

Section System.
Context {BM : BpfMaps} {BL : BpfMapsLaws BM} (new : bool) (a : user_args) (ncpu : nat).
Implicit Types (s : of_state) (sp : off_spec).

Definition call_prog (c : off_call) : prog of_state Z :=
  match c with
  | Wake task st e => try_to_wake_up_hook new task st e
  | Switch pre cur e => sched_switch_hook pre cur e
  end.

Definition cpu_ok (cpu : Z) : Prop := 0 <= cpu < Z.of_nat ncpu.

(** The maps of the code next to the state of the abstract profiler. *)
Record of_sys := OfSys { sy_st : of_state; sy_sp : off_spec }.

(** A hook runs on one of the CPUs; [start] has room for the task. *)
Inductive of_step : of_sys -> of_sys -> Prop :=
| OfStep c s sp :
    cpu_ok (call_cpu c) ->
    is_Some (bm_lookup (start s) (call_pid c)) \/ (size (bm_dom (start s)) < bm_max (start s))%nat ->
    of_step (OfSys s sp) (OfSys (run (call_prog c) s).2 (spec_step new a sp c)).

Definition of_sys_init : of_sys := OfSys (of_init ncpu (Some a)) spec_init.

Definition of_reachable (x : of_sys) : Prop := rtc of_step of_sys_init x.

(** The element of a task agrees with what the abstract profiler knows of it. *)
Definition elem_ok sp (pid : Z) (eo : option trace_event_t) : Prop :=
  match eo with
  | None => sp_left sp !! pid = None /\ sp_woken sp !! pid = None
  | Some ep =>
      tg_pid (target ep) = pid /\
      tg_offcpu_ns (target ep) = default 0 (sp_left sp !! pid) /\
      abs_waker (waker ep) = waker_of (sp_woken sp !! pid)
  end.

Record of_inv (sp : off_spec) (s : of_state) : Prop := {
  oi_args : args_map s = Some a;
  oi_start pid : elem_ok sp pid (bm_lookup (start s) pid);
  oi_pevent cpu : cpu_ok cpu -> is_Some (bm_lookup (perf_event_cache_map s) cpu);
  oi_ring cpu : cpu_ok cpu -> exists c, bm_lookup (sched_cache_map s) cpu = Some c /\
    sc_status c = SCHED_CACHE_RECORD_ON /\ ring_of (switches_of sp cpu) c;
  oi_backup cpu c : bm_lookup (sched_cache_backup_map s) cpu = Some c ->
    sc_status c = SCHED_CACHE_RECORD_OFF /\
    exists l, l `prefix_of` switches_of sp cpu /\ ring_of l c;
  oi_events : abs_event <$> perf_map s = sp_events sp
}.

Lemma percpu_lookup {V} (zero : V) n cpu :
  bm_lookup (percpu zero n) cpu = if decide (0 <= cpu < Z.of_nat n) then Some zero else None.
Proof.
  unfold percpu.
  assert (H : forall n' m, (n' <= n)%nat -> bm_max m = n -> bm_dom m = ∅ ->
    (forall k : Z, bm_lookup m k = None) ->
    let m' := percpu_fill zero n' m in
    bm_max m' = n /\ (size (bm_dom m') <= n')%nat /\
    forall k, bm_lookup m' k = if decide (0 <= k < Z.of_nat n') then Some zero else None).
  { intros n' m Hle Hm Hd Hl. induction n' as [|n' IH]; cbn.
    - split_and!; [done | by rewrite Hd |]. intros k. rewrite Hl. case_decide; [lia | done].
    - destruct IH as (Hm' & Hs & Hk); [lia|]. set (m' := percpu_fill zero n' m) in *.
      assert (Hok : (bm_update m' (Z.of_nat n') zero BPF_ANY).1 = 0).
      { apply bm_update_room; [by left | | lia]. rewrite Hk. case_decide; [lia | done]. }
      split_and!; [by rewrite bm_max_update | |].
      + rewrite bm_dom_update, size_union_alt, size_singleton by done.
        assert (size (bm_dom m' ∖ {[Z.of_nat n']}) <= size (bm_dom m'))%nat; [|lia].
        apply subseteq_size. set_solver.
      + intros k. rewrite bm_update_ok by done. rewrite Hk. repeat case_decide; lia || done. }
  apply H; [done | apply bm_max_create | apply bm_dom_create | apply bm_lookup_create].
Qed.

Lemma of_inv_init : of_inv spec_init (of_init ncpu (Some a)).
Proof.
  split; cbn; [done | | | | | done].
  - intros pid. by rewrite bm_lookup_create.
  - intros cpu Hcpu. rewrite percpu_lookup, decide_True by done. by eexists.
  - intros cpu Hcpu. exists zero_cached. rewrite percpu_lookup, decide_True by done.
    split_and!; [done | done | apply ring_of_init].
  - intros cpu c. by rewrite bm_lookup_create.
Qed.

Lemma switches_of_insert sp m cpu l cpu' :
  m = <[cpu := l]> (sp_switches sp) ->
  switches_of (sp <| sp_switches := m |>) cpu' =
    if decide (cpu = cpu') then l else switches_of sp cpu'.
Proof. intros ->. unfold switches_of. cbn. rewrite lookup_insert. by case_decide. Qed.

Lemma of_inv_log sp s pre e :
  cpu_ok (smp_processor_id e) -> of_inv sp s ->
  of_inv (spec_log a pre e sp)
    (run (if nz (arg_rq_dur_ms a) then sched_cache_update pre (ktime_ns e) (smp_processor_id e)
          else Ret tt) s).2.
Proof.
  intros Hcpu Hs. unfold spec_log. destruct (nz _); [|done].
  destruct Hs as [Ha Hst Hp Hr Hb He]. destruct (Hr _ Hcpu) as (c & Hc & Hon & Hring).
  destruct (sched_cache_update_run pre (ktime_ns e) _ c s Hc Hon) as (m & -> & Hdom & Hm).
  split; cbn -[switches_of]; [done | exact Hst | done | | | done].
  - intros cpu Hcpu'. cbn zeta. erewrite switches_of_insert by done.
    case_decide as Hd; [subst cpu|].
    + eexists. split; [by eapply changes_eq|]. split; [done|]. by apply ring_of_push.
    + destruct (Hr _ Hcpu') as (c' & Hc' & ?). exists c'.
      by rewrite (changes_ne _ _ _ _ _ Hm).
  - intros cpu c' Hc'. destruct (Hb _ _ Hc') as (? & l & Hl & ?). split; [done|]. exists l.
    split; [|done]. cbn zeta. erewrite switches_of_insert by done. case_decide; [subst|done].
    by apply prefix_app_r.
Qed.

Lemma log_keeps_start sp s pre e :
  cpu_ok (smp_processor_id e) -> of_inv sp s ->
  start (run (if nz (arg_rq_dur_ms a) then sched_cache_update pre (ktime_ns e) (smp_processor_id e)
              else Ret tt) s).2 = start s.
Proof.
  intros Hcpu Hs. destruct (nz _); [|done]. destruct (oi_ring _ _ Hs _ Hcpu) as (c & Hc & Hon & _).
  by destruct (sched_cache_update_run pre (ktime_ns e) _ c s Hc Hon) as (m & -> & _).
Qed.

Lemma elem_ok_ext sp sp' pid eo :
  sp_left sp' !! pid = sp_left sp !! pid -> sp_woken sp' !! pid = sp_woken sp !! pid ->
  elem_ok sp pid eo -> elem_ok sp' pid eo.
Proof. unfold elem_ok. by intros -> ->. Qed.

Lemma of_inv_leave sp s pre e :
  is_Some (bm_lookup (start s) (task_pid pre)) \/ (size (bm_dom (start s)) < bm_max (start s))%nat ->
  of_inv sp s ->
  of_inv (spec_leave a pre e sp) (run (record_prev pre (ktime_ns e) (smp_processor_id e)) s).2.
Proof.
  intros Hroom [Ha Hst Hp Hr Hb He]. unfold spec_leave.
  destruct (record_prev_run a pre (ktime_ns e) (smp_processor_id e) s Ha Hroom) as (m & -> & Hm).
  destruct (is_target _ _ _); [|by split; cbn; rewrite ?Hm].
  split; cbn; [done | | done | done | done | done].
  intros pid. destruct (decide (task_pid pre = pid)) as [<- | Hne].
  - rewrite (changes_eq _ _ _ _ Hm). pose proof (Hst (task_pid pre)) as Hpid.
    cbn. rewrite lookup_insert_eq. destruct (bm_lookup (start s) (task_pid pre)); cbn.
    + destruct Hpid as (? & _ & ?). by split_and!.
    + destruct Hpid as [_ ->]. by split_and!.
  - rewrite (changes_ne _ _ _ _ _ Hm) by done. eapply elem_ok_ext; [| |apply Hst]; cbn; [|done].
    by rewrite lookup_insert_ne.
Qed.

Lemma of_inv_wake sp s task st e :
  is_Some (bm_lookup (start s) (task_pid task)) \/ (size (bm_dom (start s)) < bm_max (start s))%nat ->
  of_inv sp s ->
  of_inv (spec_step new a sp (Wake task st e)) (run (try_to_wake_up_hook new task st e) s).2.
Proof.
  intros Hroom [Ha Hst Hp Hr Hb He]. unfold spec_step.
  destruct (try_to_wake_up_run new a task st e s Ha Hroom) as (m & -> & Hm).
  destruct (wakes _ _ _ _); [|by split; cbn; rewrite ?Hm].
  split; cbn; [done | | done | done | done | done].
  intros pid. destruct (decide (task_pid task = pid)) as [<- | Hne].
  - rewrite (changes_eq _ _ _ _ Hm). pose proof (Hst (task_pid task)) as Hpid.
    cbn. rewrite lookup_insert_eq. destruct (bm_lookup (start s) (task_pid task)); cbn.
    + destruct Hpid as (? & ? & _). by split_and!.
    + destruct Hpid as [-> _]. by split_and!.
  - rewrite (changes_ne _ _ _ _ _ Hm) by done. eapply elem_ok_ext; [| |apply Hst]; cbn; [done|].
    by rewrite lookup_insert_ne.
Qed.
(** The last phase of [sched_switch_hook]. *)
Definition switch_back (cur : task_struct) (e : bpf_env) : prog of_state Z :=
  is_target <- is_target_task (task_tgid cur) (task_pid cur) ;;
  if negb is_target then Ret 0 else
  ep <- map_lookup l_start (task_pid cur) ;;
  match ep with
  | None => Ret 0
  | Some ep0 => record_current a cur ep0 (ktime_ns e) (smp_processor_id e) e
  end.

(** The event of an element says what the abstract profiler says. *)
Lemma abs_event_of cur ep p e rd sp :
  elem_ok sp (task_pid cur) (Some ep) ->
  abs_event (event_of a cur (come_back rd (ktime_ns e) (smp_processor_id e) ep) p e) =
    spec_event cur (tg_offcpu_ns (target ep)) e sp.
Proof.
  intros (Hpid & _ & Hw). unfold abs_event, event_of, spec_event.
  cbn [pe_target pe_waker tg_pid tg_offcpu_ns tg_oncpu_ns tg_oncpu_id dur_ms come_back target waker].
  by rewrite Hpid, Hw.
Qed.

Lemma of_inv_dump sp s cpu c m b :
  of_inv sp s -> cpu_ok cpu -> bm_lookup (sched_cache_map s) cpu = Some c ->
  dumped cpu c (sched_cache_map s) m (sched_cache_backup_map s) b ->
  of_inv sp (s <| sched_cache_map := m |> <| sched_cache_backup_map := b |>).
Proof.
  intros [Ha Hst Hp Hr Hb He] Hcpu Hc (Hdom & Hm & ->).
  destruct (Hr _ Hcpu) as (c0 & Hc0 & Hon & Hring). rewrite Hc in Hc0. injection Hc0 as <-.
  split; cbn; try done.
  - intros cpu' Hcpu'. destruct (decide (cpu = cpu')) as [<- | Hne].
    + eexists. split; [by eapply changes_eq|]. split; [done | by apply ring_of_status].
    + rewrite (changes_ne _ _ _ _ _ Hm) by done. by apply Hr.
  - intros cpu' c'. rewrite bm_update_cases. case_decide as Hd; [|apply Hb].
    destruct Hd as [<- _]. intros [= <-]. split; [done|].
    exists (switches_of sp cpu). split; [done | by apply ring_of_status].
Qed.

Lemma of_inv_back sp s cur e :
  cpu_ok (smp_processor_id e) -> of_inv sp s ->
  of_inv (spec_back a cur e sp) (run (switch_back cur e) s).2.
Proof.
  intros Hcpu Hs. pose proof Hs as [Ha Hst Hp Hr Hb He]. unfold switch_back, spec_back.
  rewrite (is_target_task_run a) by done.
  destruct (is_target _ _ _); cbn [negb]; [|done].
  rewrite run_bind. cbn [map_lookup get act run fst snd l_start lget].
  pose proof (Hst (task_pid cur)) as Hpid.
  destruct (bm_lookup (start s) (task_pid cur)) as [ep|] eqn:Hep.
  2: { destruct Hpid as [-> _]. done. }
  destruct (Hp _ Hcpu) as [p Hpe]. destruct (Hr _ Hcpu) as (c & Hc & _).
  destruct (record_current_run a cur ep ep p c e s Hep Hpe Hc)
    as (ms & mp & mc & mb & -> & Hms & Hdoms & Hdomp & Hmp & Hmc).
  assert (Hspec : (match sp_left sp !! task_pid cur with
    | Some off => if reported a (ktime_ns e) off
        then sp <| sp_events := sp_events sp ++ [spec_event cur off e sp] |> else sp
    | None => sp end) = sp <| sp_events := sp_events sp ++
        if reported a (ktime_ns e) (tg_offcpu_ns (target ep))
        then [spec_event cur (tg_offcpu_ns (target ep)) e sp] else [] |>).
  { destruct Hpid as (_ & -> & _). destruct (sp_left sp !! task_pid cur) as [off|]; cbn.
    - destruct (reported a (ktime_ns e) off); [done|]. destruct sp; cbn. by rewrite app_nil_r.
    - unfold reported. cbn. rewrite andb_false_r. destruct sp; cbn. by rewrite app_nil_r. }
  rewrite Hspec. clear Hspec.
  assert (Hs' : of_inv sp (s <| sched_cache_map := mc |> <| sched_cache_backup_map := mb |>)).
  { destruct (reported _ _ _ && _); [by eapply of_inv_dump|].
    destruct Hmc as [-> ->]. by destruct s. }
  destruct Hs' as [_ _ _ Hr' Hb' _]. split; cbn -[come_back]; [done | | | exact Hr' | exact Hb' |].
  - intros pid. destruct (decide (task_pid cur = pid)) as [<- | Hne].
    + rewrite (changes_eq _ _ _ _ Hms). exact Hpid.
    + rewrite (changes_ne _ _ _ _ _ Hms) by done. apply Hst.
  - intros cpu' Hcpu'. apply Hp in Hcpu'. rewrite <- bm_elem_of_dom in Hcpu' |- *.
    by rewrite Hdomp.
  - rewrite fmap_app, He. f_equal. destruct (reported _ _ _); [|done]. cbn -[come_back].
    by rewrite (abs_event_of _ _ _ _ _ sp).
Qed.

Lemma sched_switch_hook_run pre cur e s :
  args_map s = Some a ->
  (run (sched_switch_hook pre cur e) s).2 =
    (run (switch_back cur e) (run (record_prev pre (ktime_ns e) (smp_processor_id e))
      (run (if nz (arg_rq_dur_ms a)
            then sched_cache_update pre (ktime_ns e) (smp_processor_id e) else Ret tt) s).2).2).2.
Proof.
  intros Ha. unfold sched_switch_hook. rewrite run_bind, run_get. cbn [fst snd].
  rewrite Ha, run_bind. cbn zeta. by rewrite run_bind.
Qed.

Lemma of_inv_step x y :
  of_step x y -> of_inv (sy_sp x) (sy_st x) -> of_inv (sy_sp y) (sy_st y).
Proof.
  intros [c s sp Hcpu Hroom] Hs. cbn [sy_sp sy_st] in *. destruct c as [task st e | pre cur e].
  - by apply of_inv_wake.
  - cbn [call_prog spec_step]. rewrite sched_switch_hook_run by apply Hs.
    apply of_inv_back; [done|]. apply of_inv_leave; [|by apply of_inv_log].
    by rewrite (log_keeps_start sp).
Qed.
Lemma of_reachable_inv x : of_reachable x -> of_inv (sy_sp x) (sy_st x).
Proof.
  intros Hx. unfold of_reachable in Hx. remember of_sys_init as x0 eqn:E.
  assert (H0 : of_inv (sy_sp x0) (sy_st x0)) by (subst; apply of_inv_init).
  clear E. induction Hx as [|x y z Hxy _ IH]; [done|]. apply IH. by eapply of_inv_step.
Qed.

(** C11: the events sent are exactly those of the abstract profiler: one for every
    return of a target task that was seen to leave a CPU and was away for a
    duration in the window, with the times it left and came back, the duration
    and the thread that woke it last. *)
Theorem events_refine x :
  of_reachable x -> abs_event <$> perf_map (sy_st x) = sp_events (sy_sp x).
Proof. intros Hx. by apply of_reachable_inv. Qed.

(** When context switches are recorded, the ring of every CPU holds exactly its last
    512 switches, each in the slot its number has modulo 512. *)
Lemma ring_between_hooks x cpu j p ts :
  of_reachable x -> cpu_ok cpu ->
  let l := switches_of (sy_sp x) cpu in
  l !! j = Some (p, ts) -> Z.of_nat (length l) - Z.of_nat j <= SCHED_CACHE_SIZE ->
  exists c, bm_lookup (sched_cache_map (sy_st x)) cpu = Some c /\
    sc_id c = u32 (Z.of_nat (length l)) /\
    records c !! Z.to_nat (Z.of_nat j mod SCHED_CACHE_SIZE) = Some (record_of p ts).
Proof.
  intros Hx Hcpu l Hj Hlast. destruct (oi_ring _ _ (of_reachable_inv x Hx) cpu Hcpu)
    as (c & Hc & _ & [_ Hid Hrec]). exists c. split_and!; [done | done | by apply Hrec].
Qed.

(** A copy in the backup map is a snapshot of some moment of the past. *)
Lemma backup_between_hooks x cpu c :
  of_reachable x -> bm_lookup (sched_cache_backup_map (sy_st x)) cpu = Some c ->
  sc_status c = SCHED_CACHE_RECORD_OFF /\
  exists l, l `prefix_of` switches_of (sy_sp x) cpu /\ ring_of l c.
Proof. intros Hx. apply (oi_backup _ _ (of_reachable_inv x Hx)). Qed.

(** The return of a known task to a CPU: one event exactly when the absence is
    in the window, with the element's data, the caller's stacks and name, and the
    two durations; the ring is copied exactly when the event is sent and the task
    waited longer than the limit; the return is noted in the element. *)
Lemma switch_in_reports cur ep p c e s :
  let cpu := smp_processor_id e in
  let off := tg_offcpu_ns (target ep) in
  let rd := tg_run_delay_ns (target ep) in
  let sent := reported a (ktime_ns e) off in
  let dump := sent && overloaded a (tk_run_delay cur) rd in
  bm_lookup (start s) (task_pid cur) = Some ep ->
  bm_lookup (perf_event_cache_map s) cpu = Some p ->
  bm_lookup (sched_cache_map s) cpu = Some c ->
  (size (bm_dom (sched_cache_backup_map s)) < bm_max (sched_cache_backup_map s))%nat ->
  let s' := (run (record_current a cur ep (ktime_ns e) cpu e) s).2 in
  perf_map s' = perf_map s ++
    (if sent then [event_of a cur (come_back rd (ktime_ns e) cpu ep) p e] else []) /\
  bm_lookup (sched_cache_backup_map s') cpu =
    (if dump then Some (c <| sc_status := SCHED_CACHE_RECORD_OFF |>)
     else bm_lookup (sched_cache_backup_map s) cpu) /\
  bm_lookup (start s') (task_pid cur) =
    Some (come_back (tk_run_delay cur) (ktime_ns e) cpu ep).
Proof.
  intros cpu off rd sent dump Hep Hp Hc Hroom s'. subst s'.
  destruct (record_current_run a cur ep ep p c e s Hep Hp Hc)
    as (ms & mp & mc & mb & Hrun & Hms & _ & _ & _ & Hmc). fold cpu off rd in Hrun, Hmc.
  rewrite Hrun.
  cbn [perf_map sched_cache_backup_map start].
  split; [done|]. split; [|by eapply changes_eq]. fold sent dump in Hmc. destruct dump.
  - destruct Hmc as (_ & _ & ->). apply (changes_eq cpu _ (sched_cache_backup_map s)).
    apply changes_update. by right.
  - by destruct Hmc as [_ ->].
Qed.

(** * The dump flag *)

(** The per-CPU event of [cpu] is flagged. *)
Definition flagged (cpu : Z) s : Prop :=
  exists p, bm_lookup (perf_event_cache_map s) cpu = Some p /\ is_sched_cache_dump p = 1.

(** The events [w] that say they are of [cpu] are flagged. *)
Definition all_flagged (cpu : Z) (w : list perf_event_t) : Prop :=
  Forall (fun ev => tg_oncpu_id (pe_target ev) = cpu -> is_sched_cache_dump ev = 1) w.

Lemma flagged_back sp s cur e cpu :
  cpu_ok (smp_processor_id e) -> of_inv sp s -> flagged cpu s ->
  exists w, perf_map (run (switch_back cur e) s).2 = perf_map s ++ w /\
    all_flagged cpu w /\ flagged cpu (run (switch_back cur e) s).2.
Proof.
  intros Hcpu [Ha _ Hp Hr _ _] Hfl.
  assert (Hskip : exists w, perf_map s = perf_map s ++ w /\ all_flagged cpu w /\ flagged cpu s).
  { exists []. rewrite app_nil_r. split_and!; [done | constructor | done]. }
  unfold switch_back. rewrite (is_target_task_run a) by done.
  destruct (is_target _ _ _); cbn [negb]; [|done].
  rewrite run_bind. cbn [map_lookup get act run fst snd l_start lget].
  destruct (bm_lookup (start s) (task_pid cur)) as [ep|] eqn:Hep; [|done].
  destruct (Hp _ Hcpu) as [p Hpe]. destruct (Hr _ Hcpu) as (c & Hc & _).
  destruct (record_current_run a cur ep ep p c e s Hep Hpe Hc)
    as (ms & mp & mc & mb & -> & _ & _ & _ & Hmp & _). cbn [perf_map].
  eexists. split; [reflexivity|]. destruct (reported _ _ _).
  - set (ev := event_of _ _ _ _ _) in *.
    assert (Hev : smp_processor_id e = cpu -> is_sched_cache_dump ev = 1).
    { intros <-. destruct Hfl as (p' & Hp' & Hflag). rewrite Hpe in Hp'. injection Hp' as <-.
      unfold ev, event_of. cbn. by case_match. }
    split; [constructor; [exact Hev | constructor]|].
    destruct (decide (smp_processor_id e = cpu)) as [Heq | Hne].
    + exists ev. split; [|by apply Hev]. cbn. rewrite <- Heq. by eapply changes_eq.
    + destruct Hfl as (p' & Hp' & ?). exists p'. split; [|done]. cbn.
      by rewrite (changes_ne _ _ _ _ _ Hmp).
  - subst mp. by split; [constructor|].
Qed.

Lemma flagged_step x y cpu :
  of_step x y -> of_inv (sy_sp x) (sy_st x) -> flagged cpu (sy_st x) ->
  exists w, perf_map (sy_st y) = perf_map (sy_st x) ++ w /\ all_flagged cpu w /\
    flagged cpu (sy_st y).
Proof.
  intros [c s sp Hcpu Hroom] Hs Hfl. cbn [sy_sp sy_st] in *. pose proof (oi_args _ _ Hs) as Ha.
  destruct c as [task st e | pre cur e]; cbn [call_prog call_pid call_cpu] in *.
  - destruct (try_to_wake_up_run new a task st e s Ha Hroom) as (m & -> & _).
    exists []. cbn. rewrite app_nil_r. split_and!; [done | constructor | done].
  - rewrite sched_switch_hook_run by done.
    set (s1 := (run (if nz _ then _ else _) s).2).
    assert (Hs1 : of_inv (spec_log a pre e sp) s1) by by apply of_inv_log.
    assert (Hroom1 : is_Some (bm_lookup (start s1) (task_pid pre)) \/
      (size (bm_dom (start s1)) < bm_max (start s1))%nat)
      by (unfold s1; by rewrite (log_keeps_start sp)).
    set (s2 := (run (record_prev _ _ _) s1).2).
    assert (Hs2 : of_inv (spec_leave a pre e (spec_log a pre e sp)) s2) by by apply of_inv_leave.
    assert (H12 : perf_map s2 = perf_map s /\ perf_event_cache_map s2 = perf_event_cache_map s).
    { unfold s2. destruct (record_prev_run a pre (ktime_ns e) (smp_processor_id e) s1
        (oi_args _ _ Hs1) Hroom1) as (m & -> & _). cbn. unfold s1.
      destruct (nz _); [|done]. destruct (oi_ring _ _ Hs _ Hcpu) as (c & Hc & Hon & _).
      by destruct (sched_cache_update_run pre (ktime_ns e) _ c s Hc Hon) as (m' & -> & _). }
    destruct H12 as [Hperf Hpe]. rewrite <- Hperf. eapply flagged_back; [done | exact Hs2|].
    unfold flagged. by rewrite Hpe.
Qed.

(** C39: the flag [is_sched_cache_dump] is never reset: from the first dump of a CPU
    on, every event of that CPU says that the ring was dumped for it. *)
Theorem dump_flag_sticks x y cpu :
  of_reachable x -> flagged cpu (sy_st x) -> rtc of_step x y ->
  exists w, perf_map (sy_st y) = perf_map (sy_st x) ++ w /\ all_flagged cpu w.
Proof.
  intros Hx Hfl Hxy. apply of_reachable_inv in Hx. induction Hxy as [x | x y z Hxy _ IH].
  { exists []. rewrite app_nil_r. split; [done | constructor]. }
  destruct (flagged_step x y cpu Hxy Hx Hfl) as (w1 & Hw1 & Hf1 & Hfl1).
  destruct IH as (w2 & Hw2 & Hf2); [by eapply of_inv_step | done |].
  exists (w1 ++ w2). split; [by rewrite Hw2, Hw1, app_assoc | by apply Forall_app_2].
Qed.
End System.

(** The reported number of milliseconds is exact for absences of less than
    2^31 ms, about 25 days; the next 25 days are sign-extended to a number close
    to 2^64, and an absence of 2^32 ms or more is taken for a short one. *)
Lemma dur_ms_exact now before :
  is_u64 now -> is_u64 before ->
  let ms := u64 (now - before) / 1000000 in
  (ms < 2 ^ 31 -> u64 (ms_between now before) = ms) /\
  (2 ^ 31 <= ms < 2 ^ 32 -> u64 (ms_between now before) = 2 ^ 64 - (2 ^ 32 - ms)) /\
  u32 (ms_between now before) = ms mod 2 ^ 32.
Proof.
  intros Hn Hb ms. assert (Hms : 0 <= ms < 2 ^ 64).
  { pose proof (uN_range 64 ltac:(lia) (now - before)) as [H0 H1]. split.
    - by apply Z.div_pos.
    - apply Z.div_lt_upper_bound; lia. }
  unfold ms_between. fold ms. split_and!.
  - intros Hlt. rewrite sN_id by lia. apply uN_id. split; lia.
  - intros Hge. unfold sN. cbv zeta. rewrite (uN_id 32) by (split; lia).
    rewrite (proj2 (Z.ltb_ge _ _)) by lia. unfold uN.
    replace (ms - 2 ^ 32) with (2 ^ 64 - (2 ^ 32 - ms) + -1 * 2 ^ 64) by lia.
    rewrite Z.mod_add by lia. apply Z.mod_small. lia.
  - by rewrite uN_sN by lia.
Qed.

(** * Examples *)

(** Every task; absences of 1 ms or more; the ring is dumped after 5 ms on a run
    queue. *)
Definition off_args : user_args := {|
  arg_pid := UINT32_MAX; arg_tgid := UINT32_MAX; min_offcpu_ms := 1;
  max_offcpu_ms := 100000; arg_rq_dur_ms := 5 |}.

Definition off_task (pid delay_ms : Z) : task_struct := {|
  tk_pid := pid; tk_tgid := 7; tk_on_rq := 0; tk___state := 1; tk_state := 0; tk_prio := 120;
  tk_comm := replicate TASK_COMM_LEN 97; tk_run_delay := delay_ms * 1000000 |}.

(** A hook on a CPU at a time in milliseconds, in the context of a thread. *)
Definition off_env (ms tid cpu : Z) : bpf_env := {|
  ktime_ns := ms * 1000000; current_pid_tgid := 7 * 2 ^ 32 + tid; smp_processor_id := cpu;
  current_comm := replicate TASK_COMM_LEN 98; stackid := fun flags => flags |}.

Definition off_exec1 (x : of_sys) (c : off_call) : of_sys :=
  OfSys (run (call_prog true c) (sy_st x)).2 (spec_step true off_args (sy_sp x) c).

Definition off_check1 (x : of_sys) (c : off_call) : bool :=
  (0 <=? call_cpu c) && (call_cpu c <? 2) &&
  (size (bm_dom (start (sy_st x))) <? bm_max (start (sy_st x)))%nat.

(** A run of hooks on a machine with two CPUs. *)
Fixpoint off_exec (x : of_sys) (cs : list off_call) : option of_sys :=
  match cs with
  | [] => Some x
  | c :: cs => if off_check1 x c then off_exec (off_exec1 x c) cs else None
  end.

Lemma off_exec_steps cs x y :
  off_exec x cs = Some y -> rtc (of_step true off_args 2) x y.
Proof.
  revert x. induction cs as [|c cs IH]; intros x; cbn; [by intros [= ->]|].
  destruct (off_check1 x c) eqn:E; [|done]. intros Hy. apply IH in Hy.
  eapply rtc_l; [|exact Hy]. destruct x as [s sp]. unfold off_check1 in E. zbool.
  apply OfStep; [unfold cpu_ok; lia|]. right. by apply Nat.ltb_lt.
Qed.

Definition off_sys_init : of_sys := of_sys_init off_args 2.
Definition off_run (cs : list off_call) : of_sys := default off_sys_init (off_exec off_sys_init cs).

Lemma off_run_reachable cs :
  is_Some (off_exec off_sys_init cs) -> of_reachable true off_args 2 (off_run cs).
Proof. intros [y Hy]. unfold off_run. rewrite Hy. by apply off_exec_steps in Hy. Qed.

(** Task 70 sleeps from 10 to 30 ms and is woken by thread 80; it waits 8 ms for
    the CPU. *)
Definition off_calls : list off_call :=
  [Switch (off_task 70 0) (off_task 80 0) (off_env 10 80 0);
   Wake (off_task 70 0) 3 (off_env 22 80 1);
   Switch (off_task 80 0) (off_task 70 8) (off_env 30 70 0)].

Lemma off_calls_reachable : of_reachable true off_args 2 (off_run off_calls).
Proof. apply off_run_reachable. vm_compute. by eexists. Qed.

Lemma events_refine_witness :
  abs_event <$> perf_map (sy_st (off_run off_calls)) =
    [{| oe_pid := 70; oe_left := 10000000; oe_back := 30000000; oe_cpu := 0; oe_dur_ms := 20;
        oe_waker := (80, 7, 22000000) |}].
Proof.
  rewrite (events_refine true off_args 2 _ off_calls_reachable). vm_compute. reflexivity.
Defined.

Lemma ring_between_hooks_witness :
  exists c, bm_lookup (sched_cache_map (sy_st (off_run off_calls))) 0 = Some c /\
    sc_id c = 2 /\ records c !! 1%nat = Some (record_of (off_task 80 0) 30000000).
Proof.
  refine (ring_between_hooks true off_args 2 _ 0 1%nat (off_task 80 0) 30000000
    off_calls_reachable _ _ _).
  - split; [lia | reflexivity].
  - vm_compute. reflexivity.
  - vm_compute. congruence.
Defined.

Lemma backup_between_hooks_witness :
  exists c, bm_lookup (sched_cache_backup_map (sy_st (off_run off_calls))) 0 = Some c /\
    sc_status c = SCHED_CACHE_RECORD_OFF.
Proof.
  eexists. split; [vm_compute; reflexivity|].
  refine (proj1 (backup_between_hooks true off_args 2 _ 0 _ off_calls_reachable _)).
  vm_compute. reflexivity.
Defined.

Definition off_before : of_state := sy_st (off_run (take 2 off_calls)).

Definition off_ep : trace_event_t :=
  default (new_task_event 0 0 (off_task 70 0)) (bm_lookup (start off_before) 70).

Lemma switch_in_reports_witness :
  length (perf_map (run (record_current off_args (off_task 70 8) off_ep
    (ktime_ns (off_env 30 70 0)) (smp_processor_id (off_env 30 70 0)) (off_env 30 70 0))
    off_before).2) = 1%nat.
Proof.
  destruct (switch_in_reports off_args (off_task 70 8) off_ep
    zero_perf_event (default zero_cached (bm_lookup (sched_cache_map off_before) 0))
    (off_env 30 70 0) off_before) as (-> & _ & _); try (vm_compute; reflexivity).
  apply Nat.ltb_lt. vm_compute. reflexivity.
Defined.

(** After the dump task 80 comes back, without having waited. *)
Definition off_more : list off_call := [Switch (off_task 70 8) (off_task 80 0) (off_env 40 80 0)].

Lemma dump_flag_sticks_witness :
  exists w, perf_map (sy_st (off_run (off_calls ++ off_more))) =
    perf_map (sy_st (off_run off_calls)) ++ w /\ all_flagged 0 w.
Proof.
  apply (dump_flag_sticks true off_args 2 _ _ 0 off_calls_reachable).
  - eexists. split; vm_compute; reflexivity.
  - apply (off_exec_steps off_more). vm_compute. reflexivity.
Defined.

Lemma dur_ms_exact_witness : u64 (ms_between 30000000 10000000) = 20.
Proof.
  refine (proj1 (dur_ms_exact 30000000 10000000 _ _) _); [split; lia | split; lia |].
  vm_compute. reflexivity.
Defined.

(** The waker is not forgotten: when task 70 is preempted at 50 ms and comes
    back at 60 ms without having been woken, the event names thread 80 as its
    waker, with a time before the task left the CPU. *)
Lemma stale_waker_reported :
  exists x ev, of_reachable true off_args 2 x /\ last (perf_map (sy_st x)) = Some ev /\
    tg_offcpu_ns (pe_target ev) = 50000000 /\ wk_pid (pe_waker ev) = 80 /\
    wk_offcpu_ns (pe_waker ev) = 22000000.
Proof.
  exists (off_run (off_calls ++ [Switch (off_task 70 8) (off_task 80 0) (off_env 50 80 0);
    Switch (off_task 80 0) (off_task 70 8) (off_env 60 70 0)])).
  eexists. split; [apply off_run_reachable; vm_compute; by eexists|].
  split_and!; vm_compute; reflexivity.
Qed.

(** The idle tasks of all CPUs share the element of pid 0: CPU 1's idle task,
    away for 5 ms, is reported as away since CPU 0's idle task left, for 2 ms. *)
Lemma idle_tasks_mixed_up :
  exists x ev, of_reachable true off_args 2 x /\ last (perf_map (sy_st x)) = Some ev /\
    tg_pid (pe_target ev) = 0 /\ tg_oncpu_id (pe_target ev) = 1 /\
    tg_offcpu_id (pe_target ev) = 0 /\ dur_ms ev = 2.
Proof.
  exists (off_run [Switch (off_task 0 0) (off_task 81 0) (off_env 10 81 1);
    Switch (off_task 0 0) (off_task 80 0) (off_env 13 80 0);
    Switch (off_task 81 0) (off_task 0 0) (off_env 15 0 1)]).
  eexists. split; [apply off_run_reachable; vm_compute; by eexists|].
  split_and!; vm_compute; reflexivity.
Qed.
