(* ===== verification/OffCpuConc.v ===== *)
(** The off-CPU profiler on several CPUs: its hooks interleave action by action.

    A CPU runs its hooks one after the other; the hooks of different CPUs
    interleave.  The element of a CPU in [sched_cache_map], [perf_event_cache_map]
    and [sched_cache_backup_map] is its own, while the elements of [start], and the
    perf buffer, are shared.  An event copies the structures of its task's element word by
    word, while other hooks write to it. *)
From S2P Require Import Prelude Prog BpfMap Owned OffCpu OffCpuSpec.
From stdpp Require Import relations.
Open Scope Z_scope.
Open Scope bpf_scope.

(** * The parts of the state *)

(** The elements of one CPU in the per-CPU maps and in the backup map. *)
Record cpu_part := CpuPart {
  p_ring : option sched_cached;
  p_event : option perf_event_t;
  p_backup : option sched_cached
}.

#[export] Instance eta_cpu_part : Eta cpu_part := fun r => {|
  p_ring := p_ring r; p_event := p_event r; p_backup := p_backup r |}.

(** The per-CPU event is flagged only with the number of its CPU. *)
Definition flag_ok (cpu : Z) (p : perf_event_t) : Prop :=
  is_sched_cache_dump p = 0 \/ is_sched_cache_dump p = 1 /\ pe_cpu p = cpu.

Section Conc.
Context {BM : BpfMaps} {BL : BpfMapsLaws BM} (new : bool) (a : user_args).

(** The hooks of the CPUs: CPU [i] runs [css !! i]. *)
Context (css : list (list off_call)).
Implicit Types (s : of_state) (v w : cpu_part) (i : nat).

(** What a hook adds to the ring of its CPU. *)
Definition logged (c : off_call) : list (task_struct * Z) :=
  match c with
  | Switch pre _ e => if nz (arg_rq_dur_ms a) then [(pre, ktime_ns e)] else []
  | Wake _ _ _ => []
  end.
Definition switches (cs : list off_call) : list (task_struct * Z) := cs ≫= logged.

(** The program of a CPU. *)
Fixpoint cpu_prog (cs : list off_call) : prog of_state Z :=
  match cs with
  | [] => Ret 0
  | c :: cs => call_prog new c ;;; cpu_prog cs
  end.

(** ** Where a member comes from

    A member that was never written is 0.  Otherwise it was seen when somebody woke the
    task [k], when [k] left a CPU, or when [k] came back to one: it is what [f] reads of
    the context of such a hook. *)
Definition at_wake (k : Z) (f : bpf_env -> Z) (x : Z) : Prop :=
  x = 0 \/ exists i cs task st e, css !! i = Some cs /\ Wake task st e ∈ cs /\ task_pid task = k /\ x = f e.
Definition at_leave (k : Z) (f : bpf_env -> Z) (x : Z) : Prop :=
  x = 0 \/ exists i cs pre cur e, css !! i = Some cs /\ Switch pre cur e ∈ cs /\ task_pid pre = k /\ x = f e.
Definition at_return (k : Z) (f : bpf_env -> Z) (x : Z) : Prop :=
  x = 0 \/ exists i cs pre cur e, css !! i = Some cs /\ Switch pre cur e ∈ cs /\ task_pid cur = k /\ x = f e.

Record waker_ok (k : Z) (w : waker_t) : Prop := {
  wo_pid : at_wake k (fun e => lo32 (current_pid_tgid e)) (wk_pid w);
  wo_tgid : at_wake k (fun e => u32 (hi32 (current_pid_tgid e))) (wk_tgid w);
  wo_user : at_wake k user_stack (wk_user_stack_id w);
  wo_kern : at_wake k kern_stack (wk_kern_stack_id w);
  wo_time : at_wake k ktime_ns (wk_offcpu_ns w)
}.

Record target_ok (k : Z) (t : target_t) : Prop := {
  to_pid : tg_pid t = k;
  to_left : at_leave k ktime_ns (tg_offcpu_ns t);
  to_left_cpu : at_leave k smp_processor_id (tg_offcpu_id t);
  to_back : at_return k ktime_ns (tg_oncpu_ns t);
  to_back_cpu : at_return k smp_processor_id (tg_oncpu_id t);
  to_woken : at_wake k ktime_ns (tg_onrq_ns t)
}.

(** An element of [start]. *)
Record elem_ok (k : Z) (ep : trace_event_t) : Prop := {
  el_waker : waker_ok k (waker ep);
  el_target : target_ok k (target ep)
}.

(** The event reports the return of [cur] at the switch in the context [e]: the task, its
    stacks, its name and the time are of this switch, the duration is in the window and
    since a time at which the task left a CPU, and the waker and the other times have been
    the task's. *)
Record reports (cur : task_struct) (e : bpf_env) (ev : perf_event_t) : Prop := {
  rp_of_task : target_ok (task_pid cur) (pe_target ev);
  rp_waker : waker_ok (task_pid cur) (pe_waker ev);
  rp_target : is_target (Some a) (task_tgid cur) (task_pid cur) = true;
  rp_kern : tg_kern_stack_id (pe_target ev) = kern_stack e;
  rp_user : tg_user_stack_id (pe_target ev) = user_stack e;
  rp_comm : tg_comm (pe_target ev) = current_comm e;
  rp_ts : pe_ts_ns ev = ktime_ns e;
  rp_dur : exists off, at_leave (task_pid cur) ktime_ns off /\
    let delta := ms_between (ktime_ns e) off in
    dur_ms ev = u64 delta /\ min_offcpu_ms a <= u32 delta <= max_offcpu_ms a;
  rp_flag : flag_ok (smp_processor_id e) ev
}.

Definition event_ok (ev : perf_event_t) : Prop :=
  exists i cs pre cur e, css !! i = Some cs /\ Switch pre cur e ∈ cs /\ reports cur e ev.

(** What holds of the shared part at any time. *)
Record shared_ok s : Prop := {
  sh_args : args_map s = Some a;
  sh_start k ep : bm_lookup (start s) k = Some ep -> elem_ok k ep;
  sh_events : Forall event_ok (perf_map s)
}.

Definition part i s : cpu_part := {|
  p_ring := bm_lookup (sched_cache_map s) (Z.of_nat i);
  p_event := bm_lookup (perf_event_cache_map s) (Z.of_nat i);
  p_backup := bm_lookup (sched_cache_backup_map s) (Z.of_nat i) |}.

(** What holds of the part of CPU [i] at any time: the backup is a snapshot. *)
Definition snapshot_ok i v : Prop :=
  forall c, p_backup v = Some c -> sc_status c = SCHED_CACHE_RECORD_OFF /\
    exists l, l `prefix_of` switches (default [] (css !! i)) /\ ring_of l c.

(** The ring holds the switches [l], and the per-CPU event satisfies [P]. *)
Definition part_ok (l : list (task_struct * Z)) (P : perf_event_t -> Prop) v : Prop :=
  (exists c, p_ring v = Some c /\ sc_status c = SCHED_CACHE_RECORD_ON /\ ring_of l c) /\
  (exists p, p_event v = Some p /\ P p).

(** What holds of the part between two hooks. *)
Definition rest_ok i (l : list (task_struct * Z)) : cpu_part -> Prop :=
  part_ok l (flag_ok (Z.of_nat i)).

#[local] Abbreviation own := (owns shared_ok part snapshot_ok).

(** * The actions *)

Lemma own_get_same {X} i (f : of_state -> X) v (P : X -> Prop) :
  (forall s, shared_ok s -> P (f s)) -> own i (get f) v (fun x w => w = v /\ P x).
Proof. intros HP. apply owns_get. intros s Hs _. auto. Qed.

Lemma own_args i v : own i (get args_map) v (fun x w => w = v /\ x = Some a).
Proof. apply own_get_same. apply sh_args. Qed.

Lemma own_is_target i v tgid pid :
  own i (is_target_task tgid pid) v (fun b w => w = v /\ b = is_target (Some a) tgid pid).
Proof.
  unfold is_target_task. eapply owns_bind; [apply own_args|]. by intros ? ? [-> ->].
Qed.

Lemma own_start_lookup i v k :
  own i (map_lookup l_start k) v
    (fun o w => w = v /\ forall ep, o = Some ep -> elem_ok k ep).
Proof. apply own_get_same. intros s Hs ep. apply (sh_start s Hs). Qed.

Lemma own_start_load {X} i v k ep0 (g : trace_event_t -> X) :
  elem_ok k ep0 -> own i (load l_start k ep0 g) v (fun x w => w = v /\ exists ep, elem_ok k ep /\ x = g ep).
Proof.
  intros H0. apply own_get_same. intros s Hs. eexists. split; [|reflexivity]. cbn.
  destruct (bm_lookup (start s) k) eqn:E; [by apply (sh_start s Hs) | done].
Qed.

Lemma own_start_read {X} i v k ep0 (g : trace_event_t -> X) :
  own i (load l_start k ep0 g) v (fun _ w => w = v).
Proof. by apply owns_get. Qed.

(** Writing to [start]. *)
Lemma own_start_act {X} i v (f : of_state -> X * of_state) :
  (forall s, (f s).2 = s <| start := start (f s).2 |>) ->
  (forall s k ep, shared_ok s -> bm_lookup (start (f s).2) k = Some ep -> elem_ok k ep) ->
  own i (act f) v (fun _ w => w = v).
Proof.
  intros Hf Hst. apply owns_act with (g := id); [|done]. intros s Hs Hv.
  pose proof (Hst s) as Hk. rewrite (Hf s). split_and!; [|by subst v | done | done].
  destruct Hs as [? ? ?]. split; [done | cbn; intros; by apply Hk | done].
Qed.

Lemma own_store_target i v k f :
  (forall t, target_ok k t -> target_ok k (f t)) -> own i (store_target k f) v (fun _ w => w = v).
Proof.
  intros Hf. apply own_start_act; [done|]. intros s k' ep Hs. cbn. rewrite bm_lookup_store.
  case_decide; [subst k'|by apply (sh_start s Hs)].
  intros (ep' & [Hw Ht]%(sh_start s Hs) & ->)%fmap_Some. split; [done | by apply Hf].
Qed.

Lemma own_store_waker i v k f :
  (forall x, waker_ok k x -> waker_ok k (f x)) -> own i (store_waker k f) v (fun _ w => w = v).
Proof.
  intros Hf. apply own_start_act; [done|]. intros s k' ep Hs. cbn. rewrite bm_lookup_store.
  case_decide; [subst k'|by apply (sh_start s Hs)].
  intros (ep' & [Hw Ht]%(sh_start s Hs) & ->)%fmap_Some. split; [by apply Hf | done].
Qed.

Lemma own_start_update i v k ep fl :
  elem_ok k ep -> own i (map_update l_start k ep fl) v (fun _ w => w = v).
Proof.
  intros Hep. apply own_start_act; [done|]. intros s k' ep' Hs. cbn. rewrite bm_update_cases.
  case_decide as Hd; [|by apply (sh_start s Hs)]. destruct Hd as [<- _]. by intros [= <-].
Qed.

(** What a hook writes comes from its own context. *)
Lemma at_wake_now i cs task st e f :
  css !! i = Some cs -> Wake task st e ∈ cs -> at_wake (task_pid task) f (f e).
Proof. intros Hi Hin. right. by exists i, cs, task, st, e. Qed.
Lemma at_leave_now i cs pre cur e f :
  css !! i = Some cs -> Switch pre cur e ∈ cs -> at_leave (task_pid pre) f (f e).
Proof. intros Hi Hin. right. by exists i, cs, pre, cur, e. Qed.
Lemma at_return_now i cs pre cur e f :
  css !! i = Some cs -> Switch pre cur e ∈ cs -> at_return (task_pid cur) f (f e).
Proof. intros Hi Hin. right. by exists i, cs, pre, cur, e. Qed.

(** Show that the members of a structure have sources, those written by this hook included. *)
Ltac sources :=
  intros; repeat match goal with H : waker_ok _ _ |- _ => destruct H | H : target_ok _ _ |- _ => destruct H end;
  repeat split; cbn; first [assumption | by left
    | by eapply (at_wake_now _ _ _ _ _ (fun e => lo32 (current_pid_tgid e)))
    | by eapply (at_wake_now _ _ _ _ _ (fun e => u32 (hi32 (current_pid_tgid e))))
    | by eapply at_wake_now | by eapply at_leave_now | by eapply at_return_now].

(** Sending an event. *)
Lemma own_emit i v ev :
  event_ok ev -> own i (perf_event_output l_perf ev) v (fun _ w => w = v).
Proof.
  intros Hev. apply owns_act with (g := id); [|done]. intros s Hs Hv.
  split_and!; [|by subst v | done | done]. destruct Hs as [? ? ?].
  split; [done | done|]. cbn. apply Forall_app_2; [done | by constructor].
Qed.

(** Reading the own part. *)
Lemma own_ring_lookup i v :
  own i (map_lookup l_cache (Z.of_nat i)) v (fun o w => w = v /\ o = p_ring v).
Proof. apply owns_get. by intros s _ <-. Qed.

Lemma own_ring_load {X} i v c0 (g : sched_cached -> X) :
  own i (load l_cache (Z.of_nat i) c0 g) v (fun x w => w = v /\ x = g (default c0 (p_ring v))).
Proof. apply owns_get. by intros s _ <-. Qed.

Lemma own_event_lookup i v :
  own i (map_lookup l_pevent (Z.of_nat i)) v (fun o w => w = v /\ o = p_event v).
Proof. apply owns_get. by intros s _ <-. Qed.

Lemma own_event_load {X} i v p0 (g : perf_event_t -> X) :
  own i (load l_pevent (Z.of_nat i) p0 g) v (fun x w => w = v /\ x = g (default p0 (p_event v))).
Proof. apply owns_get. by intros s _ <-. Qed.

(** Writing to it. *)
Lemma own_ring_store i v f :
  own i (store l_cache (Z.of_nat i) f) v (fun _ w => w = v <| p_ring := f <$> p_ring v |>).
Proof.
  apply owns_act with (g := fun v => v <| p_ring := f <$> p_ring v |>); [|done].
  intros s [? ? ?] <-. split_and!; [done | | | done].
  - unfold part. cbn. by rewrite bm_store_eq.
  - intros j Hj. unfold part. cbn. by rewrite bm_store_ne by lia.
Qed.

Lemma own_event_store i v f :
  own i (store l_pevent (Z.of_nat i) f) v (fun _ w => w = v <| p_event := f <$> p_event v |>).
Proof.
  apply owns_act with (g := fun v => v <| p_event := f <$> p_event v |>); [|done].
  intros s [? ? ?] <-. split_and!; [done | | | done].
  - unfold part. cbn. by rewrite bm_store_eq.
  - intros j Hj. unfold part. cbn. by rewrite bm_store_ne by lia.
Qed.

(** The backup takes a snapshot, or is full and stays as it is. *)
Lemma own_backup_update i v c :
  snapshot_ok i (v <| p_backup := Some c |>) ->
  own i (map_update l_backup (Z.of_nat i) c BPF_ANY) v
    (fun _ w => exists b, w = v <| p_backup := b |>).
Proof.
  intros Hc s [? ? ?] HJ <-.
  set (bu := bm_update (sched_cache_backup_map s) (Z.of_nat i) c BPF_ANY).
  assert (Hp : exists b, part i (lset l_backup bu.2 s) = (part i s) <| p_backup := b |> /\
    snapshot_ok i ((part i s) <| p_backup := b |>)).
  { unfold part, bu. cbn. destruct (decide (bu.1 = 0)) as [E | E].
    - rewrite bm_update_ok_eq by done. eexists. by split; [|exact Hc].
    - rewrite bm_update_err by done. eexists. by split; [|exact HJ]. }
  destruct Hp as (b & Hp & Hb).
  cbn -[part lset]. fold bu. rewrite Hp. split; [|by eexists].
  split; [done|]. rewrite Hp. split; [done|].
  intros j Hj. unfold part, bu. cbn. by rewrite bm_update_ne by lia.
Qed.

(** Follow a program; equations between parts are substituted. *)
Ltac own_step :=
  lazymatch goal with
  | |- owns _ _ _ _ (bind (Ret _) _) _ _ => cbn [bind]
  | |- owns _ _ _ _ (bind (store_record _ _ _) _) _ _ => eapply owns_bind; [apply own_ring_store|]
  | |- owns _ _ _ _ (bind (store l_cache _ _) _) _ _ => eapply owns_bind; [apply own_ring_store|]
  | |- owns _ _ _ _ (bind (load l_cache _ _ _) _) _ _ => eapply owns_bind; [apply own_ring_load|]
  | |- owns _ _ _ _ (bind (map_lookup l_cache _) _) _ _ => eapply owns_bind; [apply own_ring_lookup|]
  | |- owns _ _ _ _ (bind (store l_pevent _ _) _) _ _ => eapply owns_bind; [apply own_event_store|]
  | |- owns _ _ _ _ (bind (load l_pevent _ _ _) _) _ _ => eapply owns_bind; [apply own_event_load|]
  | |- owns _ _ _ _ (bind (map_lookup l_pevent _) _) _ _ => eapply owns_bind; [apply own_event_lookup|]
  | |- owns _ _ _ _ (bind (map_lookup l_start _) _) _ _ => eapply owns_bind; [apply own_start_lookup|]
  | |- owns _ _ _ _ (bind (store_target _ _) _) _ _ => eapply owns_bind; [apply own_store_target; solve [sources]|]
  | |- owns _ _ _ _ (bind (store_waker _ _) _) _ _ => eapply owns_bind; [apply own_store_waker; solve [sources]|]
  | |- owns _ _ _ _ (bind (map_update l_start _ _ _) _) _ _ =>
      eapply owns_bind; [apply own_start_update; solve [sources]|]
  | |- owns _ _ _ _ (bind (is_target_task _ _) _) _ _ => eapply owns_bind; [apply own_is_target|]
  | |- owns _ _ _ _ (bind (get args_map) _) _ _ => eapply owns_bind; [apply own_args|]
  | |- owns _ _ _ _ (Ret _) _ _ => cbn [owns]
  end; try first [intros ? ? -> | intros ? ? [-> ->] | intros ? ? [-> ?] | intros ? ? [? ->]].

Lemma own_cache_update i v p ts c :
  p_ring v = Some c -> sc_status c = SCHED_CACHE_RECORD_ON ->
  own i (sched_cache_update p ts (Z.of_nat i)) v
    (fun _ w => w = v <| p_ring := Some (push_record p ts (Z.of_nat i) c) |>).
Proof.
  intros Hc Hst. unfold sched_cache_update. own_step. rewrite Hc.
  do 2 own_step. rewrite Hc. cbn [default from_option id]. rewrite Hst, Z.eqb_refl.
  rewrite (proj2 (Z.ltb_lt _ _)) by (apply Z.mod_pos_bound; done). cbn [andb].
  do 5 own_step. eapply owns_weaken; [apply own_ring_store|]. intros ? ? ->. cbn. rewrite Hc. cbn.
  do 2 f_equal. unfold push_record. f_equal.
  rewrite !array_update_update. by apply array_update_ext.
Qed.

(** A dump leaves the ring as it was. *)
Lemma own_dump i l P v :
  part_ok l P v -> l `prefix_of` switches (default [] (css !! i)) ->
  own i (sched_cache_dump (Z.of_nat i)) v (fun _ w => part_ok l P w).
Proof.
  intros [(c & Hc & Hst & Hr) Hp] Hl. unfold sched_cache_dump. own_step. rewrite Hc.
  do 2 own_step. cbn [p_ring]. rewrite Hc. cbn [fmap option_fmap option_map default from_option id].
  eapply owns_bind.
  { apply own_backup_update. intros c' [= <-]. split; [done|]. exists l. split; [done|].
    by apply ring_of_status. }
  intros _ ? [b ->]. eapply owns_weaken; [apply own_ring_store|]. intros _ ? ->.
  split; [|done]. cbn. eexists. split; [reflexivity|]. split; [done|]. by destruct Hr.
Qed.

(** A write to the per-CPU event. *)
Lemma own_event_write i l P f v :
  part_ok l P v ->
  own i (store l_pevent (Z.of_nat i) f) v
    (fun _ w => part_ok l (fun p' => exists p, P p /\ p' = f p) w).
Proof.
  intros [Hring (p & Hp & HP)]. eapply owns_weaken; [apply own_event_store|]. intros _ ? ->.
  split; [done|]. cbn. rewrite Hp. cbn. eauto.
Qed.

Lemma own_record_prev i v cs pre cur e :
  css !! i = Some cs -> Switch pre cur e ∈ cs -> smp_processor_id e = Z.of_nat i ->
  own i (record_prev pre (ktime_ns e) (Z.of_nat i)) v (fun _ w => w = v).
Proof.
  intros Hi Hin <-. unfold record_prev. fold (task_pid pre). own_step. destruct (is_target _ _ _); [|done].
  own_step. destruct a0 as [ep|].
  - do 2 own_step. apply own_store_target. sources.
  - unfold update_new_task_info. fold (task_pid pre). by own_step.
Qed.

Lemma part_ok_mono l (P P' : perf_event_t -> Prop) v :
  part_ok l P v -> (forall p, P p -> P' p) -> part_ok l P' v.
Proof. intros [Hr (p & Hp & HP)] HPP. split; [done|]. exists p. auto. Qed.

(** Follow a write; [H] says what holds of the part [v]. *)
Ltac own_write v H :=
  eapply owns_bind; [eapply own_event_write; exact H|]; clear v H; intros ? v H; cbv beta in H.

(** The value of a field after several writes: the equations of the writes are used
    one at a time, for the field only. *)
Ltac own_fields :=
  cbv beta; repeat match goal with
  | |- ex _ -> _ => intros (? & Hp' & ?); revert Hp'
  end; intros Hp'.
Ltac own_field :=
  repeat match goal with E : ?p = _ |- context [?p] => is_var p; rewrite E; cbn end; try done.

(** ** Copies

    A copy takes every word at its own time: each comes from the element as it was then. *)
Definition assembled {T} (into : (T -> T) -> perf_event_t -> perf_event_t) (ws : list (word T)) (srcs : list T)
    (p : perf_event_t) : perf_event_t :=
  foldl (fun p wt => into (wt.1 wt.2) p) p (zip ws srcs).

Lemma own_copy {T} (from : trace_event_t -> T) into (R : T -> Prop) i l P v k ep0 ws :
  (forall ep, elem_ok k ep -> R (from ep)) -> elem_ok k ep0 -> part_ok l P v ->
  own i (copy_words from into k ep0 (Z.of_nat i) ws) v
    (fun _ w => part_ok l (fun p' => exists p srcs, P p /\ length srcs = length ws /\ Forall R srcs /\
      p' = assembled into ws srcs p) w).
Proof.
  intros HR Hep. revert P v. induction ws as [|w ws IH]; intros P v Hv; cbn [copy_words foldr].
  - eapply part_ok_mono; [exact Hv|]. intros p Hp. by exists p, [].
  - fold (copy_words from into k ep0 (Z.of_nat i) ws).
    eapply owns_bind; [by apply own_start_load|]. intros x ? [-> (ep & Hok & ->)].
    own_write v Hv. eapply owns_weaken; [apply (IH _ _ Hv)|]. intros ? v' Hv'. cbv beta in Hv'.
    eapply part_ok_mono; [exact Hv'|]. clear Hv'. intros p' (p1 & srcs & (p & Hp & ->) & Hlen & Hall & ->).
    exists p, (from ep :: srcs). split_and!; [done | cbn; lia | constructor; auto | done].
Qed.

Lemma assembled_target k srcs p :
  length srcs = length target_words -> Forall (target_ok k) srcs ->
  target_ok k (pe_target (assembled into_target target_words srcs p)).
Proof.
  intros Hlen Hall.
  destruct srcs as [|t0 [|t1 [|t2 [|t3 [|t4 [|t5 [|t6 [|t7 [|t8 [|t9 [|t10 [|t11 []]]]]]]]]]]]]; try discriminate Hlen.
  rewrite !Forall_cons in Hall. destruct Hall as (H0 & H1 & H2 & H3 & H4 & H5 & H6 & H7 & H8 & H9 & H10 & H11 & _).
  split; [exact (to_pid _ _ H0) | exact (to_left _ _ H8) | exact (to_left_cpu _ _ H10) | exact (to_back _ _ H7)
    | exact (to_back_cpu _ _ H10) | exact (to_woken _ _ H9)].
Qed.

Lemma assembled_waker k srcs p :
  length srcs = length waker_words -> Forall (waker_ok k) srcs ->
  waker_ok k (pe_waker (assembled into_waker waker_words srcs p)).
Proof.
  intros Hlen Hall.
  destruct srcs as [|t0 [|t1 [|t2 [|t3 [|t4 [|t5 [|t6 [|t7 [|t8 [|t9 [|t10 [|t11 []]]]]]]]]]]]]; try discriminate Hlen.
  rewrite !Forall_cons in Hall. destruct Hall as (H0 & H1 & H2 & H3 & H4 & H5 & H6 & H7 & H8 & H9 & H10 & H11 & _).
  split; [exact (wo_pid _ _ H0) | exact (wo_tgid _ _ H0) | exact (wo_user _ _ H4) | exact (wo_kern _ _ H4)
    | exact (wo_time _ _ H8)].
Qed.

(** The rest of the event stays as it is. *)
Lemma assembled_target_flag cpu ws srcs p :
  flag_ok cpu p -> flag_ok cpu (assembled into_target ws srcs p).
Proof.
  unfold assembled. revert p. induction (zip ws srcs) as [|wt wts IH]; intros p Hp; [done|]. by apply IH.
Qed.
Lemma assembled_waker_rest ws srcs p :
  let p' := assembled into_waker ws srcs p in
  pe_target p' = pe_target p /\ is_sched_cache_dump p' = is_sched_cache_dump p /\ pe_cpu p' = pe_cpu p.
Proof.
  unfold assembled. revert p. induction (zip ws srcs) as [|wt wts IH]; intros p; [done|].
  exact (IH (into_waker (wt.1 wt.2) p)).
Qed.

(** The target as it is reported: the stacks and the name are those of this switch. *)
Record target_done (cur : task_struct) (e : bpf_env) (p : perf_event_t) : Prop := {
  td_ok : target_ok (task_pid cur) (pe_target p);
  td_kern : tg_kern_stack_id (pe_target p) = kern_stack e;
  td_user : tg_user_stack_id (pe_target p) = user_stack e;
  td_comm : tg_comm (pe_target p) = current_comm e;
  td_flag : flag_ok (smp_processor_id e) p
}.

Lemma own_output_event i v l cs pre cur ep0 pe0 off e :
  rest_ok i l v -> l `prefix_of` switches cs -> css !! i = Some cs -> Switch pre cur e ∈ cs ->
  smp_processor_id e = Z.of_nat i -> elem_ok (task_pid cur) ep0 ->
  is_target (Some a) (task_tgid cur) (task_pid cur) = true -> at_leave (task_pid cur) ktime_ns off ->
  let delta := ms_between (ktime_ns e) off in
  min_offcpu_ms a <= u32 delta <= max_offcpu_ms a ->
  own i (output_event a cur ep0 pe0 (ktime_ns e) (Z.of_nat i) delta e) v
    (fun _ w => rest_ok i l w).
Proof.
  unfold rest_ok. intros Hv Hl Hi Hin Hcpu Hep Htgt Hoff Hdelta. unfold output_event. fold (task_pid cur).
  eapply owns_bind; [apply own_start_read|]. intros rd ? ->.
  eapply owns_bind; [apply (own_copy target into_target (target_ok (task_pid cur))); [by intros ? [] | exact Hep | exact Hv]|].
  clear v Hv; intros ? v Hv; cbv beta in Hv.
  apply part_ok_mono with (P' := fun p => target_ok (task_pid cur) (pe_target p) /\ flag_ok (smp_processor_id e) p) in Hv.
  2: { clear Hv. intros p' (p & srcs & Hp & Hlen & Hall & ->). rewrite Hcpu.
       split; [by apply assembled_target | by apply assembled_target_flag]. }
  do 3 own_write v Hv.
  apply part_ok_mono with (P' := target_done cur e) in Hv.
  2: { clear Hv. intros p' (p3 & (p2 & (p1 & [[] Hf] & ->) & ->) & ->). by repeat split. }
  eapply owns_bind; [apply (own_copy waker into_waker (waker_ok (task_pid cur))); [by intros ? [] | exact Hep | exact Hv]|].
  clear v Hv; intros ? v Hv; cbv beta in Hv.
  apply part_ok_mono with (P' := fun p => target_done cur e p /\ waker_ok (task_pid cur) (pe_waker p)) in Hv.
  2: { clear Hv. intros p' (p & srcs & [Ht Hk Hu Hco Hf] & Hlen & Hall & ->).
       split; [|by apply assembled_waker]. destruct (assembled_waker_rest waker_words srcs p) as (E1 & E2 & E3).
       split; rewrite ?E1; try done. unfold flag_ok in *. by rewrite E2, E3. }
  do 3 own_write v Hv.
  apply part_ok_mono with (P' := reports cur e) in Hv.
  2: { clear Hv. intros p' (p3 & (p2 & (p1 & [[] Hw] & ->) & ->) & ->). split; try done. by exists off. }
  eapply owns_bind with (R := fun _ w => part_ok l (reports cur e) w).
  { case_match; [|done]. eapply owns_bind.
    { eapply own_dump; [exact Hv|]. by rewrite Hi. }
    clear v Hv; intros ? v Hv. own_write v Hv. eapply owns_weaken; [eapply own_event_write; exact Hv|].
    intros ? ? Hw. eapply part_ok_mono; [exact Hw|]. intros p' (p2 & (p1 & [] & ->) & ->).
    split; try done. unfold flag_ok. right. by rewrite Hcpu. }
  clear v Hv; intros ? v Hv. own_step. pose proof Hv as [_ (ev & Hev & Hrep)]. rewrite Hev.
  eapply owns_weaken; [apply own_emit; by do 5 eexists|]. intros ? ? ->.
  eapply part_ok_mono; [exact Hv|]. intros p' Hp'. rewrite <- Hcpu. apply Hp'.
Qed.

Lemma own_record_current i v l cs pre cur ep0 e :
  rest_ok i l v -> l `prefix_of` switches cs -> css !! i = Some cs -> Switch pre cur e ∈ cs ->
  smp_processor_id e = Z.of_nat i -> elem_ok (task_pid cur) ep0 ->
  is_target (Some a) (task_tgid cur) (task_pid cur) = true ->
  own i (record_current a cur ep0 (ktime_ns e) (Z.of_nat i) e) v (fun _ w => rest_ok i l w).
Proof.
  intros Hv Hl Hi Hin Hcpu Hep Htgt. unfold record_current. fold (task_pid cur).
  eapply owns_bind; [apply own_store_target; rewrite <- Hcpu; solve [sources]|]. intros ? ? ->.
  own_step.
  eapply owns_bind; [by apply own_start_load|]. intros off ? [-> (ep & [_ Hok] & ->)].
  eapply owns_bind; [apply own_start_read|]. intros ? ? ->.
  case_match eqn:Hwin; [|own_step; by own_step].
  own_step. destruct Hv as [Hring (p & Hp & HP)]. rewrite Hp.
  eapply owns_bind; [eapply own_output_event; try done|].
  - split; [done | by eexists].
  - by destruct Hok.
  - apply andb_true_iff in Hwin as [[? ?]%andb_true_iff _]. zbool. lia.
  - intros ? w Hw. cbv beta in Hw. own_step. by own_step.
Qed.

(** A hook as a whole. *)
Lemma own_call i v l cs c :
  rest_ok i l v -> l ++ logged c `prefix_of` switches cs -> css !! i = Some cs -> c ∈ cs ->
  call_cpu c = Z.of_nat i ->
  own i (call_prog new c) v (fun _ w => rest_ok i (l ++ logged c) w).
Proof.
  intros Hv Hl Hi Hin Hcpu. destruct c as [task st e | pre cur e]; cbn [call_prog logged] in *.
  - rewrite app_nil_r. unfold try_to_wake_up_hook. fold (task_pid task). case_match; [done|].
    own_step. case_match; [done|]. own_step. destruct a0 as [ep|]; repeat own_step; done.
  - unfold sched_switch_hook. own_step. cbn [call_cpu] in Hcpu. rewrite Hcpu.
    eapply owns_bind with (R := fun _ w => rest_ok i (l ++ if nz (arg_rq_dur_ms a) then [(pre, ktime_ns e)] else []) w).
    { destruct (nz (arg_rq_dur_ms a)); [|by rewrite app_nil_r].
      destruct Hv as [(c & Hc & Hst & Hr) Hp]. eapply owns_weaken; [by apply own_cache_update|].
      intros ? ? ->. split; [|done]. eexists. split; [reflexivity|]. split; [done|].
      by apply ring_of_push. }
    clear v Hv. intros ? v Hv. cbv beta in Hv.
    eapply owns_bind; [by eapply own_record_prev|]. intros ? ? ->. own_step.
    fold (task_pid cur) (task_tgid cur). destruct (is_target _ _ _) eqn:Ht; [|done]. cbn [negb].
    own_step. destruct a2 as [ep|]; [|done]. eapply own_record_current; eauto.
Qed.

Lemma own_cpu_prog i v cs cs1 cs2 :
  css !! i = Some cs -> cs = cs1 ++ cs2 -> Forall (fun c => call_cpu c = Z.of_nat i) cs ->
  rest_ok i (switches cs1) v ->
  own i (cpu_prog cs2) v (fun _ w => rest_ok i (switches cs) w).
Proof.
  intros Hi. revert v cs1. induction cs2 as [|c cs2 IH]; intros v cs1 -> Hcpu Hv; cbn [cpu_prog].
  - by rewrite app_nil_r.
  - assert (Hl : switches (cs1 ++ [c]) = switches cs1 ++ logged c).
    { unfold switches. rewrite bind_app. cbn. by rewrite app_nil_r. }
    eapply owns_bind; [eapply own_call with (cs := cs1 ++ c :: cs2); try done|].
    + rewrite <- Hl. exists (switches cs2). unfold switches. rewrite <- bind_app. by rewrite <- app_assoc.
    + set_solver.
    + rewrite Forall_app, Forall_cons in Hcpu. tauto.
    + intros ? w Hw. cbv beta in Hw. rewrite <- Hl in Hw.
      eapply IH; [| done | exact Hw]. by rewrite <- app_assoc.
Qed.

(** * Any interleaving *)

(** Every call is made on its CPU. *)
Definition on_their_cpus : Prop :=
  forall i cs, css !! i = Some cs -> Forall (fun c => call_cpu c = Z.of_nat i) cs.

(** What the CPUs have left to do and the maps, at some moment. *)
Definition conc_reachable (qs : list (prog of_state Z)) s : Prop :=
  rtc pool_step (cpu_prog <$> css, of_init (length css) (Some a)) (qs, s).

Lemma conc_owned qs s :
  on_their_cpus -> conc_reachable qs s ->
  owned_pool shared_ok part snapshot_ok
    (fun i _ w => rest_ok i (switches (default [] (css !! i))) w) qs s.
Proof.
  intros Hcss Hrun. eapply owned_pool_steps; [exact Hrun|]. split.
  { split; cbn; [done | | constructor]. intros k ep. by rewrite bm_lookup_create. }
  intros i p Hp. apply list_lookup_fmap_Some in Hp as (cs & -> & Hi).
  assert (Hlt : 0 <= Z.of_nat i < Z.of_nat (length css))
    by (apply lookup_lt_Some in Hi; lia).
  unfold part. cbn. rewrite !percpu_lookup, !decide_True by done. rewrite bm_lookup_create.
  split; [by intros ? [=]|]. rewrite Hi. apply (own_cpu_prog i _ cs []); try done; [by apply Hcss|].
  split; cbn; [|by eexists; split; [|left]]. exists zero_cached. split_and!; [done..|].
  apply ring_of_init.
Qed.

(** C22: when a CPU has run its hooks, interleaved with those of the other CPUs in any
    way, its ring holds exactly its last 512 switches, each in the slot its number
    has modulo 512, also after the 32-bit counter has wrapped around. *)
Theorem ring_holds_last_switches qs s i cs r j p ts :
  on_their_cpus -> conc_reachable qs s -> css !! i = Some cs -> qs !! i = Some (Ret r) ->
  let l := switches cs in
  l !! j = Some (p, ts) -> Z.of_nat (length l) - Z.of_nat j <= SCHED_CACHE_SIZE ->
  exists c, bm_lookup (sched_cache_map s) (Z.of_nat i) = Some c /\
    sc_id c = u32 (Z.of_nat (length l)) /\
    records c !! Z.to_nat (Z.of_nat j mod SCHED_CACHE_SIZE) = Some (record_of p ts).
Proof.
  intros Hcss Hrun Hi Hq l Hj Hlast. pose proof (conc_owned qs s Hcss Hrun) as Ho.
  pose proof (owned_pool_finished _ _ _ _ _ _ _ _ Ho Hq) as [(c & Hc & _ & [_ Hid Hrec]) _].
  rewrite Hi in *. exists c. split_and!; [done | done | by apply Hrec].
Qed.

(** C23: at every moment of every interleaving a copy in the backup map is a consistent
    snapshot, also while rings are being written and copied: it is marked as off
    and holds the last 512 switches of its CPU up to some moment of the past. *)
Theorem backup_is_snapshot qs s i cs q c :
  on_their_cpus -> conc_reachable qs s -> css !! i = Some cs -> qs !! i = Some q ->
  bm_lookup (sched_cache_backup_map s) (Z.of_nat i) = Some c ->
  sc_status c = SCHED_CACHE_RECORD_OFF /\ exists l, l `prefix_of` switches cs /\ ring_of l c.
Proof.
  intros Hcss Hrun Hi Hq Hc. destruct (conc_owned qs s Hcss Hrun) as [_ Ho].
  destruct (Ho i q Hq) as [Hs _]. specialize (Hs c Hc). by rewrite Hi in Hs.
Qed.

End Conc.

(** * Examples *)

(** Task 70 sleeps from 10 to 30 ms on CPU 0 and is woken from CPU 1. *)
Definition two_cpus : list (list off_call) :=
  [[Switch (off_task 70 0) (off_task 80 0) (off_env 10 80 0);
    Switch (off_task 80 0) (off_task 70 8) (off_env 30 70 0)];
   [Wake (off_task 70 0) 3 (off_env 22 80 1)]].

(** The programs of the CPUs under a schedule. *)
Definition conc_run (css : list (list off_call)) (sched : list nat)
    : list (prog of_state Z) * of_state :=
  run_schedule sched (cpu_prog true <$> css) (of_init (length css) (Some off_args)).

Lemma conc_run_reachable css sched :
  conc_reachable true off_args css (conc_run css sched).1 (conc_run css sched).2.
Proof. unfold conc_reachable. rewrite <- surjective_pairing. apply run_schedule_steps. Qed.

Lemma on_their_cpus_two css cs1 cs2 :
  css = [cs1; cs2] -> Forall (fun c => call_cpu c = 0) cs1 ->
  Forall (fun c => call_cpu c = 1) cs2 -> on_their_cpus css.
Proof. intros -> H1 H2 [|[|i]] cs; cbn; intros [= <-]; done. Qed.

Lemma two_cpus_ok : on_their_cpus two_cpus.
Proof. eapply on_their_cpus_two; [reflexivity | |]; repeat constructor. Qed.

(** The two CPUs take turns. *)
Definition round_robin : list nat := concat (replicate 120 [0; 1]%nat).

Lemma ring_holds_last_switches_witness :
  exists c, bm_lookup (sched_cache_map (conc_run two_cpus round_robin).2) 0 = Some c /\
    sc_id c = 2 /\ records c !! 1%nat = Some (record_of (off_task 80 0) 30000000).
Proof.
  refine (ring_holds_last_switches true off_args two_cpus _ _ 0%nat
    (default [] (two_cpus !! 0%nat)) 0 1%nat (off_task 80 0)
    30000000 two_cpus_ok (conc_run_reachable two_cpus round_robin) _ _ _ _);
    [vm_compute; reflexivity.. |]. vm_compute. congruence.
Defined.

(** The copy is there while CPU 0 is still writing the event. *)
Lemma backup_is_snapshot_witness :
  exists c, bm_lookup (sched_cache_backup_map (conc_run two_cpus (take 196 round_robin)).2) 0 = Some c /\
    sc_status c = SCHED_CACHE_RECORD_OFF.
Proof.
  eexists. split; [vm_compute; reflexivity|].
  refine (proj1 (backup_is_snapshot true off_args two_cpus _ _ 0%nat _ _ _ two_cpus_ok
    (conc_run_reachable two_cpus (take 196 round_robin)) _ _ _)); vm_compute; reflexivity.
Defined.


(** The duration and the two times of an event can come from different absences: the
    element of pid 0 is shared by the idle tasks, and CPU 1's idle task leaves
    between CPU 0's reads of the element.  The event says 20 ms, but that the task
    left after it came back. *)
Definition idle_tasks : list (list off_call) :=
  [[Switch (off_task 0 0) (off_task 80 0) (off_env 10 80 0);
    Switch (off_task 80 0) (off_task 0 0) (off_env 30 0 0)];
   [Switch (off_task 0 0) (off_task 81 0) (off_env 32 81 1)]].

Lemma idle_event_inconsistent :
  exists qs s ev, conc_reachable true off_args idle_tasks qs s /\ perf_map s = [ev] /\
    dur_ms ev = 20 /\ tg_offcpu_ns (pe_target ev) = 32000000 /\
    tg_oncpu_ns (pe_target ev) = 30000000.
Proof.
  set (sched := replicate 34 0%nat ++ replicate 100 1%nat ++ replicate 100 0%nat).
  exists (conc_run idle_tasks sched).1, (conc_run idle_tasks sched).2. eexists.
  split; [apply conc_run_reachable|]. split; [vm_compute; reflexivity|].
  split_and!; vm_compute; reflexivity.
Qed.
