(* ===== verification/Layout.v ===== *)
(** Memory layout of C structures, and the agent's decoding of records.

    A [ctype] describes a structure as the compiler lays it out (natural
    alignment, little endian); a value of it is the list of its scalar members.
    [encode] gives the bytes of a value.  The user-space agent decodes records
    with Go's encoding/binary, which knows no padding: [go_read] takes the
    members one after the other.  The two agree exactly where the C structure
    has no padding and the members have the same sizes. *)
From S2P Require Import Prelude.
Open Scope Z_scope.
Open Scope bpf_scope.

(** * Little-endian integers *)

(** The [n] bytes of [z], the least significant first. *)
Fixpoint le_bytes (n : nat) (z : Z) : list Z :=
  match n with
  | O => []
  | S n => z mod 256 :: le_bytes n (z / 256)
  end.

Fixpoint le_value (bs : list Z) : Z :=
  match bs with
  | [] => 0
  | b :: bs => b + 256 * le_value bs
  end.

Lemma length_le_bytes n z : length (le_bytes n z) = n.
Proof. revert z. induction n as [|n IH]; intros z; cbn; [done | by rewrite IH]. Qed.

Lemma le_value_bytes n z : 0 <= z < 2 ^ (8 * Z.of_nat n) -> le_value (le_bytes n z) = z.
Proof.
  revert z. induction n as [|n IH]; intros z Hz; cbn; [cbn in Hz; lia|].
  assert (E : 2 ^ (8 * Z.of_nat (S n)) = 256 * 2 ^ (8 * Z.of_nat n)).
  { replace (8 * Z.of_nat (S n)) with (8 + 8 * Z.of_nat n) by lia. by rewrite Z.pow_add_r by lia. }
  rewrite IH.
  - pose proof (Z.div_mod z 256 ltac:(lia)). lia.
  - split; [apply Z.div_pos; lia | apply Z.div_lt_upper_bound; lia].
Qed.

(** * Types *)

(** Integers by their size in bytes, arrays and structures. *)
Inductive ctype :=
| TInt (size : nat)
| TArr (n : nat) (t : ctype)
| TStruct (fields : list ctype).

Definition round_up (o a : Z) : Z := (o + a - 1) / a * a.

Fixpoint calign (t : ctype) : Z :=
  match t with
  | TInt n => Z.of_nat n
  | TArr _ t => calign t
  | TStruct fs => foldr (fun t a => Z.max (calign t) a) 1 fs
  end.

Fixpoint csize (t : ctype) : Z :=
  match t with
  | TInt n => Z.of_nat n
  | TArr n t => Z.of_nat n * csize t
  | TStruct fs =>
      round_up (foldl (fun o t => round_up o (calign t) + csize t) 0 fs)
        (foldr (fun t a => Z.max (calign t) a) 1 fs)
  end.

(** The scalar members of a value that starts at [o]: offset and size. *)
Fixpoint leaves (o : Z) (t : ctype) : list (Z * nat) :=
  match t with
  | TInt n => [(o, n)]
  | TArr n t =>
      (fix elems n o :=
         match n with
         | O => []
         | S n => leaves o t ++ elems n (o + csize t)
         end) n o
  | TStruct fs =>
      (fix members fs o :=
         match fs with
         | [] => []
         | t :: fs =>
             let o := round_up o (calign t) in leaves o t ++ members fs (o + csize t)
         end) fs o
  end.

(** * C: encoding with padding *)

(** The bytes from position [pos] on: padding up to each member, then it. *)
Fixpoint emit (pos : Z) (ls : list (Z * nat)) (vs : list Z) : list Z :=
  match ls, vs with
  | (o, n) :: ls, v :: vs =>
      replicate (Z.to_nat (o - pos)) 0 ++ le_bytes n v ++ emit (o + Z.of_nat n) ls vs
  | _, _ => []
  end.

Definition pad_to (n : nat) (bs : list Z) : list Z := bs ++ replicate (n - length bs) 0.

Definition encode (t : ctype) (vs : list Z) : list Z :=
  pad_to (Z.to_nat (csize t)) (emit 0 (leaves 0 t) vs).

(** C's access to the member with offset [o] and size [n]. *)
Definition c_member (bs : list Z) (on : Z * nat) : Z :=
  le_value (take on.2 (drop (Z.to_nat on.1) bs)).
Definition c_read (t : ctype) (bs : list Z) : list Z := c_member bs <$> leaves 0 t.

(** * Go: binary.Read *)

(** encoding/binary reads the members without padding; [None] is the error of a
    record that is too short, and bytes that are left over are ignored. *)
Fixpoint go_read (sizes : list nat) (bs : list Z) : option (list Z) :=
  match sizes with
  | [] => Some []
  | n :: sizes =>
      if (n <=? length bs)%nat then
        vs ← go_read sizes (drop n bs); Some (le_value (take n bs) :: vs)
      else None
  end.

(** * Agreement *)

(** The members follow each other without padding, from [pos] on. *)
Fixpoint contiguous (pos : Z) (ls : list (Z * nat)) : bool :=
  match ls with
  | [] => true
  | (o, n) :: ls => (o =? pos) && contiguous (pos + Z.of_nat n) ls
  end.

(** A C type that Go can read as members of the given sizes. *)
Definition go_compatible (t : ctype) (sizes : list nat) : bool :=
  contiguous 0 (leaves 0 t) && bool_decide ((leaves 0 t).*2 = sizes).

(** The members of a value are in the range of their sizes. *)
Definition fits (ls : list (Z * nat)) (vs : list Z) : Prop :=
  Forall2 (fun on v => 0 <= v < 2 ^ (8 * Z.of_nat on.2)) ls vs.

(** The members without padding. *)
Fixpoint pack (sizes : list nat) (vs : list Z) : list Z :=
  match sizes, vs with
  | n :: sizes, v :: vs => le_bytes n v ++ pack sizes vs
  | _, _ => []
  end.

(** The values are in the range of their sizes. *)
Definition sized (sizes : list nat) (vs : list Z) : Prop :=
  Forall2 (fun n v => 0 <= v < 2 ^ (8 * Z.of_nat n)) sizes vs.

Lemma fits_sized ls vs : fits ls vs <-> sized (ls.*2) vs.
Proof. unfold fits, sized. by rewrite Forall2_fmap_l. Qed.

Lemma emit_pack pos ls vs : contiguous pos ls = true -> emit pos ls vs = pack (ls.*2) vs.
Proof.
  revert pos vs. induction ls as [|[o n] ls IH]; intros pos vs Hc; [done|].
  cbn in Hc. apply andb_true_iff in Hc as [Ho Hc]. apply Z.eqb_eq in Ho as ->.
  destruct vs as [|v vs]; [done|]. cbn. rewrite Z.sub_diag.
  change (Z.to_nat 0) with 0%nat. cbn [replicate app]. f_equal. by apply IH.
Qed.

Lemma sized_app s1 s2 v1 v2 : sized s1 v1 -> sized s2 v2 -> sized (s1 ++ s2) (v1 ++ v2).
Proof. apply Forall2_app. Qed.

(** Decidable, for concrete values. *)
Definition sizedb (sizes : list nat) (vs : list Z) : bool :=
  (length sizes =? length vs)%nat &&
  forallb (fun nv => (0 <=? nv.2) && (nv.2 <? 2 ^ (8 * Z.of_nat nv.1))) (zip sizes vs).

Lemma sizedb_sized sizes vs : sizedb sizes vs = true -> sized sizes vs.
Proof.
  unfold sizedb. intros H. apply andb_true_iff in H as [Hl H]. apply Nat.eqb_eq in Hl.
  revert vs Hl H. induction sizes as [|n sizes IH]; intros [|v vs] Hl H; try done; constructor.
  - cbn in H. zbool. lia.
  - apply IH; [cbn in Hl; lia|]. cbn in H. by zbool.
Qed.

Lemma length_pack sizes vs : sized sizes vs -> length (pack sizes vs) = sum_list sizes.
Proof.
  induction 1 as [|n v sizes vs _ _ IH]; [done|]. cbn. by rewrite length_app, length_le_bytes, IH.
Qed.

Lemma pack_app s1 s2 v1 v2 :
  length s1 = length v1 -> pack (s1 ++ s2) (v1 ++ v2) = pack s1 v1 ++ pack s2 v2.
Proof.
  revert v1. induction s1 as [|n s1 IH]; intros [|v v1] Hl; try done. cbn.
  rewrite IH by (cbn in Hl; lia). by rewrite app_assoc.
Qed.

(** Bytes are their own encoding. *)
Lemma pack_bytes bs :
  Forall (fun b => 0 <= b < 256) bs -> pack (replicate (length bs) 1%nat) bs = bs.
Proof.
  induction 1 as [|b bs Hb _ IH]; [done|]. cbn. rewrite IH, Z.mod_small by done. done.
Qed.

Lemma pack_bytes_n n bs :
  Forall (fun b => 0 <= b < 256) bs -> length bs = n -> pack (replicate n 1%nat) bs = bs.
Proof. intros Hb <-. by apply pack_bytes. Qed.

Lemma le_bytes_range n z : Forall (fun b => 0 <= b < 256) (le_bytes n z).
Proof.
  revert z. induction n as [|n IH]; intros z; cbn; constructor; [|apply IH].
  apply Z.mod_pos_bound. lia.
Qed.

Lemma le_bytes_add n m z :
  le_bytes (n + m) z = le_bytes n z ++ le_bytes m (z / 2 ^ (8 * Z.of_nat n)).
Proof.
  revert z. induction n as [|n IH]; intros z; cbn; [by rewrite Z.div_1_r|].
  f_equal. rewrite IH. do 2 f_equal. rewrite Z.div_div by lia. f_equal.
  replace (8 * Z.of_nat (S n)) with (8 + 8 * Z.of_nat n) by lia. by rewrite Z.pow_add_r by lia.
Qed.

Lemma le_bytes_mod n z : le_bytes n (z mod 2 ^ (8 * Z.of_nat n)) = le_bytes n z.
Proof.
  revert z. induction n as [|n IH]; intros z; [done|]. cbn [le_bytes].
  assert (E : 2 ^ (8 * Z.of_nat (S n)) = 256 * 2 ^ (8 * Z.of_nat n)).
  { replace (8 * Z.of_nat (S n)) with (8 + 8 * Z.of_nat n) by lia. by rewrite Z.pow_add_r by lia. }
  assert (Hp : 0 < 2 ^ (8 * Z.of_nat n)) by (apply Z.pow_pos_nonneg; lia).
  rewrite E, Z.rem_mul_r, (Z.mul_comm 256) by lia. f_equal.
  - by rewrite Z.mod_add, Z.mod_mod by lia.
  - rewrite Z.div_add by lia.
    rewrite (Z.div_small (z mod 256)), Z.add_0_l by (apply Z.mod_pos_bound; lia). apply IH.
Qed.

Lemma go_read_pack sizes vs rest :
  sized sizes vs -> go_read sizes (pack sizes vs ++ rest) = Some vs.
Proof.
  induction 1 as [|n v sizes vs Hv _ IH]; [done|]. cbn. rewrite <- app_assoc.
  rewrite (proj2 (Nat.leb_le _ _)) by (rewrite length_app, length_le_bytes; lia).
  rewrite drop_app_length', take_app_length' by by rewrite length_le_bytes.
  rewrite IH. cbn. by rewrite le_value_bytes.
Qed.

(** The agent reads back what the program wrote, whatever follows the record. *)
Lemma go_read_encode t sizes vs rest :
  go_compatible t sizes = true -> fits (leaves 0 t) vs ->
  go_read sizes (encode t vs ++ rest) = Some vs.
Proof.
  intros Hc Hf. unfold go_compatible in Hc. apply andb_true_iff in Hc as [Hc Hs].
  apply bool_decide_eq_true in Hs as <-. unfold encode, pad_to.
  rewrite emit_pack, <- app_assoc by done. by apply go_read_pack, fits_sized.
Qed.

(** The bytes of a value without padding. *)
Lemma encode_pack t sizes vs :
  go_compatible t sizes = true -> Z.of_nat (sum_list sizes) = csize t -> fits (leaves 0 t) vs ->
  encode t vs = pack sizes vs.
Proof.
  intros Hc Hsum Hf. unfold go_compatible in Hc. apply andb_true_iff in Hc as [Hc Hs].
  apply bool_decide_eq_true in Hs as <-. unfold encode, pad_to. rewrite emit_pack by done.
  rewrite length_pack, <- Hsum, Nat2Z.id, Nat.sub_diag by by apply fits_sized. apply app_nil_r.
Qed.

(** Offsets that lie behind each other. *)
Fixpoint ascending (pos : Z) (ls : list (Z * nat)) : bool :=
  match ls with
  | [] => true
  | (o, n) :: ls => (pos <=? o) && ascending (o + Z.of_nat n) ls
  end.

Lemma c_member_prefix (pre bs : list Z) o n :
  Z.of_nat (length pre) <= o ->
  c_member (pre ++ bs) (o, n) = c_member bs (o - Z.of_nat (length pre), n).
Proof.
  intros Ho. unfold c_member. cbn. rewrite drop_app_ge by lia. do 3 f_equal. lia.
Qed.

Lemma ascending_le pos ls on : ascending pos ls = true -> on ∈ ls -> pos <= on.1.
Proof.
  revert pos. induction ls as [|[o n] ls IH]; intros pos Ha Hin; [by apply elem_of_nil in Hin|].
  cbn in Ha. apply andb_true_iff in Ha as [Hp Ha]. apply Z.leb_le in Hp.
  apply elem_of_cons in Hin as [-> | Hin]; [done|]. apply (IH _ Ha) in Hin. lia.
Qed.

Lemma c_member_emit pos ls vs rest :
  ascending pos ls = true -> fits ls vs ->
  (fun on => c_member (emit pos ls vs ++ rest) (on.1 - pos, on.2)) <$> ls = vs.
Proof.
  intros Ha Hf. revert pos Ha. induction Hf as [|[o n] v ls vs Hv _ IH]; intros pos Ha; [done|].
  cbn in Ha, Hv. apply andb_true_iff in Ha as [Hp Ha]. apply Z.leb_le in Hp.
  cbn [emit fmap list_fmap fst snd]. f_equal.
  - rewrite <- app_assoc, c_member_prefix by (rewrite length_replicate; lia).
    rewrite length_replicate, Z2Nat.id, Z.sub_diag by lia. unfold c_member. cbn [fst snd].
    rewrite drop_0, <- app_assoc, take_app_length' by by rewrite length_le_bytes.
    by apply le_value_bytes.
  - etrans; [|apply (IH (o + Z.of_nat n)); done]. apply list_fmap_ext. intros i on Hi.
    apply list_elem_of_lookup_2 in Hi. apply (ascending_le _ _ _ Ha) in Hi.
    rewrite app_assoc, <- app_assoc. rewrite c_member_prefix.
    + f_equal. rewrite length_app, length_replicate, length_le_bytes. f_equal. lia.
    + rewrite length_app, length_replicate, length_le_bytes. lia.
Qed.

(** C reads back what C wrote, padding or not. *)
Lemma c_read_encode t vs rest :
  ascending 0 (leaves 0 t) = true -> fits (leaves 0 t) vs -> c_read t (encode t vs ++ rest) = vs.
Proof.
  intros Ha Hf. unfold c_read, encode, pad_to. rewrite <- app_assoc.
  etrans; [|refine (c_member_emit 0 _ vs _ Ha Hf)].
  apply list_fmap_ext. intros i [o n] _. cbn. by rewrite Z.sub_0_r.
Qed.
