(* ===== verification/KernelTypes.v ===== *)
(** The types of the kernel that the programs look into.

    The programs are compiled against a [vmlinux.h] that was generated from a
    kernel's type information (pkg/ebpf/headers/x86/vmlinux_518.h and
    pkg/ebpf/headers/arm64/vmlinux_510.h).  This file describes the types of such
    a header and the layout the compiler gives them for its bpf target (64 bits,
    little endian): scalars with natural alignment, structures, unions, arrays,
    anonymous members and bit-fields (the unnamed ones are the padding of the
    generated headers).  [Vmlinux518] and [Vmlinux510] hold the types. *)
From stdpp Require Import strings.
From S2P Require Import Prelude Layout.
Open Scope Z_scope.
Open Scope bpf_scope.

(** * Types *)

(** A member has a name (empty for an anonymous one), a width when it is a
    bit-field, and a type. *)
Inductive kty :=
| KInt (size : Z)
| KPtr
| KArr (n : Z) (t : kty)
| KStruct (ms : list (string * option Z * kty))
| KUnion (ms : list (string * option Z * kty)).

Abbreviation kmember := (string * option Z * kty)%type.

Definition F (name : string) (t : kty) : kmember := (name, None, t).
Definition B (name : string) (t : kty) (width : Z) : kmember := (name, Some width, t).

(** The base types; signedness has no part in the layout. *)
Definition c_bool : kty := KInt 1.
Definition c_char : kty := KInt 1.
Definition c_short : kty := KInt 2.
Definition c_int : kty := KInt 4.
Definition c_long : kty := KInt 8.
Definition c_llong : kty := KInt 8.
Definition c_int128 : kty := KInt 16.
Definition c_enum : kty := KInt 4.

(** * Layout *)

Definition unnamed_bits (m : kmember) : bool :=
  match m.1 with (name, Some _) => bool_decide (name = ""%string) | _ => false end.

(** The alignment in bytes; unnamed bit-fields do not count. *)
Fixpoint kalign (t : kty) : Z :=
  match t with
  | KInt n => n
  | KPtr => 8
  | KArr _ t => kalign t
  | KStruct ms | KUnion ms =>
      foldr (fun m a => if unnamed_bits m then a else Z.max (kalign m.2) a) 1 ms
  end.

(** Where a member goes that is next after bit [pos]: a bit-field does not cross
    a unit of its type, a width of 0 closes the unit. *)
Definition place (pos : Z) (width : option Z) (align size : Z) : Z :=
  match width with
  | None => round_up pos (8 * align)
  | Some w =>
      if w =? 0 then round_up pos (8 * size)
      else if pos mod (8 * size) + w <=? 8 * size then pos
      else round_up pos (8 * size)
  end.

Definition bits_of (width : option Z) (size : Z) : Z :=
  match width with None => 8 * size | Some w => w end.

(** The size in bytes. *)
Fixpoint ksize (t : kty) : Z :=
  match t with
  | KInt n => n
  | KPtr => 8
  | KArr n t => n * ksize t
  | KStruct ms =>
      let bits := foldl (fun pos m =>
        place pos m.1.2 (kalign m.2) (ksize m.2) + bits_of m.1.2 (ksize m.2)) 0 ms in
      round_up (round_up bits 8 / 8) (kalign (KStruct ms))
  | KUnion ms =>
      let bits := foldr (fun m a => Z.max (bits_of m.1.2 (ksize m.2)) a) 0 ms in
      round_up (round_up bits 8 / 8) (kalign (KUnion ms))
  end.

(** The member called [name], also inside anonymous members: its first bit and
    its type. *)
Fixpoint kfind (name : string) (t : kty) : option (Z * kty) :=
  match t with
  | KStruct ms =>
      (fix go ms pos :=
         match ms with
         | [] => None
         | m :: ms =>
             let p := place pos m.1.2 (kalign m.2) (ksize m.2) in
             if bool_decide (m.1.1 = name) then Some (p, m.2)
             else match (if bool_decide (m.1 = (""%string, None)) then kfind name m.2 else None) with
                  | Some (q, u) => Some (p + q, u)
                  | None => go ms (p + bits_of m.1.2 (ksize m.2))
                  end
         end) ms 0
  | KUnion ms =>
      (fix go ms :=
         match ms with
         | [] => None
         | m :: ms =>
             if bool_decide (m.1.1 = name) then Some (0, m.2)
             else match (if bool_decide (m.1 = (""%string, None)) then kfind name m.2 else None) with
                  | Some r => Some r
                  | None => go ms
                  end
         end) ms
  | _ => None
  end.

(** [offsetof] in bytes and the type, for a path like [sched_info.run_delay]. *)
Fixpoint koffset (path : list string) (t : kty) : option (Z * kty) :=
  match path with
  | [] => Some (0, t)
  | name :: path =>
      '(bit, u) ← kfind name t;
      '(o, v) ← koffset path u;
      Some (bit / 8 + o, v)
  end.

(** * Access *)

(** [bpf_core_field_exists] *)
Definition core_field_exists (t : kty) (name : string) : bool :=
  match kfind name t with Some _ => true | None => false end.

(** The value of the member at [path] of an object with the bytes [img], with the
    size the type gives it; [None] when the type has no such member. *)
Definition typed_bytes (t : kty) (path : list string) (img : list Z) : option (list Z) :=
  '(o, u) ← koffset path t;
  Some (take (Z.to_nat (ksize u)) (drop (Z.to_nat o) img)).
Definition typed_value (t : kty) (path : list string) (img : list Z) : option Z :=
  le_value <$> typed_bytes t path img.

(** What [bpf_probe_read_kernel] returns for an address and a size. *)
Abbreviation kmem := (Z -> nat -> list Z).

(** The bytes [img] are at the address [a]. *)
Definition object_at (mem : kmem) (a : Z) (img : list Z) : Prop :=
  forall o n, 0 <= o -> o + Z.of_nat n <= Z.of_nat (length img) ->
    mem (a + o) n = take n (drop (Z.to_nat o) img).

(** [bpf_core_read] of [n] bytes at the member [path] of the object at [a]: the
    place comes from the type [t] of the running kernel, the size from the program;
    a member the kernel does not have is not read. *)
Definition core_read (mem : kmem) (t : kty) (path : list string) (n : nat) (a : Z) : list Z :=
  match koffset path t with
  | Some (o, _) => mem (a + o) n
  | None => []
  end.

(** The member at [path] has [n] bytes and lies inside its object. *)
Definition member_ok (t : kty) (path : list string) (n : nat) : bool :=
  match koffset path t with
  | Some (o, u) => (0 <=? o) && (ksize u =? Z.of_nat n) && (o + Z.of_nat n <=? ksize t)
  | None => false
  end.

Lemma core_read_member mem t path n a img :
  member_ok t path n = true -> object_at mem a img -> Z.of_nat (length img) = ksize t ->
  typed_bytes t path img = Some (core_read mem t path n a).
Proof.
  unfold member_ok, typed_bytes, core_read. intros Hok Hobj Hlen.
  destruct (koffset path t) as [[o u]|]; [|done]. cbn. zbool.
  rewrite (Hobj o n) by lia. do 3 f_equal. lia.
Qed.

(** A read that goes beyond its member, inside the object, begins with it. *)
Lemma core_read_prefix mem t path n m a img :
  member_ok t path n = true -> (n <= m)%nat ->
  match koffset path t with Some (o, _) => o + Z.of_nat m <= ksize t | None => True end ->
  object_at mem a img -> Z.of_nat (length img) = ksize t ->
  typed_bytes t path img = Some (take n (core_read mem t path m a)).
Proof.
  unfold member_ok, typed_bytes, core_read. intros Hok Hnm Hin Hobj Hlen.
  destruct (koffset path t) as [[o u]|]; [|done]. cbn. zbool.
  rewrite (Hobj o m), take_take by lia. do 2 f_equal. lia.
Qed.

(** Taking bytes of a little-endian integer is reducing it. *)
Lemma le_value_range bs : Forall (fun b => 0 <= b < 256) bs ->
  0 <= le_value bs < 2 ^ (8 * Z.of_nat (length bs)).
Proof.
  induction 1 as [|b bs Hb _ IH]; cbn [le_value length]; [cbn; lia|].
  replace (8 * Z.of_nat (S (length bs))) with (8 + 8 * Z.of_nat (length bs)) by lia.
  rewrite Z.pow_add_r by lia. lia.
Qed.

Lemma le_value_app bs1 bs2 :
  le_value (bs1 ++ bs2) = le_value bs1 + 2 ^ (8 * Z.of_nat (length bs1)) * le_value bs2.
Proof.
  induction bs1 as [|b bs1 IH]; cbn [le_value app length].
  { cbn [Z.of_nat]. rewrite Z.mul_0_r, Z.pow_0_r. lia. }
  rewrite IH. replace (8 * Z.of_nat (S (length bs1))) with (8 + 8 * Z.of_nat (length bs1)) by lia.
  rewrite Z.pow_add_r by lia. lia.
Qed.

Lemma le_value_take n bs : Forall (fun b => 0 <= b < 256) bs ->
  le_value bs mod 2 ^ (8 * Z.of_nat n) = le_value (take n bs) mod 2 ^ (8 * Z.of_nat n).
Proof.
  intros Hb. destruct (decide (length bs <= n)%nat) as [Hle|Hgt]; [by rewrite take_ge|].
  rewrite <- (take_drop n bs) at 1. rewrite le_value_app, length_take_le, Z.mul_comm by lia.
  by rewrite Z.mod_add by lia.
Qed.
