(* ===== verification/Vmlinux510.v ===== *)
(** The kernel's types, from pkg/ebpf/headers/arm64/vmlinux_510.h, a generated
    header: the structures whose members the programs read or whose size they
    use, and every type these contain by value, in the order of use.  The names
    are those of the header with the kind in front ([struct_], [union_], [t_]
    for a typedef). *)
From stdpp Require Import strings.
From S2P Require Import Prelude KernelTypes.
Open Scope Z_scope.
Open Scope string_scope.

Definition struct_list_head : kty := KStruct [F "next" KPtr; F "prev" KPtr].

Definition struct_rb_node : kty := KStruct [
  F "__rb_parent_color" c_long;
  F "rb_right" KPtr;
  F "rb_left" KPtr].

Definition t___u64 : kty := c_llong.

Definition t_u64 : kty := t___u64.

Definition struct_hlist_node : kty := KStruct [F "next" KPtr; F "pprev" KPtr].

Definition t___s64 : kty := c_llong.

Definition t_s64 : kty := t___s64.

Definition t_atomic64_t : kty := KStruct [F "counter" t_s64].

Definition t_atomic_long_t : kty := t_atomic64_t.

Definition t_local_t : kty := KStruct [F "a" t_atomic_long_t].

Definition t_local64_t : kty := KStruct [F "a" t_local_t].

Definition t___u32 : kty := c_int.

Definition t___s32 : kty := c_int.

Definition t___u16 : kty := c_short.

Definition struct_perf_event_attr : kty := KStruct [
  F "type" t___u32;
  F "size" t___u32;
  F "config" t___u64;
  F "" (KUnion [
    F "sample_period" t___u64;
    F "sample_freq" t___u64]);
  F "sample_type" t___u64;
  F "read_format" t___u64;
  B "disabled" t___u64 1;
  B "inherit" t___u64 1;
  B "pinned" t___u64 1;
  B "exclusive" t___u64 1;
  B "exclude_user" t___u64 1;
  B "exclude_kernel" t___u64 1;
  B "exclude_hv" t___u64 1;
  B "exclude_idle" t___u64 1;
  B "mmap" t___u64 1;
  B "comm" t___u64 1;
  B "freq" t___u64 1;
  B "inherit_stat" t___u64 1;
  B "enable_on_exec" t___u64 1;
  B "task" t___u64 1;
  B "watermark" t___u64 1;
  B "precise_ip" t___u64 2;
  B "mmap_data" t___u64 1;
  B "sample_id_all" t___u64 1;
  B "exclude_host" t___u64 1;
  B "exclude_guest" t___u64 1;
  B "exclude_callchain_kernel" t___u64 1;
  B "exclude_callchain_user" t___u64 1;
  B "mmap2" t___u64 1;
  B "comm_exec" t___u64 1;
  B "use_clockid" t___u64 1;
  B "context_switch" t___u64 1;
  B "write_backward" t___u64 1;
  B "namespaces" t___u64 1;
  B "ksymbol" t___u64 1;
  B "bpf_event" t___u64 1;
  B "aux_output" t___u64 1;
  B "cgroup" t___u64 1;
  B "text_poke" t___u64 1;
  B "__reserved_1" t___u64 30;
  F "" (KUnion [
    F "wakeup_events" t___u32;
    F "wakeup_watermark" t___u32]);
  F "bp_type" t___u32;
  F "" (KUnion [
    F "bp_addr" t___u64;
    F "kprobe_func" t___u64;
    F "uprobe_path" t___u64;
    F "config1" t___u64]);
  F "" (KUnion [
    F "bp_len" t___u64;
    F "kprobe_addr" t___u64;
    F "probe_offset" t___u64;
    F "config2" t___u64]);
  F "branch_sample_type" t___u64;
  F "sample_regs_user" t___u64;
  F "sample_stack_user" t___u32;
  F "clockid" t___s32;
  F "sample_regs_intr" t___u64;
  F "aux_watermark" t___u32;
  F "sample_max_stack" t___u16;
  F "__reserved_2" t___u16;
  F "aux_sample_size" t___u32;
  F "__reserved_3" t___u32].

Definition t_u16 : kty := t___u16.

Definition struct_hw_perf_event_extra : kty := KStruct [
  F "config" t_u64;
  F "reg" c_int;
  F "alloc" c_int;
  F "idx" c_int].

Definition t_ktime_t : kty := t_s64.

Definition struct_timerqueue_node : kty := KStruct [
  F "node" struct_rb_node;
  F "expires" t_ktime_t].

Definition t___u8 : kty := c_char.

Definition t_u8 : kty := t___u8.

Definition struct_hrtimer : kty := KStruct [
  F "node" struct_timerqueue_node;
  F "_softexpires" t_ktime_t;
  F "function" KPtr;
  F "base" KPtr;
  F "state" t_u8;
  F "is_rel" t_u8;
  F "is_soft" t_u8;
  F "is_hard" t_u8].

Definition t_u32 : kty := t___u32.

Definition struct_arch_hw_breakpoint_ctrl : kty := KStruct [
  B "__reserved" t_u32 19;
  B "len" t_u32 8;
  B "type" t_u32 2;
  B "privilege" t_u32 2;
  B "enabled" t_u32 1].

Definition struct_arch_hw_breakpoint : kty := KStruct [
  F "address" t_u64;
  F "trigger" t_u64;
  F "ctrl" struct_arch_hw_breakpoint_ctrl].

Definition struct_hw_perf_event : kty := KStruct [
  F "" (KUnion [
    F "" (KStruct [
      F "config" t_u64;
      F "last_tag" t_u64;
      F "config_base" c_long;
      F "event_base" c_long;
      F "event_base_rdpmc" c_int;
      F "idx" c_int;
      F "last_cpu" c_int;
      F "flags" c_int;
      F "extra_reg" struct_hw_perf_event_extra;
      F "branch_reg" struct_hw_perf_event_extra]);
    F "" (KStruct [
      F "hrtimer" struct_hrtimer]);
    F "" (KStruct [
      F "tp_list" struct_list_head]);
    F "" (KStruct [
      F "pwr_acc" t_u64;
      F "ptsc" t_u64]);
    F "" (KStruct [
      F "info" struct_arch_hw_breakpoint;
      F "bp_list" struct_list_head]);
    F "" (KStruct [
      F "iommu_bank" t_u8;
      F "iommu_cntr" t_u8;
      F "padding" t_u16;
      F "conf" t_u64;
      F "conf1" t_u64])]);
  F "target" KPtr;
  F "addr_filters" KPtr;
  F "addr_filters_gen" c_long;
  F "state" c_int;
  F "prev_count" t_local64_t;
  F "sample_period" t_u64;
  F "" (KUnion [
    F "" (KStruct [
      F "last_period" t_u64;
      F "period_left" t_local64_t]);
    F "" (KStruct [
      F "saved_metric" t_u64;
      F "saved_slots" t_u64])]);
  F "interrupts_seq" t_u64;
  F "interrupts" t_u64;
  F "freq_time_stamp" t_u64;
  F "freq_count_stamp" t_u64].

Definition t_atomic_t : kty := KStruct [F "counter" c_int].

Definition struct_qspinlock : kty := KStruct [
  F "" (KUnion [
    F "val" t_atomic_t;
    F "" (KStruct [
      F "locked" t_u8;
      F "pending" t_u8]);
    F "" (KStruct [
      F "locked_pending" t_u16;
      F "tail" t_u16])])].

Definition t_arch_spinlock_t : kty := struct_qspinlock.

Definition struct_raw_spinlock : kty := KStruct [F "raw_lock" t_arch_spinlock_t].

Definition struct_spinlock : kty := KStruct [
  F "" (KUnion [
    F "rlock" struct_raw_spinlock])].

Definition t_spinlock_t : kty := struct_spinlock.

Definition struct_optimistic_spin_queue : kty := KStruct [F "tail" t_atomic_t].

Definition struct_mutex : kty := KStruct [
  F "owner" t_atomic_long_t;
  F "wait_lock" t_spinlock_t;
  F "osq" struct_optimistic_spin_queue;
  F "wait_list" struct_list_head].

Definition struct_wait_queue_head : kty := KStruct [
  F "lock" t_spinlock_t;
  F "head" struct_list_head].

Definition t_wait_queue_head_t : kty := struct_wait_queue_head.

Definition struct_llist_node : kty := KStruct [F "next" KPtr].

Definition struct___call_single_node : kty := KStruct [
  F "llist" struct_llist_node;
  F "" (KUnion [
    F "u_flags" c_int;
    F "a_flags" t_atomic_t]);
  F "src" t_u16;
  F "dst" t_u16].

Definition struct_irq_work : kty := KStruct [
  F "" (KUnion [
    F "node" struct___call_single_node;
    F "" (KStruct [
      F "llnode" struct_llist_node;
      F "flags" t_atomic_t])]);
  F "func" KPtr].

Definition t_raw_spinlock_t : kty := struct_raw_spinlock.

Definition struct_perf_addr_filters_head : kty := KStruct [
  F "list" struct_list_head;
  F "lock" t_raw_spinlock_t;
  F "nr_file_filters" c_int].

Definition struct_callback_head : kty := KStruct [F "next" KPtr; F "func" KPtr].

Definition t_perf_overflow_handler_t : kty := KPtr.

Definition t_ftrace_func_t : kty := KPtr.

Definition struct_ftrace_ops_hash : kty := KStruct [
  F "notrace_hash" KPtr;
  F "filter_hash" KPtr;
  F "regex_lock" struct_mutex].

Definition struct_ftrace_ops : kty := KStruct [
  F "func" t_ftrace_func_t;
  F "next" KPtr;
  F "flags" c_long;
  F "private" KPtr;
  F "saved_func" t_ftrace_func_t;
  F "local_hash" struct_ftrace_ops_hash;
  F "func_hash" KPtr;
  F "old_hash" struct_ftrace_ops_hash;
  F "trampoline" c_long;
  F "trampoline_size" c_long;
  F "list" struct_list_head].

Definition struct_perf_event : kty := KStruct [
  F "event_entry" struct_list_head;
  F "sibling_list" struct_list_head;
  F "active_list" struct_list_head;
  F "group_node" struct_rb_node;
  F "group_index" t_u64;
  F "migrate_entry" struct_list_head;
  F "hlist_entry" struct_hlist_node;
  F "active_entry" struct_list_head;
  F "nr_siblings" c_int;
  F "event_caps" c_int;
  F "group_caps" c_int;
  F "group_leader" KPtr;
  F "pmu" KPtr;
  F "pmu_private" KPtr;
  F "state" c_enum;
  F "attach_state" c_int;
  F "count" t_local64_t;
  F "child_count" t_atomic64_t;
  F "total_time_enabled" t_u64;
  F "total_time_running" t_u64;
  F "tstamp" t_u64;
  F "shadow_ctx_time" t_u64;
  F "attr" struct_perf_event_attr;
  F "header_size" t_u16;
  F "id_header_size" t_u16;
  F "read_size" t_u16;
  F "hw" struct_hw_perf_event;
  F "ctx" KPtr;
  F "refcount" t_atomic_long_t;
  F "child_total_time_enabled" t_atomic64_t;
  F "child_total_time_running" t_atomic64_t;
  F "child_mutex" struct_mutex;
  F "child_list" struct_list_head;
  F "parent" KPtr;
  F "oncpu" c_int;
  F "cpu" c_int;
  F "owner_entry" struct_list_head;
  F "owner" KPtr;
  F "mmap_mutex" struct_mutex;
  F "mmap_count" t_atomic_t;
  F "rb" KPtr;
  F "rb_entry" struct_list_head;
  F "rcu_batches" c_long;
  F "rcu_pending" c_int;
  F "waitq" t_wait_queue_head_t;
  F "fasync" KPtr;
  F "pending_wakeup" c_int;
  F "pending_kill" c_int;
  F "pending_disable" c_int;
  F "pending" struct_irq_work;
  F "event_limit" t_atomic_t;
  F "addr_filters" struct_perf_addr_filters_head;
  F "addr_filter_ranges" KPtr;
  F "addr_filters_gen" c_long;
  F "aux_event" KPtr;
  F "destroy" KPtr;
  F "callback_head" struct_callback_head;
  F "ns" KPtr;
  F "id" t_u64;
  F "clock" KPtr;
  F "overflow_handler" t_perf_overflow_handler_t;
  F "overflow_handler_context" KPtr;
  F "orig_overflow_handler" t_perf_overflow_handler_t;
  F "prog" KPtr;
  F "tp_event" KPtr;
  F "filter" KPtr;
  F "ftrace_ops" struct_ftrace_ops;
  F "cgrp" KPtr;
  F "security" KPtr;
  F "sb_list" struct_list_head].

Definition t_mm_segment_t : kty := c_long.

Definition struct_thread_info : kty := KStruct [
  F "flags" c_long;
  F "addr_limit" t_mm_segment_t;
  F "ttbr0" t_u64;
  F "" (KUnion [
    F "preempt_count" t_u64;
    F "preempt" (KStruct [
      F "count" t_u32;
      F "need_resched" t_u32])])].

Definition struct_refcount_struct : kty := KStruct [F "refs" t_atomic_t].

Definition t_refcount_t : kty := struct_refcount_struct.

Definition struct_load_weight : kty := KStruct [F "weight" c_long; F "inv_weight" t_u32].

Definition struct_sched_statistics : kty := KStruct [
  F "wait_start" t_u64;
  F "wait_max" t_u64;
  F "wait_count" t_u64;
  F "wait_sum" t_u64;
  F "iowait_count" t_u64;
  F "iowait_sum" t_u64;
  F "sleep_start" t_u64;
  F "sleep_max" t_u64;
  F "sum_sleep_runtime" t_s64;
  F "block_start" t_u64;
  F "block_max" t_u64;
  F "exec_max" t_u64;
  F "slice_max" t_u64;
  F "nr_migrations_cold" t_u64;
  F "nr_failed_migrations_affine" t_u64;
  F "nr_failed_migrations_running" t_u64;
  F "nr_failed_migrations_hot" t_u64;
  F "nr_forced_migrations" t_u64;
  F "nr_wakeups" t_u64;
  F "nr_wakeups_sync" t_u64;
  F "nr_wakeups_migrate" t_u64;
  F "nr_wakeups_local" t_u64;
  F "nr_wakeups_remote" t_u64;
  F "nr_wakeups_affine" t_u64;
  F "nr_wakeups_affine_attempts" t_u64;
  F "nr_wakeups_passive" t_u64;
  F "nr_wakeups_idle" t_u64].

Definition struct_util_est : kty := KStruct [F "enqueued" c_int; F "ewma" c_int].

Definition struct_sched_avg : kty := KStruct [
  F "last_update_time" t_u64;
  F "load_sum" t_u64;
  F "runnable_sum" t_u64;
  F "util_sum" t_u32;
  F "period_contrib" t_u32;
  F "load_avg" c_long;
  F "runnable_avg" c_long;
  F "util_avg" c_long;
  F "util_est" struct_util_est].

Definition struct_sched_entity : kty := KStruct [
  F "load" struct_load_weight;
  F "run_node" struct_rb_node;
  F "group_node" struct_list_head;
  F "on_rq" c_int;
  F "exec_start" t_u64;
  F "sum_exec_runtime" t_u64;
  F "vruntime" t_u64;
  F "prev_sum_exec_runtime" t_u64;
  F "nr_migrations" t_u64;
  F "statistics" struct_sched_statistics;
  F "depth" c_int;
  F "parent" KPtr;
  F "cfs_rq" KPtr;
  F "my_q" KPtr;
  F "runnable_weight" c_long;
  B "" c_long 64;
  B "" c_long 64;
  B "" c_long 64;
  F "avg" struct_sched_avg].

Definition struct_sched_rt_entity : kty := KStruct [
  F "run_list" struct_list_head;
  F "timeout" c_long;
  F "watchdog_stamp" c_long;
  F "time_slice" c_int;
  F "on_rq" c_short;
  F "on_list" c_short;
  F "back" KPtr].

Definition struct_sched_dl_entity : kty := KStruct [
  F "rb_node" struct_rb_node;
  F "dl_runtime" t_u64;
  F "dl_deadline" t_u64;
  F "dl_period" t_u64;
  F "dl_bw" t_u64;
  F "dl_density" t_u64;
  F "runtime" t_s64;
  F "deadline" t_u64;
  F "flags" c_int;
  B "dl_throttled" c_int 1;
  B "dl_yielded" c_int 1;
  B "dl_non_contending" c_int 1;
  B "dl_overrun" c_int 1;
  F "dl_timer" struct_hrtimer;
  F "inactive_timer" struct_hrtimer;
  F "pi_se" KPtr].

Definition struct_uclamp_se : kty := KStruct [
  B "value" c_int 11;
  B "bucket_id" c_int 3;
  B "active" c_int 1;
  B "user_defined" c_int 1].

Definition struct_hlist_head : kty := KStruct [F "first" KPtr].

Definition struct_cpumask : kty := KStruct [F "bits" (KArr 2 c_long)].

Definition t_cpumask_t : kty := struct_cpumask.

Definition union_rcu_special : kty := KUnion [
  F "b" (KStruct [
    F "blocked" t_u8;
    F "need_qs" t_u8;
    F "exp_hint" t_u8;
    F "need_mb" t_u8]);
  F "s" t_u32].

Definition t_bool : kty := c_bool.

Definition struct_sched_info : kty := KStruct [
  F "pcount" c_long;
  F "run_delay" c_llong;
  F "last_arrival" c_llong;
  F "last_queued" c_llong].

Definition struct_plist_node : kty := KStruct [
  F "prio" c_int;
  F "prio_list" struct_list_head;
  F "node_list" struct_list_head].

Definition struct_vmacache : kty := KStruct [F "seqnum" t_u64; F "vmas" (KArr 4 KPtr)].

Definition struct_task_rss_stat : kty := KStruct [F "events" c_int; F "count" (KArr 4 c_int)].

Definition t___kernel_clockid_t : kty := c_int.

Definition t_clockid_t : kty := t___kernel_clockid_t.

Definition struct_restart_block : kty := KStruct [
  F "fn" KPtr;
  F "" (KUnion [
    F "futex" (KStruct [
      F "uaddr" KPtr;
      F "val" t_u32;
      F "flags" t_u32;
      F "bitset" t_u32;
      F "time" t_u64;
      F "uaddr2" KPtr]);
    F "nanosleep" (KStruct [
      F "clockid" t_clockid_t;
      F "type" c_enum;
      F "" (KUnion [
        F "rmtp" KPtr;
        F "compat_rmtp" KPtr]);
      F "expires" t_u64]);
    F "poll" (KStruct [
      F "ufds" KPtr;
      F "nfds" c_int;
      F "has_timeout" c_int;
      F "tv_sec" c_long;
      F "tv_nsec" c_long])])].

Definition t___kernel_pid_t : kty := c_int.

Definition t_pid_t : kty := t___kernel_pid_t.

Definition struct_prev_cputime : kty := KStruct [
  F "utime" t_u64;
  F "stime" t_u64;
  F "lock" t_raw_spinlock_t].

Definition struct_rb_root : kty := KStruct [F "rb_node" KPtr].

Definition struct_rb_root_cached : kty := KStruct [
  F "rb_root" struct_rb_root;
  F "rb_leftmost" KPtr].

Definition struct_timerqueue_head : kty := KStruct [F "rb_root" struct_rb_root_cached].

Definition struct_posix_cputimer_base : kty := KStruct [
  F "nextevt" t_u64;
  F "tqhead" struct_timerqueue_head].

Definition struct_posix_cputimers : kty := KStruct [
  F "bases" (KArr 3 struct_posix_cputimer_base);
  F "timers_active" c_int;
  F "expiry_active" c_int].

Definition struct_sysv_sem : kty := KStruct [F "undo_list" KPtr].

Definition struct_sysv_shm : kty := KStruct [F "shm_clist" struct_list_head].

Definition t_sigset_t : kty := KStruct [F "sig" (KArr 1 c_long)].

Definition struct_sigpending : kty := KStruct [F "list" struct_list_head; F "signal" t_sigset_t].

Definition t___kernel_ulong_t : kty := c_long.

Definition t___kernel_size_t : kty := t___kernel_ulong_t.

Definition t_size_t : kty := t___kernel_size_t.

Definition t___kernel_uid32_t : kty := c_int.

Definition t_uid_t : kty := t___kernel_uid32_t.

Definition t_kuid_t : kty := KStruct [F "val" t_uid_t].

Definition struct_seccomp : kty := KStruct [
  F "mode" c_int;
  F "filter_count" t_atomic_t;
  F "filter" KPtr].

Definition struct_wake_q_node : kty := KStruct [F "next" KPtr].

Definition struct_task_io_accounting : kty := KStruct [
  F "rchar" t_u64;
  F "wchar" t_u64;
  F "syscr" t_u64;
  F "syscw" t_u64;
  F "read_bytes" t_u64;
  F "write_bytes" t_u64;
  F "cancelled_write_bytes" t_u64].

Definition t_nodemask_t : kty := KStruct [F "bits" (KArr 2 c_long)].

Definition struct_seqcount : kty := KStruct [F "sequence" c_int].

Definition t_seqcount_t : kty := struct_seqcount.

Definition struct_seqcount_spinlock : kty := KStruct [F "seqcount" t_seqcount_t].

Definition t_seqcount_spinlock_t : kty := struct_seqcount_spinlock.

Definition struct_tlbflush_unmap_batch : kty := KStruct [].

Definition struct_page_frag : kty := KStruct [
  F "page" KPtr;
  F "offset" t___u32;
  F "size" t___u32].

Definition struct_latency_record : kty := KStruct [
  F "backtrace" (KArr 12 c_long);
  F "count" c_int;
  F "time" c_long;
  F "max" c_long].

Definition t_gfp_t : kty := c_int.

Definition struct_cpu_context : kty := KStruct [
  F "x19" c_long;
  F "x20" c_long;
  F "x21" c_long;
  F "x22" c_long;
  F "x23" c_long;
  F "x24" c_long;
  F "x25" c_long;
  F "x26" c_long;
  F "x27" c_long;
  F "x28" c_long;
  F "fp" c_long;
  F "sp" c_long;
  F "pc" c_long].

Definition struct_user_fpsimd_state : kty := KStruct [
  F "vregs" (KArr 32 c_int128);
  F "fpsr" t___u32;
  F "fpcr" t___u32;
  F "__reserved" (KArr 2 t___u32)].

Definition struct_debug_info : kty := KStruct [
  F "suspended_step" c_int;
  F "bps_disabled" c_int;
  F "wps_disabled" c_int;
  F "hbp_break" (KArr 16 KPtr);
  F "hbp_watch" (KArr 16 KPtr)].

Definition struct_ptrauth_key : kty := KStruct [F "lo" c_long; F "hi" c_long].

Definition struct_ptrauth_keys_user : kty := KStruct [
  F "apia" struct_ptrauth_key;
  F "apib" struct_ptrauth_key;
  F "apda" struct_ptrauth_key;
  F "apdb" struct_ptrauth_key;
  F "apga" struct_ptrauth_key].

Definition struct_ptrauth_keys_kernel : kty := KStruct [F "apia" struct_ptrauth_key].

Definition struct_thread_struct : kty := KStruct [
  F "cpu_context" struct_cpu_context;
  B "" c_long 64;
  F "uw" (KStruct [
    F "tp_value" c_long;
    F "tp2_value" c_long;
    F "fpsimd_state" struct_user_fpsimd_state]);
  F "fpsimd_cpu" c_int;
  F "sve_state" KPtr;
  F "sve_vl" c_int;
  F "sve_vl_onexec" c_int;
  F "fault_address" c_long;
  F "fault_code" c_long;
  F "debug" struct_debug_info;
  F "keys_user" struct_ptrauth_keys_user;
  F "keys_kernel" struct_ptrauth_keys_kernel;
  F "sctlr_tcf0" t_u64;
  F "gcr_user_incl" t_u64;
  B "" c_long 64].

Definition struct_task_struct_members1 : list kmember := [
  F "thread_info" struct_thread_info;
  F "state" c_long;
  F "stack" KPtr;
  F "usage" t_refcount_t;
  F "flags" c_int;
  F "ptrace" c_int;
  F "on_cpu" c_int;
  F "wake_entry" struct___call_single_node;
  F "cpu" c_int;
  F "wakee_flips" c_int;
  F "wakee_flip_decay_ts" c_long;
  F "last_wakee" KPtr;
  F "recent_used_cpu" c_int;
  F "wake_cpu" c_int;
  F "on_rq" c_int;
  F "prio" c_int;
  F "static_prio" c_int;
  F "normal_prio" c_int;
  F "rt_priority" c_int;
  F "sched_class" KPtr;
  B "" c_long 64;
  B "" c_long 64;
  B "" c_long 64;
  B "" c_long 64;
  B "" c_long 64;
  B "" c_long 64;
  F "se" struct_sched_entity;
  F "rt" struct_sched_rt_entity;
  F "sched_task_group" KPtr;
  F "dl" struct_sched_dl_entity;
  F "uclamp_req" (KArr 2 struct_uclamp_se);
  F "uclamp" (KArr 2 struct_uclamp_se);
  F "preempt_notifiers" struct_hlist_head;
  F "btrace_seq" c_int;
  F "policy" c_int;
  F "nr_cpus_allowed" c_int;
  F "cpus_ptr" KPtr;
  F "cpus_mask" t_cpumask_t;
  F "rcu_tasks_nvcsw" c_long;
  F "rcu_tasks_holdout" t_u8;
  F "rcu_tasks_idx" t_u8;
  F "rcu_tasks_idle_cpu" c_int;
  F "rcu_tasks_holdout_list" struct_list_head;
  F "trc_reader_nesting" c_int;
  F "trc_ipi_to_cpu" c_int;
  F "trc_reader_special" union_rcu_special;
  F "trc_reader_checked" t_bool;
  F "trc_holdout_list" struct_list_head;
  F "sched_info" struct_sched_info;
  F "tasks" struct_list_head;
  F "pushable_tasks" struct_plist_node;
  F "pushable_dl_tasks" struct_rb_node;
  F "mm" KPtr;
  F "active_mm" KPtr;
  F "vmacache" struct_vmacache;
  F "rss_stat" struct_task_rss_stat;
  F "exit_state" c_int;
  F "exit_code" c_int;
  F "exit_signal" c_int;
  F "pdeath_signal" c_int;
  F "jobctl" c_long;
  F "personality" c_int;
  B "sched_reset_on_fork" c_int 1;
  B "sched_contributes_to_load" c_int 1;
  B "sched_migrated" c_int 1;
  B "sched_psi_wake_requeue" c_int 1;
  B "" c_int 28;
  B "sched_remote_wakeup" c_int 1;
  B "in_execve" c_int 1;
  B "in_iowait" c_int 1;
  B "in_user_fault" c_int 1;
  B "no_cgroup_migration" c_int 1;
  B "frozen" c_int 1;
  B "use_memdelay" c_int 1;
  B "in_memstall" c_int 1;
  F "atomic_flags" c_long;
  F "restart_block" struct_restart_block;
  F "pid" t_pid_t;
  F "tgid" t_pid_t;
  F "stack_canary" c_long;
  F "real_parent" KPtr;
  F "parent" KPtr;
  F "children" struct_list_head;
  F "sibling" struct_list_head;
  F "group_leader" KPtr;
  F "ptraced" struct_list_head;
  F "ptrace_entry" struct_list_head;
  F "thread_pid" KPtr;
  F "pid_links" (KArr 4 struct_hlist_node);
  F "thread_group" struct_list_head;
  F "thread_node" struct_list_head;
  F "vfork_done" KPtr;
  F "set_child_tid" KPtr;
  F "clear_child_tid" KPtr;
  F "utime" t_u64;
  F "stime" t_u64;
  F "gtime" t_u64;
  F "prev_cputime" struct_prev_cputime;
  F "nvcsw" c_long;
  F "nivcsw" c_long;
  F "start_time" t_u64;
  F "start_boottime" t_u64;
  F "min_flt" c_long;
  F "maj_flt" c_long;
  F "posix_cputimers" struct_posix_cputimers;
  F "ptracer_cred" KPtr;
  F "real_cred" KPtr;
  F "cred" KPtr;
  F "cached_requested_key" KPtr;
  F "comm" (KArr 16 c_char);
  F "nameidata" KPtr;
  F "sysvsem" struct_sysv_sem;
  F "sysvshm" struct_sysv_shm;
  F "last_switch_count" c_long;
  F "last_switch_time" c_long;
  F "fs" KPtr;
  F "files" KPtr;
  F "io_uring" KPtr;
  F "nsproxy" KPtr].

Definition struct_task_struct_members2 : list kmember := [
  F "signal" KPtr;
  F "sighand" KPtr;
  F "blocked" t_sigset_t;
  F "real_blocked" t_sigset_t;
  F "saved_sigmask" t_sigset_t;
  F "pending" struct_sigpending;
  F "sas_ss_sp" c_long;
  F "sas_ss_size" t_size_t;
  F "sas_ss_flags" c_int;
  F "task_works" KPtr;
  F "audit_context" KPtr;
  F "loginuid" t_kuid_t;
  F "sessionid" c_int;
  F "seccomp" struct_seccomp;
  F "parent_exec_id" t_u64;
  F "self_exec_id" t_u64;
  F "alloc_lock" t_spinlock_t;
  F "pi_lock" t_raw_spinlock_t;
  F "wake_q" struct_wake_q_node;
  F "pi_waiters" struct_rb_root_cached;
  F "pi_top_task" KPtr;
  F "pi_blocked_on" KPtr;
  F "journal_info" KPtr;
  F "bio_list" KPtr;
  F "plug" KPtr;
  F "reclaim_state" KPtr;
  F "backing_dev_info" KPtr;
  F "io_context" KPtr;
  F "capture_control" KPtr;
  F "ptrace_message" c_long;
  F "last_siginfo" KPtr;
  F "ioac" struct_task_io_accounting;
  F "psi_flags" c_int;
  F "acct_rss_mem1" t_u64;
  F "acct_vm_mem1" t_u64;
  F "acct_timexpd" t_u64;
  F "mems_allowed" t_nodemask_t;
  F "mems_allowed_seq" t_seqcount_spinlock_t;
  F "cpuset_mem_spread_rotor" c_int;
  F "cpuset_slab_spread_rotor" c_int;
  F "cgroups" KPtr;
  F "cg_list" struct_list_head;
  F "robust_list" KPtr;
  F "compat_robust_list" KPtr;
  F "pi_state_list" struct_list_head;
  F "pi_state_cache" KPtr;
  F "futex_exit_mutex" struct_mutex;
  F "futex_state" c_int;
  F "perf_event_ctxp" (KArr 2 KPtr);
  F "perf_event_mutex" struct_mutex;
  F "perf_event_list" struct_list_head;
  F "mempolicy" KPtr;
  F "il_prev" c_short;
  F "pref_node_fork" c_short;
  F "numa_scan_seq" c_int;
  F "numa_scan_period" c_int;
  F "numa_scan_period_max" c_int;
  F "numa_preferred_nid" c_int;
  F "numa_migrate_retry" c_long;
  F "node_stamp" t_u64;
  F "last_task_numa_placement" t_u64;
  F "last_sum_exec_runtime" t_u64;
  F "numa_work" struct_callback_head;
  F "numa_group" KPtr;
  F "numa_faults" KPtr;
  F "total_numa_faults" c_long;
  F "numa_faults_locality" (KArr 3 c_long);
  F "numa_pages_migrated" c_long;
  F "rseq" KPtr;
  F "rseq_sig" t_u32;
  F "rseq_event_mask" c_long;
  F "tlb_ubc" struct_tlbflush_unmap_batch;
  F "" (KUnion [
    F "rcu_users" t_refcount_t;
    F "rcu" struct_callback_head]);
  F "splice_pipe" KPtr;
  F "task_frag" struct_page_frag;
  F "delays" KPtr;
  F "nr_dirtied" c_int;
  F "nr_dirtied_pause" c_int;
  F "dirty_paused_when" c_long;
  F "latency_record_count" c_int;
  F "latency_record" (KArr 32 struct_latency_record);
  F "timer_slack_ns" t_u64;
  F "default_timer_slack_ns" t_u64;
  F "curr_ret_stack" c_int;
  F "curr_ret_depth" c_int;
  F "ret_stack" KPtr;
  F "ftrace_timestamp" c_llong;
  F "trace_overrun" t_atomic_t;
  F "tracing_graph_pause" t_atomic_t;
  F "trace" c_long;
  F "trace_recursion" c_long;
  F "memcg_in_oom" KPtr;
  F "memcg_oom_gfp_mask" t_gfp_t;
  F "memcg_oom_order" c_int;
  F "memcg_nr_pages_over_high" c_int;
  F "active_memcg" KPtr;
  F "throttle_queue" KPtr;
  F "utask" KPtr;
  F "sequential_io" c_int;
  F "sequential_io_avg" c_int;
  F "pagefault_disabled" c_int;
  F "oom_reaper_list" KPtr;
  F "stack_vm_area" KPtr;
  F "stack_refcount" t_refcount_t;
  F "security" KPtr;
  F "thread" struct_thread_struct].

Definition struct_task_struct : kty :=
  KStruct (struct_task_struct_members1 ++ struct_task_struct_members2).

Definition struct_user_pt_regs : kty := KStruct [
  F "regs" (KArr 31 t___u64);
  F "sp" t___u64;
  F "pc" t___u64;
  F "pstate" t___u64].

Definition t_s32 : kty := t___s32.

Definition struct_pt_regs : kty := KStruct [
  F "" (KUnion [
    F "user_regs" struct_user_pt_regs;
    F "" (KStruct [
      F "regs" (KArr 31 t_u64);
      F "sp" t_u64;
      F "pc" t_u64;
      F "pstate" t_u64])]);
  F "orig_x0" t_u64;
  F "syscallno" t_s32;
  F "unused2" t_u32;
  F "orig_addr_limit" t_u64;
  F "pmr_save" t_u64;
  F "stackframe" (KArr 2 t_u64);
  F "lockdep_hardirqs" t_u64;
  F "exit_rcu" t_u64].

Definition struct_path : kty := KStruct [F "mnt" KPtr; F "dentry" KPtr].

Definition t_fmode_t : kty := c_int.

Definition t___kernel_loff_t : kty := c_llong.

Definition t_loff_t : kty := t___kernel_loff_t.

Definition struct_qrwlock : kty := KStruct [
  F "" (KUnion [
    F "cnts" t_atomic_t;
    F "" (KStruct [
      F "wlocked" t_u8;
      F "__lstate" (KArr 3 t_u8)])]);
  F "wait_lock" t_arch_spinlock_t].

Definition t_arch_rwlock_t : kty := struct_qrwlock.

Definition t_rwlock_t : kty := KStruct [F "raw_lock" t_arch_rwlock_t].

Definition struct_fown_struct : kty := KStruct [
  F "lock" t_rwlock_t;
  F "pid" KPtr;
  F "pid_type" c_enum;
  F "uid" t_kuid_t;
  F "euid" t_kuid_t;
  F "signum" c_int].

Definition struct_file_ra_state : kty := KStruct [
  F "start" c_long;
  F "size" c_int;
  F "async_size" c_int;
  F "ra_pages" c_int;
  F "mmap_miss" c_int;
  F "prev_pos" t_loff_t].

Definition t_errseq_t : kty := t_u32.

Definition struct_file : kty := KStruct [
  F "f_u" (KUnion [
    F "fu_llist" struct_llist_node;
    F "fu_rcuhead" struct_callback_head]);
  F "f_path" struct_path;
  F "f_inode" KPtr;
  F "f_op" KPtr;
  F "f_lock" t_spinlock_t;
  F "f_write_hint" c_enum;
  F "f_count" t_atomic_long_t;
  F "f_flags" c_int;
  F "f_mode" t_fmode_t;
  F "f_pos_lock" struct_mutex;
  F "f_pos" t_loff_t;
  F "f_owner" struct_fown_struct;
  F "f_cred" KPtr;
  F "f_ra" struct_file_ra_state;
  F "f_version" t_u64;
  F "f_security" KPtr;
  F "private_data" KPtr;
  F "f_ep_links" struct_list_head;
  F "f_tfile_llink" struct_list_head;
  F "f_mapping" KPtr;
  F "f_wb_err" t_errseq_t;
  F "f_sb_err" t_errseq_t].

Definition struct_hlist_bl_node : kty := KStruct [F "next" KPtr; F "pprev" KPtr].

Definition struct_qstr : kty := KStruct [
  F "" (KUnion [
    F "" (KStruct [
      F "hash" t_u32;
      F "len" t_u32]);
    F "hash_len" t_u64]);
  F "name" KPtr].

Definition struct_lockref : kty := KStruct [
  F "" (KUnion [
    F "lock_count" t___u64;
    F "" (KStruct [
      F "lock" t_spinlock_t;
      F "count" c_int])])].

Definition struct_dentry : kty := KStruct [
  F "d_flags" c_int;
  F "d_seq" t_seqcount_spinlock_t;
  F "d_hash" struct_hlist_bl_node;
  F "d_parent" KPtr;
  F "d_name" struct_qstr;
  F "d_inode" KPtr;
  F "d_iname" (KArr 32 c_char);
  F "d_lockref" struct_lockref;
  F "d_op" KPtr;
  F "d_sb" KPtr;
  F "d_time" c_long;
  F "d_fsdata" KPtr;
  F "" (KUnion [
    F "d_lru" struct_list_head;
    F "d_wait" KPtr]);
  F "d_child" struct_list_head;
  F "d_subdirs" struct_list_head;
  F "d_u" (KUnion [
    F "d_alias" struct_hlist_node;
    F "d_in_lookup_hash" struct_hlist_bl_node;
    F "d_rcu" struct_callback_head])].

Definition struct_kiocb : kty := KStruct [
  F "ki_filp" KPtr;
  F "ki_pos" t_loff_t;
  F "ki_complete" KPtr;
  F "private" KPtr;
  F "ki_flags" c_int;
  F "ki_hint" t_u16;
  F "ki_ioprio" t_u16;
  F "" (KUnion [
    F "ki_cookie" c_int;
    F "ki_waitq" KPtr])].

Definition struct_iov_iter : kty := KStruct [
  F "type" c_int;
  F "iov_offset" t_size_t;
  F "count" t_size_t;
  F "" (KUnion [
    F "iov" KPtr;
    F "kvec" KPtr;
    F "bvec" KPtr;
    F "pipe" KPtr]);
  F "" (KUnion [
    F "nr_segs" c_long;
    F "" (KStruct [
      F "head" c_int;
      F "start_head" c_int])])].

Definition struct_trace_entry : kty := KStruct [
  F "type" c_short;
  F "flags" c_char;
  F "preempt_count" c_char;
  F "pid" c_int].

Definition struct_trace_event_raw_sys_enter : kty := KStruct [
  F "ent" struct_trace_entry;
  F "id" c_long;
  F "args" (KArr 6 c_long);
  F "__data" (KArr 0 c_char)].

Definition struct_trace_event_raw_sys_exit : kty := KStruct [
  F "ent" struct_trace_entry;
  F "id" c_long;
  F "ret" c_long;
  F "__data" (KArr 0 c_char)].

Definition struct_syscall_trace_enter : kty := KStruct [
  F "ent" struct_trace_entry;
  F "nr" c_int;
  F "args" (KArr 0 c_long)].

Definition struct_syscall_trace_exit : kty := KStruct [
  F "ent" struct_trace_entry;
  F "nr" c_int;
  F "ret" c_long].

Definition t_bpf_user_pt_regs_t : kty := struct_user_pt_regs.

Definition struct_bpf_perf_event_data : kty := KStruct [
  F "regs" t_bpf_user_pt_regs_t;
  F "sample_period" t___u64;
  F "addr" t___u64].
