(* ===== verification/CoreRead.v ===== *)
(** Reading the kernel's memory: pkg/ebpf/headers/bpf/bpf_core_read.h.

    BPF_CORE_READ and its variants follow a chain of pointers, one
    bpf_probe_read_kernel for each; BPF_CORE_READ_BITFIELD cuts a bit-field out of
    the integer that contains it.  Where members are comes from relocations that
    the loader resolves against the running kernel's types. *)
From stdpp Require Import strings.
From S2P Require Import Prelude Layout KernelTypes.
Open Scope Z_scope.
Open Scope bpf_scope.

(** * Bit-fields *)

(** What the loader puts in for __CORE_RELO(s, field, info). *)
Record field_relo := {
  BYTE_OFFSET : Z;
  BYTE_SIZE : Z;
  SIGNED : bool;
  LSHIFT_U64 : Z;
  RSHIFT_U64 : Z
}.

(** [val <<= l; val = val >> r], where the second shift is that of a [long] if
    [sgn] holds and that of an [unsigned long] otherwise. *)
Definition shift_out (sgn : bool) (val l r : Z) : Z :=
  let val := u64 (Z.shiftl val l) in
  if sgn then u64 (Z.shiftr (s64 val) r) else Z.shiftr val r.

(** A read function: its error code (0 or negative) and what it leaves in its
    destination. *)
Abbreviation read_fn := (Z -> nat -> Z * list Z).

(** [BPF_CORE_READ_BITFIELD_PROBED(s, field)], with [val] a zeroed [u64] into whose
    low (little endian) or high (big endian) bytes the storage is read. *)
Definition BPF_CORE_READ_BITFIELD_PROBED (read : read_fn) (big_endian : bool) (s : Z) (f : field_relo) : Z :=
  let n := Z.to_nat (BYTE_SIZE f) in
  let bs := (read (s + BYTE_OFFSET f) n).2 in
  let val := if big_endian then le_value (rev bs) else le_value bs in
  shift_out (SIGNED f) val (LSHIFT_U64 f) (RSHIFT_U64 f).

(** [BPF_CORE_READ_BITFIELD(s, field)]: a direct load whose width is the storage's;
    [None] is the use of an uninitialised [val] for any other width. *)
Definition BPF_CORE_READ_BITFIELD (mem : kmem) (big_endian : bool) (s : Z) (f : field_relo) : option Z :=
  let p := s + BYTE_OFFSET f in
  let load n := if big_endian then le_value (rev (mem p n)) else le_value (mem p n) in
  val ← (if BYTE_SIZE f =? 1 then Some (load 1%nat)
         else if BYTE_SIZE f =? 2 then Some (load 2%nat)
         else if BYTE_SIZE f =? 4 then Some (load 4%nat)
         else if BYTE_SIZE f =? 8 then Some (load 8%nat)
         else None);
  Some (shift_out (SIGNED f) val (LSHIFT_U64 f) (RSHIFT_U64 f)).

(** * Chains of pointers *)

(** An accessor: the member [path] of the structure [ty] of the running kernel;
    its place is the relocation of the access. *)
Record accessor := { acc_type : kty; acc_path : list string }.

Definition acc_offset (a : accessor) : Z :=
  match koffset (acc_path a) (acc_type a) with Some (o, _) => o | None => 0 end.

(** [___read(read_fn, dst, src_type, src, accessor)] with [sizeof( *dst)] = [n] *)
Definition ___read (fn : read_fn) (n : nat) (src : Z) (a : accessor) : Z * list Z :=
  fn (src + acc_offset a) n.

(** [__t] after [___read_ptrs(fn, src, ...)]; [___rd_pN] peels its arguments from
    the right, so the list is given reversed. *)
Fixpoint ___rd_p (fn : read_fn) (src : Z) (rev_args : list accessor) : Z :=
  match rev_args with
  | [] => src
  | [a] => le_value (___read fn 8 src a).2
  | a :: rev_args => le_value (___read fn 8 (___rd_p fn src rev_args) a).2
  end.
Definition ___read_ptrs (fn : read_fn) (src : Z) (args : list accessor) : Z :=
  ___rd_p fn src (rev args).

(** [___nolast] and [___last] *)
Definition ___nolast (args : list accessor) : list accessor := removelast args.
Definition ___last (a : accessor) (args : list accessor) : accessor := List.last args a.

(** [___core_read(fn, fn_ptr, dst, src, a, ...)]: the intermediate pointers are read
    with [fn_ptr], the [n] bytes of the destination with [fn]. *)
Definition ___core_read (fn fn_ptr : read_fn) (n : nat) (src : Z) (a : accessor)
    (args : list accessor) : Z * list Z :=
  match args with
  | [] => ___read fn n src a
  | _ => ___read fn n (___read_ptrs fn_ptr src (___nolast (a :: args))) (___last a (a :: args))
  end.

(** The variants of the header differ in the functions they read with. *)
Record bpf_reads := {
  bpf_probe_read_kernel : read_fn;
  bpf_probe_read_user : read_fn;
  bpf_probe_read_kernel_str : read_fn;
  bpf_probe_read_user_str : read_fn
}.

Definition BPF_CORE_READ_INTO (h : bpf_reads) :=
  ___core_read (bpf_probe_read_kernel h) (bpf_probe_read_kernel h).
Definition BPF_CORE_READ_USER_INTO (h : bpf_reads) :=
  ___core_read (bpf_probe_read_user h) (bpf_probe_read_user h).
Definition BPF_CORE_READ_STR_INTO (h : bpf_reads) :=
  ___core_read (bpf_probe_read_kernel_str h) (bpf_probe_read_kernel h).
Definition BPF_CORE_READ_USER_STR_INTO (h : bpf_reads) :=
  ___core_read (bpf_probe_read_user_str h) (bpf_probe_read_user h).

(** [BPF_CORE_READ(src, a, ...)] and [BPF_CORE_READ_USER]: the value, [n] bytes wide *)
Definition BPF_CORE_READ (h : bpf_reads) (n : nat) (src : Z) (a : accessor) (args : list accessor) : Z :=
  le_value (BPF_CORE_READ_INTO h n src a args).2.
Definition BPF_CORE_READ_USER (h : bpf_reads) (n : nat) (src : Z) (a : accessor) (args : list accessor) : Z :=
  le_value (BPF_CORE_READ_USER_INTO h n src a args).2.

(** * What the macros compute *)

(** Shifting out: the bits from [r - l] on, [w - r] of them. *)
Lemma shl_shr w v l r :
  0 <= l <= r -> r < w ->
  Z.shiftr (uN w (Z.shiftl v l)) r = uN (w - r) (v / 2 ^ (r - l)).
Proof.
  intros Hl Hr. unfold uN. rewrite Z.shiftl_mul_pow2, Z.shiftr_div_pow2 by lia.
  replace w with ((w - l) + l) at 1 by lia. rewrite Z.pow_add_r, Z.mul_mod_distr_r by lia.
  replace (2 ^ r) with (2 ^ (r - l) * 2 ^ l) by (rewrite <- Z.pow_add_r by lia; f_equal; lia).
  rewrite Z.div_mul_cancel_r by lia.
  replace (w - l) with ((r - l) + (w - r)) by lia. rewrite Z.pow_add_r by lia.
  rewrite Z.rem_mul_r by lia. rewrite Z.mul_comm, Z.div_add by lia.
  rewrite Z.div_small; [lia|]. apply Z.mod_pos_bound. lia.
Qed.

Lemma shift_out_unsigned v l r :
  0 <= l <= r -> r < 64 -> shift_out false v l r = uN (64 - r) (v / 2 ^ (r - l)).
Proof. apply shl_shr. Qed.

Lemma shift_out_signed v l r :
  0 <= l <= r -> r < 64 -> shift_out true v l r = u64 (sN (64 - r) (v / 2 ^ (r - l))).
Proof.
  intros Hl Hr. pose proof (shift_out_unsigned v l r Hl Hr) as Hu. unfold shift_out in *.
  f_equal. unfold sN at 2. rewrite <- Hu. set (x := u64 (Z.shiftl v l)) in *.
  assert (Hx : is_u64 x) by (apply uN_range; lia). destruct Hx as [Hx0 Hx1].
  unfold sN. rewrite (uN_id 64 x) by (split; lia). cbv zeta.
  rewrite !Z.shiftr_div_pow2 by lia. replace (64 - r - 1) with (63 - r) by lia.
  assert (H64 : 2 ^ 64 = 2 ^ (64 - r) * 2 ^ r) by (rewrite <- Z.pow_add_r by lia; f_equal; lia).
  assert (H63 : 2 ^ (64 - 1) = 2 ^ (63 - r) * 2 ^ r) by (rewrite <- Z.pow_add_r by lia; f_equal; lia).
  assert (Hr0 : 0 < 2 ^ r) by (apply Z.pow_pos_nonneg; lia).
  destruct (Z.ltb_spec x (2 ^ (64 - 1))) as [Hlt | Hge].
  - rewrite (proj2 (Z.ltb_lt _ _)); [done|]. apply Z.div_lt_upper_bound; lia.
  - rewrite (proj2 (Z.ltb_ge _ _)) by (apply Z.div_le_lower_bound; lia).
    rewrite H64. replace (x - 2 ^ (64 - r) * 2 ^ r) with (x + - 2 ^ (64 - r) * 2 ^ r) by lia.
    rewrite Z.div_add by lia. lia.
Qed.

(** The pointers are followed from left to right. *)
Fixpoint chase (fn : read_fn) (src : Z) (args : list accessor) : Z :=
  match args with
  | [] => src
  | a :: args => chase fn (le_value (___read fn 8 src a).2) args
  end.

Lemma chase_snoc fn src args a :
  chase fn src (args ++ [a]) = le_value (___read fn 8 (chase fn src args) a).2.
Proof. revert src. induction args as [|b args IH]; intros src; [done | apply IH]. Qed.

Lemma ___read_ptrs_chase fn src args : ___read_ptrs fn src args = chase fn src args.
Proof.
  unfold ___read_ptrs. induction args as [|a args IH] using rev_ind; [done|].
  rewrite rev_app_distr, chase_snoc, <- IH. cbn [rev app].
  destruct (rev args) as [|b l]; [|done]. done.
Qed.

Lemma ___core_read_chase fn fn_ptr n src a args :
  ___core_read fn fn_ptr n src a args =
    ___read fn n (chase fn_ptr src (removelast (a :: args))) (List.last (a :: args) a).
Proof.
  unfold ___core_read, ___nolast, ___last. destruct args as [|b args]; [done|].
  by rewrite ___read_ptrs_chase.
Qed.
