(* ===== verification/Endian.v ===== *)
(** Byte order: pkg/ebpf/headers/bpf/bpf_endian.h (and the identical copy
    pkg/ebpf/headers/bpf_endian.h).

    bpf_htons and its like use the compiler's bswap or, for constants, macros that
    move the bytes one by one; on a big-endian target they do nothing. *)
From S2P Require Import Prelude Layout KernelTypes CoreRead.
Open Scope Z_scope.

(** [___bpf_mvb(x, b, n, m)]: a [__u16] is promoted to [int] before it is shifted, so
    the shifts are those of at least 32 bits. *)
Definition ___bpf_mvb (x b n m : Z) : Z :=
  let w := Z.max b 32 in
  uN w (Z.shiftl (Z.shiftr (uN w (Z.shiftl (uN b x) (b - (n + 1) * 8))) (b - 8)) (m * 8)).

Definition ___bpf_swab16 (x : Z) : Z :=
  u16 (Z.lor (___bpf_mvb x 16 0 1) (___bpf_mvb x 16 1 0)).

Definition ___bpf_swab32 (x : Z) : Z :=
  u32 (Z.lor (Z.lor (Z.lor (___bpf_mvb x 32 0 3) (___bpf_mvb x 32 1 2)) (___bpf_mvb x 32 2 1))
    (___bpf_mvb x 32 3 0)).

Definition ___bpf_swab64 (x : Z) : Z :=
  u64 (Z.lor (Z.lor (Z.lor (Z.lor (Z.lor (Z.lor (Z.lor (___bpf_mvb x 64 0 7) (___bpf_mvb x 64 1 6))
    (___bpf_mvb x 64 2 5)) (___bpf_mvb x 64 3 4)) (___bpf_mvb x 64 4 3)) (___bpf_mvb x 64 5 2))
    (___bpf_mvb x 64 6 1)) (___bpf_mvb x 64 7 0)).

(** The compiler's builtins: the bytes in the opposite order. *)
Definition __builtin_bswap (n : nat) (x : Z) : Z := le_value (rev (le_bytes n x)).

(** bpf_htons, bpf_htonl and bpf_cpu_to_be64, and the conversions back, which are the
    same macros; [constant] is [__builtin_constant_p(x)]. *)
Definition bpf_htons (big_endian constant : bool) (x : Z) : Z :=
  if big_endian then x else if constant then ___bpf_swab16 x else __builtin_bswap 2 x.
Definition bpf_ntohs := bpf_htons.
Definition bpf_htonl (big_endian constant : bool) (x : Z) : Z :=
  if big_endian then x else if constant then ___bpf_swab32 x else __builtin_bswap 4 x.
Definition bpf_ntohl := bpf_htonl.
Definition bpf_cpu_to_be64 (big_endian constant : bool) (x : Z) : Z :=
  if big_endian then x else if constant then ___bpf_swab64 x else __builtin_bswap 8 x.
Definition bpf_be64_to_cpu := bpf_cpu_to_be64.

(** * Properties *)

(** The byte number [n]. *)
Definition byte_of (x n : Z) : Z := uN 8 (x / 2 ^ (8 * n)).

Lemma byte_of_range x n : 0 <= byte_of x n < 256.
Proof. apply (uN_range 8). lia. Qed.

(** With at least 32 bits the macro moves one byte and clears the others. *)
Lemma mvb_byte x b n m :
  32 <= b -> b mod 8 = 0 -> 0 <= n -> (n + 1) * 8 <= b -> 0 <= m -> (m + 1) * 8 <= b ->
  ___bpf_mvb x b n m = byte_of x n * 2 ^ (8 * m).
Proof.
  intros Hb Hb8 Hn Hnb Hm Hmb. unfold ___bpf_mvb. rewrite Z.max_l by lia. cbv zeta.
  rewrite (shl_shr b (uN b x)) by lia.
  replace (b - (b - 8)) with 8 by lia. replace (b - 8 - (b - (n + 1) * 8)) with (8 * n) by lia.
  assert (Hx : uN 8 (uN b x / 2 ^ (8 * n)) = byte_of x n).
  { unfold byte_of, uN. replace b with (8 * n + (b - 8 * n)) by lia. rewrite Z.pow_add_r by lia.
    rewrite Z.rem_mul_r, (Z.mul_comm (2 ^ (8 * n))), Z.div_add by lia.
    rewrite (Z.div_small (x mod 2 ^ (8 * n))), Z.add_0_l by (apply Z.mod_pos_bound; lia).
    replace (b - 8 * n) with (8 + (b - 8 * n - 8)) by lia. rewrite Z.pow_add_r, Z.rem_mul_r by lia.
    by rewrite (Z.mul_comm (2 ^ 8)), Z.mod_add, Z.mod_mod by lia. }
  rewrite Hx, Z.shiftl_mul_pow2, (Z.mul_comm m) by lia. apply uN_id.
  pose proof (byte_of_range x n). split; [lia|].
  replace b with (8 + 8 * m + (b - 8 - 8 * m)) by lia. rewrite Z.pow_add_r, Z.pow_add_r by lia.
  assert (1 <= 2 ^ (b - 8 - 8 * m)) by (apply (Z.pow_le_mono_r 2 0); lia).
  assert (0 < 2 ^ (8 * m)) by lia. change (2 ^ 8) with 256. nia.
Qed.

(** Numbers that do not overlap are added by the bitwise or. *)
Lemma lor_byte a b k m : 0 <= m -> k = m + 1 -> 0 <= b < 256 ->
  Z.lor (a * 2 ^ (8 * k)) (b * 2 ^ (8 * m)) = (a * 256 + b) * 2 ^ (8 * m).
Proof.
  intros Hm -> Hb. assert (H : 2 ^ (8 * (m + 1)) = 256 * 2 ^ (8 * m)).
  { replace (8 * (m + 1)) with (8 + 8 * m) by lia. by rewrite Z.pow_add_r by lia. }
  rewrite lor_add by nia. rewrite H. lia.
Qed.

Lemma le_bytes_byte_of n x k : le_bytes n (x / 2 ^ (8 * Z.of_nat k)) = (fun i => byte_of x (Z.of_nat i)) <$> seq k n.
Proof.
  revert k. induction n as [|n IH]; intros k; [done|]. cbn [le_bytes seq fmap list_fmap]. f_equal.
  rewrite Z.div_div by lia. rewrite <- IH. do 2 f_equal.
  replace (8 * Z.of_nat (S k)) with (8 * Z.of_nat k + 8) by lia. by rewrite Z.pow_add_r by lia.
Qed.

Lemma bswap_bytes n x :
  __builtin_bswap n x = le_value (rev ((fun i => byte_of x (Z.of_nat i)) <$> seq 0 n)).
Proof. unfold __builtin_bswap. by rewrite <- (le_bytes_byte_of n x 0), Z.div_1_r. Qed.

Ltac merge_bytes x :=
  repeat match goal with
  | |- context [Z.lor (?a * 2 ^ (8 * ?k)) (byte_of x ?n * 2 ^ (8 * ?m))] =>
      rewrite (lor_byte a (byte_of x n) k m) by (reflexivity || lia || apply byte_of_range)
  end.

Lemma swab32_bswap x : ___bpf_swab32 x = __builtin_bswap 4 x.
Proof.
  unfold ___bpf_swab32. rewrite !mvb_byte by (reflexivity || lia). merge_bytes x. change (2 ^ (8 * 0)) with 1.
  rewrite bswap_bytes. cbn [seq fmap list_fmap rev app le_value]. change (Z.of_nat 0) with 0.
  change (Z.of_nat 1) with 1. change (Z.of_nat 2) with 2. change (Z.of_nat 3) with 3.
  pose proof (byte_of_range x 0). pose proof (byte_of_range x 1). pose proof (byte_of_range x 2).
  pose proof (byte_of_range x 3). rewrite uN_id; [lia|]. unfold is_uN. lia.
Qed.

Lemma swab64_bswap x : ___bpf_swab64 x = __builtin_bswap 8 x.
Proof.
  unfold ___bpf_swab64. rewrite !mvb_byte by (reflexivity || lia). merge_bytes x. change (2 ^ (8 * 0)) with 1.
  rewrite bswap_bytes. cbn [seq fmap list_fmap rev app le_value].
  repeat match goal with |- context [Z.of_nat ?n] => let z := eval vm_compute in (Z.of_nat n) in change (Z.of_nat n) with z end.
  pose proof (byte_of_range x 0). pose proof (byte_of_range x 1). pose proof (byte_of_range x 2).
  pose proof (byte_of_range x 3). pose proof (byte_of_range x 4). pose proof (byte_of_range x 5).
  pose proof (byte_of_range x 6). pose proof (byte_of_range x 7).
  rewrite uN_id; [lia|]. unfold is_uN. lia.
Qed.

(** Of a [__u16] the macro keeps the upper byte as well: in [int] nothing is shifted
    out at the top.  The cast of the result removes it. *)
Lemma swab16_bswap x : ___bpf_swab16 x = __builtin_bswap 2 x.
Proof.
  assert (Hx : 0 <= u16 x < 2 ^ 16) by (apply (uN_range 16); lia).
  assert (H0 : ___bpf_mvb x 16 0 1 = u16 x * 2 ^ 8).
  { unfold ___bpf_mvb. change (Z.max 16 32) with 32. cbv zeta. rewrite shl_shr by lia.
    change (2 ^ (16 - 8 - (16 - (0 + 1) * 8))) with 1. rewrite Z.div_1_r.
    rewrite (uN_id _ (u16 x)) by (unfold is_uN; lia). rewrite Z.shiftl_mul_pow2 by lia.
    apply uN_id. unfold is_uN. lia. }
  assert (H1 : ___bpf_mvb x 16 1 0 = u16 x / 2 ^ 8).
  { unfold ___bpf_mvb. change (Z.max 16 32) with 32. cbv zeta. rewrite shl_shr by lia.
    rewrite Z.shiftl_mul_pow2, Z.mul_1_r by lia. change (16 - 8 - (16 - (1 + 1) * 8)) with 8.
    assert (0 <= u16 x / 2 ^ 8 < 2 ^ 8) by (split; [apply Z.div_pos | apply Z.div_lt_upper_bound]; lia).
    rewrite (uN_id (32 - (16 - 8))) by (unfold is_uN; lia). apply uN_id. unfold is_uN. lia. }
  unfold ___bpf_swab16. rewrite H0, H1.
  assert (Hhi : 0 <= u16 x / 2 ^ 8 < 2 ^ 8) by (split; [apply Z.div_pos | apply Z.div_lt_upper_bound]; lia).
  rewrite lor_add by lia. rewrite bswap_bytes. cbn [seq fmap list_fmap rev app le_value].
  change (Z.of_nat 0) with 0. change (Z.of_nat 1) with 1. unfold byte_of. change (2 ^ (8 * 0)) with 1.
  change (2 ^ (8 * 1)) with (2 ^ 8). rewrite Z.div_1_r, Z.mul_0_r, Z.add_0_r.
  unfold uN in *. change (2 ^ 16) with 65536 in *. change (2 ^ 8) with 256 in *. Z.div_mod_to_equations. lia.
Qed.

Lemma bswap_range n x : 0 <= __builtin_bswap n x < 2 ^ (8 * Z.of_nat n).
Proof.
  unfold __builtin_bswap. pose proof (le_value_range (rev (le_bytes n x))) as H.
  rewrite length_rev, length_le_bytes in H. apply H. apply Forall_rev, le_bytes_range.
Qed.

Lemma le_bytes_value bs : Forall (fun b => 0 <= b < 256) bs -> le_bytes (length bs) (le_value bs) = bs.
Proof.
  induction 1 as [|b bs Hb _ IH]; [done|]. cbn [length le_bytes le_value].
  rewrite (Z.mul_comm 256), Z.mod_add, Z.div_add by lia.
  rewrite Z.mod_small, (Z.div_small b), Z.add_0_l by lia. by rewrite IH.
Qed.

Lemma bswap_le_bytes n x : le_bytes n (__builtin_bswap n x) = rev (le_bytes n x).
Proof.
  unfold __builtin_bswap. rewrite <- (le_bytes_value (rev (le_bytes n x))) at 2.
  - by rewrite length_rev, length_le_bytes.
  - apply Forall_rev, le_bytes_range.
Qed.

Lemma bswap_bswap n x : 0 <= x < 2 ^ (8 * Z.of_nat n) -> __builtin_bswap n (__builtin_bswap n x) = x.
Proof.
  intros Hx. unfold __builtin_bswap at 1. rewrite bswap_le_bytes, rev_involutive. by apply le_value_bytes.
Qed.

(** The bytes of an integer in the memory of the target. *)
Definition memory_bytes (be : bool) (n : nat) (x : Z) : list Z :=
  if be then rev (le_bytes n x) else le_bytes n x.

(** The byte-order macros are right on both kinds of targets and for constants
    as for variables: what they give has in memory the bytes of the argument, the
    most significant first, and converting back gives the argument; the macro for
    16 bits is right although its shifts, which are those of an [int], clear nothing. *)
Lemma endian_macros_correct be c x :
  (is_uN 16 x -> memory_bytes be 2 (bpf_htons be c x) = rev (le_bytes 2 x) /\
    bpf_ntohs be c (bpf_htons be c x) = x) /\
  (is_uN 32 x -> memory_bytes be 4 (bpf_htonl be c x) = rev (le_bytes 4 x) /\
    bpf_ntohl be c (bpf_htonl be c x) = x) /\
  (is_uN 64 x -> memory_bytes be 8 (bpf_cpu_to_be64 be c x) = rev (le_bytes 8 x) /\
    bpf_be64_to_cpu be c (bpf_cpu_to_be64 be c x) = x).
Proof.
  unfold bpf_ntohs, bpf_ntohl, bpf_be64_to_cpu, bpf_htons, bpf_htonl, bpf_cpu_to_be64, memory_bytes.
  split; [|split]; intros Hx; (destruct be; [done|]); destruct c;
    rewrite ?swab16_bswap, ?swab32_bswap, ?swab64_bswap;
    (split; [apply bswap_le_bytes | by apply bswap_bswap]).
Qed.

Lemma endian_macros_correct_witness :
  memory_bytes false 4 (bpf_htonl false true 0xC0A80001) = [192; 168; 0; 1].
Proof.
  refine (eq_trans (proj1 (proj1 (proj2 (endian_macros_correct false true 0xC0A80001)) _)) _).
  - split; lia.
  - vm_compute. reflexivity.
Defined.
