(* ===== verification/Tracing.v ===== *)
(** The registers a probe finds in its context:
    pkg/ebpf/headers/bpf/bpf_tracing.h.

    A kprobe gets a copy of the registers ([struct pt_regs]).  The header picks a
    target from the macros the compiler defines (the Makefile passes
    -D__TARGET_ARCH_$(ARCH)), and [PT_REGS_PARM1] and its like name the member that
    holds an argument under the target's calling convention. *)
From stdpp Require Import strings.
From S2P Require Import Prelude Layout KernelTypes.
Open Scope Z_scope.
Open Scope string_scope.

(** * The target *)

Inductive bpf_target :=
| bpf_target_x86 | bpf_target_s390 | bpf_target_arm | bpf_target_arm64 | bpf_target_mips
| bpf_target_powerpc | bpf_target_sparc | bpf_target_riscv | bpf_target_arc
| bpf_target_loongarch.

(** What the preprocessor knows: which macros are defined, and the value of
    [__riscv_xlen]. *)
Record cpp_env := { defined : string -> bool; riscv_xlen : Z }.

(** The target the ARCH of the Makefile asks for. *)
Definition target_arch (d : cpp_env) : option bpf_target :=
  if defined d "__TARGET_ARCH_x86" then Some bpf_target_x86
  else if defined d "__TARGET_ARCH_s390" then Some bpf_target_s390
  else if defined d "__TARGET_ARCH_arm" then Some bpf_target_arm
  else if defined d "__TARGET_ARCH_arm64" then Some bpf_target_arm64
  else if defined d "__TARGET_ARCH_mips" then Some bpf_target_mips
  else if defined d "__TARGET_ARCH_powerpc" then Some bpf_target_powerpc
  else if defined d "__TARGET_ARCH_sparc" then Some bpf_target_sparc
  else if defined d "__TARGET_ARCH_riscv" then Some bpf_target_riscv
  else if defined d "__TARGET_ARCH_arc" then Some bpf_target_arc
  else if defined d "__TARGET_ARCH_loongarch" then Some bpf_target_loongarch
  else None.

(** The target the compiler says. *)
Definition target_compiler (d : cpp_env) : option bpf_target :=
  if defined d "__x86_64__" then Some bpf_target_x86
  else if defined d "__s390__" then Some bpf_target_s390
  else if defined d "__arm__" then Some bpf_target_arm
  else if defined d "__aarch64__" then Some bpf_target_arm64
  else if defined d "__mips__" then Some bpf_target_mips
  else if defined d "__powerpc__" then Some bpf_target_powerpc
  else if defined d "__sparc__" then Some bpf_target_sparc
  else if (defined d "__riscv" && (riscv_xlen d =? 64)%Z)%bool then Some bpf_target_riscv
  else if defined d "__arc__" then Some bpf_target_arc
  else if defined d "__loongarch__" then Some bpf_target_loongarch
  else None.

Definition target_of (d : cpp_env) : option bpf_target :=
  match target_arch d with Some t => Some t | None => target_compiler d end.

(** * The register macros *)

(** A member of the register structure: a path, and an index where the member is
    an array (by number, or by a name the kernel's headers define). *)
Inductive reg_index := IxNum (i : nat) | IxName (n : string).
Inductive reg :=
| Reg (path : list string) (index : option reg_index)
| constant_zero
| unsupported.

#[local] Abbreviation r n := (Reg [n] None).
#[local] Abbreviation rr n m := (Reg [n; m] None).
#[local] Abbreviation ri n i := (Reg [n] (Some (IxNum i%nat))).
#[local] Abbreviation rn n i := (Reg [n] (Some (IxName i))).

(** What a target defines: the type of __PT_REGS_CAST, the registers of the
    arguments of a function and of a system call (as many as it defines), those of
    the return address, the frame, the result, the stack and the instruction,
    whether PT_REGS_SYSCALL_REGS is the context itself, and the type under which
    PT_REGS_PARM1_SYSCALL looks. *)
Record pt_macros := {
  pt_regs_cast : option string;
  parm_regs : list reg;
  parm_syscall_regs : list reg;
  ret_reg : reg;
  fp_reg : reg;
  rc_reg : reg;
  sp_reg : reg;
  ip_reg : reg;
  syscall_regs_ctx : bool;
  parm1_syscall_cast : option string
}.

Definition x86_kernel_macros : pt_macros := {|
  pt_regs_cast := None;
  parm_regs := [r "di"; r "si"; r "dx"; r "cx"; r "r8"; r "r9"];
  parm_syscall_regs := [r "di"; r "si"; r "dx"; r "r10"; r "r8"; r "r9"];
  ret_reg := r "sp";
  fp_reg := r "bp";
  rc_reg := r "ax";
  sp_reg := r "sp";
  ip_reg := r "ip";
  syscall_regs_ctx := false;
  parm1_syscall_cast := None |}.

Definition i386_macros : pt_macros := {|
  pt_regs_cast := None;
  parm_regs := [r "eax"; r "edx"; r "ecx"];
  parm_syscall_regs := [r "ebx"; r "ecx"; r "edx"; r "esi"; r "edi"; r "ebp"];
  ret_reg := r "esp";
  fp_reg := r "ebp";
  rc_reg := r "eax";
  sp_reg := r "esp";
  ip_reg := r "eip";
  syscall_regs_ctx := false;
  parm1_syscall_cast := None |}.

Definition x86_64_macros : pt_macros := {|
  pt_regs_cast := None;
  parm_regs := [r "rdi"; r "rsi"; r "rdx"; r "rcx"; r "r8"; r "r9"];
  parm_syscall_regs := [r "rdi"; r "rsi"; r "rdx"; r "r10"; r "r8"; r "r9"];
  ret_reg := r "rsp";
  fp_reg := r "rbp";
  rc_reg := r "rax";
  sp_reg := r "rsp";
  ip_reg := r "rip";
  syscall_regs_ctx := false;
  parm1_syscall_cast := None |}.

Definition s390_macros : pt_macros := {|
  pt_regs_cast := Some "user_pt_regs";
  parm_regs := [ri "gprs" 2; ri "gprs" 3; ri "gprs" 4; ri "gprs" 5; ri "gprs" 6];
  parm_syscall_regs := [r "orig_gpr2"; ri "gprs" 3; ri "gprs" 4; ri "gprs" 5; ri "gprs" 6;
    ri "gprs" 7];
  ret_reg := ri "gprs" 14;
  fp_reg := ri "gprs" 11;
  rc_reg := ri "gprs" 2;
  sp_reg := ri "gprs" 15;
  ip_reg := rr "psw" "addr";
  syscall_regs_ctx := false;
  parm1_syscall_cast := Some "struct pt_regs___s390" |}.

Definition arm_macros : pt_macros := {|
  pt_regs_cast := None;
  parm_regs := [ri "uregs" 0; ri "uregs" 1; ri "uregs" 2; ri "uregs" 3];
  parm_syscall_regs := [ri "uregs" 0; ri "uregs" 1; ri "uregs" 2; ri "uregs" 3; ri "uregs" 4;
    ri "uregs" 5; ri "uregs" 6];
  ret_reg := ri "uregs" 14;
  fp_reg := ri "uregs" 11;
  rc_reg := ri "uregs" 0;
  sp_reg := ri "uregs" 13;
  ip_reg := ri "uregs" 12;
  syscall_regs_ctx := false;
  parm1_syscall_cast := None |}.

Definition arm64_macros : pt_macros := {|
  pt_regs_cast := Some "struct user_pt_regs";
  parm_regs := [ri "regs" 0; ri "regs" 1; ri "regs" 2; ri "regs" 3; ri "regs" 4;
    ri "regs" 5; ri "regs" 6; ri "regs" 7];
  parm_syscall_regs := [r "orig_x0"; ri "regs" 1; ri "regs" 2; ri "regs" 3; ri "regs" 4;
    ri "regs" 5];
  ret_reg := ri "regs" 30;
  fp_reg := ri "regs" 29;
  rc_reg := ri "regs" 0;
  sp_reg := r "sp";
  ip_reg := r "pc";
  syscall_regs_ctx := false;
  parm1_syscall_cast := Some "struct pt_regs___arm64" |}.

Definition mips_macros : pt_macros := {|
  pt_regs_cast := None;
  parm_regs := [ri "regs" 4; ri "regs" 5; ri "regs" 6; ri "regs" 7; ri "regs" 8;
    ri "regs" 9; ri "regs" 10; ri "regs" 11];
  parm_syscall_regs := [ri "regs" 4; ri "regs" 5; ri "regs" 6; ri "regs" 7; ri "regs" 8;
    ri "regs" 9];
  ret_reg := ri "regs" 31;
  fp_reg := ri "regs" 30;
  rc_reg := ri "regs" 2;
  sp_reg := ri "regs" 29;
  ip_reg := r "cp0_epc";
  syscall_regs_ctx := false;
  parm1_syscall_cast := None |}.

Definition powerpc_macros (arch64 : bool) : pt_macros := {|
  pt_regs_cast := None;
  parm_regs := [ri "gpr" 3; ri "gpr" 4; ri "gpr" 5; ri "gpr" 6; ri "gpr" 7; ri "gpr" 8;
    ri "gpr" 9; ri "gpr" 10];
  parm_syscall_regs := [r "orig_gpr3"; ri "gpr" 4; ri "gpr" 5; ri "gpr" 6; ri "gpr" 7; ri "gpr" 8;
    ri "gpr" 8] ++ (if arch64 then [] else [ri "gpr" 9]);
  ret_reg := ri "regs" 31;
  fp_reg := unsupported;
  rc_reg := ri "gpr" 3;
  sp_reg := r "sp";
  ip_reg := r "nip";
  syscall_regs_ctx := true;
  parm1_syscall_cast := None |}.

Definition sparc_macros (arch64 : bool) : pt_macros := {|
  pt_regs_cast := None;
  parm_regs := [rn "u_regs" "UREG_I0"; rn "u_regs" "UREG_I1"; rn "u_regs" "UREG_I2";
    rn "u_regs" "UREG_I3"; rn "u_regs" "UREG_I4"; rn "u_regs" "UREG_I5"];
  parm_syscall_regs := [rn "u_regs" "UREG_I0"; rn "u_regs" "UREG_I1"; rn "u_regs" "UREG_I2";
    rn "u_regs" "UREG_I3"; rn "u_regs" "UREG_I4"; rn "u_regs" "UREG_I5"];
  ret_reg := rn "u_regs" "UREG_I7";
  fp_reg := unsupported;
  rc_reg := rn "u_regs" "UREG_I0";
  sp_reg := rn "u_regs" "UREG_FP";
  ip_reg := if arch64 then r "tpc" else r "pc";
  syscall_regs_ctx := false;
  parm1_syscall_cast := None |}.

Definition riscv_macros : pt_macros := {|
  pt_regs_cast := Some "struct user_regs_struct";
  parm_regs := [r "a0"; r "a1"; r "a2"; r "a3"; r "a4"; r "a5"; r "a6"; r "a7"];
  parm_syscall_regs := [r "a0"; r "a1"; r "a2"; r "a3"; r "a4"; r "a5"];
  ret_reg := r "ra";
  fp_reg := r "s0";
  rc_reg := r "a0";
  sp_reg := r "sp";
  ip_reg := r "pc";
  syscall_regs_ctx := true;
  parm1_syscall_cast := None |}.

Definition arc_macros : pt_macros := {|
  pt_regs_cast := Some "struct user_regs_struct";
  parm_regs := [rr "scratch" "r0"; rr "scratch" "r1"; rr "scratch" "r2"; rr "scratch" "r3";
    rr "scratch" "r4"; rr "scratch" "r5"; rr "scratch" "r6"; rr "scratch" "r7"];
  parm_syscall_regs := [rr "scratch" "r0"; rr "scratch" "r1"; rr "scratch" "r2"; rr "scratch" "r3";
    rr "scratch" "r4"; rr "scratch" "r5"];
  ret_reg := rr "scratch" "blink";
  fp_reg := rr "scratch" "fp";
  rc_reg := rr "scratch" "r0";
  sp_reg := rr "scratch" "sp";
  ip_reg := rr "scratch" "ret";
  syscall_regs_ctx := true;
  parm1_syscall_cast := None |}.

Definition loongarch_macros : pt_macros := {|
  pt_regs_cast := Some "struct user_pt_regs";
  parm_regs := [ri "regs" 4; ri "regs" 5; ri "regs" 6; ri "regs" 7; ri "regs" 8;
    ri "regs" 9; ri "regs" 10; ri "regs" 11];
  parm_syscall_regs := [ri "regs" 4; ri "regs" 5; ri "regs" 6; ri "regs" 7; ri "regs" 8;
    ri "regs" 9];
  ret_reg := ri "regs" 1;
  fp_reg := ri "regs" 22;
  rc_reg := ri "regs" 4;
  sp_reg := ri "regs" 3;
  ip_reg := r "csr_era";
  syscall_regs_ctx := true;
  parm1_syscall_cast := None |}.

(** The table of the target; x86 has three, after the headers that were included. *)
Definition target_macros (d : cpp_env) (t : bpf_target) : pt_macros :=
  match t with
  | bpf_target_x86 =>
      if (defined d "__KERNEL__" || defined d "__VMLINUX_H__")%bool then x86_kernel_macros
      else if defined d "__i386__" then i386_macros
      else x86_64_macros
  | bpf_target_s390 => s390_macros
  | bpf_target_arm => arm_macros
  | bpf_target_arm64 => arm64_macros
  | bpf_target_mips => mips_macros
  | bpf_target_powerpc => powerpc_macros (defined d "__arch64__")
  | bpf_target_sparc => sparc_macros (defined d "__arch64__")
  | bpf_target_riscv => riscv_macros
  | bpf_target_arc => arc_macros
  | bpf_target_loongarch => loongarch_macros
  end.

(** The member behind PT_REGS_PARM1 to PT_REGS_PARM8, and behind
    PT_REGS_PARM1_SYSCALL to PT_REGS_PARM7_SYSCALL. *)
Definition PT_REGS_PARM (m : pt_macros) (n : nat) : reg :=
  default unsupported (parm_regs m !! (n - 1)%nat).
Definition PT_REGS_PARM_SYSCALL (m : pt_macros) (n : nat) : reg :=
  default unsupported (parm_syscall_regs m !! (n - 1)%nat).

(** * The header of libbpf 0.6.1 *)

(** pkg/ebpf/headers/bpf_tracing.h, which the uretprobe includes, is an older
    version: five arguments, no system-call accessors, and the accessors that use
    BPF_CORE_READ ([core]) written out a second time. *)
Definition x86_kernel_macros_061 (core : bool) : pt_macros := {|
  pt_regs_cast := None;
  parm_regs := [r "di"; r "si"; r "dx"; r "cx"; r "r8"];
  parm_syscall_regs := [];
  ret_reg := r "sp";
  fp_reg := r "bp";
  rc_reg := r "ax";
  sp_reg := r "sp";
  ip_reg := r "ip";
  syscall_regs_ctx := false;
  parm1_syscall_cast := None |}.

Definition i386_macros_061 (core : bool) : pt_macros := {|
  pt_regs_cast := None;
  parm_regs := [r "eax"; r "edx"; r "ecx"; constant_zero; constant_zero];
  parm_syscall_regs := [];
  ret_reg := r "esp";
  fp_reg := r "ebp";
  rc_reg := r "eax";
  sp_reg := r "esp";
  ip_reg := r "eip";
  syscall_regs_ctx := false;
  parm1_syscall_cast := None |}.

Definition x86_64_macros_061 (core : bool) : pt_macros := {|
  pt_regs_cast := None;
  parm_regs := [r "rdi"; r "rsi"; r "rdx"; r "rcx"; r "r8"];
  parm_syscall_regs := [];
  ret_reg := r "rsp";
  fp_reg := r "rbp";
  rc_reg := r "rax";
  sp_reg := r "rsp";
  ip_reg := r "rip";
  syscall_regs_ctx := false;
  parm1_syscall_cast := None |}.

Definition s390_macros_061 (core : bool) : pt_macros := {|
  pt_regs_cast := Some "user_pt_regs";
  parm_regs := [ri "gprs" 2; ri "gprs" 3; ri "gprs" 4; ri "gprs" 5; ri "gprs" 6];
  parm_syscall_regs := [];
  ret_reg := ri "gprs" 14;
  fp_reg := ri "gprs" 11;
  rc_reg := ri "gprs" 2;
  sp_reg := ri "gprs" 15;
  ip_reg := rr "psw" "addr";
  syscall_regs_ctx := false;
  parm1_syscall_cast := None |}.

Definition arm_macros_061 (core : bool) : pt_macros := {|
  pt_regs_cast := None;
  parm_regs := [ri "uregs" 0; ri "uregs" 1; ri "uregs" 2; ri "uregs" 3; ri "uregs" 4];
  parm_syscall_regs := [];
  ret_reg := ri "uregs" 14;
  fp_reg := ri "uregs" 11;
  rc_reg := ri "uregs" 0;
  sp_reg := ri "uregs" 13;
  ip_reg := ri "uregs" 12;
  syscall_regs_ctx := false;
  parm1_syscall_cast := None |}.

Definition arm64_macros_061 (core : bool) : pt_macros := {|
  pt_regs_cast := Some "struct user_pt_regs";
  parm_regs := [ri "regs" 0; ri "regs" 1; ri "regs" 2; ri "regs" 3; ri "regs" 4];
  parm_syscall_regs := [];
  ret_reg := ri "regs" 30;
  fp_reg := ri "regs" 29;
  rc_reg := ri "regs" 0;
  sp_reg := r "sp";
  ip_reg := r "pc";
  syscall_regs_ctx := false;
  parm1_syscall_cast := None |}.

Definition mips_macros_061 (core : bool) : pt_macros := {|
  pt_regs_cast := None;
  parm_regs := [ri "regs" 4; ri "regs" 5; ri "regs" 6; ri "regs" 7; ri "regs" 8];
  parm_syscall_regs := [];
  ret_reg := ri "regs" 31;
  fp_reg := ri "regs" 30;
  rc_reg := ri "regs" 2;
  sp_reg := ri "regs" 29;
  ip_reg := r "cp0_epc";
  syscall_regs_ctx := false;
  parm1_syscall_cast := None |}.

Definition powerpc_macros_061 (core : bool) : pt_macros := {|
  pt_regs_cast := None;
  parm_regs := [ri "gpr" 3; ri "gpr" 4; ri "gpr" 5; ri "gpr" 6; ri "gpr" 7];
  parm_syscall_regs := [];
  ret_reg := unsupported;
  fp_reg := unsupported;
  rc_reg := ri "gpr" 3;
  sp_reg := r "sp";
  ip_reg := r "nip";
  syscall_regs_ctx := false;
  parm1_syscall_cast := None |}.

Definition sparc_macros_061 (arch64 core : bool) : pt_macros := {|
  pt_regs_cast := None;
  parm_regs := [rn "u_regs" "UREG_I0"; rn "u_regs" "UREG_I1"; rn "u_regs" "UREG_I2";
    rn "u_regs" "UREG_I3"; rn "u_regs" "UREG_I4"];
  parm_syscall_regs := [];
  ret_reg := rn "u_regs" "UREG_I7";
  fp_reg := unsupported;
  rc_reg := rn "u_regs" "UREG_I0";
  sp_reg := rn "u_regs" "UREG_FP";
  ip_reg := if arch64 then r "tpc" else r "pc";
  syscall_regs_ctx := false;
  parm1_syscall_cast := None |}.

Definition riscv_macros_061 (core : bool) : pt_macros := {|
  pt_regs_cast := Some "struct user_regs_struct";
  parm_regs := [r "a0"; r "a1"; r "a2"; r "a3"; r "a4"];
  parm_syscall_regs := [];
  ret_reg := r "ra";
  fp_reg := if core then r "fp" else r "s5";
  rc_reg := r "a5";
  sp_reg := r "sp";
  ip_reg := r "epc";
  syscall_regs_ctx := false;
  parm1_syscall_cast := None |}.

Definition target_arch_061 (d : cpp_env) : option bpf_target :=
  if defined d "__TARGET_ARCH_x86" then Some bpf_target_x86
  else if defined d "__TARGET_ARCH_s390" then Some bpf_target_s390
  else if defined d "__TARGET_ARCH_arm" then Some bpf_target_arm
  else if defined d "__TARGET_ARCH_arm64" then Some bpf_target_arm64
  else if defined d "__TARGET_ARCH_mips" then Some bpf_target_mips
  else if defined d "__TARGET_ARCH_powerpc" then Some bpf_target_powerpc
  else if defined d "__TARGET_ARCH_sparc" then Some bpf_target_sparc
  else if defined d "__TARGET_ARCH_riscv" then Some bpf_target_riscv
  else None.

Definition target_compiler_061 (d : cpp_env) : option bpf_target :=
  if defined d "__x86_64__" then Some bpf_target_x86
  else if defined d "__s390__" then Some bpf_target_s390
  else if defined d "__arm__" then Some bpf_target_arm
  else if defined d "__aarch64__" then Some bpf_target_arm64
  else if defined d "__mips__" then Some bpf_target_mips
  else if defined d "__powerpc__" then Some bpf_target_powerpc
  else if defined d "__sparc__" then Some bpf_target_sparc
  else if (defined d "__riscv" && (riscv_xlen d =? 64)%Z)%bool then Some bpf_target_riscv
  else None.

Definition target_of_061 (d : cpp_env) : option bpf_target :=
  match target_arch_061 d with Some t => Some t | None => target_compiler_061 d end.

(** A target this version does not know has no table. *)
Definition target_macros_061 (d : cpp_env) (core : bool) (t : bpf_target) : option pt_macros :=
  match t with
  | bpf_target_x86 => Some (
      if (defined d "__KERNEL__" || defined d "__VMLINUX_H__")%bool then x86_kernel_macros_061 core
      else if defined d "__i386__" then i386_macros_061 core
      else x86_64_macros_061 core)
  | bpf_target_s390 => Some (s390_macros_061 core)
  | bpf_target_arm => Some (arm_macros_061 core)
  | bpf_target_arm64 => Some (arm64_macros_061 core)
  | bpf_target_mips => Some (mips_macros_061 core)
  | bpf_target_powerpc => Some (powerpc_macros_061 core)
  | bpf_target_sparc => Some (sparc_macros_061 (defined d "__arch64__") core)
  | bpf_target_riscv => Some (riscv_macros_061 core)
  | bpf_target_arc | bpf_target_loongarch => None
  end.

(** [struct pt_regs] of pkg/ebpf/headers/common.h, declared for x86 only *)
Definition struct_pt_regs_x86 : kty := KStruct [
  F "r15" c_long;
  F "r14" c_long;
  F "r13" c_long;
  F "r12" c_long;
  F "rbp" c_long;
  F "rbx" c_long;
  F "r11" c_long;
  F "r10" c_long;
  F "r9" c_long;
  F "r8" c_long;
  F "rax" c_long;
  F "rcx" c_long;
  F "rdx" c_long;
  F "rsi" c_long;
  F "rdi" c_long;
  F "orig_rax" c_long;
  F "rip" c_long;
  F "cs" c_long;
  F "eflags" c_long;
  F "rsp" c_long;
  F "ss" c_long].

Definition pt_regs_of_061 (d : cpp_env) : option kty :=
  if defined d "__TARGET_ARCH_x86" then Some struct_pt_regs_x86 else None.

(** * Access *)

(** The member of a register structure: its place and size in bytes. *)
Definition reg_place (t : kty) (x : reg) : option (Z * Z) :=
  match x with
  | Reg path None => '(o, u) ← koffset path t; Some (o, ksize u)
  | Reg path (Some (IxNum i)) =>
      '(o, u) ← koffset path t;
      match u with
      | KArr _ v => Some (o + Z.of_nat i * ksize v, ksize v)
      | _ => None
      end
  | _ => None
  end.

(** The value of a register macro in a context; [None] is a program that does not
    compile. *)
Definition read_reg (t : kty) (x : reg) (ctx : list Z) : option Z :=
  match x with
  | constant_zero => Some 0
  | _ => '(o, n) ← reg_place t x; Some (le_value (take (Z.to_nat n) (drop (Z.to_nat o) ctx)))
  end.
