(* ===== verification/Probes.v ===== *)
(** The two small probes: pkg/ebpf/cpu/kprobe/kprobe.c, which counts the calls of
    sys_execve, and pkg/ebpf/uprobe/uretprobe.c, which reports what bash's
    readline returns. *)
From S2P Require Import Prelude Prog BpfMap.
Open Scope Z_scope.
Open Scope bpf_scope.

(** * kprobe.c *)

Section Kprobe.
Context {BM : BpfMaps}.

Record kp_state := { kprobe_map : bmap Z Z }.

#[export] Instance eta_kp_state : Eta kp_state := fun r => {| kprobe_map := kprobe_map r |}.

(** An array of one entry: the entry exists from the start and holds 0. *)
Definition kp_init : kp_state := {|
  kprobe_map := (bm_update (bm_create 1) 0 0 BPF_ANY).2 |}.

Definition l_kprobe : lens kp_state (bmap Z Z) :=
  Lens kprobe_map (fun m s => s <| kprobe_map := m |>).

(** [kprobe_execve], at kprobe/sys_execve *)
Definition kprobe_execve : prog kp_state Z :=
  let key := 0 in
  let initval := 1 in
  valp <- map_lookup l_kprobe key ;;
  match valp with
  | None => map_update l_kprobe key initval BPF_ANY ;;; Ret 0
  | Some _ => fetch_and_add l_kprobe key (fun v => u64 (v + 1)) ;;; Ret 0
  end.
End Kprobe.

(** * uretprobe.c *)

Record event := {
  ev_pid : Z;
  ev_tgid : Z;
  ev_ts : Z;
  ev_comm : list Z;
  ev_line : list Z
}.

Definition LINE_SIZE : nat := 80.

(** [events] *)
Record up_state := { events : list event }.

Definition l_events : lens up_state (list event) :=
  Lens events (fun m _ => {| events := m |}).

(** [uretprobe_bash_readline], at uretprobe/bash_readline: [rc] is the value
    readline returns and [user_bytes] is what the probe reads at an address. *)
Definition uretprobe_bash_readline (rc : Z) (user_bytes : Z -> nat -> list Z) (e : bpf_env)
    : prog up_state Z :=
  let event := {|
    ev_pid := u32 (current_pid_tgid e);
    ev_tgid := u32 (hi32 (current_pid_tgid e));
    ev_ts := ktime_ns e;
    ev_line := user_bytes rc LINE_SIZE;
    ev_comm := current_comm e |} in
  perf_event_output l_events event ;;;
  Ret 0.

(** * Properties *)

Section KprobeCount.
Context {BM : BpfMaps} {BL : BpfMapsLaws BM}.

(** The counter is there, and its value. *)
Definition kp_known (s : kp_state) : Prop := is_Some (bm_lookup (kprobe_map s) 0).
Definition kp_count (s : kp_state) : Z := default 0 (bm_lookup (kprobe_map s) 0).

Lemma kp_init_known : kp_known kp_init /\ kp_count kp_init = 0.
Proof.
  assert (H : bm_lookup (kprobe_map kp_init) 0 = Some 0).
  { apply bm_update_ok_eq, bm_update_room; [by left | apply bm_lookup_create|].
    rewrite bm_max_create, bm_dom_create, size_empty. lia. }
  unfold kp_known, kp_count. rewrite H. split; [by eexists | done].
Qed.

Lemma kprobe_execve_adds : adds kp_known kp_count (2 ^ 64) kprobe_execve 1.
Proof.
  unfold kprobe_execve. apply adds_get_bind. intros s [v Hv]. cbn [l_kprobe lget]. rewrite Hv.
  apply (adds_bind _ _ _ _ _ 1 0); [|done]. apply adds_put. intros s' [v' Hv'].
  unfold kp_known, kp_count. cbn. rewrite bm_store_eq, Hv'. cbn.
  split; [by eexists|]. apply (uN_uN 64). lia.
Qed.

(** However many executions of the probe interleave on different CPUs, none is
    lost: the counter holds their number modulo 2^64. *)
Lemma kprobe_counts_all n s' :
  pool_runs (replicate n kprobe_execve) kp_init s' ->
  bm_lookup (kprobe_map s') 0 <> None /\ kp_count s' mod 2 ^ 64 = Z.of_nat n mod 2 ^ 64.
Proof.
  intros Hrun. destruct kp_init_known as [Hk Hc].
  destruct (pool_runs_adds kp_known kp_count (2 ^ 64) _ _ _ (replicate n 1) Hrun Hk) as [Hk' Hc'].
  { apply Forall2_replicate, kprobe_execve_adds. }
  split; [intros E; destruct Hk' as [v Hv]; congruence|].
  rewrite Hc', Hc. f_equal. clear. induction n as [|n IH]; [done|].
  cbn [replicate]. rewrite sumZ_cons. unfold id at 1. lia.
Qed.
End KprobeCount.

Lemma kprobe_counts_all_witness :
  kp_count (run_schedule [0; 1; 1; 0; 2; 2]%nat (replicate 3 kprobe_execve) kp_init).2 mod 2 ^ 64 = 3.
Proof.
  refine (proj2 (kprobe_counts_all 3 _ _)).
  apply run_schedule_pool_runs. vm_compute. repeat constructor.
Defined.
