(* ===== verification/Kernel.v ===== *)
(** What the probes see of the kernel: their context and the objects behind the
    pointers in it.

    The models of the hooks ([OffCpu], [CacheStat], [Probes]) take the arguments of
    the probed function and the members of the objects.  This file gets them the
    way the programs do: PT_REGS_PARMn_CORE on the saved registers
    ([Tracing]), BPF_CORE_READ and bpf_probe_read on the kernel's memory
    ([KernelTypes]).  A [kernel] is the types of the kernel the program runs on;
    those of the two headers are instances. *)
From stdpp Require Import strings.
From S2P Require Import Prelude KernelTypes Vmlinux518 Vmlinux510.
From S2P Require Import Prog BpfMap Layout Tracing CacheStat OffCpu Probes.
Open Scope Z_scope.
Open Scope bpf_scope.

(** * Kernels *)

Record kernel := {
  k_task_struct : kty;
  k_file : kty;
  k_dentry : kty;
  k_qstr : kty;
  k_perf_event : kty;
  k_pt_regs : kty;
  k_user_pt_regs : option kty
}.

Definition linux_518 : kernel := {|
  k_task_struct := Vmlinux518.struct_task_struct;
  k_file := Vmlinux518.struct_file;
  k_dentry := Vmlinux518.struct_dentry;
  k_qstr := Vmlinux518.struct_qstr;
  k_perf_event := Vmlinux518.struct_perf_event;
  k_pt_regs := Vmlinux518.struct_pt_regs;
  k_user_pt_regs := None |}.

Definition linux_510 : kernel := {|
  k_task_struct := Vmlinux510.struct_task_struct;
  k_file := Vmlinux510.struct_file;
  k_dentry := Vmlinux510.struct_dentry;
  k_qstr := Vmlinux510.struct_qstr;
  k_perf_event := Vmlinux510.struct_perf_event;
  k_pt_regs := Vmlinux510.struct_pt_regs;
  k_user_pt_regs := Some Vmlinux510.struct_user_pt_regs |}.

(** * The registers *)

(** The type under which the register macros look at a context. *)
Definition regs_type (k : kernel) (m : pt_macros) : option kty :=
  match pt_regs_cast m with
  | None => Some (k_pt_regs k)
  | Some name =>
      if bool_decide (name = "struct user_pt_regs"%string) then k_user_pt_regs k else None
  end.

(** PT_REGS_PARM1_CORE to PT_REGS_PARM8_CORE; [None] does not compile. *)
Definition PT_REGS_PARM_CORE (d : cpp_env) (k : kernel) (n : nat) (ctx : list Z) : option Z :=
  t ← target_of d;
  u ← regs_type k (target_macros d t);
  read_reg u (PT_REGS_PARM (target_macros d t) n) ctx.

(** PT_REGS_RC of the older header, with the register structure of common.h *)
Definition PT_REGS_RC_061 (d : cpp_env) (ctx : list Z) : option Z :=
  t ← target_of_061 d;
  m ← target_macros_061 d false t;
  u ← pt_regs_of_061 d;
  read_reg u (rc_reg m) ctx.

(** * Tasks *)

(** What the hooks of the off-CPU profiler read of the task at [p]: the reads of
    both flavours of the state are as wide as the [long] the program declares. *)
Definition read_task (k : kernel) (mem : kmem) (p : Z) : task_struct :=
  let int path n := le_value (core_read mem (k_task_struct k) path n p) in {|
    tk_pid := int ["pid"%string] 4%nat;
    tk_tgid := int ["tgid"%string] 4%nat;
    tk_on_rq := int ["on_rq"%string] 4%nat;
    tk___state := int ["__state"%string] 8%nat;
    tk_state := int ["state"%string] 8%nat;
    tk_prio := int ["prio"%string] 4%nat;
    tk_comm := core_read mem (k_task_struct k) ["comm"%string] TASK_COMM_LEN p;
    tk_run_delay := int ["sched_info"; "run_delay"]%string 8%nat |}.

(** [bpf_core_field_exists(t_new->__state)] *)
Definition has___state (k : kernel) : bool := core_field_exists (k_task_struct k) "__state".

(** * The programs with their contexts *)

Section Entries.
Context {BM : BpfMaps} (d : cpp_env) (k : kernel) (mem : kmem).

(** [try_to_wake_up_hook] *)
Definition try_to_wake_up_entry (ctx : list Z) (e : bpf_env) : option (prog of_state Z) :=
  p ← PT_REGS_PARM_CORE d k 1 ctx;
  state ← PT_REGS_PARM_CORE d k 2 ctx;
  Some (try_to_wake_up_hook (has___state k) (read_task k mem p) state e).

(** [sched_switch_hook]; [cur] is the result of [bpf_get_current_task]. *)
Definition sched_switch_entry (ctx : list Z) (cur : Z) (e : bpf_env) : option (prog of_state Z) :=
  p ← PT_REGS_PARM_CORE d k 1 ctx;
  Some (sched_switch_hook (read_task k mem p) (read_task k mem cur) e).

(** [BPF_CORE_READ(f, f_path.dentry)], [BPF_CORE_READ(de, d_name).name] and
    [bpf_core_read] of the name.  [qstr] is the structure the program was compiled
    with, whose member [name] it looks at in its copy. *)
Definition vfs_of_mem (qstr : kty) : vfs_mem := {|
  file_dentry f := le_value (core_read mem (k_file k) ["f_path"; "dentry"]%string 8 f);
  dentry_name de :=
    default 0 (typed_value qstr ["name"%string]
      (core_read mem (k_dentry k) ["d_name"%string] (Z.to_nat (ksize qstr)) de));
  kernel_bytes := mem |}.

(** [vfs_write_hook] and [vfs_read_hook] *)
Definition vfs_write_entry (qstr : kty) (ctx : list Z) (e : bpf_env) : option (prog cs_state Z) :=
  f ← PT_REGS_PARM_CORE d k 1 ctx;
  count ← PT_REGS_PARM_CORE d k 3 ctx;
  Some (vfs_write_hook {| parm1 := f; parm3 := count |} (vfs_of_mem qstr) e).
Definition vfs_read_entry (qstr : kty) (ctx : list Z) (e : bpf_env) : option (prog cs_state Z) :=
  f ← PT_REGS_PARM_CORE d k 1 ctx;
  count ← PT_REGS_PARM_CORE d k 3 ctx;
  Some (vfs_read_hook {| parm1 := f; parm3 := count |} (vfs_of_mem qstr) e).
End Entries.

(** [uretprobe_bash_readline] *)
Definition uretprobe_entry (d : cpp_env) (user_bytes : Z -> nat -> list Z) (ctx : list Z)
    (e : bpf_env) : option (prog up_state Z) :=
  rc ← PT_REGS_RC_061 d ctx;
  Some (uretprobe_bash_readline rc user_bytes e).
