(* ===== verification/KernelSpec.v ===== *)
(** Properties of [Kernel]: on the two targets of the Makefile the programs find
    the arguments of the calling convention in their context, and the members of
    the kernel's objects behind them. *)
From stdpp Require Import strings.
From S2P Require Import Prelude Prog BpfMap Layout KernelTypes Tracing CacheStat OffCpu Probes Kernel.
Open Scope Z_scope.
Open Scope bpf_scope.
Open Scope list_scope.

(** * Calling conventions *)

(** The registers of a 64-bit x86 machine, in the order in which the kernel's entry
    code leaves them in memory. *)
Record amd64_regs := {
  r15 : Z; r14 : Z; r13 : Z; r12 : Z; rbp : Z; rbx : Z; r11 : Z; r10 : Z; r9 : Z; r8 : Z;
  rax : Z; rcx : Z; rdx : Z; rsi : Z; rdi : Z; orig_rax : Z; rip : Z; cs : Z; rflags : Z;
  rsp : Z; ss : Z
}.

Definition amd64_words (r : amd64_regs) : list Z :=
  [r15 r; r14 r; r13 r; r12 r; rbp r; rbx r; r11 r; r10 r; r9 r; r8 r; rax r; rcx r; rdx r;
   rsi r; rdi r; orig_rax r; rip r; cs r; rflags r; rsp r; ss r].

(** System V: the first six integer arguments. *)
Definition amd64_args (r : amd64_regs) : list Z := [rdi r; rsi r; rdx r; rcx r; r8 r; r9 r].

(** AAPCS64: x0 to x7. *)
Definition aarch64_args (x : list Z) : list Z := take 8 x.

(** The bytes of 64-bit words. *)
Definition words (ws : list Z) : list Z := pack (replicate (length ws) 8%nat) ws.

(** The compiler is called for the target [arch] alone. *)
Definition builds_for (d : cpp_env) (arch : string) : Prop :=
  forall a, defined d ("__TARGET_ARCH_" ++ a)%string = bool_decide (a = arch).

(** The context holds the arguments [args]. *)
Definition sees_args (d : cpp_env) (k : kernel) (ctx args : list Z) : Prop :=
  forall i a, args !! i = Some a -> PT_REGS_PARM_CORE d k (S i) ctx = Some a.

(** * Words *)

Lemma drop_words ws rest i :
  (i <= length ws)%nat -> drop (8 * i) (words ws ++ rest) = words (drop i ws) ++ rest.
Proof.
  revert i. induction ws as [|w ws IH]; intros [|i] Hi; try done; [cbn in Hi; lia|].
  replace (8 * S i)%nat with (8 + 8 * i)%nat by lia. unfold words in *. cbn [length replicate pack].
  rewrite <- drop_drop, <- app_assoc, drop_app_length' by by rewrite length_le_bytes.
  apply IH. cbn in Hi. lia.
Qed.

Lemma read_word ws rest i a :
  ws !! i = Some a -> is_u64 a ->
  le_value (take 8 (drop (8 * i) (words ws ++ rest))) = a.
Proof.
  intros Hi Ha. rewrite drop_words by (apply lookup_lt_Some in Hi; lia).
  rewrite (drop_S _ _ _ Hi). unfold words. cbn [length replicate pack].
  rewrite <- app_assoc, take_app_length' by by rewrite length_le_bytes.
  by apply (le_value_bytes 8).
Qed.

(** A register macro for the word [i] of a context. *)
Lemma read_reg_word t x ws rest i a :
  reg_place t x = Some (8 * Z.of_nat i, 8) -> ws !! i = Some a -> is_u64 a ->
  read_reg t x (words ws ++ rest) = Some a.
Proof.
  intros Hp Hi Ha. unfold read_reg.
  destruct x as [path ix | |]; [|done..]. rewrite Hp. cbn -[le_value take].
  change (Pos.to_nat 8) with 8%nat.
  replace (Z.to_nat (8 * Z.of_nat i)) with (8 * i)%nat by lia. by rewrite (read_word _ _ _ a).
Qed.

Lemma builds_for_defined d arch a macro :
  builds_for d arch -> ("__TARGET_ARCH_" ++ a)%string = macro ->
  defined d macro = bool_decide (a = arch).
Proof. intros Hd <-. apply Hd. Qed.

Lemma target_of_x86 d : builds_for d "x86" -> target_of d = Some bpf_target_x86.
Proof.
  intros Hd. unfold target_of, target_arch.
  by rewrite (builds_for_defined d _ "x86" "__TARGET_ARCH_x86" Hd eq_refl).
Qed.

Lemma target_of_arm64 d : builds_for d "arm64" -> target_of d = Some bpf_target_arm64.
Proof.
  intros Hd. unfold target_of, target_arch.
  rewrite (builds_for_defined d _ "x86" "__TARGET_ARCH_x86" Hd eq_refl), (builds_for_defined d _ "s390" "__TARGET_ARCH_s390" Hd eq_refl),
    (builds_for_defined d _ "arm" "__TARGET_ARCH_arm" Hd eq_refl).
  by rewrite (builds_for_defined d _ "arm64" "__TARGET_ARCH_arm64" Hd eq_refl).
Qed.

Lemma sees_args_amd64 d r rest :
  builds_for d "x86" -> defined d "__VMLINUX_H__" = true -> Forall is_u64 (amd64_words r) ->
  sees_args d linux_518 (words (amd64_words r) ++ rest) (amd64_args r).
Proof.
  intros Hd Hv Hr i a Hi. unfold PT_REGS_PARM_CORE. rewrite (target_of_x86 d Hd).
  unfold target_macros. rewrite Hv, orb_true_r. cbn [mbind option_bind].
  assert (Hw : forall x j, reg_place (k_pt_regs linux_518) x = Some (8 * Z.of_nat j, 8) ->
    amd64_words r !! j = Some a ->
    read_reg (k_pt_regs linux_518) x (words (amd64_words r) ++ rest) = Some a).
  { intros x j Hx Hj. apply (read_reg_word _ _ _ _ j); [done | done |].
    by apply (Forall_lookup_1 _ _ _ _ Hr Hj). }
  destruct i as [|[|[|[|[|[|i]]]]]]; cbn in Hi; simplify_eq;
    [apply (Hw _ 14%nat) | apply (Hw _ 13%nat) | apply (Hw _ 12%nat) | apply (Hw _ 11%nat)
    | apply (Hw _ 9%nat) | apply (Hw _ 8%nat)]; (vm_compute; reflexivity) || reflexivity.
Qed.

Lemma sees_args_aarch64 d x tail :
  builds_for d "arm64" -> length x = 31%nat -> Forall is_u64 x ->
  sees_args d linux_510 (words x ++ tail) (aarch64_args x).
Proof.
  intros Hd Hx Hr i a Hi. unfold PT_REGS_PARM_CORE. rewrite (target_of_arm64 d Hd).
  unfold aarch64_args in Hi. apply lookup_take_Some in Hi as [Hi Hi8].
  cbn [mbind option_bind target_macros].
  change (regs_type linux_510 arm64_macros) with (Some Vmlinux510.struct_user_pt_regs).
  cbn [mbind option_bind].
  assert (Ha : is_u64 a) by by apply (Forall_lookup_1 _ _ _ _ Hr Hi).
  apply (read_reg_word _ _ _ _ i); [|done..]. clear -Hi8.
  do 8 (destruct i as [|i]; [vm_compute; reflexivity|]). lia.
Qed.

(** * Objects *)

(** The members the hooks of the off-CPU profiler use exist in the kernel's
    [task_struct] with the sizes the program has for them; one of the two flavours
    of the state is there, as an [int] or a [long], and 8 bytes from it on are
    still inside the task. *)
Definition state_name (k : kernel) : string := if has___state k then "__state" else "state".
Definition state_ok (t : kty) (name : string) : bool :=
  match koffset [name] t with
  | Some (o, u) =>
      (0 <=? o) && (4 <=? ksize u) && (ksize u <=? 8) && (o + 8 <=? ksize t)
  | None => false
  end.
Definition tasks_ok (k : kernel) : bool :=
  let t := k_task_struct k in
  member_ok t ["pid"%string] 4 && member_ok t ["tgid"%string] 4 &&
  member_ok t ["on_rq"%string] 4 && member_ok t ["prio"%string] 4 &&
  member_ok t ["comm"%string] TASK_COMM_LEN &&
  member_ok t ["sched_info"; "run_delay"]%string 8 && state_ok t (state_name k).

Lemma tasks_ok_518 : tasks_ok linux_518 = true /\ has___state linux_518 = true.
Proof. vm_compute. done. Qed.

Lemma tasks_ok_510 : tasks_ok linux_510 = true /\ has___state linux_510 = false.
Proof. vm_compute. done. Qed.

(** The bytes of a task. *)
Definition task_image (k : kernel) (img : list Z) : Prop :=
  Z.of_nat (length img) = ksize (k_task_struct k) /\ Forall (fun b => 0 <= b < 256) img.

(** The members of a task with the sizes of the kernel's type. *)
Definition task_of (k : kernel) (img : list Z) : task_struct :=
  let value path := default 0 (typed_value (k_task_struct k) path img) in {|
    tk_pid := value ["pid"%string];
    tk_tgid := value ["tgid"%string];
    tk_on_rq := value ["on_rq"%string];
    tk___state := value ["__state"%string];
    tk_state := value ["state"%string];
    tk_prio := value ["prio"%string];
    tk_comm := default [] (typed_bytes (k_task_struct k) ["comm"%string] img);
    tk_run_delay := value ["sched_info"; "run_delay"]%string |}.

Section Tasks.
Context (k : kernel) (mem : kmem) (p : Z) (img : list Z).
Context (Hok : tasks_ok k = true) (Himg : task_image k img) (Hobj : object_at mem p img).

Lemma read_int path n :
  member_ok (k_task_struct k) path n = true ->
  le_value (core_read mem (k_task_struct k) path n p) =
  default 0 (typed_value (k_task_struct k) path img).
Proof.
  intros Hm. unfold typed_value. by rewrite (core_read_member _ _ _ _ _ _ Hm Hobj (proj1 Himg)).
Qed.

Lemma s32_le_take bs :
  Forall (fun b => 0 <= b < 256) bs -> s32 (le_value bs) = s32 (le_value (take 4 bs)).
Proof.
  intros Hb. rewrite <- (sN_uN 32 ltac:(lia) (le_value bs)), <- (sN_uN 32 ltac:(lia) (le_value (take _ _))).
  f_equal. by apply (le_value_take 4).
Qed.

(** The state is read as a [long]; only its lower half counts. *)
Lemma read_state name :
  state_ok (k_task_struct k) name = true ->
  s32 (le_value (core_read mem (k_task_struct k) [name] 8 p)) =
  s32 (default 0 (typed_value (k_task_struct k) [name] img)).
Proof.
  destruct Himg as [Hlen Hb]. unfold state_ok, typed_value, typed_bytes, core_read. intros Hs.
  destruct (koffset [name] (k_task_struct k)) as [[o u]|]; [|done].
  cbn [mbind option_bind fmap option_fmap option_map default]. zbool.
  rewrite (Hobj o 8%nat) by lia.
  assert (Hd : Forall (fun b => 0 <= b < 256) (drop (Z.to_nat o) img)) by by apply Forall_drop.
  rewrite s32_le_take by by apply Forall_take. unfold id.
  rewrite (s32_le_take (take (Z.to_nat _) _)) by by apply Forall_take.
  rewrite !take_take. do 3 f_equal. lia.
Qed.

#[local] Arguments typed_bytes : simpl never.
#[local] Arguments typed_value : simpl never.
#[local] Arguments core_read : simpl never.
#[local] Arguments has___state : simpl never.

Lemma read_task_members :
  let t := read_task k mem p in
  let t' := task_of k img in
  tk_pid t = tk_pid t' /\ tk_tgid t = tk_tgid t' /\ tk_on_rq t = tk_on_rq t' /\
  tk_prio t = tk_prio t' /\ tk_comm t = tk_comm t' /\ tk_run_delay t = tk_run_delay t' /\
  get_task_state (has___state k) t = get_task_state (has___state k) t'.
Proof.
  pose proof Hok as H. unfold tasks_ok in H. zbool. cbn.
  repeat split; try by apply read_int.
  - by rewrite (core_read_member _ _ _ TASK_COMM_LEN p _ ltac:(done) Hobj (proj1 Himg)).
  - unfold get_task_state, state_name in *. destruct (has___state k); by apply read_state.
Qed.
End Tasks.

Section Hooks.
Context {BM : BpfMaps}.

(** The hooks use nothing else of a task. *)
Lemma try_to_wake_up_hook_ext b t t' parm2 e :
  tk_pid t = tk_pid t' -> tk_tgid t = tk_tgid t' -> tk_on_rq t = tk_on_rq t' ->
  tk_comm t = tk_comm t' -> get_task_state b t = get_task_state b t' ->
  try_to_wake_up_hook b t parm2 e = try_to_wake_up_hook b t' parm2 e.
Proof.
  intros H1 H2 H3 H4 H5. unfold try_to_wake_up_hook, wake_event. by rewrite H1, H2, H3, H4, H5.
Qed.

Lemma sched_switch_hook_ext t t' c c' e :
  tk_pid t = tk_pid t' -> tk_tgid t = tk_tgid t' -> tk_prio t = tk_prio t' ->
  tk_comm t = tk_comm t' -> tk_run_delay t = tk_run_delay t' ->
  tk_pid c = tk_pid c' -> tk_tgid c = tk_tgid c' -> tk_run_delay c = tk_run_delay c' ->
  sched_switch_hook t c e = sched_switch_hook t' c' e.
Proof.
  intros H1 H2 H3 H4 H5 H6 H7 H8.
  unfold sched_switch_hook, sched_cache_update, record_prev, update_new_task_info, new_task_event,
    record_current, output_event.
  by rewrite H1, H2, H3, H4, H5, H6, H7, H8.
Qed.

(** C25: on a kernel whose [task_struct] has the members with the program's sizes,
    the two hooks of the off-CPU profiler run on exactly the tasks that are in
    memory at the addresses the probed function was given, the state included,
    which 5.18 has as an [int] and the program reads as a [long]; both kernels of
    the headers are such. *)
Theorem hooks_see_tasks d k mem ctx args e p cur img img_cur :
  tasks_ok k = true -> sees_args d k ctx args -> args !! 0%nat = Some p ->
  task_image k img -> object_at mem p img ->
  task_image k img_cur -> object_at mem cur img_cur ->
  (forall state, args !! 1%nat = Some state ->
    try_to_wake_up_entry d k mem ctx e =
      Some (try_to_wake_up_hook (has___state k) (task_of k img) state e)) /\
  sched_switch_entry d k mem ctx cur e =
    Some (sched_switch_hook (task_of k img) (task_of k img_cur) e).
Proof.
  intros Hok Hargs Hp Himg Hobj Hc Hoc.
  destruct (read_task_members k mem p img Hok Himg Hobj) as (E1 & E2 & E3 & E4 & E5 & E6 & E7).
  destruct (read_task_members k mem cur img_cur Hok Hc Hoc) as (C1 & C2 & C3 & C4 & C5 & C6 & C7).
  apply (Hargs 0%nat) in Hp. split.
  - intros state Hs. apply (Hargs 1%nat) in Hs. unfold try_to_wake_up_entry. rewrite Hp, Hs.
    cbn [mbind option_bind]. f_equal. by apply try_to_wake_up_hook_ext.
  - unfold sched_switch_entry. rewrite Hp. cbn [mbind option_bind]. f_equal.
    by apply sched_switch_hook_ext.
Qed.
End Hooks.

(** * Files *)

(** The members the page-cache hooks use exist: the pointer to the dentry, and in
    the dentry a name that is laid out as in the structure [qstr] the program was
    compiled with. *)
Definition files_ok (k : kernel) (qstr : kty) : bool :=
  member_ok (k_file k) ["f_path"; "dentry"]%string 8 &&
  match kfind "d_name" (k_dentry k), koffset ["name"%string] qstr with
  | Some (bit, u), Some (o, v) =>
      (0 <=? bit) && (bit / 8 + ksize qstr <=? ksize (k_dentry k)) &&
      (0 <=? o) && (0 <=? ksize v) && (o + ksize v <=? ksize qstr) &&
      match koffset ["name"%string] u with
      | Some (o', v') => (o' =? o) && (ksize v' =? ksize v)
      | None => false
      end
  | _, _ => false
  end.

Lemma files_ok_518 : files_ok linux_518 (k_qstr linux_518) = true.
Proof. vm_compute. done. Qed.

Lemma files_ok_510 : files_ok linux_510 (k_qstr linux_510) = true.
Proof. vm_compute. done. Qed.

(** The name inside the copy of the [qstr] is the name inside the dentry. *)
Lemma read_name k qstr mem de img :
  files_ok k qstr = true -> Z.of_nat (length img) = ksize (k_dentry k) -> object_at mem de img ->
  typed_value qstr ["name"%string]
    (core_read mem (k_dentry k) ["d_name"%string] (Z.to_nat (ksize qstr)) de) =
  typed_value (k_dentry k) ["d_name"; "name"]%string img.
Proof.
  unfold files_ok, typed_value, typed_bytes, core_read. intros H Hlen Hobj.
  apply andb_true_iff in H as [_ H].
  replace (koffset ["d_name"; "name"]%string (k_dentry k)) with
    ('(bit, u) ← kfind "d_name" (k_dentry k);
     '(o, v) ← koffset ["name"%string] u; Some (bit / 8 + o, v)) by done.
  replace (koffset ["d_name"%string] (k_dentry k)) with
    ('(bit, u) ← kfind "d_name" (k_dentry k); Some (bit / 8 + 0, u)) by done.
  destruct (kfind "d_name" (k_dentry k)) as [[bit u]|]; [|done].
  destruct (koffset ["name"%string] qstr) as [[o v]|]; [|done]. cbn [mbind option_bind].
  destruct (koffset ["name"%string] u) as [[o' v']|];
    [|by rewrite andb_false_r in H]. zbool. subst o'.
  assert (0 <= bit / 8) by (apply Z.div_pos; lia).
  cbn [mbind option_bind fmap option_fmap option_map]. do 2 f_equal.
  replace (ksize v') with (ksize v) by lia. rewrite Z.add_0_r, Hobj by lia.
  rewrite skipn_firstn_comm, drop_drop, take_take. f_equal; [lia|]. f_equal. lia.
Qed.

Section Files.
Context {BM : BpfMaps}.

(** A file whose name is at the address [nm]. *)
Definition named (de nm : Z) (mem : kmem) : vfs_mem := {|
  file_dentry _ := de; dentry_name _ := nm; kernel_bytes := mem |}.

Lemma vfs_hooks_ext m de nm f count e :
  file_dentry m f = de -> dentry_name m de = nm ->
  let ctx := {| parm1 := f; parm3 := count |} in
  vfs_write_hook ctx m e = vfs_write_hook ctx (named de nm (kernel_bytes m)) e /\
  vfs_read_hook ctx m e = vfs_read_hook ctx (named de nm (kernel_bytes m)) e.
Proof.
  intros Hde Hnm ctx. unfold vfs_write_hook, vfs_read_hook, new_info, file_field.
  cbn [parm1 parm3 ctx named file_dentry dentry_name kernel_bytes]. by rewrite Hde, Hnm.
Qed.

(** The hooks of the page-cache statistics find the file's name: with a file
    and its dentry in memory at the addresses the probed function and the file
    give, they run with the address of the name that the dentry holds, although
    they look at it in a copy of the structure; both kernels of the headers are
    fit for it. *)
Lemma hooks_see_files d k qstr mem ctx args f x count fimg dimg de nm e :
  files_ok k qstr = true -> sees_args d k ctx args -> args = f :: x :: count :: drop 3 args ->
  Z.of_nat (length fimg) = ksize (k_file k) -> object_at mem f fimg ->
  typed_value (k_file k) ["f_path"; "dentry"]%string fimg = Some de ->
  Z.of_nat (length dimg) = ksize (k_dentry k) -> object_at mem de dimg ->
  typed_value (k_dentry k) ["d_name"; "name"]%string dimg = Some nm ->
  let regs := {| parm1 := f; parm3 := count |} in
  vfs_write_entry d k mem qstr ctx e = Some (vfs_write_hook regs (named de nm mem) e) /\
  vfs_read_entry d k mem qstr ctx e = Some (vfs_read_hook regs (named de nm mem) e).
Proof.
  intros Hok Hargs Ha Hfl Hf Hde Hdl Hd Hnm regs.
  assert (H1 := Hargs 0%nat f ltac:(by rewrite Ha)).
  assert (H3 := Hargs 2%nat count ltac:(by rewrite Ha)).
  destruct (vfs_hooks_ext (vfs_of_mem k mem qstr) de nm f count e) as [Ew Er].
  - pose proof Hok as H. apply andb_true_iff in H as [H _]. cbn [vfs_of_mem file_dentry].
    unfold typed_value in Hde. rewrite (core_read_member _ _ _ _ _ _ H Hf Hfl) in Hde.
    by injection Hde.
  - cbn [vfs_of_mem dentry_name]. by rewrite (read_name _ _ _ _ _ Hok Hdl Hd), Hnm.
  - unfold vfs_write_entry, vfs_read_entry. rewrite H1, H3. cbn [mbind option_bind].
    split; f_equal; [exact Ew | exact Er].
Qed.
End Files.

(** The contexts hold the arguments of the calling convention: on x86 the
    members PT_REGS_PARM1_CORE to PT_REGS_PARM6_CORE name are rdi, rsi, rdx, rcx,
    r8 and r9 as the kernel saved them, on arm64 x0 to x7; and what the uretprobe
    (built against another header and another register structure) takes for the
    result of readline is rax. *)
Lemma probes_see_arguments d r x tail ub e :
  Forall is_u64 (amd64_words r) -> length x = 31%nat -> Forall is_u64 x ->
  (builds_for d "x86" -> defined d "__VMLINUX_H__" = true ->
    sees_args d linux_518 (words (amd64_words r) ++ tail) (amd64_args r)) /\
  (builds_for d "arm64" -> sees_args d linux_510 (words x ++ tail) (aarch64_args x)) /\
  (builds_for d "x86" -> defined d "__VMLINUX_H__" = false -> defined d "__KERNEL__" = false ->
    defined d "__i386__" = false ->
    uretprobe_entry d ub (words (amd64_words r) ++ tail) e =
      Some (uretprobe_bash_readline (rax r) ub e)).
Proof.
  intros Hr Hx Hx64. split; [|split].
  - intros Hd Hv. by apply sees_args_amd64.
  - intros Hd. by apply sees_args_aarch64.
  - intros Hd Hv Hk Hi. unfold uretprobe_entry, PT_REGS_RC_061, target_of_061, target_arch_061,
      target_macros_061, pt_regs_of_061.
    rewrite (builds_for_defined d _ "x86" "__TARGET_ARCH_x86" Hd eq_refl), Hv, Hk, Hi.
    change (bool_decide ("x86"%string = "x86"%string)) with true. cbn [orb mbind option_bind].
    rewrite (read_reg_word _ _ _ _ 10 (rax r)); [done | vm_compute; reflexivity | done |].
    by apply (Forall_lookup_1 _ _ 10%nat _ Hr).
Qed.

(** * Examples *)

(** The Makefile on x86_64 and on aarch64. *)
Definition demo_cpp (arch : string) : cpp_env := {|
  defined m := bool_decide (m = ("__TARGET_ARCH_" ++ arch)%string) || bool_decide (m = "__VMLINUX_H__"%string);
  riscv_xlen := 0 |}.

Lemma demo_cpp_builds arch : builds_for (demo_cpp arch) arch.
Proof.
  intros a. unfold demo_cpp. cbn [defined].
  rewrite orb_comm, (bool_decide_eq_false_2 (_ = "__VMLINUX_H__"%string)) by done. cbn [orb].
  apply bool_decide_ext. split; [by intros [=]; simplify_eq | by intros ->].
Qed.

Definition poke (o : nat) (bs img : list Z) : list Z := take o img ++ bs ++ drop (o + length bs) img.

(** A task with a pid, a state and the padding behind the state. *)
Definition demo_img : list Z :=
  let t := k_task_struct linux_518 in
  let at_ name := match koffset [name] t with Some (o, _) => Z.to_nat o | None => 0%nat end in
  poke (at_ "pid"%string) [42] (poke (at_ "__state"%string) [1; 0; 0; 0; 255; 255]
    (replicate (Z.to_nat (ksize t)) 0)).

Definition demo_mem : kmem := fun a n => take n (drop (Z.to_nat (a - 65536)) demo_img).

Lemma demo_object : object_at demo_mem 65536 demo_img.
Proof. intros o n Ho _. unfold demo_mem. do 3 f_equal. lia. Qed.

Definition demo_regs : amd64_regs := {|
  r15 := 0; r14 := 0; r13 := 0; r12 := 0; rbp := 0; rbx := 0; r11 := 0; r10 := 0; r9 := 0;
  r8 := 0; rax := 77; rcx := 0; rdx := 0; rsi := 3; rdi := 65536; orig_rax := 0; rip := 0;
  cs := 0; rflags := 0; rsp := 0; ss := 0 |}.

Lemma demo_regs_u64 : Forall is_u64 (amd64_words demo_regs).
Proof. repeat (constructor; [by vm_compute|]). constructor. Qed.

Definition demo_env : bpf_env := {|
  current_pid_tgid := 7; current_comm := replicate TASK_COMM_LEN 0; ktime_ns := 5;
  smp_processor_id := 0; stackid := fun _ => 1 |}.

Lemma hooks_see_tasks_witness :
  (try_to_wake_up_entry (demo_cpp "x86") linux_518 demo_mem (words (amd64_words demo_regs)) demo_env =
    Some (try_to_wake_up_hook (has___state linux_518) (task_of linux_518 demo_img) 3 demo_env)) /\
  has___state linux_518 = true /\
  tk_pid (task_of linux_518 demo_img) = 42 /\
  get_task_state true (task_of linux_518 demo_img) = 1 /\
  tk___state (read_task linux_518 demo_mem 65536) = 1 + 65535 * 2 ^ 32.
Proof.
  split; [|vm_compute; done].
  assert (Hi : task_image linux_518 demo_img).
  { split; [vm_compute; reflexivity|]. apply (Forall_impl (fun b => bool_decide (0 <= b < 256))).
    - apply forallb_True. vm_compute. exact I.
    - intros b Hb. by apply bool_decide_unpack in Hb. }
  refine (proj1 (hooks_see_tasks (demo_cpp "x86") linux_518 demo_mem
    (words (amd64_words demo_regs)) (amd64_args demo_regs) demo_env 65536 65536 demo_img demo_img
    (proj1 tasks_ok_518) _ eq_refl Hi demo_object Hi demo_object) 3 eq_refl).
  rewrite <- (app_nil_r (words _)).
  apply sees_args_amd64; [apply demo_cpp_builds | reflexivity | exact demo_regs_u64].
Defined.

Lemma probes_see_arguments_witness :
  PT_REGS_PARM_CORE (demo_cpp "x86") linux_518 1 (words (amd64_words demo_regs) ++ [1; 2]) = Some 65536 /\
  PT_REGS_PARM_CORE (demo_cpp "arm64") linux_510 3 (words (seqZ 100 31) ++ [1; 2]) = Some 102.
Proof.
  assert (Hx : Forall is_u64 (seqZ 100 31)).
  { apply Forall_forall. intros y Hy. apply elem_of_seqZ in Hy. unfold is_uN. lia. }
  split.
  - refine (proj1 (probes_see_arguments (demo_cpp "x86") demo_regs (seqZ 100 31) [1; 2]
      (fun _ _ => []) demo_env demo_regs_u64 eq_refl Hx) (demo_cpp_builds _) eq_refl 0%nat 65536 eq_refl).
  - refine (proj1 (proj2 (probes_see_arguments (demo_cpp "arm64") demo_regs (seqZ 100 31) [1; 2]
      (fun _ _ => []) demo_env demo_regs_u64 eq_refl Hx)) (demo_cpp_builds _) 2%nat 102 eq_refl).
Defined.

(** A file at 65536 whose dentry, at 131072, has its name at 7777. *)
Definition demo_file : list Z :=
  let o := match koffset ["f_path"; "dentry"]%string (k_file linux_510) with
    Some (o, _) => Z.to_nat o | None => 0%nat end in
  poke o (le_bytes 8 131072) (replicate (Z.to_nat (ksize (k_file linux_510))) 0).
Definition demo_dentry : list Z :=
  let o := match koffset ["d_name"; "name"]%string (k_dentry linux_510) with
    Some (o, _) => Z.to_nat o | None => 0%nat end in
  poke o (le_bytes 8 7777) (replicate (Z.to_nat (ksize (k_dentry linux_510))) 0).
Definition demo_files : kmem := fun a n =>
  if a <? 131072 then take n (drop (Z.to_nat (a - 65536)) demo_file)
  else take n (drop (Z.to_nat (a - 131072)) demo_dentry).

Lemma demo_files_file : object_at demo_files 65536 demo_file.
Proof.
  intros o n Ho Hn. unfold demo_files.
  assert (Z.of_nat (length demo_file) < 65536) by (vm_compute; reflexivity).
  destruct (Nat.eq_dec n 0%nat) as [-> | Hn0]; [by destruct (_ <? _)|].
  rewrite (proj2 (Z.ltb_lt _ _)) by lia. do 3 f_equal. lia.
Qed.

Lemma demo_files_dentry : object_at demo_files 131072 demo_dentry.
Proof.
  intros o n Ho Hn. unfold demo_files. rewrite (proj2 (Z.ltb_ge _ _)) by lia.
  do 3 f_equal. lia.
Qed.

Lemma hooks_see_files_witness :
  vfs_read_entry (demo_cpp "arm64") linux_510 demo_files (k_qstr linux_510)
    (words (65536 :: 2 :: 512 :: replicate 28 0) ++ [1; 2]) demo_env =
  Some (vfs_read_hook {| parm1 := 65536; parm3 := 512 |} (named 131072 7777 demo_files) demo_env).
Proof.
  assert (Hargs : sees_args (demo_cpp "arm64") linux_510
    (words (65536 :: 2 :: 512 :: replicate 28 0) ++ [1; 2])
    (aarch64_args (65536 :: 2 :: 512 :: replicate 28 0))).
  { apply sees_args_aarch64; [apply demo_cpp_builds | reflexivity |].
    repeat (constructor; [unfold is_uN; lia|]). constructor. }
  destruct (hooks_see_files _ _ (k_qstr linux_510) demo_files _ _ 65536 2 512 demo_file demo_dentry
    131072 7777 demo_env files_ok_510 Hargs ltac:(reflexivity) ltac:(vm_compute; reflexivity)
    demo_files_file ltac:(vm_compute; reflexivity) ltac:(vm_compute; reflexivity)
    demo_files_dentry ltac:(vm_compute; reflexivity)) as [_ E].
  exact E.
Defined.
