(* ===== verification/Wrappers.v ===== *)
(** How handlers get their parameters: the wrapper macros BPF_PROG, BPF_PROG2,
    BPF_KPROBE, BPF_KRETPROBE and BPF_KSYSCALL of
    pkg/ebpf/headers/bpf/bpf_tracing.h.

    Each declares a program with a raw context and calls the handler with typed
    parameters that it takes from the context; the macros that list them recurse on
    the number of parameters. *)
From stdpp Require Import strings.
From S2P Require Import Prelude Layout KernelTypes Tracing CacheStat OffCpu Probes Kernel KernelSpec.
Open Scope Z_scope.
Open Scope bpf_scope.
Open Scope list_scope.

(** * BPF_PROG *)

(** [___bpf_ctx_cast]: the words [ctx[0]], [ctx[1]], ... for [n] parameters *)
Fixpoint ___bpf_ctx_cast (ctx : list Z) (n : nat) : option (list Z) :=
  match n with
  | O => Some []
  | S n => xs ← ___bpf_ctx_cast ctx n; x ← ctx !! n; Some (xs ++ [x])
  end.

(** * BPF_PROG2 *)

(** [___bpf_treg_cnt(t)]: the words a parameter of [size] bytes takes; other sizes do
    not compile *)
Definition ___bpf_treg_cnt (size : nat) : option Z :=
  match size with
  | 1%nat | 2%nat | 4%nat | 8%nat => Some 1
  | 16%nat => Some 2
  | _ => None
  end.

(** [___bpf_reg_cnt] *)
Fixpoint ___bpf_reg_cnt (sizes : list nat) : option Z :=
  match sizes with
  | [] => Some 0
  | t :: sizes => c ← ___bpf_reg_cnt sizes; d ← ___bpf_treg_cnt t; Some (c + d)
  end.

(** [___bpf_union_arg(t, x, n)]: the bytes of the parameter, which a union takes from
    the words [z] *)
Definition ___bpf_union_arg (size : nat) (ctx : list Z) (n : Z) : option (list Z) :=
  match size with
  | 1%nat | 2%nat | 4%nat | 8%nat => z0 ← ctx !! Z.to_nat n; Some (le_bytes size z0)
  | 16%nat =>
      z0 ← ctx !! Z.to_nat n;
      z1 ← ctx !! Z.to_nat (n + 1);
      Some (le_bytes 8 z0 ++ le_bytes 8 z1)
  | _ => None
  end.

(** [___bpf_ctx_argN(n, t, x, args)]: [n] is the number of words of all parameters *)
Fixpoint ___bpf_ctx_argN (n : Z) (sizes : list nat) (ctx : list Z) : option (list (list Z)) :=
  match sizes with
  | [] => Some []
  | t :: rest =>
      c ← ___bpf_reg_cnt (t :: rest);
      x ← ___bpf_union_arg t ctx (n - c);
      xs ← ___bpf_ctx_argN n rest ctx;
      Some (x :: xs)
  end.

(** [___bpf_ctx_arg(args)] *)
Definition ___bpf_ctx_arg (sizes : list nat) (ctx : list Z) : option (list (list Z)) :=
  n ← ___bpf_reg_cnt sizes; ___bpf_ctx_argN n sizes ctx.

(** * BPF_KPROBE *)

(** [___bpf_kprobe_args]: PT_REGS_PARM1(ctx) and so on, for [n] parameters *)
Fixpoint ___bpf_kprobe_args (d : cpp_env) (k : kernel) (ctx : list Z) (n : nat) : option (list Z) :=
  match n with
  | O => Some []
  | S n => xs ← ___bpf_kprobe_args d k ctx n; x ← PT_REGS_PARM_CORE d k (S n) ctx; Some (xs ++ [x])
  end.

(** [___bpf_kretprobe_args]: nothing, or PT_REGS_RC(ctx) *)
Definition ___bpf_kretprobe_args (d : cpp_env) (k : kernel) (ctx : list Z) (n : nat) : option (list Z) :=
  match n with
  | O => Some []
  | 1%nat =>
      t ← target_of d;
      u ← regs_type k (target_macros d t);
      x ← read_reg u (rc_reg (target_macros d t)) ctx;
      Some [x]
  | _ => None
  end.

(** * BPF_KSYSCALL *)

(** The register macro of the parameter [n] of a system call and the type under which
    it looks: for the first one some targets name a flavour of [struct pt_regs]. *)
Definition syscall_reg (d : cpp_env) (k : kernel) (n : nat) : option (kty * reg) :=
  t ← target_of d;
  let m := target_macros d t in
  u ← (match n, parm1_syscall_cast m with
       | 1%nat, Some _ => Some (k_pt_regs k)
       | _, _ => regs_type k m
       end);
  Some (u, PT_REGS_PARM_SYSCALL m n).

(** A register macro on the structure at the address [p]. *)
Definition read_reg_at (t : kty) (x : reg) (mem : kmem) (p : Z) : option Z :=
  match x with
  | constant_zero => Some 0
  | _ => '(o, n) ← reg_place t x; Some (le_value (mem (p + o) (Z.to_nat n)))
  end.

(** [___bpf_syscall_args]: on [regs], which is the context *)
Fixpoint ___bpf_syscall_args (d : cpp_env) (k : kernel) (regs : list Z) (n : nat) : option (list Z) :=
  match n with
  | O => Some []
  | S n =>
      xs ← ___bpf_syscall_args d k regs n;
      '(u, r) ← syscall_reg d k (S n);
      x ← read_reg u r regs;
      Some (xs ++ [x])
  end.

(** [___bpf_syswrap_args]: with BPF_CORE_READ, on the registers at the address [regs] *)
Fixpoint ___bpf_syswrap_args (d : cpp_env) (k : kernel) (mem : kmem) (regs : Z) (n : nat) : option (list Z) :=
  match n with
  | O => Some []
  | S n =>
      xs ← ___bpf_syswrap_args d k mem regs n;
      '(u, r) ← syscall_reg d k (S n);
      x ← read_reg_at u r mem regs;
      Some (xs ++ [x])
  end.

(** The parameters of a BPF_KSYSCALL handler. *)
Definition BPF_KSYSCALL (d : cpp_env) (k : kernel) (mem : kmem) (LINUX_HAS_SYSCALL_WRAPPER : bool)
    (ctx : list Z) (n : nat) : option (list Z) :=
  if LINUX_HAS_SYSCALL_WRAPPER then
    regs ← PT_REGS_PARM_CORE d k 1 ctx;
    ___bpf_syswrap_args d k mem regs n
  else ___bpf_syscall_args d k ctx n.

(** * Properties *)

Lemma take_snoc_eq {A} (l : list A) n x : l !! n = Some x -> take n l ++ [x] = take (S n) l.
Proof. intros Hx. symmetry. by apply take_S_r. Qed.

(** ** BPF_PROG2 *)

(** The bytes of a parameter and the words the trampoline stores for it; the upper
    bytes of the word of a small parameter are whatever was in the register. *)
Definition stored (bs ws : list Z) : Prop :=
  match length bs, ws with
  | 1%nat, [w] | 2%nat, [w] | 4%nat, [w] | 8%nat, [w] => le_bytes (length bs) w = bs
  | 16%nat, [w0; w1] => le_bytes 8 w0 ++ le_bytes 8 w1 = bs
  | _, _ => False
  end.

(** The five sizes. *)
Lemma stored_sizes bs ws :
  stored bs ws ->
  ((length bs = 1 \/ length bs = 2 \/ length bs = 4 \/ length bs = 8)%nat /\
     exists w, ws = [w] /\ le_bytes (length bs) w = bs) \/
  (length bs = 16%nat /\ exists w0 w1, ws = [w0; w1] /\ le_bytes 8 w0 ++ le_bytes 8 w1 = bs).
Proof.
  unfold stored. generalize (length bs) as n. intros n H.
  do 17 (destruct n as [|n]; [destruct ws as [|w0 [|w1 [|]]]; try done; eauto 10|]). done.
Qed.

Lemma stored_reg_cnt bs ws :
  stored bs ws -> ___bpf_treg_cnt (length bs) = Some (Z.of_nat (length ws)).
Proof.
  intros [([-> | [-> | [-> | ->]]] & w & -> & _) | (-> & w0 & w1 & -> & _)]%stored_sizes; done.
Qed.

Lemma stored_union_arg bs ws pre rest :
  stored bs ws -> ___bpf_union_arg (length bs) (pre ++ ws ++ rest) (Z.of_nat (length pre)) = Some bs.
Proof.
  intros H. assert (Hi : forall i w, ws !! i = Some w ->
    (pre ++ ws ++ rest) !! Z.to_nat (Z.of_nat (length pre) + Z.of_nat i) = Some w).
  { intros i w Hw. replace (Z.to_nat _) with (length pre + i)%nat by lia.
    rewrite lookup_app_r by lia. replace (length pre + i - length pre)%nat with i by lia.
    by apply lookup_app_l_Some. }
  unfold ___bpf_union_arg.
  apply stored_sizes in H as [(Hn & w & -> & Hw) | (Hn & w0 & w1 & -> & Hw)].
  - pose proof (Hi 0%nat w eq_refl) as H0. rewrite Z.add_0_r in H0.
    destruct Hn as [Hn | [Hn | [Hn | Hn]]]; rewrite Hn in *; rewrite H0; cbn [mbind option_bind]; by rewrite Hw.
  - pose proof (Hi 0%nat w0 eq_refl) as H0. rewrite Z.add_0_r in H0.
    pose proof (Hi 1%nat w1 eq_refl) as H1. change (Z.of_nat 1) with 1 in H1. rewrite Hn, H0. cbn [mbind option_bind].
    rewrite H1. cbn [mbind option_bind]. by rewrite Hw.
Qed.

Lemma stored_cnt bss wss :
  Forall2 stored bss wss ->
  ___bpf_reg_cnt (length <$> bss) = Some (Z.of_nat (length (mjoin wss))).
Proof.
  induction 1 as [|bs ws bss wss Hb _ IH]; [done|]. cbn [fmap list_fmap ___bpf_reg_cnt].
  rewrite IH, (stored_reg_cnt _ _ Hb). cbn [mbind option_bind]. f_equal.
  change (mjoin (ws :: wss)) with (ws ++ mjoin wss). rewrite length_app. lia.
Qed.

(** BPF_PROG2 unpacks its context as the trampoline packed it: whatever parameters
    of 1, 2, 4, 8 or 16 bytes are stored one after the other, each in one word or
    two, with anything in the unused upper bytes and behind the last one, the handler
    gets every one of them. *)
Lemma prog2_unpacks bss wss rest :
  Forall2 stored bss wss -> ___bpf_ctx_arg (length <$> bss) (mjoin wss ++ rest) = Some bss.
Proof.
  intros H. unfold ___bpf_ctx_arg. rewrite (stored_cnt _ _ H). cbn [mbind option_bind].
  enough (Hpre : forall pre, ___bpf_ctx_argN (Z.of_nat (length (pre ++ mjoin wss))) (length <$> bss)
    (pre ++ mjoin wss ++ rest) = Some bss) by apply (Hpre []).
  induction H as [|bs ws bss wss Hb H IH]; intros pre; [done|].
  change (mjoin (ws :: wss)) with (ws ++ mjoin wss).
  change (length <$> bs :: bss) with (length bs :: (length <$> bss)). cbn [___bpf_ctx_argN].
  change (length bs :: (length <$> bss)) with (length <$> (bs :: bss)).
  rewrite (stored_cnt (bs :: bss) (ws :: wss)) by by constructor. cbn [mbind option_bind].
  change (mjoin (ws :: wss)) with (ws ++ mjoin wss).
  replace (Z.of_nat (length (pre ++ ws ++ mjoin wss)) - Z.of_nat (length (ws ++ mjoin wss)))
    with (Z.of_nat (length pre)) by (rewrite length_app; lia).
  rewrite <- (app_assoc ws), (stored_union_arg _ _ _ _ Hb). cbn [mbind option_bind].
  specialize (IH (pre ++ ws)). rewrite <- !app_assoc in IH. by rewrite IH.
Qed.

(** ** BPF_PROG and BPF_KPROBE *)

Lemma ctx_cast_take ctx n : (n <= length ctx)%nat -> ___bpf_ctx_cast ctx n = Some (take n ctx).
Proof.
  induction n as [|n IH]; intros Hn; [done|]. cbn [___bpf_ctx_cast]. rewrite IH by lia.
  destruct (lookup_lt_is_Some_2 ctx n Hn) as [x Hx]. rewrite Hx. cbn [mbind option_bind].
  by rewrite (take_snoc_eq _ _ _ Hx).
Qed.

Lemma kprobe_args_take d k ctx args n :
  sees_args d k ctx args -> (n <= length args)%nat ->
  ___bpf_kprobe_args d k ctx n = Some (take n args).
Proof.
  intros Hs. induction n as [|n IH]; intros Hn; [done|]. cbn [___bpf_kprobe_args]. rewrite IH by lia.
  destruct (lookup_lt_is_Some_2 args n Hn) as [x Hx]. rewrite (Hs n x Hx). cbn [mbind option_bind].
  by rewrite (take_snoc_eq _ _ _ Hx).
Qed.

(** ** BPF_KSYSCALL *)

(** System calls on amd64 and on arm64: the fourth argument is in r10, the first one
    is saved in orig_x0. *)
Definition amd64_syscall_args (r : amd64_regs) : list Z := [rdi r; rsi r; rdx r; r10 r; r8 r; r9 r].
Definition aarch64_syscall_args (x : list Z) (orig_x0 : Z) : list Z := orig_x0 :: drop 1 (take 6 x).

(** The context [regs] holds the arguments of a system call. *)
Definition sees_syscall_args (d : cpp_env) (k : kernel) (regs args : list Z) : Prop :=
  forall i a, args !! i = Some a -> exists u r,
    syscall_reg d k (S i) = Some (u, r) /\ read_reg u r regs = Some a /\
    (exists o n, reg_place u r = Some (o, n) /\ 0 <= o /\ 0 <= n /\ o + n <= Z.of_nat (length regs)).

Lemma syscall_args_take d k (regs args : list Z) n :
  sees_syscall_args d k regs args -> (n <= length args)%nat ->
  ___bpf_syscall_args d k regs n = Some (take n args).
Proof.
  intros Hs. induction n as [|n IH]; intros Hn; [done|]. cbn [___bpf_syscall_args]. rewrite IH by lia.
  destruct (lookup_lt_is_Some_2 args n Hn) as [x Hx]. destruct (Hs n x Hx) as (u & r & -> & Hr & _).
  cbn [mbind option_bind]. rewrite Hr. cbn [mbind option_bind]. by rewrite (take_snoc_eq _ _ _ Hx).
Qed.

(** Reading the saved registers in memory is reading a context. *)
Lemma read_reg_at_img u r mem p regs o n :
  reg_place u r = Some (o, n) -> 0 <= o -> 0 <= n -> o + n <= Z.of_nat (length regs) ->
  object_at mem p regs -> read_reg_at u r mem p = read_reg u r regs.
Proof.
  intros Hp Ho Hn Hl Hobj. destruct r as [path ix | |]; [|done..]. unfold read_reg_at, read_reg.
  rewrite Hp. cbn [mbind option_bind]. do 2 f_equal. apply Hobj; lia.
Qed.

Lemma syswrap_args_take d k mem p (regs args : list Z) n :
  sees_syscall_args d k regs args -> object_at mem p regs -> (n <= length args)%nat ->
  ___bpf_syswrap_args d k mem p n = Some (take n args).
Proof.
  intros Hs Hobj. induction n as [|n IH]; intros Hn; [done|]. cbn [___bpf_syswrap_args]. rewrite IH by lia.
  destruct (lookup_lt_is_Some_2 args n Hn) as [x Hx].
  destruct (Hs n x Hx) as (u & r & -> & Hr & o & m & Hp & Ho & Hm & Hl).
  cbn [mbind option_bind]. rewrite (read_reg_at_img _ _ _ _ _ _ _ Hp Ho Hm Hl Hobj), Hr.
  cbn [mbind option_bind]. by rewrite (take_snoc_eq _ _ _ Hx).
Qed.

Lemma length_words ws : length (words ws) = (8 * length ws)%nat.
Proof.
  unfold words. induction ws as [|w ws IH]; [done|]. cbn [length replicate pack].
  rewrite length_app, length_le_bytes, IH. lia.
Qed.

Lemma sees_syscall_word d k (ws args : list Z) i a u r j :
  args !! i = Some a -> syscall_reg d k (S i) = Some (u, r) ->
  reg_place u r = Some (8 * Z.of_nat j, 8) -> ws !! j = Some a -> is_u64 a ->
  exists u r, syscall_reg d k (S i) = Some (u, r) /\ read_reg u r (words ws) = Some a /\
    (exists o n, reg_place u r = Some (o, n) /\ 0 <= o /\ 0 <= n /\ o + n <= Z.of_nat (length (words ws))).
Proof.
  intros Hi Hr Hp Hj Ha. exists u, r. split; [done|]. split.
  - rewrite <- (app_nil_r (words ws)). by apply (read_reg_word _ _ _ _ j).
  - exists (8 * Z.of_nat j), 8. rewrite length_words. apply lookup_lt_Some in Hj. split; [done|]. lia.
Qed.

Lemma sees_syscall_amd64 d r :
  builds_for d "x86" -> defined d "__VMLINUX_H__" = true -> Forall is_u64 (amd64_words r) ->
  sees_syscall_args d linux_518 (words (amd64_words r)) (amd64_syscall_args r).
Proof.
  intros Hd Hv Hr i a Hi.
  assert (Hm : syscall_reg d linux_518 (S i) =
    Some (k_pt_regs linux_518, PT_REGS_PARM_SYSCALL x86_kernel_macros (S i))).
  { unfold syscall_reg. rewrite (target_of_x86 d Hd). unfold target_macros. rewrite Hv, orb_true_r.
    cbn [mbind option_bind]. by destruct i. }
  assert (Hw : forall j, reg_place (k_pt_regs linux_518) (PT_REGS_PARM_SYSCALL x86_kernel_macros (S i)) =
      Some (8 * Z.of_nat j, 8) -> amd64_words r !! j = Some a -> exists u q,
    syscall_reg d linux_518 (S i) = Some (u, q) /\ read_reg u q (words (amd64_words r)) = Some a /\
    (exists o n, reg_place u q = Some (o, n) /\ 0 <= o /\ 0 <= n /\
      o + n <= Z.of_nat (length (words (amd64_words r))))).
  { intros j Hp Hj. eapply sees_syscall_word; [done | done | done | done |].
    by apply (Forall_lookup_1 _ _ _ _ Hr Hj). }
  destruct i as [|[|[|[|[|[|i]]]]]]; cbn in Hi; simplify_eq;
    [apply (Hw 14%nat) | apply (Hw 13%nat) | apply (Hw 12%nat) | apply (Hw 7%nat)
    | apply (Hw 9%nat) | apply (Hw 8%nat)]; (vm_compute; reflexivity) || reflexivity.
Qed.

(** The saved registers of arm64: x0 to x30, sp, pc, pstate, orig_x0 and the rest. *)
Lemma sees_syscall_aarch64 d x sp pc pstate orig_x0 rest :
  builds_for d "arm64" -> length x = 31%nat -> Forall is_u64 (orig_x0 :: x) ->
  sees_syscall_args d linux_510 (words (x ++ [sp; pc; pstate; orig_x0] ++ rest))
    (aarch64_syscall_args x orig_x0).
Proof.
  intros Hd Hx Hr i a Hi.
  assert (Ha : is_u64 a).
  { apply Forall_cons in Hr as [Ho Hr]. destruct i as [|i]; [by simplify_eq/=|].
    change (drop 1 (take 6 x) !! i = Some a) in Hi. rewrite lookup_drop in Hi. apply lookup_take_Some in Hi as [Hi _].
    by apply (Forall_lookup_1 _ _ _ _ Hr Hi). }
  destruct i as [|i].
  - cbn in Hi. simplify_eq.
    apply (sees_syscall_word _ _ _ [a] 0%nat a (k_pt_regs linux_510) (Reg ["orig_x0"%string] None) 34%nat);
      [done | | vm_compute; reflexivity | | done].
    + unfold syscall_reg. by rewrite (target_of_arm64 d Hd).
    + by rewrite lookup_app_r, Hx by lia.
  - change (drop 1 (take 6 x) !! i = Some a) in Hi. rewrite lookup_drop in Hi. apply lookup_take_Some in Hi as [Hi Hlt].
    apply (sees_syscall_word _ _ _ (aarch64_syscall_args x orig_x0) (S i) a Vmlinux510.struct_user_pt_regs
      (PT_REGS_PARM_SYSCALL arm64_macros (S (S i))) (S i)); [| | | by apply lookup_app_l_Some | done].
    + change (drop 1 (take 6 x) !! i = Some a). rewrite lookup_drop. apply lookup_take_Some. by split.
    + unfold syscall_reg. by rewrite (target_of_arm64 d Hd).
    + clear -Hlt. do 5 (destruct i as [|i]; [vm_compute; reflexivity|]). lia.
Qed.

(** Handlers see the arguments of what they trace: BPF_PROG those the trampoline
    stored; BPF_KPROBE those of the function, with up to as many parameters as the
    calling convention has registers; BPF_KSYSCALL those of the system call, which
    with a syscall wrapper are in a second register structure that the first
    argument points to. *)
Lemma wrappers_see_arguments d k mem (ctx args sys_args regs : list Z) p n :
  (n <= length ctx -> ___bpf_ctx_cast ctx n = Some (take n ctx))%nat /\
  (sees_args d k ctx args -> (n <= length args)%nat -> ___bpf_kprobe_args d k ctx n = Some (take n args)) /\
  (sees_syscall_args d k ctx sys_args -> (n <= length sys_args)%nat ->
    BPF_KSYSCALL d k mem false ctx n = Some (take n sys_args)) /\
  (sees_args d k ctx args -> args !! 0%nat = Some p -> object_at mem p regs ->
    sees_syscall_args d k regs sys_args -> (n <= length sys_args)%nat ->
    BPF_KSYSCALL d k mem true ctx n = Some (take n sys_args)).
Proof.
  split; [apply ctx_cast_take|]. split; [apply kprobe_args_take|]. split; [apply syscall_args_take|].
  intros Hs Hp Hobj Hsys Hn. unfold BPF_KSYSCALL. rewrite (Hs 0%nat p Hp). cbn [mbind option_bind].
  by eapply syswrap_args_take.
Qed.

(** * Examples *)

(** A [short], a structure of 16 bytes and a pointer. *)
Lemma prog2_unpacks_witness :
  ___bpf_ctx_arg [2; 16; 8]%nat [0xFFFF0000 + 0x0201; 3; 4; 5; 99] =
    Some [[1; 2]; [3; 0; 0; 0; 0; 0; 0; 0; 4; 0; 0; 0; 0; 0; 0; 0]; [5; 0; 0; 0; 0; 0; 0; 0]].
Proof.
  refine (prog2_unpacks [[1; 2]; [3; 0; 0; 0; 0; 0; 0; 0; 4; 0; 0; 0; 0; 0; 0; 0]; [5; 0; 0; 0; 0; 0; 0; 0]]
    [[0xFFFF0000 + 0x0201]; [3; 4]; [5]] [99] _).
  repeat constructor.
Defined.

(** openat on x86 with a syscall wrapper: the argument of the wrapper is 4096. *)
Definition demo_user_regs : amd64_regs := {|
  r15 := 0; r14 := 0; r13 := 0; r12 := 0; rbp := 0; rbx := 0; r11 := 0; r10 := 4; r9 := 0;
  r8 := 0; rax := 77; rcx := 13; rdx := 3; rsi := 2; rdi := 1; orig_rax := 257; rip := 0;
  cs := 0; rflags := 0; rsp := 0; ss := 0 |}.
Definition demo_wrapper_mem : kmem := fun a n =>
  take n (drop (Z.to_nat (a - 65536)) (words (amd64_words demo_user_regs))).

Lemma wrappers_see_arguments_witness :
  BPF_KSYSCALL (demo_cpp "x86") linux_518 demo_wrapper_mem true (words (amd64_words demo_regs)) 4 =
    Some [1; 2; 3; 4].
Proof.
  refine (proj2 (proj2 (proj2 (wrappers_see_arguments (demo_cpp "x86") linux_518 demo_wrapper_mem
    (words (amd64_words demo_regs)) (amd64_args demo_regs) (amd64_syscall_args demo_user_regs)
    (words (amd64_words demo_user_regs)) 65536 4))) _ eq_refl _ _ _).
  - rewrite <- (app_nil_r (words _)).
    apply sees_args_amd64; [apply demo_cpp_builds | reflexivity | exact demo_regs_u64].
  - intros o n Ho _. unfold demo_wrapper_mem. do 3 f_equal. lia.
  - apply sees_syscall_amd64; [apply demo_cpp_builds | reflexivity |].
    repeat (constructor; [unfold is_uN; cbn; lia|]). constructor.
  - cbn. lia.
Defined.
