(* ===== verification/CoreReadSpec.v ===== *)
(** What BPF_CORE_READ and BPF_CORE_READ_BITFIELD read: properties of [CoreRead]. *)
From stdpp Require Import strings.
From S2P Require Import Prelude Layout KernelTypes Vmlinux510 CoreRead Kernel KernelSpec.
Open Scope Z_scope.
Open Scope bpf_scope.

(** * Chains of pointers *)

(** [p] is where the pointers [args] lead to from [src]: each is a member of an
    object in memory and holds the address of the next object. *)
Fixpoint leads_to (mem : kmem) (src : Z) (args : list accessor) (p : Z) : Prop :=
  match args with
  | [] => src = p
  | a :: args => exists img q,
      object_at mem src img /\ Z.of_nat (length img) = ksize (acc_type a) /\
      member_ok (acc_type a) (acc_path a) 8 = true /\
      typed_value (acc_type a) (acc_path a) img = Some q /\ leads_to mem q args p
  end.

(** Reads of mapped memory succeed. *)
Definition reads_memory (fn : read_fn) (mem : kmem) : Prop := forall a n, fn a n = (0, mem a n).

Lemma read_member fn mem n src a img :
  reads_memory fn mem -> member_ok (acc_type a) (acc_path a) n = true -> object_at mem src img ->
  Z.of_nat (length img) = ksize (acc_type a) ->
  typed_bytes (acc_type a) (acc_path a) img = Some (___read fn n src a).2.
Proof.
  intros Hfn Hok Hobj Hlen. rewrite (core_read_member mem _ _ n src img Hok Hobj Hlen).
  unfold core_read, ___read, acc_offset. rewrite Hfn.
  unfold member_ok in Hok. by destruct (koffset (acc_path a) (acc_type a)) as [[o u]|].
Qed.

Lemma leads_to_chase fn mem src args p :
  reads_memory fn mem -> leads_to mem src args p -> chase fn src args = p.
Proof.
  intros Hfn. revert src. induction args as [|a args IH]; intros src; cbn [leads_to chase]; [done|].
  intros (img & q & Hobj & Hlen & Hok & Hq & Hp). apply IH. unfold typed_value in Hq.
  rewrite (read_member fn mem 8 src a img Hfn Hok Hobj Hlen) in Hq. by injection Hq as ->.
Qed.

Lemma removelast_snoc {A} (l : list A) a : removelast (l ++ [a]) = l.
Proof. by rewrite removelast_app, app_nil_r by done. Qed.

(** BPF_CORE_READ(s, a, b, ..., z) and its variants read what s->a->b->...->z
    means: if each member but the last is a pointer to the next object in memory,
    the last read, with the function of the variant, is at exactly the last member
    of the last object; read from the kernel's memory it gives the bytes that the
    type gives this member, and success. *)
Lemma core_read_follows_pointers h mem fn fn_ptr n src args a b bs p img :
  reads_memory fn_ptr mem -> leads_to mem src args p -> b :: bs = args ++ [a] ->
  ___core_read fn fn_ptr n src b bs = fn (p + acc_offset a) n /\
  (reads_memory (bpf_probe_read_kernel h) mem -> object_at mem p img ->
   Z.of_nat (length img) = ksize (acc_type a) -> member_ok (acc_type a) (acc_path a) n = true ->
   (BPF_CORE_READ_INTO h n src b bs).1 = 0 /\
   typed_bytes (acc_type a) (acc_path a) img = Some (BPF_CORE_READ_INTO h n src b bs).2 /\
   typed_value (acc_type a) (acc_path a) img = Some (BPF_CORE_READ h n src b bs)).
Proof.
  intros Hptr Hp Hl.
  assert (Hr : forall fn fn_ptr, reads_memory fn_ptr mem ->
    ___core_read fn fn_ptr n src b bs = ___read fn n p a).
  { intros fn' fn_ptr' Hf. rewrite ___core_read_chase, Hl, removelast_snoc, last_last.
    by rewrite (leads_to_chase fn_ptr' mem src args p). }
  split; [by rewrite (Hr fn fn_ptr)|]. intros Hk Hobj Hlen Hok.
  unfold BPF_CORE_READ, BPF_CORE_READ_INTO, typed_value. rewrite !Hr by done.
  rewrite (read_member _ mem n p a img Hk Hok Hobj Hlen). split; [|done].
  unfold ___read. by rewrite Hk.
Qed.

(** Only the last read of a chain reports an error: when the read of a pointer
    fails -- the helper then leaves zeros -- the macro goes on at the null address,
    and the code it returns is that of the read at the end. *)
Lemma core_read_loses_errors fn fn_ptr n src args1 a args2 z b bs err :
  b :: bs = args1 ++ a :: args2 ++ [z] ->
  ___read fn_ptr 8 (chase fn_ptr src args1) a = (err, replicate 8 0) ->
  ___core_read fn fn_ptr n src b bs = ___read fn n (chase fn_ptr 0 args2) z.
Proof.
  intros Hl Herr. rewrite ___core_read_chase, Hl, app_comm_cons, app_assoc, removelast_snoc, last_last.
  f_equal. clear Hl. revert src Herr. induction args1 as [|c args1 IH]; intros src Herr; cbn [app chase] in *;
    [by rewrite Herr | by apply IH].
Qed.

(** * Bit-fields *)

(** The relocations of a bit-field of [w] bits from bit [bit] of its structure, for
    little-endian memory: the storage has a size that can be loaded and contains
    the field, and the shifts move the field to the top and down again. *)
Record relocates (f : field_relo) (bit w : Z) (sgn : bool) : Prop := {
  rl_size : BYTE_SIZE f = 1 \/ BYTE_SIZE f = 2 \/ BYTE_SIZE f = 4 \/ BYTE_SIZE f = 8;
  rl_offset : 0 <= BYTE_OFFSET f;
  rl_first : 8 * BYTE_OFFSET f <= bit;
  rl_last : bit + w <= 8 * (BYTE_OFFSET f + BYTE_SIZE f);
  rl_width : 0 < w;
  rl_signed : SIGNED f = sgn;
  rl_lshift : LSHIFT_U64 f = 64 - (bit + w - 8 * BYTE_OFFSET f);
  rl_rshift : RSHIFT_U64 f = 64 - w
}.

(** The value of the bit-field in an object with the bytes [img], as a [u64]. *)
Definition bitfield_value (sgn : bool) (bit w : Z) (img : list Z) : Z :=
  if sgn then u64 (sN w (le_value img / 2 ^ bit)) else uN w (le_value img / 2 ^ bit).

(** The bits of a part of an object are the bits of the object. *)
Lemma le_value_bits img (o n : nat) bit w :
  Forall (fun b => 0 <= b < 256) img -> (o + n <= length img)%nat ->
  8 * Z.of_nat o <= bit -> 0 <= w -> bit + w <= 8 * (Z.of_nat o + Z.of_nat n) ->
  uN w (le_value (take n (drop o img)) / 2 ^ (bit - 8 * Z.of_nat o)) = uN w (le_value img / 2 ^ bit).
Proof.
  intros Hb Hlen Hlo Hw Hhi. set (k := bit - 8 * Z.of_nat o).
  assert (Himg : le_value img =
    le_value (take o img) + 2 ^ (8 * Z.of_nat o) *
      (le_value (take n (drop o img)) + 2 ^ (8 * Z.of_nat n) * le_value (drop n (drop o img)))).
  { rewrite <- (take_drop o img) at 1. rewrite le_value_app, length_take_le by lia.
    rewrite <- (take_drop n (drop o img)) at 1. rewrite le_value_app, length_take_le; [done|].
    rewrite length_drop. lia. }
  assert (Ho : 0 <= le_value (take o img) < 2 ^ (8 * Z.of_nat o)).
  { pose proof (le_value_range (take o img) ltac:(by apply Forall_take)) as H. by rewrite length_take_le in H by lia. }
  replace bit with (8 * Z.of_nat o + k) by lia. rewrite Z.pow_add_r, <- Z.div_div by lia.
  rewrite Himg, (Z.mul_comm (2 ^ (8 * Z.of_nat o))), Z.div_add, (Z.div_small _ _ Ho), Z.add_0_l by lia.
  replace (8 * Z.of_nat n) with (k + (8 * Z.of_nat n - k)) by lia. rewrite Z.pow_add_r by lia.
  replace (2 ^ k * 2 ^ (8 * Z.of_nat n - k) * le_value (drop n (drop o img)))
    with (2 ^ (8 * Z.of_nat n - k) * le_value (drop n (drop o img)) * 2 ^ k) by lia.
  rewrite Z.div_add by lia. unfold uN.
  replace (8 * Z.of_nat n - k) with (w + (8 * Z.of_nat n - k - w)) by lia. rewrite Z.pow_add_r by lia.
  rewrite <- Z.mul_assoc, (Z.mul_comm (2 ^ w)), Z.mod_add by lia. done.
Qed.

Lemma shift_out_field f img bit w sgn :
  relocates f bit w sgn -> Forall (fun b => 0 <= b < 256) img ->
  BYTE_OFFSET f + BYTE_SIZE f <= Z.of_nat (length img) ->
  shift_out (SIGNED f) (le_value (take (Z.to_nat (BYTE_SIZE f)) (drop (Z.to_nat (BYTE_OFFSET f)) img)))
    (LSHIFT_U64 f) (RSHIFT_U64 f) = bitfield_value sgn bit w img.
Proof.
  intros [Hs Ho Hf Hl Hw -> -> ->] Hb Hlen. unfold bitfield_value.
  pose proof (le_value_bits img (Z.to_nat (BYTE_OFFSET f)) (Z.to_nat (BYTE_SIZE f)) bit w Hb
    ltac:(lia) ltac:(lia) ltac:(lia) ltac:(lia)) as Hbits. rewrite (Z2Nat.id (BYTE_OFFSET f)) in Hbits by lia.
  destruct sgn; [rewrite shift_out_signed by lia | rewrite shift_out_unsigned by lia];
    replace (64 - w - (64 - (bit + w - 8 * BYTE_OFFSET f))) with (bit - 8 * BYTE_OFFSET f) by lia;
    replace (64 - (64 - w)) with w by lia; [|done].
  rewrite <- (sN_uN w) by lia. rewrite Hbits. by rewrite sN_uN by lia.
Qed.

(** Both macros read a bit-field of an object in memory as its value, signed or
    not, wherever it lies in the storage the loader chose for it. *)
Lemma bitfield_reads read mem s f img bit w sgn :
  relocates f bit w sgn -> object_at mem s img -> Forall (fun b => 0 <= b < 256) img ->
  BYTE_OFFSET f + BYTE_SIZE f <= Z.of_nat (length img) -> reads_memory read mem ->
  BPF_CORE_READ_BITFIELD_PROBED read false s f = bitfield_value sgn bit w img /\
  BPF_CORE_READ_BITFIELD mem false s f = Some (bitfield_value sgn bit w img).
Proof.
  intros Hf Hobj Hb Hlen Hr. pose proof (shift_out_field f img bit w sgn Hf Hb Hlen) as Hv.
  pose proof (rl_offset _ _ _ _ Hf). destruct (rl_size _ _ _ _ Hf) as [Hn | [Hn | [Hn | Hn]]];
    (split; [unfold BPF_CORE_READ_BITFIELD_PROBED; rewrite Hr; cbn [snd];
       rewrite Hobj by lia; exact Hv |
     unfold BPF_CORE_READ_BITFIELD; rewrite Hn in *; cbn -[le_value shift_out];
       rewrite Hobj by lia; f_equal; exact Hv]).
Qed.

(** * The programs' reads *)

(** The single accesses of the programs are the macro's. *)
Lemma core_read_is_BPF_CORE_READ mem t path n p :
  member_ok t path n = true ->
  core_read mem t path n p =
    (BPF_CORE_READ_INTO {| bpf_probe_read_kernel := fun a n => (0, mem a n);
       bpf_probe_read_user := fun a n => (0, mem a n); bpf_probe_read_kernel_str := fun a n => (0, mem a n);
       bpf_probe_read_user_str := fun a n => (0, mem a n) |} n p {| acc_type := t; acc_path := path |} []).2.
Proof.
  unfold member_ok, core_read, BPF_CORE_READ_INTO, ___core_read, ___read, acc_offset. cbn.
  by destruct (koffset path t) as [[o u]|].
Qed.

(** * Examples *)

(** The name of a file: file->f_path.dentry->d_name.name *)
Definition demo_file_acc : accessor :=
  {| acc_type := k_file linux_510; acc_path := ["f_path"; "dentry"]%string |}.
Definition demo_name_acc : accessor :=
  {| acc_type := k_dentry linux_510; acc_path := ["d_name"; "name"]%string |}.
Definition demo_read : read_fn := fun a n => (0, demo_files a n).
Definition demo_reads : bpf_reads := {|
  bpf_probe_read_kernel := demo_read; bpf_probe_read_user := demo_read;
  bpf_probe_read_kernel_str := demo_read; bpf_probe_read_user_str := demo_read |}.

Lemma core_read_follows_pointers_witness :
  Some 7777 = Some (BPF_CORE_READ demo_reads 8 65536 demo_file_acc [demo_name_acc]).
Proof.
  refine (proj2 (proj2 (proj2 (core_read_follows_pointers demo_reads demo_files demo_read demo_read 8 65536
    [demo_file_acc] demo_name_acc demo_file_acc [demo_name_acc] 131072 demo_dentry _ _ eq_refl) _
    demo_files_dentry _ _))).
  - intros a n. reflexivity.
  - exists demo_file, 131072. split; [apply demo_files_file|]. split; [vm_compute; reflexivity|].
    split; [vm_compute; reflexivity|]. split; [vm_compute; reflexivity | reflexivity].
  - intros a n. reflexivity.
  - vm_compute. reflexivity.
  - vm_compute. reflexivity.
Defined.

(** The page of the dentry is not there. *)
Definition demo_missing : read_fn := fun a n =>
  if a <? 4096 then (-14, replicate n 0) else if a <? 131072 then (-14, replicate n 0) else (0, replicate n 1).

Lemma core_read_loses_errors_witness :
  ___core_read demo_missing demo_missing 8 65536 demo_file_acc [demo_name_acc] =
    demo_missing (0 + acc_offset demo_name_acc) 8%nat.
Proof.
  refine (core_read_loses_errors demo_missing demo_missing 8 65536 [] demo_file_acc [] demo_name_acc
    demo_file_acc [demo_name_acc] (-14) eq_refl _).
  unfold ___read, chase, demo_missing. rewrite (proj2 (Z.ltb_ge _ _)), (proj2 (Z.ltb_lt _ _));
    [reflexivity | vm_compute; reflexivity | vm_compute; discriminate].
Defined.

(** Five signed bits from bit 11 on, in two bytes: 11010 is -6. *)
Definition demo_bits : field_relo := {|
  BYTE_OFFSET := 1; BYTE_SIZE := 1; SIGNED := true; LSHIFT_U64 := 56; RSHIFT_U64 := 59 |}.
Definition demo_bits_img : list Z := [255; 0xD7; 255].
Definition demo_bits_mem : kmem := fun a n => take n (drop (Z.to_nat (a - 4096)) demo_bits_img).

Lemma bitfield_reads_witness :
  BPF_CORE_READ_BITFIELD demo_bits_mem false 4096 demo_bits = Some (u64 (-6)).
Proof.
  refine (eq_trans (proj2 (bitfield_reads (fun a n => (0, demo_bits_mem a n)) demo_bits_mem 4096 demo_bits
    demo_bits_img 11 5 true _ _ _ _ _)) _).
  - split; cbn; try lia; auto.
  - intros o n Ho _. unfold demo_bits_mem. do 3 f_equal. lia.
  - repeat (constructor; [lia|]). constructor.
  - cbn. lia.
  - intros a n. reflexivity.
  - vm_compute. reflexivity.
Defined.
