(* ===== verification/Usdt.v ===== *)
(** User-space tracepoints: pkg/ebpf/headers/bpf/usdt.bpf.h.

    The loader describes for every tracepoint where its arguments are (a constant, a
    register, or memory behind a register) in [__bpf_usdt_specs]; [bpf_usdt_arg]
    fetches one of them and extends it to 64 bits. *)
From S2P Require Import Prelude Prog BpfMap CoreRead.
Open Scope Z_scope.
Open Scope bpf_scope.

(** * Data *)

Definition BPF_USDT_MAX_SPEC_CNT : nat := 256.
Definition BPF_USDT_MAX_IP_CNT : nat := 4 * BPF_USDT_MAX_SPEC_CNT.
#[global] Arguments BPF_USDT_MAX_IP_CNT : simpl never.
Definition BPF_USDT_MAX_ARG_CNT : Z := 12.

Definition ENOENT : Z := 2.
Definition ESRCH : Z := 3.
Definition EINVAL : Z := 22.

Definition BPF_USDT_ARG_CONST : Z := 0.
Definition BPF_USDT_ARG_REG : Z := 1.
Definition BPF_USDT_ARG_REG_DEREF : Z := 2.

Record __bpf_usdt_arg_spec := {
  val_off : Z;
  arg_type : Z;
  reg_off : Z;
  arg_signed : bool;
  arg_bitshift : Z
}.

Record __bpf_usdt_spec := {
  spec_args : list __bpf_usdt_arg_spec;
  usdt_cookie : Z;
  arg_cnt : Z
}.

(** The array [args] has BPF_USDT_MAX_ARG_CNT elements; this is what the array map
    holds before the loader writes to it. *)
Definition zero_arg_spec : __bpf_usdt_arg_spec :=
  {| val_off := 0; arg_type := 0; reg_off := 0; arg_signed := false; arg_bitshift := 0 |}.

(** What the functions get from the kernel: whether it has cookies, the cookie of
    the attachment, the instruction pointer in the context, and reads of kernel and
    user memory.  [usdt_ctx] is the address of the context. *)
Record usdt_env := {
  LINUX_HAS_BPF_COOKIE : bool;
  bpf_get_attach_cookie : Z;
  PT_REGS_IP : Z;
  usdt_ctx : Z;
  probe_read_kernel : Z -> Z * Z;
  probe_read_user : Z -> Z * Z;
  big_endian : bool
}.

Section Usdt.
Context {BM : BpfMaps}.

Record us_state := {
  __bpf_usdt_specs : bmap Z __bpf_usdt_spec;
  __bpf_usdt_ip_to_spec_id : bmap Z Z
}.

#[export] Instance eta_us_state : Eta us_state := fun r => {|
  __bpf_usdt_specs := __bpf_usdt_specs r; __bpf_usdt_ip_to_spec_id := __bpf_usdt_ip_to_spec_id r |}.

Definition l_specs : lens us_state (bmap Z __bpf_usdt_spec) :=
  Lens __bpf_usdt_specs (fun m s => s <| __bpf_usdt_specs := m |>).
Definition l_ips : lens us_state (bmap Z Z) :=
  Lens __bpf_usdt_ip_to_spec_id (fun m s => s <| __bpf_usdt_ip_to_spec_id := m |>).

(** [__bpf_usdt_spec_id] *)
Definition __bpf_usdt_spec_id (e : usdt_env) : prog us_state Z :=
  if negb (LINUX_HAS_BPF_COOKIE e) then
    let ip := s64 (PT_REGS_IP e) in
    spec_id_ptr <- map_lookup l_ips ip ;;
    match spec_id_ptr with
    | Some id0 => id <- load l_ips ip id0 id ;; Ret (s32 id)
    | None => Ret (- ESRCH)
    end
  else Ret (s32 (bpf_get_attach_cookie e)).

(** [bpf_usdt_arg_cnt] *)
Definition bpf_usdt_arg_cnt (e : usdt_env) : prog us_state Z :=
  spec_id <- __bpf_usdt_spec_id e ;;
  if spec_id <? 0 then Ret (- ESRCH) else
  spec <- map_lookup l_specs spec_id ;;
  match spec with
  | None => Ret (- ESRCH)
  | Some s0 => load l_specs spec_id s0 arg_cnt
  end.

(** [bpf_usdt_arg]: the value behind an argument's specification, or an error *)
Definition usdt_fetch (e : usdt_env) (a : __bpf_usdt_arg_spec) : Z + Z :=
  if arg_type a =? BPF_USDT_ARG_CONST then inr (val_off a)
  else if arg_type a =? BPF_USDT_ARG_REG then
    let ev := probe_read_kernel e (u64 (usdt_ctx e + reg_off a)) in
    let err := s32 ev.1 in
    if nz err then inl err else inr ev.2
  else if arg_type a =? BPF_USDT_ARG_REG_DEREF then
    let ev := probe_read_kernel e (u64 (usdt_ctx e + reg_off a)) in
    let err := s32 ev.1 in
    if nz err then inl err else
    let ev := probe_read_user e (u64 (ev.2 + val_off a)) in
    let err := s32 ev.1 in
    if nz err then inl err else
    inr (if big_endian e then Z.shiftr ev.2 (arg_bitshift a) else ev.2)
  else inl (- EINVAL).

(** [bpf_usdt_arg]: its result and what it leaves in [*res] *)
Definition bpf_usdt_arg (e : usdt_env) (arg_num : Z) : prog us_state (Z * Z) :=
  spec_id <- __bpf_usdt_spec_id e ;;
  if spec_id <? 0 then Ret (- ESRCH, 0) else
  spec <- map_lookup l_specs spec_id ;;
  match spec with
  | None => Ret (- ESRCH, 0)
  | Some s0 =>
      if BPF_USDT_MAX_ARG_CNT <=? arg_num then Ret (- ENOENT, 0) else
      cnt <- load l_specs spec_id s0 arg_cnt ;;
      if u64 cnt <=? arg_num then Ret (- ENOENT, 0) else
      a <- load l_specs spec_id s0 (fun s => nth (Z.to_nat arg_num) (spec_args s) zero_arg_spec) ;;
      match usdt_fetch e a with
      | inl err => Ret (err, 0)
      | inr val => Ret (0, s64 (shift_out (arg_signed a) val (arg_bitshift a) (arg_bitshift a)))
      end
  end.

(** [bpf_usdt_cookie] *)
Definition bpf_usdt_cookie (e : usdt_env) : prog us_state Z :=
  spec_id <- __bpf_usdt_spec_id e ;;
  if spec_id <? 0 then Ret 0 else
  spec <- map_lookup l_specs spec_id ;;
  match spec with
  | None => Ret 0
  | Some s0 => c <- load l_specs spec_id s0 usdt_cookie ;; Ret (s64 c)
  end.

(** [___bpf_usdt_args]: the arguments, after the context, that BPF_USDT passes to a
    handler with [n] parameters. *)
Fixpoint ___bpf_usdt_args (e : usdt_env) (n : nat) : prog us_state (list Z) :=
  match n with
  | O => Ret []
  | S n =>
      xs <- ___bpf_usdt_args e n ;;
      x <- bpf_usdt_arg e (Z.of_nat n) ;;
      Ret (xs ++ [x.2])
  end.
End Usdt.

(** * Properties *)

Section Spec.
Context {BM : BpfMaps} {BL : BpfMapsLaws BM}.
Implicit Types (e : usdt_env) (s : us_state) (a : __bpf_usdt_arg_spec).

(** The specification of the tracepoint, if it is known. *)
Definition spec_id_of e s : Z :=
  if LINUX_HAS_BPF_COOKIE e then s32 (bpf_get_attach_cookie e)
  else match bm_lookup (__bpf_usdt_ip_to_spec_id s) (s64 (PT_REGS_IP e)) with
       | Some id => s32 id
       | None => - ESRCH
       end.
Definition spec_of e s : option __bpf_usdt_spec :=
  if spec_id_of e s <? 0 then None else bm_lookup (__bpf_usdt_specs s) (spec_id_of e s).

Lemma spec_id_run e s : run (__bpf_usdt_spec_id e) s = (spec_id_of e s, s).
Proof.
  unfold __bpf_usdt_spec_id, spec_id_of. destruct (LINUX_HAS_BPF_COOKIE e); cbn; [done|].
  destruct (bm_lookup _ _) as [i|] eqn:Hi; [|done]. cbn. by rewrite Hi.
Qed.

(** The argument number [i] of a specification is there. *)
Definition arg_of (sp : __bpf_usdt_spec) (i : Z) : option __bpf_usdt_arg_spec :=
  if (BPF_USDT_MAX_ARG_CNT <=? i) || (u64 (arg_cnt sp) <=? i) then None
  else Some (nth (Z.to_nat i) (spec_args sp) zero_arg_spec).

Lemma bpf_usdt_arg_run e s i :
  run (bpf_usdt_arg e i) s =
    (match spec_of e s with
     | None => (- ESRCH, 0)
     | Some sp =>
         match arg_of sp i with
         | None => (- ENOENT, 0)
         | Some a =>
             match usdt_fetch e a with
             | inl err => (err, 0)
             | inr v => (0, s64 (shift_out (arg_signed a) v (arg_bitshift a) (arg_bitshift a)))
             end
         end
     end, s).
Proof.
  unfold bpf_usdt_arg, spec_of, arg_of. rewrite run_bind, spec_id_run. cbn [fst snd].
  destruct (spec_id_of e s <? 0); [done|]. rewrite run_bind. cbn [map_lookup run get act fst snd l_specs lget].
  destruct (bm_lookup _ _) as [sp|] eqn:Hsp; [|done].
  destruct (BPF_USDT_MAX_ARG_CNT <=? i); [done|]. rewrite run_bind. unfold load. rewrite run_get. cbn [fst snd lget l_specs].
  rewrite Hsp. cbn [from_option orb]. unfold id. destruct (u64 (arg_cnt sp) <=? i); [done|].
  rewrite run_bind, run_get. cbn [fst snd lget l_specs]. rewrite Hsp. cbn [from_option]. unfold id.
  by destruct (usdt_fetch e _).
Qed.

(** [v] is what is at the place an argument's specification describes: the constant,
    the register of the context, or the memory behind the register; on a big-endian
    machine the first bytes of the memory are its upper ones. *)
Inductive arg_at e a : Z -> Prop :=
| ArgConst : arg_type a = BPF_USDT_ARG_CONST -> arg_at e a (val_off a)
| ArgReg v :
    arg_type a = BPF_USDT_ARG_REG ->
    probe_read_kernel e (u64 (usdt_ctx e + reg_off a)) = (0, v) -> arg_at e a v
| ArgDeref p v :
    arg_type a = BPF_USDT_ARG_REG_DEREF ->
    probe_read_kernel e (u64 (usdt_ctx e + reg_off a)) = (0, p) ->
    probe_read_user e (u64 (p + val_off a)) = (0, v) ->
    arg_at e a (if big_endian e then v / 2 ^ arg_bitshift a else v).

Lemma usdt_fetch_at e a v : 0 <= arg_bitshift a -> arg_at e a v -> usdt_fetch e a = inr v.
Proof.
  intros Hb [Ht | v' Ht Hv | p v' Ht Hp Hv]; unfold usdt_fetch; rewrite Ht.
  - done.
  - change (BPF_USDT_ARG_REG =? BPF_USDT_ARG_CONST) with false.
    change (BPF_USDT_ARG_REG =? BPF_USDT_ARG_REG) with true.
    cbv beta iota zeta. by rewrite Hv.
  - change (BPF_USDT_ARG_REG_DEREF =? BPF_USDT_ARG_CONST) with false.
    change (BPF_USDT_ARG_REG_DEREF =? BPF_USDT_ARG_REG) with false.
    change (BPF_USDT_ARG_REG_DEREF =? BPF_USDT_ARG_REG_DEREF) with true. cbv beta iota zeta.
    rewrite Hp. cbn [fst snd]. rewrite Hv. cbn [fst snd].
    change (nz (s32 0)) with false. cbv beta iota. by rewrite Z.shiftr_div_pow2.
Qed.

(** C40: [bpf_usdt_arg] finds every argument of a known tracepoint, wherever it is,
    and returns an argument of 8 - k bytes, of which the loader notes 8 k bits to be
    cleared, as the [long] that has its value, signed or not. *)
Theorem usdt_arg_value e s sp i a v :
  spec_of e s = Some sp -> 0 <= i < BPF_USDT_MAX_ARG_CNT -> i < u64 (arg_cnt sp) ->
  spec_args sp !! Z.to_nat i = Some a -> arg_at e a v -> 0 <= arg_bitshift a < 64 ->
  run (bpf_usdt_arg e i) s =
    ((0, if arg_signed a then sN (64 - arg_bitshift a) v else s64 (uN (64 - arg_bitshift a) v)), s).
Proof.
  intros Hsp Hi Hcnt Ha Hv Hb. rewrite bpf_usdt_arg_run, Hsp. unfold arg_of.
  rewrite !(proj2 (Z.leb_gt _ _)) by lia. cbn [orb].
  rewrite (nth_lookup_Some _ _ _ _ Ha), (usdt_fetch_at e a v) by (done || lia).
  do 2 f_equal. destruct (arg_signed a).
  - rewrite shift_out_signed by lia. rewrite Z.sub_diag, Z.pow_0_r, Z.div_1_r, sN_uN by lia.
    apply sN_id; [lia|]. pose proof (sN_range (64 - arg_bitshift a) ltac:(lia) v).
    assert (2 ^ (64 - arg_bitshift a - 1) <= 2 ^ (64 - 1)) by (apply Z.pow_le_mono_r; lia). lia.
  - rewrite shift_out_unsigned by lia. by rewrite Z.sub_diag, Z.pow_0_r, Z.div_1_r.
Qed.

Lemma usdt_args_run e s n :
  run (___bpf_usdt_args e n) s =
    ((fun i => (run (bpf_usdt_arg e (Z.of_nat i)) s).1.2) <$> seq 0 n, s).
Proof.
  induction n as [|n IH]; [done|]. cbn [___bpf_usdt_args].
  assert (Hs : (run (bpf_usdt_arg e (Z.of_nat n)) s).2 = s) by by rewrite bpf_usdt_arg_run.
  rewrite run_bind, IH. cbn [fst snd]. rewrite run_bind, Hs, seq_S, fmap_app. done.
Qed.

(** Errors of [bpf_usdt_arg] always leave 0 in [*res]: an unknown tracepoint is
    ESRCH, a number beyond the arguments (or beyond twelve) is ENOENT, a failed read
    is the code of the read; so a handler declared with BPF_USDT is called with its
    parameters in order, those that cannot be had being 0. *)
Lemma usdt_errors_give_zero e s i n :
  0 <= i ->
  let r := (run (bpf_usdt_arg e i) s).1 in
  (r.1 <> 0 -> r.2 = 0) /\
  (spec_of e s = None -> r = (- ESRCH, 0)) /\
  (forall sp, spec_of e s = Some sp -> Z.min BPF_USDT_MAX_ARG_CNT (u64 (arg_cnt sp)) <= i ->
    r = (- ENOENT, 0)) /\
  (i < Z.of_nat n -> (run (___bpf_usdt_args e n) s).1 !! Z.to_nat i = Some r.2).
Proof.
  intros Hi r. split; [|split; [|split]].
  - unfold r. rewrite bpf_usdt_arg_run. cbn [fst]. destruct (spec_of e s) as [sp|]; [|done].
    destruct (arg_of sp i) as [a|]; [|done]. by destruct (usdt_fetch e a).
  - intros Hs. unfold r. by rewrite bpf_usdt_arg_run, Hs.
  - intros sp Hs Hle. unfold r. rewrite bpf_usdt_arg_run, Hs. unfold arg_of. cbn [fst].
    destruct (Z.leb_spec BPF_USDT_MAX_ARG_CNT i), (Z.leb_spec (u64 (arg_cnt sp)) i); cbn; try done; lia.
  - intros Hn. rewrite usdt_args_run. cbn [fst]. rewrite list_lookup_fmap, lookup_seq_lt by lia. cbn.
    by rewrite Z2Nat.id by lia.
Qed.
End Spec.

(** * Examples *)

(** The tracepoint 5 has an [int] behind %rbp - 1204 ("-4@-1204(%rbp)"). *)
Definition demo_arg : __bpf_usdt_arg_spec := {|
  val_off := 2 ^ 64 - 1204; arg_type := BPF_USDT_ARG_REG_DEREF; reg_off := 32; arg_signed := true;
  arg_bitshift := 32 |}.
Definition demo_spec : __bpf_usdt_spec := {|
  spec_args := demo_arg :: replicate 11 zero_arg_spec; usdt_cookie := 0; arg_cnt := 1 |}.
Definition demo_usdt : us_state := {|
  __bpf_usdt_specs := (bm_update (bm_create BPF_USDT_MAX_SPEC_CNT) 5 demo_spec BPF_ANY).2;
  __bpf_usdt_ip_to_spec_id := bm_create BPF_USDT_MAX_IP_CNT |}.
Definition demo_usdt_env : usdt_env := {|
  LINUX_HAS_BPF_COOKIE := true; bpf_get_attach_cookie := 5; PT_REGS_IP := 0; usdt_ctx := 65536;
  probe_read_kernel := fun a => if a =? 65568 then (0, 10000) else (-14, 0);
  probe_read_user := fun a => if a =? 8796 then (0, 0xABCD0000FFFFFFF7) else (-14, 0);
  big_endian := false |}.

Lemma usdt_arg_value_witness : (run (bpf_usdt_arg demo_usdt_env 0) demo_usdt).1 = (0, -9).
Proof.
  rewrite (usdt_arg_value demo_usdt_env demo_usdt demo_spec 0 demo_arg 0xABCD0000FFFFFFF7);
    [vm_compute; reflexivity | vm_compute; reflexivity | unfold BPF_USDT_MAX_ARG_CNT; lia
    | vm_compute; reflexivity | reflexivity | | cbn; lia].
  apply (ArgDeref demo_usdt_env demo_arg 10000 0xABCD0000FFFFFFF7); vm_compute; reflexivity.
Defined.

Lemma usdt_errors_give_zero_witness :
  (run (bpf_usdt_arg demo_usdt_env 1) demo_usdt).1 = (- ENOENT, 0) /\
  (run (___bpf_usdt_args demo_usdt_env 2) demo_usdt).1 !! 1%nat = Some 0.
Proof.
  destruct (usdt_errors_give_zero demo_usdt_env demo_usdt 1 2 ltac:(lia)) as (_ & _ & H1 & H2).
  specialize (H1 demo_spec ltac:(vm_compute; reflexivity)). split.
  - apply H1. vm_compute. discriminate.
  - etrans; [exact (H2 ltac:(lia))|]. vm_compute. reflexivity.
Defined.
