(* ===== verification/Skel.v ===== *)
(** The loader of light skeletons, headers/bpf/skel_internal.h: the wrappers of the bpf
    system call and [bpf_load_and_run], which creates a map, puts the data of a skeleton
    into it, loads the loader program and runs it.

    The kernel is a parameter: a state, the bpf system call on the bytes of its attribute,
    and close.  The header is compiled into programs, where the C library turns an error
    code into -1 and [errno], and into the kernel, where it does not: [in_kernel] tells
    which.  [log] records the calls that were made and what the kernel answered. *)
From stdpp Require Import strings.
From S2P Require Import Prelude Layout KernelTypes Vmlinux518.
Open Scope Z_scope.
Open Scope list_scope.

(** * The attribute of the system call *)

(** [enum bpf_cmd], what the header uses of it. *)
Definition BPF_MAP_CREATE : Z := 0.
Definition BPF_MAP_UPDATE_ELEM : Z := 2.
Definition BPF_MAP_DELETE_ELEM : Z := 3.
Definition BPF_PROG_LOAD : Z := 5.
Definition BPF_PROG_RUN : Z := 10.
Definition BPF_MAP_GET_FD_BY_ID : Z := 14.
Definition BPF_RAW_TRACEPOINT_OPEN : Z := 17.
Definition BPF_LINK_CREATE : Z := 28.

Definition BPF_MAP_TYPE_ARRAY : Z := 2.
Definition BPF_PROG_TYPE_SYSCALL : Z := 31.

(** errno.h *)
Definition EINVAL : Z := 22.

(** The bytes of a variable of type [union bpf_attr]. *)
Definition bpf_attr : Type := list Z.

Definition offsetofend (path : list string) : nat :=
  match koffset path union_bpf_attr with Some (o, u) => Z.to_nat (o + ksize u) | None => 0 end.

(** [memset(&attr, 0, n)] *)
Definition memset0 (n : nat) (attr : bpf_attr) : bpf_attr := replicate n 0 ++ drop n attr.

Definition splice (o : nat) (bs attr : list Z) : list Z := take o attr ++ bs ++ drop (o + length bs) attr.

(** [attr.path = v] *)
Definition set_member (path : list string) (v : Z) (attr : bpf_attr) : bpf_attr :=
  match koffset path union_bpf_attr with
  | Some (o, u) => splice (Z.to_nat o) (le_bytes (Z.to_nat (ksize u)) v) attr
  | None => attr
  end.

(** [memcpy] and [strncpy] to a member of characters *)
Definition set_chars (path : list string) (bs : list Z) (attr : bpf_attr) : bpf_attr :=
  match koffset path union_bpf_attr with
  | Some (o, _) => splice (Z.to_nat o) bs attr
  | None => attr
  end.

Definition c_chars (s : string) : list Z := (fun a => Z.of_N (Ascii.N_of_ascii a)) <$> String.list_ascii_of_string s.

(** What strncpy writes: the characters, then zeros, [n] bytes in all and no final zero
    when the string has [n] characters or more. *)
Definition strncpy (s : string) (n : nat) : list Z := take n (c_chars s ++ replicate n 0).

(** * Calls *)

(** What the header's functions change: the kernel, and [errno]. *)
Inductive sk_call := CBpf (cmd : Z) (attr : list Z) (answer : Z) | CClose (fd : Z).

Record sk_state (K : Type) := { sk_kern : K; errno : Z; log : list sk_call }.
Arguments sk_kern {K} _.
Arguments errno {K} _.
Arguments log {K} _.

(** The members of [struct bpf_loader_ctx] and of [struct bpf_load_and_run_opts]; a
    pointer is its address. *)
Record bpf_loader_ctx := { lc_sz : Z; lc_flags : Z; lc_log_level : Z; lc_log_size : Z; lc_log_buf : Z }.
Record bpf_load_and_run_opts := {
  o_ctx : bpf_loader_ctx; o_ctx_addr : Z; o_data : Z; o_insns : Z; o_data_sz : Z; o_insns_sz : Z;
  o_errstr : option string }.

Section Skel.
Context {K : Type}
  (** the bpf system call: its answer and what it leaves in the attribute *)
  (kern_sys_bpf : Z -> bpf_attr -> nat -> K -> Z * bpf_attr * K)
  (kern_close : Z -> K -> Z * K)
  (in_kernel : bool)
  (** what an uninitialised [union bpf_attr] holds *)
  (garbage : bpf_attr)
  (** the constant of linux/bpf.h, the addresses of the local variables [map_fd] and
      [key] and of the string literals *)
  (BPF_F_SLEEPABLE addr_map_fd addr_key addr_license : Z).
Implicit Types st : sk_state K.

(** The C library's system call: an error code becomes -1 and [errno]. *)
Definition syscall_result (r : Z) st : Z * sk_state K :=
  if in_kernel then (r, st)
  else if (-4095 <=? r) && (r <? 0) then (-1, {| sk_kern := sk_kern st; errno := - r; log := log st |})
  else (r, st).

Definition skel_sys_bpf (cmd : Z) (attr : bpf_attr) (size : nat) st : Z * bpf_attr * sk_state K :=
  let '(r, attr', k) := kern_sys_bpf cmd attr size (sk_kern st) in
  let '(ret, st') := syscall_result r
    {| sk_kern := k; errno := errno st; log := log st ++ [CBpf cmd (take size attr) r] |} in
  (s32 ret, attr', st').

Definition close (fd : Z) st : Z * sk_state K :=
  let '(r, k) := kern_close fd (sk_kern st) in
  syscall_result r {| sk_kern := k; errno := errno st; log := log st ++ [CClose fd] |}.

Definition skel_closenz (fd : Z) st : Z * sk_state K := if 0 <? fd then close fd st else (- EINVAL, st).

(** A call whose attribute is not used afterwards. *)
Definition skel_call (cmd : Z) (attr : bpf_attr) (size : nat) st : Z * sk_state K :=
  let '(r, _, st') := skel_sys_bpf cmd attr size st in (r, st').

Definition skel_map_create_attr (map_type : Z) (map_name : string) (key_size value_size max_entries : Z) : bpf_attr :=
  set_member ["max_entries"%string] max_entries (set_member ["value_size"%string] value_size
    (set_member ["key_size"%string] key_size (set_chars ["map_name"%string] (strncpy map_name 16)
      (set_member ["map_type"%string] map_type (memset0 (offsetofend ["map_extra"%string]) garbage))))).

Definition skel_map_create (map_type : Z) (map_name : string) (key_size value_size max_entries : Z) st :=
  skel_call BPF_MAP_CREATE (skel_map_create_attr map_type map_name key_size value_size max_entries)
    (offsetofend ["map_extra"%string]) st.

Definition skel_map_update_elem_attr (fd key value flags : Z) : bpf_attr :=
  set_member ["flags"%string] flags (set_member ["value"%string] value (set_member ["key"%string] key
    (set_member ["map_fd"%string] fd (memset0 (offsetofend ["flags"%string]) garbage)))).

Definition skel_map_update_elem (fd key value flags : Z) st :=
  skel_call BPF_MAP_UPDATE_ELEM (skel_map_update_elem_attr fd key value flags) (offsetofend ["flags"%string]) st.

Definition skel_map_delete_elem_attr (fd key : Z) : bpf_attr :=
  set_member ["key"%string] key (set_member ["map_fd"%string] fd (memset0 (offsetofend ["flags"%string]) garbage)).

Definition skel_map_delete_elem (fd key : Z) st :=
  skel_call BPF_MAP_DELETE_ELEM (skel_map_delete_elem_attr fd key) (offsetofend ["flags"%string]) st.

Definition skel_map_get_fd_by_id_attr (id : Z) : bpf_attr :=
  set_member ["map_id"%string] id (memset0 (offsetofend ["flags"%string]) garbage).

Definition skel_map_get_fd_by_id (id : Z) st :=
  skel_call BPF_MAP_GET_FD_BY_ID (skel_map_get_fd_by_id_attr id) (offsetofend ["flags"%string]) st.

Definition skel_raw_tracepoint_open_attr (name prog_fd : Z) : bpf_attr :=
  set_member ["raw_tracepoint"; "prog_fd"]%string prog_fd (set_member ["raw_tracepoint"; "name"]%string name
    (memset0 (offsetofend ["raw_tracepoint"; "prog_fd"]%string) garbage)).

Definition skel_raw_tracepoint_open (name prog_fd : Z) st :=
  skel_call BPF_RAW_TRACEPOINT_OPEN (skel_raw_tracepoint_open_attr name prog_fd)
    (offsetofend ["raw_tracepoint"; "prog_fd"]%string) st.

Definition skel_link_create_attr (prog_fd target_fd attach_type : Z) : bpf_attr :=
  set_member ["link_create"; "attach_type"]%string attach_type
    (set_member ["link_create"; "target_fd"]%string target_fd
      (set_member ["link_create"; "prog_fd"]%string prog_fd
        (memset0 (offsetofend ["link_create"; "iter_info_len"]%string) garbage))).

Definition skel_link_create (prog_fd target_fd attach_type : Z) st :=
  skel_call BPF_LINK_CREATE (skel_link_create_attr prog_fd target_fd attach_type)
    (offsetofend ["link_create"; "iter_info_len"]%string) st.

(** ** bpf_load_and_run *)

(** [set_err] *)
Definition set_err (err : Z) st : Z := if in_kernel then err else - errno st.

Definition prog_load_attr (opts : bpf_load_and_run_opts) : bpf_attr :=
  set_member ["prog_flags"%string] BPF_F_SLEEPABLE
    (set_member ["log_buf"%string] (lc_log_buf (o_ctx opts))
      (set_member ["log_size"%string] (lc_log_size (o_ctx opts))
        (set_member ["log_level"%string] (lc_log_level (o_ctx opts))
          (set_member ["fd_array"%string] addr_map_fd
            (set_chars ["prog_name"%string] (c_chars "__loader.prog"%string ++ [0])
              (set_member ["license"%string] addr_license
                (set_member ["insn_cnt"%string] (o_insns_sz opts / ksize struct_bpf_insn)
                  (set_member ["insns"%string] (o_insns opts)
                    (set_member ["prog_type"%string] BPF_PROG_TYPE_SYSCALL
                      (memset0 (offsetofend ["fd_array"%string]) garbage)))))))))).

Definition prog_run_attr (opts : bpf_load_and_run_opts) (prog_fd : Z) (attr : bpf_attr) : bpf_attr :=
  set_member ["test"; "ctx_size_in"]%string (lc_sz (o_ctx opts))
    (set_member ["test"; "ctx_in"]%string (o_ctx_addr opts)
      (set_member ["test"; "prog_fd"]%string prog_fd (memset0 (offsetofend ["test"%string]) attr))).

(** [(int)attr.test.retval] *)
Definition test_retval (attr : bpf_attr) : Z :=
  s32 (default 0 (typed_value union_bpf_attr ["test"; "retval"]%string attr)).

Definition close_if_open (fd : Z) st : sk_state K := if 0 <=? fd then (close fd st).2 else st.

(** [out:] *)
Definition load_out (err map_fd prog_fd : Z) (errstr : option string) st : Z * option string * sk_state K :=
  (err, errstr, close_if_open prog_fd (close_if_open map_fd st)).

(** The result, [opts->errstr] and what else has changed. *)
Definition bpf_load_and_run (opts : bpf_load_and_run_opts) st : Z * option string * sk_state K :=
  let '(map_fd, st) := skel_map_create BPF_MAP_TYPE_ARRAY "__loader.map"%string 4 (o_data_sz opts) 1 st in
  if map_fd <? 0 then load_out (set_err map_fd st) map_fd (-1) (Some "failed to create loader map"%string) st else
  let '(err, st) := skel_map_update_elem map_fd addr_key (o_data opts) 0 st in
  if err <? 0 then load_out (set_err err st) map_fd (-1) (Some "failed to update loader map"%string) st else
  let '(prog_fd, attr, st) :=
    skel_sys_bpf BPF_PROG_LOAD (prog_load_attr opts) (offsetofend ["fd_array"%string]) st in
  if prog_fd <? 0 then load_out (set_err prog_fd st) map_fd prog_fd (Some "failed to load loader prog"%string) st else
  let '(err, attr, st) :=
    skel_sys_bpf BPF_PROG_RUN (prog_run_attr opts prog_fd attr) (offsetofend ["test"%string]) st in
  if (err <? 0) || (test_retval attr <? 0) then
    let st' := {| sk_kern := sk_kern st; errno := if in_kernel then errno st else - test_retval attr; log := log st |} in
    if err <? 0 then load_out (set_err err st) map_fd prog_fd (Some "failed to execute loader prog"%string) st
    else load_out (test_retval attr) map_fd prog_fd (Some "failed to execute loader prog"%string) st'
  else load_out 0 map_fd prog_fd (o_errstr opts) st.
End Skel.
