(* ===== verification/SkelSpec.v ===== *)
(** What the loader of light skeletons promises.

    [loader_outcome] is the contract of [bpf_load_and_run]: which calls it makes, what it
    returns and which file descriptors it closes, the same in a program and in the
    kernel.  The attributes of the system calls carry the arguments and nothing of what
    the variable held before. *)
From stdpp Require Import strings.
From S2P Require Import Prelude Layout KernelTypes Vmlinux518 Skel.
Open Scope Z_scope.
Open Scope list_scope.

(** * The attributes *)

Section Splice.
Implicit Types (bs attr : list Z).

Lemma take_splice o bs attr n :
  (o + length bs <= n)%nat -> (o <= length attr)%nat ->
  take n (splice o bs attr) = splice o bs (take n attr).
Proof.
  intros Hn Ho. unfold splice. rewrite (take_app (take o attr)), length_take, (Nat.min_l o) by done.
  rewrite !take_take, (Nat.min_r n o), (Nat.min_l o n), (take_app bs), (take_ge bs) by lia.
  rewrite take_drop_commute. do 3 f_equal. f_equal. lia.
Qed.

Lemma length_splice o bs attr : (o + length bs <= length attr)%nat -> length (splice o bs attr) = length attr.
Proof. intros H. unfold splice. rewrite !length_app, length_take, length_drop. lia. Qed.

Lemma splice_same o bs attr : (o <= length attr)%nat -> take (length bs) (drop o (splice o bs attr)) = bs.
Proof.
  intros H. unfold splice. rewrite drop_app_length' by (rewrite length_take; lia).
  by rewrite take_app_length.
Qed.

Lemma splice_before p n o bs attr :
  (p + n <= o)%nat -> (o <= length attr)%nat -> take n (drop p (splice o bs attr)) = take n (drop p attr).
Proof.
  intros H Ho. unfold splice. rewrite drop_app_le by (rewrite length_take; lia).
  rewrite take_app_le by (rewrite length_drop, length_take; lia).
  rewrite <- (take_drop o attr) at 2. rewrite drop_app_le by (rewrite length_take; lia).
  by rewrite take_app_le by (rewrite length_drop, length_take; lia).
Qed.

Lemma splice_after p n o bs attr :
  (o + length bs <= p)%nat -> (o <= length attr)%nat -> take n (drop p (splice o bs attr)) = take n (drop p attr).
Proof.
  intros H Ho. unfold splice. rewrite drop_app_ge by (rewrite length_take; lia).
  rewrite length_take, Nat.min_l, drop_app_ge, drop_drop by lia. do 2 f_equal. lia.
Qed.
End Splice.

(** The member [path] has [n] bytes from byte [o] on. *)
Definition at_bytes (path : list string) (o n : nat) : bool :=
  match koffset path union_bpf_attr with
  | Some (p, u) => (p =? Z.of_nat o) && (ksize u =? Z.of_nat n)
  | None => false
  end.

Section Members.
Context (path : list string) (o n : nat) (Hp : at_bytes path o n = true).
Implicit Types attr : bpf_attr.

Lemma typed_value_slice attr : typed_value union_bpf_attr path attr = Some (le_value (take n (drop o attr))).
Proof.
  unfold at_bytes in Hp. unfold typed_value, typed_bytes. destruct (koffset path union_bpf_attr) as [[p u]|]; [|done].
  zbool. subst p. cbn. by rewrite H0, !Nat2Z.id.
Qed.
End Members.

(** An attribute as the list of the writes that made it, the last one first: offset,
    number of bytes, bytes. *)
Abbreviation write := (nat * nat * list Z)%type.
Definition splices (ws : list write) (attr : bpf_attr) : bpf_attr := foldr (fun w a => splice w.1.1 w.2 a) attr ws.

Definition inside (N : nat) (w : write) : Prop := length w.2 = w.1.2 /\ (w.1.1 + w.1.2 <= N)%nat.

(** The last bytes written at [o]; [None] when writes overlap them otherwise. *)
Fixpoint written (o n : nat) (ws : list write) : option (list Z) :=
  match ws with
  | [] => Some (replicate n 0)
  | (p, m, bs) :: ws =>
      if (p =? o)%nat && (m =? n)%nat then Some bs
      else if (o + n <=? p)%nat || (p + m <=? o)%nat then written o n ws
      else None
  end.

Lemma splices_cons w ws attr : splices (w :: ws) attr = splice w.1.1 w.2 (splices ws attr).
Proof. done. Qed.

Lemma length_splices N ws attr : Forall (inside N) ws -> (N <= length attr)%nat ->
  length (splices ws attr) = length attr.
Proof.
  intros Hws HN. induction Hws as [|w ws [Hl Hin] _ IH]; [done|].
  rewrite splices_cons, length_splice; rewrite IH; [done|lia].
Qed.

(** What is behind the part that is written stays as it is. *)
Lemma splices_app N ws attr rest : Forall (inside N) ws -> (N <= length attr)%nat ->
  splices ws (attr ++ rest) = splices ws attr ++ rest.
Proof.
  intros Hws HN. induction Hws as [|w ws [Hl Hin] Hws IH]; [done|].
  rewrite !splices_cons, IH. unfold splice.
  rewrite take_app_le, drop_app_le by (rewrite (length_splices N) by done; lia). by rewrite <- !(assoc_L (++)).
Qed.

Lemma take_splices N ws g : Forall (inside N) ws ->
  take N (splices ws (memset0 N g)) = splices ws (replicate N 0).
Proof.
  intros Hws. unfold memset0. rewrite (splices_app N) by (rewrite ?length_replicate; done).
  rewrite take_app_length'; [done|]. by rewrite (length_splices N), length_replicate by (rewrite ?length_replicate; done).
Qed.

Lemma slice_written N o n ws bs : Forall (inside N) ws -> (o + n <= N)%nat -> written o n ws = Some bs ->
  take n (drop o (splices ws (replicate N 0))) = bs.
Proof.
  intros Hws Hon. induction Hws as [|[[p m] bs'] ws [Hl Hin] Hws IH]; intros Hw; cbn [written] in Hw.
  - simplify_eq. cbn. rewrite drop_replicate, take_replicate. f_equal. lia.
  - rewrite splices_cons. cbn in Hl, Hin |- *.
    assert (Hlen : length (splices ws (replicate N 0)) = N)
      by (by rewrite (length_splices N), length_replicate by (rewrite ?length_replicate; done)).
    destruct ((p =? o)%nat && (m =? n)%nat) eqn:E.
    + apply andb_true_iff in E as [->%Nat.eqb_eq E%Nat.eqb_eq]. simplify_eq.
      apply splice_same. lia.
    + destruct ((o + n <=? p)%nat || (p + m <=? o)%nat) eqn:E'; [|done]. rewrite <- IH by done.
      apply orb_true_iff in E' as [E'%Nat.leb_le|E'%Nat.leb_le]; [apply splice_before | apply splice_after]; lia.
Qed.

(** What the kernel reads at [path] of the first [N] bytes. *)
Definition sent (N : nat) (path : list string) (attr : bpf_attr) : option Z :=
  typed_value union_bpf_attr path (take N attr).

Lemma sent_written N path o n ws g bs :
  at_bytes path o n = true -> Forall (inside N) ws -> (o + n <= N)%nat -> written o n ws = Some bs ->
  sent N path (splices ws (memset0 N g)) = Some (le_value bs).
Proof.
  intros Hp Hws Hon Hw. unfold sent. rewrite take_splices by done.
  rewrite (typed_value_slice path o n Hp). by rewrite (slice_written N o n ws bs).
Qed.

Lemma sent_int N path o n ws g v :
  at_bytes path o n = true -> Forall (inside N) ws -> (o + n <= N)%nat -> written o n ws = Some (le_bytes n v) ->
  sent N path (splices ws (memset0 N g)) = Some (uN (8 * Z.of_nat n) v).
Proof.
  intros Hp Hws Hon Hw. rewrite (sent_written N path o n ws g _ Hp Hws Hon Hw). f_equal.
  rewrite <- le_bytes_mod. apply le_value_bytes, Z.mod_pos_bound. apply Z.pow_pos_nonneg; lia.
Qed.

Lemma le_value_zeros n : le_value (replicate n 0) = 0.
Proof. induction n as [|n IH]; cbn; lia. Qed.

Lemma sent_zero N path o n ws g :
  at_bytes path o n = true -> Forall (inside N) ws -> (o + n <= N)%nat -> written o n ws = Some (replicate n 0) ->
  sent N path (splices ws (memset0 N g)) = Some 0.
Proof.
  intros Hp Hws Hon Hw. by rewrite (sent_written N path o n ws g _ Hp Hws Hon Hw), le_value_zeros.
Qed.

Lemma length_strncpy s n : length (strncpy s n) = n.
Proof. unfold strncpy. rewrite length_take, length_app, length_replicate. lia. Qed.

(** The first [N] bytes of an attribute, whatever the variable held before, carry these
    members. *)
Definition carries (N : nat) (attr : bpf_attr -> bpf_attr) (fields : list (list string * Z)) : Prop :=
  (forall g g', take N (attr g) = take N (attr g')) /\
  (forall g, Forall (fun f => sent N f.1 (attr g) = Some f.2) fields).

Lemma carries_writes N attr ws fields :
  (forall g, attr g = splices ws (memset0 N g)) -> Forall (inside N) ws ->
  Forall (fun f => forall g, sent N f.1 (splices ws (memset0 N g)) = Some f.2) fields -> carries N attr fields.
Proof.
  intros Ha Hws Hf. split.
  - intros g g'. by rewrite !Ha, !take_splices.
  - intros g. rewrite Ha. eapply Forall_impl; [exact Hf|]. intros f H. apply H.
Qed.

(** The writes are those [attr] makes, inside the first bytes, and every member is read
    by evaluating where it was written. *)
Ltac inside_all :=
  repeat (apply Forall_cons; split; [split; cbn; [rewrite ?length_strncpy; reflexivity | lia]|]); apply Forall_nil; exact I.
Ltac read_member :=
  intros ?;
  lazymatch goal with |- sent ?N ?p _ = _ =>
    let r := eval vm_compute in
      (match koffset p union_bpf_attr with Some (o, u) => (Z.to_nat o, Z.to_nat (ksize u)) | None => (0, 0)%nat end) in
    lazymatch r with (?o, ?n) =>
      first [refine (sent_zero N p o n _ _ _ _ _ _) | refine (sent_int N p o n _ _ _ _ _ _ _) | refine (sent_written N p o n _ _ _ _ _ _ _)];
      [vm_compute; reflexivity | inside_all | lia | reflexivity]
    end
  end.
Ltac carry ws :=
  apply (carries_writes _ _ ws);
  [intros ?; reflexivity | inside_all |
   repeat (apply Forall_cons; split; [cbn [fst snd]|]); try (apply Forall_nil; exact I)].

Section Carries.
Local Open Scope string_scope.

Lemma map_create_carries mt name ks vs me :
  carries (offsetofend ["map_extra"]) (fun g => skel_map_create_attr g mt name ks vs me)
    [(["map_type"], u32 mt); (["map_name"], le_value (strncpy name 16)); (["key_size"], u32 ks);
     (["value_size"], u32 vs); (["max_entries"], u32 me); (["map_flags"], 0); (["inner_map_fd"], 0);
     (["numa_node"], 0); (["map_ifindex"], 0); (["btf_fd"], 0); (["map_extra"], 0)].
Proof.
  change (offsetofend ["map_extra"]) with 72%nat.
  carry [(12, 4, le_bytes 4 me); (8, 4, le_bytes 4 vs); (4, 4, le_bytes 4 ks); (28, 16, strncpy name 16);
         (0, 4, le_bytes 4 mt)]%nat; read_member.
Qed.

Lemma map_update_carries fd key value flags :
  carries (offsetofend ["flags"]) (fun g => skel_map_update_elem_attr g fd key value flags)
    [(["map_fd"], u32 fd); (["key"], u64 key); (["value"], u64 value); (["flags"], u64 flags)].
Proof.
  change (offsetofend ["flags"]) with 32%nat.
  carry [(24, 8, le_bytes 8 flags); (16, 8, le_bytes 8 value); (8, 8, le_bytes 8 key); (0, 4, le_bytes 4 fd)]%nat;
    read_member.
Qed.

Lemma map_delete_carries fd key :
  carries (offsetofend ["flags"]) (fun g => skel_map_delete_elem_attr g fd key)
    [(["map_fd"], u32 fd); (["key"], u64 key); (["value"], 0); (["flags"], 0)].
Proof.
  change (offsetofend ["flags"]) with 32%nat.
  carry [(8, 8, le_bytes 8 key); (0, 4, le_bytes 4 fd)]%nat; read_member.
Qed.

Lemma get_fd_by_id_carries id :
  carries (offsetofend ["flags"]) (fun g => skel_map_get_fd_by_id_attr g id)
    [(["map_id"], u32 id); (["next_id"], 0); (["open_flags"], 0)].
Proof.
  change (offsetofend ["flags"]) with 32%nat. carry [(0, 4, le_bytes 4 id)]%nat; read_member.
Qed.

Lemma raw_tracepoint_carries name prog_fd :
  carries (offsetofend ["raw_tracepoint"; "prog_fd"]) (fun g => skel_raw_tracepoint_open_attr g name prog_fd)
    [(["raw_tracepoint"; "name"], u64 name); (["raw_tracepoint"; "prog_fd"], u32 prog_fd)].
Proof.
  change (offsetofend ["raw_tracepoint"; "prog_fd"]) with 12%nat.
  carry [(8, 4, le_bytes 4 prog_fd); (0, 8, le_bytes 8 name)]%nat; read_member.
Qed.

Lemma link_create_carries prog_fd target_fd attach_type :
  carries (offsetofend ["link_create"; "iter_info_len"])
    (fun g => skel_link_create_attr g prog_fd target_fd attach_type)
    [(["link_create"; "prog_fd"], u32 prog_fd); (["link_create"; "target_fd"], u32 target_fd);
     (["link_create"; "attach_type"], u32 attach_type); (["link_create"; "flags"], 0);
     (["link_create"; "iter_info"], 0); (["link_create"; "iter_info_len"], 0)].
Proof.
  change (offsetofend ["link_create"; "iter_info_len"]) with 28%nat.
  carry [(8, 4, le_bytes 4 attach_type); (4, 4, le_bytes 4 target_fd); (0, 4, le_bytes 4 prog_fd)]%nat; read_member.
Qed.

Lemma prog_load_carries sleepable addr_map_fd addr_license opts :
  carries (offsetofend ["fd_array"]) (fun g => prog_load_attr g sleepable addr_map_fd addr_license opts)
    [(["prog_type"], u32 BPF_PROG_TYPE_SYSCALL); (["insn_cnt"], u32 (o_insns_sz opts / 8)); (["insns"], u64 (o_insns opts));
     (["license"], u64 addr_license); (["log_level"], u32 (lc_log_level (o_ctx opts)));
     (["log_size"], u32 (lc_log_size (o_ctx opts))); (["log_buf"], u64 (lc_log_buf (o_ctx opts)));
     (["kern_version"], 0); (["prog_flags"], u32 sleepable); (["prog_ifindex"], 0);
     (["fd_array"], u64 addr_map_fd)].
Proof.
  change (offsetofend ["fd_array"]) with 128%nat.
  carry [(44, 4, le_bytes 4 sleepable); (32, 8, le_bytes 8 (lc_log_buf (o_ctx opts)));
         (28, 4, le_bytes 4 (lc_log_size (o_ctx opts))); (24, 4, le_bytes 4 (lc_log_level (o_ctx opts)));
         (120, 8, le_bytes 8 addr_map_fd); (48, 14, (c_chars "__loader.prog" ++ [0%Z])%list);
         (16, 8, le_bytes 8 addr_license); (4, 4, le_bytes 4 (o_insns_sz opts / 8));
         (8, 8, le_bytes 8 (o_insns opts)); (0, 4, le_bytes 4 31)]%nat; read_member.
Qed.
End Carries.

(** * bpf_load_and_run *)

Section Loader.
Context {K : Type} (kern_sys_bpf : Z -> bpf_attr -> nat -> K -> Z * bpf_attr * K)
  (kern_close : Z -> K -> Z * K) (in_kernel : bool) (garbage : bpf_attr)
  (BPF_F_SLEEPABLE addr_map_fd addr_key addr_license : Z) (opts : bpf_load_and_run_opts).
Implicit Types st : sk_state K.

(** The kernel answers with an int, errors are the negated numbers up to MAX_ERRNO. *)
Context (kern_answers : forall cmd attr n k, -4095 <= (kern_sys_bpf cmd attr n k).1.1 < 2 ^ 31).

(** The calls of the loader with their answers. *)
Definition loader_create fd : sk_call :=
  CBpf BPF_MAP_CREATE (take (offsetofend ["map_extra"%string])
    (skel_map_create_attr garbage BPF_MAP_TYPE_ARRAY "__loader.map" 4 (o_data_sz opts) 1)) fd.
Definition loader_update fd r : sk_call :=
  CBpf BPF_MAP_UPDATE_ELEM (take (offsetofend ["flags"%string])
    (skel_map_update_elem_attr garbage fd addr_key (o_data opts) 0)) r.
Definition loader_load fd : sk_call :=
  CBpf BPF_PROG_LOAD (take (offsetofend ["fd_array"%string])
    (prog_load_attr garbage BPF_F_SLEEPABLE addr_map_fd addr_license opts)) fd.

(** What [bpf_load_and_run] may do: its calls, its result and the message it leaves. *)
Inductive loader_outcome : list sk_call -> Z -> option string -> Prop :=
| no_map r : r < 0 -> loader_outcome [loader_create r] r (Some "failed to create loader map"%string)
| no_data m r : 0 <= m -> r < 0 ->
    loader_outcome [loader_create m; loader_update m r; CClose m] r (Some "failed to update loader map"%string)
| no_prog m u r : 0 <= m -> 0 <= u -> r < 0 ->
    loader_outcome [loader_create m; loader_update m u; loader_load r; CClose m] r (Some "failed to load loader prog"%string)
| no_run m u p attr r : 0 <= m -> 0 <= u -> 0 <= p -> r < 0 ->
    loader_outcome [loader_create m; loader_update m u; loader_load p; CBpf BPF_PROG_RUN attr r; CClose m; CClose p] r
      (Some "failed to execute loader prog"%string)
| loader_fails m u p attr r ret : 0 <= m -> 0 <= u -> 0 <= p -> 0 <= r -> ret < 0 ->
    loader_outcome [loader_create m; loader_update m u; loader_load p; CBpf BPF_PROG_RUN attr r; CClose m; CClose p] ret
      (Some "failed to execute loader prog"%string)
| loaded m u p attr r : 0 <= m -> 0 <= u -> 0 <= p -> 0 <= r ->
    loader_outcome [loader_create m; loader_update m u; loader_load p; CBpf BPF_PROG_RUN attr r; CClose m; CClose p] 0 (o_errstr opts).

(** The file descriptors the calls opened and those they closed. *)
Definition opened (l : list sk_call) : list Z :=
  omap (fun c => match c with
                 | CBpf cmd _ r => if ((cmd =? BPF_MAP_CREATE) || (cmd =? BPF_PROG_LOAD)) && (0 <=? r) then Some r else None
                 | CClose _ => None
                 end) l.
Definition closed (l : list sk_call) : list Z :=
  omap (fun c => match c with CClose fd => Some fd | CBpf _ _ _ => None end) l.

(** One call: the error code comes back through [errno] or directly. *)
Lemma skel_sys_bpf_spec cmd attr size st ret attr' st' :
  skel_sys_bpf kern_sys_bpf in_kernel cmd attr size st = (ret, attr', st') ->
  exists r, log st' = log st ++ [CBpf cmd (take size attr) r] /\ (0 <= r /\ ret = r \/ r < 0 /\ ret < 0 /\ set_err in_kernel ret st' = r).
Proof.
  unfold skel_sys_bpf, syscall_result, set_err. pose proof (kern_answers cmd attr size (sk_kern st)) as Ha.
  destruct (kern_sys_bpf cmd attr size (sk_kern st)) as [[r a] k]. cbn in Ha. intros H. exists r.
  assert (Hs : s32 r = r) by (apply sN_id; lia).
  destruct in_kernel; [|destruct ((-4095 <=? r) && (r <? 0)) eqn:E]; injection H as <- _ <-; cbn [log errno].
  - rewrite Hs. split; [done|]. destruct (Z.le_gt_cases 0 r); [by left | by right].
  - zbool. split; [done|]. right. split; [done|]. split; [done|lia].
  - rewrite Hs. split; [done|]. left. apply andb_false_iff in E as [E|E]; zbool; split; (done || lia).
Qed.

Lemma skel_call_spec cmd attr size st ret st' :
  skel_call kern_sys_bpf in_kernel cmd attr size st = (ret, st') ->
  exists r, log st' = log st ++ [CBpf cmd (take size attr) r] /\ (0 <= r /\ ret = r \/ r < 0 /\ ret < 0 /\ set_err in_kernel ret st' = r).
Proof.
  unfold skel_call. destruct (skel_sys_bpf kern_sys_bpf in_kernel cmd attr size st) as [[r a] s] eqn:E.
  intros H. simplify_eq. by eapply skel_sys_bpf_spec.
Qed.

Lemma log_close_if_open fd st :
  log (close_if_open kern_close in_kernel fd st) = log st ++ (if 0 <=? fd then [CClose fd] else []).
Proof.
  unfold close_if_open, close, syscall_result. destruct (0 <=? fd); [|by rewrite app_nil_r].
  destruct (kern_close fd (sk_kern st)) as [r k]. by destruct in_kernel; [|destruct ((-4095 <=? r) && (r <? 0))].
Qed.

Lemma load_out_spec err m p es st err' es' st' :
  load_out kern_close in_kernel err m p es st = (err', es', st') ->
  err' = err /\ es' = es /\
  log st' = log st ++ (if 0 <=? m then [CClose m] else []) ++ (if 0 <=? p then [CClose p] else []).
Proof.
  unfold load_out. intros H. injection H as <- <- <-. split; [done|]. split; [done|].
  by rewrite !log_close_if_open, (assoc_L (++)).
Qed.

Lemma geb_0 z : 0 <= z -> (0 <=? z) = true.
Proof. apply Z.leb_le. Qed.
Lemma geb_0_neg z : z < 0 -> (0 <=? z) = false.
Proof. apply Z.leb_gt. Qed.

Lemma bpf_load_and_run_outcome st err es st' :
  bpf_load_and_run kern_sys_bpf kern_close in_kernel garbage BPF_F_SLEEPABLE addr_map_fd addr_key addr_license opts st
    = (err, es, st') ->
  exists calls, log st' = log st ++ calls /\ loader_outcome calls err es.
Proof.
  unfold bpf_load_and_run.
  destruct (skel_map_create _ _ _ _ _ _ _ _ _) as [m st1] eqn:E1.
  apply skel_call_spec in E1 as (r1 & L1 & [[H1 ->]|(H1 & Hm & <-)]).
  2: { rewrite (proj2 (Z.ltb_lt m 0) Hm). intros (-> & -> & ->)%load_out_spec. rewrite L1, geb_0_neg by done.
       eexists. split; [by rewrite <- (assoc_L (++)) | by apply no_map]. }
  rewrite (proj2 (Z.ltb_ge r1 0) H1).
  destruct (skel_map_update_elem _ _ _ _ _ _ _ _) as [u st2] eqn:E2.
  apply skel_call_spec in E2 as (r2 & L2 & [[H2 ->]|(H2 & Hu & <-)]).
  2: { rewrite (proj2 (Z.ltb_lt u 0) Hu). intros (-> & -> & ->)%load_out_spec. rewrite L2, L1, geb_0 by done.
       eexists. split; [by rewrite <- !(assoc_L (++)) | by apply no_data]. }
  rewrite (proj2 (Z.ltb_ge r2 0) H2).
  destruct (skel_sys_bpf _ _ BPF_PROG_LOAD _ _ _) as [[p a3] st3] eqn:E3.
  apply skel_sys_bpf_spec in E3 as (r3 & L3 & [[H3 ->]|(H3 & Hp & <-)]).
  2: { rewrite (proj2 (Z.ltb_lt p 0) Hp). intros (-> & -> & ->)%load_out_spec.
       rewrite L3, L2, L1, geb_0, (geb_0_neg p) by done.
       eexists. split; [by rewrite <- !(assoc_L (++)) | by eapply no_prog]. }
  rewrite (proj2 (Z.ltb_ge r3 0) H3).
  destruct (skel_sys_bpf _ _ BPF_PROG_RUN _ _ _) as [[x a4] st4] eqn:E4.
  apply skel_sys_bpf_spec in E4 as (r4 & L4 & [[H4 ->]|(H4 & Hx & <-)]).
  2: { rewrite (proj2 (Z.ltb_lt x 0) Hx). cbn [orb]. intros (-> & -> & ->)%load_out_spec.
       rewrite L4, L3, L2, L1, !geb_0 by done.
       eexists. split; [by rewrite <- !(assoc_L (++)) | by eapply no_run]. }
  rewrite (proj2 (Z.ltb_ge r4 0) H4). cbn [orb].
  destruct (Z.ltb_spec (test_retval a4) 0) as [Hret|Hret]; intros (-> & -> & Hl)%load_out_spec; cbn [log] in Hl.
  all: rewrite Hl, L4, L3, L2, L1, !geb_0 by done; eexists; split; [by rewrite <- !(assoc_L (++))|].
  - by eapply loader_fails.
  - by eapply loaded.
Qed.

(** Every outcome closes what it opened. *)
Lemma outcome_closes calls err es : loader_outcome calls err es -> closed calls = opened calls.
Proof.
  destruct 1; cbn [closed opened omap list_omap loader_create loader_update loader_load andb orb Z.eqb];
    rewrite ?geb_0, ?geb_0_neg by done; try done.
Qed.
End Loader.

(** C27: bpf_load_and_run does one of the things [loader_outcome] lists: it creates the
    map, fills it, loads the loader program and runs it, stops at the first call that
    fails with a message that names it, and returns the kernel's error code (or the
    loader program's, or 0), the same when it is compiled into a program and into the
    kernel; every file descriptor it opened is closed, once, and no other one. *)
Theorem load_and_run_refines {K} (kern_sys_bpf : Z -> bpf_attr -> nat -> K -> Z * bpf_attr * K) kern_close
    in_kernel garbage sleepable addr_map_fd addr_key addr_license opts (st st' : sk_state K) err es :
  (forall cmd attr n k, -4095 <= (kern_sys_bpf cmd attr n k).1.1 < 2 ^ 31) ->
  bpf_load_and_run kern_sys_bpf kern_close in_kernel garbage sleepable addr_map_fd addr_key addr_license opts st
    = (err, es, st') ->
  exists calls, log st' = log st ++ calls /\
    loader_outcome garbage sleepable addr_map_fd addr_key addr_license opts calls err es /\
    closed calls = opened calls.
Proof.
  intros Ha H. apply bpf_load_and_run_outcome in H as (calls & Hl & Ho); [|done].
  exists calls. split; [done|]. split; [done|]. by eapply outcome_closes.
Qed.

(** The first bytes of the attribute, which is what a wrapper passes to the kernel,
    hold the arguments in the members the kernel takes them from, zeros in the other
    members, and nothing of what the variable held before. *)
Lemma attributes_carry_arguments mt name ks vs me fd key value flags id tp prog_fd target_fd attach_type
    sleepable addr_map_fd addr_license opts :
  carries (offsetofend ["map_extra"%string]) (fun g => skel_map_create_attr g mt name ks vs me)
    [(["map_type"%string], u32 mt); (["map_name"%string], le_value (strncpy name 16));
     (["key_size"%string], u32 ks); (["value_size"%string], u32 vs); (["max_entries"%string], u32 me);
     (["map_flags"%string], 0); (["inner_map_fd"%string], 0); (["numa_node"%string], 0);
     (["map_ifindex"%string], 0); (["btf_fd"%string], 0); (["map_extra"%string], 0)] /\
  carries (offsetofend ["flags"%string]) (fun g => skel_map_update_elem_attr g fd key value flags)
    [(["map_fd"%string], u32 fd); (["key"%string], u64 key); (["value"%string], u64 value);
     (["flags"%string], u64 flags)] /\
  carries (offsetofend ["flags"%string]) (fun g => skel_map_delete_elem_attr g fd key)
    [(["map_fd"%string], u32 fd); (["key"%string], u64 key); (["value"%string], 0); (["flags"%string], 0)] /\
  carries (offsetofend ["flags"%string]) (fun g => skel_map_get_fd_by_id_attr g id)
    [(["map_id"%string], u32 id); (["next_id"%string], 0); (["open_flags"%string], 0)] /\
  carries (offsetofend ["raw_tracepoint"; "prog_fd"]%string) (fun g => skel_raw_tracepoint_open_attr g tp prog_fd)
    [(["raw_tracepoint"; "name"]%string, u64 tp); (["raw_tracepoint"; "prog_fd"]%string, u32 prog_fd)] /\
  carries (offsetofend ["link_create"; "iter_info_len"]%string)
    (fun g => skel_link_create_attr g prog_fd target_fd attach_type)
    [(["link_create"; "prog_fd"]%string, u32 prog_fd); (["link_create"; "target_fd"]%string, u32 target_fd);
     (["link_create"; "attach_type"]%string, u32 attach_type); (["link_create"; "flags"]%string, 0);
     (["link_create"; "iter_info"]%string, 0); (["link_create"; "iter_info_len"]%string, 0)] /\
  carries (offsetofend ["fd_array"%string]) (fun g => prog_load_attr g sleepable addr_map_fd addr_license opts)
    [(["prog_type"%string], u32 BPF_PROG_TYPE_SYSCALL); (["insn_cnt"%string], u32 (o_insns_sz opts / 8));
     (["insns"%string], u64 (o_insns opts)); (["license"%string], u64 addr_license);
     (["log_level"%string], u32 (lc_log_level (o_ctx opts))); (["log_size"%string], u32 (lc_log_size (o_ctx opts)));
     (["log_buf"%string], u64 (lc_log_buf (o_ctx opts))); (["kern_version"%string], 0);
     (["prog_flags"%string], u32 sleepable); (["prog_ifindex"%string], 0);
     (["fd_array"%string], u64 addr_map_fd)].
Proof.
  split; [apply map_create_carries|]. split; [apply map_update_carries|]. split; [apply map_delete_carries|].
  split; [apply get_fd_by_id_carries|]. split; [apply raw_tracepoint_carries|].
  split; [apply link_create_carries | apply prog_load_carries].
Qed.

(** * Examples *)

(** A kernel that opens the descriptors 3 and 4 and does not run the program: EINVAL. *)
Definition demo_sys_bpf (cmd : Z) (attr : bpf_attr) (n : nat) (k : unit) : Z * bpf_attr * unit :=
  ((if cmd =? BPF_MAP_CREATE then 3 else if cmd =? BPF_PROG_LOAD then 4
    else if cmd =? BPF_PROG_RUN then - EINVAL else 0), attr, k).
Definition demo_opts : bpf_load_and_run_opts := {|
  o_ctx := {| lc_sz := 24; lc_flags := 0; lc_log_level := 0; lc_log_size := 0; lc_log_buf := 0 |};
  o_ctx_addr := 4096; o_data := 8192; o_insns := 12288; o_data_sz := 100; o_insns_sz := 800; o_errstr := None |}.
Definition demo_run := bpf_load_and_run demo_sys_bpf (fun _ k => (0, k)) false (replicate 144 7) 16 100 200 300
  demo_opts {| sk_kern := (); errno := 0; log := [] |}.

Lemma load_and_run_refines_witness :
  demo_run.1 = (-22, Some "failed to execute loader prog"%string) /\
  closed (log demo_run.2) = [3; 4] /\ closed (log demo_run.2) = opened (log demo_run.2).
Proof.
  destruct demo_run as [[err es] st'] eqn:E. pose proof E as E'. unfold demo_run in E.
  apply load_and_run_refines in E as (calls & Hl & _ & Hc).
  - vm_compute in E'. injection E' as <- <- <-. cbn in Hl. subst calls. by repeat split.
  - intros cmd attr n k. unfold demo_sys_bpf. cbn. repeat case_match; unfold EINVAL; lia.
Defined.
