(* ===== verification/SkelData.v ===== *)
(** The data of a skeleton, headers/bpf/skel_internal.h: skel_alloc, skel_free and the
    functions that prepare the initial value of a map, exchange it for the map's own
    memory and release it, for the kernel (Module [kern]) and for programs (Module [user]).

    The allocators are a parameter that picks addresses.  An operation that would be
    undefined - a write outside a block, freeing what is not allocated - is [None]. *)
From S2P Require Import Prelude Layout KernelTypes Vmlinux518 Skel.
Open Scope Z_scope.
Open Scope bpf_scope.

(** * Memory *)

(** A block has bytes of its own, or is the memory of the map behind a descriptor. *)
Inductive block := Own (bs : list Z) | MapValue (fd prot : Z).

(** The blocks by their addresses, and the references to maps that are held. *)
Record space := { blocks : gmap Z block; held : list Z }.

#[export] Instance eta_space : Eta space := fun s => {| blocks := blocks s; held := held s |}.

(** A write of [val] at the offset [o] of the block at [p]. *)
Definition write (p : Z) (o : nat) (val : list Z) (s : space) : option space :=
  match blocks s !! p with
  | Some (Own bs) =>
      if (o + length val <=? length bs)%nat then Some (s <| blocks := <[p := Own (splice o val bs)]> (blocks s) |>)
      else None
  | _ => None
  end.
Definition memcpy (p : Z) (val : list Z) (s : space) : option space := write p 0 val s.

(** kfree, kvfree and free *)
Definition release (p : Z) (s : space) : option space :=
  if p =? 0 then Some s
  else match blocks s !! p with
       | Some (Own _) => Some (s <| blocks := delete p (blocks s) |>)
       | _ => None
       end.

(** [~0ULL] *)
Definition ALL_ONES : Z := 2 ^ 64 - 1.
Definition BPF_SKEL_KERNEL : Z := 1.

(** An allocator is what picks an address, 0 if there is no memory. *)
Definition allocate (pick : nat -> space -> Z) (bs : list Z) (s : space) : Z * space :=
  let p := pick (length bs) s in
  if p =? 0 then (0, s) else (p, s <| blocks := <[p := Own bs]> (blocks s) |>).

Module kern.
Section Kern.
(** The allocator, and what its blocks hold. *)
Context (pick : nat -> space -> Z) (rubbish : nat -> list Z).
(** [bpf_map_get]: the type of the map of a descriptor and the address of its value. *)
Context (bpf_map : Z -> option (Z * Z)).

Definition skel_alloc (size : nat) (s : space) : option (Z * space) :=
  let '(ctx, s) := allocate pick (replicate size 0) s in
  if ctx =? 0 then Some (0, s)
  else s ← write ctx 4 (le_bytes 4 (Z.lor 0 BPF_SKEL_KERNEL)) s; Some (ctx, s).
Definition skel_free (p : Z) (s : space) : option space := release p s.

Definition skel_free_map_data (p addr : Z) (sz : nat) (s : space) : option space :=
  if negb (addr =? ALL_ONES) then release p s else Some s.

Definition skel_prep_map_data (val : list Z) (mmap_sz : nat) (s : space) : option (Z * space) :=
  let '(addr, s) := allocate pick (rubbish (length val)) s in
  if addr =? 0 then Some (0, s) else s ← memcpy addr val s; Some (addr, s).

Definition bpf_map_get (fd : Z) (s : space) : space := s <| held := fd :: held s |>.
Definition bpf_map_put (s : space) : space := s <| held := tail (held s) |>.

(** The address of the map's value, and what [*init_val] is afterwards. *)
Definition skel_finalize_map_data (init_val : Z) (mmap_sz : nat) (flags fd : Z) (s : space)
    : option (Z * Z * space) :=
  s ← release init_val s;
  let init_val := ALL_ONES in
  match bpf_map fd with
  | None => Some (0, init_val, s)
  | Some (map_type, value) =>
      let s := bpf_map_get fd s in
      let addr := if negb (map_type =? BPF_MAP_TYPE_ARRAY) then 0 else value in
      Some (addr, init_val, bpf_map_put s)
  end.
End Kern.
End kern.

Module user.
Section User.
Context (pick : nat -> space -> Z).
(** Whether [mmap] of a descriptor at an address succeeds. *)
Context (can_map : Z -> nat -> Z -> Z -> bool).

Definition skel_alloc (size : nat) (s : space) : Z * space := allocate pick (replicate size 0) s.
Definition skel_free (p : Z) (s : space) : option space := release p s.

(** [munmap]: what is not mapped stays so. *)
Definition skel_free_map_data (p addr : Z) (sz : nat) (s : space) : space :=
  s <| blocks := delete p (blocks s) |>.

(** An anonymous mapping is full of zeros. *)
Definition skel_prep_map_data (val : list Z) (mmap_sz : nat) (s : space) : option (Z * space) :=
  let '(addr, s) := allocate pick (replicate mmap_sz 0) s in
  if addr =? 0 then Some (0, s) else s ← memcpy addr val s; Some (addr, s).

(** The third argument of mmap is the protection, which the callers pass as [flags]. *)
Definition skel_finalize_map_data (init_val : Z) (mmap_sz : nat) (flags fd : Z) (s : space) : Z * Z * space :=
  if can_map init_val mmap_sz flags fd
  then (init_val, init_val, s <| blocks := <[init_val := MapValue fd flags]> (blocks s) |>)
  else (0, init_val, s).
End User.
End user.

(** * The data's life *)

Section Data.
Context (pick : nat -> space -> Z) (rubbish : nat -> list Z).
(** A new block has an address that was free and is neither NULL nor [~0ULL]. *)
Context (Hpick : forall n s, pick n s <> 0 -> pick n s <> ALL_ONES /\ blocks s !! pick n s = None).
Context (Hrubbish : forall n, length (rubbish n) = n).
Implicit Types s : space.

Lemma allocate_cases bs s :
  allocate pick bs s = (0, s) \/
  exists p, allocate pick bs s = (p, s <| blocks := <[p := Own bs]> (blocks s) |>) /\
    p <> 0 /\ p <> ALL_ONES /\ blocks s !! p = None.
Proof.
  unfold allocate. cbv zeta. destruct (Z.eqb_spec (pick (length bs) s) 0) as [Hp | Hp]; [by left | right].
  exists (pick (length bs) s). split; [done|]. destruct (Hpick _ _ Hp). done.
Qed.

Lemma memcpy_new p bs val s :
  (length val <= length bs)%nat ->
  memcpy p val (s <| blocks := <[p := Own bs]> (blocks s) |>) =
    Some (s <| blocks := <[p := Own (val ++ drop (length val) bs)]> (blocks s) |>).
Proof.
  intros Hl. unfold memcpy, write. cbn [blocks]. rewrite lookup_insert_eq. cbn [Nat.add].
  rewrite (proj2 (Nat.leb_le _ _)) by done. cbn [blocks held]. by rewrite insert_insert_eq.
Qed.

Lemma release_new p bs s :
  p <> 0 -> blocks s !! p = None -> release p (s <| blocks := <[p := Own bs]> (blocks s) |>) = Some s.
Proof.
  intros Hp Hn. unfold release. rewrite (proj2 (Z.eqb_neq _ _)) by done. cbn [blocks held].
  rewrite lookup_insert_eq, delete_insert_id by done. by destruct s.
Qed.

(** In the kernel: if there is memory, the block holds the initial value, at an address
    that the loader can read it from.  Whether the data is then released at once, after an
    error, or first exchanged for the memory of the map, nothing stays allocated, nothing
    is freed twice and no reference to the map is kept. *)
Lemma kernel_data_life bpf_map val mmap_sz flags fd sz s :
  kern.skel_prep_map_data pick rubbish val mmap_sz s = Some (0, s) \/
  exists p s1, kern.skel_prep_map_data pick rubbish val mmap_sz s = Some (p, s1) /\ p <> 0 /\ blocks s1 !! p = Some (Own val) /\
    kern.skel_free_map_data p p sz s1 = Some s /\
    exists addr, kern.skel_finalize_map_data bpf_map p mmap_sz flags fd s1 = Some (addr, ALL_ONES, s) /\
      kern.skel_free_map_data addr ALL_ONES sz s = Some s /\
      addr = match bpf_map fd with
             | Some (map_type, value) => if map_type =? BPF_MAP_TYPE_ARRAY then value else 0
             | None => 0
             end.
Proof.
  unfold kern.skel_prep_map_data.
  destruct (allocate_cases (rubbish (length val)) s) as [-> | (p & -> & Hp & Ha & Hn)]; [by left | right].
  rewrite (proj2 (Z.eqb_neq p 0)), memcpy_new, drop_ge, app_nil_r by (done || rewrite Hrubbish; lia).
  eexists p, _. split; [done|]. split; [done|]. split; [apply lookup_insert_eq|].
  unfold kern.skel_free_map_data, kern.skel_finalize_map_data.
  rewrite (proj2 (Z.eqb_neq p ALL_ONES)), Z.eqb_refl, release_new by done. split; [done|].
  cbn [mbind option_bind negb]. destruct (bpf_map fd) as [[map_type value]|]; [|by exists 0].
  exists (if map_type =? BPF_MAP_TYPE_ARRAY then value else 0). split; [|done].
  by destruct s, (map_type =? _).
Qed.

(** A program: the mapping holds the value, then zeros; when the map has been mapped over it
    the address is that of the map's memory, and releasing the data unmaps it.  If that
    fails the caller loses the address, and the first mapping stays. *)
Lemma user_data_life can_map val mmap_sz flags fd s :
  (length val <= mmap_sz)%nat ->
  user.skel_prep_map_data pick val mmap_sz s = Some (0, s) \/
  exists p s1, user.skel_prep_map_data pick val mmap_sz s = Some (p, s1) /\ p <> 0 /\
    blocks s1 !! p = Some (Own (val ++ replicate (mmap_sz - length val) 0)) /\
    user.skel_free_map_data p p mmap_sz s1 = s /\
    let '(addr, init_val, s2) := user.skel_finalize_map_data can_map p mmap_sz flags fd s1 in
    let freed := user.skel_free_map_data addr init_val mmap_sz s2 in
    if can_map p mmap_sz flags fd
    then addr = p /\ blocks s2 !! p = Some (MapValue fd flags) /\ freed = s
    else addr = 0 /\ (blocks s !! 0 = None -> freed = s1).
Proof.
  intros Hl. unfold user.skel_prep_map_data.
  destruct (allocate_cases (replicate mmap_sz 0) s) as [-> | (p & -> & Hp & Ha & Hn)]; [by left | right].
  rewrite (proj2 (Z.eqb_neq p 0)), memcpy_new, drop_replicate by (done || rewrite length_replicate; lia).
  eexists p, _. split; [done|]. split; [done|]. split; [apply lookup_insert_eq|].
  unfold user.skel_free_map_data, user.skel_finalize_map_data. cbn [blocks held].
  rewrite delete_insert_id by done. split; [by destruct s|].
  destruct (can_map p mmap_sz flags fd); cbn [blocks held].
  - rewrite insert_insert_eq, lookup_insert_eq, delete_insert_id by done. repeat split. by destruct s.
  - split; [done|]. intros H0. by rewrite delete_id by by rewrite lookup_insert_ne.
Qed.

(** More data than the mapping has room for is a write past its end. *)
Lemma user_data_too_long val mmap_sz s :
  (mmap_sz < length val)%nat -> pick mmap_sz s <> 0 -> user.skel_prep_map_data pick val mmap_sz s = None.
Proof.
  intros Hl Hp. unfold user.skel_prep_map_data, allocate. cbv zeta. rewrite length_replicate.
  rewrite (proj2 (Z.eqb_neq _ 0)) by done. cbv iota. rewrite (proj2 (Z.eqb_neq _ 0)) by done.
  unfold memcpy, write. cbn [blocks]. rewrite lookup_insert_eq, length_replicate.
  by rewrite (proj2 (Nat.leb_gt _ _)) by (cbn; lia).
Qed.

(** The context of a loader that runs in the kernel says so, and is otherwise zero. *)
Lemma kernel_context size s :
  (8 <= size)%nat ->
  kern.skel_alloc pick size s = Some (0, s) \/
  exists ctx s1, kern.skel_alloc pick size s = Some (ctx, s1) /\ ctx <> 0 /\
    blocks s1 !! ctx = Some (Own ([0; 0; 0; 0; 1; 0; 0; 0] ++ replicate (size - 8) 0)) /\
    kern.skel_free ctx s1 = Some s.
Proof.
  intros Hs. unfold kern.skel_alloc.
  destruct (allocate_cases (replicate size 0) s) as [-> | (p & -> & Hp & _ & Hn)]; [by left | right].
  rewrite (proj2 (Z.eqb_neq p 0)) by done. unfold write. cbn [blocks held]. rewrite lookup_insert_eq, length_replicate.
  rewrite (proj2 (Nat.leb_le _ _)) by (cbn; lia). cbn [mbind option_bind blocks held].
  eexists p, _. split; [done|]. split; [done|]. rewrite insert_insert_eq. split.
  - cbn [blocks]. rewrite lookup_insert_eq. unfold splice. rewrite take_replicate, drop_replicate.
    change (length (le_bytes 4 (Z.lor 0 BPF_SKEL_KERNEL))) with 4%nat. by rewrite (Nat.min_l 4) by lia.
  - by apply release_new.
Qed.
End Data.
