(* ===== verification/Wire.v ===== *)
(** The records and the arguments that the programs and the agent exchange.

    For every structure of the programs' headers its layout and the members of a
    value in order; for every record the sizes of the members the agent reads
    (pkg/ebpf/cpu/*.go, pkg/ebpf/uprobe).  Signed members are listed as the
    unsigned integers that have the same bytes. *)
From S2P Require Import Prelude Prog BpfMap Bits Layout FutexSnoop OnCpu Syscall CacheStat OffCpu Probes KernelTypes Kernel.
Open Scope Z_scope.
Open Scope bpf_scope.

Definition t_u8 : ctype := TInt 1.
Definition t_u16 : ctype := TInt 2.
Definition t_u32 : ctype := TInt 4.
Definition t_u64 : ctype := TInt 8.
Definition t_comm : ctype := TArr TASK_COMM_LEN t_u8.

Definition b2z (b : bool) : Z := if b then 1 else 0.

(** * futexsnoop.h *)

Definition hist_key_layout : ctype := TStruct [t_u64; t_u64; t_u32].
Definition futex_args_layout : ctype := TStruct [t_u32; t_u32; t_u64; t_u8; t_u32; t_u32; t_u32].
Definition hist_layout : ctype :=
  TStruct [TArr (Z.to_nat MAX_SLOTS) t_u32; t_comm; t_u64; t_u64; t_u32; t_u32; t_u64; t_u64;
           t_u64; t_u64; t_u64; t_u64].
Definition lock_stat_layout : ctype := TStruct [t_u32; t_u32; t_u64; t_comm; t_u64; t_u64].

Definition hist_members (h : hist) : list Z :=
  slots h ++ h_comm h ++ [h_pid_tgid h; h_uaddr h; u32 (h_user_stack_id h); h_pad h;
    contended h; total_elapsed h; min_dur h; max_dur h; delta_dur h; max_dur_ts h].
Definition lock_stat_members (l : lock_stat) : list Z :=
  [user_cnt l; max_user_cnt l; l_uaddr l] ++ l_comm l ++ [l_pid_tgid l; l_ts l].

(** The bytes of a record sent by the futex snooper. *)
Definition fx_bytes (ev : fx_event) : list Z :=
  match ev with
  | EvLock l => encode lock_stat_layout (lock_stat_members l)
  | EvHist h => encode hist_layout (hist_members h)
  end.

(** * oncpu.h *)

Definition profile_key_layout : ctype := TStruct [t_u32; t_u64; t_u64; t_comm].
Definition profile_value_layout : ctype := TStruct [t_u64; t_u64].
Definition profile_bss_args_layout : ctype := TStruct [t_u32; t_u32; t_u32].
Definition net_args_layout : ctype := TStruct [t_u32; t_u32; t_u32].
Definition trace_info_layout : ctype :=
  TStruct [t_u64; t_u32; t_u32; t_u32; t_u16; t_u16; t_u32; t_u64; t_u64; t_comm].

Definition profile_key_members (k : profile_key_t) : list Z :=
  [pk_pid k; u64 (OnCpu.kern_stack k); u64 (OnCpu.user_stack k)] ++ pk_comm k.

(** * syscall.h *)

Definition syscall_args_layout : ctype := TStruct [t_u32; t_u32; t_u32; t_u32; t_u8; t_u32].
Definition syscall_event_layout : ctype :=
  TStruct [t_u32; t_u32; t_u64; t_u64; t_u64; t_u64; t_u64; t_comm].

Definition syscall_event_members (e : syscall_event) : list Z :=
  [Syscall.ev_pid e; Syscall.ev_tid e; ts_ns e; dur_us e; u64 (u_stack_id e); u64 (k_stack_id e);
   ev_syscall_id e] ++ Syscall.ev_comm e.

(** * cachestat.h *)

Definition cachestat_args_layout : ctype := TStruct [t_u32; t_u32; t_u32; t_u32].
Definition cache_key_layout : ctype := TStruct [t_u64; t_u64].
Definition cache_info_layout : ctype :=
  TStruct [t_u32; t_u32; t_comm; TArr CACHE_FILE_SIZE t_u8; t_u64; t_u64; t_u64].

Definition cache_info_members (i : cache_info) : list Z :=
  [ci_pid i; ci_cpu i] ++ ci_comm i ++ ci_file i ++ [read_size i; write_size i; cnt i].

(** * offcpu.h *)

Definition pid_info_layout : ctype := TStruct [t_u32; t_u32].
Definition offcpu_args_layout : ctype := TStruct [t_u32; t_u32; t_u32; t_u32; t_u32].
Definition waker_layout : ctype :=
  TStruct [t_u32; t_u32; t_u32; t_u32; t_comm; t_u32; t_u32; t_comm; t_u64; t_u64; t_u64;
           t_u32; t_u32; t_u64].
Definition target_layout : ctype :=
  TStruct [t_u32; t_u32; t_u32; t_u32; t_comm; t_u32; t_u32; t_comm; t_u64; t_u64; t_u64;
           t_u32; t_u32; t_u64].
Definition perf_event_layout : ctype :=
  TStruct [waker_layout; target_layout; t_u64; t_u64; t_u64; t_u32; t_u32].
Definition trace_event_layout : ctype := TStruct [waker_layout; target_layout].
Definition sched_record_layout : ctype := TStruct [t_u32; t_u32; t_comm; t_u64].
Definition sched_cached_layout : ctype :=
  TStruct [t_u32; t_u32; t_u32; t_u32; TArr (Z.to_nat SCHED_CACHE_SIZE) sched_record_layout].

Definition waker_members (w : waker_t) : list Z :=
  [wk_pid w; wk_tgid w; wk_t_pid w; wk_pad w] ++ wk_t_comm w ++
  [u32 (wk_user_stack_id w); u32 (wk_kern_stack_id w)] ++ wk_comm w ++
  [wk_oncpu_ns w; wk_offcpu_ns w; wk_onrq_ns w; wk_offcpu_id w; wk_oncpu_id w; wk_run_delay_ns w].
Definition target_members (t : target_t) : list Z :=
  [tg_pid t; tg_tgid t; tg_w_pid t; tg_pad t] ++ tg_w_comm t ++
  [u32 (tg_user_stack_id t); u32 (tg_kern_stack_id t)] ++ tg_comm t ++
  [tg_oncpu_ns t; tg_offcpu_ns t; tg_onrq_ns t; tg_offcpu_id t; tg_oncpu_id t; tg_run_delay_ns t].
Definition perf_event_members (p : perf_event_t) : list Z :=
  waker_members (pe_waker p) ++ target_members (pe_target p) ++
  [dur_ms p; pe_rq_dur_ms p; pe_ts_ns p; is_sched_cache_dump p; pe_cpu p].
Definition sched_record_members (r : sched_record) : list Z :=
  [sr_pid r; sr_prio r] ++ sr_comm r ++ [sr_ts r].
Definition sched_cached_members (c : sched_cached) : list Z :=
  [sc_status c; sc_cpu c; sc_id c; sc_pad c] ++ mjoin (sched_record_members <$> records c).

(** The bytes of an event as they are sent: the element of [perf_event_cache_map] is
    declared as the kernel's [struct perf_event], and so is the size that is sent;
    the program uses the beginning of it as a [struct perf_event_t]. *)
Definition of_bytes (k : kernel) (p : perf_event_t) : list Z :=
  pad_to (Z.to_nat (ksize (k_perf_event k))) (encode perf_event_layout (perf_event_members p)).

(** * uretprobe.c *)

Definition event_layout : ctype := TStruct [t_u32; t_u32; t_u64; t_comm; TArr LINE_SIZE t_u8].

Definition event_members (e : event) : list Z :=
  [Probes.ev_pid e; ev_tgid e; ev_ts e] ++ Probes.ev_comm e ++ ev_line e.

(** * The agent *)

(** Go's types, by the sizes of their members: LockStat and TaskLockStat of
    futexsnoop.go, SyscallEvent of syscall.go, OffCpuEvent and SchedCached of
    offcpu.go, bpfEvent of bpf_bpfel_x86.go. *)
Definition go_comm : list nat := replicate 16 1%nat.
Definition LockStat : list nat := [4; 4; 8]%nat ++ go_comm ++ [8; 8]%nat.
Definition TaskLockStat : list nat :=
  replicate 24 4%nat ++ go_comm ++ [8; 8; 4; 4; 8; 8; 8; 8; 8; 8]%nat.
Definition SyscallEvent : list nat := [4; 4; 8; 8; 8; 8; 4]%nat ++ go_comm.
Definition Waker : list nat :=
  [4; 4; 4; 4]%nat ++ go_comm ++ [4; 4]%nat ++ go_comm ++ [8; 8; 8; 4; 4; 8]%nat.
Definition Target : list nat := Waker.
Definition OffCpuEvent : list nat := Waker ++ Target ++ [8; 8; 8; 4; 4]%nat.
Definition SchedRecord : list nat := [4; 4]%nat ++ go_comm ++ [8]%nat.
Definition SchedCached : list nat := [4; 4; 4; 4]%nat ++ mjoin (replicate 512 SchedRecord).
Definition bpfEvent : list nat := 4%nat :: replicate 80 1%nat.

(** [unsafe.Sizeof] of LockStat and of TaskLockStat. *)
Definition sizeLock : nat := 48.
Definition sizeTask : nat := 184.

(** Members of a decoded record, from position [i] on. *)
Definition member (vs : list Z) (i : nat) : Z := default 0 (vs !! i).
Definition members (vs : list Z) (i n : nat) : list Z := take n (drop i vs).

Definition lock_of_members (vs : list Z) : lock_stat := {|
  user_cnt := member vs 0; max_user_cnt := member vs 1; l_uaddr := member vs 2;
  l_comm := members vs 3 16; l_pid_tgid := member vs 19; l_ts := member vs 20 |}.

Definition hist_of_members (vs : list Z) : hist := {|
  slots := members vs 0 24; h_comm := members vs 24 16; h_pid_tgid := member vs 40;
  h_uaddr := member vs 41; h_user_stack_id := s32 (member vs 42); h_pad := member vs 43;
  contended := member vs 44; total_elapsed := member vs 45; min_dur := member vs 46;
  max_dur := member vs 47; delta_dur := member vs 48; max_dur_ts := member vs 49 |}.

(** FutexSnoopSession.HandleEvent: the length of the data tells the two kinds of
    records apart. *)
Definition HandleEvent (data : list Z) : option fx_event :=
  if (sizeLock <=? length data)%nat && (length data <? sizeTask)%nat then
    EvLock ∘ lock_of_members <$> go_read LockStat data
  else if (sizeTask <=? length data)%nat then
    EvHist ∘ hist_of_members <$> go_read TaskLockStat data
  else None.

(** What the Go structure FutexSnoopArgs holds when FutexSnoopSession.initArgsMap
    writes it to [args_map]: the members in its order (Tid, Pid, TargetLock,
    Stack, MinDurMs, MaxDurMs, MaxLockHoldUsers), TargetLock and Stack not set. *)
Definition FutexSnoopArgs : ctype := TStruct [t_u32; t_u32; t_u64; t_u8; t_u32; t_u32; t_u32].
Definition initArgsMap (pid tid min_ms max_ms users : Z) : list Z :=
  encode FutexSnoopArgs [tid; pid; 0; 0; min_ms; max_ms; users].

(** How the program sees the bytes of its arguments. *)
Definition user_args_of_bytes (bs : list Z) : FutexSnoop.user_args :=
  let vs := c_read futex_args_layout bs in {|
    FutexSnoop.targ_pid := member vs 0; targ_tid := member vs 1; targ_lock := member vs 2;
    FutexSnoop.arg_stack := nz (member vs 3); min_dur_ms := member vs 4; max_dur_ms := member vs 5;
    max_lock_hold_users := member vs 6 |}.
