(* ===== verification/WireSpec.v ===== *)
(** What the agent understands of the programs' records, and the programs of the
    agent's arguments: properties of [Wire]. *)
From S2P Require Import Prelude Prog BpfMap Bits Layout FutexSnoop OnCpu Syscall CacheStat OffCpu Probes KernelTypes Kernel Wire.
Open Scope Z_scope.
Open Scope bpf_scope.

(** A record whose members are in the range of their C types. *)
Definition well_formed (t : ctype) (vs : list Z) : Prop := fits (leaves 0 t) vs.

(** * Records of the futex snooper *)

Definition fx_event_ok (ev : fx_event) : Prop :=
  match ev with
  | EvLock l => length (l_comm l) = 16%nat /\ well_formed lock_stat_layout (lock_stat_members l)
  | EvHist h =>
      length (slots h) = 24%nat /\ length (h_comm h) = 16%nat /\
      - 2 ^ 31 <= h_user_stack_id h < 2 ^ 31 /\ well_formed hist_layout (hist_members h)
  end.

Lemma lock_compatible : go_compatible lock_stat_layout LockStat = true.
Proof. vm_compute. reflexivity. Qed.

Lemma hist_compatible : go_compatible hist_layout TaskLockStat = true.
Proof. vm_compute. reflexivity. Qed.

#[local] Arguments firstn : simpl never.

Lemma lock_of_lock_members l : length (l_comm l) = 16%nat -> lock_of_members (lock_stat_members l) = l.
Proof.
  destruct l as [a b c comm d e]. cbn. intros Hl. unfold lock_of_members, lock_stat_members, member, members.
  change (drop 3 (a :: b :: c :: comm ++ [d; e])) with (comm ++ [d; e]).
  rewrite take_app_length' by done.
  change ((a :: b :: c :: comm ++ [d; e]) !! 19%nat) with ((comm ++ [d; e]) !! 16%nat).
  change ((a :: b :: c :: comm ++ [d; e]) !! 20%nat) with ((comm ++ [d; e]) !! 17%nat).
  rewrite !lookup_app_r by lia. by rewrite Hl.
Qed.

Lemma hist_of_hist_members h :
  length (slots h) = 24%nat -> length (h_comm h) = 16%nat -> - 2 ^ 31 <= h_user_stack_id h < 2 ^ 31 ->
  hist_of_members (hist_members h) = h.
Proof.
  destruct h as [sl comm a b c d e f g i j k]. cbn [slots h_comm h_user_stack_id]. intros Hs Hc Hst.
  unfold hist_of_members, hist_members, member, members.
  cbn [slots h_comm h_pid_tgid h_uaddr h_user_stack_id h_pad contended total_elapsed min_dur max_dur
       delta_dur max_dur_ts].
  rewrite drop_0, (take_app_length' sl), (drop_app_length' sl), (take_app_length' comm) by done.
  rewrite !lookup_app_r by (rewrite ?length_app; lia). rewrite Hs, Hc. cbn.
  by rewrite sN_uN, sN_id by lia.
Qed.

(** The two kinds of records that the futex snooper sends through one buffer are told
    apart by their length and decoded to what was sent, whatever the (less than 8)
    bytes are that the kernel appends. *)
Lemma futex_record_decodes ev rest :
  fx_event_ok ev -> (length rest < 8)%nat -> HandleEvent (fx_bytes ev ++ rest) = Some ev.
Proof.
  intros Hok Hrest. unfold HandleEvent. destruct ev as [l | h]; cbn [fx_bytes fx_event_ok] in *.
  - destruct Hok as [Hl Hwf].
    assert (Hlen : length (encode lock_stat_layout (lock_stat_members l)) = sizeLock).
    { rewrite (encode_pack _ LockStat); [|by vm_compute..|done].
      rewrite length_pack; [done|]. apply fits_sized in Hwf. exact Hwf. }
    rewrite length_app, Hlen. unfold sizeLock, sizeTask.
    rewrite (proj2 (Nat.leb_le _ _)), (proj2 (Nat.ltb_lt _ _)) by lia. cbn [andb].
    rewrite go_read_encode by (apply lock_compatible || done). cbn -[lock_of_members lock_stat_members].
    by rewrite lock_of_lock_members.
  - destruct Hok as (Hs & Hc & Hst & Hwf).
    assert (Hlen : length (encode hist_layout (hist_members h)) = sizeTask).
    { rewrite (encode_pack _ TaskLockStat); [|by vm_compute..|done].
      rewrite length_pack; [done|]. apply fits_sized in Hwf. exact Hwf. }
    rewrite length_app, Hlen. unfold sizeLock, sizeTask.
    rewrite (proj2 (Nat.ltb_ge (184 + length rest) 184)), andb_false_r by lia.
    rewrite (proj2 (Nat.leb_le _ _)) by lia.
    rewrite go_read_encode by (apply hist_compatible || done). cbn -[hist_of_members hist_members].
    by rewrite hist_of_hist_members.
Qed.

(** * Records of the off-CPU profiler *)

(** The event fits into the element that the program uses for it. *)
Lemma perf_event_fits k :
  k = linux_518 \/ k = linux_510 -> csize perf_event_layout <= ksize (k_perf_event k).
Proof. intros [-> | ->]; vm_compute; discriminate. Qed.

(** The agent reads every member of an event and of a copied ring as the program
    wrote it, whatever follows the record. *)
Lemma offcpu_event_decodes k p rest :
  well_formed perf_event_layout (perf_event_members p) ->
  go_read OffCpuEvent (of_bytes k p ++ rest) = Some (perf_event_members p).
Proof.
  intros Hp. unfold of_bytes, pad_to. rewrite <- app_assoc.
  apply go_read_encode; [vm_compute; reflexivity | done].
Qed.

Lemma sched_cached_decodes c rest :
  well_formed sched_cached_layout (sched_cached_members c) ->
  go_read SchedCached (encode sched_cached_layout (sched_cached_members c) ++ rest) =
    Some (sched_cached_members c).
Proof. intros Hc. apply go_read_encode; [vm_compute; reflexivity | done]. Qed.

(** An off-CPU event lies inside the kernel-sized element the program uses for
    it, on both kernels of the headers, and exactly that element is sent: about five
    times as many bytes as the event has. *)
Lemma offcpu_record_length k p :
  k = linux_518 \/ k = linux_510 ->
  well_formed perf_event_layout (perf_event_members p) ->
  csize perf_event_layout <= ksize (k_perf_event k) /\
  Z.of_nat (length (of_bytes k p)) = ksize (k_perf_event k).
Proof.
  intros Hk Hp. pose proof (perf_event_fits k Hk) as Hfits. split; [done|].
  assert (Hs : csize perf_event_layout = Z.of_nat (sum_list OffCpuEvent)) by by vm_compute.
  assert (Hl : length (encode perf_event_layout (perf_event_members p)) = sum_list OffCpuEvent).
  { rewrite (encode_pack _ OffCpuEvent); [|by vm_compute..|done].
    apply length_pack. apply fits_sized in Hp. exact Hp. }
  unfold of_bytes, pad_to. rewrite length_app, length_replicate, Hl. lia.
Qed.

(** * Records of the slow-syscall tracer *)

Lemma sized_bytes n bs :
  Forall (fun b => 0 <= b < 256) bs -> length bs = n -> sized (replicate n 1%nat) bs.
Proof. intros Hb <-. apply Forall2_replicate_l; [done|]. exact Hb. Qed.

Lemma sized_bytes_inv bs :
  sized (replicate (length bs) 1%nat) bs -> Forall (fun b => 0 <= b < 256) bs.
Proof.
  intros Hs. induction bs as [|b bs IH]; [done|].
  apply Forall2_cons in Hs as [Hb Hs]. constructor; [exact Hb | by apply IH].
Qed.

(** The 8 bytes of the number and the name, read as 4 bytes and 16 bytes. *)
Lemma le_shift_comm id comm :
  length comm = 16%nat -> Forall (fun b => 0 <= b < 256) comm ->
  pack ([8]%nat ++ go_comm) ([id] ++ comm) =
    pack ([4]%nat ++ go_comm) ([id mod 2 ^ 32] ++ (le_bytes 4 (id / 2 ^ 32) ++ take 12 comm)) ++
    drop 12 comm.
Proof.
  intros Hl Hb.
  assert (Hc : pack go_comm comm = comm).
  { unfold go_comm. rewrite <- Hl. by apply pack_bytes. }
  assert (Hc' : pack go_comm (le_bytes 4 (id / 2 ^ 32) ++ take 12 comm) =
    le_bytes 4 (id / 2 ^ 32) ++ take 12 comm).
  { replace go_comm with (replicate (length (le_bytes 4 (id / 2 ^ 32) ++ take 12 comm)) 1%nat)
      by by rewrite length_app, length_le_bytes, length_take, Hl.
    apply pack_bytes, Forall_app. split; [apply le_bytes_range | by apply Forall_take]. }
  rewrite !pack_app by done. rewrite Hc, Hc'. cbn [pack]. rewrite !app_nil_r.
  rewrite (le_bytes_mod 4), (le_bytes_add 4 4), <- !app_assoc. by rewrite take_drop.
Qed.

(** The agent's SyscallEvent has 32 bits for the call's number, the program
    writes 64: the agent's name of the thread is shifted by 4 bytes, so that it
    begins with the upper half of the number and misses the last 4 characters. *)
Lemma syscall_comm_shifted e :
  length (Syscall.ev_comm e) = 16%nat ->
  well_formed syscall_event_layout (syscall_event_members e) ->
  go_read SyscallEvent (encode syscall_event_layout (syscall_event_members e)) =
    Some ([Syscall.ev_pid e; Syscall.ev_tid e; ts_ns e; dur_us e; u64 (u_stack_id e);
           u64 (k_stack_id e); ev_syscall_id e mod 2 ^ 32] ++
          le_bytes 4 (ev_syscall_id e / 2 ^ 32) ++ take 12 (Syscall.ev_comm e)).
Proof.
  intros Hl Hwf. rewrite (encode_pack _ ([4; 4; 8; 8; 8; 8; 8]%nat ++ go_comm)); [|by vm_compute..|done].
  apply fits_sized in Hwf. unfold syscall_event_members in *.
  assert (Hpre : sized ([4; 4; 8; 8; 8; 8]%nat ++ [8]%nat ++ go_comm)
    ([Syscall.ev_pid e; Syscall.ev_tid e; ts_ns e; dur_us e; u64 (u_stack_id e); u64 (k_stack_id e)] ++
     [ev_syscall_id e] ++ Syscall.ev_comm e)) by exact Hwf.
  unfold sized in Hpre. apply Forall2_app_inv in Hpre as [Hpre Hpost]; [|done].
  apply Forall2_app_inv in Hpost as [Hid Hcomm]; [|done].
  apply Forall2_cons in Hid as [Hid _].
  assert (Hb : Forall (fun b => 0 <= b < 256) (Syscall.ev_comm e)).
  { unfold go_comm in Hcomm. rewrite <- Hl in Hcomm. by apply sized_bytes_inv in Hcomm. }
  set (pre := [Syscall.ev_pid e; Syscall.ev_tid e; ts_ns e; dur_us e; u64 (u_stack_id e);
               u64 (k_stack_id e)]) in *.
  assert (Hshift := le_shift_comm (ev_syscall_id e) (Syscall.ev_comm e) Hl Hb).
  change (pack _ _) with (pack ([4; 4; 8; 8; 8; 8]%nat ++ [8]%nat ++ go_comm)
    (pre ++ [ev_syscall_id e] ++ Syscall.ev_comm e)).
  rewrite pack_app, Hshift by done. rewrite app_assoc, <- pack_app by done.
  apply go_read_pack. refine (sized_app [4; 4; 8; 8; 8; 8]%nat ([4]%nat ++ go_comm) pre _ Hpre _).
  apply Forall2_cons. split; [apply Z.mod_pos_bound; lia|].
  apply sized_bytes; [|by rewrite length_app, length_le_bytes, length_take, Hl].
  apply Forall_app. split; [apply le_bytes_range | by apply Forall_take].
Qed.

(** * Arguments *)

(** The agent's FutexSnoopArgs has the thread before the process: the program
    takes the configured process for a thread and the other way round, and the
    configured lock and the wish for stacks never arrive.  So the filter lets a
    call pass when the configured thread is the calling process and the
    configured process is the calling thread. *)
Lemma futex_args_swapped pid tid min_ms max_ms users pid_tgid uaddr :
  is_u32 pid -> is_u32 tid -> is_u32 min_ms -> is_u32 max_ms -> is_u32 users ->
  let args := user_args_of_bytes (initArgsMap pid tid min_ms max_ms users) in
  args = {|
    FutexSnoop.targ_pid := tid; targ_tid := pid; targ_lock := 0; FutexSnoop.arg_stack := false;
    min_dur_ms := min_ms; max_dur_ms := max_ms; max_lock_hold_users := users |} /\
  enter_filter args (hi32 pid_tgid) (lo32 pid_tgid) uaddr =
    ((tid =? 0) || (tid =? hi32 pid_tgid)) && ((pid =? 0) || (pid =? lo32 pid_tgid)).
Proof.
  intros Hp Ht Hmin Hmax Hu args. unfold is_uN in *.
  assert (Hargs : args = {|
    FutexSnoop.targ_pid := tid; targ_tid := pid; targ_lock := 0; FutexSnoop.arg_stack := false;
    min_dur_ms := min_ms; max_dur_ms := max_ms; max_lock_hold_users := users |}).
  { unfold args, user_args_of_bytes, initArgsMap.
    rewrite <- (app_nil_r (encode _ _)), c_read_encode; [done | by vm_compute |].
    apply fits_sized. repeat (constructor; [cbn; lia|]). constructor. }
  split; [done|]. rewrite Hargs. unfold enter_filter, nz. cbn [FutexSnoop.targ_pid targ_tid targ_lock].
  by destruct (tid =? 0), (tid =? hi32 pid_tgid), (pid =? 0), (pid =? lo32 pid_tgid).
Qed.

(** * The uretprobe *)

(** The agent's bpfEvent has only the thread and the line: what it takes for
    the returned line begins with the process, the time and the name. *)
Lemma readline_shifted e rest :
  length (Probes.ev_comm e) = 16%nat -> length (ev_line e) = 80%nat ->
  well_formed event_layout (event_members e) ->
  go_read bpfEvent (encode event_layout (event_members e) ++ rest) =
    Some (Probes.ev_pid e :: le_bytes 4 (ev_tgid e) ++ le_bytes 8 (ev_ts e) ++
          Probes.ev_comm e ++ take 52 (ev_line e)).
Proof.
  intros Hc Hl Hwf. unfold event_members in *. apply fits_sized in Hwf.
  assert (Hwf' : sized ([4; 4; 8]%nat ++ go_comm ++ replicate 80 1%nat)
    ([Probes.ev_pid e; ev_tgid e; ev_ts e] ++ Probes.ev_comm e ++ ev_line e)) by exact Hwf.
  rewrite (encode_pack _ ([4; 4; 8]%nat ++ go_comm ++ replicate 80 1%nat)); [|by vm_compute.. | by apply fits_sized].
  apply Forall2_app_inv in Hwf' as [Hpre Hwf']; [|done].
  apply Forall2_app_inv in Hwf' as [Hcomm Hline]; [|done].
  unfold go_comm in Hcomm. rewrite <- Hc in Hcomm. apply sized_bytes_inv in Hcomm.
  rewrite <- Hl in Hline. apply sized_bytes_inv in Hline.
  set (shifted := le_bytes 4 (ev_tgid e) ++ le_bytes 8 (ev_ts e) ++ Probes.ev_comm e ++
    take 52 (ev_line e)).
  assert (Hs : Forall (fun b => 0 <= b < 256) shifted).
  { repeat (apply Forall_app; split); try apply le_bytes_range; [done | by apply Forall_take]. }
  assert (Hsl : length shifted = 80%nat).
  { unfold shifted. rewrite !length_app, !length_le_bytes, length_take. lia. }
  assert (Hb : pack ([4; 4; 8]%nat ++ go_comm ++ replicate 80 1%nat)
      ([Probes.ev_pid e; ev_tgid e; ev_ts e] ++ Probes.ev_comm e ++ ev_line e) =
    pack bpfEvent (Probes.ev_pid e :: shifted) ++ drop 52 (ev_line e)).
  { rewrite !pack_app by done. unfold bpfEvent, go_comm. cbn [pack].
    rewrite (pack_bytes_n 80 shifted), (pack_bytes_n 80 (ev_line e)),
      (pack_bytes_n 16 (Probes.ev_comm e)) by done.
    unfold shifted. rewrite app_nil_r, <- !app_assoc. by rewrite take_drop. }
  rewrite Hb, <- app_assoc. apply go_read_pack. apply Forall2_cons in Hpre as [Hp _].
  constructor; [exact Hp | by apply sized_bytes].
Qed.

(** * Examples *)

Lemma offcpu_record_length_witness :
  length (of_bytes linux_518 zero_perf_event) = 1200%nat /\
  Z.of_nat (length (of_bytes linux_510 zero_perf_event)) = ksize (k_perf_event linux_510).
Proof.
  split; [vm_compute; reflexivity|].
  refine (proj2 (offcpu_record_length linux_510 zero_perf_event (or_intror eq_refl) _)).
  apply fits_sized, sizedb_sized; vm_compute; reflexivity.
Defined.

Definition demo_syscall_event : syscall_event := {|
  Syscall.ev_pid := 7; Syscall.ev_tid := 70; ts_ns := 1000; dur_us := 20000; u_stack_id := -14;
  k_stack_id := 3; ev_syscall_id := 202; Syscall.ev_comm := Z.of_nat <$> seq 97 16 |}.

Lemma syscall_comm_shifted_witness :
  drop 7 <$> go_read SyscallEvent (encode syscall_event_layout (syscall_event_members demo_syscall_event)) =
    Some ([0; 0; 0; 0] ++ take 12 (Z.of_nat <$> seq 97 16)).
Proof.
  rewrite (syscall_comm_shifted demo_syscall_event); [vm_compute; reflexivity | reflexivity |].
  apply fits_sized, sizedb_sized. vm_compute. reflexivity.
Defined.

Lemma futex_args_swapped_witness :
  FutexSnoop.targ_pid (user_args_of_bytes (initArgsMap 1234 0 1 1000 5)) = 0 /\
  targ_tid (user_args_of_bytes (initArgsMap 1234 0 1 1000 5)) = 1234.
Proof.
  destruct (futex_args_swapped 1234 0 1 1000 5 0 0) as [-> _]; (split; reflexivity) || (split; lia).
Defined.

Definition demo_event : event := {|
  Probes.ev_pid := 70; ev_tgid := 7; ev_ts := 1000; Probes.ev_comm := replicate 16 98;
  ev_line := replicate 80 108 |}.

Lemma readline_shifted_witness :
  go_read bpfEvent (encode event_layout (event_members demo_event)) =
    Some (70 :: [7; 0; 0; 0; 232; 3; 0; 0; 0; 0; 0; 0] ++ replicate 16 98 ++ replicate 52 108).
Proof.
  rewrite <- (app_nil_r (encode _ _)), (readline_shifted demo_event);
    [vm_compute; reflexivity | reflexivity | reflexivity |].
  apply fits_sized, sizedb_sized. vm_compute. reflexivity.
Defined.
