(* ===== verification/WellTyped.v ===== *)
(** Well-typed values: what it means for the elements of the maps, the records that
    are sent and the contexts to have the types of their C declarations, and that a
    well-typed record is one whose bytes the agent can decode. *)
From S2P Require Import Prelude Prog BpfMap ProgBounds Bits Layout FutexSnoop OnCpu Syscall CacheStat OffCpu Probes Wire WireSpec.
Open Scope Z_scope.
Open Scope bpf_scope.

(** * Values *)

Abbreviation is_u8 := (is_uN 8).
Definition is_s32 (x : Z) : Prop := - 2 ^ 31 <= x < 2 ^ 31.
Definition is_s64 (x : Z) : Prop := - 2 ^ 63 <= x < 2 ^ 63.

(** A [char] array of [n] elements. *)
Definition chars (n : nat) (c : list Z) : Prop := length c = n /\ Forall is_u8 c.
Abbreviation comm_typed := (chars TASK_COMM_LEN).

(** What the helpers return, the name of the task included. *)
Record env_typed (e : bpf_env) : Prop := {
  env_typed_ok : env_ok e;
  env_typed_comm : comm_typed (current_comm e)
}.

Create HintDb ranges.
#[export] Hint Unfold is_s32 is_s64 : ranges.

Lemma s32_typed x : is_s32 (s32 x).
Proof. apply (sN_range 32). lia. Qed.
Lemma s64_typed x : is_s64 (s64 x).
Proof. apply (sN_range 64). lia. Qed.
Lemma u32_typed x : is_u32 (u32 x).
Proof. apply uN_range. lia. Qed.
Lemma u64_typed x : is_u64 (u64 x).
Proof. apply uN_range. lia. Qed.
Lemma lo32_typed x : is_u32 (lo32 x).
Proof. apply u32_typed. Qed.
Lemma u32_0 : is_u32 0.
Proof. by vm_compute. Qed.
Lemma u64_0 : is_u64 0.
Proof. by vm_compute. Qed.
Lemma u32_1 : is_u32 1.
Proof. by vm_compute. Qed.
Lemma s32_0 : is_s32 0.
Proof. by vm_compute. Qed.
Lemma s64_0 : is_s64 0.
Proof. by vm_compute. Qed.
Lemma zero_chars n : chars n (replicate n 0).
Proof. split; [apply length_replicate | by apply Forall_replicate]. Qed.
#[export] Hint Resolve s32_typed s64_typed u32_typed u64_typed lo32_typed u32_0 u64_0 u32_1 s32_0 s64_0
  zero_chars env_typed_comm : ranges.

Lemma env_time e : env_typed e -> is_u64 (ktime_ns e).
Proof. intros [[]]. done. Qed.
Lemma env_id e : env_typed e -> is_u64 (current_pid_tgid e).
Proof. intros [[]]. done. Qed.
Lemma env_cpu_id e : env_typed e -> is_u32 (smp_processor_id e).
Proof. intros [[]]. done. Qed.
#[export] Hint Resolve env_time env_id env_cpu_id : ranges.

Lemma u64_div x d : is_u64 x -> 0 < d -> is_u64 (x / d).
Proof.
  intros [? ?] Hd. split; [by apply Z.div_pos|]. apply Z.div_lt_upper_bound; [done|]. nia.
Qed.
Lemma u32_u64 x : is_u32 x -> is_u64 x.
Proof. apply uN_mono. lia. Qed.
Lemma hi32_u64 x : is_u64 x -> is_u64 (hi32 x).
Proof. intros. by apply u32_u64, hi32_range. Qed.

(** From members in the range of their types to the bytes. *)
Lemma sized_cons n v ns vs : is_uN (8 * Z.of_nat n) v -> sized ns vs -> sized (n :: ns) (v :: vs).
Proof. intros. by constructor. Qed.
Lemma sized_nil : sized [] [].
Proof. constructor. Qed.
Lemma sized_u32s ns vs n rs ws :
  length vs = n -> Forall is_u32 vs -> ns = replicate n 4%nat ++ rs -> sized rs ws ->
  sized ns (vs ++ ws).
Proof.
  intros <- Hv -> Hw. apply sized_app; [|done]. apply Forall2_replicate_l; [done|]. exact Hv.
Qed.
Lemma sized_chars n c rs ws : chars n c -> sized rs ws -> sized (replicate n 1%nat ++ rs) (c ++ ws).
Proof. intros [<- Hc] Hw. apply sized_app; [|done]. by apply sized_bytes. Qed.

(** * Futex snooper *)

Record val_typed (v : val_t) : Prop := { vt_uaddr : is_u64 (v_uaddr v); vt_ts : is_u64 (v_ts v) }.

Record lock_typed (l : lock_stat) : Prop := {
  lt_cnt : is_u32 (user_cnt l);
  lt_max : is_u32 (max_user_cnt l);
  lt_uaddr : is_u64 (l_uaddr l);
  lt_comm : comm_typed (l_comm l);
  lt_pid_tgid : is_u64 (l_pid_tgid l);
  lt_ts : is_u64 (l_ts l)
}.

Record hist_typed (h : hist) : Prop := {
  ht_slots : length (slots h) = 24%nat /\ Forall is_u32 (slots h);
  ht_comm : comm_typed (h_comm h);
  ht_pid_tgid : is_u64 (h_pid_tgid h);
  ht_uaddr : is_u64 (h_uaddr h);
  ht_stack : is_s32 (h_user_stack_id h);
  ht_pad : is_u32 (h_pad h);
  ht_contended : is_u64 (contended h);
  ht_total : is_u64 (total_elapsed h);
  ht_min : is_u64 (min_dur h);
  ht_max : is_u64 (max_dur h);
  ht_delta : is_u64 (delta_dur h);
  ht_ts : is_u64 (max_dur_ts h)
}.

Record hist_key_typed (k : hist_key) : Prop := {
  hk_typed_pid_tgid : is_u64 (hk_pid_tgid k);
  hk_typed_uaddr : is_u64 (hk_uaddr k);
  hk_typed_stack : is_s32 (hk_user_stack_id k)
}.

#[export] Hint Resolve vt_uaddr vt_ts lt_cnt lt_max lt_uaddr lt_comm lt_pid_tgid lt_ts ht_slots ht_comm
  ht_pid_tgid ht_uaddr ht_stack ht_pad ht_contended ht_total ht_min ht_max ht_delta ht_ts
  hk_typed_pid_tgid hk_typed_uaddr hk_typed_stack : ranges.

Definition fx_event_typed (ev : fx_event) : Prop :=
  match ev with EvLock l => lock_typed l | EvHist h => hist_typed h end.

(** Typed records are the records the agent can decode. *)
Lemma fx_event_typed_ok ev : fx_event_typed ev -> fx_event_ok ev.
Proof.
  destruct ev as [l | h]; cbn [fx_event_typed fx_event_ok].
  - intros [? ? ? [? ?] ? ?]. split; [done|]. apply fits_sized.
    change (leaves 0 lock_stat_layout).*2 with ([4; 4; 8]%nat ++ replicate 16 1%nat ++ [8; 8]%nat).
    unfold lock_stat_members. cbn [app].
    repeat first [apply sized_cons; [done|] | apply sized_chars; [done|] | apply sized_nil].
  - intros [[? ?] [? ?] ? ? Hs ? ? ? ? ? ? ?]. do 3 (split; [done|]). apply fits_sized.
    change (leaves 0 hist_layout).*2 with
      (replicate 24 4%nat ++ replicate 16 1%nat ++ [8; 8; 4; 4; 8; 8; 8; 8; 8; 8]%nat).
    unfold hist_members. eapply sized_u32s; [done | done | reflexivity |].
    repeat first [apply sized_cons; [done || apply u32_typed|] | apply sized_chars; [done|] | apply sized_nil].
Qed.

(** * On-CPU profiler *)

Record profile_key_typed (k : profile_key_t) : Prop := {
  pkt_pid : is_u32 (pk_pid k);
  pkt_kern : is_s64 (OnCpu.kern_stack k);
  pkt_user : is_s64 (OnCpu.user_stack k);
  pkt_comm : comm_typed (pk_comm k)
}.

(** * Slow system calls *)

Record syscall_event_typed (ev : syscall_event) : Prop := {
  sct_pid : is_u32 (Syscall.ev_pid ev);
  sct_tid : is_u32 (Syscall.ev_tid ev);
  sct_ts : is_u64 (ts_ns ev);
  sct_dur : is_u64 (dur_us ev);
  sct_ustack : is_s64 (u_stack_id ev);
  sct_kstack : is_s64 (k_stack_id ev);
  sct_id : is_u64 (ev_syscall_id ev);
  sct_comm : comm_typed (Syscall.ev_comm ev)
}.

(** * Page cache *)

Record cache_key_typed (k : cache_key) : Prop := {
  ckt_pid : is_u64 (ck_pid k);
  ckt_file : is_u64 (ck_file k)
}.

Record cache_info_typed (i : cache_info) : Prop := {
  cit_pid : is_u32 (ci_pid i);
  cit_cpu : is_u32 (ci_cpu i);
  cit_comm : comm_typed (ci_comm i);
  cit_file : chars CACHE_FILE_SIZE (ci_file i);
  cit_read : is_u64 (read_size i);
  cit_write : is_u64 (write_size i);
  cit_cnt : is_u64 (cnt i)
}.

(** Reads of the kernel's memory give pointers and as many bytes as asked for. *)
Record vfs_mem_typed (m : vfs_mem) : Prop := {
  vmt_name d : is_u64 (dentry_name m d);
  vmt_bytes a n : chars n (kernel_bytes m a n)
}.

(** * Off-CPU profiler *)

Record waker_typed (w : waker_t) : Prop := {
  wkt_pid : is_u32 (wk_pid w);
  wkt_tgid : is_u32 (wk_tgid w);
  wkt_t_pid : is_u32 (wk_t_pid w);
  wkt_pad : is_u32 (wk_pad w);
  wkt_t_comm : comm_typed (wk_t_comm w);
  wkt_ustack : is_s32 (wk_user_stack_id w);
  wkt_kstack : is_s32 (wk_kern_stack_id w);
  wkt_comm : comm_typed (wk_comm w);
  wkt_oncpu : is_u64 (wk_oncpu_ns w);
  wkt_offcpu : is_u64 (wk_offcpu_ns w);
  wkt_onrq : is_u64 (wk_onrq_ns w);
  wkt_offcpu_id : is_u32 (wk_offcpu_id w);
  wkt_oncpu_id : is_u32 (wk_oncpu_id w);
  wkt_delay : is_u64 (wk_run_delay_ns w)
}.

Record target_typed (t : target_t) : Prop := {
  tgt_pid : is_u32 (tg_pid t);
  tgt_tgid : is_u32 (tg_tgid t);
  tgt_w_pid : is_u32 (tg_w_pid t);
  tgt_pad : is_u32 (tg_pad t);
  tgt_w_comm : comm_typed (tg_w_comm t);
  tgt_ustack : is_s32 (tg_user_stack_id t);
  tgt_kstack : is_s32 (tg_kern_stack_id t);
  tgt_comm : comm_typed (tg_comm t);
  tgt_oncpu : is_u64 (tg_oncpu_ns t);
  tgt_offcpu : is_u64 (tg_offcpu_ns t);
  tgt_onrq : is_u64 (tg_onrq_ns t);
  tgt_offcpu_id : is_u32 (tg_offcpu_id t);
  tgt_oncpu_id : is_u32 (tg_oncpu_id t);
  tgt_delay : is_u64 (tg_run_delay_ns t)
}.

Record trace_event_typed (ev : trace_event_t) : Prop := {
  tet_waker : waker_typed (waker ev);
  tet_target : target_typed (target ev)
}.

Record perf_event_typed (p : perf_event_t) : Prop := {
  pet_waker : waker_typed (pe_waker p);
  pet_target : target_typed (pe_target p);
  pet_dur : is_u64 (dur_ms p);
  pet_rq_dur : is_u64 (pe_rq_dur_ms p);
  pet_ts : is_u64 (pe_ts_ns p);
  pet_dump : is_u32 (is_sched_cache_dump p);
  pet_cpu : is_u32 (pe_cpu p)
}.

Record sched_record_typed (r : sched_record) : Prop := {
  srt_pid : is_u32 (sr_pid r);
  srt_prio : is_u32 (sr_prio r);
  srt_comm : comm_typed (sr_comm r);
  srt_ts : is_u64 (sr_ts r)
}.

Record sched_cached_typed (c : sched_cached) : Prop := {
  sdt_status : is_u32 (sc_status c);
  sdt_cpu : is_u32 (sc_cpu c);
  sdt_id : is_u32 (sc_id c);
  sdt_pad : is_u32 (sc_pad c);
  sdt_records : length (records c) = Z.to_nat SCHED_CACHE_SIZE /\ Forall sched_record_typed (records c)
}.

(** A task: the members that are copied into elements as they are. *)
Record task_typed (t : task_struct) : Prop := {
  tkt_comm : comm_typed (tk_comm t);
  tkt_delay : is_u64 (tk_run_delay t)
}.

(** * Probes *)

Record event_typed (ev : event) : Prop := {
  evt_pid : is_u32 (Probes.ev_pid ev);
  evt_tgid : is_u32 (ev_tgid ev);
  evt_ts : is_u64 (ev_ts ev);
  evt_comm : comm_typed (Probes.ev_comm ev);
  evt_line : chars LINE_SIZE (ev_line ev)
}.

#[export] Hint Resolve pkt_pid pkt_kern pkt_user pkt_comm sct_pid sct_tid sct_ts sct_dur sct_ustack
  sct_kstack sct_id sct_comm ckt_pid ckt_file cit_pid cit_cpu cit_comm cit_file cit_read cit_write
  cit_cnt vmt_name vmt_bytes wkt_pid wkt_tgid wkt_t_pid wkt_pad wkt_t_comm wkt_ustack wkt_kstack
  wkt_comm wkt_oncpu wkt_offcpu wkt_onrq wkt_offcpu_id wkt_oncpu_id wkt_delay tgt_pid tgt_tgid
  tgt_w_pid tgt_pad tgt_w_comm tgt_ustack tgt_kstack tgt_comm tgt_oncpu tgt_offcpu tgt_onrq
  tgt_offcpu_id tgt_oncpu_id tgt_delay tet_waker tet_target pet_waker pet_target pet_dur pet_rq_dur
  pet_ts pet_dump pet_cpu srt_pid srt_prio srt_comm srt_ts sdt_status sdt_cpu sdt_id sdt_pad
  sdt_records tkt_comm tkt_delay evt_pid evt_tgid evt_ts evt_comm evt_line : ranges.

(** * Bytes *)

Lemma comm_sized c rs ws : comm_typed c -> sized rs ws -> sized (go_comm ++ rs) (c ++ ws).
Proof. apply (sized_chars 16). Qed.

Lemma s32_bytes x : is_uN (8 * Z.of_nat 4) (u32 x).
Proof. apply u32_typed. Qed.

Ltac solve_sized :=
  repeat first
    [ apply sized_nil
    | apply sized_cons; [first [apply s32_bytes | solve [eauto 2 with ranges]] |]
    | apply comm_sized; [solve [eauto 2 with ranges] |] ].

Lemma waker_sized w rs ws : waker_typed w -> sized rs ws -> sized (Waker ++ rs) (waker_members w ++ ws).
Proof.
  intros Hw Hs. unfold Waker, waker_members. rewrite <- !app_assoc. cbn [app]. solve_sized. done.
Qed.

Lemma target_sized t rs ws :
  target_typed t -> sized rs ws -> sized (Target ++ rs) (target_members t ++ ws).
Proof.
  intros Hw Hs. unfold Target, Waker, target_members. rewrite <- !app_assoc. cbn [app]. solve_sized. done.
Qed.

Lemma perf_event_typed_ok p :
  perf_event_typed p -> well_formed perf_event_layout (perf_event_members p).
Proof.
  intros Hp. apply fits_sized. change (leaves 0 perf_event_layout).*2 with OffCpuEvent.
  apply waker_sized; [by apply pet_waker|]. apply target_sized; [by apply pet_target|]. solve_sized.
Qed.

Lemma sched_records_sized rs :
  Forall sched_record_typed rs ->
  sized (mjoin (replicate (length rs) SchedRecord)) (mjoin (sched_record_members <$> rs)).
Proof.
  induction 1 as [|r rs Hr _ IH]; [constructor|]. cbn -[SchedRecord sched_record_members].
  apply sized_app; [|exact IH]. unfold sched_record_members. cbn [app]. solve_sized.
Qed.

Lemma sched_cached_typed_ok c :
  sched_cached_typed c -> well_formed sched_cached_layout (sched_cached_members c).
Proof.
  intros Hc. apply fits_sized.
  assert (E : (leaves 0 sched_cached_layout).*2 = SchedCached) by (vm_compute; reflexivity).
  rewrite E. unfold SchedCached, sched_cached_members. cbn [app].
  destruct (sdt_records c Hc) as [Hl Hr]. change 512%nat with (Z.to_nat SCHED_CACHE_SIZE).
  rewrite <- Hl. solve_sized. by apply sched_records_sized.
Qed.
