(* ===== verification/WellTypedProgs.v ===== *)
(** Every single action of every program keeps the maps and the records well typed, and
    every element with its own key, whatever such state it finds; and so do all
    interleavings.  An array keeps its length as long as no index leaves it
    ([array_update]), so that the lengths say that every index used is in bounds. *)
From S2P Require Import Prelude Prog BpfMap ProgBounds Bits FutexSnoop OnCpu Syscall CacheStat OffCpu OffCpuSpec Probes WellTyped.
Open Scope Z_scope.
Open Scope bpf_scope.

(** * Following the programs *)

Ltac solve_map_typed :=
  split; [intros s k v Hs Hl; destruct Hs; eauto | intros s m Hs Hm; destruct Hs; by split].
Ltac solve_buf_typed := split; intros s e0 Hs He; destruct Hs; split; try done;
  apply Forall_app; split; [done | by apply Forall_singleton].

(** Collect what is known of the values read on the way, then show the members of
    the values written one by one. *)
Ltac typed_facts :=
  intros; cbv beta in *; simplify_eq;
  repeat match goal with
  | H : forall v, Some ?x = Some v -> _ |- _ => specialize (H x eq_refl)
  | H : exists v, _ |- _ => destruct H
  | H : _ /\ _ |- _ => destruct H
  end; simplify_eq.

Ltac typed_solve :=
  typed_facts; try exact I;
  repeat case_if;
  repeat match goal with |- _ /\ _ => split end;
  try assumption;
  eauto 3 with ranges.

Section Futex.
Context {BM : BpfMaps} {BL : BpfMapsLaws BM}.

(** The members of a histogram that are copied from its key: they are, once they are set. *)
Record hist_of (k : hist_key) (h : hist) : Prop := {
  ho_pid_tgid : h_pid_tgid h = 0 \/ h_pid_tgid h = hk_pid_tgid k;
  ho_uaddr : h_uaddr h = 0 \/ h_uaddr h = hk_uaddr k;
  ho_stack : h_user_stack_id h = 0 \/ h_user_stack_id h = hk_user_stack_id k
}.
#[local] Hint Resolve ho_pid_tgid ho_uaddr ho_stack : ranges.

Record fx_wt (s : fx_state) : Prop := {
  fx_wt_start k v : bm_lookup (FutexSnoop.start s) k = Some v -> is_u64 k /\ val_typed v;
  fx_wt_lock k l : bm_lookup (lock_map s) k = Some l -> is_u64 k /\ lock_typed l /\ l_uaddr l = k;
  fx_wt_hists k h : bm_lookup (hists_map s) k = Some h -> hist_key_typed k /\ hist_typed h /\ hist_of k h;
  fx_wt_perf : Forall fx_event_typed (FutexSnoop.perf_map s)
}.

#[export] Instance fx_start_typed : MapTyped fx_wt FutexSnoop.l_start (fun k v => is_u64 k /\ val_typed v).
Proof. solve_map_typed. Qed.
#[export] Instance fx_lock_typed : MapTyped fx_wt l_lock (fun k l => is_u64 k /\ lock_typed l /\ l_uaddr l = k).
Proof. solve_map_typed. Qed.
#[export] Instance fx_hists_typed : MapTyped fx_wt l_hists (fun k h => hist_key_typed k /\ hist_typed h /\ hist_of k h).
Proof. solve_map_typed. Qed.
#[export] Instance fx_perf_typed : BufTyped fx_wt FutexSnoop.l_perf fx_event_typed.
Proof. solve_buf_typed. Qed.

Lemma fx_init_wt a : fx_wt (fx_init a).
Proof. split; cbn; [intros ? ?; by rewrite bm_lookup_create..| done]. Qed.

Ltac fx_members :=
  cbn [user_cnt max_user_cnt l_uaddr l_comm l_pid_tgid l_ts slots h_comm h_pid_tgid h_uaddr
       h_user_stack_id h_pad contended total_elapsed min_dur max_dur delta_dur max_dur_ts
       v_uaddr v_ts hk_pid_tgid hk_uaddr hk_user_stack_id lock_init fx_event_typed id] in *.
Ltac fx_split := split; fx_members; eauto 3 with ranges.
#[local] Hint Extern 3 (val_typed _) => fx_split : ranges.
#[local] Hint Extern 3 (lock_typed _) => fx_split : ranges.
#[local] Hint Extern 3 (hist_typed _) => fx_split : ranges.
#[local] Hint Extern 3 (hist_key_typed _) => fx_split : ranges.
#[local] Hint Extern 3 (hist_of _ _) => fx_split : ranges.
#[local] Hint Extern 3 (fx_event_typed _) => (fx_members; first [assumption | fx_split]) : ranges.

(** The slot of a duration is in the array, whatever the duration is. *)
Lemma slot_of_in_array d : (Z.to_nat (slot_of d) < 24)%nat.
Proof.
  unfold slot_of, MAX_SLOTS. cbv zeta. pose proof (log2l_range (u64 d) (u64_typed d)).
  destruct (Z.leb_spec 24 (log2l (u64 d))); lia.
Qed.

Lemma slots_typed d sl :
  length sl = 24%nat /\ Forall is_u32 sl ->
  length (array_update (fun c => u32 (c + 1)) (Z.to_nat (slot_of d)) sl) = 24%nat /\
  Forall is_u32 (array_update (fun c => u32 (c + 1)) (Z.to_nat (slot_of d)) sl).
Proof.
  intros [Hl Hs]. pose proof (slot_of_in_array d). rewrite length_array_update by lia. split; [done|].
  apply Forall_array_update; [done|]. intros. apply u32_typed.
Qed.
#[local] Hint Resolve slots_typed : ranges.

Lemma initial_hist_of k : hist_of k initial_hist.
Proof. split; by left. Qed.
#[local] Hint Resolve initial_hist_of : ranges.

Lemma initial_hist_typed : hist_typed initial_hist.
Proof.
  split; try first [apply u64_0 | apply u32_0 | apply s32_0 | apply zero_chars].
  split; [done | by apply (Forall_replicate _ 24)].
Qed.
#[local] Hint Resolve initial_hist_typed : ranges.

Lemma futex_enter_typed ctx e :
  env_typed e -> is_u64 (enter_args0 ctx) -> typed fx_wt (futex_enter ctx e) (fun _ => True).
Proof.
  intros He Hc. unfold futex_enter, enter_known_lock. repeat typed_step; typed_solve.
Qed.

Lemma lookup_or_try_init_typed k h0 :
  hist_key_typed k -> hist_typed h0 -> hist_of k h0 ->
  typed fx_wt (bpf_map_lookup_or_try_init l_hists k h0)
    (fun o => forall h, o = Some h -> hist_key_typed k /\ hist_typed h /\ hist_of k h).
Proof.
  intros Hk Hh Ho. unfold bpf_map_lookup_or_try_init. repeat typed_step; typed_solve.
Qed.

Lemma update_min_max_atomic_typed k h0 delta ts :
  hist_key_typed k -> hist_typed h0 -> hist_of k h0 -> is_u64 ts ->
  typed fx_wt (update_min_max_atomic k h0 delta ts) (fun _ => True).
Proof. intros Hk Hh Ho Hts. unfold update_min_max_atomic. repeat typed_step; typed_solve. Qed.

Lemma update_min_max_plain_typed k h0 delta ts :
  hist_key_typed k -> hist_typed h0 -> hist_of k h0 -> is_u64 ts ->
  typed fx_wt (update_min_max_plain k h0 delta ts) (fun _ => True).
Proof. intros Hk Hh Ho Hts. unfold update_min_max_plain. repeat typed_step; typed_solve. Qed.

#[local] Hint Resolve update_min_max_atomic_typed update_min_max_plain_typed : typed.

Lemma exit_unlock_typed k :
  is_u64 k -> typed fx_wt (exit_unlock k) (fun _ => True).
Proof. intros Hk. unfold exit_unlock. repeat typed_step; typed_solve. Qed.

Lemma exit_cleanup_typed k : typed fx_wt (exit_cleanup k) (fun _ => True).
Proof. unfold exit_cleanup. repeat typed_step; typed_solve. Qed.

Lemma exit_record_typed amd a k h0 delta ts e :
  env_typed e -> hist_key_typed k -> hist_typed h0 -> hist_of k h0 -> is_u64 ts ->
  typed fx_wt (exit_record amd a k h0 delta ts e) (fun _ => True).
Proof.
  intros He Hk Hh Ho Hts. unfold exit_record. repeat typed_step; typed_solve.
Qed.

#[local] Hint Resolve exit_cleanup_typed : typed.

Lemma exit_account_typed amd ctx v0 e :
  env_typed e -> val_typed v0 -> typed fx_wt (exit_account amd ctx v0 e) (fun _ => True).
Proof.
  intros He Hv. unfold exit_account.
  repeat first [typed_step | typed_call @bpf_map_lookup_or_try_init lookup_or_try_init_typed
    | typed_call @exit_record exit_record_typed]; typed_solve.
Qed.

Lemma futex_exit_typed amd ctx e :
  env_typed e -> typed fx_wt (futex_exit amd ctx e) (fun _ => True).
Proof.
  intros He. unfold futex_exit.
  repeat first [typed_step | typed_call @exit_unlock exit_unlock_typed
    | typed_call @exit_account exit_account_typed]; typed_solve.
Qed.
End Futex.

(** * On-CPU profiler *)

Section OnCpu.
Context {BM : BpfMaps} {BL : BpfMapsLaws BM}.

Record oc_wt (s : oc_state) : Prop := {
  oc_wt_counts k v : bm_lookup (counts s) k = Some v -> profile_key_typed k /\ is_u32 v
}.

#[export] Instance oc_counts_typed : MapTyped oc_wt l_counts (fun k v => profile_key_typed k /\ is_u32 v).
Proof. solve_map_typed. Qed.

Lemma oc_init_wt a : oc_wt (oc_init a).
Proof. split; cbn; intros ? ?; by rewrite bm_lookup_create. Qed.

Lemma sample_key_typed e : env_typed e -> profile_key_typed (sample_key e).
Proof. intros He. split; cbn [sample_key pk_pid OnCpu.kern_stack OnCpu.user_stack pk_comm]; eauto 2 with ranges. Qed.
#[local] Hint Resolve sample_key_typed : ranges.

Lemma do_perf_event_typed e : env_typed e -> typed oc_wt (do_perf_event e) (fun _ => True).
Proof. intros He. unfold do_perf_event, count_sample. repeat typed_step; typed_solve. Qed.
End OnCpu.

(** * Slow system calls *)

Section Syscall.
Context {BM : BpfMaps} {BL : BpfMapsLaws BM}.

Record sc_wt (s : sc_state) : Prop := {
  sc_wt_start k ev : bm_lookup (Syscall.start s) k = Some ev -> is_u32 k /\ syscall_event_typed ev /\ Syscall.ev_tid ev = k;
  sc_wt_perf : Forall syscall_event_typed (Syscall.perf_map s)
}.

#[export] Instance sc_start_typed :
  MapTyped sc_wt Syscall.l_start (fun k ev => is_u32 k /\ syscall_event_typed ev /\ Syscall.ev_tid ev = k).
Proof. solve_map_typed. Qed.
#[export] Instance sc_perf_typed : BufTyped sc_wt Syscall.l_perf syscall_event_typed.
Proof. solve_buf_typed. Qed.

Lemma sc_init_wt a : sc_wt (sc_init a).
Proof. split; cbn; [intros ? ?; by rewrite bm_lookup_create | done]. Qed.

Ltac sc_members :=
  cbn [Syscall.ev_pid Syscall.ev_tid ts_ns dur_us u_stack_id k_stack_id ev_syscall_id Syscall.ev_comm
       zero_event] in *.
#[local] Hint Extern 3 (syscall_event_typed _) => (split; sc_members; eauto 3 with ranges) : ranges.

Lemma fill_event_typed ua ev dur id e :
  env_typed e -> syscall_event_typed ev -> is_u64 dur -> is_u64 id ->
  syscall_event_typed (fill_event ua ev dur id e).
Proof.
  intros He Hev Hd Hi. unfold fill_event. pose proof (u64_div dur 1000 Hd ltac:(lia)).
  destruct (Syscall.arg_stack ua); typed_solve.
Qed.
#[local] Hint Resolve u32_u64 : ranges.
#[local] Hint Resolve fill_event_typed | 1 : ranges.

Lemma sys_enter_typed ctx e : env_typed e -> typed sc_wt (sys_enter ctx e) (fun _ => True).
Proof. intros He. unfold sys_enter. repeat typed_step; typed_solve. Qed.

Lemma sys_exit_typed ctx e : env_typed e -> typed sc_wt (sys_exit ctx e) (fun _ => True).
Proof. intros He. unfold sys_exit. repeat typed_step; typed_solve. Qed.
End Syscall.

(** * Page cache *)

Section CacheStat.
Context {BM : BpfMaps} {BL : BpfMapsLaws BM}.

Record cs_wt (s : cs_state) : Prop := {
  cs_wt_map k i : bm_lookup (cachestat_map s) k = Some i -> cache_key_typed k /\ cache_info_typed i /\ ci_pid i = u32 (ck_pid k)
}.

#[export] Instance cs_map_typed :
  MapTyped cs_wt CacheStat.l_cache (fun k i => cache_key_typed k /\ cache_info_typed i /\ ci_pid i = u32 (ck_pid k)).
Proof. solve_map_typed. Qed.

Lemma cs_init_wt a : cs_wt (cs_init a).
Proof. split; cbn; intros ? ?; by rewrite bm_lookup_create. Qed.

Ltac cs_members :=
  cbn [ci_pid ci_cpu ci_comm ci_file read_size write_size cnt ck_pid ck_file new_info] in *.
#[local] Hint Extern 3 (cache_info_typed _) => (split; cs_members; eauto 3 with ranges) : ranges.
#[local] Hint Extern 3 (cache_key_typed _) => (split; cs_members; eauto 3 with ranges) : ranges.

Lemma file_field_typed mem name : vfs_mem_typed mem -> chars CACHE_FILE_SIZE (file_field mem name).
Proof.
  intros Hm. unfold file_field. destruct (negb _); [apply Hm|].
  split; [done|]. apply Forall_insert; [by apply Forall_replicate | done].
Qed.
#[local] Hint Resolve file_field_typed hi32_u64 : ranges.

Lemma vfs_write_typed ctx mem e :
  env_typed e -> vfs_mem_typed mem -> typed cs_wt (vfs_write_hook ctx mem e) (fun _ => True).
Proof. intros He Hm. unfold vfs_write_hook. repeat typed_step; typed_solve. Qed.

Lemma vfs_read_typed ctx mem e :
  env_typed e -> vfs_mem_typed mem -> typed cs_wt (vfs_read_hook ctx mem e) (fun _ => True).
Proof. intros He Hm. unfold vfs_read_hook. repeat typed_step; typed_solve. Qed.
End CacheStat.

(** * Probes *)

Section Probes.
Context {BM : BpfMaps} {BL : BpfMapsLaws BM}.

Record kp_wt (s : kp_state) : Prop := {
  kp_wt_map k v : bm_lookup (kprobe_map s) k = Some v -> k = 0 /\ is_u64 v
}.

#[export] Instance kp_map_typed : MapTyped kp_wt l_kprobe (fun k v => k = 0 /\ is_u64 v).
Proof. solve_map_typed. Qed.

Lemma kp_init_wt : kp_wt kp_init.
Proof.
  split. cbn. intros k v. rewrite bm_update_cases. case_decide as Hk.
  - destruct Hk as [<- _]. intros [= <-]. by vm_compute.
  - by rewrite bm_lookup_create.
Qed.

Lemma kprobe_execve_typed : typed kp_wt kprobe_execve (fun _ => True).
Proof. unfold kprobe_execve. repeat typed_step; typed_solve. Qed.

Record up_wt (s : up_state) : Prop := { up_wt_events : Forall event_typed (events s) }.

#[export] Instance up_events_typed : BufTyped up_wt l_events event_typed.
Proof. solve_buf_typed. Qed.

Lemma uretprobe_typed rc ub e :
  env_typed e -> (forall a n, chars n (ub a n)) ->
  typed up_wt (uretprobe_bash_readline rc ub e) (fun _ => True).
Proof.
  intros He Hub. unfold uretprobe_bash_readline. repeat typed_step; typed_facts; [|done].
  split; cbn [Probes.ev_pid ev_tgid ev_ts Probes.ev_comm ev_line]; eauto 2 with ranges.
Qed.
End Probes.

(** * Off-CPU profiler *)

Section OffCpu.
Context {BM : BpfMaps} {BL : BpfMapsLaws BM}.

(** The number of the CPU in its elements, once it is set. *)
Definition cpu_or_none (cpu n : Z) : Prop := n = 0 \/ n = cpu.

Record of_wt (s : of_state) : Prop := {
  of_wt_start k ev : bm_lookup (OffCpu.start s) k = Some ev -> is_u32 k /\ trace_event_typed ev /\ tg_pid (target ev) = k;
  of_wt_cache k c : bm_lookup (sched_cache_map s) k = Some c -> is_u32 k /\ sched_cached_typed c /\ cpu_or_none k (sc_cpu c);
  of_wt_pevent k p : bm_lookup (perf_event_cache_map s) k = Some p -> is_u32 k /\ perf_event_typed p /\ cpu_or_none k (pe_cpu p);
  of_wt_backup k c : bm_lookup (sched_cache_backup_map s) k = Some c -> is_u32 k /\ sched_cached_typed c /\ cpu_or_none k (sc_cpu c);
  of_wt_perf : Forall perf_event_typed (OffCpu.perf_map s)
}.

#[export] Instance of_start_typed :
  MapTyped of_wt OffCpu.l_start (fun k ev => is_u32 k /\ trace_event_typed ev /\ tg_pid (target ev) = k).
Proof. solve_map_typed. Qed.
#[export] Instance of_cache_typed :
  MapTyped of_wt OffCpu.l_cache (fun k c => is_u32 k /\ sched_cached_typed c /\ cpu_or_none k (sc_cpu c)).
Proof. solve_map_typed. Qed.
#[export] Instance of_pevent_typed :
  MapTyped of_wt l_pevent (fun k p => is_u32 k /\ perf_event_typed p /\ cpu_or_none k (pe_cpu p)).
Proof. solve_map_typed. Qed.
#[export] Instance of_backup_typed :
  MapTyped of_wt l_backup (fun k c => is_u32 k /\ sched_cached_typed c /\ cpu_or_none k (sc_cpu c)).
Proof. solve_map_typed. Qed.
#[export] Instance of_perf_typed : BufTyped of_wt OffCpu.l_perf perf_event_typed.
Proof. solve_buf_typed. Qed.

Ltac of_members :=
  cbn [wk_pid wk_tgid wk_t_pid wk_pad wk_t_comm wk_user_stack_id wk_kern_stack_id wk_comm wk_oncpu_ns
       wk_offcpu_ns wk_onrq_ns wk_offcpu_id wk_oncpu_id wk_run_delay_ns tg_pid tg_tgid tg_w_pid tg_pad
       tg_w_comm tg_user_stack_id tg_kern_stack_id tg_comm tg_oncpu_ns tg_offcpu_ns tg_onrq_ns
       tg_offcpu_id tg_oncpu_id tg_run_delay_ns waker target pe_waker pe_target dur_ms pe_rq_dur_ms
       pe_ts_ns is_sched_cache_dump pe_cpu sr_pid sr_prio sr_comm sr_ts sc_status sc_cpu sc_id sc_pad
       records zero_waker zero_target zero_record zero_cached zero_perf_event] in *.
#[local] Hint Extern 3 (cpu_or_none _ _) => (of_members; assumption || (left; reflexivity) || (right; reflexivity)) : ranges.
#[local] Hint Extern 3 (waker_typed _) => (split; of_members; eauto 3 with ranges) : ranges.
#[local] Hint Extern 3 (target_typed _) => (split; of_members; eauto 3 with ranges) : ranges.
#[local] Hint Extern 3 (trace_event_typed _) => (split; of_members; eauto 5 with ranges) : ranges.
#[local] Hint Extern 3 (perf_event_typed _) => (split; of_members; eauto 5 with ranges) : ranges.
#[local] Hint Extern 3 (sched_record_typed _) => (split; of_members; eauto 3 with ranges) : ranges.
#[local] Hint Extern 3 (sched_cached_typed _) => (split; of_members; eauto 3 with ranges) : ranges.

Lemma kern_stack_typed e : is_s32 (OffCpu.kern_stack e).
Proof. apply s32_typed. Qed.
Lemma user_stack_typed e : is_s32 (OffCpu.user_stack e).
Proof. apply s32_typed. Qed.
Lemma zero_waker_typed : waker_typed zero_waker.
Proof. auto with ranges. Qed.
Lemma zero_target_typed : target_typed zero_target.
Proof. auto with ranges. Qed.
#[local] Hint Resolve kern_stack_typed user_stack_typed zero_waker_typed zero_target_typed | 1 : ranges.

Lemma zero_perf_event_typed : perf_event_typed zero_perf_event.
Proof. auto with ranges. Qed.
Lemma zero_record_typed : sched_record_typed zero_record.
Proof. auto with ranges. Qed.
Lemma zero_cached_typed : sched_cached_typed zero_cached.
Proof.
  split; try apply u32_0. cbn [zero_cached records]. rewrite length_replicate. split; [done|].
  apply Forall_replicate, zero_record_typed.
Qed.

Lemma wake_event_typed t e : env_typed e -> task_typed t -> trace_event_typed (wake_event t e).
Proof. intros He Ht. unfold wake_event. typed_solve. Qed.
Lemma new_task_event_typed ts cpu t :
  is_u64 ts -> is_u32 cpu -> task_typed t -> trace_event_typed (new_task_event ts cpu t).
Proof. intros Hts Hc Ht. unfold new_task_event. typed_solve. Qed.
#[local] Hint Resolve wake_event_typed new_task_event_typed | 1 : ranges.

Lemma store_waker_typed k f :
  (forall w, waker_typed w -> waker_typed (f w)) -> typed of_wt (store_waker k f) (fun _ => True).
Proof.
  intros Hf. unfold store_waker. typed_step. typed_facts. split; [done|]. split; of_members; eauto 3 with ranges.
Qed.
Lemma store_target_typed k f :
  (forall t, target_typed t -> target_typed (f t) /\ tg_pid (f t) = tg_pid t) ->
  typed of_wt (store_target k f) (fun _ => True).
Proof.
  intros Hf. unfold store_target. typed_step. typed_facts. destruct (Hf (target v)) as [Ht Hp]; [by apply tet_target|].
  split; [done|]. split; [|by rewrite <- Hp]. split; of_members; eauto 3 with ranges.
Qed.
Lemma store_record_typed k i f :
  0 <= i < SCHED_CACHE_SIZE ->
  (forall r, sched_record_typed r -> sched_record_typed (f r)) ->
  typed of_wt (store_record k i f) (fun _ => True).
Proof.
  intros Hi Hf. unfold store_record. typed_step. typed_facts.
  match goal with H : sched_cached_typed ?c |- _ => destruct (sdt_records c H) as [Hl Hr] end.
  assert (Hin : (Z.to_nat i < length (records v))%nat) by (rewrite Hl; lia).
  split; [done|]. split; [|done]. split; of_members; eauto 3 with ranges.
  rewrite length_array_update by done. split; [done | by apply Forall_array_update].
Qed.

Ltac of_step :=
  first [typed_step
        | typed_call @store_waker store_waker_typed; intros ? ?
        | typed_call @store_target store_target_typed; intros ? ?
        | typed_call @store_record store_record_typed; [by apply Z.mod_pos_bound | intros ? ?]].

Lemma is_target_task_typed tgid pid : typed of_wt (is_target_task tgid pid) (fun _ => True).
Proof. unfold is_target_task. repeat typed_step. done. Qed.
#[local] Hint Resolve is_target_task_typed : typed.

Lemma try_to_wake_up_typed b t st e :
  env_typed e -> task_typed t -> typed of_wt (try_to_wake_up_hook b t st e) (fun _ => True).
Proof. intros He Ht. unfold try_to_wake_up_hook. repeat of_step; typed_solve. Qed.

Lemma sched_cache_dump_typed cpu :
  is_u32 cpu -> typed of_wt (sched_cache_dump cpu) (fun _ => True).
Proof. intros Hc. unfold sched_cache_dump. repeat of_step; typed_solve. Qed.

Lemma sched_cache_update_typed t ts cpu :
  is_u64 ts -> is_u32 cpu -> task_typed t ->
  typed of_wt (sched_cache_update t ts cpu) (fun _ => True).
Proof. intros Hts Hc Ht. unfold sched_cache_update. repeat of_step; typed_solve. Qed.

Lemma update_new_task_info_typed ts cpu t :
  is_u64 ts -> is_u32 cpu -> task_typed t ->
  typed of_wt (update_new_task_info ts cpu t) (fun _ => True).
Proof. intros Hts Hc Ht. unfold update_new_task_info. repeat of_step; typed_solve. Qed.

Lemma record_prev_typed t ts cpu :
  is_u64 ts -> is_u32 cpu -> task_typed t -> typed of_wt (record_prev t ts cpu) (fun _ => True).
Proof.
  intros Hts Hc Ht. unfold record_prev.
  repeat first [of_step | typed_call @update_new_task_info update_new_task_info_typed]; typed_solve.
Qed.

(** A word of a structure of the right type leaves the other structure of the right type. *)
Definition word_typed {T} (P : T -> Prop) (w : word T) : Prop := forall x y, P x -> P y -> P (w x y).

Lemma lo8_typed c c' : comm_typed c -> comm_typed c' -> comm_typed (lo8 c c').
Proof.
  intros [Hl Hc] [Hl' Hc']. unfold lo8. split; [rewrite length_app, length_take, length_drop, Hl, Hl'; done|].
  apply Forall_app. split; [by apply Forall_take | by apply Forall_drop].
Qed.
Lemma hi8_typed c c' : comm_typed c -> comm_typed c' -> comm_typed (hi8 c c').
Proof.
  intros [Hl Hc] [Hl' Hc']. unfold hi8. rewrite length_take, Hl.
  split; [rewrite length_app, length_take, length_drop, Hl, Hl'; done|].
  apply Forall_app. split; [by apply Forall_take | by apply Forall_drop].
Qed.
#[local] Hint Resolve lo8_typed hi8_typed | 1 : ranges.

Lemma waker_words_typed : Forall (word_typed waker_typed) waker_words.
Proof. repeat (apply Forall_cons; split; [intros ? ? ? ?; split; of_members; eauto 5 with ranges|]); done. Qed.
Lemma target_words_typed : Forall (word_typed target_typed) target_words.
Proof. repeat (apply Forall_cons; split; [intros ? ? ? ?; split; of_members; eauto 5 with ranges|]); done. Qed.

Lemma copy_words_typed {T} (P : T -> Prop) from into k ep0 cpu ws :
  (forall ep, is_u32 k /\ trace_event_typed ep /\ tg_pid (target ep) = k -> P (from ep)) ->
  (forall f p, (forall x, P x -> P (f x)) -> is_u32 cpu /\ perf_event_typed p /\ cpu_or_none cpu (pe_cpu p) ->
    is_u32 cpu /\ perf_event_typed (into f p) /\ cpu_or_none cpu (pe_cpu (into f p))) ->
  is_u32 k /\ trace_event_typed ep0 /\ tg_pid (target ep0) = k -> Forall (word_typed P) ws ->
  typed of_wt (copy_words from into k ep0 cpu ws) (fun _ => True).
Proof.
  intros Hf Hinto Hep Hws. induction Hws as [|w ws Hw _ IH]; [done|]. cbn [copy_words foldr].
  eapply typed_bind; [eapply typed_load; [typeclasses eauto | exact Hep]|]. cbv beta. intros v (ep & Hok & ->).
  eapply typed_bind; [eapply typed_store; [typeclasses eauto..|]|intros _ _; exact IH].
  cbv beta. intros p Hp. apply Hinto; [|done]. intros x Hx. apply Hw; [by apply Hf | done].
Qed.
Lemma copy_target_typed k ep0 cpu :
  is_u32 k /\ trace_event_typed ep0 /\ tg_pid (target ep0) = k ->
  typed of_wt (copy_words target into_target k ep0 cpu target_words) (fun _ => True).
Proof.
  intros Hep. apply (copy_words_typed target_typed); [by intros ? (_ & [] & _) | | done | apply target_words_typed].
  intros f p Hf (Hc & [] & Hn). split; [done|]. split; [|done]. unfold into_target, into_waker. split; of_members; auto.
Qed.
Lemma copy_waker_typed k ep0 cpu :
  is_u32 k /\ trace_event_typed ep0 /\ tg_pid (target ep0) = k ->
  typed of_wt (copy_words waker into_waker k ep0 cpu waker_words) (fun _ => True).
Proof.
  intros Hep. apply (copy_words_typed waker_typed); [by intros ? (_ & [] & _) | | done | apply waker_words_typed].
  intros f p Hf (Hc & [] & Hn). split; [done|]. split; [|done]. unfold into_target, into_waker. split; of_members; auto.
Qed.

Lemma output_event_typed a t ep0 pe0 ts cpu delta e :
  env_typed e -> trace_event_typed ep0 -> tg_pid (target ep0) = u32 (tk_pid t) ->
  perf_event_typed pe0 -> cpu_or_none cpu (pe_cpu pe0) -> is_u64 ts -> is_u32 cpu ->
  typed of_wt (output_event a t ep0 pe0 ts cpu delta e) (fun _ => True).
Proof.
  intros He Hep Hpid Hpe Hpc Hts Hc. unfold output_event, into_target.
  repeat first [typed_call @copy_words copy_target_typed | typed_call @copy_words copy_waker_typed
    | of_step | typed_call @sched_cache_dump sched_cache_dump_typed]; typed_solve.
Qed.

Lemma record_current_typed a t ep0 ts cpu e :
  env_typed e -> task_typed t -> trace_event_typed ep0 -> tg_pid (target ep0) = u32 (tk_pid t) ->
  is_u64 ts -> is_u32 cpu ->
  typed of_wt (record_current a t ep0 ts cpu e) (fun _ => True).
Proof.
  intros He Ht Hep Hpid Hts Hc. unfold record_current. cbv zeta.
  repeat first [of_step | typed_call @output_event output_event_typed]; typed_solve.
Qed.

Lemma sched_switch_typed t t' e :
  env_typed e -> task_typed t -> task_typed t' ->
  typed of_wt (sched_switch_hook t t' e) (fun _ => True).
Proof.
  intros He Ht Ht'. unfold sched_switch_hook.
  repeat first [of_step | typed_call @sched_cache_update sched_cache_update_typed
    | typed_call @record_prev record_prev_typed | typed_call @record_current record_current_typed];
    typed_solve.
Qed.

(** The elements of a per-CPU array of zeros. *)
Lemma percpu_typed {V} (zero : V) n k v :
  bm_lookup (percpu zero n) k = Some v -> (Z.of_nat n <= 2 ^ 32) -> is_u32 k /\ v = zero.
Proof.
  rewrite percpu_lookup. case_decide; intros [= <-] Hn. split; [unfold is_uN; lia | done].
Qed.

Lemma of_init_wt ncpu a : Z.of_nat ncpu <= 2 ^ 32 -> of_wt (of_init ncpu a).
Proof.
  intros Hn. split; cbn [of_init OffCpu.start sched_cache_map perf_event_cache_map
    sched_cache_backup_map OffCpu.perf_map]; [| | | | done]; intros k v Hv.
  - by rewrite bm_lookup_create in Hv.
  - apply percpu_typed in Hv as [Hk ->]; [|done]. split; [done|]. split; [apply zero_cached_typed | by left].
  - apply percpu_typed in Hv as [Hk ->]; [|done]. split; [done|]. split; [apply zero_perf_event_typed | by left].
  - by rewrite bm_lookup_create in Hv.
Qed.
End OffCpu.
