(* ===== verification/Machine.v ===== *)
(** A machine on which all programs of the repository are loaded, each with its own
    maps, and on which any number of their executions run at the same time. *)
From S2P Require Import Prelude Prog BpfMap ProgBounds Compose Bits FutexSnoop OnCpu Syscall CacheStat OffCpu OffCpuSpec Probes WellTyped WellTypedProgs.
From stdpp Require Import relations.
Open Scope Z_scope.
Open Scope bpf_scope.

(** * The machine *)

(** A component: the programs of one object file, which share its maps. *)
Inductive part := Futex | OnCpu | SlowSyscall | PageCache | OffCpu | Kprobe | Uretprobe.

#[export] Instance part_eq_dec : EqDecision part.
Proof. solve_decision. Defined.

(** A run of a program, with what its context and the helpers give it. *)
Inductive handler :=
| FutexEnter (ctx : sys_enter_futex) (e : bpf_env)
| FutexExit (ctx : sys_exit_futex) (e : bpf_env)
| PerfEvent (e : bpf_env)
| SysEnter (ctx : raw_sys) (e : bpf_env)
| SysExit (ctx : raw_sys) (e : bpf_env)
| VfsWrite (ctx : vfs_regs) (mem : vfs_mem) (e : bpf_env)
| VfsRead (ctx : vfs_regs) (mem : vfs_mem) (e : bpf_env)
| TryToWakeUp (task : task_struct) (parm2 : Z) (e : bpf_env)
| SchedSwitch (pre_task cur_task : task_struct) (e : bpf_env)
| KprobeExecve
| BashReadline (rc : Z) (user_bytes : Z -> nat -> list Z) (e : bpf_env).

Definition handler_part (h : handler) : part :=
  match h with
  | FutexEnter _ _ | FutexExit _ _ => Futex
  | PerfEvent _ => OnCpu
  | SysEnter _ _ | SysExit _ _ => SlowSyscall
  | VfsWrite _ _ _ | VfsRead _ _ _ => PageCache
  | TryToWakeUp _ _ _ | SchedSwitch _ _ _ => OffCpu
  | KprobeExecve => Kprobe
  | BashReadline _ _ _ => Uretprobe
  end.

(** What the kernel gives to a run has the types of its declarations. *)
Definition handler_typed (h : handler) : Prop :=
  match h with
  | FutexEnter ctx e => env_typed e /\ is_u64 (enter_args0 ctx)
  | FutexExit _ e | PerfEvent e | SysEnter _ e | SysExit _ e => env_typed e
  | VfsWrite _ mem e | VfsRead _ mem e => env_typed e /\ vfs_mem_typed mem
  | TryToWakeUp task _ e => env_typed e /\ task_typed task
  | SchedSwitch pre_task cur_task e => env_typed e /\ task_typed pre_task /\ task_typed cur_task
  | KprobeExecve => True
  | BashReadline _ user_bytes e => env_typed e /\ forall a n, chars n (user_bytes a n)
  end.

Section Machine.
Context {BM : BpfMaps}.
(** The two facts about the build and the kernel that the programs depend on. *)
Context (target_arch_amd64 task_has___state : bool).

(** The maps of all components. *)
Record machine := {
  m_futex : fx_state;
  m_oncpu : oc_state;
  m_syscall : sc_state;
  m_cache : cs_state;
  m_offcpu : of_state;
  m_kprobe : kp_state;
  m_uretprobe : up_state
}.

#[export] Instance eta_machine : Eta machine := fun r => {|
  m_futex := m_futex r; m_oncpu := m_oncpu r; m_syscall := m_syscall r; m_cache := m_cache r;
  m_offcpu := m_offcpu r; m_kprobe := m_kprobe r; m_uretprobe := m_uretprobe r |}.

Definition part_state (c : part) : Type :=
  match c with
  | Futex => fx_state
  | OnCpu => oc_state
  | SlowSyscall => sc_state
  | PageCache => cs_state
  | OffCpu => of_state
  | Kprobe => kp_state
  | Uretprobe => up_state
  end.

Definition part_lens (c : part) : lens machine (part_state c) :=
  match c with
  | Futex => Lens m_futex (fun s m => m <| m_futex := s |>)
  | OnCpu => Lens m_oncpu (fun s m => m <| m_oncpu := s |>)
  | SlowSyscall => Lens m_syscall (fun s m => m <| m_syscall := s |>)
  | PageCache => Lens m_cache (fun s m => m <| m_cache := s |>)
  | OffCpu => Lens m_offcpu (fun s m => m <| m_offcpu := s |>)
  | Kprobe => Lens m_kprobe (fun s m => m <| m_kprobe := s |>)
  | Uretprobe => Lens m_uretprobe (fun s m => m <| m_uretprobe := s |>)
  end.

(** What a run does to the maps of the component [c]: its program, or nothing. *)
Definition part_prog (c : part) (h : handler) : prog (part_state c) Z :=
  match c, h with
  | Futex, FutexEnter ctx e => futex_enter ctx e
  | Futex, FutexExit ctx e => futex_exit target_arch_amd64 ctx e
  | OnCpu, PerfEvent e => do_perf_event e
  | SlowSyscall, SysEnter ctx e => sys_enter ctx e
  | SlowSyscall, SysExit ctx e => sys_exit ctx e
  | PageCache, VfsWrite ctx mem e => vfs_write_hook ctx mem e
  | PageCache, VfsRead ctx mem e => vfs_read_hook ctx mem e
  | OffCpu, TryToWakeUp task parm2 e => try_to_wake_up_hook task_has___state task parm2 e
  | OffCpu, SchedSwitch pre_task cur_task e => sched_switch_hook pre_task cur_task e
  | Kprobe, KprobeExecve => kprobe_execve
  | Uretprobe, BashReadline rc user_bytes e => uretprobe_bash_readline rc user_bytes e
  | _, _ => Ret 0
  end.

(** The run, on the maps of the machine. *)
Definition handler_prog (h : handler) : prog machine Z :=
  lift (part_lens (handler_part h)) (part_prog (handler_part h) h).

#[export] Instance part_lens_ok c : LensOk (part_lens c).
Proof. destruct c; solve_lens. Qed.

Lemma part_lens_indep c c' : c <> c' -> LensIndep (part_lens c) (part_lens c').
Proof. intros Hc. destruct c, c'; try done; solve_lens. Qed.

(** The maps when all programs have been loaded on a machine with [ncpu] CPUs. *)
Definition machine_init (ncpu : nat) (fa : option FutexSnoop.user_args)
    (oa : option profile_bss_args_t) (sa : option Syscall.user_args)
    (ca : option CacheStat.user_args) (fo : option OffCpu.user_args) : machine := {|
  m_futex := fx_init fa; m_oncpu := oc_init oa; m_syscall := sc_init sa; m_cache := cs_init ca;
  m_offcpu := of_init ncpu fo; m_kprobe := kp_init; m_uretprobe := {| events := [] |} |}.

(** Every element of every map and every record sent has the type of its
    declaration. *)
Definition part_typed (c : part) : part_state c -> Prop :=
  match c with
  | Futex => fx_wt
  | OnCpu => oc_wt
  | SlowSyscall => sc_wt
  | PageCache => cs_wt
  | OffCpu => of_wt
  | Kprobe => kp_wt
  | Uretprobe => up_wt
  end.
Definition machine_typed (m : machine) : Prop := forall c, part_typed c (lget (part_lens c) m).
End Machine.
