(* ===== verification/MachineSpec.v ===== *)
(** Properties of all programs together, whatever the interleaving: no program leaves an
    array, every element agrees with its key, every map and record stays well typed, and
    so what the agent gets can always be decoded. *)
From S2P Require Import Prelude Prog BpfMap ProgBounds Compose Layout FutexSnoop OnCpu Syscall CacheStat OffCpu OffCpuSpec Probes KernelTypes Kernel Wire WireSpec WellTyped WellTypedProgs Machine.
From stdpp Require Import relations.
Open Scope Z_scope.
Open Scope bpf_scope.

Section Spec.
Context {BM : BpfMaps} (amd has_state : bool).
Implicit Types (h : handler) (hs : list handler) (m : machine).

Abbreviation hprog := (handler_prog amd has_state).

(** * Types *)

Section Typed.
Context {BL : BpfMapsLaws BM}.

Lemma part_prog_typed h :
  handler_typed h -> typed (part_typed (handler_part h))
    (part_prog amd has_state (handler_part h) h) (fun _ => True).
Proof.
  destruct h; cbn [handler_typed handler_part part_prog part_typed].
  - intros []. by apply futex_enter_typed.
  - apply futex_exit_typed.
  - apply do_perf_event_typed.
  - apply sys_enter_typed.
  - apply sys_exit_typed.
  - intros []. by apply vfs_write_typed.
  - intros []. by apply vfs_read_typed.
  - intros []. by apply try_to_wake_up_typed.
  - intros (? & ? & ?). by apply sched_switch_typed.
  - intros _. apply kprobe_execve_typed.
  - intros []. by apply uretprobe_typed.
Qed.

Lemma part_typed_set c m s :
  machine_typed m -> part_typed c s -> machine_typed (lset (part_lens c) s m).
Proof.
  intros Hm Hs c'. destruct (decide (c = c')) as [<- | Hne]; [by rewrite lget_lset|].
  pose proof (part_lens_indep _ _ Hne). by rewrite lget_lset_l.
Qed.

Lemma handler_prog_typed h : handler_typed h -> typed machine_typed (hprog h) (fun _ => True).
Proof.
  intros Hh. eapply typed_lift; [| | by apply part_prog_typed].
  - intros m Hm. apply Hm.
  - intros m s. apply part_typed_set.
Qed.

Lemma machine_init_typed ncpu fa oa sa ca fo :
  Z.of_nat ncpu <= 2 ^ 32 -> machine_typed (machine_init ncpu fa oa sa ca fo).
Proof.
  intros Hn [| | | | | |]; cbn -[of_init kp_init];
    [apply fx_init_wt | apply oc_init_wt | apply sc_init_wt | apply cs_init_wt | by apply of_init_wt
    | apply kp_init_wt | by constructor].
Qed.

Lemma handlers_typed hs m ps m' :
  Forall handler_typed hs -> machine_typed m -> rtc pool_step (hprog <$> hs, m) (ps, m') ->
  machine_typed m'.
Proof.
  intros Hhs Hm Hrun. eapply typed_pool_steps; [exact Hrun | | exact Hm].
  apply Forall_fmap. eapply Forall_impl; [exact Hhs|]. intros h Hh. by apply handler_prog_typed.
Qed.

(** C12: no program leaves an array and no element gets another one's key: at every moment
    of every interleaving of any runs every histogram has its 24 slots and every ring its
    512 records - a store behind the end of an array would leave none ([array_update]) -
    and what an element says of its key is true: the lock of a lock_stat, the task, lock
    and stack of a histogram once they are set, the thread of a system call, the process of
    a file's statistics, the task of an off-CPU element, and the CPU of a ring, of its copy
    and of a CPU's event once it is set; the only counter of the kprobe is number 0. *)
Theorem arrays_and_keys_kept ncpu fa oa sa ca fo hs ps m' :
  Z.of_nat ncpu <= 2 ^ 32 -> Forall handler_typed hs ->
  rtc pool_step (hprog <$> hs, machine_init ncpu fa oa sa ca fo) (ps, m') ->
  (forall k (hi : hist), bm_lookup (hists_map (m_futex m')) k = Some hi ->
    length (slots hi) = Z.to_nat MAX_SLOTS /\ hist_of k hi) /\
  (forall k l, bm_lookup (lock_map (m_futex m')) k = Some l -> l_uaddr l = k) /\
  (forall k ev, bm_lookup (Syscall.start (m_syscall m')) k = Some ev -> Syscall.ev_tid ev = k) /\
  (forall k i, bm_lookup (cachestat_map (m_cache m')) k = Some i -> ci_pid i = u32 (ck_pid k)) /\
  (forall k ep, bm_lookup (OffCpu.start (m_offcpu m')) k = Some ep -> tg_pid (target ep) = k) /\
  (forall cpu c, bm_lookup (sched_cache_map (m_offcpu m')) cpu = Some c \/
      bm_lookup (sched_cache_backup_map (m_offcpu m')) cpu = Some c ->
    length (records c) = Z.to_nat SCHED_CACHE_SIZE /\ cpu_or_none cpu (sc_cpu c)) /\
  (forall cpu p, bm_lookup (perf_event_cache_map (m_offcpu m')) cpu = Some p -> cpu_or_none cpu (pe_cpu p)) /\
  (forall k n, bm_lookup (kprobe_map (m_kprobe m')) k = Some n -> k = 0).
Proof.
  intros Hn Hhs Hrun. pose proof (handlers_typed _ _ _ _ Hhs (machine_init_typed _ _ _ _ _ _ Hn) Hrun) as Hm.
  pose proof (Hm Futex) as [_ Hl Hh _]. pose proof (Hm SlowSyscall) as [Hsy _]. pose proof (Hm PageCache) as [Hc].
  pose proof (Hm OffCpu) as [Hst Hca Hpe Hba _]. pose proof (Hm Kprobe) as [Hk]. cbn in *. split_and!.
  - intros k hi Hkh. destruct (Hh k hi Hkh) as (_ & Ht & Ho). by split; [apply ht_slots|].
  - apply Hl.
  - apply Hsy.
  - apply Hc.
  - apply Hst.
  - intros cpu c [(_ & Ht & Hcpu)%Hca | (_ & Ht & Hcpu)%Hba]; (split; [by apply sdt_records | done]).
  - apply Hpe.
  - apply Hk.
Qed.

(** Whatever runs at the same time, the agent can decode what it gets, with
    whatever padding the kernel appends: every record of the futex snooper is told
    apart from the other kind and decoded to what was sent, and so is every member
    of every event of the off-CPU profiler and of every copied ring. *)
Lemma records_always_decode k ncpu fa oa sa ca fo hs ps m' rest :
  k = linux_518 \/ k = linux_510 -> Z.of_nat ncpu <= 2 ^ 32 -> Forall handler_typed hs ->
  rtc pool_step (hprog <$> hs, machine_init ncpu fa oa sa ca fo) (ps, m') ->
  (length rest < 8)%nat ->
  (forall ev, ev ∈ FutexSnoop.perf_map (m_futex m') -> HandleEvent (fx_bytes ev ++ rest) = Some ev) /\
  (forall p, p ∈ OffCpu.perf_map (m_offcpu m') ->
    go_read OffCpuEvent (of_bytes k p ++ rest) = Some (perf_event_members p)) /\
  (forall cpu c, bm_lookup (sched_cache_backup_map (m_offcpu m')) cpu = Some c ->
    go_read SchedCached (encode sched_cached_layout (sched_cached_members c) ++ rest) =
      Some (sched_cached_members c)).
Proof.
  intros Hk Hn Hhs Hrun Hrest.
  pose proof (handlers_typed _ _ _ _ Hhs (machine_init_typed _ _ _ _ _ _ Hn) Hrun) as Hm.
  pose proof (Hm Futex) as Hfx. pose proof (Hm OffCpu) as Hof. cbn in Hfx, Hof. split; [|split].
  - intros ev Hev. apply futex_record_decodes; [|done]. apply fx_event_typed_ok.
    by apply (proj1 (Forall_forall _ _) (fx_wt_perf _ Hfx)).
  - intros p Hp. apply offcpu_event_decodes, perf_event_typed_ok.
    by apply (proj1 (Forall_forall _ _) (of_wt_perf _ Hof)).
  - intros cpu c Hc. apply sched_cached_decodes, sched_cached_typed_ok. by eapply of_wt_backup.
Qed.
End Typed.

End Spec.

(** * Examples *)

Definition demo_helpers : bpf_env := {|
  ktime_ns := 5000; current_pid_tgid := 7 * 2 ^ 32 + 70; smp_processor_id := 0;
  current_comm := replicate TASK_COMM_LEN 98; stackid := fun _ => 1 |}.

Lemma demo_helpers_typed : env_typed demo_helpers.
Proof. split; [split; by vm_compute|]. split; [done|]. by apply (Forall_replicate _ 16). Qed.

(** Two threads begin to wait on the lock 1000 while sys_execve is called twice. *)
Definition demo_handlers : list handler := [
  FutexEnter {| enter_args0 := 1000; enter_args1 := 0 |} demo_helpers; KprobeExecve;
  FutexEnter {| enter_args0 := 1000; enter_args1 := 0 |} demo_helpers; KprobeExecve].

Lemma demo_handlers_typed : Forall handler_typed demo_handlers.
Proof.
  assert (H : handler_typed (FutexEnter {| enter_args0 := 1000; enter_args1 := 0 |} demo_helpers)).
  { split; [apply demo_helpers_typed | by vm_compute]. }
  do 4 (constructor; [first [exact H | exact I]|]). constructor.
Qed.

Definition demo_machine : machine := machine_init 2 (Some {|
    targ_pid := 0; targ_tid := 0; targ_lock := 0; FutexSnoop.arg_stack := false;
    min_dur_ms := 0; max_dur_ms := 1000; max_lock_hold_users := 1 |}) None None None None.

Definition demo_turns : list nat := (replicate 5 0 ++ concat (replicate 11 [1; 2; 3]))%nat.
Definition demo_run : list (prog machine Z) * machine :=
  run_schedule demo_turns (handler_prog false true <$> demo_handlers) demo_machine.

Lemma demo_run_steps :
  rtc pool_step (handler_prog false true <$> demo_handlers, demo_machine) (demo_run.1, demo_run.2).
Proof. rewrite <- surjective_pairing. apply run_schedule_steps. Qed.

(** Both waited on the lock 1000. *)
Lemma arrays_and_keys_kept_witness :
  exists l, bm_lookup (lock_map (m_futex demo_run.2)) 1000 = Some l /\ user_cnt l = 2 /\ l_uaddr l = 1000.
Proof.
  destruct (arrays_and_keys_kept false true 2 _ _ _ _ _ demo_handlers demo_run.1 demo_run.2 ltac:(lia)
    demo_handlers_typed demo_run_steps) as (_ & H & _).
  eexists. split; [vm_compute; reflexivity|]. split; [reflexivity|]. apply H. vm_compute. reflexivity.
Defined.

(** The record that was sent. *)
Definition demo_record : fx_event :=
  default (EvHist initial_hist) (head (FutexSnoop.perf_map (m_futex demo_run.2))).

Lemma records_always_decode_witness :
  FutexSnoop.perf_map (m_futex demo_run.2) = [demo_record] /\
  HandleEvent (fx_bytes demo_record ++ [0; 0; 0; 0]) = Some demo_record.
Proof.
  split; [vm_compute; reflexivity|].
  refine (proj1 (records_always_decode false true linux_518 2 _ _ _ _ _ demo_handlers demo_run.1 demo_run.2
    [0; 0; 0; 0] (or_introl eq_refl) _ demo_handlers_typed demo_run_steps _) demo_record _).
  - lia.
  - cbn. lia.
  - replace (FutexSnoop.perf_map (m_futex demo_run.2)) with [demo_record] by (vm_compute; reflexivity).
    left.
Defined.
