(* ===== verification/SyscallTable.v ===== *)
(** The names of the system calls: pkg/ebpf/cpu/syscall/syscall_table.h and the
    two functions of pkg/ebpf/cpu/syscall.go that translate between the names the
    user writes and the numbers the tracer filters on.

    The tables are cut into pieces of at most 150 lines of the header. *)
From Stdlib Require Import String.
From stdpp Require Import strings pretty.
From S2P Require Import Prelude.
Open Scope Z_scope.
Open Scope bpf_scope.

(** * syscall_table.h *)

#[local] Open Scope string_scope.

Definition syscall_table_x86_0 : list string := [
  "read"; "write"; "open"; "close"; "stat"; "fstat"; "lstat"; "poll"; "lseek"; "mmap";
  "mprotect"; "munmap"; "brk"; "rt_sigaction"; "rt_sigprocmask"; "rt_sigreturn"; "ioctl";
  "pread64"; "pwrite64"; "readv"; "writev"; "access"; "pipe"; "select"; "sched_yield";
  "mremap"; "msync"; "mincore"; "madvise"; "shmget"; "shmat"; "shmctl"; "dup"; "dup2";
  "pause"; "nanosleep"; "getitimer"; "alarm"; "setitimer"; "getpid"; "sendfile"; "socket";
  "connect"; "accept"; "sendto"; "recvfrom"; "sendmsg"; "recvmsg"; "shutdown"; "bind";
  "listen"; "getsockname"; "getpeername"; "socketpair"; "setsockopt"; "getsockopt"; "clone";
  "fork"; "vfork"; "execve"; "exit"; "wait4"; "kill"; "uname"; "semget"; "semop"; "semctl";
  "shmdt"; "msgget"; "msgsnd"; "msgrcv"; "msgctl"; "fcntl"; "flock"; "fsync"; "fdatasync";
  "truncate"; "ftruncate"; "getdents"; "getcwd"; "chdir"; "fchdir"; "rename"; "mkdir";
  "rmdir"; "creat"; "link"; "unlink"; "symlink"; "readlink"; "chmod"; "fchmod"; "chown";
  "fchown"; "lchown"; "umask"; "gettimeofday"; "getrlimit"; "getrusage"; "sysinfo"; "times";
  "ptrace"; "getuid"; "syslog"; "getgid"; "setuid"; "setgid"; "geteuid"; "getegid";
  "setpgid"; "getppid"; "getpgrp"; "setsid"; "setreuid"; "setregid"; "getgroups";
  "setgroups"; "setresuid"; "getresuid"; "setresgid"; "getresgid"; "getpgid"; "setfsuid";
  "setfsgid"; "getsid"; "capget"; "capset"; "rt_sigpending"; "rt_sigtimedwait";
  "rt_sigqueueinfo"; "rt_sigsuspend"; "sigaltstack"; "utime"; "mknod"; "uselib";
  "personality"; "ustat"; "statfs"; "fstatfs"; "sysfs"; "getpriority"; "setpriority";
  "sched_setparam"; "sched_getparam"; "sched_setscheduler"; "sched_getscheduler";
  "sched_get_priority_max"; "sched_get_priority_min"; "sched_rr_get_interval"; "mlock"
].

Definition syscall_table_x86_1 : list string := [
  "munlock"; "mlockall"; "munlockall"; "vhangup"; "modify_ldt"; "pivot_root"; "_sysctl";
  "prctl"; "arch_prctl"; "adjtimex"; "setrlimit"; "chroot"; "sync"; "acct"; "settimeofday";
  "mount"; "umount2"; "swapon"; "swapoff"; "reboot"; "sethostname"; "setdomainname"; "iopl";
  "ioperm"; "create_module"; "init_module"; "delete_module"; "get_kernel_syms";
  "query_module"; "quotactl"; "nfsservctl"; "getpmsg"; "putpmsg"; "afs_syscall"; "tuxcall";
  "security"; "gettid"; "readahead"; "setxattr"; "lsetxattr"; "fsetxattr"; "getxattr";
  "lgetxattr"; "fgetxattr"; "listxattr"; "llistxattr"; "flistxattr"; "removexattr";
  "lremovexattr"; "fremovexattr"; "tkill"; "time"; "futex"; "sched_setaffinity";
  "sched_getaffinity"; "set_thread_area"; "io_setup"; "io_destroy"; "io_getevents";
  "io_submit"; "io_cancel"; "get_thread_area"; "lookup_dcookie"; "epoll_create";
  "epoll_ctl_old"; "epoll_wait_old"; "remap_file_pages"; "getdents64"; "set_tid_address";
  "restart_syscall"; "semtimedop"; "fadvise64"; "timer_create"; "timer_settime";
  "timer_gettime"; "timer_getoverrun"; "timer_delete"; "clock_settime"; "clock_gettime";
  "clock_getres"; "clock_nanosleep"; "exit_group"; "epoll_wait"; "epoll_ctl"; "tgkill";
  "utimes"; "vserver"; "mbind"; "set_mempolicy"; "get_mempolicy"; "mq_open"; "mq_unlink";
  "mq_timedsend"; "mq_timedreceive"; "mq_notify"; "mq_getsetattr"; "kexec_load"; "waitid";
  "add_key"; "request_key"; "keyctl"; "ioprio_set"; "ioprio_get"; "inotify_init";
  "inotify_add_watch"; "inotify_rm_watch"; "migrate_pages"; "openat"; "mkdirat"; "mknodat";
  "fchownat"; "futimesat"; "newfstatat"; "unlinkat"; "renameat"; "linkat"; "symlinkat";
  "readlinkat"; "fchmodat"; "faccessat"; "pselect6"; "ppoll"; "unshare"; "set_robust_list";
  "get_robust_list"; "splice"; "tee"; "sync_file_range"; "vmsplice"; "move_pages";
  "utimensat"; "epoll_pwait"; "signalfd"; "timerfd_create"; "eventfd"; "fallocate";
  "timerfd_settime"; "timerfd_gettime"; "accept4"; "signalfd4"; "eventfd2"; "epoll_create1";
  "dup3"; "pipe2"; "inotify_init1"; "preadv"; "pwritev"; "rt_tgsigqueueinfo";
  "perf_event_open"; "recvmmsg"
].

Definition syscall_table_x86_2 : list string := [
  "fanotify_init"; "fanotify_mark"; "prlimit64"; "name_to_handle_at"; "open_by_handle_at";
  "clock_adjtime"; "syncfs"; "sendmmsg"; "setns"; "getcpu"; "process_vm_readv";
  "process_vm_writev"; "kcmp"; "finit_module"; "sched_setattr"; "sched_getattr"; "renameat2";
  "seccomp"; "getrandom"; "memfd_create"; "kexec_file_load"; "bpf"; "execveat";
  "userfaultfd"; "membarrier"; "mlock2"; "copy_file_range"; "preadv2"; "pwritev2";
  "pkey_mprotect"; "pkey_alloc"; "pkey_free"; "statx"
].

Definition syscall_table_arm_0 : list string := [
  "io_setup"; "io_destroy"; "io_submit"; "io_cancel"; "io_getevents"; "setxattr";
  "lsetxattr"; "fsetxattr"; "getxattr"; "lgetxattr"; "fgetxattr"; "listxattr"; "llistxattr";
  "flistxattr"; "removexattr"; "lremovexattr"; "fremovexattr"; "getcwd"; "lookup_dcookie";
  "eventfd2"; "epoll_create1"; "epoll_ctl"; "epoll_pwait"; "dup"; "dup3"; "fcntl";
  "inotify_init1"; "inotify_add_watch"; "inotify_rm_watch"; "ioctl"; "ioprio_set";
  "ioprio_get"; "flock"; "mknodat"; "mkdirat"; "unlinkat"; "symlinkat"; "linkat"; "renameat";
  "umount2"; "mount"; "pivot_root"; "nfsservctl"; "statfs"; "fstatfs"; "truncate";
  "ftruncate"; "fallocate"; "faccessat"; "chdir"; "fchdir"; "chroot"; "fchmod"; "fchmodat";
  "fchownat"; "fchown"; "openat"; "close"; "vhangup"; "pipe2"; "quotactl"; "getdents64";
  "lseek"; "read"; "write"; "readv"; "writev"; "pread64"; "pwrite64"; "preadv"; "pwritev";
  "sendfile"; "pselect6"; "ppoll"; "signalfd4"; "vmsplice"; "splice"; "tee"; "readlinkat";
  "fstatat"; "fstat"; "sync"; "fsync"; "fdatasync"; "sync_file_range"; "timerfd_create";
  "timerfd_settime"; "timerfd_gettime"; "utimensat"; "acct"; "capget"; "capset";
  "personality"; "exit"; "exit_group"; "waitid"; "set_tid_address"; "unshare"; "futex";
  "set_robust_list"; "get_robust_list"; "nanosleep"; "getitimer"; "setitimer"; "kexec_load";
  "init_module"; "delete_module"; "timer_create"; "timer_gettime"; "timer_getoverrun";
  "timer_settime"; "timer_delete"; "clock_settime"; "clock_gettime"; "clock_getres";
  "clock_nanosleep"; "syslog"; "ptrace"; "sched_setparam"; "sched_setscheduler";
  "sched_getscheduler"; "sched_getparam"; "sched_setaffinity"; "sched_getaffinity";
  "sched_yield"; "sched_get_priority_max"; "sched_get_priority_min"; "sched_rr_get_interval";
  "restart_syscall"; "kill"; "tkill"; "tgkill"; "sigaltstack"; "rt_sigsuspend";
  "rt_sigaction"; "rt_sigprocmask"; "rt_sigpending"; "rt_sigtimedwait"; "rt_sigqueueinfo";
  "rt_sigreturn"; "setpriority"; "getpriority"; "reboot"; "setregid"; "setgid"; "setreuid";
  "setuid"; "setresuid"; "getresuid"; "setresgid"
].

Definition syscall_table_arm_1 : list string := [
  "getresgid"; "setfsuid"; "setfsgid"; "times"; "setpgid"; "getpgid"; "getsid"; "setsid";
  "getgroups"; "setgroups"; "uname"; "sethostname"; "setdomainname"; "getrlimit";
  "setrlimit"; "getrusage"; "umask"; "prctl"; "getcpu"; "gettimeofday"; "settimeofday";
  "adjtimex"; "getpid"; "getppid"; "getuid"; "geteuid"; "getgid"; "getegid"; "gettid";
  "sysinfo"; "mq_open"; "mq_unlink"; "mq_timedsend"; "mq_timedreceive"; "mq_notify";
  "mq_getsetattr"; "msgget"; "msgctl"; "msgrcv"; "msgsnd"; "semget"; "semctl"; "semtimedop";
  "semop"; "shmget"; "shmctl"; "shmat"; "shmdt"; "socket"; "socketpair"; "bind"; "listen";
  "accept"; "connect"; "getsockname"; "getpeername"; "sendto"; "recvfrom"; "setsockopt";
  "getsockopt"; "shutdown"; "sendmsg"; "recvmsg"; "readahead"; "brk"; "munmap"; "mremap";
  "add_key"; "request_key"; "keyctl"; "clone"; "execve"; "mmap"; "fadvise64"; "swapon";
  "swapoff"; "mprotect"; "msync"; "mlock"; "munlock"; "mlockall"; "munlockall"; "mincore";
  "madvise"; "remap_file_pages"; "mbind"; "get_mempolicy"; "set_mempolicy"; "migrate_pages";
  "move_pages"; "rt_tgsigqueueinfo"; "perf_event_open"; "accept4"; "recvmmsg";
  "arch_specific_syscall"; "arch_specific_syscall"; "arch_specific_syscall";
  "arch_specific_syscall"; "arch_specific_syscall"; "arch_specific_syscall";
  "arch_specific_syscall"; "arch_specific_syscall"; "arch_specific_syscall";
  "arch_specific_syscall"; "arch_specific_syscall"; "arch_specific_syscall";
  "arch_specific_syscall"; "arch_specific_syscall"; "arch_specific_syscall";
  "arch_specific_syscall"; "wait4"; "prlimit64"; "fanotify_init"; "fanotify_mark";
  "name_to_handle_at"; "open_by_handle_at"; "clock_adjtime"; "syncfs"; "setns"; "sendmmsg";
  "process_vm_readv"; "process_vm_writev"; "kcmp"; "finit_module"; "sched_setattr";
  "sched_getattr"; "renameat2"; "seccomp"; "getrandom"; "memfd_create"; "bpf"; "execveat";
  "userfaultfd"; "membarrier"; "mlock2"; "copy_file_range"; "preadv2"; "pwritev2";
  "pkey_mprotect"; "pkey_alloc"; "pkey_free"; "statx"
].

Definition syscall_table_x86 : list string :=
  syscall_table_x86_0 ++ syscall_table_x86_1 ++ syscall_table_x86_2.

Definition syscall_table_arm : list string := syscall_table_arm_0 ++ syscall_table_arm_1.

#[local] Close Scope string_scope.

(** * syscall.go *)

Definition MaxUint32 : Z := 2 ^ 32 - 1.

(** [SyscallIdToName] on one table: the array access is guarded by the length. *)
Definition table_name (table : list string) (id : Z) : string :=
  if Z.of_nat (List.length table) <=? id then ("unknown_" +:+ pretty id)%string
  else default ""%string (table !! Z.to_nat id).

(** [SyscallIdToName]; [arch] is the session's Arch. *)
Definition SyscallIdToName (arch : string) (id : Z) : string :=
  if decide (arch = "amd64"%string) then table_name syscall_table_x86 id
  else if decide (arch = "arm"%string \/ arch = "arm64"%string) then table_name syscall_table_arm id
  else "unknown"%string.

(** The loop of [SyscallNameToId] from index [i] on. *)
Fixpoint find_name (name : string) (table : list string) (i : Z) : option Z :=
  match table with
  | [] => None
  | n :: table => if decide (name = n) then Some (u32 i) else find_name name table (i + 1)
  end.

(** [SyscallNameToId]; [goarch] is runtime.GOARCH. *)
Definition SyscallNameToId (goarch name : string) : Z :=
  if decide (goarch = "amd64"%string) then default MaxUint32 (find_name name syscall_table_x86 0)
  else if decide (goarch = "arm"%string \/ goarch = "arm64"%string)
  then default MaxUint32 (find_name name syscall_table_arm 0)
  else MaxUint32.
