(* ===== verification/SyscallTableSpec.v ===== *)
(** Names and numbers of system calls, end to end: properties of [SyscallTable]
    and of the filter of [Syscall]. *)
From Stdlib Require Import String.
From stdpp Require Import strings pretty.
From S2P Require Import Prelude Prog BpfMap Syscall SyscallTable.
Open Scope Z_scope.
Open Scope bpf_scope.

(** * The loop *)

Lemma find_name_Some name table i j :
  0 <= i -> i + Z.of_nat (List.length table) <= 2 ^ 32 ->
  find_name name table i = Some j <->
  i <= j /\ table !! Z.to_nat (j - i) = Some name /\
  (forall k, i <= k < j -> table !! Z.to_nat (k - i) <> Some name).
Proof.
  revert i. induction table as [|n table IH]; intros i Hi Hlen; cbn [find_name List.length] in *.
  { split; [done|]. intros (_ & Hj & _). by rewrite lookup_nil in Hj. }
  case_decide as Hn.
  - subst n. rewrite uN_id by (split; lia). split.
    + intros [= <-]. rewrite Z.sub_diag. split_and!; [lia | done | lia].
    + intros (Hij & Hj & Hmin). f_equal. destruct (decide (i = j)) as [|Hne]; [done|].
      destruct (Hmin i ltac:(lia)). by rewrite Z.sub_diag.
  - rewrite IH by lia.
    assert (Hs : forall k, i + 1 <= k ->
      (n :: table) !! Z.to_nat (k - i) = table !! Z.to_nat (k - (i + 1))).
    { intros k Hk. by replace (Z.to_nat (k - i)) with (S (Z.to_nat (k - (i + 1)))) by lia. }
    split.
    + intros (Hij & Hj & Hmin). split_and!; [lia | by rewrite Hs by lia |]. intros k Hk.
      destruct (decide (k = i)) as [-> | Hne]; [rewrite Z.sub_diag; change (Some n <> Some name); congruence|].
      rewrite Hs by lia. apply Hmin. lia.
    + intros (Hij & Hj & Hmin).
      assert (Hne : i <> j) by (intros ->; rewrite Z.sub_diag in Hj; change (Some n = Some name) in Hj; congruence).
      split_and!; [lia | by rewrite <- Hs by lia |]. intros k Hk. rewrite <- Hs by lia.
      apply Hmin. lia.
Qed.

Lemma find_name_None name table i : find_name name table i = None <-> name ∉ table.
Proof.
  revert i. induction table as [|n table IH]; intros i; cbn; [set_solver|].
  case_decide; [set_solver|]. rewrite IH. set_solver.
Qed.

(** The table of an architecture. *)
Definition table_of (arch : string) : list string :=
  if decide (arch = "amd64"%string) then syscall_table_x86
  else if decide (arch = "arm"%string \/ arch = "arm64"%string) then syscall_table_arm else [].

Lemma length_table_of arch : (List.length (table_of arch) <= 333)%nat.
Proof. unfold table_of. repeat case_decide; apply Nat.leb_le; vm_compute; reflexivity. Qed.

Lemma SyscallNameToId_find arch name :
  SyscallNameToId arch name = default MaxUint32 (find_name name (table_of arch) 0).
Proof. unfold SyscallNameToId, table_of. by repeat case_decide. Qed.

Lemma SyscallIdToName_lookup arch id :
  0 <= id < Z.of_nat (List.length (table_of arch)) ->
  table_of arch !! Z.to_nat id = Some (SyscallIdToName arch id).
Proof.
  intros Hid.
  assert (H : forall table, 0 <= id < Z.of_nat (List.length table) ->
    table !! Z.to_nat id = Some (table_name table id)).
  { intros table Ht. unfold table_name. rewrite (proj2 (Z.leb_gt _ _)) by lia.
    destruct (lookup_lt_is_Some_2 table (Z.to_nat id) ltac:(lia)) as [n Hn]. by rewrite Hn. }
  unfold SyscallIdToName. unfold table_of in *. repeat case_decide; try by apply H.
  cbn in Hid. lia.
Qed.

(** The names of a table are different, as a check. *)
Fixpoint nodupb (l : list string) : bool :=
  match l with
  | [] => true
  | n :: l => bool_decide (n ∉ l) && nodupb l
  end.

Lemma nodupb_NoDup l : nodupb l = true -> NoDup l.
Proof.
  induction l as [|n l IH]; intros H; [constructor|]. cbn in H.
  apply andb_true_iff in H as [Hn Hl]. apply bool_decide_eq_true in Hn. constructor; auto.
Qed.

Lemma x86_names_different : NoDup syscall_table_x86.
Proof. apply nodupb_NoDup. vm_compute. reflexivity. Qed.

(** * Properties *)

(** On amd64 numbers and names determine each other: every number below 333
    has a name that is translated back to it, and every name that is in the table
    is translated to a number whose name it is. *)
Lemma syscall_names_roundtrip :
  (forall id, 0 <= id < 333 -> SyscallNameToId "amd64" (SyscallIdToName "amd64" id) = id) /\
  (forall name, name ∈ syscall_table_x86 ->
     SyscallIdToName "amd64" (SyscallNameToId "amd64" name) = name).
Proof.
  assert (Hlen : Z.of_nat (List.length syscall_table_x86) = 333) by (vm_compute; reflexivity).
  assert (Hlk : forall id, 0 <= id < 333 ->
    syscall_table_x86 !! Z.to_nat id = Some (SyscallIdToName "amd64" id)).
  { intros id Hid. apply (SyscallIdToName_lookup "amd64").
    change (table_of "amd64") with syscall_table_x86. lia. }
  split.
  - intros id Hid. rewrite SyscallNameToId_find. change (table_of "amd64") with syscall_table_x86.
    enough (find_name (SyscallIdToName "amd64" id) syscall_table_x86 0 = Some id) as -> by done.
    apply find_name_Some; [lia | lia |]. rewrite Z.sub_0_r.
    split_and!; [lia | by apply Hlk |]. intros k Hk Heq. rewrite Z.sub_0_r in Heq.
    pose proof (NoDup_lookup _ _ _ _ x86_names_different Heq (Hlk id Hid)). lia.
  - intros name Hin. rewrite SyscallNameToId_find. change (table_of "amd64") with syscall_table_x86.
    destruct (find_name name syscall_table_x86 0) as [j|] eqn:Hj;
      [|by apply find_name_None in Hj].
    apply find_name_Some in Hj as (Hj0 & Hj & _); [|lia|lia]. rewrite Z.sub_0_r in Hj. cbn.
    assert (Hlt : 0 <= j < 333) by (apply lookup_lt_Some in Hj; lia).
    rewrite Hlk in Hj by done. by injection Hj.
Qed.

(** On arm and arm64 the table has 16 entries with the same name: the user
    cannot ask for the numbers 245 to 259, which are traced as 244. *)
Lemma arm_names_ambiguous id :
  0 <= id < 292 ->
  SyscallNameToId "arm64" (SyscallIdToName "arm64" id) =
    if (244 <=? id) && (id <=? 259) then 244 else id.
Proof.
  intros Hid.
  assert (H : forallb (fun i => let id := Z.of_nat i in
    SyscallNameToId "arm64" (SyscallIdToName "arm64" id) =?
      if (244 <=? id) && (id <=? 259) then 244 else id) (seq 0 292) = true)
    by (vm_compute; reflexivity).
  rewrite forallb_forall in H. specialize (H (Z.to_nat id)).
  rewrite Z2Nat.id in H by lia. apply Z.eqb_eq, H. apply in_seq. lia.
Qed.

(** The name the user gives becomes a filter on the calls: a name of the table
    lets exactly the calls with that name pass, but a name that is not in it,
    misspelt for instance, lets every call pass. *)
Lemma name_filter arch name ua pid tid id :
  arg_pid ua = 0 -> arg_tid ua = 0 -> is_u32 id ->
  arg_syscall_id ua = SyscallNameToId arch name ->
  NoDup (table_of arch) ->
  sys_filter ua pid tid id =
    (bool_decide (name ∉ table_of arch) || bool_decide (table_of arch !! Z.to_nat id = Some name)).
Proof.
  intros Hp Ht [Hid0 Hid] Hs Hnd. unfold sys_filter. rewrite Hp, Ht. cbn [nz Z.eqb negb andb].
  rewrite Hs, SyscallNameToId_find. pose proof (length_table_of arch) as Hlen.
  destruct (find_name name (table_of arch) 0) as [j|] eqn:Hj.
  - assert (Hin : name ∈ table_of arch).
    { apply dec_stable. rewrite <- (find_name_None _ _ 0). congruence. }
    rewrite (bool_decide_false (name ∉ table_of arch)) by naive_solver.
    apply find_name_Some in Hj as (Hj0 & Hj & _); [|lia|lia]. rewrite Z.sub_0_r in Hj. cbn [default from_option orb].
    assert (Hjl : (Z.to_nat j < 333)%nat) by (apply lookup_lt_Some in Hj; lia).
    change (Datatypes.id j) with j. unfold UINT32_MAX. rewrite (proj2 (Z.eqb_neq j _)) by lia. cbn [negb andb].
    rewrite negb_involutive. destruct (Z.eqb_spec j id) as [-> | Hne].
    + by rewrite bool_decide_true.
    + symmetry. apply bool_decide_false. intros Heq.
      pose proof (NoDup_lookup _ _ _ _ Hnd Heq Hj). lia.
  - apply find_name_None in Hj. by rewrite (bool_decide_true _ Hj).
Qed.

(** * Examples *)

Lemma arm_names_ambiguous_witness :
  SyscallNameToId "arm64" (SyscallIdToName "arm64" 250) = 244.
Proof. rewrite (arm_names_ambiguous 250); [reflexivity | split; [lia | reflexivity]]. Defined.

Definition futex_only : user_args := {|
  arg_pid := 0; arg_tid := 0; min_syscall_ms := 0; max_syscall_ms := 1000; arg_stack := false;
  arg_syscall_id := SyscallNameToId "amd64" "futx" |}.

Lemma name_filter_witness : sys_filter futex_only 7 70 0 = true.
Proof.
  rewrite (name_filter "amd64" "futx" futex_only 7 70 0 eq_refl eq_refl); [| split; [lia | reflexivity] | reflexivity |].
  - vm_compute. reflexivity.
  - exact x86_names_different.
Defined.
