(* ===== verification/Pthread.v ===== *)
(** POSIX threads, as far as the test programs use them.

    A thread is the list of calls it has still to make; [fn] names the start routines
    (and the loops) of a program and [body] gives their calls.  [step_thread] is one
    call of one thread, [None] when the thread cannot go on, and a program runs by steps
    of its threads in any order.  A call POSIX leaves undefined sets [undefined]. *)
From S2P Require Import Prelude.

(** What a thread prints: the three messages about a mutex, and anything else. *)
Inductive output := ORequire | OGet | OPut | OOther.

#[export] Instance output_eq_dec : EqDecision output.
Proof. solve_decision. Defined.

(** A mutex, before [pthread_mutex_init] and after [pthread_mutex_destroy] included. *)
Inductive mutex_state := Uninit | Free | Held (i : nat) | Destroyed.

#[export] Instance mutex_state_eq_dec : EqDecision mutex_state.
Proof. solve_decision. Defined.

Inductive instr {fn : Type} :=
| ISleep (seconds : Z)
| IYield
| IClock                  (** clock_gettime *)
| IWork                   (** a loop that computes *)
| IPrint (o : output)
| IMutexInit | ILock | IUnlock | IMutexDestroy
| ICondInit | ICondWait | ICondSignal | ICondDestroy
| ICreate (f : fn)        (** pthread_create, its result ignored *)
| ICreateOrExit (f : fn)  (** pthread_create; exit(-1) when it fails *)
| IJoin (n : nat)         (** pthread_join of the [n]-th thread, main being 0 *)
| IExit                   (** pthread_exit, or the return of a start routine *)
| IReturn (z : Z)         (** the return of main, which ends the process *)
| IGoto (f : fn)          (** the start of a loop that never ends *)
| INever.                 (** not a call: stands for a thread that could not be created *)
Arguments instr : clear implicits.

(** One mutex and one condition variable, the threads in the order of their creation. *)
Record config (fn : Type) := {
  threads : list (list (instr fn));
  mutex : mutex_state;
  waiters : list nat;        (** the threads in pthread_cond_wait *)
  exited : option Z;
  out : list (nat * output);
  undefined : bool }.
Arguments threads {fn} _.
Arguments mutex {fn} _.
Arguments waiters {fn} _.
Arguments exited {fn} _.
Arguments out {fn} _.
Arguments undefined {fn} _.

(** [set_f x c]: the assignment [c.f = x]. *)
Definition set_threads {fn} (x : list (list (instr fn))) (c : config fn) : config fn :=
  {| threads := x; mutex := mutex c; waiters := waiters c;
     exited := exited c; out := out c; undefined := undefined c |}.
Definition set_mutex {fn} (x : mutex_state) (c : config fn) : config fn :=
  {| threads := threads c; mutex := x; waiters := waiters c;
     exited := exited c; out := out c; undefined := undefined c |}.
Definition set_waiters {fn} (x : list nat) (c : config fn) : config fn :=
  {| threads := threads c; mutex := mutex c; waiters := x;
     exited := exited c; out := out c; undefined := undefined c |}.
Definition set_exited {fn} (x : option Z) (c : config fn) : config fn :=
  {| threads := threads c; mutex := mutex c; waiters := waiters c;
     exited := x; out := out c; undefined := undefined c |}.
Definition set_out {fn} (x : list (nat * output)) (c : config fn) : config fn :=
  {| threads := threads c; mutex := mutex c; waiters := waiters c;
     exited := exited c; out := x; undefined := undefined c |}.
Definition set_undefined {fn} (x : bool) (c : config fn) : config fn :=
  {| threads := threads c; mutex := mutex c; waiters := waiters c;
     exited := exited c; out := out c; undefined := x |}.

Definition main_only {fn} (main : list (instr fn)) : config fn :=
  {| threads := [main]; mutex := Uninit; waiters := []; exited := None; out := []; undefined := false |}.

(** Whether the system can refuse a new thread (pthread_create then returns EAGAIN). *)
Class System := { refuses : bool }.
#[export] Instance granting : System := {| refuses := false |}.
Definition refusing : System := {| refuses := true |}.

Definition never_created {fn} (a : instr fn) : bool := match a with INever => true | _ => false end.

Section Steps.
Context {fn : Type} `{Sys : System} (body : fn -> list (instr fn)).

(** The call [a] of thread [i], whose other calls are [k].  [ch] is the choice of the
    system: which waiter a signal wakes, whether a creation fails.  A thread that waits
    for the condition has released the mutex and must take it again.  A creation that
    fails leaves the id of its thread as it is, and to join it is undefined. *)
Definition call (i ch : nat) (a : instr fn) (k : list (instr fn)) (c : config fn) : option (config fn) :=
  let go k' := set_threads (<[i := k']> (threads c)) c in
  let c' := go k in
  let ub := set_undefined true c' in
  let create f := set_threads (<[i := k]> (threads c) ++ [body f]) c in
  match a with
  | ISleep _ | IYield | IClock | IWork | ICondInit => Some c'
  | IPrint o => Some (set_out (out c ++ [(i, o)]) c')
  | IMutexInit =>
      Some (match mutex c with Free | Held _ => ub | _ => set_mutex Free c' end)
  | ILock =>
      match mutex c with Free => Some (set_mutex (Held i) c') | Held _ => None | _ => Some ub end
  | IUnlock => Some (if decide (mutex c = Held i) then set_mutex Free c' else ub)
  | IMutexDestroy => Some (if decide (mutex c = Free) then set_mutex Destroyed c' else ub)
  | ICondWait =>
      Some (if decide (mutex c = Held i)
            then set_waiters (i :: waiters c) (set_mutex Free (go (ILock :: k))) else ub)
  | ICondSignal =>
      match waiters c, waiters c !! ch with
      | [], _ => Some c'
      | _, Some _ => Some (set_waiters (delete ch (waiters c)) c')
      | _, None => None
      end
  | ICondDestroy => Some (if decide (waiters c = []) then c' else ub)
  | ICreate f =>
      Some (if refuses && negb (ch =? 0)%nat then set_threads (<[i := k]> (threads c) ++ [[INever]]) c else create f)
  | ICreateOrExit f =>
      Some (if decide (ch = 0%nat) then create f else set_exited (Some (-1)) c')
  | IJoin n =>
      match threads c !! n with
      | Some [] => Some c'
      | Some (b :: _) => if never_created b then Some ub else None
      | None => Some ub
      end
  | IExit => Some (go [])
  | IReturn z => Some (set_exited (Some z) (go []))
  | IGoto f => Some (go (body f))
  | INever => None
  end.

Definition step_thread (i ch : nat) (c : config fn) : option (config fn) :=
  match exited c, threads c !! i with
  | None, Some (a :: k) => if decide (i ∈ waiters c) then None else call i ch a k c
  | _, _ => None
  end.

Inductive step (c : config fn) : config fn -> Prop :=
| step_run i ch c' : step_thread i ch c = Some c' -> step c c'.

(** The steps of a given schedule. *)
Fixpoint run (sched : list (nat * nat)) (c : config fn) : option (config fn) :=
  match sched with
  | [] => Some c
  | (i, ch) :: sched => step_thread i ch c ≫= run sched
  end.

Lemma run_nsteps sched c c' : run sched c = Some c' -> nsteps step (length sched) c c'.
Proof.
  revert c. induction sched as [|[i ch] sched IH]; intros c H; cbn in H; [simplify_eq; constructor|].
  apply bind_Some in H as (c1 & H1 & H2). cbn. eapply nsteps_l; [by econstructor | by apply IH].
Qed.

(** The schedule that lets the first thread that can go on take the next step. *)
Definition first_runnable (c : config fn) : option nat :=
  find (fun i => match step_thread i 0 c with Some _ => true | None => false end) (seq 0 (length (threads c))).

Fixpoint first_come (fuel : nat) (c : config fn) : list (nat * nat) :=
  match fuel, first_runnable c with
  | S fuel, Some i =>
      match step_thread i 0 c with Some c' => (i, 0%nat) :: first_come fuel c' | None => [] end
  | _, _ => []
  end.

(** [step] by its call. *)
Lemma step_call c c' :
  step c c' <-> exists i ch a k, exited c = None /\ threads c !! i = Some (a :: k) /\
    (i ∉ waiters c) /\ call i ch a k c = Some c'.
Proof.
  split.
  - intros [i ch c1 H]. unfold step_thread in H. destruct (exited c) eqn:He; [done|].
    destruct (threads c !! i) as [[|a k]|] eqn:Ht; [done| |done].
    case_decide; [done|]. by exists i, ch, a, k.
  - intros (i & ch & a & k & He & Ht & Hw & Hc). apply (step_run _ i ch). unfold step_thread.
    rewrite He, Ht. by rewrite decide_False.
Qed.
End Steps.
