(* ===== verification/PthreadTheory.v ===== *)
(** Programs that keep to the rules of their mutex.

    [disciplined] is a check of a thread's calls that looks at them once, in their order;
    a program that passes it reaches no call POSIX leaves undefined, its threads hold
    the mutex one after the other, and it can only stop at the end of main or with a
    thread that waits for its condition ([live_step], [live_progress]).  [weight] bounds
    the number of its steps and [prints] counts what it has still to print.  For small
    programs [explored] checks a property of all reachable configurations by listing
    them. *)
From S2P Require Import Prelude Pthread.

(** What a thread knows of the mutex: nothing yet, that it does not hold it, that it
    holds it, that it is destroyed. *)
Inductive view := VNone | VOut | VIn | VDead.

#[export] Instance view_eq_dec : EqDecision view.
Proof. solve_decision. Defined.

Definition view_of (i : nat) (m : mutex_state) : view :=
  match m with
  | Uninit => VNone | Free => VOut | Destroyed => VDead
  | Held j => if decide (j = i) then VIn else VOut
  end.

(** The messages "get mutex" and "put mutex" one after the other: who has printed the
    first and not the second; [None] when they do not alternate. *)
Definition turn (h : option nat) (e : nat * output) : option (option nat) :=
  match e.2 with
  | OGet => match h with None => Some (Some e.1) | Some _ => None end
  | OPut => if decide (h = Some e.1) then Some None else None
  | _ => Some h
  end.
Definition serial (l : list (nat * output)) : option (option nat) :=
  foldl (fun h e => h ≫= fun h => turn h e) (Some None) l.

Lemma serial_snoc l e : serial (l ++ [e]) = serial l ≫= fun h => turn h e.
Proof. unfold serial. by rewrite foldl_app. Qed.

Section Discipline.
Context {fn : Type} (body : fn -> list (instr fn)).
Implicit Types (a : instr fn) (k : list (instr fn)) (c : config fn).

(** The threads a thread will create and wait for. *)
Fixpoint creates k : nat :=
  match k with [] => 0 | ICreate _ :: k => S (creates k) | _ :: k => creates k end%nat.
Fixpoint joins k : list nat :=
  match k with [] => [] | IJoin n :: k => n :: joins k | _ :: k => joins k end.

(** The calls [k] of a thread, of main when [mn], that sees the mutex as [v] and has
    printed "get mutex" and not yet "put mutex" when [g]. *)
Fixpoint disciplined (mn : bool) (v : view) (g : bool) k : bool :=
  match k with
  | [] => negb mn && negb (bool_decide (v = VIn))
  | a :: k =>
      match a with
      | ISleep _ | IYield | IClock | IWork | ICondInit | IPrint ORequire | IPrint OOther =>
          disciplined mn v g k
      | IPrint OGet => bool_decide (v = VIn) && negb g && disciplined mn v true k
      | IPrint OPut => bool_decide (v = VIn) && g && disciplined mn v false k
      | IMutexInit => mn && bool_decide (v = VNone) && disciplined mn VOut g k
      | ILock => bool_decide (v = VOut) && disciplined mn VIn g k
      | IUnlock => bool_decide (v = VIn) && negb g && disciplined mn VOut g k
      | IMutexDestroy =>
          mn && bool_decide (v = VOut) && bool_decide (creates k = 0%nat) && bool_decide (joins k = [])
          && disciplined mn VDead g k
      | ICondWait => bool_decide (v = VIn) && negb g && disciplined mn VIn g k
      | ICondSignal => disciplined mn v g k
      | ICondDestroy => mn && bool_decide (v = VDead) && disciplined mn v g k
      | ICreate _ => mn && bool_decide (v = VOut) && disciplined mn v g k
      | IJoin _ => mn && bool_decide (v = VOut) && bool_decide (creates k = 0%nat) && disciplined mn v g k
      | IExit => negb mn && bool_decide (v = VOut)
      | IReturn z => mn && bool_decide (v = VDead) && bool_decide (z = 0)
      | ICreateOrExit _ | IGoto _ | INever => false
      end
  end.

(** A running program. *)
Record live c : Prop := {
  lv_code : forall i k, threads c !! i = Some k ->
    disciplined (bool_decide (i = 0%nat)) (view_of i (mutex c))
      (bool_decide (serial (out c) = Some (Some i))) k = true;
  lv_out : match serial (out c) with None => False | Some None => True | Some (Some i) => mutex c = Held i end;
  lv_held : forall i, mutex c = Held i -> (i < length (threads c))%nat;
  lv_wait : forall i, i ∈ waiters c -> exists k, threads c !! i = Some (ILock :: k);
  lv_uninit : mutex c = Uninit -> length (threads c) = 1%nat;
  lv_dead : mutex c = Destroyed -> forall i k, (1 <= i)%nat -> threads c !! i = Some k -> k = [];
  lv_main : (1 <= length (threads c))%nat;
  lv_join : forall k n, threads c !! 0%nat = Some k -> (1 <= n < length (threads c) + creates k)%nat ->
    n ∈ joins k \/ threads c !! n = Some [];
  lv_bound : forall k n, threads c !! 0%nat = Some k -> n ∈ joins k ->
    (1 <= n < length (threads c) + creates k)%nat;
  lv_ub : undefined c = false }.

(** A program that has ended well: nobody holds the mutex, every thread has ended. *)
Record ended c : Prop := {
  en_exit : exited c = Some 0;
  en_mutex : mutex c = Destroyed;
  en_threads : forall k, k ∈ threads c -> k = [];
  en_out : serial (out c) = Some None;
  en_ub : undefined c = false }.

Definition safe c : Prop := match exited c with None => live c | Some _ => ended c end.

Lemma view_of_self i m : view_of i m = VIn <-> m = Held i.
Proof. destruct m as [| |j|]; cbn; try (split; congruence). case_decide; split; congruence. Qed.
Lemma view_of_none i m : view_of i m = VNone <-> m = Uninit.
Proof. destruct m as [| |j|]; cbn; try (split; congruence). case_decide; split; congruence. Qed.
Lemma view_of_dead i m : view_of i m = VDead <-> m = Destroyed.
Proof. destruct m as [| |j|]; cbn; try (split; congruence). case_decide; split; congruence. Qed.
Lemma view_of_out i m : view_of i m = VOut <-> m = Free \/ exists j, m = Held j /\ j <> i.
Proof.
  destruct m as [| |j|]; cbn; [naive_solver..| |naive_solver].
  case_decide; split; [done | | naive_solver | done].
  intros [?|(j' & ? & ?)]; simplify_eq.
Qed.

(** What the threads other than [i] see does not change. *)
Definition same_for_others i c c' : Prop :=
  (forall j kj, j <> i -> threads c !! j = Some kj -> view_of j (mutex c') = view_of j (mutex c) \/
    kj = [] /\ (1 <= j)%nat /\ view_of j (mutex c') <> VIn) /\
  (forall j, j <> i -> serial (out c') = Some (Some j) <-> serial (out c) = Some (Some j)).

(** A call that only moves thread [i] on from [a :: k] to [k'] keeps the program
    running well. *)
Lemma live_update c c' i a k k' :
  live c -> threads c !! i = Some (a :: k) ->
  threads c' = <[i := k']> (threads c) -> undefined c' = false ->
  disciplined (bool_decide (i = 0%nat)) (view_of i (mutex c'))
    (bool_decide (serial (out c') = Some (Some i))) k' = true ->
  same_for_others i c c' ->
  (match serial (out c') with None => False | Some None => True | Some (Some i) => mutex c' = Held i end) ->
  (forall j, mutex c' = Held j -> (j < length (threads c))%nat) ->
  (forall j, j ∈ waiters c' -> j <> i /\ j ∈ waiters c \/ j = i /\ exists k0, k' = ILock :: k0) ->
  (mutex c' = Uninit -> mutex c = Uninit) ->
  (mutex c' = Destroyed ->
    i = 0%nat /\ forall j kj, (1 <= j)%nat -> threads c !! j = Some kj -> kj = []) ->
  (i = 0%nat -> creates k' = creates (a :: k) /\ (forall n, n ∈ joins k' -> n ∈ joins (a :: k)) /\
    (forall n, n ∈ joins (a :: k) -> n ∈ joins k' \/ threads c !! n = Some [])) ->
  live c'.
Proof.
  intros [] Hi Ht Hub Hd [Hv Hs] Ho Hh Hw Hun Hde Hj.
  assert (Hlt : (i < length (threads c))%nat) by by eapply lookup_lt_Some.
  assert (Hother : forall j kj, j <> i -> <[i := k']> (threads c) !! j = Some kj -> threads c !! j = Some kj).
  { intros j kj Hne. by rewrite list_lookup_insert_ne by done. }
  assert (Hdone : forall n, threads c !! n = Some [] -> <[i := k']> (threads c) !! n = Some []).
  { intros n Hn. rewrite list_lookup_insert_ne; [done|]. intros ->. congruence. }
  constructor; rewrite ?Ht, ?length_insert; try done.
  - intros j kj Hl. destruct (decide (j = i)) as [->|Hne].
    + rewrite list_lookup_insert_eq in Hl by done. by simplify_eq.
    + apply Hother in Hl; [|done]. rewrite (bool_decide_ext _ _ (Hs j Hne)).
      destruct (Hv j kj Hne Hl) as [->|(-> & Hj1 & Hj2)]; [by apply lv_code0|]. cbn.
      rewrite !bool_decide_eq_false_2 by (done || lia). done.
  - intros j Hin. destruct (Hw j Hin) as [[Hne Hin']|[-> [k0 ->]]].
    + destruct (lv_wait0 j Hin') as [kj Hkj]. exists kj. by rewrite list_lookup_insert_ne.
    + exists k0. by apply list_lookup_insert_eq.
  - intros Hu. by apply lv_uninit0, Hun.
  - intros Hu j kj Hj1 Hl. destruct (Hde Hu) as [-> Hall]. eapply Hall; [done|]. apply Hother in Hl; [done|lia].
  - intros k0 n H0 Hn. destruct (decide (i = 0%nat)) as [->|Hne].
    + rewrite list_lookup_insert_eq in H0 by done. simplify_eq. destruct (Hj eq_refl) as (Hc & _ & Hin).
      rewrite Hc in Hn. destruct (lv_join0 _ n Hi Hn) as [H|H]; [|by right; apply Hdone].
      destruct (Hin n H) as [|]; [by left|]. right. by apply Hdone.
    + apply Hother in H0; [|done]. destruct (lv_join0 _ n H0 Hn) as [H|H]; [by left|]. right. by apply Hdone.
  - intros k0 n H0 Hn. destruct (decide (i = 0%nat)) as [->|Hne].
    + rewrite list_lookup_insert_eq in H0 by done. simplify_eq. destruct (Hj eq_refl) as (Hc & Hin & _).
      rewrite Hc. eapply lv_bound0; [done | by apply Hin].
    + apply Hother in H0; [|done]. by eapply lv_bound0.
Qed.

Lemma live_go c c' i a k :
  live c -> threads c !! i = Some (a :: k) -> i ∉ waiters c ->
  threads c' = <[i := k]> (threads c) -> undefined c' = false ->
  mutex c' = mutex c -> serial (out c') = serial (out c) -> waiters c' ⊆ waiters c ->
  disciplined (bool_decide (i = 0%nat)) (view_of i (mutex c)) (bool_decide (serial (out c) = Some (Some i))) k = true ->
  (i = 0%nat -> creates k = creates (a :: k) /\ (forall n, n ∈ joins k -> n ∈ joins (a :: k)) /\
    (forall n, n ∈ joins (a :: k) -> n ∈ joins k \/ threads c !! n = Some [])) ->
  live c'.
Proof.
  intros L Hi Hwi Ht Hub Hm Ho Hw Hd Hj. pose proof L as []. apply (live_update c c' i a k k); rewrite ?Hm, ?Ho; try done.
  - split; [rewrite Hm; by left | by rewrite Ho].
  - intros j Hin. left. split; [|by apply Hw]. intros ->. by apply Hwi, Hw.
  - intros Hde. split; [|by apply lv_dead0]. destruct i as [|i]; [done|].
    exfalso. by assert (a :: k = []) by (by apply (lv_dead0 Hde (S i)); [lia|]).
Qed.

(** When main has nothing to create and to wait for, the other threads have ended. *)
Lemma others_done c k : live c -> threads c !! 0%nat = Some k -> creates k = 0%nat -> joins k = [] ->
  forall j kj, (1 <= j)%nat -> threads c !! j = Some kj -> kj = [].
Proof.
  intros L Hi Hc Hjn j kj Hj1 Hl. destruct (lv_join _ L _ j Hi) as [H|H].
  - rewrite Hc. apply lookup_lt_Some in Hl. lia.
  - rewrite Hjn in H. by apply elem_of_nil in H.
  - congruence.
Qed.

(** The holder of the mutex has not ended. *)
Lemma holder_runs c j : live c -> mutex c = Held j -> exists a k, threads c !! j = Some (a :: k).
Proof.
  intros L Hm. pose proof (lv_held _ L j Hm) as Hlt. apply lookup_lt_is_Some_2 in Hlt as [[|a k] Hk]; [|by eauto].
  pose proof (lv_code _ L _ _ Hk) as D. rewrite Hm in D. cbn in D. rewrite decide_True in D by done.
  by rewrite andb_false_r in D.
Qed.

(** Of the calls on the mutex only those of its holder or of the first one to take it
    change what [i] sees. *)
Lemma live_mutex c c' i a k k' :
  live c -> threads c !! i = Some (a :: k) -> i ∉ waiters c ->
  threads c' = <[i := k']> (threads c) -> undefined c' = false ->
  out c' = out c -> (waiters c' ⊆ waiters c \/ waiters c' = i :: waiters c /\ exists k0, k' = ILock :: k0) ->
  (mutex c = Free /\ mutex c' = Held i \/ mutex c = Held i /\ mutex c' = Free \/
   i = 0%nat /\ mutex c = Uninit /\ mutex c' = Free \/
   i = 0%nat /\ mutex c = Free /\ mutex c' = Destroyed /\ creates k = 0%nat /\ joins (a :: k) = []) ->
  (serial (out c) <> Some (Some i) -> serial (out c) = Some None \/ mutex c' = mutex c) ->
  disciplined (bool_decide (i = 0%nat)) (view_of i (mutex c')) (bool_decide (serial (out c) = Some (Some i))) k' = true ->
  (serial (out c) = Some (Some i) -> mutex c' = Held i) ->
  (i = 0%nat -> creates (a :: k) = creates k /\ creates k' = creates k /\ joins k' = joins (a :: k)) ->
  live c'.
Proof.
  intros L Hi Hwi Ht Hub Ho Hw Hm Hs Hd Hg Hj. pose proof L as [].
  assert (Hall : i = 0%nat -> creates (a :: k) = 0%nat -> joins (a :: k) = [] ->
    forall j kj, (1 <= j)%nat -> threads c !! j = Some kj -> kj = []) by (intros ->; by apply others_done).
  apply (live_update c c' i a k k'); rewrite ?Ho; try done.
  - split; [|by rewrite Ho]. intros j kj Hne Hl.
    destruct Hm as [(-> & ->)|[(-> & ->)|[(-> & Hu & ->)|(-> & -> & -> & Hc & Hn)]]]; cbn.
    + left. by rewrite decide_False.
    + left. by rewrite decide_False.
    + apply lv_uninit0 in Hu. apply lookup_lt_Some in Hl. lia.
    + right. assert (1 <= j)%nat by lia. split; [|done]. eapply Hall; [done| | done | done | done].
      destruct (Hj eq_refl) as [-> _]. done.
  - destruct (serial (out c)) as [[j|]|] eqn:E; [|done..]. destruct (decide (j = i)) as [->|Hne]; [by apply Hg|].
    destruct Hs as [E'|E']; [congruence| |]; rewrite ?E'; congruence.
  - intros j Hj'. apply lookup_lt_Some in Hi. destruct Hm as [(? & E)|[(? & E)|[(? & ? & E)|(? & ? & E & ?)]]];
      rewrite E in Hj'; by simplify_eq.
  - intros j Hin. destruct Hw as [Hw|[Hw Hk]].
    + left. split; [|by apply Hw]. intros ->. by apply Hwi, Hw.
    + rewrite Hw in Hin. apply elem_of_cons in Hin as [->|Hin]; [by right|]. left. split; [|done].
      intros ->. done.
  - intros E. destruct Hm as [(? & E')|[(? & E')|[(? & ? & E')|(? & ? & E' & ?)]]]; congruence.
  - intros E. destruct Hm as [(? & E')|[(? & E')|[(? & ? & E')|(? & ? & E' & Hc & Hn)]]]; [congruence..|].
    split; [done|]. apply Hall; [done| |done]. destruct Hj as [-> _]; done.
  - intros H0. destruct (Hj H0) as (-> & -> & ->). split; [done|]. split; [done|]. by left.
Qed.

Context (Hbody : forall f, disciplined false VOut false (body f) = true).

Lemma live_create c c' f k :
  live c -> threads c !! 0%nat = Some (ICreate f :: k) -> 0%nat ∉ waiters c ->
  threads c' = <[0%nat := k]> (threads c) ++ [body f] -> undefined c' = false ->
  mutex c' = mutex c -> out c' = out c -> waiters c' = waiters c -> live c'.
Proof.
  intros L Hi Hwi Ht Hub Hm Ho Hw. pose proof L as [].
  assert (Hlt : (0 < length (threads c))%nat) by lia.
  pose proof (lv_code0 _ _ Hi) as D. cbn in D. apply andb_true_iff in D as [D Hk].
  apply bool_decide_eq_true in D.
  assert (Hget : forall j kj, (<[0%nat := k]> (threads c) ++ [body f]) !! j = Some kj ->
    j = 0%nat /\ kj = k \/ (1 <= j)%nat /\ threads c !! j = Some kj \/ j = length (threads c) /\ kj = body f).
  { intros j kj Hl. apply lookup_app_Some in Hl as [Hl|[Hge Hl]].
    - destruct (decide (j = 0%nat)) as [->|Hne].
      + rewrite list_lookup_insert_eq in Hl by done. simplify_eq. by left.
      + rewrite list_lookup_insert_ne in Hl by done. right. left. split; [lia|done].
    - rewrite length_insert in *. apply list_lookup_singleton_Some in Hl as [? <-]. right. right. split; [lia|done]. }
  assert (Hnew : forall j kj, (1 <= j)%nat -> threads c !! j = Some kj ->
    (<[0%nat := k]> (threads c) ++ [body f]) !! j = Some kj).
  { intros j kj Hj1 Hl. apply lookup_app_l_Some. by rewrite list_lookup_insert_ne by lia. }
  assert (Hlen : length (<[0%nat := k]> (threads c) ++ [body f]) = S (length (threads c))).
  { rewrite length_app, length_insert. cbn. lia. }
  constructor; rewrite ?Ht, ?Hm, ?Ho, ?Hw, ?Hlen; try done.
  - intros j kj Hl. apply Hget in Hl as [[-> ->]|[[Hj1 Hl]|[-> ->]]]; [done | by apply lv_code0 |].
    rewrite !bool_decide_eq_false_2.
    + replace (view_of (length (threads c)) (mutex c)) with VOut; [done|]. symmetry. apply view_of_out.
      apply view_of_out in D as [?|(j & Hj & ?)]; [by left|]. right. exists j. split; [done|].
      apply lv_held0 in Hj. lia.
    + intros E. rewrite E in lv_out0. apply lv_held0 in lv_out0. lia.
    + lia.
  - intros j Hj. apply lv_held0 in Hj. lia.
  - intros j Hj. destruct (lv_wait0 j Hj) as [kj Hkj]. exists kj. apply Hnew; [|done].
    destruct j; [done|lia].
  - intros E. by rewrite E in D.
  - intros E. by rewrite E in D.
  - lia.
  - intros k0 n H0 Hn. apply Hget in H0 as [[_ ->]|[[? _]|[? _]]]; [|lia..].
    destruct (lv_join0 _ n Hi) as [H|H]; [cbn; lia | by left |]. right. apply Hnew; [lia|done].
  - intros k0 n H0 Hn. apply Hget in H0 as [[_ ->]|[[? _]|[? _]]]; [|lia..].
    pose proof (lv_bound0 _ n Hi Hn) as Hb. cbn in Hb. lia.
Qed.

(** While a thread holds the mutex no other one is between its two messages. *)
Lemma live_serial c i :
  live c -> mutex c = Held i -> serial (out c) = Some None \/ serial (out c) = Some (Some i).
Proof.
  intros L Hm. pose proof (lv_out _ L) as Ho. destruct (serial (out c)) as [[j|]|]; [|by left|done].
  right. congruence.
Qed.

Lemma live_print c c' i a k h :
  live c -> threads c !! i = Some (a :: k) -> i ∉ waiters c ->
  threads c' = <[i := k]> (threads c) -> undefined c' = false -> mutex c' = mutex c ->
  waiters c' = waiters c -> mutex c = Held i -> serial (out c') = Some h -> (h = None \/ h = Some i) ->
  disciplined (bool_decide (i = 0%nat)) VIn (bool_decide (h = Some i)) k = true ->
  creates k = creates (a :: k) -> joins k = joins (a :: k) -> live c'.
Proof.
  intros L Hi Hwi Ht Hub Hm Hw Hh Ho Hor Hd Hcr Hjo. pose proof L as [].
  apply (live_update c c' i a k k); rewrite ?Hm, ?Ho, ?Hw; try done.
  - rewrite (proj2 (view_of_self i (mutex c)) Hh). rewrite <- Hd. f_equal. apply bool_decide_ext. naive_solver.
  - split; [rewrite Hm; by left|]. rewrite Ho. intros j Hne.
    destruct (live_serial c i L Hh) as [-> | ->], Hor as [-> | ->]; naive_solver.
  - destruct Hor as [-> | ->]; [done|]. done.
  - intros j Hin. left. split; [|done]. by intros ->.
  - rewrite Hh. done.
  - intros _. rewrite Hcr, Hjo. split; [done|]. split; [done|]. by left.
Qed.

(** The end of main. *)
Lemma live_return c c' k :
  live c -> threads c !! 0%nat = Some (IReturn 0 :: k) -> mutex c = Destroyed ->
  threads c' = <[0%nat := []]> (threads c) -> undefined c' = false -> mutex c' = mutex c ->
  out c' = out c -> exited c' = Some 0 -> ended c'.
Proof.
  intros L Hi Hm Ht Hub Hm' Ho He. pose proof L as []. constructor; rewrite ?Hm', ?Ho, ?Ht; try done.
  - intros kj [i Hl]%list_elem_of_lookup_1. destruct (decide (i = 0%nat)) as [->|Hne].
    + rewrite list_lookup_insert_eq in Hl by done. by simplify_eq.
    + rewrite list_lookup_insert_ne in Hl by done. apply (lv_dead0 Hm i); [lia|done].
  - destruct (serial (out c)) as [[j|]|]; [congruence | done..].
Qed.
(** Boolean decisions of the check as propositions. *)
Local Ltac discipline D :=
  repeat match type of D with
  | _ && _ = true => let D1 := fresh "D" in apply andb_true_iff in D as [D D1]; discipline D1
  | bool_decide (view_of _ _ = VIn) = true => apply bool_decide_eq_true, view_of_self in D
  | bool_decide (view_of _ _ = VNone) = true => apply bool_decide_eq_true, view_of_none in D
  | bool_decide (view_of _ _ = VDead) = true => apply bool_decide_eq_true, view_of_dead in D
  | bool_decide _ = true => apply bool_decide_eq_true in D
  | negb _ = true => apply negb_true_iff in D
  | bool_decide _ = false => apply bool_decide_eq_false in D
  end.

Local Ltac go_on := eapply live_go; [eassumption|eassumption|eassumption|..]; try reflexivity; try done.
Local Ltac change_mutex := eapply live_mutex; [eassumption|eassumption|eassumption|..]; try reflexivity; try done.

(** Nobody waits any more when the mutex is destroyed. *)
Lemma live_no_waiters c : live c -> mutex c = Destroyed -> 0%nat ∉ waiters c -> waiters c = [].
Proof.
  intros L Hm H0. destruct (waiters c) as [|j ws] eqn:Ew; [done|]. exfalso.
  destruct (lv_wait _ L j) as [kj Hj]; [rewrite Ew; by left|].
  assert (1 <= j)%nat by (destruct j; [exfalso; apply H0; by left | lia]).
  by pose proof (lv_dead _ L Hm j _ ltac:(done) Hj).
Qed.

(** Calls that change neither the mutex nor the threads there are. *)
Lemma live_quiet c c' i ch a k :
  live c -> threads c !! i = Some (a :: k) -> i ∉ waiters c -> call body i ch a k c = Some c' ->
  match a with ISleep _ | IYield | IClock | IWork | ICondInit | ICondSignal | ICondDestroy | IPrint _ => True
  | _ => False end -> live c'.
Proof.
  intros L Hi Hwi Hc Ha. pose proof (lv_code _ L _ _ Hi) as D. pose proof (lv_ub _ L) as Hub.
  destruct a; try done; cbn in D, Hc; try destruct o; discipline D; simplify_eq.
  all: try (go_on; [cbn; rewrite serial_snoc; by destruct (serial (out c))
                   | intros _; split; [done|]; split; [done|]; by left]).
  all: try (go_on; intros _; split; [done|]; split; [done|]; by left).
  - eapply (live_print _ _ i _ k (Some i)); try eassumption; try reflexivity; [|by right|].
    2: { rewrite (bool_decide_eq_true_2 (Some i = Some i)) by done. by rewrite <- (proj2 (view_of_self i (mutex c)) D). }
    cbn. rewrite serial_snoc. by destruct (live_serial c i L D) as [E|E]; rewrite E in *.
  - eapply (live_print _ _ i _ k None); try eassumption; try reflexivity; [|by left|].
    2: { by rewrite <- (proj2 (view_of_self i (mutex c)) D). }
    cbn. rewrite serial_snoc, D1. cbn. by rewrite decide_True.
  - destruct (waiters c) as [|w ws] eqn:Ew; simplify_eq.
    + rewrite <- Ew in Hwi. go_on. intros _; split; [done|]; split; [done|]; by left.
    + destruct ((w :: ws) !! ch) eqn:Ech; simplify_eq. rewrite <- Ew in *. go_on; [|].
      * cbn. intros j Hj. by eapply list_elem_of_delete_inv.
      * intros _; split; [done|]; split; [done|]; by left.
  - rewrite decide_True by by apply live_no_waiters. go_on. intros _; split; [done|]; split; [done|]; by left.
Qed.

(** Nobody is between its two messages while nobody holds the mutex. *)
Lemma live_serial_free c : live c -> (forall j, mutex c <> Held j) -> serial (out c) = Some None.
Proof.
  intros L Hm. pose proof (lv_out _ L) as Ho. destruct (serial (out c)) as [[j|]|]; [by destruct (Hm j)|done..].
Qed.

(** Calls on the mutex. *)
Lemma live_mutex_call c c' i ch a k :
  live c -> threads c !! i = Some (a :: k) -> i ∉ waiters c -> call body i ch a k c = Some c' ->
  match a with IMutexInit | ILock | IUnlock | IMutexDestroy | ICondWait => True | _ => False end -> live c'.
Proof.
  intros L Hi Hwi Hc Ha. pose proof (lv_code _ L _ _ Hi) as D. pose proof (lv_ub _ L) as Hub.
  destruct a; try done; cbn in D, Hc; discipline D.
  - rewrite D1 in Hc. pose proof (live_serial_free c L ltac:(by rewrite D1)) as Hs. simplify_eq.
    change_mutex; cbn; [by left | tauto | by left | by rewrite Hs].
  - apply view_of_out in D as [Hm|(j & Hm & Hne)]; rewrite Hm in Hc; [|done]. simplify_eq.
    pose proof (live_serial_free c L ltac:(by rewrite Hm)) as Hs.
    change_mutex; cbn; [by left | tauto | by left |]. by rewrite decide_True.
  - rewrite decide_True in Hc by done. simplify_eq.
    change_mutex; cbn; [by left | tauto |]. left. by destruct (live_serial c i L D) as [E|E].
  - subst i. apply view_of_out in D3 as [Hm|(j & Hm & Hne)].
    2: { destruct (holder_runs c j L Hm) as (b & kj & Hk). by pose proof (others_done c _ L Hi D2 D1 j _ ltac:(lia) Hk). }
    rewrite decide_True in Hc by done. simplify_eq.
    pose proof (live_serial_free c L ltac:(by rewrite Hm)) as Hs.
    change_mutex; cbn; [by left | tauto | by left | by rewrite Hs].
  - rewrite decide_True in Hc by done. simplify_eq.
    change_mutex; cbn; [right; eauto | tauto |]. left. by destruct (live_serial c i L D) as [E|E].
Qed.

(** The end of a thread that does not hold the mutex. *)
Lemma live_exit c c' i k :
  live c -> threads c !! i = Some (IExit :: k) -> i ∉ waiters c -> call body i 0 IExit k c = Some c' -> live c'.
Proof.
  intros L Hi Hwi Hc. pose proof (lv_code _ L _ _ Hi) as D. pose proof L as [].
  cbn in D, Hc. discipline D. simplify_eq.
  eapply live_update; [eassumption|eassumption|reflexivity|done|..]; cbn -[serial]; try done.
  - rewrite D0. by rewrite bool_decide_eq_false_2.
  - by split; [left|].
  - intros j Hj. left. split; [|done]. by intros ->.
  - intros E. by rewrite E in D0.
Qed.

(** Every thread of a running program was created. *)
Lemma live_created c n b kn : live c -> threads c !! n = Some (b :: kn) -> never_created b = false.
Proof. intros L Hn. pose proof (lv_code _ L _ _ Hn) as D. by destruct b. Qed.

(** Every step of a running program leaves it running or ends it well. *)
Lemma live_step c c' : live c -> exited c = None -> step body c c' -> safe c'.
Proof.
  intros L He Hs. apply step_call in Hs as (i & ch & a & k & _ & Hi & Hwi & Hc).
  pose proof (lv_code _ L _ _ Hi) as D. pose proof (lv_ub _ L) as Hub.
  destruct (exited c') eqn:He'; unfold safe; rewrite He'.
  - destruct a; cbn in D, Hc; discipline D; try done; repeat case_match; simplify_eq/=; try congruence.
    by eapply live_return.
  - destruct a; try (by eapply live_quiet); try (by eapply live_mutex_call); cbn in D, Hc; discipline D; try done.
    + subst i. simplify_eq. by eapply live_create.
    + subst i. destruct (threads c !! n) as [[|b kn]|] eqn:En; simplify_eq.
      * go_on. cbn. intros _. split; [done|]. split; [by right|]. intros m Hm.
        apply elem_of_cons in Hm as [->|Hm]; [by right | by left].
      * by rewrite (live_created c n b kn L En) in Hc.
      * exfalso. pose proof (lv_bound _ L _ n Hi) as Hb. cbn in Hb. apply lookup_ge_None in En.
        rewrite D1 in Hb. specialize (Hb ltac:(by left)). lia.
    + by eapply live_exit.
    + by simplify_eq/=.
Qed.

(** Only a mutex that is held and a thread that has not ended make a call wait. *)
Lemma call_goes_on i a k c :
  waiters c = [] -> (a = ILock -> forall j, mutex c <> Held j) ->
  (forall n, a = IJoin n -> forall b kn, threads c !! n <> Some (b :: kn)) -> never_created a = false ->
  is_Some (call body i 0 a k c).
Proof.
  intros Hw Hl Hj Ha. destruct a; cbn; rewrite ?Hw; try done.
  - destruct (mutex c) as [| |j|]; try done. by destruct (Hl eq_refl j).
  - destruct (threads c !! n) as [[|b kn]|] eqn:En; try done. by destruct (Hj n eq_refl b kn).
Qed.

Lemma step_of_call i a k c :
  exited c = None -> waiters c = [] -> threads c !! i = Some (a :: k) ->
  (a = ILock -> forall j, mutex c <> Held j) ->
  (forall n, a = IJoin n -> forall b kn, threads c !! n <> Some (b :: kn)) -> never_created a = false ->
  exists c', step body c c'.
Proof.
  intros He Hw Hi Hl Hj Ha. destruct (call_goes_on i a k c Hw Hl Hj Ha) as [c' Hc']. exists c'.
  apply step_call. exists i, 0%nat, a, k. rewrite Hw. split; [done|]. split; [done|]. split; [|done]. apply not_elem_of_nil.
Qed.

(** A running program can go on, unless some thread waits for the condition: the holder
    of the mutex can, or else main, or else the thread main waits for. *)
Lemma live_progress c : live c -> exited c = None -> waiters c = [] -> exists c', step body c c'.
Proof.
  intros L He Hw. assert ((exists j, mutex c = Held j) \/ forall j, mutex c <> Held j) as [[j Hm]|Hfree]
    by (destruct (mutex c); naive_solver).
  - destruct (holder_runs c j L Hm) as (a & k & Hk). apply (step_of_call j a k c He Hw Hk).
    all: pose proof (lv_code _ L _ _ Hk) as D; rewrite (proj2 (view_of_self j (mutex c)) Hm) in D.
    + by intros ->.
    + intros n ->. cbn in D. by rewrite andb_false_r in D.
    + by eapply live_created.
  - pose proof (lv_main _ L) as H0. apply lookup_lt_is_Some_2 in H0 as [[|a k] Hk].
    { by pose proof (lv_code _ L _ _ Hk). }
    assert ((exists n b kn, a = IJoin n /\ threads c !! n = Some (b :: kn)) \/
      forall n, a = IJoin n -> forall b kn, threads c !! n <> Some (b :: kn)) as [(n & b & kn & -> & Hn)|Hj].
    { destruct a as [| | | | | | | | | | | | | | |n| | | |]; try (by right).
      destruct (threads c !! n) as [[|b kn]|] eqn:En; [right|left; by exists n, b, kn|right]; naive_solver. }
    + apply (step_of_call n b kn c He Hw Hn); [done| |by eapply live_created]. intros m ->.
      pose proof (lv_bound _ L _ n Hk ltac:(by left)) as [Hn1 _]. pose proof (lv_code _ L _ _ Hn) as D.
      rewrite bool_decide_eq_false_2 in D by lia. done.
    + apply (step_of_call 0 a k c He Hw Hk); [done..|by eapply live_created].
Qed.

(** ** What is left to do *)

(** The sum of [cost] over the calls [k] up to the end of the thread, and of the threads
    it creates, which create none. *)
Fixpoint total_with (cost : instr fn -> Z) (child : list (instr fn) -> Z) k : Z :=
  match k with
  | [] => 0
  | a :: k =>
      cost a + match a with
               | ICreate f => child (body f) + total_with cost child k
               | IExit | IReturn _ => 0
               | _ => total_with cost child k
               end
  end.
Definition child_total cost : list (instr fn) -> Z := total_with cost (fun _ => 0).
Definition total cost : list (instr fn) -> Z := total_with cost (child_total cost).
Definition remaining cost c : Z := sumZ (total cost) (threads c).

Lemma total_child cost v g k : disciplined false v g k = true -> total cost k = child_total cost k.
Proof.
  unfold total, child_total. revert v g. induction k as [|a k IH]; intros v g D; [done|].
  cbn [total_with]. f_equal. destruct a as [| | | |[]| | | | | | | | | | | | | | |]; cbn in D; try done;
    discipline D; by eauto.
Qed.

Lemma total_with_nonneg cost child k :
  (forall a, 0 <= cost a) -> (forall k, 0 <= child k) -> 0 <= total_with cost child k.
Proof.
  intros Hc Hk. induction k as [|a k IH]; cbn; [lia|]. pose proof (Hc a).
  destruct a; try lia. specialize (Hk (body f)). lia.
Qed.

Lemma remaining_nonneg cost c : (forall a, 0 <= cost a) -> 0 <= remaining cost c.
Proof.
  intros Hc. apply sumZ_nonneg. intros k _. apply total_with_nonneg; [done|].
  intros k'. apply total_with_nonneg; [done|]. lia.
Qed.

(** A step takes the cost of its call off; a thread that begins to wait has still to
    take the mutex. *)
Lemma remaining_step cost c i ch a k c' :
  live c -> threads c !! i = Some (a :: k) -> call body i ch a k c = Some c' ->
  remaining cost c' = remaining cost c - cost a +
    match a with ICondWait => cost ILock | _ => 0 end.
Proof.
  intros L Hi Hc. pose proof (lv_code _ L _ _ Hi) as D. unfold remaining.
  assert (Hgo : forall k', sumZ (total cost) (<[i := k']> (threads c)) =
    sumZ (total cost) (threads c) - total cost (a :: k) + total cost k').
  { intros k'. by apply sumZ_insert. }
  destruct a; cbn in D; try discriminate D; cbn in Hc; discipline D; repeat case_match; simplify_eq; try done;
    cbn [threads set_threads set_mutex set_out set_waiters set_exited set_undefined]; autorewrite with sums;
    rewrite ?Hgo; unfold total; cbn [total_with]; fold (total cost); try lia.
  unfold total in Hgo. fold (total cost) in Hgo. rewrite (total_child cost VOut false (body f) (Hbody f)). lia.
Qed.

Definition weight (a : instr fn) : Z := match a with ICondWait => 2 | _ => 1 end.
Definition prints (o : output) (a : instr fn) : Z :=
  match a with IPrint p => if decide (p = o) then 1 else 0 | _ => 0 end.
Definition waits (a : instr fn) : Z := match a with ICondWait => 1 | _ => 0 end.
Definition printed o (l : list (nat * output)) : Z := sumZ (fun e => if decide (e.2 = o) then 1 else 0) l.

Lemma call_out i ch a k c c' :
  call body i ch a k c = Some c' -> out c' = out c ++ match a with IPrint o => [(i, o)] | _ => [] end.
Proof. destruct a; cbn; intros Hc; repeat case_match; simplify_eq/=; by rewrite ?app_nil_r. Qed.

Lemma call_waiters i ch a k c c' :
  call body i ch a k c = Some c' -> waiters c = [] -> waits a = 0 -> waiters c' = [].
Proof. destruct a; cbn; intros Hc Hw Ha; repeat case_match; simplify_eq/=; try done; congruence. Qed.

(** Every step is one call less to do, and prints what there is less to print. *)
Lemma safe_step c c' : safe c -> step body c c' -> safe c' /\
  remaining weight c' = remaining weight c - 1 /\
  (forall o, printed o (out c') + remaining (prints o) c' = printed o (out c) + remaining (prints o) c) /\
  (remaining waits c = 0 -> waiters c = [] -> remaining waits c' = 0 /\ waiters c' = []).
Proof.
  intros Hs Hst. pose proof Hst as Hst'. apply step_call in Hst' as (i & ch & a & k & He & Hi & _ & Hc).
  unfold safe in Hs. rewrite He in Hs. split; [by apply (live_step c)|].
  pose proof (fun cost => remaining_step cost c i ch a k c' Hs Hi Hc) as Hr. split; [|split].
  - rewrite Hr. destruct a; cbn; lia.
  - intros o. rewrite Hr, (call_out _ _ _ _ _ _ Hc). unfold printed. autorewrite with sums.
    destruct a; cbn -[decide]; lia.
  - intros H0 Hw. pose proof (remaining_nonneg waits c' ltac:(by intros [])) as Hge. rewrite Hr, H0 in *.
    destruct a; cbn [waits] in *; try lia; (split; [lia|]); by eapply call_waiters.
Qed.

Lemma safe_steps n c c' : safe c -> nsteps (step body) n c c' -> safe c' /\
  remaining weight c' = remaining weight c - Z.of_nat n /\
  (forall o, printed o (out c') + remaining (prints o) c' = printed o (out c) + remaining (prints o) c) /\
  (remaining waits c = 0 -> waiters c = [] -> waiters c' = []).
Proof.
  intros Hs Hn. induction Hn as [c|n c c1 c' H1 Hn IH]; [split; [done|]; split; [lia|done]|].
  destruct (safe_step c c1 Hs H1) as (Hs1 & Hr1 & Ho1 & Hw1).
  destruct (IH Hs1) as (Hs' & Hr' & Ho' & Hw'). split; [done|]. split; [lia|]. split.
  - intros o. by rewrite Ho', Ho1.
  - intros H0 Hw. destruct (Hw1 H0 Hw). by apply Hw'.
Qed.

Lemma remaining_ended cost c : ended c -> remaining cost c = 0.
Proof.
  intros []. unfold remaining. induction (threads c) as [|k ks IH]; [done|]. autorewrite with sums.
  rewrite IH by (intros; apply en_threads0; by right). by rewrite (en_threads0 k ltac:(by left)).
Qed.

(** The start of main. *)
Lemma live_init main :
  disciplined true VNone false main = true -> joins main = seq 1 (creates main) -> live (main_only main).
Proof.
  intros D Hj. constructor; cbn; try done; try lia.
  - intros [|i] k Hk; by simplify_eq/=.
  - by intros i Hi%elem_of_nil.
  - intros k n Hk Hn. simplify_eq. left. rewrite Hj. apply elem_of_seq. lia.
  - intros k n Hk Hn. simplify_eq. rewrite Hj in Hn. apply elem_of_seq in Hn. lia.
Qed.
End Discipline.

(** * Listing the reachable configurations *)

(** A configuration in which no thread can go on. *)
Definition stuck {fn} (body : fn -> list (instr fn)) (c : config fn) : Prop := forall c', ~ step body c c'.

Section Explore.
Context {fn : Type} `{EqDecision fn} (body : fn -> list (instr fn)).
Implicit Types (c : config fn).

#[export] Instance instr_eq_dec : EqDecision (instr fn).
Proof. solve_decision. Defined.

#[export] Instance config_eq_dec : EqDecision (config fn).
Proof. solve_decision. Defined.

(** Every choice but those of the first numbers is as good as one of them. *)
Definition successors c : list (config fn) :=
  i ← seq 0 (length (threads c)); ch ← seq 0 (2 + length (waiters c));
  option_list (step_thread body i ch c).

Lemma call_choice i ch a k c c' : call body i ch a k c = Some c' ->
  exists ch', (ch' < 2 + length (waiters c))%nat /\ call body i ch' a k c = Some c'.
Proof.
  intros Hc. destruct (decide (ch < 2 + length (waiters c))%nat) as [|Hge]; [by exists ch|].
  exists 1%nat. split; [lia|]. destruct a; cbn in *; try done.
  - destruct (waiters c) as [|w ws] eqn:Ew; [done|]. destruct ((w :: ws) !! ch) eqn:E; [|done].
    apply lookup_lt_Some in E. lia.
  - by rewrite decide_False in Hc by lia.
Qed.

Lemma step_successors c c' : step body c c' -> c' ∈ successors c.
Proof.
  intros Hs. apply step_call in Hs as (i & ch & a & k & He & Hi & Hw & Hc).
  apply call_choice in Hc as (ch' & Hlt & Hc). unfold successors.
  apply list_elem_of_bind. exists i. split; [|apply elem_of_seq; apply lookup_lt_Some in Hi; lia].
  apply list_elem_of_bind. exists ch'. split; [|apply elem_of_seq; lia].
  unfold step_thread. rewrite He, Hi, decide_False, Hc by done. cbn. by left.
Qed.

Lemma successors_step c c' : c' ∈ successors c -> step body c c'.
Proof.
  intros (i & H & _)%list_elem_of_bind. apply list_elem_of_bind in H as (ch & H & _).
  apply (step_run _ _ i ch). destruct (step_thread body i ch c); [|by apply not_elem_of_nil in H].
  by apply list_elem_of_singleton in H as ->.
Qed.

Lemma stuck_successors c : stuck body c <-> successors c = [].
Proof.
  split.
  - intros Hst. destruct (successors c) as [|c' l] eqn:E; [done|]. destruct (Hst c').
    apply successors_step. rewrite E. by left.
  - intros E c' Hs. apply step_successors in Hs. rewrite E in Hs. by apply not_elem_of_nil in Hs.
Qed.

Fixpoint explore (fuel : nat) (frontier seen : list (config fn)) : list (config fn) :=
  match fuel, frontier with
  | S fuel, _ :: _ =>
      let new := remove_dups (filter (fun c => c ∉ seen) (frontier ≫= successors)) in
      explore fuel new (seen ++ new)
  | _, _ => seen
  end.

Definition closed_under_steps (l : list (config fn)) : bool :=
  forallb (fun c => forallb (fun c' => bool_decide (c' ∈ l)) (successors c)) l.

(** What a list that contains the start and is closed under steps says of every
    configuration. *)
Lemma explored (l : list (config fn)) (P : config fn -> bool) c0 c :
  bool_decide (c0 ∈ l) && closed_under_steps l && forallb P l = true -> rtc (step body) c0 c -> P c = true.
Proof.
  intros H Hs. apply andb_true_iff in H as [H HP]. apply andb_true_iff in H as [H0 Hcl].
  apply bool_decide_eq_true in H0. rewrite forallb_forall in HP. apply HP, list_elem_of_In.
  clear HP. induction Hs as [|c0 c1 c H1 _ IH]; [done|]. apply IH.
  unfold closed_under_steps in Hcl. rewrite forallb_forall in Hcl. apply list_elem_of_In in H0.
  specialize (Hcl c0 H0). rewrite forallb_forall in Hcl. apply (bool_decide_eq_true_1 (c1 ∈ l)), Hcl, list_elem_of_In.
  by apply step_successors.
Qed.
End Explore.
