(* ===== verification/TestPrograms.v ===== *)
(** The load generators of src/test: lock.c, thread_wake.c, sched_delay.c and sleep.c.

    Each is a program of [Pthread]: its functions are the calls they make, in their
    order.  Threads are numbered in the order of their creation, main being 0; the calls
    of gettid and getpid and the computations of no consequence are left out, the loops
    with constant bounds are unfolded.  Neither lock.c nor thread_wake.c looks at the result
    of pthread_create: what is shown of them is shown on a system that grants every thread
    ([granting]), and [refused_thread_is_joined] shows what lock.c does on another. *)
From S2P Require Import Prelude Pthread PthreadTheory.

(** * lock.c: five threads take a mutex three times each *)

Inductive lock_fn := thread_handle_fn.

#[export] Instance lock_fn_eq_dec : EqDecision lock_fn.
Proof. solve_decision. Defined.

Section Lock.
Local Abbreviation instr := (instr lock_fn).

Definition N_THREADS : nat := 5.

Definition test_lock1 : list instr := [IPrint OOther; ILock].
Definition test_lock2 : list instr := test_lock1.
Definition test_unlock1 : list instr := [IPrint OOther; IUnlock].
Definition test_unlock2 : list instr := test_unlock1.

Definition my_handle_round : list instr :=
  [IClock; IPrint ORequire] ++ test_lock2 ++ [IClock; IPrint OGet; ISleep 1; IClock; IPrint OPut] ++ test_unlock2.

Definition my_handle : list instr := [ISleep 1] ++ concat (replicate 3 my_handle_round) ++ [IExit].

Definition thread_handle : list instr := my_handle.

Definition lock_body (f : lock_fn) : list instr := match f with thread_handle_fn => thread_handle end.

Definition lock_main : list instr :=
  [ISleep 10; IMutexInit; IPrint OOther] ++ replicate N_THREADS (ICreate thread_handle_fn) ++
  (IJoin <$> seq 1 N_THREADS) ++ test_lock2 ++ [ISleep 2] ++ test_unlock2 ++ [IMutexDestroy; IReturn 0].
End Lock.

(** * thread_wake.c: one thread wakes another *)

Inductive wake_fn := thread1_fn | thread2_fn.

#[export] Instance wake_fn_eq_dec : EqDecision wake_fn.
Proof. solve_decision. Defined.

Section Wake.
Local Abbreviation instr := (instr wake_fn).

Definition thread1_func : list instr := [ISleep 1; IPrint OOther; ILock; ICondSignal; IUnlock; IExit].
Definition thread2_func : list instr := [IPrint OOther; ILock; ICondWait; IUnlock; IExit].

Definition wake_body (f : wake_fn) : list instr :=
  match f with thread1_fn => thread1_func | thread2_fn => thread2_func end.

Definition wake_main : list instr :=
  [ISleep 15; IMutexInit; ICondInit; ICreate thread1_fn; ICreate thread2_fn; IJoin 1; IJoin 2;
   IMutexDestroy; ICondDestroy; IReturn 0].
End Wake.

(** * sched_delay.c: threads that compete for a CPU *)

Inductive delay_fn := sleepy_thread_fn | sleepy_loop | working_thread_fn | working_loop.

Section Delay.
Local Abbreviation instr := (instr delay_fn).

Definition NUM_THREADS : nat := 8.
Definition SLEEP_TIME : Z := 20.

(** The calls after a loop that never ends are left out. *)
Definition sleepy_thread : list instr := [IPrint OOther; ISleep SLEEP_TIME; IGoto sleepy_loop].
Definition working_thread : list instr := [IPrint OOther; IGoto working_loop].

Definition delay_body (f : delay_fn) : list instr :=
  match f with
  | sleepy_thread_fn => sleepy_thread
  | sleepy_loop => [IYield; IGoto sleepy_loop]
  | working_thread_fn => working_thread
  | working_loop => [IWork; IGoto working_loop]
  end.

Definition delay_main : list instr :=
  replicate NUM_THREADS (ICreateOrExit sleepy_thread_fn) ++ [ICreateOrExit working_thread_fn] ++
  (IJoin <$> seq 1 (NUM_THREADS + 1)) ++ [IExit].
End Delay.

(** * sleep.c *)

Inductive sleep_fn := sleep_loop.
Definition sleep_body (f : sleep_fn) : list (instr sleep_fn) := [ISleep 1; IGoto sleep_loop].
Definition sleep_main : list (instr sleep_fn) := [IGoto sleep_loop].

(** * Correctness of lock.c *)

Definition lock_init : config lock_fn := main_only lock_main.

Lemma lock_body_disciplined f : disciplined false VOut false (lock_body f) = true.
Proof. by destruct f. Qed.

Lemma lock_live : live lock_init.
Proof. by apply live_init. Qed.

(** Main alone: the first creation fails, the others do not. *)
Definition refused_schedule : list (nat * nat) :=
  replicate 3 (0, 0)%nat ++ (0, 1)%nat :: replicate 5 (0, 0)%nat.

(** In lock.c at most one thread is ever between its messages "get mutex" and "put
    mutex", and that thread holds the mutex; the threads print the two in turn, and no
    call has undefined behaviour (a mutex that is not initialised, released by another
    thread or destroyed while it is held). *)
Lemma lock_serialises c :
  rtc (step lock_body) lock_init c ->
  undefined c = false /\
  exists h, serial (out c) = Some h /\
    (exited c = None -> forall i, h = Some i -> mutex c = Held i) /\ (exited c <> None -> h = None).
Proof.
  intros Hs. apply rtc_nsteps in Hs as [n Hn].
  destruct (safe_steps _ lock_body_disciplined _ _ _ (lock_live : safe lock_init) Hn) as (Hs & _).
  unfold safe in Hs. destruct (exited c) eqn:He.
  - destruct Hs. split; [done|]. by exists None.
  - destruct Hs. split; [done|]. destruct (serial (out c)) as [h|]; [|done]. exists h.
    split; [done|]. split; [|done]. by intros _ i ->.
Qed.

(** C26: on a system that grants every thread ([granting]), whatever the order in which its
    threads run, lock.c ends after 195 steps and not before: it never deadlocks, and at the end main has returned 0, the mutex is
    destroyed, every thread has ended, and each of the five has printed its messages
    three times. *)
Theorem lock_terminates n c :
  nsteps (step (Sys := granting) lock_body) n lock_init c ->
  (n <= 195)%nat /\
  (stuck lock_body c -> n = 195%nat /\ exited c = Some 0 /\ mutex c = Destroyed /\
    (forall k, k ∈ threads c -> k = []) /\
    printed ORequire (out c) = 15 /\ printed OGet (out c) = 15 /\ printed OPut (out c) = 15).
Proof.
  intros Hn. destruct (safe_steps _ lock_body_disciplined _ _ _ (lock_live : safe lock_init) Hn)
    as (Hs & Hw & Ho & Hq).
  assert (Hw0 : remaining lock_body weight lock_init = 195) by by vm_compute.
  pose proof (remaining_nonneg lock_body weight c ltac:(by intros [])).
  split; [lia|]. intros Hst. unfold safe in Hs. destruct (exited c) eqn:He.
  - pose proof Hs as [He' ? ? ? ?]. rewrite He in He'. simplify_eq.
    assert (E : forall cost, remaining lock_body cost c = 0) by (intros; by apply remaining_ended).
    assert (Hp : forall o, printed o (out c) = remaining lock_body (prints o) lock_init).
    { intros o. specialize (Ho o). rewrite E in Ho. cbn in Ho |- *. lia. }
    rewrite !Hp, E in *. split; [lia|]. by vm_compute.
  - exfalso. destruct (live_progress lock_body c Hs He) as [c' Hc'].
    + by apply Hq.
    + by apply (Hst c').
Qed.

(** Main does not look at what [pthread_create] returns: where the system refuses the first
    thread, main joins one that was never created, by an id that was never written. *)
Lemma refused_thread_is_joined :
  exists c, rtc (step (Sys := refusing) lock_body) lock_init c /\ undefined c = true /\ exited c = None.
Proof.
  destruct (run (Sys := refusing) lock_body refused_schedule lock_init) as [c|] eqn:Hr; [|by vm_compute in Hr].
  exists c. split; [by eapply rtc_nsteps_2, run_nsteps|]. vm_compute in Hr. by simplify_eq.
Qed.

(** * The lost wake-up of thread_wake.c *)

Definition wake_init : config wake_fn := main_only wake_main.

Definition wake_configs : list (config wake_fn) := explore wake_body 40 [wake_init] [wake_init].

(** The second thread waits, the first one has ended, main waits for the second. *)
Definition lost_wake_up (c : config wake_fn) : Prop :=
  exited c = None /\ waiters c = [2%nat] /\ mutex c = Free /\
  threads c = [[IJoin 2; IMutexDestroy; ICondDestroy; IReturn 0]; []; [ILock; IUnlock; IExit]].

#[export] Instance lost_wake_up_dec c : Decision (lost_wake_up c).
Proof. unfold lost_wake_up. apply _. Defined.

Definition ends_well {fn} (c : config fn) : Prop := exited c = Some 0 /\ undefined c = false.

#[export] Instance ends_well_dec {fn} (c : config fn) : Decision (ends_well c).
Proof. unfold ends_well. apply _. Defined.

Definition stuck_only {P : config wake_fn -> Prop} `{forall c, Decision (P c)} (c : config wake_fn) : bool :=
  negb (bool_decide (successors wake_body c = [])) || bool_decide (P c).
Arguments stuck_only P {_} c.

(** The second thread waits and the first one has still to signal. *)
Definition waits_in_time (c : config wake_fn) : Prop :=
  waiters c = [2%nat] /\ Exists (fun k => ICondSignal ∈ k) (threads c).

#[export] Instance waits_in_time_dec c : Decision (waits_in_time c).
Proof. unfold waits_in_time. apply _. Defined.

(** The first thread signals before the second one is created. *)
Definition lost_schedule : list (nat * nat) :=
  (fun i => (i, 0%nat)) <$> replicate 4 0%nat ++ replicate 6 1%nat ++ [0%nat] ++ replicate 3 2%nat ++ [0%nat].

Definition lost_config : config wake_fn :=
  {| threads := [[IJoin 2; IMutexDestroy; ICondDestroy; IReturn 0]; []; [ILock; IUnlock; IExit]];
     mutex := Free; waiters := [2%nat]; exited := None; out := [(1%nat, OOther); (2%nat, OOther)];
     undefined := false |}.

Lemma lost_run : run wake_body lost_schedule wake_init = Some lost_config.
Proof. vm_compute. reflexivity. Qed.

(** From [c] on every run ends well. *)
Definition ends_well_from (c : config wake_fn) : bool :=
  let l := explore wake_body 40 [c] [c] in
  bool_decide (c ∈ l) && closed_under_steps wake_body l && forallb (stuck_only ends_well) l.

Lemma ends_well_from_spec c c' :
  ends_well_from c = true -> rtc (step wake_body) c c' -> stuck_only ends_well c' = true.
Proof. unfold ends_well_from. cbv zeta. apply explored. Qed.

Definition in_time_ends (c : config wake_fn) : bool := negb (bool_decide (waits_in_time c)) || ends_well_from c.

Lemma in_time_checked :
  bool_decide (wake_init ∈ wake_configs) && closed_under_steps wake_body wake_configs &&
    forallb in_time_ends wake_configs = true.
Proof. vm_compute. reflexivity. Qed.

Lemma stuck_only_spec (P : config wake_fn -> Prop) `{forall c, Decision (P c)} c :
  stuck_only P c = true -> stuck wake_body c -> P c.
Proof.
  unfold stuck_only. intros H' Hst%stuck_successors. apply orb_true_iff in H' as [H'|H'].
  - by rewrite bool_decide_eq_true_2 in H'.
  - by apply bool_decide_eq_true in H'.
Qed.

(** Thread_wake.c waits for the condition without a predicate, so a signal that comes
    first is lost: there is a run after which the second thread waits for ever and main
    waits for it.  This is the only way the program can hang; when the second thread
    waits before the first one signals, the program ends. *)
Lemma wake_up_can_be_lost :
  (exists c, rtc (step wake_body) wake_init c /\ stuck wake_body c /\ lost_wake_up c) /\
  (forall c, rtc (step wake_body) wake_init c -> stuck wake_body c -> ends_well c \/ lost_wake_up c) /\
  (forall c c', rtc (step wake_body) wake_init c -> waits_in_time c -> rtc (step wake_body) c c' ->
    stuck wake_body c' -> ends_well c').
Proof.
  split; [|split].
  - exists lost_config. split; [|split].
    + eapply rtc_nsteps_2, run_nsteps, lost_run.
    + apply stuck_successors. vm_compute. reflexivity.
    + by repeat split.
  - intros c Hs. apply (stuck_only_spec (fun c => ends_well c \/ lost_wake_up c)).
    refine (explored wake_body wake_configs (stuck_only (fun c => ends_well c \/ lost_wake_up c)) wake_init c _ Hs).
    vm_compute. reflexivity.
  - intros c c' Hs Hw Hs'. apply (stuck_only_spec ends_well).
    pose proof (explored wake_body wake_configs in_time_ends wake_init c in_time_checked Hs) as Hc.
    apply orb_true_iff in Hc as [Hc|Hc]; [by rewrite bool_decide_eq_true_2 in Hc|].
    by apply (ends_well_from_spec c c').
Qed.

(** * Programs that never end *)

Section Forever.
Context {fn : Type} (body : fn -> list (instr fn)).
Implicit Types (k : list (instr fn)) (c : config fn).

(** A thread that comes to a loop without waiting for anybody. *)
Fixpoint spins k : bool :=
  match k with
  | IGoto _ :: _ => true
  | (ISleep _ | IYield | IWork | IPrint _) :: k => spins k
  | _ => false
  end.

(** A main with [n] threads that creates more and then waits for one of them. *)
Fixpoint awaits (n : nat) k : bool :=
  match k with
  | ICreateOrExit _ :: k => awaits (S n) k
  | IJoin m :: _ => (1 <=? m)%nat && (m <? n)%nat
  | _ => false
  end.

Record spinning c : Prop := {
  sp_main : exists k, threads c !! 0%nat = Some k /\ (awaits (length (threads c)) k = true \/ spins k = true);
  sp_others : forall i k, (1 <= i)%nat -> threads c !! i = Some k -> spins k = true;
  sp_waiters : waiters c = [];
  sp_ub : undefined c = false;
  sp_exit : exited c = None \/ exited c = Some (-1) }.

Context (Hbody : forall f, spins (body f) = true).

(** A thread that spins can always go on, to a configuration where all spin. *)
Lemma spin_step i ch a k c c' :
  spinning c -> threads c !! i = Some (a :: k) -> spins (a :: k) = true -> call body i ch a k c = Some c' ->
  spinning c'.
Proof.
  intros [(k0 & H0 & Hm) Ho Hw Hu He] Hi Hs Hc. pose proof (lookup_lt_Some _ _ _ Hi) as Hlt.
  assert (Hnew : exists k', threads c' = <[i := k']> (threads c) /\ spins k' = true /\ waiters c' = waiters c /\
    undefined c' = undefined c /\ exited c' = exited c).
  { destruct a; cbn in Hs, Hc; try done; simplify_eq; eexists; repeat split; by eauto. }
  destruct Hnew as (k' & Ht & Hs' & Hw' & Hu' & He'). constructor; rewrite ?Ht, ?Hw', ?Hu', ?He', ?length_insert; try done.
  - destruct (decide (i = 0%nat)) as [->|Hne].
    + exists k'. rewrite list_lookup_insert_eq by done. by split; [|right].
    + exists k0. by rewrite list_lookup_insert_ne.
  - intros j kj Hj Hl. destruct (decide (j = i)) as [->|Hne].
    + rewrite list_lookup_insert_eq in Hl by done. by simplify_eq.
    + rewrite list_lookup_insert_ne in Hl by done. by eapply Ho.
Qed.

Lemma create_step ch f k c c' :
  spinning c -> threads c !! 0%nat = Some (ICreateOrExit f :: k) ->
  awaits (S (length (threads c))) k = true -> call body 0 ch (ICreateOrExit f) k c = Some c' ->
  exited c' = Some (-1) \/ spinning c'.
Proof.
  intros [_ Ho Hw Hu He] Hi Hm Hc. pose proof (lookup_lt_Some _ _ _ Hi) as Hlt. cbn in Hc.
  case_decide; simplify_eq; [right|by left].
  assert (Hlen : length (<[0%nat := k]> (threads c) ++ [body f]) = S (length (threads c))).
  { rewrite length_app, length_insert. cbn. lia. }
  constructor; cbn; rewrite ?Hlen; try done.
  - exists k. split; [|by left]. apply lookup_app_l_Some. by rewrite list_lookup_insert_eq.
  - intros j kj Hj Hl. apply lookup_app_Some in Hl as [Hl|[_ Hl]].
    + rewrite list_lookup_insert_ne in Hl by lia. by eapply Ho.
    + apply list_lookup_singleton_Some in Hl as [_ <-]. apply Hbody.
Qed.

Lemma spinning_step c c' :
  exited c = Some (-1) \/ spinning c -> step body c c' -> exited c' = Some (-1) \/ spinning c'.
Proof.
  intros Hs Hst. apply step_call in Hst as (i & ch & a & k & He & Hi & Hwi & Hc).
  destruct Hs as [Hs|Hs]; [congruence|]. pose proof Hs as [(k0 & H0 & Hm) Ho _ _ _].
  destruct (decide (i = 0%nat)) as [->|Hne].
  - rewrite Hi in H0. simplify_eq. destruct Hm as [Hm|Hm]; [|right; by eapply spin_step].
    destruct a; cbn [awaits] in Hm; try done; [by eapply create_step|]. exfalso. cbn in Hc.
    apply andb_true_iff in Hm as [H1 H2]. apply Nat.leb_le in H1. apply Nat.ltb_lt in H2.
    apply lookup_lt_is_Some_2 in H2 as [kn Hn]. pose proof (Ho n kn H1 Hn) as Hsp. rewrite Hn in Hc.
    destruct kn as [|b kn]; [done|]. by destruct b.
  - right. eapply spin_step; [done..| |done]. apply (Ho i); [lia|done].
Qed.

Lemma spinning_steps c c' : spinning c -> rtc (step body) c c' -> exited c' = Some (-1) \/ spinning c'.
Proof.
  intros Hs Hst. assert (H : exited c = Some (-1) \/ spinning c) by by right. clear Hs.
  induction Hst as [|c c1 c' H1 _ IH]; [done|]. apply IH. by eapply spinning_step.
Qed.

(** A thread that spins is never kept waiting. *)
Lemma spin_runs c i k :
  spinning c -> exited c = None -> threads c !! i = Some k -> spins k = true ->
  exists c', step_thread body i 0 c = Some c'.
Proof.
  intros Hs He Hi Hk. destruct k as [|a k]; [done|].
  assert (exists c', call body i 0 a k c = Some c') as [c' Hc] by (destruct a; try done; by eexists).
  exists c'. unfold step_thread. rewrite He, Hi, (sp_waiters _ Hs). by rewrite decide_False by apply not_elem_of_nil.
Qed.
End Forever.

Definition delay_init : config delay_fn := main_only delay_main.

Lemma delay_spinning : spinning delay_init.
Proof.
  constructor; cbn; try done; [|intros [|i] k Hi Hk; [lia|done] | by left].
  exists delay_main. by split; [|left].
Qed.

(** Sched_delay.c keeps its CPUs busy for ever: it never returns, ends only with
    exit(-1) and only when a thread could not be created, and until then every thread
    but main can always go on. *)
Lemma sched_delay_never_ends c :
  rtc (step delay_body) delay_init c ->
  exited c = Some (-1) \/
  exited c = None /\ undefined c = false /\
    forall i, (1 <= i < length (threads c))%nat -> exists c', step_thread delay_body i 0 c = Some c'.
Proof.
  intros Hs. destruct (spinning_steps delay_body ltac:(by intros []) _ _ delay_spinning Hs) as [He|Hsp]; [by left|].
  pose proof Hsp as [_ Ho _ Hu [He|He]]; [right|by left]. split; [done|]. split; [done|].
  intros i [Hi1 Hi2]. apply lookup_lt_is_Some_2 in Hi2 as [k Hk]. eapply spin_runs; [done..|]. by eapply Ho.
Qed.

#[export] Instance sleep_fn_eq_dec : EqDecision sleep_fn.
Proof. solve_decision. Defined.

(** sleep.c never ends either: it has two configurations. *)
Lemma sleep_never_ends c :
  rtc (step sleep_body) (main_only sleep_main) c -> exited c = None /\ ~ stuck sleep_body c.
Proof.
  intros Hs. set (P := fun c => bool_decide (exited c = None) && bool_decide (successors sleep_body c <> [])).
  assert (H : P c = true).
  { refine (explored sleep_body [main_only sleep_main; main_only (sleep_body sleep_loop)] P _ c _ Hs).
    vm_compute. reflexivity. }
  apply andb_true_iff in H as [H1 H2]. apply bool_decide_eq_true in H1, H2.
  split; [done|]. by rewrite stuck_successors.
Qed.

(** * Examples *)

(** A whole run of lock.c, always letting the first thread that can go on. *)
Definition lock_schedule : list (nat * nat) := first_come lock_body 300 lock_init.
Definition lock_final : config lock_fn := default lock_init (run lock_body lock_schedule lock_init).

Lemma lock_run : run lock_body lock_schedule lock_init = Some lock_final.
Proof. vm_compute. reflexivity. Qed.

Lemma lock_steps : nsteps (step lock_body) 195 lock_init lock_final.
Proof. apply (run_nsteps lock_body lock_schedule), lock_run. Qed.

Lemma lock_terminates_witness : exited lock_final = Some 0 /\ printed OGet (out lock_final) = 15.
Proof.
  destruct (lock_terminates 195 lock_final lock_steps) as [_ H].
  destruct H as (_ & H1 & _ & _ & _ & H2 & _); [|by split].
  apply stuck_successors. vm_compute. reflexivity.
Defined.

(** After the first message "get mutex" of a thread. *)
Definition lock_held : config lock_fn := default lock_init (run lock_body (take 16 lock_schedule) lock_init).

Lemma lock_serialises_witness : undefined lock_held = false /\ serial (out lock_held) = Some (Some 1%nat).
Proof.
  destruct (lock_serialises lock_held) as [H _]; [|split; [exact H | vm_compute; reflexivity]].
  apply (rtc_nsteps_2 16). apply (run_nsteps lock_body (take 16 lock_schedule)). vm_compute. reflexivity.
Defined.

Lemma wake_up_can_be_lost_witness : ends_well lost_config \/ lost_wake_up lost_config.
Proof.
  apply (proj1 (proj2 wake_up_can_be_lost)); [eapply rtc_nsteps_2, run_nsteps, lost_run|].
  apply stuck_successors. vm_compute. reflexivity.
Defined.

(** sched_delay.c with two of its threads. *)
Lemma sched_delay_never_ends_witness :
  let c := default delay_init (run delay_body [(0, 0); (0, 0); (1, 0)]%nat delay_init) in
  exited c = Some (-1) \/ exited c = None /\ undefined c = false /\
    forall i, (1 <= i < length (threads c))%nat -> exists c', step_thread delay_body i 0 c = Some c'.
Proof.
  cbv zeta. apply sched_delay_never_ends. apply (rtc_nsteps_2 3).
  apply (run_nsteps delay_body [(0, 0); (0, 0); (1, 0)]%nat). vm_compute. reflexivity.
Defined.
