(* ===== verification/GoLib.v ===== *)
(** What the agent uses of Go's standard library.

    [sort.Search], [bytes.Compare], the unsigned varints of encoding/binary, which
    pkg/util/varint wraps, and reads from a reader that holds a list of bytes. *)
From S2P Require Import Prelude.
From stdpp Require Import sorting.
Open Scope Z_scope.
Open Scope bpf_scope.

(** * [sort.Search] *)

(** The loop [for i < j]; [h] is the middle. *)
Fixpoint search_loop (fuel : nat) (f : nat -> bool) (i j : nat) : nat :=
  match fuel with
  | O => i
  | S fuel =>
      if (i <? j)%nat then
        let h := ((i + j) / 2)%nat in
        if negb (f h) then search_loop fuel f (S h) j else search_loop fuel f i h
      else i
  end.

(** Every turn shortens the interval, so that [n] turns are enough. *)
Definition Search (n : nat) (f : nat -> bool) : nat := search_loop n f 0 n.

Section Search.
Context (n : nat) (f : nat -> bool).
Context (Hmono : forall a b, (a <= b < n)%nat -> f a = true -> f b = true).

Lemma search_loop_least fuel i j :
  (i <= j <= n)%nat -> (j - i <= fuel)%nat ->
  (forall k, (k < i)%nat -> f k = false) -> (forall k, (j <= k < n)%nat -> f k = true) ->
  let r := search_loop fuel f i j in
  (r <= n)%nat /\ (forall k, (k < r)%nat -> f k = false) /\ (forall k, (r <= k < n)%nat -> f k = true).
Proof.
  revert i j. induction fuel as [|fuel IH]; intros i j Hij Hfuel Hlo Hhi; cbn [search_loop].
  { split_and!; [lia | done | intros k ?; apply Hhi; lia]. }
  destruct (Nat.ltb_spec i j) as [Hlt | Hge]; [|split_and!; [lia | done | intros k ?; apply Hhi; lia]].
  cbv zeta. set (h := ((i + j) / 2)%nat).
  assert (Hh : (i <= h < j)%nat).
  { unfold h. split; [apply Nat.div_le_lower_bound | apply Nat.Div0.div_lt_upper_bound]; lia. }
  clearbody h. destruct (f h) eqn:E; cbn [negb]; apply IH; try lia.
  - done.
  - intros k Hk. apply (Hmono h); [lia | done].
  - intros k Hk. destruct (f k) eqn:Ek; [|done]. rewrite (Hmono k h) in E by (done || lia). done.
  - done.
Qed.

(** The least index at which [f] holds, or [n]. *)
Lemma Search_least :
  let r := Search n f in
  (r <= n)%nat /\ (forall k, (k < r)%nat -> f k = false) /\ (forall k, (r <= k < n)%nat -> f k = true).
Proof. apply search_loop_least; lia. Qed.

Lemma Search_unique r :
  (r <= n)%nat -> (forall k, (k < r)%nat -> f k = false) ->
  (forall k, (r <= k < n)%nat -> f k = true) -> Search n f = r.
Proof.
  intros Hr Hlo Hhi. destruct Search_least as (Hs & Hslo & Hshi).
  destruct (Nat.lt_trichotomy (Search n f) r) as [H | [H | H]]; [| done |].
  - by specialize (Hlo _ H); rewrite Hshi in Hlo by lia.
  - by specialize (Hslo _ H); rewrite Hhi in Hslo by lia.
Qed.
End Search.

(** * [bytes.Compare] *)

Fixpoint Compare (a b : list Z) : comparison :=
  match a, b with
  | [], [] => Eq
  | [], _ => Lt
  | _, [] => Gt
  | x :: a, y :: b =>
      match x ?= y with Eq => Compare a b | c => c end
  end.

Definition bytes_lt (a b : list Z) : Prop := Compare a b = Lt.

Lemma Compare_eq a b : Compare a b = Eq <-> a = b.
Proof.
  revert b. induction a as [|x a IH]; intros [|y b]; cbn; try done.
  destruct (Z.compare_spec x y) as [-> | H | H].
  - rewrite IH. naive_solver.
  - split; [done|]. intros [= -> _]. lia.
  - split; [done|]. intros [= -> _]. lia.
Qed.

Lemma Compare_antisym a b : Compare b a = CompOpp (Compare a b).
Proof.
  revert b. induction a as [|x a IH]; intros [|y b]; cbn; try done.
  rewrite Z.compare_antisym. destruct (x ?= y); cbn; [apply IH | done | done].
Qed.

Lemma bytes_lt_trans a b c : bytes_lt a b -> bytes_lt b c -> bytes_lt a c.
Proof.
  unfold bytes_lt. revert b c. induction a as [|x a IH]; intros [|y b] [|z c]; cbn; try done.
  destruct (Z.compare_spec x y) as [-> | H1 | H1]; [|intros _|done].
  - destruct (y ?= z); eauto.
  - destruct (Z.compare_spec y z) as [-> | H2 | H2]; [|intros _|done].
    + intros _. by rewrite (proj2 (Z.compare_lt_iff _ _)) by lia.
    + by rewrite (proj2 (Z.compare_lt_iff _ _)) by lia.
Qed.

Lemma bytes_lt_irrefl a : ~ bytes_lt a a.
Proof. unfold bytes_lt. by rewrite (proj2 (Compare_eq a a)). Qed.

Lemma bytes_lt_app p a b : bytes_lt (p ++ a) (p ++ b) <-> bytes_lt a b.
Proof.
  unfold bytes_lt. induction p as [|x p IH]; cbn; [done|]. by rewrite Z.compare_refl.
Qed.

Lemma bytes_lt_head x y a b : x < y -> bytes_lt (x :: a) (y :: b).
Proof. intros H. unfold bytes_lt. cbn. by rewrite (proj2 (Z.compare_lt_iff _ _)). Qed.

Lemma bytes_lt_nil x a : bytes_lt [] (x :: a).
Proof. done. Qed.

(** * Varints *)

Definition MaxVarintLen64 : nat := 10.

(** [binary.PutUvarint]: seven bits a byte, the lowest first; all bytes but the last
    have their highest bit set.  Ten bytes are enough for 64 bits. *)
Fixpoint put_uvarint (fuel : nat) (x : Z) : list Z :=
  match fuel with
  | O => []
  | S fuel =>
      if 128 <=? x then Z.lor (u8 x) 128 :: put_uvarint fuel (Z.shiftr x 7)
      else [u8 x]
  end.
Definition PutUvarint (x : Z) : list Z := put_uvarint MaxVarintLen64 x.

(** The errors of a read. *)
Inductive io_error := EOF | ErrUnexpectedEOF | ErrOverflow.

(** [binary.ReadUvarint]: the loop from byte [i] on, with what was read so far.  It
    returns what it has read also when there is an error. *)
Fixpoint read_uvarint (fuel i : nat) (x : Z) (bs : list Z) : Z * option io_error * list Z :=
  match fuel with
  | O => (x, Some ErrOverflow, bs)
  | S fuel =>
      match bs with
      | [] => (x, Some (if (0 <? i)%nat then ErrUnexpectedEOF else EOF), [])
      | b :: bs =>
          if b <? 128 then
            if (i =? MaxVarintLen64 - 1)%nat && (1 <? b) then (x, Some ErrOverflow, bs)
            else (Z.lor x (u64 (Z.shiftl b (7 * Z.of_nat i))), None, bs)
          else
            read_uvarint fuel (S i)
              (Z.lor x (u64 (Z.shiftl (Z.land b 127) (7 * Z.of_nat i)))) bs
      end
  end.
Definition ReadUvarint (bs : list Z) : Z * option io_error * list Z :=
  read_uvarint MaxVarintLen64 0 0 bs.

(** [byte(x) | 0x80] *)
Lemma lor_128 y : Z.lor (u8 y) 128 = y mod 128 + 128.
Proof.
  assert (Hr : 0 <= y mod 128 < 2 ^ 7) by (apply Z.mod_pos_bound; lia).
  assert (Hy : u8 y = (y / 128) mod 2 * 2 ^ 7 + y mod 128).
  { unfold uN. change (2 ^ 8) with (128 * 2). rewrite Z.rem_mul_r by lia.
    change (2 ^ 7) with 128. lia. }
  rewrite Hy. pose proof (Z.mod_pos_bound (y / 128) 2 ltac:(lia)).
  set (r := y mod 128) in *. set (q := (y / 128) mod 2) in *. clearbody r q.
  change 128 with (1 * 2 ^ 7). assert (q = 0 \/ q = 1) as [-> | ->] by lia.
  - rewrite Z.mul_0_l, Z.add_0_l, Z.lor_comm, lor_add by lia. lia.
  - rewrite <- lor_add, Z.lor_comm, Z.lor_assoc, Z.lor_diag, lor_add by lia. lia.
Qed.

Lemma read_put_uvarint fuel i x y rest :
  (fuel + i = MaxVarintLen64)%nat -> (i < MaxVarintLen64)%nat ->
  0 <= x < 2 ^ (7 * Z.of_nat i) -> 0 <= y < 2 ^ (64 - 7 * Z.of_nat i) ->
  read_uvarint fuel i x (put_uvarint fuel y ++ rest) = (x + y * 2 ^ (7 * Z.of_nat i), None, rest).
Proof.
  unfold MaxVarintLen64. revert i x y. induction fuel as [|fuel IH]; intros i x y Hf Hi Hx Hy; [lia|].
  assert (Hsh : forall b, 0 <= b <= y -> Z.lor x (u64 (Z.shiftl b (7 * Z.of_nat i))) =
    x + b * 2 ^ (7 * Z.of_nat i)).
  { intros b Hb. assert (H64 : 2 ^ 64 = 2 ^ (64 - 7 * Z.of_nat i) * 2 ^ (7 * Z.of_nat i))
      by (rewrite <- Z.pow_add_r by lia; f_equal; lia).
    rewrite Z.shiftl_mul_pow2 by lia. rewrite uN_id.
    - rewrite Z.lor_comm, lor_add by lia. lia.
    - unfold is_uN. rewrite H64. nia. }
  assert (H7 : 2 ^ (7 * Z.of_nat (S i)) = 128 * 2 ^ (7 * Z.of_nat i)).
  { replace (7 * Z.of_nat (S i)) with (7 + 7 * Z.of_nat i) by lia. by rewrite Z.pow_add_r by lia. }
  cbn [put_uvarint]. destruct (Z.leb_spec 128 y) as [Hge | Hlt]; cbn [app read_uvarint].
  - assert (Hi8 : (i < 9)%nat).
    { destruct (decide (i = 9%nat)) as [-> | ]; [cbn in Hy; lia | lia]. }
    rewrite lor_128. pose proof (Z.mod_pos_bound y 128 ltac:(lia)).
    rewrite (proj2 (Z.ltb_ge _ _)) by lia.
    replace (Z.land (y mod 128 + 128) 127) with (y mod 128).
    2: { change 127 with (Z.ones 7). rewrite Z.land_ones by lia. change (2 ^ 7) with 128.
         by rewrite <- Zplus_mod_idemp_r, Z_mod_same_full, Z.add_0_r, Zmod_mod. }
    rewrite Hsh by (pose proof (Z.mod_le y 128); lia).
    rewrite Z.shiftr_div_pow2 by lia. change (2 ^ 7) with 128.
    rewrite IH; [f_equal; f_equal | lia | lia | |].
    + rewrite H7. rewrite (Z.div_mod y 128) at 3 by lia. ring.
    + rewrite H7. nia.
    + split; [apply Z.div_pos; lia|]. apply Z.div_lt_upper_bound; [lia|].
      change 128 with (2 ^ 7). rewrite <- Z.pow_add_r by lia.
      replace (7 + (64 - 7 * Z.of_nat (S i))) with (64 - 7 * Z.of_nat i) by lia. lia.
  - rewrite (uN_id 8) by (split; lia). rewrite (proj2 (Z.ltb_lt _ _)) by lia.
    change (MaxVarintLen64 - 1)%nat with 9%nat.
    replace ((i =? 9)%nat && (1 <? y)) with false; [by rewrite Hsh by lia|].
    symmetry. apply andb_false_iff. destruct (Nat.eqb_spec i 9) as [-> |]; [right | by left].
    cbn in Hy. apply Z.ltb_ge. lia.
Qed.

(** What is written as a varint is read back, with what follows it. *)
Lemma ReadUvarint_Put x rest : is_u64 x -> ReadUvarint (PutUvarint x ++ rest) = (x, None, rest).
Proof.
  intros Hx. unfold ReadUvarint, PutUvarint.
  rewrite (read_put_uvarint MaxVarintLen64 0 0 x rest); [| unfold MaxVarintLen64; lia.. | done | done].
  f_equal. f_equal. lia.
Qed.

Lemma PutUvarint_length x : (1 <= length (PutUvarint x))%nat.
Proof. unfold PutUvarint, MaxVarintLen64. cbn. case_if; cbn; lia. Qed.

(** * Results of functions that return an error or panic *)

Inductive go_result (A : Type) :=
| Returned (a : A)
| Failed (e : io_error)
| Panicked
| NoFuel.
Arguments Returned {A} a.
Arguments Failed {A} e.
Arguments Panicked {A}.
Arguments NoFuel {A}.

Definition go_bind {A B} (x : go_result A) (f : A -> go_result B) : go_result B :=
  match x with
  | Returned a => f a
  | Failed e => Failed e
  | Panicked => Panicked
  | NoFuel => NoFuel
  end.

Notation "'let*' x ':=' p 'in' q" := (go_bind p (fun x => q))
  (at level 10, x pattern, p at level 100, q at level 200) : bpf_scope.

Definition go_map {A B} (f : A -> B) (x : go_result A) : go_result B :=
  let* a := x in Returned (f a).

(** An access that panics. *)
Definition or_panic {A} (o : option A) : go_result A :=
  match o with Some a => Returned a | None => Panicked end.

(** A varint whose error the caller returns. *)
Definition read_varint (bs : list Z) : go_result (Z * list Z) :=
  match ReadUvarint bs with
  | (x, None, bs) => Returned (x, bs)
  | (_, Some e, _) => Failed e
  end.

(** [make([]byte, n)] and [io.ReadAtLeast] of all of it.  The slice cannot have 2^63
    bytes or more. *)
Definition read_exactly (n : Z) (bs : list Z) : go_result (list Z * list Z) :=
  if 2 ^ 63 <=? n then Panicked
  else if Z.of_nat (length bs) <? n
  then Failed (if (length bs =? 0)%nat then EOF else ErrUnexpectedEOF)
  else Returned (take (Z.to_nat n) bs, drop (Z.to_nat n) bs).

Lemma read_varint_put x rest :
  is_u64 x -> read_varint (PutUvarint x ++ rest) = Returned (x, rest).
Proof. intros Hx. unfold read_varint. by rewrite ReadUvarint_Put. Qed.

Lemma read_exactly_app bs rest :
  Z.of_nat (length bs) < 2 ^ 63 ->
  read_exactly (Z.of_nat (length bs)) (bs ++ rest) = Returned (bs, rest).
Proof.
  intros Hlen. unfold read_exactly. rewrite (proj2 (Z.leb_gt _ _)) by done.
  rewrite length_app, (proj2 (Z.ltb_ge _ _)) by lia.
  by rewrite Nat2Z.id, take_app_length, drop_app_length.
Qed.
