(* ===== verification/Trie.v ===== *)
(** The prefix tree of the profiles: pkg/util/trie/trie.go and pkg/util/varint.

    The agent collects the samples of the on-CPU profiler in a trie whose keys are
    stacks, and uploads it as bytes.  Names are lists of bytes, values are [uint64].
    A node's children are its own, so that a node is a value here; the lock of a
    [Trie], which makes its operations atomic, and its metadata are left out. *)
From S2P Require Import Prelude GoLib.
Open Scope Z_scope.
Open Scope bpf_scope.

Inductive trieNode := TrieNode (name : list Z) (value : Z) (children : list trieNode).

Definition tn_name (tn : trieNode) : list Z := let '(TrieNode n _ _) := tn in n.
Definition tn_value (tn : trieNode) : Z := let '(TrieNode _ v _) := tn in v.
Definition tn_children (tn : trieNode) : list trieNode := let '(TrieNode _ _ cs) := tn in cs.

(** [newTrieNode] *)
Definition newTrieNode (name : list Z) : trieNode := TrieNode name 0 [].

(** [trieNode.insert]: the index is that of the first child whose name is not before
    the new one's. *)
Definition insert (tn t2 : trieNode) : trieNode :=
  let key := tn_name t2 in
  let cs := tn_children tn in
  let i := Search (length cs) (fun i =>
    match cs !! i with
    | Some c => match Compare (tn_name c) key with Lt => false | _ => true end
    | None => false
    end) in
  TrieNode (tn_name tn) (tn_value tn) (take i cs ++ t2 :: drop i cs).

(** [findNodeAt]: the last child whose name begins with the byte [b], from index [k]
    on.  [v.name[0]] panics when the name is empty. *)
Fixpoint lead_index (b : Z) (cs : list trieNode) (k : nat) (leadIndex : option nat)
    : go_result (option nat) :=
  match cs with
  | [] => Returned leadIndex
  | c :: cs =>
      match tn_name c with
      | [] => Panicked
      | x :: _ => lead_index b cs (S k) (if x =? b then Some k else leadIndex)
      end
  end.

(** [findNodeAt]: the loop that compares the key with the name of the child. *)
Inductive scan_result := KeyLonger | Differ (i : nat) | KeyEnds.
Fixpoint scan (leadKey key : list Z) (i : nat) : scan_result :=
  match key with
  | [] => KeyEnds
  | k :: key =>
      match leadKey with
      | [] => KeyLonger
      | l :: leadKey => if negb (l =? k) then Differ i else scan leadKey key (S i)
      end
  end.

(** [findNodeAt]: the child [lead] split after [i] bytes of its name. *)
Definition split_child (lead : trieNode) (i : nat) : trieNode :=
  TrieNode (take i (tn_name lead)) 0
    [TrieNode (drop i (tn_name lead)) (tn_value lead) (tn_children lead)].

Definition set_value (fn : Z -> Z) (tn : trieNode) : trieNode :=
  TrieNode (tn_name tn) (fn (tn_value tn)) (tn_children tn).
Definition set_child (i : nat) (c tn : trieNode) : trieNode :=
  TrieNode (tn_name tn) (tn_value tn) (<[i := c]> (tn_children tn)).

(** [trieNode.findNodeAt]: the node of [key] below [tn], made if need be, gets the value
    that [fn] makes of its own.  Every turn of [OuterLoop] but the last shortens the
    key. *)
Fixpoint findNodeAt (fuel : nat) (tn : trieNode) (key : list Z) (fn : Z -> Z)
    : go_result trieNode :=
  match fuel, key with
  | O, _ => NoFuel
  | S _, [] => Returned (set_value fn tn)
  | S fuel, b :: _ =>
      let* leadIndex := lead_index b (tn_children tn) 0 None in
      match leadIndex with
      | None => Returned (insert tn (set_value fn (newTrieNode key)))
      | Some leadIndex =>
          let* lead := or_panic (tn_children tn !! leadIndex) in
          let leadKey := tn_name lead in
          let down (next : trieNode) (key : list Z) :=
            let* c := findNodeAt fuel next key fn in
            Returned (set_child leadIndex c tn) in
          match scan leadKey key 0 with
          | KeyLonger => down lead (drop (length leadKey) key)
          | Differ i => down (split_child lead i) (drop i key)
          | KeyEnds =>
              if decide (key = leadKey) then Returned (set_child leadIndex (set_value fn lead) tn)
              else down (split_child lead (length key)) (drop (length key) key)
          end
      end
  end.

(** * [Trie] *)

Record Trie := { Multiplier : Z; Divider : Z; root : trieNode }.

#[export] Instance eta_Trie : Eta Trie := fun t => {|
  Multiplier := Multiplier t; Divider := Divider t; root := root t |}.

(** [New] *)
Definition New : Trie := {| Multiplier := 1; Divider := 1; root := newTrieNode [] |}.

(** [Trie.Insert] *)
Definition Insert (t : Trie) (key : list Z) (value : Z) (merge : bool) : go_result Trie :=
  let fn v := if merge then u64 (v + value) else value in
  go_map (fun r => t <| root := r |>) (findNodeAt (S (length key)) (root t) key fn).

(** [Trie.IsEmpty] *)
Definition IsEmpty (t : Trie) : bool := (length (tn_children (root t)) =? 0)%nat.

Fixpoint tn_size (tn : trieNode) : nat :=
  let '(TrieNode _ _ cs) := tn in S (sum_list_with tn_size cs).

(** [Trie.Iterate]: the calls of the callback. *)
Fixpoint iterate_loop (fuel : nat) (nodes : list trieNode) (prefixes : list (list Z))
    (calls : list (list Z * Z)) : go_result (list (list Z * Z)) :=
  match fuel with
  | O => NoFuel
  | S fuel =>
      match nodes with
      | [] => Returned calls
      | tn :: nodes =>
          match prefixes with
          | [] => Panicked
          | prefix :: prefixes =>
              let name := prefix ++ tn_name tn in
              let calls := if 0 <? tn_value tn then calls ++ [(name, tn_value tn)] else calls in
              iterate_loop fuel (tn_children tn ++ nodes)
                (replicate (length (tn_children tn)) name ++ prefixes) calls
          end
      end
  end.
Definition Iterate (t : Trie) : go_result (list (list Z * Z)) :=
  iterate_loop (S (tn_size (root t))) [root t] [[]] [].

(** [Trie.Serialize]: the bytes that are written.  A divider of 0 panics. *)
Definition scaled (t : Trie) (val : Z) : go_result Z :=
  if negb (Divider t =? 1) || negb (Multiplier t =? 1) then
    if u64 (Divider t) =? 0 then Panicked
    else Returned (u64 (val * u64 (Multiplier t)) / u64 (Divider t))
  else Returned val.

Fixpoint serialize_loop (fuel : nat) (t : Trie) (nodes : list trieNode) (w : list Z)
    : go_result (list Z) :=
  match fuel with
  | O => NoFuel
  | S fuel =>
      match nodes with
      | [] => Returned w
      | tn :: nodes =>
          let name := tn_name tn in
          let* val := scaled t (tn_value tn) in
          serialize_loop fuel t (tn_children tn ++ nodes)
            (w ++ PutUvarint (Z.of_nat (length name)) ++ name ++ PutUvarint val ++
             PutUvarint (Z.of_nat (length (tn_children tn))))
      end
  end.
Definition Serialize (t : Trie) : go_result (list Z) :=
  serialize_loop (S (tn_size (root t))) t [root t] [].

(** [Deserialize]: [cnt] nodes are read and inserted below [parent].  The list
    [parents] of the code holds every node as often as it still gets children, the
    innermost first: it is the stack of this recursion.  The error of reading the length
    of a name is overwritten; its value is used.  Every node takes two bytes at least. *)
Fixpoint read_nodes (fuel : nat) (cnt : Z) (parent : trieNode) (bs : list Z)
    : go_result (trieNode * list Z) :=
  match fuel with
  | O => NoFuel
  | S fuel =>
      if cnt =? 0 then Returned (parent, bs) else
      let '(nameLen, _, bs) := ReadUvarint bs in
      let* (nameBuf, bs) := read_exactly nameLen bs in
      let* (value, bs) := read_varint bs in
      let* (childrenLen, bs) := read_varint bs in
      let* (tn, bs) := read_nodes fuel childrenLen (TrieNode nameBuf value []) bs in
      read_nodes fuel (cnt - 1) (insert parent tn) bs
  end.
Definition Deserialize (bs : list Z) : go_result Trie :=
  let* (r, _) := read_nodes (S (S (length bs))) 1 (newTrieNode []) bs in
  let* c := or_panic (tn_children r !! 0%nat) in
  Returned (New <| root := c |>).

(** * [IterateRaw] *)

Record offset := { descCount : Z; suffixLen : Z }.

(** The loop over the nodes that have no descendants left; [offsets] is the stack,
    innermost first, so that the last element is the root's.  [b.Truncate] panics when
    the length is negative. *)
Definition truncate (b : list Z) (n : Z) : go_result (list Z) :=
  if Z.of_nat (length b) - n <? 0 then Panicked
  else Returned (take (Z.to_nat (Z.of_nat (length b) - n)) b).

Definition dec (o : offset) : offset := {| descCount := s64 (descCount o - 1); suffixLen := suffixLen o |}.

(** [o] is the innermost offset.  The root's is never cut, nor is its count, [p > 0]
    being false for it. *)
Fixpoint cut_parents (o : offset) (parents : list offset) (b : list Z)
    : go_result (list offset * list Z) :=
  match parents with
  | [] => Returned ([o], b)
  | p :: rest =>
      if negb (descCount o =? 0) then Returned (o :: parents, b) else
      let* b := truncate b (suffixLen o) in
      cut_parents (match rest with [] => p | _ => dec p end) rest b
  end.

(** [IterateRaw]: the calls of the callback and the error that is returned.  Every turn
    reads a byte at least. *)
Fixpoint iterate_raw (fuel : nat) (br b : list Z) (offsets : list offset) (copied : Z)
    (calls : list (list Z * Z)) : go_result (list (list Z * Z) * option io_error) :=
  match fuel with
  | O => NoFuel
  | S fuel =>
      match ReadUvarint br with
      | (_, Some EOF, _) => Returned (calls, None)
      | (_, Some e, _) => Returned (calls, Some e)
      | (nameLen, None, br) =>
          let n := Z.to_nat (Z.min (Z.of_nat (length br)) (s64 nameLen)) in
          let read := negb (nameLen =? 0) in
          let copied := if read then Z.of_nat n else copied in
          let b := if read then b ++ take n br else b in
          let br := if read then drop n br else br in
          match ReadUvarint br with
          | (_, Some e, _) => Returned (calls, Some e)
          | (value, None, br) =>
              match ReadUvarint br with
              | (_, Some e, _) => Returned (calls, Some e)
              | (desc, None, br) =>
                  let calls := if 0 <? value then calls ++ [(b, s64 value)] else calls in
                  if negb (desc =? 0) then
                    iterate_raw fuel br b
                      ({| descCount := s64 desc; suffixLen := copied |} :: offsets) copied calls
                  else
                    let* b := truncate b copied in
                    match offsets with
                    | [] => iterate_raw fuel br b [] copied calls
                    | o :: parents =>
                        let* (offsets, b) := cut_parents (dec o) parents b in
                        iterate_raw fuel br b offsets copied calls
                    end
              end
          end
      end
  end.
Definition IterateRaw (r buf : list Z) : go_result (list (list Z * Z) * option io_error) :=
  iterate_raw (S (length r)) r buf [] 0 [].
