(* ===== verification/TrieSpec.v ===== *)
(** The trie is a finite map from byte strings to values: properties of [Trie]. *)
From stdpp Require Import sorting.
From S2P Require Import Prelude GoLib Trie.
Open Scope Z_scope.
Open Scope bpf_scope.

#[local] Arguments Search : simpl never.

(** * Well-formed nodes *)

Lemma trieNode_nested_ind (P : trieNode -> Prop) :
  (forall n v cs, Forall P cs -> P (TrieNode n v cs)) -> forall tn, P tn.
Proof.
  intros H. fix IH 1. intros [n v cs]. apply H. induction cs as [|c cs IHcs]; constructor; auto.
Qed.

(** The byte a child is found by. *)
Definition first_byte (c : trieNode) : Z := default 0 (head (tn_name c)).

(** The names of the children are not empty and begin with different bytes, in
    increasing order. *)
Inductive node_wf : trieNode -> Prop :=
| NodeWf n v cs :
    Forall (fun c => tn_name c <> []) cs ->
    StronglySorted (fun c d => first_byte c < first_byte d) cs ->
    Forall node_wf cs -> node_wf (TrieNode n v cs).

Record kids_ok (cs : list trieNode) : Prop := {
  kids_named : Forall (fun c => tn_name c <> []) cs;
  kids_sorted : StronglySorted (fun c d => first_byte c < first_byte d) cs;
  kids_wf : Forall node_wf cs
}.

Lemma node_wf_kids n v cs : node_wf (TrieNode n v cs) <-> kids_ok cs.
Proof.
  split; [inversion 1; subst; by split | intros []; by constructor].
Qed.

Lemma kids_ok_cons c cs :
  kids_ok (c :: cs) <-> tn_name c <> [] /\ node_wf c /\
    Forall (fun d => first_byte c < first_byte d) cs /\ kids_ok cs.
Proof.
  split.
  - intros [Hn Hs Hw]. inversion Hn; inversion Hs; inversion Hw; subst. by split_and!.
  - intros (? & ? & ? & []). split; by constructor.
Qed.

Lemma named_cons c : tn_name c <> [] -> exists l, tn_name c = first_byte c :: l.
Proof. unfold first_byte. destruct (tn_name c) as [|b l]; [done | by exists l]. Qed.

(** Two lists of children after each other. *)
Lemma kids_ok_app cs1 cs2 :
  kids_ok (cs1 ++ cs2) <-> kids_ok cs1 /\ kids_ok cs2 /\
    (forall c d, c ∈ cs1 -> d ∈ cs2 -> first_byte c < first_byte d).
Proof.
  induction cs1 as [|c cs1 IH]; cbn.
  - split; [|naive_solver]. intros H. split; [by repeat constructor | split; [done | set_solver]].
  - rewrite !kids_ok_cons, IH, Forall_app, !Forall_forall. set_solver.
Qed.

Lemma kids_increasing cs i j c d :
  kids_ok cs -> cs !! i = Some c -> cs !! j = Some d -> (i < j)%nat -> first_byte c < first_byte d.
Proof.
  revert i j. induction cs as [|e cs IH]; intros i j Hcs Hi Hj Hij; [done|].
  apply kids_ok_cons in Hcs as (_ & _ & Hlt & Hcs). destruct i as [|i], j as [|j]; try lia.
  - injection Hi as ->. rewrite Forall_forall in Hlt. apply Hlt. by eapply list_elem_of_lookup_2.
  - eapply (IH i j); try done. lia.
Qed.

Lemma kids_unique cs i j c d :
  kids_ok cs -> cs !! i = Some c -> cs !! j = Some d -> first_byte c = first_byte d -> i = j.
Proof.
  intros Hcs Hi Hj Heq. destruct (Nat.lt_trichotomy i j) as [H | [H | H]]; [|done|].
  - pose proof (kids_increasing _ _ _ _ _ Hcs Hi Hj H). lia.
  - pose proof (kids_increasing _ _ _ _ _ Hcs Hj Hi H). lia.
Qed.

(** Replacing a child by one that begins with the same byte. *)
Lemma kids_ok_insert cs i c c' :
  kids_ok cs -> cs !! i = Some c -> tn_name c' <> [] -> first_byte c' = first_byte c ->
  node_wf c' -> kids_ok (<[i := c']> cs).
Proof.
  intros Hcs Hi Hn Hb Hw. apply list_elem_of_split_length in Hi as (l1 & l2 & -> & ->).
  rewrite insert_app_r_alt, Nat.sub_diag by done. cbn.
  apply kids_ok_app in Hcs as (H1 & H2 & H12). apply kids_ok_cons in H2 as (? & ? & Hlt & H2).
  apply kids_ok_app. rewrite kids_ok_cons, Hb. split_and!; try done.
  intros d e Hd He. apply elem_of_cons in He as [-> | He]; [rewrite Hb|]; apply H12; set_solver.
Qed.

(** * The value of a key *)

(** What is left of a key after a prefix. *)
Fixpoint strip (p key : list Z) : option (list Z) :=
  match p, key with
  | [], _ => Some key
  | x :: p, y :: key => if decide (x = y) then strip p key else None
  | _, [] => None
  end.

Lemma strip_Some p key r : strip p key = Some r <-> key = p ++ r.
Proof.
  revert key. induction p as [|x p IH]; intros [|y key]; cbn; try naive_solver.
  destruct (decide (x = y)) as [-> | ]; [rewrite IH|]; naive_solver.
Qed.

Lemma strip_app p r : strip p (p ++ r) = Some r.
Proof. by apply strip_Some. Qed.

Lemma strip_app_l p s key : strip (p ++ s) key = strip p key ≫= strip s.
Proof.
  revert key. induction p as [|x p IH]; intros [|y key]; cbn; try done.
  case_decide; [apply IH | done].
Qed.

(** The value of the node of [key] below [tn], 0 when there is none. *)
Fixpoint val_at (tn : trieNode) (key : list Z) : Z :=
  let '(TrieNode _ v cs) := tn in
  match key with
  | [] => v
  | _ :: _ =>
      foldr (fun c r => match strip (tn_name c) key with
                        | Some rest => val_at c rest
                        | None => r
                        end) 0 cs
  end.

(** The value of [key] in the child [c]. *)
Definition val_in (c : trieNode) (key : list Z) : Z :=
  match strip (tn_name c) key with Some rest => val_at c rest | None => 0 end.

Lemma strip_first c b key rest :
  tn_name c <> [] -> strip (tn_name c) (b :: key) = Some rest -> first_byte c = b.
Proof.
  intros Hn. unfold first_byte. destruct (tn_name c) as [|x l]; [done|]. cbn.
  by case_decide.
Qed.

Lemma val_at_none n v cs b key :
  kids_ok cs -> (forall c, c ∈ cs -> first_byte c <> b) -> val_at (TrieNode n v cs) (b :: key) = 0.
Proof.
  intros Hcs Hb. cbn [val_at]. induction cs as [|c cs IH]; [done|]. cbn.
  apply kids_ok_cons in Hcs as (Hn & _ & _ & Hcs).
  destruct (strip (tn_name c) (b :: key)) eqn:E.
  - apply strip_first in E; [|done]. by destruct (Hb c); [left|].
  - apply IH; [done|]. intros d Hd. apply Hb. by right.
Qed.

Lemma val_at_child n v cs c b key :
  kids_ok cs -> c ∈ cs -> first_byte c = b -> val_at (TrieNode n v cs) (b :: key) = val_in c (b :: key).
Proof.
  intros Hcs Hc Hb. unfold val_in. cbn [val_at]. induction cs as [|d cs IH]; [by apply elem_of_nil in Hc|].
  cbn. apply kids_ok_cons in Hcs as (Hn & _ & Hlt & Hcs). rewrite Forall_forall in Hlt.
  apply elem_of_cons in Hc as [-> | Hc].
  - destruct (strip (tn_name d) (b :: key)) eqn:E; [done|].
    pose proof (val_at_none [] 0 cs b key Hcs) as H0. cbn in H0. apply H0.
    intros c Hc'. specialize (Hlt c Hc'). lia.
  - destruct (strip (tn_name d) (b :: key)) eqn:E; [|by apply IH].
    apply strip_first in E; [|done]. specialize (Hlt c Hc). lia.
Qed.

(** * [findNodeAt] *)

Lemma lead_index_spec cs b k acc :
  kids_ok cs ->
  (exists i c, cs !! i = Some c /\ first_byte c = b /\
     lead_index b cs k acc = Returned (Some (k + i)%nat)) \/
  ((forall c, c ∈ cs -> first_byte c <> b) /\ lead_index b cs k acc = Returned acc).
Proof.
  revert k acc. induction cs as [|c cs IH]; intros k acc Hcs; [right; split; [set_solver | done]|].
  apply kids_ok_cons in Hcs as (Hn & _ & Hlt & Hcs). rewrite Forall_forall in Hlt.
  destruct (named_cons c Hn) as [l Hl]. cbn [lead_index]. rewrite Hl.
  destruct (Z.eqb_spec (first_byte c) b) as [Hb | Hb].
  - left. exists 0%nat, c. split_and!; [done..|].
    destruct (IH (S k) (Some k) Hcs) as [(i & d & Hi & Hd & _) | [_ ->]]; [|by rewrite Nat.add_0_r].
    specialize (Hlt d ltac:(by eapply list_elem_of_lookup_2)). lia.
  - destruct (IH (S k) acc Hcs) as [(i & d & Hi & Hd & ->) | [Hno ->]].
    + left. exists (S i), d. split_and!; [done..|]. do 2 f_equal. lia.
    + right. split; [|done]. intros d Hd. apply elem_of_cons in Hd as [-> | Hd]; [done | by apply Hno].
Qed.

Lemma scan_spec leadKey key i :
  match scan leadKey key i with
  | KeyLonger => exists r, r <> [] /\ key = leadKey ++ r
  | Differ j => exists p x s y r,
      j = (i + length p)%nat /\ leadKey = p ++ x :: s /\ key = p ++ y :: r /\ x <> y
  | KeyEnds => exists s, leadKey = key ++ s
  end.
Proof.
  revert key i. induction leadKey as [|l leadKey IH]; intros [|k key] i; cbn;
    [by exists [] | by exists (k :: key) | by eexists |].
  destruct (Z.eqb_spec l k) as [-> | Hne]; cbn [negb].
  - specialize (IH key (S i)). destruct (scan leadKey key (S i)) as [|j|].
    + destruct IH as (r & Hr & ->). by exists r.
    + destruct IH as (p & x & s & y & r & -> & -> & -> & Hxy). exists (k :: p), x, s, y, r.
      split_and!; [cbn; lia | done..].
    + destruct IH as [s ->]. by exists s.
  - exists [], l, leadKey, k, key. split_and!; [cbn; lia | done..].
Qed.

(** [tn'] is [tn] with the value of [key] changed by [fn]. *)
Definition updated (fn : Z -> Z) (key : list Z) (tn tn' : trieNode) : Prop :=
  node_wf tn' /\ tn_name tn' = tn_name tn /\
  forall k, val_at tn' k = if decide (k = key) then fn (val_at tn key) else val_at tn k.

Lemma updated_here fn tn : node_wf tn -> updated fn [] tn (set_value fn tn).
Proof.
  intros Hw. destruct tn as [n v cs]. split; [by apply node_wf_kids in Hw; apply node_wf_kids|].
  split; [done|]. by intros [|b k]; cbn; case_decide.
Qed.

(** Children that begin with other bytes than [b]. *)
Lemma val_at_other n v cs cs' b key :
  kids_ok cs -> kids_ok cs' ->
  (forall c, first_byte c = b -> c ∈ cs <-> c ∈ cs') ->
  val_at (TrieNode n v cs) (b :: key) = val_at (TrieNode n v cs') (b :: key).
Proof.
  intros Hcs Hcs' Hin. destruct (decide (Exists (fun c => first_byte c = b) cs)) as [He | He].
  - apply Exists_exists in He as (c & Hc & Hb).
    rewrite (val_at_child _ _ _ c), (val_at_child _ _ _ c); try done. by apply Hin.
  - rewrite Exists_exists in He. rewrite !val_at_none; try done.
    + intros c Hc Hb. apply He. exists c. split; [by apply Hin | done].
    + intros c Hc Hb. apply He. by exists c.
Qed.

(** A child [c] is replaced by what becomes of [next], which has the same values. *)
Lemma updated_down fn n v cs i c next c' b key key' :
  kids_ok cs -> cs !! i = Some c -> first_byte c = b -> tn_name next <> [] ->
  first_byte next = b -> (forall k, val_in next (b :: k) = val_in c (b :: k)) ->
  b :: key = tn_name next ++ key' -> updated fn key' next c' ->
  updated fn (b :: key) (TrieNode n v cs) (set_child i c' (TrieNode n v cs)).
Proof.
  intros Hcs Hi Hb Hn Hnb Hval Hkey (Hw & Hname & Hc').
  assert (Hb' : first_byte c' = b) by (unfold first_byte; by rewrite Hname).
  assert (Hn' : tn_name c' <> []) by by rewrite Hname.
  assert (Hcs' : kids_ok (<[i := c']> cs)) by (eapply kids_ok_insert; [done.. | congruence | done]).
  assert (Hc : c ∈ cs) by by eapply list_elem_of_lookup_2.
  split; [by apply node_wf_kids|]. split; [done|].
  rewrite (val_at_child n v cs c) by done. rewrite <- Hval.
  intros [|b' k]; [by cbn; case_decide|]. 
  change (set_child i c' (TrieNode n v cs)) with (TrieNode n v (<[i := c']> cs)).
  destruct (decide (b' = b)) as [-> | Hne].
  - rewrite (val_at_child _ _ _ c'), (val_at_child _ _ _ c), <- Hval; try done.
    2: { apply list_elem_of_lookup_2 with i. apply list_lookup_insert_eq. by eapply lookup_lt_Some. }
    unfold val_in. rewrite Hname, Hkey, strip_app.
    destruct (strip (tn_name next) (b :: k)) as [r|] eqn:E.
    + apply strip_Some in E. rewrite Hc', E. destruct (decide (r = key')) as [-> | Hr].
      * by rewrite decide_True.
      * rewrite decide_False; [done|]. by intros ->%app_inv_head.
    + case_decide as Hd; [|done]. by rewrite Hd, strip_app in E.
  - rewrite decide_False by congruence. apply val_at_other; [done..|]. intros d Hd.
    rewrite !list_elem_of_lookup. split; intros [j Hj]; exists j.
    + rewrite list_lookup_insert_ne in Hj; [done|]. intros <-.
      rewrite list_lookup_insert_eq in Hj by by eapply lookup_lt_Some. congruence.
    + rewrite list_lookup_insert_ne; [done|]. intros <-. congruence.
Qed.

Lemma Compare_first c key b :
  tn_name c <> [] -> first_byte c <> b -> Compare (tn_name c) (b :: key) = (first_byte c ?= b).
Proof.
  intros Hn Hb. destruct (named_cons c Hn) as [l ->]. cbn.
  destruct (Z.compare_spec (first_byte c) b); done.
Qed.

(** Where a child is inserted. *)
Lemma insert_shape n v cs t2 b key :
  kids_ok cs -> (forall c, c ∈ cs -> first_byte c <> b) -> tn_name t2 = b :: key ->
  exists cs1 cs2, cs = cs1 ++ cs2 /\ insert (TrieNode n v cs) t2 = TrieNode n v (cs1 ++ t2 :: cs2) /\
    (forall c, c ∈ cs1 -> first_byte c < b) /\ (forall c, c ∈ cs2 -> b < first_byte c).
Proof.
  intros Hcs Hb Ht2. unfold insert. cbn [tn_children tn_name tn_value]. rewrite Ht2.
  set (f := fun i => match cs !! i with Some c => match Compare (tn_name c) (b :: key) with
                     | Lt => false | _ => true end | None => false end).
  assert (Hf : forall i c, cs !! i = Some c -> f i = (b <? first_byte c)).
  { intros i c Hi. unfold f. rewrite Hi. pose proof (list_elem_of_lookup_2 _ _ _ Hi) as Hc.
    pose proof (proj1 (Forall_forall _ _) (kids_named _ Hcs) c Hc) as Hn.
    rewrite Compare_first by auto.
    rewrite Z.ltb_compare, Z.compare_antisym. specialize (Hb c Hc).
    by destruct (Z.compare_spec b (first_byte c)). }
  destruct (Search_least (length cs) f) as (Hr & Hlo & Hhi).
  { intros i j Hij. destruct (lookup_lt_is_Some_2 cs i) as [c Hi]; [lia|].
    destruct (lookup_lt_is_Some_2 cs j) as [d Hj]; [lia|]. rewrite (Hf _ _ Hi), (Hf _ _ Hj).
    rewrite !Z.ltb_lt. destruct (decide (i = j)) as [<- | Hne]; [by simplify_eq|].
    intros Hlt. pose proof (kids_increasing cs i j c d Hcs Hi Hj ltac:(lia)). lia. }
  exists (take (Search (length cs) f) cs), (drop (Search (length cs) f) cs).
  rewrite take_drop. split_and!; [done | done | |].
  - intros c Hc. apply list_elem_of_lookup in Hc as [i Hi]. apply lookup_take_Some in Hi as [Hi Hlt].
    pose proof (Hf _ _ Hi) as Hfi. rewrite Hlo in Hfi by done. symmetry in Hfi. apply Z.ltb_ge in Hfi.
    specialize (Hb c ltac:(by eapply list_elem_of_lookup_2)). lia.
  - intros c Hc. apply list_elem_of_lookup in Hc as [i Hi]. rewrite lookup_drop in Hi.
    pose proof (Hf _ _ Hi) as Hfi. rewrite Hhi in Hfi by (apply lookup_lt_Some in Hi; lia).
    symmetry in Hfi. by apply Z.ltb_lt in Hfi.
Qed.

Lemma updated_insert fn n v cs b key :
  kids_ok cs -> (forall c, c ∈ cs -> first_byte c <> b) ->
  updated fn (b :: key) (TrieNode n v cs)
    (insert (TrieNode n v cs) (set_value fn (newTrieNode (b :: key)))).
Proof.
  intros Hcs Hb. set (t2 := set_value fn (newTrieNode (b :: key))).
  destruct (insert_shape n v cs t2 b key Hcs Hb eq_refl) as (cs1 & cs2 & Hcs12 & -> & Hlt & Hgt).
  assert (Hcs' : kids_ok (cs1 ++ t2 :: cs2)).
  { subst cs. apply kids_ok_app in Hcs as (? & ? & H12). apply kids_ok_app. rewrite kids_ok_cons.
    split_and!; try done.
    - unfold t2. by repeat constructor.
    - by apply Forall_forall.
    - intros c d Hc Hd. apply elem_of_cons in Hd as [-> | Hd]; [by apply Hlt | by apply H12]. }
  split; [by apply node_wf_kids|]. split; [done|]. rewrite (val_at_none n v cs) by done.
  intros [|b' k]; [by cbn; case_decide|]. destruct (decide (b' = b)) as [-> | Hne].
  - rewrite (val_at_child _ _ _ t2) by (done || set_solver). unfold val_in. cbn [t2 tn_name set_value newTrieNode].
    rewrite (val_at_none n v cs) by done.
    destruct (strip (b :: key) (b :: k)) as [r|] eqn:E.
    + apply strip_Some in E. rewrite E. destruct r as [|x r]; cbn [val_at foldr].
      * by rewrite app_nil_r, decide_True.
      * rewrite decide_False; [done|]. rewrite <- (app_nil_r (b :: key)) at 2. by intros [=]%app_inv_head.
    + rewrite decide_False; [done|]. intros H. rewrite H in E.
      pose proof (strip_app (b :: key) []) as H'. rewrite app_nil_r in H'. congruence.
  - rewrite decide_False by congruence. symmetry. apply val_at_other; [done..|]. intros c Hc.
    subst cs. rewrite !elem_of_app, elem_of_cons. split; [tauto|]. intros [? | [-> | ?]]; try tauto.
    by destruct Hne.
Qed.

(** A child that is split has the same values. *)
Lemma split_child_ok c p s :
  node_wf c -> tn_name c = p ++ s -> p <> [] -> s <> [] ->
  let c' := split_child c (length p) in
  node_wf c' /\ tn_name c' = p /\ first_byte c' = first_byte c /\ forall k, k <> [] -> val_in c' k = val_in c k.
Proof.
  intros Hw Hname Hp Hs c'. unfold c', split_child. rewrite Hname, take_app_length, drop_app_length.
  destruct c as [n v cs]. cbn [tn_name tn_value tn_children] in *. subst n.
  set (low := TrieNode s v cs).
  assert (Hkids : kids_ok [low]).
  { apply kids_ok_cons. split_and!; try done; [by apply node_wf_kids in Hw; apply node_wf_kids|].
    split; constructor. }
  split; [by apply node_wf_kids|]. split; [done|].
  split; [unfold first_byte; cbn; by destruct p|]. intros k Hk. unfold val_in. cbn [tn_name].
  rewrite strip_app_l. destruct (strip p k) as [[|b r]|] eqn:E; cbn [mbind option_bind]; [|by cbn; destruct (strip s _)|done].
  cbn. by destruct s.
Qed.

(** [findNodeAt] returns, and changes the value of the key and nothing else. *)
Lemma findNodeAt_updated fn fuel tn key :
  node_wf tn -> (length key < fuel)%nat ->
  exists tn', findNodeAt fuel tn key fn = Returned tn' /\ updated fn key tn tn'.
Proof.
  revert tn key. induction fuel as [|fuel IH]; intros tn key Hw Hlen; [lia|].
  destruct key as [|b key]; cbn [findNodeAt].
  { eexists. split; [done|]. by apply updated_here. }
  destruct tn as [n v cs]. pose proof (proj1 (node_wf_kids _ _ _) Hw) as Hcs.
  cbn [tn_children]. destruct (lead_index_spec cs b 0 None Hcs) as [(i & c & Hi & Hb & ->) | [Hno ->]].
  2: { cbn. eexists. split; [done|]. by apply updated_insert. }
  cbn [go_bind or_panic Nat.add]. rewrite Hi. cbn [or_panic go_bind].
  pose proof (list_elem_of_lookup_2 _ _ _ Hi) as Hc.
  pose proof (proj1 (Forall_forall _ _) (kids_wf _ Hcs) c Hc) as Hcw.
  pose proof (proj1 (Forall_forall _ _) (kids_named _ Hcs) c Hc) as Hcn.
  destruct (named_cons c Hcn) as [l Hl]. rewrite Hb in Hl.
  assert (Hdown : forall next key', node_wf next -> tn_name next <> [] -> first_byte next = b ->
    (forall k, val_in next (b :: k) = val_in c (b :: k)) -> b :: key = tn_name next ++ key' ->
    exists tn', (let* c0 := findNodeAt fuel next key' fn in Returned (set_child i c0 (TrieNode n v cs)))
      = Returned tn' /\ updated fn (b :: key) (TrieNode n v cs) tn').
  { intros next key' Hnw Hnn Hnb Hval Hkey. destruct (IH next key' Hnw) as (c' & -> & Hc').
    - destruct (tn_name next) eqn:E; [done|]. apply (f_equal length) in Hkey.
      rewrite length_app in Hkey. cbn in *. lia.
    - eexists. split; [done|]. by eapply updated_down. }
  pose proof (scan_spec (tn_name c) (b :: key) 0) as Hscan.
  destruct (scan (tn_name c) (b :: key) 0) as [|j|].
  - destruct Hscan as (r & Hr & Hkey). apply Hdown; try done. by rewrite Hkey, drop_app_length.
  - destruct Hscan as (p & x & s & y & r & -> & Hname & Hkey & Hxy).
    assert (Hp : p <> []) by (intros ->; rewrite Hl in Hname; cbn in *; congruence).
    destruct (split_child_ok c p (x :: s) Hcw Hname Hp) as (H1 & H2 & H3 & H4); [done|].
    apply Hdown; cbn [Nat.add]; rewrite ?H2; try done; [congruence | by intros; apply H4 |].
    by rewrite Hkey, drop_app_length.
  - destruct Hscan as [s Hname]. case_decide as Heq.
    + eexists. split; [done|]. eapply (updated_down fn n v cs i c c _ b key []); try done.
      * by rewrite app_nil_r.
      * by apply updated_here.
    + destruct (split_child_ok c (b :: key) s Hcw Hname) as (H1 & H2 & H3 & H4); [done | |].
      { intros ->. by rewrite app_nil_r in Hname. }
      apply Hdown; rewrite ?H2; try done; [congruence | by intros; apply H4 |].
      by rewrite drop_all, app_nil_r.
Qed.

(** * The bindings *)

(** The bindings below a node, in the order of [Iterate]. *)
Fixpoint entries (prefix : list Z) (tn : trieNode) : list (list Z * Z) :=
  let '(TrieNode n v cs) := tn in
  (if 0 <? v then [(prefix ++ n, v)] else []) ++ mjoin (entries (prefix ++ n) <$> cs).

Definition key_lt (x y : list Z * Z) : Prop := bytes_lt x.1 y.1.

Lemma val_at_cons n v cs key r :
  kids_ok cs -> key <> [] ->
  val_at (TrieNode n v cs) key = r ->
  r <> 0 -> exists c, c ∈ cs /\ val_in c key = r.
Proof.
  intros Hcs Hk Hr Hne. destruct key as [|b key]; [done|].
  destruct (decide (Exists (fun c => first_byte c = b) cs)) as [He | He].
  - apply Exists_exists in He as (c & Hc & Hb). exists c. split; [done|].
    by rewrite <- (val_at_child n v cs c).
  - rewrite Exists_exists in He. rewrite val_at_none in Hr; [done.. |].
    intros c Hc Hb. apply He. by exists c.
Qed.

(** A binding is a key with a positive value. *)
Lemma entries_elem tn prefix k w :
  node_wf tn ->
  (k, w) ∈ entries prefix tn <->
    exists r, k = prefix ++ tn_name tn ++ r /\ val_at tn r = w /\ 0 < w.
Proof.
  revert prefix. induction tn as [n v cs IH] using trieNode_nested_ind. intros prefix Hw.
  apply node_wf_kids in Hw as Hcs. rewrite Forall_forall in IH. cbn [entries tn_name].
  rewrite elem_of_app, list_elem_of_join. split.
  - intros [Hhere | (l & Hkids & Hl)].
    + destruct (Z.ltb_spec 0 v); [|by apply elem_of_nil in Hhere].
      apply list_elem_of_singleton in Hhere as [= -> ->]. exists []. by rewrite app_nil_r.
    + apply list_elem_of_fmap in Hl as (c & -> & Hc).
      pose proof (proj1 (Forall_forall _ _) (kids_wf _ Hcs) c Hc) as Hcw.
      pose proof (proj1 (Forall_forall _ _) (kids_named _ Hcs) c Hc) as Hcn.
      apply IH in Hkids as (r & -> & Hv & Hpos); [|done..]. exists (tn_name c ++ r).
      rewrite <- !app_assoc. split_and!; [done | | done].
      destruct (named_cons c Hcn) as [x Hx]. rewrite Hx. cbn [app].
      rewrite (val_at_child n v cs c) by done. unfold val_in. rewrite Hx.
      by rewrite app_comm_cons, strip_app.
  - intros (r & -> & Hv & Hpos). destruct r as [|b r].
    + left. cbn in Hv. subst w. rewrite (proj2 (Z.ltb_lt _ _)) by done.
      apply list_elem_of_singleton. by rewrite app_nil_r.
    + right. apply val_at_cons in Hv as (c & Hc & Hv); [|done..|lia]. unfold val_in in Hv.
      destruct (strip (tn_name c) (b :: r)) as [r'|] eqn:E; [|lia]. apply strip_Some in E.
      exists (entries (prefix ++ n) c). split; [|by apply list_elem_of_fmap_2].
      apply IH; [done | by eapply Forall_forall; [apply Hcs|] |]. exists r'.
      by rewrite E, <- app_assoc.
Qed.

(** The keys come in increasing order. *)
Lemma entries_sorted tn prefix : node_wf tn -> StronglySorted key_lt (entries prefix tn).
Proof.
  revert prefix. induction tn as [n v cs IH] using trieNode_nested_ind. intros prefix Hw.
  apply node_wf_kids in Hw as Hcs. cbn [entries]. clear Hw.
  assert (Hkids : StronglySorted key_lt (mjoin (entries (prefix ++ n) <$> cs)) /\
    forall x, x ∈ mjoin (entries (prefix ++ n) <$> cs) ->
      exists c r, c ∈ cs /\ x.1 = (prefix ++ n) ++ tn_name c ++ r).
  { clear v. induction cs as [|c cs IHcs]; [split; [constructor | set_solver]|].
    apply Forall_cons in IH as [IHc IH]. apply kids_ok_cons in Hcs as (Hn & Hw & Hlt & Hcs).
    destruct (IHcs IH Hcs) as [Hs Hin]. cbn [fmap list_fmap mjoin list_join]. rewrite Forall_forall in Hlt.
    assert (Hc : forall x, x ∈ entries (prefix ++ n) c -> exists r, x.1 = (prefix ++ n) ++ tn_name c ++ r).
    { intros [k w] Hx. apply entries_elem in Hx as (r & -> & _); [|done]. by exists r. }
    split.
    - apply StronglySorted_app_2; [|by apply IHc | done]. intros x y Hx Hy.
      destruct (Hc x Hx) as [r Hr]. destruct (Hin y Hy) as (d & r' & Hd & Hr').
      unfold key_lt. rewrite Hr, Hr'. apply bytes_lt_app.
      pose proof (proj1 (Forall_forall _ _) (kids_named _ Hcs) d Hd) as Hdn.
      destruct (named_cons c Hn) as [l ->], (named_cons d Hdn) as [l' ->].
      apply bytes_lt_head. by apply Hlt.
    - intros x Hx. apply elem_of_app in Hx as [Hx | Hx].
      + destruct (Hc x Hx) as [r Hr]. exists c, r. split; [by left | done].
      + destruct (Hin x Hx) as (d & r & Hd & Hr). exists d, r. split; [by right | done]. }
  destruct Hkids as [Hs Hin]. apply StronglySorted_app_2; [|destruct (0 <? v); repeat constructor | done].
  intros x y Hx Hy. destruct (0 <? v); [|by apply elem_of_nil in Hx].
  apply list_elem_of_singleton in Hx as ->. destruct (Hin y Hy) as (d & r & Hd & Hr).
  unfold key_lt. rewrite Hr. cbn. rewrite <- (app_nil_r (prefix ++ n)) at 1. apply bytes_lt_app.
  pose proof (proj1 (Forall_forall _ _) (kids_named _ Hcs) d Hd) as Hdn.
  destruct (named_cons d Hdn) as [l' ->]. apply bytes_lt_nil.
Qed.

Lemma sorted_keys_NoDup l : StronglySorted key_lt l -> NoDup l.*1.
Proof.
  induction 1 as [|x l _ IH Hx]; [constructor|]. cbn. constructor; [|done].
  intros (y & Heq & Hy)%list_elem_of_fmap. rewrite Forall_forall in Hx. specialize (Hx y Hy).
  unfold key_lt in Hx. rewrite Heq in Hx. by apply bytes_lt_irrefl in Hx.
Qed.

(** [Iterate] calls back for the bindings. *)
Lemma iterate_loop_entries fuel nodes prefixes calls :
  length prefixes = length nodes -> (sum_list_with tn_size nodes < fuel)%nat ->
  iterate_loop fuel nodes prefixes calls =
    Returned (calls ++ mjoin (zip_with entries prefixes nodes)).
Proof.
  revert nodes prefixes calls. induction fuel as [|fuel IH]; intros nodes prefixes calls Hlen Hfuel; [lia|].
  cbn [iterate_loop]. destruct nodes as [|[n v cs] nodes].
  { destruct prefixes; [|done]. cbn. by rewrite app_nil_r. }
  destruct prefixes as [|prefix prefixes]; [done|]. cbn [tn_name tn_value tn_children] in *.
  rewrite IH.
  - f_equal. cbn [zip_with mjoin list_join entries]. rewrite zip_with_app, join_app by by rewrite length_replicate.
    rewrite !app_assoc. do 2 f_equal.
    + destruct (0 <? v); [done|]. by rewrite app_nil_r.
    + f_equal. clear. induction cs as [|c cs IH]; [done|]. cbn. by f_equal.
  - rewrite !length_app, length_replicate. cbn in Hlen. lia.
  - rewrite sum_list_with_app. cbn in Hfuel. lia.
Qed.

(** * Tries *)

Record trie_wf (t : Trie) : Prop := {
  trie_root : node_wf (root t);
  trie_root_name : tn_name (root t) = []
}.

Lemma New_wf : trie_wf New.
Proof. split; [by apply node_wf_kids; split; constructor | done]. Qed.

(** The map that a trie stands for. *)
Definition bindings (t : Trie) : list (list Z * Z) := entries [] (root t).
Definition trie_map (t : Trie) : gmap (list Z) Z := list_to_map (bindings t).

Lemma Iterate_bindings t : Iterate t = Returned (bindings t).
Proof.
  unfold Iterate. rewrite iterate_loop_entries; [|done | cbn; lia]. cbn. by rewrite app_nil_r.
Qed.

Lemma bindings_sorted t : trie_wf t -> StronglySorted key_lt (bindings t).
Proof. intros [Hw _]. by apply entries_sorted. Qed.

Lemma trie_map_lookup t k :
  trie_wf t -> trie_map t !! k = (let w := val_at (root t) k in if 0 <? w then Some w else None).
Proof.
  intros Ht. pose proof (sorted_keys_NoDup _ (bindings_sorted t Ht)) as Hnd.
  destruct Ht as [Hw Hname]. apply option_eq. intros w. unfold trie_map.
  rewrite <- elem_of_list_to_map by done. unfold bindings. rewrite entries_elem, Hname by done. cbn.
  split.
  - intros (r & -> & <- & Hpos). cbn. by rewrite (proj2 (Z.ltb_lt _ _)).
  - destruct (Z.ltb_spec 0 (val_at (root t) k)); [|done]. intros [= <-]. by exists k.
Qed.

Lemma val_at_nonneg_map t k :
  trie_wf t -> 0 <= val_at (root t) k -> val_at (root t) k = default 0 (trie_map t !! k).
Proof.
  intros Ht Hpos. rewrite trie_map_lookup by done. cbv zeta.
  destruct (Z.ltb_spec 0 (val_at (root t) k)); cbn; lia.
Qed.

(** Values are [uint64]. *)
Definition values_ok (t : Trie) : Prop := forall k, is_u64 (val_at (root t) k).

Lemma Insert_updates t key value merge :
  trie_wf t ->
  exists t', Insert t key value merge = Returned t' /\ trie_wf t' /\
    Multiplier t' = Multiplier t /\ Divider t' = Divider t /\
    forall k, val_at (root t') k = if decide (k = key)
      then if merge then u64 (val_at (root t) key + value) else value
      else val_at (root t) k.
Proof.
  intros [Hw Hname]. unfold Insert.
  set (fn := fun v => if merge then u64 (v + value) else value).
  destruct (findNodeAt_updated fn (S (length key)) (root t) key Hw) as (r & -> & Hrw & Hrn & Hr); [lia|].
  eexists. split; [done|]. split_and!; [split; [done | by rewrite <- Hname] | done | done | done].
Qed.

(** C32: the trie is a map from keys to [uint64] values: an insertion never fails, it sets
    the value of its key, or adds to it modulo 2^64 when merging, and leaves every
    other key alone, whatever nodes it has to split; [Iterate] lists exactly the keys
    with a positive value, once each and in increasing byte order. *)
Theorem insert_is_map_update t key value merge :
  trie_wf t -> values_ok t -> is_u64 value ->
  exists t' l, Insert t key value merge = Returned t' /\ trie_wf t' /\ values_ok t' /\
    Iterate t' = Returned l /\ StronglySorted key_lt l /\ list_to_map l = trie_map t' /\
    let w := if merge then u64 (default 0 (trie_map t !! key) + value) else value in
    trie_map t' = if 0 <? w then <[key := w]> (trie_map t) else delete key (trie_map t).
Proof.
  intros Ht Hv Hval. destruct (Insert_updates t key value merge Ht) as (t' & Hins & Ht' & _ & _ & Hat).
  assert (Hw : default 0 (trie_map t !! key) = val_at (root t) key)
    by (symmetry; apply val_at_nonneg_map; [done | apply Hv]).
  exists t', (bindings t'). split; [done|]. split; [done|]. split_and!.
  - intros k. rewrite Hat. repeat case_decide; [destruct merge|]; [apply uN_range; lia | done | apply Hv].
  - apply Iterate_bindings.
  - by apply bindings_sorted.
  - done.
  - cbv zeta. rewrite Hw. set (w := if merge then u64 (val_at (root t) key + value) else value) in *.
    clearbody w. apply map_eq. intros k.
    rewrite trie_map_lookup by done. cbv zeta. rewrite Hat. case_decide as Hk.
    + subst k. case_if; by rewrite ?lookup_insert_eq, ?lookup_delete_eq.
    + rewrite <- trie_map_lookup by done. case_if; by rewrite ?lookup_insert_ne, ?lookup_delete_ne.
Qed.
