(* ===== verification/TrieCodec.v ===== *)
(** The bytes of a trie: what [Serialize] writes, [Deserialize] and [IterateRaw] read. *)
From stdpp Require Import sorting.
From S2P Require Import Prelude GoLib Trie TrieSpec.
Open Scope Z_scope.
Open Scope bpf_scope.

#[local] Arguments PutUvarint : simpl never.
#[local] Arguments ReadUvarint : simpl never.
#[local] Arguments uN : simpl never.
#[local] Arguments sN : simpl never.

(** Lengths fit an [int] and values a [uint64]. *)
Inductive node_ok : trieNode -> Prop :=
| NodeOk n v cs :
    Z.of_nat (length n) < 2 ^ 63 -> is_u64 v -> Z.of_nat (length cs) < 2 ^ 63 ->
    Forall node_ok cs -> node_ok (TrieNode n v cs).

Lemma node_ok_values t : node_ok (root t) -> values_ok t.
Proof.
  unfold values_ok. generalize (root t). clear t. intros tn Hok key. revert key Hok.
  induction tn as [n v cs IH] using trieNode_nested_ind. intros key Hok.
  inversion Hok as [? ? ? _ Hv _ Hcs]; subst. destruct key as [|b key]; [done|]. cbn [val_at].
  clear Hok Hv. induction cs as [|c cs IHcs]; [done|]. cbn.
  apply Forall_cons in IH as [IHc IH]. apply Forall_cons in Hcs as [Hc Hcs].
  destruct (strip (tn_name c) (b :: key)); auto.
Qed.

(** * [Serialize] *)

Section Codec.
Context (sc : Z -> Z) (Hsc : forall v, is_u64 v -> is_u64 (sc v)).

(** The bytes of a node, with its values scaled, and the node that has these values. *)
Fixpoint node_bytes (tn : trieNode) : list Z :=
  let '(TrieNode n v cs) := tn in
  PutUvarint (Z.of_nat (length n)) ++ n ++ PutUvarint (sc v) ++
  PutUvarint (Z.of_nat (length cs)) ++ mjoin (node_bytes <$> cs).

Fixpoint map_values (tn : trieNode) : trieNode :=
  let '(TrieNode n v cs) := tn in TrieNode n (sc v) (map_values <$> cs).

Definition forest_bytes (cs : list trieNode) : list Z := mjoin (node_bytes <$> cs).

Lemma forest_bytes_cons c cs : forest_bytes (c :: cs) = node_bytes c ++ forest_bytes cs.
Proof. done. Qed.

Lemma forest_bytes_app cs1 cs2 : forest_bytes (cs1 ++ cs2) = forest_bytes cs1 ++ forest_bytes cs2.
Proof. unfold forest_bytes. by rewrite fmap_app, join_app. Qed.

Lemma serialize_loop_bytes t fuel nodes w :
  (forall v, scaled t v = Returned (sc v)) -> (sum_list_with tn_size nodes < fuel)%nat ->
  serialize_loop fuel t nodes w = Returned (w ++ forest_bytes nodes).
Proof.
  intros Ht. revert nodes w.
  induction fuel as [|fuel IH]; intros nodes w Hfuel; [lia|]. cbn [serialize_loop].
  destruct nodes as [|[n v cs] nodes]; [cbn; by rewrite app_nil_r|].
  cbn [tn_name tn_value tn_children]. rewrite Ht. cbn [go_bind]. rewrite IH.
  - rewrite forest_bytes_app, forest_bytes_cons. cbn [node_bytes]. by rewrite <- !app_assoc.
  - rewrite sum_list_with_app. cbn in Hfuel. lia.
Qed.

(** Every node takes three bytes. *)
Lemma node_bytes_size tn : (tn_size tn <= length (node_bytes tn))%nat.
Proof.
  induction tn as [n v cs IH] using trieNode_nested_ind. cbn [tn_size node_bytes]. rewrite !length_app.
  pose proof (PutUvarint_length (Z.of_nat (length n))).
  fold (forest_bytes cs). enough (sum_list_with tn_size cs <= length (forest_bytes cs))%nat by lia.
  clear -IH. induction IH as [|c cs Hc _ IH]; [done|].
  rewrite forest_bytes_cons, length_app. cbn [sum_list_with]. lia.
Qed.

Lemma forest_bytes_size cs : (sum_list_with tn_size cs <= length (forest_bytes cs))%nat.
Proof.
  induction cs as [|c cs IH]; [done|]. rewrite forest_bytes_cons, length_app.
  pose proof (node_bytes_size c). cbn [sum_list_with]. lia.
Qed.

(** * [Deserialize] *)

Lemma map_values_name c : tn_name (map_values c) = tn_name c.
Proof. by destruct c. Qed.

Lemma map_values_wf tn : node_wf tn -> node_wf (map_values tn).
Proof.
  induction tn as [n v cs IH] using trieNode_nested_ind. intros Hw. apply node_wf_kids in Hw.
  apply node_wf_kids. induction cs as [|c cs IHcs]; [done|].
  apply Forall_cons in IH as [IHc IH]. apply kids_ok_cons in Hw as (Hn & Hw & Hlt & Hcs).
  apply kids_ok_cons. rewrite map_values_name. split_and!; [done | auto | | auto].
  apply Forall_fmap. eapply Forall_impl; [exact Hlt|]. intros d. unfold first_byte. cbn.
  by rewrite !map_values_name.
Qed.

(** Children that are inserted in order are appended. *)
Lemma insert_last n v cs c :
  kids_ok (cs ++ [c]) -> insert (TrieNode n v cs) c = TrieNode n v (cs ++ [c]).
Proof.
  intros (Hcs & Hc & Hlt)%kids_ok_app. apply kids_ok_cons in Hc as (Hn & _).
  destruct (named_cons c Hn) as [l Hl].
  destruct (insert_shape n v cs c (first_byte c) l Hcs) as (cs1 & cs2 & -> & -> & _ & Hgt); [| done |].
  - intros d Hd. specialize (Hlt d c Hd ltac:(by left)). lia.
  - destruct cs2 as [|d cs2]; [by rewrite app_nil_r|].
    specialize (Hgt d ltac:(by left)). specialize (Hlt d c ltac:(set_solver) ltac:(by left)). lia.
Qed.

Lemma insert_all n v cs1 cs2 :
  kids_ok (cs1 ++ cs2) -> foldl insert (TrieNode n v cs1) cs2 = TrieNode n v (cs1 ++ cs2).
Proof.
  revert cs1. induction cs2 as [|c cs2 IH]; intros cs1 Hcs; [by rewrite app_nil_r|].
  rewrite (cons_middle c), app_assoc in Hcs |- *. cbn [foldl]. rewrite insert_last, IH; [done.. |].
  by apply (proj1 (kids_ok_app _ _)) in Hcs as [? _].
Qed.

Lemma read_nodes_forest fuel cs parent rest :
  (sum_list_with tn_size cs < fuel)%nat -> Forall node_ok cs -> Forall node_wf cs ->
  read_nodes fuel (Z.of_nat (length cs)) parent (forest_bytes cs ++ rest) =
    Returned (foldl insert parent (map_values <$> cs), rest).
Proof.
  revert cs parent rest. induction fuel as [|fuel IH]; intros cs parent rest Hfuel Hok Hw; [lia|].
  cbn [read_nodes]. destruct cs as [|[n v ks] cs]; [done|].
  apply Forall_cons in Hok as [Hk Hok]. apply Forall_cons in Hw as [Hkw Hw].
  inversion Hk as [? ? ? Hn Hv Hks Hkids]; subst. apply node_wf_kids in Hkw as Hkk.
  cbn [length]. rewrite (proj2 (Z.eqb_neq _ _)) by lia.
  rewrite forest_bytes_cons. cbn [node_bytes]. rewrite <- !app_assoc.
  rewrite ReadUvarint_Put by (split; lia). rewrite read_exactly_app by done. cbn [go_bind].
  rewrite read_varint_put by auto. cbn [go_bind]. rewrite read_varint_put by (split; lia). cbn [go_bind].
  cbn in Hfuel. fold (forest_bytes ks).
  rewrite IH; [| lia | done | apply Hkk]. cbn [go_bind].
  replace (Z.of_nat (S (length cs)) - 1) with (Z.of_nat (length cs)) by lia.
  rewrite IH by (done || lia). cbn [fmap list_fmap foldl map_values]. do 4 f_equal.
  apply (insert_all n (sc v) []). cbn. apply (node_wf_kids n (sc v)).
  change (node_wf (map_values (TrieNode n v ks))). by apply map_values_wf.
Qed.

Lemma Deserialize_bytes tn rest :
  node_ok tn -> node_wf tn ->
  Deserialize (node_bytes tn ++ rest) = Returned (New <| root := map_values tn |>).
Proof.
  intros Hok Hw. unfold Deserialize.
  replace (node_bytes tn ++ rest) with (forest_bytes [tn] ++ rest)
    by (unfold forest_bytes; cbn; by rewrite app_nil_r).
  change 1 with (Z.of_nat (length [tn])). rewrite read_nodes_forest; [done | | by repeat constructor..].
  pose proof (forest_bytes_size [tn]). rewrite length_app. lia.
Qed.

Lemma Serialize_bytes t :
  (forall v, scaled t v = Returned (sc v)) -> Serialize t = Returned (node_bytes (root t)).
Proof.
  intros Ht. unfold Serialize. rewrite (serialize_loop_bytes t _ [root t] []) by (done || cbn; lia).
  unfold forest_bytes. cbn. by rewrite app_nil_r.
Qed.

(** * [IterateRaw] *)

(** The calls of the callback: a value is converted to an [int]. *)
Definition raw_calls (prefix : list Z) (tn : trieNode) : list (list Z * Z) :=
  (fun e => (e.1, s64 e.2)) <$> entries prefix (map_values tn).

Lemma raw_calls_node prefix n v cs :
  raw_calls prefix (TrieNode n v cs) =
    (if 0 <? sc v then [(prefix ++ n, s64 (sc v))] else []) ++ mjoin (raw_calls (prefix ++ n) <$> cs).
Proof.
  unfold raw_calls. cbn [map_values entries]. rewrite fmap_app. f_equal; [by case_if|].
  induction cs as [|c cs IH]; [done|]. cbn [fmap list_fmap mjoin list_join] in *.
  rewrite fmap_app. by f_equal.
Qed.

Lemma truncate_app b n : truncate (b ++ n) (Z.of_nat (length n)) = Returned b.
Proof.
  unfold truncate. rewrite length_app, (proj2 (Z.ltb_ge _ _)) by lia.
  replace (Z.of_nat _ - Z.of_nat _) with (Z.of_nat (length b)) by lia.
  by rewrite Nat2Z.id, take_app_length.
Qed.

(** The rest of a run, after a node or a list of nodes whose innermost offset is now [o]. *)
Definition go_on fuel rest o parents b copied calls :=
  let* (offsets, b) := cut_parents o parents b in
  iterate_raw fuel rest b offsets copied calls.

(** A run over the bytes of a node, and of a list of nodes, calls back for their bindings. *)
Definition node_read (tn : trieNode) : Prop :=
  forall fuel rest b o parents copied calls,
    exists o' copied', suffixLen o' = suffixLen o /\ (parents <> [] -> o' = dec o) /\
      iterate_raw (tn_size tn + fuel) (node_bytes tn ++ rest) b (o :: parents) copied calls =
        go_on fuel rest o' parents b copied' (calls ++ raw_calls b tn).

Definition forest_read (cs : list trieNode) : Prop :=
  forall fuel rest b o parents copied calls,
    (parents <> [] -> descCount o = Z.of_nat (length cs)) ->
    exists o' copied', suffixLen o' = suffixLen o /\ (parents <> [] -> descCount o' = 0) /\
      iterate_raw (sum_list_with tn_size cs + fuel) (forest_bytes cs ++ rest) b (o :: parents) copied calls =
        go_on fuel rest o' parents b copied' (calls ++ mjoin (raw_calls b <$> cs)).

Lemma forest_read_nodes cs :
  cs <> [] -> Z.of_nat (length cs) < 2 ^ 63 -> Forall node_read cs -> forest_read cs.
Proof.
  intros Hne Hlen Hall. induction Hall as [|c cs Hc Hcs IH]; [done|]. clear Hne.
  intros fuel rest b o parents copied calls Ho.
  rewrite forest_bytes_cons, <- app_assoc. cbn [sum_list_with]. rewrite <- Nat.add_assoc.
  destruct (Hc (sum_list_with tn_size cs + fuel)%nat (forest_bytes cs ++ rest) b o parents copied calls)
    as (o1 & copied1 & Hs1 & Ho1 & ->).
  assert (Hd : parents <> [] -> descCount o1 = Z.of_nat (length cs)).
  { intros Hp. rewrite (Ho1 Hp). cbn. rewrite (Ho Hp). cbn [length] in *.
    rewrite sN_id by lia. lia. }
  destruct cs as [|c2 cs].
  { exists o1, copied1. split; [done|]. split; [done|]. cbn. by rewrite app_nil_r. }
  assert (Hgo : go_on (sum_list_with tn_size (c2 :: cs) + fuel) (forest_bytes (c2 :: cs) ++ rest) o1 parents
    b copied1 (calls ++ raw_calls b c) = iterate_raw (sum_list_with tn_size (c2 :: cs) + fuel)
    (forest_bytes (c2 :: cs) ++ rest) b (o1 :: parents) copied1 (calls ++ raw_calls b c)).
  { unfold go_on. destruct parents as [|p parents]; [done|]. cbn [cut_parents].
    rewrite Hd by done. by rewrite (proj2 (Z.eqb_neq _ _)) by (cbn; lia). }
  rewrite Hgo. destruct (IH ltac:(done) ltac:(cbn in *; lia) fuel rest b o1 parents copied1
    (calls ++ raw_calls b c) Hd) as (o2 & copied2 & Hs2 & Ho2 & ->).
  exists o2, copied2. split; [congruence|]. split; [done|]. cbn. by rewrite <- app_assoc.
Qed.

(** The three numbers of a node and its name. *)
Lemma iterate_raw_node fuel n v cs rest b offsets copied calls :
  node_ok (TrieNode n v cs) ->
  iterate_raw (S fuel) (node_bytes (TrieNode n v cs) ++ rest) b offsets copied calls =
    let copied := if (length n =? 0)%nat then copied else Z.of_nat (length n) in
    let calls := calls ++ (if 0 <? sc v then [(b ++ n, s64 (sc v))] else []) in
    let br := forest_bytes cs ++ rest in
    if (length cs =? 0)%nat then
      let* b := truncate (b ++ n) copied in
      match offsets with
      | [] => iterate_raw fuel br b [] copied calls
      | o :: parents => go_on fuel br (dec o) parents b copied calls
      end
    else
      iterate_raw fuel br (b ++ n)
        ({| descCount := Z.of_nat (length cs); suffixLen := copied |} :: offsets) copied calls.
Proof.
  inversion 1 as [? ? ? Hn Hv Hcs _]; subst. cbn [iterate_raw node_bytes]. rewrite <- !app_assoc.
  rewrite ReadUvarint_Put by (split; lia). rewrite sN_id by lia.
  fold (forest_bytes cs).
  set (br := PutUvarint (sc v) ++ _).
  replace (Z.to_nat (Z.min (Z.of_nat (length (n ++ br))) (Z.of_nat (length n)))) with (length n)
    by (rewrite length_app; lia).
  rewrite take_app_length, drop_app_length.
  replace (Z.of_nat (length n) =? 0) with (length n =? 0)%nat
    by (destruct n; done).
  assert (Hb : (if negb (length n =? 0)%nat then b ++ n else b) = b ++ n)
    by (destruct n; cbn; by rewrite ?app_nil_r).
  assert (Hbr : (if negb (length n =? 0)%nat then br else n ++ br) = br) by by destruct n.
  rewrite Hb, Hbr. unfold br. rewrite ReadUvarint_Put by auto. rewrite ReadUvarint_Put by (split; lia).
  rewrite sN_id by lia.
  replace (Z.of_nat (length cs) =? 0) with (length cs =? 0)%nat by (destruct cs; done).
  replace (if negb (length n =? 0)%nat then Z.of_nat (length n) else copied)
    with (if (length n =? 0)%nat then copied else Z.of_nat (length n)) by by destruct n.
  replace (if 0 <? sc v then calls ++ [(b ++ n, s64 (sc v))] else calls)
    with (calls ++ (if 0 <? sc v then [(b ++ n, s64 (sc v))] else [])) by (case_if; by rewrite ?app_nil_r).
  by destruct (length cs =? 0)%nat.
Qed.

Lemma node_reads tn : node_ok tn -> node_wf tn -> tn_name tn <> [] -> node_read tn.
Proof.
  induction tn as [n v cs IH] using trieNode_nested_ind. intros Hok Hw Hname.
  intros fuel rest b o parents copied calls. cbn [tn_size Nat.add]. rewrite iterate_raw_node by done.
  cbn [tn_name] in Hname. rewrite (proj2 (Nat.eqb_neq _ _)) by (by destruct n). cbv zeta.
  inversion Hok as [? ? ? Hn _ Hcs Hkids]; subst. apply node_wf_kids in Hw.
  rewrite raw_calls_node. destruct cs as [|c cs].
  { exists (dec o), (Z.of_nat (length n)). cbn. rewrite truncate_app. cbn. by rewrite app_nil_r. }
  set (ks := c :: cs) in *. rewrite (proj2 (Nat.eqb_neq (length ks) 0)) by done.
  assert (Hread : forest_read ks).
  { apply forest_read_nodes; [done | done |]. rewrite Forall_forall in *. intros d Hd.
    destruct Hw as [Hnames _ Hwf]. rewrite Forall_forall in Hnames, Hwf. by apply IH; auto. }
  edestruct Hread as (o' & copied' & Hs & Hd & ->); [done|]. specialize (Hd ltac:(done)).
  exists (match parents with [] => o | _ => dec o end), copied'.
  split; [by destruct parents|]. split; [by destruct parents|].
  unfold go_on at 1. cbn [cut_parents]. rewrite Hd, Hs. cbn [suffixLen Z.eqb negb].
  rewrite truncate_app. cbn [go_bind]. by rewrite app_assoc.
Qed.

Lemma IterateRaw_bytes tn :
  node_ok tn -> node_wf tn -> tn_name tn = [] ->
  IterateRaw (node_bytes tn) [] = Returned (raw_calls [] tn, None).
Proof.
  intros Hok Hw Hname. unfold IterateRaw. pose proof (node_bytes_size tn) as Hsize.
  rewrite <- (app_nil_r (node_bytes tn)) at 2. destruct tn as [n v cs]. cbn in Hname. subst n.
  rewrite iterate_raw_node, raw_calls_node by done. cbv zeta. rewrite app_nil_r.
  inversion Hok as [? ? ? _ _ Hcs Hkids]; subst. apply node_wf_kids in Hw as Hk.
  cbn [tn_size] in Hsize.
  destruct cs as [|c cs].
  { destruct (length (node_bytes _)); [lia|]. cbn. by rewrite app_nil_r. }
  set (ks := c :: cs) in *. rewrite (proj2 (Nat.eqb_neq (length ks) 0)) by done.
  assert (Hread : forest_read ks).
  { apply forest_read_nodes; [done | done |]. rewrite Forall_forall in *. intros d Hd.
    destruct Hk as [Hnames _ Hwf]. rewrite Forall_forall in Hnames, Hwf. apply node_reads; auto. }
  destruct (length (node_bytes _)) as [|m] eqn:Em; [lia|].
  replace (S m) with (sum_list_with tn_size ks + S (m - sum_list_with tn_size ks))%nat by lia.
  edestruct Hread as (o' & copied' & _ & _ & Hrun); [done|].
  rewrite app_nil_r in Hrun. rewrite app_nil_r. rewrite Hrun. by rewrite app_nil_l.
Qed.
End Codec.

(** * The round trip *)

(** What [Serialize] makes of a value. *)
Definition scale (t : Trie) (v : Z) : Z :=
  if (Divider t =? 1) && (Multiplier t =? 1) then v else u64 (v * u64 (Multiplier t)) / u64 (Divider t).

Lemma scaled_scale t v : u64 (Divider t) <> 0 -> scaled t v = Returned (scale t v).
Proof.
  intros Hd. unfold scaled, scale. rewrite (proj2 (Z.eqb_neq _ _) Hd).
  by destruct (Divider t =? 1), (Multiplier t =? 1).
Qed.

Lemma scale_u64 t v : u64 (Divider t) <> 0 -> is_u64 v -> is_u64 (scale t v).
Proof.
  intros Hd Hv. unfold scale. destruct (_ && _); [done|].
  pose proof (uN_range 64 ltac:(lia) (Divider t)) as [? _].
  pose proof (uN_range 64 ltac:(lia) (v * u64 (Multiplier t))) as [? ?].
  split; [apply Z.div_pos; lia|]. apply Z.div_lt_upper_bound; [lia|]. nia.
Qed.

Lemma scale_0 t : u64 (Divider t) <> 0 -> scale t 0 = 0.
Proof. intros Hd. unfold scale. destruct (_ && _); [done|]. by rewrite Z.mul_0_l, (uN_id 64 0). Qed.

Lemma val_at_map_values sc tn key :
  sc 0 = 0 -> val_at (map_values sc tn) key = sc (val_at tn key).
Proof.
  intros Hsc. revert key. induction tn as [n v cs IH] using trieNode_nested_ind. intros [|b key]; [done|].
  cbn [map_values val_at]. induction cs as [|c cs IHcs]; [done|]. apply Forall_cons in IH as [IHc IH].
  cbn [fmap list_fmap foldr]. rewrite IHcs, map_values_name by done.
  destruct (strip (tn_name c) (b :: key)); [apply IHc | done].
Qed.

Lemma map_values_id sc tn : (forall v, sc v = v) -> map_values sc tn = tn.
Proof.
  intros Hsc. induction tn as [n v cs IH] using trieNode_nested_ind. cbn [map_values]. rewrite Hsc.
  f_equal. induction IH as [|c cs Hc _ IH]; [done|]. cbn. by f_equal.
Qed.

(** C33: what [Serialize] writes for a trie whose divider is not 0, [Deserialize] reads as
    a trie with the same keys and the scaled values, whatever follows the bytes, and as
    the very same nodes when nothing is scaled; [IterateRaw] reads the same bytes without
    building a trie and calls back for exactly the bindings that [Iterate] of the
    deserialized trie lists, in the same order, each value converted to an [int]. *)
Theorem serialize_roundtrip t rest :
  trie_wf t -> node_ok (root t) -> u64 (Divider t) <> 0 ->
  exists bs t' l, Serialize t = Returned bs /\ Deserialize (bs ++ rest) = Returned t' /\ trie_wf t' /\
    (forall key, val_at (root t') key = scale t (val_at (root t) key)) /\
    (Multiplier t = 1 -> Divider t = 1 -> t' = t) /\
    Iterate t' = Returned l /\
    IterateRaw bs [] = Returned ((fun e => (e.1, s64 e.2)) <$> l, None).
Proof.
  intros [Hw Hname] Hok Hd.
  assert (Hu : forall v, is_u64 v -> is_u64 (scale t v)) by (intros; by apply scale_u64).
  assert (Hs : forall v, scaled t v = Returned (scale t v)) by (intros; by apply scaled_scale).
  eexists _, _, _. split; [by apply (Serialize_bytes (scale t))|].
  split; [by apply Deserialize_bytes|]. split_and!.
  - split; cbn; [by apply map_values_wf | by rewrite map_values_name].
  - intros key. apply val_at_map_values, scale_0, Hd.
  - intros H1 H2. destruct t as [m d r]. cbn in *. subst. cbn. f_equal.
    by apply map_values_id.
  - apply Iterate_bindings.
  - by rewrite (IterateRaw_bytes (scale t)).
Qed.

(** * A profile *)

(** Three stacks, two of which share a prefix, scaled by 10. *)
Definition sample_trie : Trie :=
  match (let* t := Insert New [97; 98; 99] 3 true in
         let* t := Insert t [97; 98; 100] 4 true in
         let* t := Insert t [97; 98; 99] 5 true in
         Insert t [120] 1 false) with
  | Returned t => t <| Multiplier := 10 |>
  | _ => New
  end.

Lemma sample_trie_wf : trie_wf sample_trie.
Proof. split; [|done]. vm_compute. repeat constructor; done. Qed.

Lemma sample_trie_node_ok : node_ok (root sample_trie).
Proof. vm_compute root. repeat constructor; done. Qed.

Lemma insert_is_map_update_witness :
  exists t' l, Insert sample_trie [97; 98] (2 ^ 64 - 1) true = Returned t' /\ trie_wf t' /\ values_ok t' /\
    Iterate t' = Returned l /\ StronglySorted key_lt l /\ list_to_map l = trie_map t' /\
    let w := u64 (default 0 (trie_map sample_trie !! [97; 98]) + (2 ^ 64 - 1)) in
    trie_map t' = if 0 <? w then <[[97; 98] := w]> (trie_map sample_trie)
                  else delete [97; 98] (trie_map sample_trie).
Proof.
  apply (insert_is_map_update sample_trie [97; 98] (2 ^ 64 - 1) true);
    [apply sample_trie_wf | apply node_ok_values, sample_trie_node_ok | done].
Defined.

Lemma serialize_roundtrip_witness :
  exists bs t' l, Serialize sample_trie = Returned bs /\ Deserialize (bs ++ [7]) = Returned t' /\ trie_wf t' /\
    (forall key, val_at (root t') key = scale sample_trie (val_at (root sample_trie) key)) /\
    (Multiplier sample_trie = 1 -> Divider sample_trie = 1 -> t' = sample_trie) /\
    Iterate t' = Returned l /\
    IterateRaw bs [] = Returned ((fun e => (e.1, s64 e.2)) <$> l, None).
Proof.
  apply (serialize_roundtrip sample_trie [7]); [apply sample_trie_wf | apply sample_trie_node_ok | done].
Defined.

(** A divider of 0 makes [Serialize] panic. *)
Example serialize_panics : Serialize (sample_trie <| Divider := 0 |>) = Panicked.
Proof. reflexivity. Qed.
