(* ===== verification/SpyEvent.v ===== *)
(** Events of the agent: pkg/core/model/spyevent.go and the names of const.go.

    The sessions fill in a [SpyEvent] for every record they read and the detectors
    read it back.  An event has a fixed array of attributes; strings that come from the
    kernel are lists of bytes, names are strings. *)
From Stdlib Require Export String.
From stdpp Require Export strings.
From S2P Require Import Prelude Layout GoLib.
Open Scope Z_scope.
Open Scope bpf_scope.

(** * Names *)

Module model.
#[local] Open Scope string_scope.

(** Exporters *)
Definition LOKI := "loki".
Definition SQLITE := "sqlite".
Definition DISK := "disk".

(** Events *)
Definition OffCpu := "offcpu".
Definition IrqOff := "irqoff".
Definition OnCpu := "oncpu".
Definition FutexSnoop := "futexsnoop".
Definition Syscall := "syscall".
Definition CacheStat := "cachestat".

(** Metrics *)
Definition OffCpuMetricName := "offcpu_dur_ms".
Definition FutexMaxUerCountName := "max_futex_user_cnt".
Definition CacheStatMetricName := "cachestat_read_size".
Definition OnCpuMetricName := "oncpu_hit_count".
Definition SyscallMetricName := "syscall_dur_us".

(** Labels *)
Definition Comm := "comm".
Definition Pid := "pid".
Definition Tid := "tid".
Definition StartTime := "start_ts".
Definition TimeStamp := "ts".
Definition Tid_W := "waker_tid".
Definition Pid_W := "waker_pid".
Definition Waker := "waker".
Definition Wakee := "wakee".
Definition Cpu := "cpu".
Definition Prio := "prio".
Definition CacheId := "cache_id".
Definition Pid_T := "wakee_pid".
Definition Tid_T := "wakee_tid".
Definition Stack_W := "waker_stack".
Definition CpuOffUs_T := "wakee_offcpu_us".
Definition RunqLatUs_T := "wakee_runqlat_us".
Definition Stack_T := "wakee_stack".
Definition RunqDurMs := "rq_dur_ms".
Definition UserCnt := "user_cnt".
Definition MaxUserCnt := "max_user_cnt".
Definition LockAddr := "lock_addr".
Definition MinDur := "min_dur".
Definition MaxDur := "max_dur".
Definition DeltaDur := "delta_dur".
Definition AvgDur := "avg_dur".
Definition LockCnt := "lock_cnt".
Definition Stack := "stack".
Definition DurMs := "dur_ms".
Definition DurUs := "dur_us".
Definition ReadSizeM := "read_size_m".
Definition WriteSizeM := "write_size_m".
Definition File := "file".
Definition Count := "count".
End model.

(** * Attributes *)

Inductive ValueType :=
| ValueType_NONE | ValueType_INT8 | ValueType_INT16 | ValueType_INT32 | ValueType_INT64
| ValueType_UINT8 | ValueType_UINT16 | ValueType_UINT32 | ValueType_UINT64
| ValueType_CHARBUF | ValueType_BYTEBUF | ValueType_FLOAT | ValueType_DOUBLE | ValueType_BOOL.

Record KeyValue := { Key : string; kv_type : ValueType; Value : list Z }.

(** The zero value. *)
Definition no_kv : KeyValue := {| Key := ""%string; kv_type := ValueType_NONE; Value := [] |}.

(** [GetByteOrder]: the byte order it returns.  [byte(int8(s))] is the low byte of [s]
    on every machine. *)
Inductive ByteOrder := LittleEndian | BigEndian.
Definition GetByteOrder : ByteOrder :=
  let s := 0x1234 in
  let littleVal := 0x34 in
  if littleVal =? u8 (sN 8 s) then LittleEndian else BigEndian.

(** [PutUint32], [PutUint64], and [Uint16], [Uint32], [Uint64], which panic when there
    are too few bytes. *)
Definition put_uint (o : ByteOrder) (n : nat) (v : Z) : list Z :=
  match o with LittleEndian => le_bytes n v | BigEndian => rev (le_bytes n v) end.
Definition get_uint (o : ByteOrder) (n : nat) (bs : list Z) : go_result Z :=
  if (length bs <? n)%nat then Panicked
  else Returned (match o with
                 | LittleEndian => le_value (take n bs)
                 | BigEndian => le_value (rev (take n bs))
                 end).

Definition uint_at := get_uint GetByteOrder.

(** [KeyValue.GetUintValue] and [KeyValue.GetIntValue] *)
Definition GetUintValue (kv : KeyValue) : go_result Z :=
  match kv_type kv with
  | ValueType_UINT8 => or_panic (Value kv !! 0%nat)
  | ValueType_UINT16 => uint_at 2 (Value kv)
  | ValueType_UINT32 => uint_at 4 (Value kv)
  | ValueType_UINT64 => uint_at 8 (Value kv)
  | _ => Returned 0
  end.
Definition GetIntValue (kv : KeyValue) : go_result Z :=
  match kv_type kv with
  | ValueType_INT8 => go_map (sN 8) (or_panic (Value kv !! 0%nat))
  | ValueType_INT16 => go_map (sN 16) (uint_at 2 (Value kv))
  | ValueType_INT32 => go_map s32 (uint_at 4 (Value kv))
  | ValueType_INT64 => go_map s64 (uint_at 8 (Value kv))
  | _ => Returned 0
  end.

(** * Events *)

Record TaskInfo := {
  task_Pid : Z; task_Tid : Z; task_Comm : list Z; ContainerId : list Z; ContainerName : list Z;
  NameSpace : list Z; task_Stack : list Z; Latency : Z
}.
Record ClassInfo := { class_Name : string; class_Event : string }.

Definition SpyEventFieldMax : nat := 20.

Record SpyEvent := {
  Name : string; TimeStamp : Z; Class_ : ClassInfo; Task : TaskInfo; ParamsCnt : Z;
  UserAttributes : list KeyValue
}.

#[export] Instance eta_TaskInfo : Eta TaskInfo := fun t => {|
  task_Pid := task_Pid t; task_Tid := task_Tid t; task_Comm := task_Comm t;
  ContainerId := ContainerId t; ContainerName := ContainerName t; NameSpace := NameSpace t;
  task_Stack := task_Stack t; Latency := Latency t |}.
#[export] Instance eta_ClassInfo : Eta ClassInfo := fun c => {|
  class_Name := class_Name c; class_Event := class_Event c |}.
#[export] Instance eta_SpyEvent : Eta SpyEvent := fun e => {|
  Name := Name e; TimeStamp := TimeStamp e; Class_ := Class_ e; Task := Task e;
  ParamsCnt := ParamsCnt e; UserAttributes := UserAttributes e |}.

(** [&model.SpyEvent{}] *)
Definition new_task : TaskInfo := {|
  task_Pid := 0; task_Tid := 0; task_Comm := []; ContainerId := []; ContainerName := [];
  NameSpace := []; task_Stack := []; Latency := 0 |}.
Definition new_event : SpyEvent := {|
  Name := ""%string; TimeStamp := 0; Class_ := {| class_Name := ""%string; class_Event := ""%string |};
  Task := new_task; ParamsCnt := 0; UserAttributes := replicate SpyEventFieldMax no_kv |}.

(** [SetUserAttribute]: the event, and whether the attribute was set; the callers drop
    the error. *)
Definition SetUserAttribute (s : SpyEvent) (kv : KeyValue) : SpyEvent * bool :=
  if Z.of_nat SpyEventFieldMax - 1 <? ParamsCnt s then (s, false)
  else
    (s <| UserAttributes := <[Z.to_nat (ParamsCnt s) := kv]> (UserAttributes s) |>
       <| ParamsCnt := u16 (ParamsCnt s + 1) |>, true).

Definition kv_uint32 (key : string) (value : Z) : KeyValue := {|
  Key := key; kv_type := ValueType_UINT32; Value := put_uint GetByteOrder 4 value |}.
Definition kv_uint64 (key : string) (value : Z) : KeyValue := {|
  Key := key; kv_type := ValueType_UINT64; Value := put_uint GetByteOrder 8 value |}.
Definition kv_bytes (key : string) (value : list Z) : KeyValue := {|
  Key := key; kv_type := ValueType_BYTEBUF; Value := value |}.

(** [SetUserAttributeWithUint32], ...WithInt32, ...WithByteBuf, ...WithUint64, ...WithInt64 *)
Definition SetUserAttributeWithUint32 (key : string) (value : Z) (s : SpyEvent) : SpyEvent :=
  (SetUserAttribute s (kv_uint32 key value)).1.
Definition SetUserAttributeWithInt32 (key : string) (value : Z) (s : SpyEvent) : SpyEvent :=
  (SetUserAttribute s {| Key := key; kv_type := ValueType_UINT32;
     Value := put_uint GetByteOrder 4 (u32 value) |}).1.
Definition SetUserAttributeWithByteBuf (key : string) (value : list Z) (s : SpyEvent) : SpyEvent :=
  (SetUserAttribute s (kv_bytes key value)).1.
Definition SetUserAttributeWithUint64 (key : string) (value : Z) (s : SpyEvent) : SpyEvent :=
  (SetUserAttribute s (kv_uint64 key value)).1.
Definition SetUserAttributeWithInt64 (key : string) (value : Z) (s : SpyEvent) : SpyEvent :=
  (SetUserAttribute s {| Key := key; kv_type := ValueType_INT64;
     Value := put_uint GetByteOrder 8 (u64 value) |}).1.

(** [GetUserAttribute]: the loop from index [id] on. *)
Fixpoint find_attribute (key : string) (cnt : Z) (kvs : list KeyValue) (id : Z) : option KeyValue :=
  match kvs with
  | [] => None
  | kv :: kvs =>
      if cnt <? id + 1 then None
      else if (Key kv =? key)%string then Some kv
      else find_attribute key cnt kvs (id + 1)
  end.
Definition GetUserAttribute (s : SpyEvent) (key : string) : option KeyValue :=
  if ParamsCnt s =? 0 then None else find_attribute key (ParamsCnt s) (UserAttributes s) 0.

(** [GetUintUserAttribute] and [GetIntUserAttribute] *)
Definition GetUintUserAttribute (s : SpyEvent) (key : string) : go_result Z :=
  match GetUserAttribute s key with Some kv => GetUintValue kv | None => Returned 0 end.
Definition GetIntUserAttribute (s : SpyEvent) (key : string) : go_result Z :=
  match GetUserAttribute s key with Some kv => GetIntValue kv | None => Returned 0 end.

(** A chain of setters. *)
Notation "x &> f" := (f x) (at level 61, left associativity, only parsing) : bpf_scope.

(** * What an event holds *)

Record event_wf (s : SpyEvent) : Prop := {
  wf_slots : length (UserAttributes s) = SpyEventFieldMax;
  wf_count : 0 <= ParamsCnt s <= Z.of_nat SpyEventFieldMax
}.

Definition attributes (s : SpyEvent) : list KeyValue := take (Z.to_nat (ParamsCnt s)) (UserAttributes s).

Lemma new_event_wf : event_wf new_event.
Proof. split; [done | cbn; lia]. Qed.

Lemma SetUserAttribute_attributes s kv :
  event_wf s ->
  event_wf (SetUserAttribute s kv).1 /\
  attributes (SetUserAttribute s kv).1 = take SpyEventFieldMax (attributes s ++ [kv]) /\
  (SetUserAttribute s kv).2 = bool_decide (ParamsCnt s < Z.of_nat SpyEventFieldMax).
Proof.
  intros [Hlen Hcnt]. unfold SetUserAttribute, attributes.
  destruct (Z.ltb_spec (Z.of_nat SpyEventFieldMax - 1) (ParamsCnt s)) as [Hfull | Hroom]; cbn [fst snd].
  - split; [by split|]. replace (ParamsCnt s) with (Z.of_nat SpyEventFieldMax) by lia.
    rewrite Nat2Z.id, bool_decide_eq_false_2 by lia. split; [|done].
    by rewrite take_app_le, take_take by (rewrite length_take; lia).
  - pose proof (eq_refl : Z.of_nat SpyEventFieldMax = 20) as H20.
    rewrite uN_id by (split; lia). rewrite bool_decide_eq_true_2 by lia.
    split; [|split; [|done]]; cbn [UserAttributes ParamsCnt].
    + split; cbn [UserAttributes ParamsCnt]; [by rewrite length_insert | lia].
    + replace (Z.to_nat (ParamsCnt s + 1)) with (S (Z.to_nat (ParamsCnt s))) by lia.
      rewrite (take_S_r _ _ kv) by (rewrite list_lookup_insert_eq; [done | lia]).
      rewrite take_insert_ge by lia. symmetry. apply take_ge.
      rewrite length_app, length_take. cbn [length]. lia.
Qed.

(** The event that the setters of [kvs] leave, one after the other. *)
Definition set_all (kvs : list KeyValue) (s : SpyEvent) : SpyEvent :=
  foldl (fun s kv => (SetUserAttribute s kv).1) s kvs.

Lemma set_all_attributes kvs s :
  event_wf s ->
  event_wf (set_all kvs s) /\ attributes (set_all kvs s) = take SpyEventFieldMax (attributes s ++ kvs).
Proof.
  revert s. induction kvs as [|kv kvs IH]; intros s Hs; cbn [set_all foldl].
  - split; [done|]. rewrite app_nil_r, take_ge; [done|]. unfold attributes. rewrite length_take.
    destruct Hs. lia.
  - destruct (SetUserAttribute_attributes s kv Hs) as (Hs' & Ha & _).
    destruct (IH _ Hs') as [Hwf Hall]. split; [done|]. fold (set_all kvs (SetUserAttribute s kv).1).
    rewrite Hall, Ha, (cons_middle kv (attributes s) kvs), app_assoc.
    set (l := attributes s ++ [kv]). clearbody l. rewrite !take_app, take_take, length_take.
    rewrite Nat.min_id. f_equal.
    by replace (SpyEventFieldMax - SpyEventFieldMax `min` length l)%nat with (SpyEventFieldMax - length l)%nat by lia.
Qed.

(** [GetUserAttribute] finds the first attribute with the key. *)
Fixpoint first_with (key : string) (kvs : list KeyValue) : option KeyValue :=
  match kvs with
  | [] => None
  | kv :: kvs => if (Key kv =? key)%string then Some kv else first_with key kvs
  end.

Lemma find_attribute_first key cnt kvs id :
  0 <= id -> find_attribute key cnt kvs id = first_with key (take (Z.to_nat (cnt - id)) kvs).
Proof.
  revert id. induction kvs as [|kv kvs IH]; intros id Hid; cbn [find_attribute].
  { by rewrite take_nil. }
  destruct (Z.ltb_spec cnt (id + 1)) as [Hend | Hgo].
  { by replace (Z.to_nat (cnt - id)) with 0%nat by lia. }
  replace (Z.to_nat (cnt - id)) with (S (Z.to_nat (cnt - (id + 1)))) by lia. cbn [take first_with].
  destruct (Key kv =? key)%string; [done|]. apply IH. lia.
Qed.

Lemma GetUserAttribute_first s key :
  event_wf s -> GetUserAttribute s key = first_with key (attributes s).
Proof.
  intros [_ Hcnt]. unfold GetUserAttribute, attributes. destruct (Z.eqb_spec (ParamsCnt s) 0) as [-> |].
  - done.
  - rewrite find_attribute_first by lia. by rewrite Z.sub_0_r.
Qed.

(** * Values come back *)

Lemma uint_at_put n v :
  0 <= v < 2 ^ (8 * Z.of_nat n) -> uint_at n (put_uint GetByteOrder n v) = Returned v.
Proof.
  intros Hv. change (put_uint GetByteOrder n v) with (le_bytes n v). unfold uint_at, get_uint.
  change GetByteOrder with LittleEndian. rewrite length_le_bytes, Nat.ltb_irrefl.
  rewrite take_ge by (rewrite length_le_bytes; lia). by rewrite le_value_bytes.
Qed.

Lemma GetUint_uint32 key v : is_u32 v -> GetUintValue (kv_uint32 key v) = Returned v.
Proof. apply (uint_at_put 4). Qed.
Lemma GetUint_uint64 key v : is_u64 v -> GetUintValue (kv_uint64 key v) = Returned v.
Proof. apply (uint_at_put 8). Qed.
Lemma GetUint_bytes key bs : GetUintValue (kv_bytes key bs) = Returned 0.
Proof. done. Qed.

(** An attribute that a detector can read without panicking. *)
Definition kv_ok (kv : KeyValue) : Prop :=
  match kv_type kv with
  | ValueType_UINT8 | ValueType_INT8 => (1 <= length (Value kv))%nat
  | ValueType_UINT16 | ValueType_INT16 => (2 <= length (Value kv))%nat
  | ValueType_UINT32 | ValueType_INT32 => (4 <= length (Value kv))%nat
  | ValueType_UINT64 | ValueType_INT64 => (8 <= length (Value kv))%nat
  | _ => True
  end.

Lemma uint_at_long n bs : (n <= length bs)%nat -> exists v, uint_at n bs = Returned v.
Proof.
  intros H. unfold uint_at, get_uint. rewrite (proj2 (Nat.ltb_ge _ _)) by done. eauto.
Qed.

Lemma GetUintValue_returns kv : kv_ok kv -> exists v, GetUintValue kv = Returned v.
Proof.
  unfold kv_ok, GetUintValue. destruct (kv_type kv); eauto using uint_at_long.
  intros H. destruct (Value kv) as [|b bs]; [cbn in H; lia|]. by exists b.
Qed.

Lemma kv_ok_made key v bs : kv_ok (kv_uint32 key v) /\ kv_ok (kv_uint64 key v) /\ kv_ok (kv_bytes key bs).
Proof.
  unfold kv_ok. cbn [kv_type Value kv_uint32 kv_uint64 kv_bytes]. unfold put_uint.
  change GetByteOrder with LittleEndian. cbv iota. rewrite !length_le_bytes. done.
Qed.

(** An event that no detector panics on. *)
Definition event_ok (e : SpyEvent) : Prop := event_wf e /\ Forall kv_ok (attributes e).

(** C34: attributes: however many are set on a new event, exactly the first twenty are kept,
    in order, the others being dropped without the caller noticing; a key is looked up
    among those and the first attribute with it is found, so that setting a key twice does
    not change it; unsigned values come back as they were set, but an [int32] is stored
    as if it were unsigned, so that [GetIntUserAttribute] gives 0 for it, whatever it is. *)
Theorem attributes_kept kvs key :
  let e := set_all kvs new_event in
  attributes e = take SpyEventFieldMax kvs /\
  GetUserAttribute e key = first_with key (take SpyEventFieldMax kvs) /\
  (forall s v w, event_wf s -> ParamsCnt s < 20 -> first_with key (attributes s) = None -> is_u32 v ->
     GetUintUserAttribute (SetUserAttributeWithUint32 key v s) key = Returned v /\
     GetUintUserAttribute (SetUserAttributeWithUint64 key v s) key = Returned v /\
     GetIntUserAttribute (SetUserAttributeWithInt32 key w s) key = Returned 0).
Proof.
  cbv zeta. destruct (set_all_attributes kvs new_event new_event_wf) as [Hwf Ha].
  rewrite GetUserAttribute_first, Ha by done. split; [done|]. split; [done|].
  intros s v w Hs Hroom Hnew Hv.
  assert (Hget : forall kv, Key kv = key -> GetUserAttribute (SetUserAttribute s kv).1 key = Some kv).
  { intros kv Hk. destruct (SetUserAttribute_attributes s kv Hs) as (Hs' & Ha' & _).
    rewrite GetUserAttribute_first, Ha' by done.
    pose proof (eq_refl : Z.of_nat SpyEventFieldMax = 20) as H20.
    rewrite take_ge by (unfold attributes; rewrite length_app, length_take; cbn; lia).
    revert Hnew. generalize (attributes s). intros l.
    induction l as [|a l IH]; cbn [app first_with]; [by rewrite Hk, String.eqb_refl|].
    destruct (Key a =? key)%string; [done | apply IH]. }
  unfold GetUintUserAttribute, GetIntUserAttribute.
  unfold SetUserAttributeWithUint32, SetUserAttributeWithUint64, SetUserAttributeWithInt32.
  rewrite !Hget by done. split; [by apply GetUint_uint32|]. split; [|done].
  apply GetUint_uint64. by apply (uN_mono 32 64).
Qed.

(** Twenty-one attributes, and an [int32] that is -7. *)
Definition many_kvs : list KeyValue :=
  (fun i => kv_uint32 (if (i =? 3)%nat then "x" else "y") (Z.of_nat i)) <$> seq 0 21.

Lemma attributes_kept_witness :
  attributes (set_all many_kvs new_event) = take SpyEventFieldMax many_kvs /\
  GetUserAttribute (set_all many_kvs new_event) "x" = Some (kv_uint32 "x" 3) /\
  GetUintUserAttribute (SetUserAttributeWithUint32 "x" 5 new_event) "x" = Returned 5 /\
  GetIntUserAttribute (SetUserAttributeWithInt32 "x" (-7) new_event) "x" = Returned 0.
Proof.
  destruct (attributes_kept many_kvs "x") as (Hall & Hget & Hvals).
  split; [exact Hall|]. split; [rewrite Hget; vm_compute; reflexivity|].
  destruct (Hvals new_event 5 (-7)) as (H1 & _ & H3);
    [apply new_event_wf | reflexivity | reflexivity | split; lia | split; [exact H1 | exact H3]].
Defined.
