(* ===== verification/DataBlock.v ===== *)
(** What the agent exports: pkg/core/model/attribute_map.go, metric.go and data_block.go.

    A block has a name, metrics, labels and a time stamp.  The values of an
    [AttributeMap] are pointers, but only [Merge], the [UpdateAdd] functions and the
    [Reset] functions, which the agent does not call, write through them: here a value
    is in the map itself. *)
From S2P Require Import Prelude GoLib SpyEvent.
Open Scope Z_scope.
Open Scope bpf_scope.

Inductive AttributeValue :=
| stringValue (value : list Z)
| intValue (value : Z)
| boolValue (value : bool).

Abbreviation AttributeMap := (gmap string AttributeValue).

Definition NewAttributeMap : AttributeMap := ∅.

(** [AddStringValue], [AddIntValue], [AddBoolValue], [RemoveAttribute] *)
Definition AddStringValue (key : string) (value : list Z) (a : AttributeMap) : AttributeMap :=
  <[key := stringValue value]> a.
Definition AddIntValue (key : string) (value : Z) (a : AttributeMap) : AttributeMap :=
  <[key := intValue value]> a.
Definition AddBoolValue (key : string) (value : bool) (a : AttributeMap) : AttributeMap :=
  <[key := boolValue value]> a.
Definition RemoveAttribute (key : string) (a : AttributeMap) : AttributeMap := delete key a.

(** [GetStringValue], [GetIntValue], [GetBoolValue], [HasAttribute], [Size], [IsEmpty] *)
Definition GetStringValue (a : AttributeMap) (key : string) : list Z :=
  match a !! key with Some (stringValue v) => v | _ => [] end.
Definition GetIntLabel (a : AttributeMap) (key : string) : Z :=
  match a !! key with Some (intValue v) => v | _ => 0 end.
Definition GetBoolValue (a : AttributeMap) (key : string) : bool :=
  match a !! key with Some (boolValue v) => v | _ => false end.
Definition HasAttribute (a : AttributeMap) (key : string) : bool := bool_decide (is_Some (a !! key)).
Definition Size (a : AttributeMap) : nat := size a.
Definition IsEmpty (a : AttributeMap) : bool := (Size a =? 0)%nat.

Record Histogram := {
  hist_Sum : Z; hist_Count : Z; ExplicitBoundaries : list Z; BucketCounts : list Z
}.
Inductive isMetricData := IntData (value : Z) | HistogramData (h : Histogram).
Record Metric := { metric_Name : string; Data : isMetricData }.

(** [NewIntMetric] *)
Definition NewIntMetric (name : string) (value : Z) : Metric :=
  {| metric_Name := name; Data := IntData value |}.

Record DataBlock := {
  block_Name : string; Metrics : list Metric; Labels : AttributeMap; Timestamp : Z
}.

(** [NewDataBlock] *)
Definition NewDataBlock (name : string) (labels : AttributeMap) (timestamp : Z) (values : list Metric)
    : DataBlock :=
  {| block_Name := name; Metrics := values; Labels := labels; Timestamp := timestamp |}.
