(* ===== verification/Exporters.v ===== *)
(** The exporters that collect blocks in batches: pkg/component/exporter/sqlite and loki.

    The SQLite exporter makes a row of every block, the Loki exporter a line of JSON; both
    put it into a channel that a goroutine of their own empties into a batch, which it
    writes when it has grown or when time is up. *)
From S2P Require Import Prelude SpyEvent DataBlock.
From stdpp Require Import relations.
Open Scope Z_scope.
Open Scope bpf_scope.

(** * Rows: table.go *)

Record OFFCPU := {
  WakerPid : Z; WakerTid : Z; WakerComm : list Z; WakerStack : list Z; WakeePid : Z; WakeeTid : Z;
  WakeeComm : list Z; WakeeStack : list Z; WakeeOffCpuTs : list Z; row_DurMs : Z; row_RunqDurMs : Z;
  row_Cpu : Z; row_CacheId : Z; row_Prio : Z
}.
Record ONCPU := { on_Comm : list Z; on_Pid : Z; on_Tid : Z; on_Stack : list Z; on_Count : Z }.
Record SYSCALL := {
  sys_Comm : list Z; sys_Pid : Z; sys_Tid : Z; sys_Stack : list Z; sys_DurUs : Z; sys_Syscall : list Z
}.
Record FUTEXSNOOP := {
  fx_Comm : list Z; fx_Pid : Z; fx_Tid : Z; fx_Stack : list Z; fx_UserCnt : Z; fx_MaxUserCnt : Z;
  fx_LockAddr : Z; MinDurUS : Z; MaxDurUs : Z; AvgDurUs : Z; DeltaDurUs : Z; fx_LockCnt : Z
}.
Record CACHESTAT := {
  cs_Comm : list Z; cs_Pid : Z; cs_Cpu : Z; cs_ReadSizeM : Z; cs_WriteSizeM : Z; cs_Cnt : Z; cs_File : list Z
}.

Inductive Item :=
| OffCpuItem (r : OFFCPU)
| OnCpuItem (r : ONCPU)
| SyscallItem (r : SYSCALL)
| FutexSnoopItem (r : FUTEXSNOOP)
| CacheStatItem (r : CACHESTAT).

(** [TableName] *)
Definition TableName (i : Item) : string :=
  match i with
  | OffCpuItem _ => "OFFCPU"
  | OnCpuItem _ => "ONCPU"
  | SyscallItem _ => "SYSCALL"
  | FutexSnoopItem _ => "FUTEXSNOOP"
  | CacheStatItem _ => "CACHESTAT"
  end.

(** * [SqliteExporter.Consume] *)

(** A label as a [uint32]. *)
Definition label_u32 (d : DataBlock) (key : string) : Z := u32 (GetIntLabel (Labels d) key).
Definition label_string (d : DataBlock) (key : string) : list Z := GetStringValue (Labels d) key.

Definition offcpu_row (data : DataBlock) : OFFCPU := {|
  WakerPid := label_u32 data model.Tid_W;
  WakerTid := label_u32 data model.Pid_W;
  WakerComm := label_string data model.Waker;
  WakerStack := label_string data model.Stack_W;
  WakeePid := label_u32 data model.Pid_W;
  WakeeTid := label_u32 data model.Tid_W;
  WakeeComm := label_string data model.Wakee;
  WakeeStack := label_string data model.Stack_T;
  WakeeOffCpuTs := label_string data model.StartTime;
  row_DurMs := label_u32 data model.DurMs;
  row_RunqDurMs := label_u32 data model.RunqDurMs;
  row_Cpu := label_u32 data model.Cpu;
  row_CacheId := label_u32 data model.CacheId;
  row_Prio := label_u32 data model.Prio |}.

Definition oncpu_row (data : DataBlock) : ONCPU := {|
  on_Comm := label_string data model.Comm;
  on_Pid := label_u32 data model.Pid;
  on_Tid := label_u32 data model.Tid;
  on_Stack := label_string data model.Stack;
  on_Count := label_u32 data model.Count |}.

Definition syscall_row (data : DataBlock) : SYSCALL := {|
  sys_Comm := label_string data model.Comm;
  sys_Pid := label_u32 data model.Pid;
  sys_Tid := label_u32 data model.Tid;
  sys_Stack := label_string data model.Stack;
  sys_DurUs := label_u32 data model.DurUs;
  sys_Syscall := label_string data model.Syscall |}.

Definition futexsnoop_row (data : DataBlock) : FUTEXSNOOP := {|
  fx_Comm := label_string data model.Comm;
  fx_Pid := label_u32 data model.Pid;
  fx_Tid := label_u32 data model.Tid;
  fx_Stack := label_string data model.Stack;
  fx_UserCnt := label_u32 data model.UserCnt;
  fx_MaxUserCnt := label_u32 data model.MaxUserCnt;
  fx_LockAddr := GetIntLabel (Labels data) model.LockAddr;
  MinDurUS := label_u32 data model.MinDur;
  MaxDurUs := label_u32 data model.MaxDur;
  AvgDurUs := label_u32 data model.AvgDur;
  DeltaDurUs := label_u32 data model.DeltaDur;
  fx_LockCnt := label_u32 data model.LockCnt |}.

Definition cachestat_row (data : DataBlock) : CACHESTAT := {|
  cs_Comm := label_string data model.Comm;
  cs_Pid := label_u32 data model.Pid;
  cs_Cpu := label_u32 data model.Cpu;
  cs_ReadSizeM := label_u32 data model.ReadSizeM;
  cs_WriteSizeM := label_u32 data model.WriteSizeM;
  cs_Cnt := 0;
  cs_File := label_string data model.File |}.

(** What [Consume] puts into the channel: [None] is a nil item. *)
Definition row_of (data : DataBlock) : option Item :=
  if (block_Name data =? model.OffCpu)%string then Some (OffCpuItem (offcpu_row data))
  else if (block_Name data =? model.OnCpu)%string then Some (OnCpuItem (oncpu_row data))
  else if (block_Name data =? model.Syscall)%string then Some (SyscallItem (syscall_row data))
  else if (block_Name data =? model.FutexSnoop)%string then Some (FutexSnoopItem (futexsnoop_row data))
  else if (block_Name data =? model.CacheStat)%string then Some (CacheStatItem (cachestat_row data))
  else None.

(** [Flush]: the inserts that are made, table by table; an empty one is not made. *)
Definition tables : list string := ["OFFCPU"; "ONCPU"; "SYSCALL"; "CACHESTAT"; "FUTEXSNOOP"]%string.
Definition Flush (batch : list Item) : list (string * list Item) :=
  filter (fun tb => tb.2 <> [])
    ((fun table => (table, filter (fun i => TableName i = table) batch)) <$> tables).

(** * The loop [Run] *)

Section Batcher.
(** The capacity of the channel, BatchEntriesNum, and whether the loop returns when it
    sees [quit] closed: the Loki exporter's does, the SQLite exporter's goes on. *)
Context {A : Type} (chan_size BatchEntriesNum : nat) (returns_on_quit : bool).

(** [flushed] are the batches that [Flush] was called with. *)
Record batcher := {
  datas : list A; batch : list A; size : nat; flushed : list (list A); quit : bool; returned : bool
}.

Definition new_batcher : batcher := {|
  datas := []; batch := []; size := 0; flushed := []; quit := false; returned := false |}.

(** One turn of [select] that receives [data]. *)
Definition receive (data : A) (rest : list A) (b : batcher) : batcher :=
  let batch := batch b ++ [data] in
  let size := S (size b) in
  if (BatchEntriesNum <? size)%nat
  then {| datas := rest; batch := []; size := 0; flushed := flushed b ++ [batch];
          quit := quit b; returned := returned b |}
  else {| datas := rest; batch := batch; size := size; flushed := flushed b;
          quit := quit b; returned := returned b |}.

(** One turn when the timer [maxWait] has fired, and the deferred function when the loop
    returns: a batch that is not empty is written. *)
Definition flush_rest (b : batcher) : list (list A) :=
  if (0 <? size b)%nat then flushed b ++ [batch b] else flushed b.
Definition time_up (b : batcher) : batcher :=
  if (0 <? size b)%nat
  then {| datas := datas b; batch := []; size := 0; flushed := flush_rest b; quit := quit b;
          returned := returned b |}
  else b.
Definition leave (b : batcher) : batcher := {|
  datas := datas b; batch := batch b; size := size b; flushed := flush_rest b; quit := quit b;
  returned := true |}.

(** What can happen, labelled by the item that is sent, which waits while the channel is
    full; [ShutDown] closes [quit]; the loop, until it has returned, takes one of the
    cases that are ready. *)
Inductive batcher_step : batcher -> option A -> batcher -> Prop :=
| SendStep b data :
    (length (datas b) < chan_size)%nat ->
    batcher_step b (Some data)
      {| datas := datas b ++ [data]; batch := batch b; size := size b; flushed := flushed b;
         quit := quit b; returned := returned b |}
| ShutDownStep b :
    quit b = false ->
    batcher_step b None
      {| datas := datas b; batch := batch b; size := size b; flushed := flushed b;
         quit := true; returned := returned b |}
| ReceiveStep b data rest :
    returned b = false -> datas b = data :: rest -> batcher_step b None (receive data rest b)
| TimerStep b : returned b = false -> batcher_step b None (time_up b)
| QuitStep b :
    returned b = false -> quit b = true ->
    batcher_step b None (if returns_on_quit then leave b else b).

(** A run, with the items that were sent. *)
Inductive batcher_runs : batcher -> list A -> batcher -> Prop :=
| RunsNil b : batcher_runs b [] b
| RunsStep b sent b1 o b2 :
    batcher_runs b sent b1 -> batcher_step b1 o b2 -> batcher_runs b (sent ++ option_list o) b2.
End Batcher.
Arguments batcher : clear implicits.
