(* ===== verification/ExportersSpec.v ===== *)
(** What is written of what was sent: properties of [Exporters]. *)
From S2P Require Import Prelude SpyEvent DataBlock Exporters.
Open Scope Z_scope.
Open Scope bpf_scope.

Lemma join_last {A} (ls : list (list A)) l : mjoin (ls ++ [l]) = mjoin ls ++ l.
Proof. rewrite join_app. cbn. by rewrite app_nil_r. Qed.

Section Batcher.
Context {A : Type} (chan_size BatchEntriesNum : nat) (returns_on_quit : bool).
Implicit Types b : batcher A.

(** What was written, is in the batch, and waits in the channel. *)
Definition content b : list A :=
  mjoin (flushed b) ++ (if returned b then [] else batch b) ++ datas b.

Record batcher_ok (sent : list A) b : Prop := {
  bo_content : content b = sent;
  bo_size : size b = length (batch b);
  bo_batch : (length (batch b) <= BatchEntriesNum)%nat;
  bo_chan : (length (datas b) <= chan_size)%nat;
  bo_flushed : Forall (fun f => 0 < length f <= S BatchEntriesNum)%nat (flushed b);
  bo_returned : returned b = true -> returns_on_quit = true /\ quit b = true
}.

Lemma flush_rest_content b : size b = length (batch b) -> mjoin (flush_rest b) = mjoin (flushed b) ++ batch b.
Proof.
  intros Hs. unfold flush_rest. rewrite Hs. destruct (batch b) as [|a l]; cbn; [by rewrite app_nil_r|].
  by rewrite join_last.
Qed.

Lemma flush_rest_sizes b :
  size b = length (batch b) -> (length (batch b) <= BatchEntriesNum)%nat ->
  Forall (fun f => 0 < length f <= S BatchEntriesNum)%nat (flushed b) ->
  Forall (fun f => 0 < length f <= S BatchEntriesNum)%nat (flush_rest b).
Proof.
  intros Hs Hb Hf. unfold flush_rest. destruct (Nat.ltb_spec 0 (size b)); [|done].
  apply Forall_app. split; [done|]. apply Forall_singleton. lia.
Qed.

Lemma receive_ok sent b data rest :
  batcher_ok sent b -> returned b = false -> datas b = data :: rest ->
  batcher_ok sent (receive BatchEntriesNum data rest b).
Proof.
  intros [Hc Hs Hb Hd Hf Hr] Hret Hdatas. unfold receive. unfold content in Hc. rewrite Hret, Hdatas in *.
  destruct (Nat.ltb_spec BatchEntriesNum (S (size b))) as [Hbig | Hsmall];
    split; unfold content; cbn [flushed batch size datas quit returned length] in *; rewrite ?Hret; try done; try lia.
  - by rewrite join_last, <- Hc, <- !app_assoc.
  - apply Forall_app. split; [done|]. apply Forall_singleton. rewrite length_app. cbn. lia.
  - by rewrite <- Hc, <- !app_assoc.
  - rewrite length_app. cbn. lia.
  - rewrite length_app. cbn. lia.
Qed.

Lemma batcher_step_ok sent b o b' :
  batcher_ok sent b -> batcher_step chan_size BatchEntriesNum returns_on_quit b o b' ->
  batcher_ok (sent ++ option_list o) b'.
Proof.
  intros Hok Hstep. destruct Hstep as [b data Hroom | b Hq | b data rest Hret Hd | b Hret | b Hret Hq];
    cbn [option_list]; rewrite ?app_nil_r.
  - destruct Hok as [Hc Hs Hb Hd Hf Hr].
    split; unfold content; cbn [flushed batch size datas quit returned]; try done.
    + unfold content in Hc. by rewrite <- Hc, <- !app_assoc.
    + rewrite length_app. cbn. lia.
  - destruct Hok as [Hc Hs Hb Hd Hf Hr]. split; try done. intros H. by split; [apply Hr|].
  - by apply receive_ok.
  - pose proof (flush_rest_sizes b (bo_size _ _ Hok) (bo_batch _ _ Hok) (bo_flushed _ _ Hok)) as Hfr.
    pose proof (flush_rest_content b (bo_size _ _ Hok)) as Hj.
    unfold time_up. destruct (0 <? size b)%nat; [|done]. destruct Hok as [Hc Hs Hb Hd Hf Hr].
    split; unfold content; cbn [flushed batch size datas quit returned length]; try done; try lia.
    unfold content in Hc. rewrite Hret in *. by rewrite Hj, <- Hc, <- app_assoc.
  - destruct returns_on_quit eqn:Er; [|done].
    pose proof (flush_rest_sizes b (bo_size _ _ Hok) (bo_batch _ _ Hok) (bo_flushed _ _ Hok)) as Hfr.
    pose proof (flush_rest_content b (bo_size _ _ Hok)) as Hj. destruct Hok as [Hc Hs Hb Hd Hf Hr].
    split; unfold content, leave; cbn [flushed batch size datas quit returned]; try done.
    unfold content in Hc. rewrite Hret in Hc. by rewrite Hj, <- Hc, <- app_assoc.
Qed.

Lemma batcher_runs_ok sent b :
  batcher_runs chan_size BatchEntriesNum returns_on_quit new_batcher sent b -> batcher_ok sent b.
Proof.
  intros Hrun. remember new_batcher as b0 eqn:Hb0. induction Hrun as [b | b sent b1 o b2 Hrun IH Hstep]; subst.
  - split; try done; cbn; lia.
  - eapply batcher_step_ok; [by apply IH | done].
Qed.

(** C35: the exporters write what they were sent, in order and nothing twice: at any time
    the batches that were written, then the batch that is being filled, then what waits in
    the channel are exactly what was sent; no batch is empty or has more than one item
    over the limit.  A Loki exporter that is shut down writes its batch and loses what
    waits in the channel.  The loop of the SQLite exporter never returns, so that its
    [ShutDown], which waits for that, never does either. *)
Theorem batches_keep_order sent b :
  batcher_runs chan_size BatchEntriesNum returns_on_quit new_batcher sent b ->
  mjoin (flushed b) ++ (if returned b then [] else batch b) ++ datas b = sent /\
  Forall (fun f => 0 < length f <= S BatchEntriesNum)%nat (flushed b) /\
  (returned b = false -> quit b = true -> returns_on_quit = true -> exists b',
     batcher_step chan_size BatchEntriesNum returns_on_quit b None b' /\ returned b' = true /\
     mjoin (flushed b') ++ datas b' = sent) /\
  (returns_on_quit = false -> returned b = false).
Proof.
  intros Hrun. pose proof (batcher_runs_ok _ _ Hrun) as Hok. split; [apply Hok|]. split; [apply Hok|]. split.
  - intros Hret Hq Hr. exists (leave b).
    assert (Hstep : batcher_step chan_size BatchEntriesNum returns_on_quit b None (leave b)).
    { pose proof (QuitStep chan_size BatchEntriesNum returns_on_quit b Hret Hq) as H.
      rewrite Hr in H |- *. exact H. }
    split; [done|]. split; [done|].
    pose proof (batcher_step_ok _ _ _ _ Hok Hstep) as [Hc _ _ _ _ _]. cbn in Hc. by rewrite app_nil_r in Hc.
  - intros Hr. destruct (returned b) eqn:E; [|done]. destruct (bo_returned _ _ Hok E). congruence.
Qed.
End Batcher.

(** * The inserts of a batch *)

(** Every row goes into its own table, and none is left out or written twice. *)
Lemma Flush_rows (batch : list Item) :
  Forall (fun tb => Forall (fun i => TableName i = tb.1) tb.2 /\ tb.2 <> []) (Flush batch) /\
  mjoin (Flush batch).*2 ≡ₚ batch.
Proof.
  split.
  - apply Forall_forall. intros [t rows] Hin. apply list_elem_of_filter in Hin as [Hne Hin].
    apply list_elem_of_fmap in Hin as (table & [= -> ->] & _). split; [|done].
    apply Forall_forall. intros i Hi. cbn in *. by apply list_elem_of_filter in Hi as [-> _].
  - assert (Hnil : forall l : list (string * list Item),
      mjoin (filter (fun tb => tb.2 <> []) l).*2 = mjoin l.*2).
    { induction l as [|[t [|r rows]] l IH]; [done | |].
      - by rewrite filter_cons_False by (cbn; naive_solver).
      - rewrite filter_cons_True by done. exact (f_equal (app (r :: rows)) IH). }
    unfold Flush. rewrite Hnil. rewrite <- list_fmap_compose.
    induction batch as [|i batch IH]; [done|]. etrans; [|by apply Permutation_skip, IH].
    destruct i; cbn; repeat (case_decide; try done); cbn [app]; rewrite <- ?Permutation_middle; reflexivity.
Qed.

(** * A SQLite exporter with a limit of one item *)

Lemma sqlite_run : exists b,
  batcher_runs 5000 1 false new_batcher [1; 2; 3]%nat b /\ flushed b = [[1; 2]]%nat /\ datas b = [3]%nat /\
  quit b = true.
Proof.
  pose proof (RunsNil (A := nat) 5000 1 false new_batcher) as H0.
  pose proof (fun Hr => RunsStep _ _ _ _ _ _ _ _ H0 (SendStep 5000 1 false _ 1%nat Hr)) as H1.
  specialize (H1 ltac:(cbn; lia)).
  pose proof (fun Hr => RunsStep _ _ _ _ _ _ _ _ H1 (SendStep 5000 1 false _ 2%nat Hr)) as H2.
  specialize (H2 ltac:(cbn; lia)).
  pose proof (fun Hr => RunsStep _ _ _ _ _ _ _ _ H2 (SendStep 5000 1 false _ 3%nat Hr)) as H3.
  specialize (H3 ltac:(cbn; lia)).
  pose proof (fun Hq => RunsStep _ _ _ _ _ _ _ _ H3 (ShutDownStep 5000 1 false _ Hq)) as H4.
  specialize (H4 eq_refl).
  pose proof (fun Hr Hd => RunsStep _ _ _ _ _ _ _ _ H4 (ReceiveStep 5000 1 false _ 1%nat [2; 3]%nat Hr Hd)) as H5.
  specialize (H5 eq_refl eq_refl).
  pose proof (fun Hr Hd => RunsStep _ _ _ _ _ _ _ _ H5 (ReceiveStep 5000 1 false _ 2%nat [3]%nat Hr Hd)) as H6.
  specialize (H6 eq_refl eq_refl).
  eexists. split; [exact H6 | done].
Qed.

Lemma batches_keep_order_witness : exists b : batcher nat,
  mjoin (flushed b) ++ (if returned b then [] else batch b) ++ datas b = [1; 2; 3]%nat /\
  quit b = true /\ returned b = false.
Proof.
  destruct sqlite_run as (b & Hrun & _ & _ & Hq). exists b.
  destruct (batches_keep_order 5000 1 false [1; 2; 3]%nat b Hrun) as (H & _ & _ & Hret).
  split; [exact H|]. split; [exact Hq | exact (Hret eq_refl)].
Defined.
