(* ===== verification/Detectors.v ===== *)
(** The detectors, the manager that routes events to them, and the processor behind
    them: pkg/component/detector, pkg/component/receiver/receiver.go (sendToConsumers)
    and pkg/component/processor/processor.go (Consume).

    A detector turns an event into a block of labels and metrics; the CPU detector also
    collects the stacks of the on-CPU profiler in tries that it uploads.  The host's
    boot time and its way to print a time are parameters. *)
From S2P Require Import Prelude GoLib Trie SpyEvent DataBlock.
Open Scope Z_scope.
Open Scope bpf_scope.

(** [strings.Replace(s, "\u0000", "", -1)] *)
Definition drop_zeros (bs : list Z) : list Z := filter (fun b => b <> 0) bs.

Definition MaxInt64 : Z := 2 ^ 63 - 1.

(** [util.BootOffsetToTime], as nanoseconds of Unix time. *)
Definition BootOffsetToTime (bootTimeOffset nsec : Z) : Z :=
  s64 (bootTimeOffset + (if MaxInt64 <? nsec then MaxInt64 else nsec)).

(** [for i := 0; i < int(e.ParamsCnt); i++]: [n] attributes are left, the next is [i]. *)
Fixpoint attributes_loop {A} (body : KeyValue -> A -> go_result A) (e : SpyEvent) (n i : nat) (a : A)
    : go_result A :=
  match n with
  | O => Returned a
  | S n =>
      let* userAttributes := or_panic (UserAttributes e !! i) in
      let* a := body userAttributes a in
      attributes_loop body e n (S i) a
  end.
Definition for_attributes {A} (body : KeyValue -> A -> go_result A) (e : SpyEvent) (a : A) : go_result A :=
  attributes_loop body e (Z.to_nat (ParamsCnt e)) 0 a.

(** A label that is an attribute's unsigned value, or what [f] makes of it; a label that
    is its bytes. *)
Definition int_label (label : string) (f : Z -> Z) (kv : KeyValue) (labels : AttributeMap)
    : go_result AttributeMap :=
  let* v := GetUintValue kv in Returned (AddIntValue label (s64 (f v)) labels).
Definition string_label (label : string) (f : list Z -> list Z) (kv : KeyValue) (labels : AttributeMap)
    : go_result AttributeMap :=
  Returned (AddStringValue label (f (Value kv)) labels).

(** A switch on the key of the attribute. *)
Fixpoint label_switch (cases : list (string * (KeyValue -> AttributeMap -> go_result AttributeMap)))
    (kv : KeyValue) (labels : AttributeMap) : go_result AttributeMap :=
  match cases with
  | [] => Returned labels
  | (key, f) :: cases => if (Key kv =? key)%string then f kv labels else label_switch cases kv labels
  end.

(** The labels of the task that three tools add. *)
Definition task_labels (e : SpyEvent) (labels : AttributeMap) : AttributeMap :=
  labels &> AddIntValue model.Pid (s64 (task_Pid (Task e)))
         &> AddIntValue model.Tid (s64 (task_Tid (Task e)))
         &> AddStringValue model.Comm (drop_zeros (task_Comm (Task e))).

(** * Labels *)

Section Format.
Context (bootTimeOffset : Z) (Format : Z -> list Z).

(** A time stamp since boot, printed. *)
Definition time_label (label : string) (kv : KeyValue) (labels : AttributeMap) : go_result AttributeMap :=
  let* v := GetUintValue kv in
  Returned (AddStringValue label (Format (BootOffsetToTime bootTimeOffset v)) labels).

(** [formatSyscallLabels] *)
Definition formatSyscallLabels (e : SpyEvent) : go_result AttributeMap :=
  let* labels := for_attributes (label_switch [
    ("dur_us", int_label model.DurUs id);
    ("syscall", string_label model.Syscall id);
    ("stack", string_label model.Stack id)])%string e NewAttributeMap in
  Returned (task_labels e labels).

(** [formatFutexSnoopLabels] *)
Definition formatFutexSnoopLabels (e : SpyEvent) : go_result AttributeMap :=
  let* labels := for_attributes (label_switch [
    ("user_cnt", int_label model.UserCnt id);
    ("max_user_cnt", int_label model.MaxUserCnt id);
    ("lock_addr", int_label model.LockAddr id);
    ("min_dur", int_label model.MinDur id);
    ("max_dur", int_label model.MaxDur id);
    ("delta_dur", int_label model.DeltaDur id);
    ("avg_dur", int_label model.AvgDur id);
    ("lock_cnt", int_label model.LockCnt id);
    ("stack", string_label model.Stack id)])%string e NewAttributeMap in
  Returned (task_labels e labels).

(** [formatOffcpuLabels] *)
Definition formatOffcpuLabels (e : SpyEvent) : go_result AttributeMap :=
  for_attributes (label_switch [
    ("t_start_time", time_label model.StartTime);
    ("cpu", int_label model.Cpu id);
    ("prio", int_label model.Prio id);
    ("cache_id", int_label model.CacheId id);
    ("ts", time_label model.TimeStamp);
    ("dur_ms", int_label model.DurMs id);
    ("rq_dur_ms", int_label model.RunqDurMs id);
    ("w_comm", string_label model.Waker drop_zeros);
    ("w_tid", int_label model.Tid_W id);
    ("w_pid", int_label model.Pid_W id);
    ("w_stack", string_label model.Stack_W id);
    ("t_comm", string_label model.Wakee drop_zeros);
    ("t_tid", int_label model.Tid_T id);
    ("t_pid", int_label model.Pid_T id);
    ("t_stack", string_label model.Stack_T id);
    ("t_onrq_oncpu", int_label model.RunqLatUs_T (fun v => v / 1000));
    ("t_offcpu_oncpu", int_label model.CpuOffUs_T (fun v => v / 1000))])%string e NewAttributeMap.

(** [formatCacheStat] *)
Definition formatCacheStat (e : SpyEvent) : go_result AttributeMap :=
  for_attributes (label_switch [
    ("read_size_m", int_label model.ReadSizeM id);
    ("write_size_m", int_label model.WriteSizeM id);
    ("pid", int_label model.Pid id);
    ("cpu", int_label model.Cpu id);
    ("cnt", int_label model.Count id);
    ("comm", string_label model.Comm id);
    ("file", string_label model.File id)])%string e NewAttributeMap.

(** * Handlers *)

(** A block with the labels and one metric. *)
Definition one_metric (name metric : string) (labels : AttributeMap) (e : SpyEvent) (val : Z) : DataBlock :=
  NewDataBlock name labels (TimeStamp e) [NewIntMetric metric (s64 val)].

(** [futexsnoopHandler], [syscallHandler], [offcpuHandler], and [cachestatHandler] of the
    memory detector *)
Definition futexsnoopHandler (e : SpyEvent) : go_result DataBlock :=
  let* labels := formatFutexSnoopLabels e in
  let* val := GetUintUserAttribute e "max_user_cnt" in
  Returned (one_metric model.FutexSnoop model.FutexMaxUerCountName labels e val).
Definition syscallHandler (e : SpyEvent) : go_result DataBlock :=
  let* labels := formatSyscallLabels e in
  let* val := GetUintUserAttribute e "dur_us" in
  Returned (one_metric model.Syscall model.SyscallMetricName labels e val).
Definition offcpuHandler (e : SpyEvent) : go_result DataBlock :=
  let* labels := formatOffcpuLabels e in
  let* val := GetUintUserAttribute e "dur_ms" in
  Returned (one_metric model.OffCpu model.OffCpuMetricName labels e val).
Definition cachestatHandler (e : SpyEvent) : go_result DataBlock :=
  let* labels := formatCacheStat e in
  let* val := GetUintUserAttribute e "write_size" in
  Returned (one_metric model.CacheStat model.CacheStatMetricName labels e val).

(** * The CPU detector *)

Definition DefaultServer : string := "http://localhost:4040".

Record UploadJob := { StartTime : Z; EndTime : Z; SampleRate : Z; job_Trie : Trie }.

(** The upstream counts as its start; [uploads] are the jobs that [Upload] was called
    with, [ticking] whether [UploadWithTicker] was started. *)
Record CpuDetector := {
  Server : string; tries : gmap string (list (option Trie)); previousTries : gmap string (list (option Trie));
  sampleRate : Z; upstream : bool; startTimeTruncated : option Z; ticking : bool; uploads : list UploadJob
}.

#[export] Instance eta_CpuDetector : Eta CpuDetector := fun c => {|
  Server := Server c; tries := tries c; previousTries := previousTries c; sampleRate := sampleRate c;
  upstream := upstream c; startTimeTruncated := startTimeTruncated c; ticking := ticking c;
  uploads := uploads c |}.

(** 10 seconds *)
Definition uploadRate : Z := 10 * 1000000000.

(** [initializeTries] *)
Definition initializeTries (appName : string) (c : CpuDetector) : CpuDetector :=
  match previousTries c !! appName with
  | Some _ => c
  | None =>
      c <| previousTries := <[appName := [None]]> (previousTries c) |>
        <| tries := <[appName := [Some New]]> (tries c) |>
  end.

(** [NewCpuDetector] *)
Definition NewCpuDetector : CpuDetector :=
  initializeTries model.OnCpu {|
    Server := ""; tries := ∅; previousTries := ∅; sampleRate := 0; upstream := false;
    startTimeTruncated := None; ticking := false; uploads := [] |}.

(** What [Init] is called with: the configuration of the profiler, with its server, or
    that of another tool. *)
Inductive tool_config := ONCPU (server : string) | OtherTool.

(** [Init]; [remote_ok] says whether [remote.New] takes the address. *)
Definition Init (remote_ok : string -> bool) (cfg : tool_config) (c : CpuDetector) : CpuDetector * bool :=
  match cfg with
  | OtherTool => (c, true)
  | ONCPU server =>
      let c := c <| Server := server |> in
      if negb (server =? DefaultServer)%string then (c, true)
      else if negb (remote_ok server) then (c, false)
      else (c <| upstream := true |> <| ticking := true |>, true)
  end.

(** [Stop]: the upstream of a detector that has none is a nil interface. *)
Definition Stop (c : CpuDetector) : go_result CpuDetector :=
  if upstream c then Returned (c <| upstream := false |>) else Panicked.

(** The callback of [ProcessEvent]: the stack is inserted into the trie of the event. *)
Definition collect (appName : string) (stack : list Z) (v : Z) (c : CpuDetector) : go_result CpuDetector :=
  if (0 <? length stack)%nat then
    let c := match tries c !! appName with Some _ => c | None => initializeTries appName c end in
    let* t := or_panic (default [] (tries c !! appName) !! 0%nat) in
    let* t := or_panic t in
    let* t := Trie.Insert t stack v true in
    Returned (c <| tries := <[appName := <[0%nat := Some t]> (default [] (tries c !! appName))]> (tries c) |>)
  else Returned c.

(** The attributes that [oncpuHandler] reads. *)
Record oncpu_attributes := { oa_count : Z; oa_stack : list Z; oa_rate : Z; oa_labels : AttributeMap }.

#[export] Instance eta_oncpu_attributes : Eta oncpu_attributes := fun a => {|
  oa_count := oa_count a; oa_stack := oa_stack a; oa_rate := oa_rate a; oa_labels := oa_labels a |}.

Definition oncpu_attribute (kv : KeyValue) (a : oncpu_attributes) : go_result oncpu_attributes :=
  if (Key kv =? "count")%string then
    let* count := GetUintValue kv in
    Returned (a <| oa_count := count |> <| oa_labels := AddIntValue model.Count (s64 count) (oa_labels a) |>)
  else if (Key kv =? "stack")%string then
    Returned (a <| oa_stack := Value kv |> <| oa_labels := AddStringValue model.Stack (Value kv) (oa_labels a) |>)
  else if (Key kv =? "sampleRate")%string then
    let* rate := GetUintValue kv in Returned (a <| oa_rate := u32 rate |>)
  else Returned a.

(** [oncpuHandler] *)
Definition oncpuHandler (e : SpyEvent) (c : CpuDetector) : go_result (CpuDetector * option DataBlock) :=
  let* a := for_attributes oncpu_attribute e
    {| oa_count := 0; oa_stack := []; oa_rate := sampleRate c; oa_labels := NewAttributeMap |} in
  let c := c <| sampleRate := oa_rate a |> in
  if negb (Server c =? DefaultServer)%string then
    let* c := collect (Name e) (oa_stack a) (oa_count a) c in Returned (c, None)
  else
    Returned (c, Some (one_metric model.OnCpu model.OnCpuMetricName
      (task_labels e (oa_labels a)) e (oa_count a))).

(** [CpuDetector.ProcessEvent], up to the block that goes to the consumers;
    [irqoffHandler] makes none. *)
Definition cpu_ProcessEvent (e : SpyEvent) (c : CpuDetector) : go_result (CpuDetector * option DataBlock) :=
  let made (b : go_result DataBlock) := let* b := b in Returned (c, Some b) in
  if (Name e =? model.OffCpu)%string then made (offcpuHandler e)
  else if (Name e =? model.OnCpu)%string then oncpuHandler e c
  else if (Name e =? model.IrqOff)%string then Returned (c, None)
  else if (Name e =? model.FutexSnoop)%string then made (futexsnoopHandler e)
  else if (Name e =? model.Syscall)%string then made (syscallHandler e)
  else Returned (c, None).

(** [UploadTries]: the jobs of one list of tries, and the list that replaces it. *)
Definition upload_job (c : CpuDetector) (endTime : Z) (t : Trie) : UploadJob := {|
  StartTime := endTime - uploadRate; EndTime := endTime; SampleRate := sampleRate c; job_Trie := t |}.
Definition upload_jobs (c : CpuDetector) (endTime : Z) (tarr : list (option Trie)) : list UploadJob :=
  upload_job c endTime <$> filter (fun t => Trie.IsEmpty t = false) (omap id tarr).
Definition new_tries (tarr : list (option Trie)) : list (option Trie) :=
  fmap (M := list) (fmap (M := option) (fun _ => New)) tarr.
Definition UploadTries (endTimeTruncated : Z) (c : CpuDetector) : CpuDetector :=
  let c :=
    match startTimeTruncated c with
    | None => c
    | Some _ =>
        c <| uploads := uploads c ++ mjoin (upload_jobs c endTimeTruncated <$> (map_to_list (tries c)).*2) |>
          <| tries := fmap (M := gmap string) new_tries (tries c) |>
    end in
  c <| startTimeTruncated := Some endTimeTruncated |>.

(** * The memory detector *)

(** [MemDetector.ProcessEvent] *)
Definition mem_ProcessEvent (e : SpyEvent) : go_result (option DataBlock) :=
  if (Name e =? model.CacheStat)%string then let* b := cachestatHandler e in Returned (Some b)
  else Returned None.
End Format.

(** * Routing *)

Inductive detector := DetectorCpu | DetectorIo | DetectorNet | DetectorMem.

#[export] Instance detector_eq_dec : EqDecision detector.
Proof. solve_decision. Defined.

(** [OwnedEvents] *)
Definition OwnedEvents (d : detector) : list string :=
  match d with
  | DetectorCpu => [model.OffCpu; model.IrqOff; model.OnCpu; model.FutexSnoop; model.Syscall]
  | DetectorIo => []
  | DetectorNet => []
  | DetectorMem => [model.CacheStat]
  end.

(** [NewDetectorManager]: the map from events to detectors.  No detectors are an error. *)
Definition own_event (d : detector) (m : gmap string (list detector)) (event : string)
    : gmap string (list detector) :=
  <[event := default [] (m !! event) ++ [d]]> m.
Definition NewDetectorManager (detectors : list detector) : option (gmap string (list detector)) :=
  if (length detectors =? 0)%nat then None
  else Some (foldl (fun m d => foldl (own_event d) m (OwnedEvents d)) ∅ detectors).

(** [GetDetectors] *)
Definition GetDetectors (m : gmap string (list detector)) (name : string) : list detector :=
  default [] (m !! name).

(** The detectors of [createPipeline]. *)
Definition agent_detectors : list detector := [DetectorCpu; DetectorIo; DetectorNet; DetectorMem].

(** * The processor *)

(** [DefaultProcessor.Consume]: the blocks that go to the exporter. *)
Definition Consume (data : DataBlock) : list DataBlock :=
  if decide (block_Name data ∈ [model.OffCpu; model.Syscall; model.FutexSnoop; model.OnCpu; model.CacheStat])
  then [data] else [].
