(* ===== verification/Symtab.v ===== *)
(** Symbol tables and the printing of stacks: pkg/symtab.

    Addresses of a Go program are looked up in its own function table, all others with
    the C library bcc, whose answers are a parameter here, and so is what debug/elf and
    debug/gosym read from a program's file.  The tables of the processes are kept in a
    cache that evicts some of them when it is full. *)
From S2P Require Import Prelude Layout GoLib SpyEvent.
Open Scope Z_scope.
Open Scope bpf_scope.

(** The bytes of a string. *)
Definition bytes_of (s : string) : list Z := (fun a => Z.of_N (Ascii.N_of_ascii a)) <$> String.list_ascii_of_string s.

(** * simple.go *)

Record SimpleSymbolTableEntry := { Entry : Z; End_ : Z; entry_Name : list Z }.
Record SimpleSymbolTable := { symbols : list SimpleSymbolTableEntry; base : Z }.

(** [NewSimpleSymbolTable] and [Rebase] *)
Definition NewSimpleSymbolTable (symbols : list SimpleSymbolTableEntry) : SimpleSymbolTable :=
  {| symbols := symbols; base := 0 |}.
Definition Rebase (t : SimpleSymbolTable) (base : Z) : SimpleSymbolTable :=
  {| symbols := symbols t; base := base |}.

(** [SimpleSymbolTable.Resolve] *)
Definition simple_Resolve (t : SimpleSymbolTable) (addr : Z) : list Z :=
  match head (symbols t), last (symbols t) with
  | Some first, Some final =>
      let addr := u64 (addr - base t) in
      if (addr <? Entry first) || (End_ final <? addr) then []
      else
        let i := Search (length (symbols t)) (fun i =>
          match symbols t !! i with Some s => addr <? End_ s | None => false end) in
        match symbols t !! i with
        | Some s => entry_Name s
        | None => []
        end
  | _, _ => []
  end.

(** * gosym.go *)

(** [parseRuntimeTextFromPclntab18] *)
Definition parseRuntimeTextFromPclntab18 (pclntab : list Z) : Z :=
  if (length pclntab <? 64)%nat then 0
  else if le_value (take 4 pclntab) =? 0xFFFFFFF0 then le_value (take 8 (drop 24 pclntab))
  else 0.

(** Where [NewGoSymbolTable] takes the text to start, from the address and the size of
    the section .text; [None] is an error. *)
Definition text_start (pclntab : list Z) (text_Addr text_Size : Z) : option Z :=
  let textStart := parseRuntimeTextFromPclntab18 pclntab in
  let textStart := if textStart =? 0 then text_Addr else textStart in
  if (textStart <? text_Addr) || (u64 (text_Addr + text_Size) <=? textStart) then None
  else Some textStart.

Record Symbol := { sym_Name : list Z; sym_Module : list Z; sym_Offset : Z }.

(** What a C function of bcc leaves in a [bcc_symbol], with its result. *)
Record bcc_symbol := {
  bcc_res : Z; bcc_name : list Z; bcc_demangle_name : list Z; bcc_module : list Z; bcc_offset : Z
}.

(** A table: of a Go program, with its file's name, or of bcc. *)
Inductive SymbolTable := GoSymbolTable (file : list Z) (tab : SimpleSymbolTable) | BCCSymTable.

Record symbolCacheEntry := { symbolTable : SymbolTable; roundNumber : Z }.
Abbreviation SymbolCache := (gmap Z symbolCacheEntry).

Record SymSession := { SymCache : SymbolCache; RoundNumber : Z }.

(** [NewSymSession] *)
Definition NewSymSession : SymSession := {| SymCache := ∅; RoundNumber := 10 |}.

(** ["%x"] *)
Fixpoint hex_digits (fuel : nat) (v : Z) (acc : list Z) : list Z :=
  match fuel with
  | O => acc
  | S fuel =>
      let d := v mod 16 in
      let acc := (if d <? 10 then 48 + d else 87 + d) :: acc in
      if v / 16 =? 0 then acc else hex_digits fuel (v / 16) acc
  end.
Definition hex (v : Z) : list Z := hex_digits 16 v [].

Section Symbols.
(** bcc_symcache_resolve, and bcc_symcache_resolve_no_demangle for the kernel, by process,
    address and whether to look for changes of the process's maps. *)
Context (bcc_symcache_resolve : Z -> Z -> bool -> bcc_symbol).
(** The functions in the file of a process: [None] when [NewGoSymbolTable] fails. *)
Context (go_functions : Z -> option (list Z * list SimpleSymbolTableEntry)).
(** What is left of the cache when an entry was added for a process: simplelru removes
    others when it is full, never the one that was added. *)
Context (evict : Z -> SymbolCache -> SymbolCache).

(** [BCCSymTable.Resolve] *)
Definition bcc_Resolve (pid addr : Z) (refresh : bool) : Symbol :=
  let symbol := bcc_symcache_resolve pid addr refresh in
  if bcc_res symbol <? 0 then
    if 0 <? bcc_offset symbol
    then {| sym_Name := []; sym_Module := bcc_module symbol; sym_Offset := bcc_offset symbol |}
    else {| sym_Name := []; sym_Module := []; sym_Offset := addr |}
  else if pid =? 0
  then {| sym_Name := bcc_name symbol; sym_Module := bcc_module symbol; sym_Offset := bcc_offset symbol |}
  else {| sym_Name := bcc_demangle_name symbol; sym_Module := bcc_module symbol;
          sym_Offset := bcc_offset symbol |}.

(** [Resolve] of a table; that of a Go program falls back on bcc. *)
Definition table_Resolve (pid : Z) (t : SymbolTable) (addr : Z) (refresh : bool) : Symbol :=
  match t with
  | BCCSymTable => bcc_Resolve pid addr refresh
  | GoSymbolTable file tab =>
      let sym := simple_Resolve tab addr in
      if negb (length sym =? 0)%nat then {| sym_Name := sym; sym_Module := file; sym_Offset := addr |}
      else bcc_Resolve pid addr refresh
  end.

(** [GetOrCreateCacheEntry] *)
Definition GetOrCreateCacheEntry (pid : Z) (sc : SymbolCache) : symbolCacheEntry * SymbolCache :=
  match sc !! pid with
  | Some e => (e, sc)
  | None =>
      let e := {|
        symbolTable := match go_functions pid with
                       | Some (file, es) => GoSymbolTable file (NewSimpleSymbolTable es)
                       | None => BCCSymTable
                       end;
        roundNumber := 0 |} in
      (e, evict pid (<[pid := e]> sc))
  end.

(** [BccResolve]: the entry is changed in the cache. *)
Definition BccResolve (pid addr round : Z) (sc : SymbolCache) : Symbol * SymbolCache :=
  let '(e, sc) := GetOrCreateCacheEntry pid sc in
  let staleCheck := negb (round =? roundNumber e) in
  let e := if staleCheck then {| symbolTable := symbolTable e; roundNumber := round |} else e in
  (table_Resolve pid (symbolTable e) addr staleCheck, <[pid := e]> sc).

(** * symbol.go *)

(** The name that is printed for a symbol. *)
Definition frame_name (sym : Symbol) : list Z :=
  if negb (length (sym_Name sym) =? 0)%nat then sym_Name sym
  else if negb (length (sym_Module sym) =? 0)%nat
  then sym_Module sym ++ bytes_of "+0x" ++ hex (sym_Offset sym)
  else bytes_of "[unknown]".

(** [WalkStack]: the loop from frame [i] on, [n] frames being left of the 127; the
    slice of a stack that is too short panics.  [reverse] is [rev]. *)
Fixpoint walk_frames (n i : nat) (stack : list Z) (pid : Z) (userspace : bool) (s : SymSession)
    (stackFrames : list (list Z)) : go_result (list (list Z) * SymSession) :=
  match n with
  | O => Returned (stackFrames, s)
  | S n =>
      if (length stack <? i * 8 + 8)%nat then Panicked else
      let ip := le_value (take 8 (drop (i * 8) stack)) in
      if ip =? 0 then Returned (stackFrames, s) else
      let '(sym, sc) := BccResolve pid ip (RoundNumber s) (SymCache s) in
      let s := {| SymCache := sc; RoundNumber := RoundNumber s |} in
      let stackFrames :=
        if negb userspace && (length (sym_Name sym) =? 0)%nat then stackFrames
        else stackFrames ++ [frame_name sym ++ bytes_of ";"] in
      walk_frames n (S i) stack pid userspace s stackFrames
  end.
Definition WalkStack (line stack : list Z) (pid : Z) (userspace : bool) (s : SymSession)
    : go_result (list Z * SymSession) :=
  if (length stack =? 0)%nat then Returned (line, s)
  else
    let* (stackFrames, s) := walk_frames 127 0 stack pid userspace s [] in
    Returned (line ++ mjoin (rev stackFrames), s).
End Symbols.
