(* ===== verification/SymtabSpec.v ===== *)
(** Which name an address gets, and how a stack is printed: properties of [Symtab]. *)
From S2P Require Import Prelude Layout GoLib SpyEvent Symtab.
Open Scope Z_scope.
Open Scope bpf_scope.

#[local] Arguments Search : simpl never.

(** * Tables *)

(** Functions in the order of their addresses, without overlaps. *)
Record table_ok (es : list SimpleSymbolTableEntry) : Prop := {
  entries_wide : Forall (fun s => Entry s < End_ s) es;
  entries_apart : forall i j s t, (i < j)%nat -> es !! i = Some s -> es !! j = Some t -> End_ s <= Entry t
}.

(** The first function that ends after the address. *)
Fixpoint first_ending_after (es : list SimpleSymbolTableEntry) (a : Z) : option SimpleSymbolTableEntry :=
  match es with
  | [] => None
  | s :: es => if a <? End_ s then Some s else first_ending_after es a
  end.

Lemma first_ending_after_index es a :
  exists r, (r <= length es)%nat /\ first_ending_after es a = es !! r /\
    (forall k s, (k < r)%nat -> es !! k = Some s -> End_ s <= a) /\
    (forall s, es !! r = Some s -> a < End_ s).
Proof.
  induction es as [|s es (r & Hr & Heq & Hlo & Hhi)]; cbn [first_ending_after].
  { exists 0%nat. split_and!; [done | done | lia | done]. }
  destruct (Z.ltb_spec a (End_ s)).
  - exists 0%nat. split_and!; [cbn; lia | done | lia |]. by intros t [= <-].
  - exists (S r). split_and!; [cbn; lia | done | | done].
    intros [|k] t Hk Ht; [by injection Ht as <- | eapply Hlo; [|done]; lia].
Qed.

Lemma table_ends es i j s t :
  table_ok es -> (i <= j)%nat -> es !! i = Some s -> es !! j = Some t -> End_ s <= End_ t.
Proof.
  intros [Hw Ha] Hij Hi Hj. destruct (decide (i = j)) as [-> |]; [by simplify_eq|].
  pose proof (Ha i j s t ltac:(lia) Hi Hj). rewrite Forall_lookup in Hw. pose proof (Hw j t Hj). cbn in *. lia.
Qed.

(** The binary search finds what a search from the beginning finds. *)
Lemma simple_Resolve_linear t addr first :
  table_ok (symbols t) -> head (symbols t) = Some first ->
  let a := u64 (addr - base t) in
  simple_Resolve t addr =
    if a <? Entry first then []
    else match first_ending_after (symbols t) a with Some s => entry_Name s | None => [] end.
Proof.
  intros Hok Hfirst a. unfold simple_Resolve. rewrite Hfirst. fold a.
  destruct (last (symbols t)) as [final|] eqn:Hlast.
  2: { apply last_None in Hlast. by rewrite Hlast in Hfirst. }
  destruct (Z.ltb_spec a (Entry first)) as [| Hge]; [done|]. cbn [orb].
  destruct (first_ending_after_index (symbols t) a) as (r & Hr & -> & Hlo & Hhi).
  rewrite last_lookup in Hlast.
  destruct (Z.ltb_spec (End_ final) a) as [Hout | Hin].
  - destruct (symbols t !! r) as [s|] eqn:E; [|done]. specialize (Hhi s eq_refl).
    pose proof (lookup_lt_Some _ _ _ E) as Hlt.
    assert (Hle : (r <= pred (length (symbols t)))%nat) by lia.
    pose proof (table_ends _ _ _ s final Hok Hle E Hlast). lia.
  - match goal with |- context [Search ?n ?f] => replace (Search n f) with r; [done|] end.
    symmetry. apply Search_unique; [| done | |].
    + intros i j Hij Hi. destruct (symbols t !! i) as [s|] eqn:Ei; [|done].
      destruct (lookup_lt_is_Some_2 (symbols t) j) as [u Hu]; [lia|]. rewrite Hu.
      pose proof (table_ends _ i j s u Hok ltac:(lia) Ei Hu). apply Z.ltb_lt in Hi. apply Z.ltb_lt. lia.
    + intros k Hk. destruct (symbols t !! k) as [s|] eqn:Ek; [|done]. apply Z.ltb_ge. by eapply Hlo.
    + intros k Hk. destruct (lookup_lt_is_Some_2 (symbols t) k) as [u Hu]; [lia|]. rewrite Hu.
      destruct (lookup_lt_is_Some_2 (symbols t) r) as [s Hs]; [lia|].
      pose proof (table_ends _ r k s u Hok ltac:(lia) Hs Hu). specialize (Hhi s Hs). apply Z.ltb_lt. lia.
Qed.

(** C36: for functions that are sorted and do not overlap, the binary search gives every
    address inside a function that function's name; an address before the first function,
    or from the end of the last one on, gets none and goes to the C library; but an
    address between two functions is not recognised: it gets the name of the function
    that comes after it. *)
Theorem resolve_names_addresses t addr i s :
  table_ok (symbols t) -> symbols t !! i = Some s ->
  let a := u64 (addr - base t) in
  (Entry s <= a < End_ s -> simple_Resolve t addr = entry_Name s) /\
  (i = 0%nat -> a < Entry s -> simple_Resolve t addr = []) /\
  (S i = length (symbols t) -> End_ s <= a -> simple_Resolve t addr = []) /\
  (forall next, symbols t !! S i = Some next -> End_ s <= a < Entry next ->
     simple_Resolve t addr = entry_Name next).
Proof.
  intros Hok Hi a. destruct (symbols t) as [|first es] eqn:Hes; [done|].
  pose proof (simple_Resolve_linear t addr first) as Hlin. rewrite Hes in Hlin. specialize (Hlin Hok eq_refl).
  fold a in Hlin. cbv zeta in Hlin. rewrite Hlin. clear Hlin.
  destruct (first_ending_after_index (first :: es) a) as (r & Hr & -> & Hlo & Hhi).
  pose proof (entries_wide _ Hok) as Hw. rewrite Forall_lookup in Hw.
  assert (Hfirst : forall j u, (first :: es) !! j = Some u -> Entry first <= Entry u).
  { intros [|j] u Hu; [by injection Hu as <-|].
    pose proof (entries_apart _ Hok 0 (S j) first u ltac:(lia) eq_refl Hu).
    pose proof (Hw 0%nat first eq_refl). cbn in *. lia. }
  assert (Hpick : forall j u, (first :: es) !! j = Some u -> a < End_ u -> Entry first <= a ->
    (forall k v, (k < j)%nat -> (first :: es) !! k = Some v -> End_ v <= a) ->
    (if a <? Entry first then [] else match (first :: es) !! r with Some s => entry_Name s | None => [] end)
      = entry_Name u).
  { intros j u Hj Hend Hin Hbefore. rewrite (proj2 (Z.ltb_ge _ _)) by done.
    assert (r = j) as ->; [|by rewrite Hj]. destruct (Nat.lt_trichotomy r j) as [H | [H | H]]; [|done|].
    - destruct (lookup_lt_is_Some_2 (first :: es) r) as [v Hv]; [apply lookup_lt_Some in Hj; lia|].
      pose proof (Hbefore r v H Hv). pose proof (Hhi v Hv). lia.
    - pose proof (Hlo j u H Hj). lia. }
  split_and!.
  - intros Ha. pose proof (Hfirst i s Hi). apply (Hpick i s Hi); [lia | lia |].
    intros k v Hk Hv. pose proof (entries_apart _ Hok k i v s Hk Hv Hi). lia.
  - intros -> Ha. injection Hi as <-. by rewrite (proj2 (Z.ltb_lt _ _)).
  - intros Hlast Ha. destruct ((first :: es) !! r) as [u|] eqn:E; [|by destruct (_ <? _)].
    pose proof (lookup_lt_Some _ _ _ E). pose proof (Hhi u eq_refl).
    pose proof (table_ends _ r i u s Hok ltac:(lia) E Hi). lia.
  - intros next Hnext Ha. pose proof (Hfirst i s Hi). pose proof (Hw i s Hi). pose proof (Hw (S i) next Hnext).
    cbn in *. apply (Hpick (S i) next Hnext); [lia | lia |].
    intros k v Hk Hv. pose proof (table_ends _ k i v s Hok ltac:(lia) Hv Hi). lia.
Qed.

(** * Stacks *)

(** The words of a stack up to the first zero, at most [n] of them from word [i] on. *)
Fixpoint frames (n i : nat) (stack : list Z) : list Z :=
  match n with
  | O => []
  | S n =>
      let ip := le_value (take 8 (drop (i * 8) stack)) in
      if ip =? 0 then [] else ip :: frames n (S i) stack
  end.

Section Symbols.
Context (bcc : Z -> Z -> bool -> bcc_symbol) (gof : Z -> option (list Z * list SimpleSymbolTableEntry)).
Context (evict : Z -> SymbolCache -> SymbolCache).

(** The symbols of addresses that are looked up one after the other. *)
Fixpoint resolve_all (ips : list Z) (pid : Z) (s : SymSession) : list Symbol * SymSession :=
  match ips with
  | [] => ([], s)
  | ip :: ips =>
      let '(sym, sc) := BccResolve bcc gof evict pid ip (RoundNumber s) (SymCache s) in
      let '(syms, s) := resolve_all ips pid {| SymCache := sc; RoundNumber := RoundNumber s |} in
      (sym :: syms, s)
  end.

(** The frames that are printed: for the kernel only those that have a name. *)
Definition printed (userspace : bool) (syms : list Symbol) : list (list Z) :=
  (fun sym => frame_name sym ++ bytes_of ";") <$>
    filter (fun sym => userspace = true \/ sym_Name sym <> []) syms.

Lemma walk_frames_resolve n i stack pid userspace s acc :
  ((i + n) * 8 <= length stack)%nat ->
  walk_frames bcc gof evict n i stack pid userspace s acc =
    let '(syms, s') := resolve_all (frames n i stack) pid s in
    Returned (acc ++ printed userspace syms, s').
Proof.
  revert i s acc. induction n as [|n IH]; intros i s acc Hlen; cbn [walk_frames frames].
  { cbn. by rewrite app_nil_r. }
  rewrite (proj2 (Nat.ltb_ge _ _)) by lia.
  destruct (le_value (take 8 (drop (i * 8) stack)) =? 0); [cbn; by rewrite app_nil_r|].
  cbn [resolve_all]. destruct (BccResolve _ _ _ _ _ _ _) as [sym sc]. rewrite IH by lia.
  destruct (resolve_all _ _ _) as [syms s']. f_equal. f_equal.
  unfold printed. destruct userspace; cbn [negb andb].
  - rewrite filter_cons_True by by left. by rewrite <- app_assoc.
  - destruct (sym_Name sym) as [|b name] eqn:E; cbn [length Nat.eqb].
    + rewrite filter_cons_False by (rewrite E; naive_solver). done.
    + rewrite filter_cons_True by (right; by rewrite E). by rewrite <- app_assoc.
Qed.

(** A stack of the kernel's map, 127 words, is walked without a panic. *)
Lemma WalkStack_returns line stack pid userspace s :
  (1016 <= length stack)%nat ->
  WalkStack bcc gof evict line stack pid userspace s =
    let '(syms, s') := resolve_all (frames 127 0 stack) pid s in
    Returned (line ++ mjoin (rev (printed userspace syms)), s').
Proof.
  intros Hlen. unfold WalkStack. rewrite (proj2 (Nat.eqb_neq _ _)) by lia.
  rewrite walk_frames_resolve by lia. destruct (resolve_all _ _ _) as [syms s']. done.
Qed.

(** The words of a stack that was written as 127 words of which the first [length ips]
    are not zero. *)
Lemma frames_encoded n i pre ips rest :
  Forall (fun ip => 0 < ip < 2 ^ 64) ips -> (length ips < n)%nat -> length pre = (i * 8)%nat ->
  frames n i (pre ++ mjoin (le_bytes 8 <$> ips) ++ replicate 8 0 ++ rest) = ips.
Proof.
  revert i pre ips. induction n as [|n IH]; intros i pre ips Hips Hlen Hpre; [lia|]. cbn [frames].
  rewrite drop_app_length' by done. destruct ips as [|ip ips].
  - cbn [fmap list_fmap mjoin list_join app]. by rewrite take_app_length' by done.
  - apply Forall_cons in Hips as [Hip Hips]. cbn [fmap list_fmap mjoin list_join].
    rewrite <- app_assoc, take_app_length' by (by rewrite length_le_bytes).
    rewrite le_value_bytes by (change (8 * Z.of_nat 8) with 64; lia).
    rewrite (proj2 (Z.eqb_neq _ _)) by lia. f_equal. rewrite app_assoc. cbn in Hlen.
    apply IH; [done | lia |]. rewrite length_app, length_le_bytes. lia.
Qed.

(** C37: a stack as the kernel stores it, of [ips] and then zeros up to 127 words, is
    printed outermost frame first, every name followed by a semicolon, after what is in
    the buffer already: the frames that no table knows are left out for the kernel and
    printed with their module or as unknown for the user; nothing panics. *)
Theorem stacks_are_printed line ips pid userspace s :
  Forall (fun ip => 0 < ip < 2 ^ 64) ips -> (length ips < 127)%nat ->
  let stack := mjoin (le_bytes 8 <$> ips) ++ replicate (1016 - 8 * length ips) 0 in
  WalkStack bcc gof evict line stack pid userspace s =
    let '(syms, s') := resolve_all ips pid s in
    Returned (line ++ mjoin (rev (printed userspace syms)), s').
Proof.
  intros Hips Hlen stack.
  assert (Hw : length (mjoin (le_bytes 8 <$> ips)) = (8 * length ips)%nat).
  { clear. induction ips as [|ip ips IH]; [done|].
    change (mjoin (le_bytes 8 <$> ip :: ips)) with (le_bytes 8 ip ++ mjoin (le_bytes 8 <$> ips)).
    rewrite length_app, length_le_bytes, IH. cbn [length]. lia. }
  rewrite WalkStack_returns.
  2: { unfold stack. rewrite length_app, length_replicate, Hw. lia. }
  enough (frames 127 0 stack = ips) as -> by done. unfold stack.
  replace (1016 - 8 * length ips)%nat with (8 + (1008 - 8 * length ips))%nat by lia.
  rewrite replicate_add. by apply (frames_encoded 127 0 []).
Qed.

(** * The cache *)

(** In one round only the first lookup for a process asks for a refresh of its table:
    once an address of [pid] was looked up in a round, further addresses of the process
    are resolved in the same table without a refresh, until another round begins. *)
Lemma refresh_once_per_round pid addr round sc sym sc' addr' round' :
  BccResolve bcc gof evict pid addr round sc = (sym, sc') ->
  exists e, sc' !! pid = Some e /\ roundNumber e = round /\
    BccResolve bcc gof evict pid addr' round' sc' =
      (table_Resolve bcc pid (symbolTable e) addr' (negb (round' =? round)),
       <[pid := {| symbolTable := symbolTable e; roundNumber := round' |}]> sc').
Proof.
  unfold BccResolve at 1. destruct (GetOrCreateCacheEntry gof evict pid sc) as [e0 sc0] eqn:E0.
  intros [= _ <-].
  set (e := if negb (round =? roundNumber e0) then _ else _).
  assert (He : roundNumber e = round) by (unfold e; destruct (Z.eqb_spec round (roundNumber e0)); done).
  exists e. rewrite lookup_insert_eq. split; [done|]. split; [done|].
  unfold BccResolve, GetOrCreateCacheEntry. rewrite lookup_insert_eq, He.
  destruct (Z.eqb_spec round' round) as [-> | Hne]; cbn [negb]; [|done].
  f_equal. f_equal. by destruct e; cbn in *; subst.
Qed.
End Symbols.

(** * A process with two functions and a hole between them *)

Definition fn_a : SimpleSymbolTableEntry := {| Entry := 0x100; End_ := 0x200; entry_Name := bytes_of "main.a" |}.
Definition fn_b : SimpleSymbolTableEntry := {| Entry := 0x300; End_ := 0x400; entry_Name := bytes_of "main.b" |}.
Definition sample_table : SimpleSymbolTable := NewSimpleSymbolTable [fn_a; fn_b].

Lemma sample_table_ok : table_ok (symbols sample_table).
Proof.
  split; [by repeat constructor|]. intros [|[|i]] [|[|j]] s t Hij Hs Ht; cbn in *; try lia; simplify_eq; cbn; lia.
Qed.

(** The address 0x250 lies in the hole. *)
Lemma resolve_names_addresses_witness :
  simple_Resolve sample_table 0x150 = bytes_of "main.a" /\ simple_Resolve sample_table 0x250 = bytes_of "main.b".
Proof.
  destruct (resolve_names_addresses sample_table 0x150 0 fn_a sample_table_ok eq_refl) as (H1 & _).
  destruct (resolve_names_addresses sample_table 0x250 0 fn_a sample_table_ok eq_refl) as (_ & _ & _ & H2).
  split; [apply H1; vm_compute; split; [discriminate | reflexivity]|].
  apply (H2 fn_b); [reflexivity | vm_compute; split; [discriminate | reflexivity]].
Defined.

Definition sample_bcc (pid addr : Z) (refresh : bool) : bcc_symbol := {|
  bcc_res := -1; bcc_name := []; bcc_demangle_name := []; bcc_module := bytes_of "libc.so"; bcc_offset := 0x1f |}.
Definition sample_gof (pid : Z) : option (list Z * list SimpleSymbolTableEntry) :=
  Some (bytes_of "/proc/7/exe", [fn_a; fn_b]).

Lemma stacks_are_printed_witness :
  WalkStack sample_bcc sample_gof (fun _ sc => sc) [] (mjoin (le_bytes 8 <$> [0x150; 0x999]) ++ replicate 1000 0)
    7 true NewSymSession =
    let '(syms, s') := resolve_all sample_bcc sample_gof (fun _ sc => sc) [0x150; 0x999] 7 NewSymSession in
    Returned ([] ++ mjoin (rev (printed true syms)), s').
Proof.
  apply (stacks_are_printed sample_bcc sample_gof (fun _ sc => sc) [] [0x150; 0x999] 7 true NewSymSession).
  - repeat constructor.
  - vm_compute. lia.
Defined.

Example stack_line :
  match WalkStack sample_bcc sample_gof (fun _ sc => sc) [] (mjoin (le_bytes 8 <$> [0x150; 0x999]) ++ replicate 1000 0)
    7 true NewSymSession with
  | Returned (line, _) => bool_decide (line = bytes_of "libc.so+0x1f;main.a;")
  | _ => false
  end = true.
Proof. vm_compute. reflexivity. Qed.

Lemma refresh_once_per_round_witness :
  exists e, (BccResolve sample_bcc sample_gof (fun _ sc => sc) 7 0x150 10 ∅).2 !! 7 = Some e /\
    roundNumber e = 10.
Proof.
  destruct (refresh_once_per_round sample_bcc sample_gof (fun _ sc => sc) 7 0x150 10 ∅ _ _ 0x150 11
    (surjective_pairing _)) as (e & H1 & H2 & _).
  exists e. split; [exact H1 | exact H2].
Defined.
