(* ===== verification/Sessions.v ===== *)
(** The sessions of the agent, from what they read to the events they send:
    pkg/ebpf/cpu/futexsnoop.go, syscall.go, offcpu.go, oncpu.go and pkg/ebpf/mem/cachestat.go.

    Three sessions decode the records that a program sends, two read a map of their
    program every few seconds.  Each turns what it reads into [SpyEvent]s and puts these
    into the channel that all sessions share.  The maps of stacks and of copied rings
    are functions here, as they are when the session looks into them. *)
From S2P Require Import Prelude Layout FutexSnoop OnCpu Syscall CacheStat OffCpu Wire SyscallTable.
From S2P Require Import GoLib SpyEvent Symtab.
Open Scope Z_scope.
Open Scope bpf_scope.

(** [DetectorCpuType] *)
Definition DetectorCpuType : string := "detector_cpu".

(** [C.GoString]: the bytes of the memory from an address on up to the first zero, which need
    not be in the array that the address is in. *)
Fixpoint GoString (bs : list Z) : list Z :=
  match bs with
  | [] => []
  | b :: bs => if b =? 0 then [] else b :: GoString bs
  end.

(** [&v.m[0]]: the memory from the [n]th member of a structure on. *)
Definition memory_from (t : ctype) (n : nat) (memory : list Z) : list Z :=
  drop (Z.to_nat (default 0 (fst <$> leaves 0 t !! n))) memory.

(** * What is read *)

(** A SyscallEvent of [binary.Read], which leaves the zero value when it fails. *)
Definition zeros (sizes : list nat) : list Z := replicate (length sizes) 0.
Definition read_or_zero (sizes : list nat) (data : list Z) : list Z :=
  default (zeros sizes) (go_read sizes data).

Definition syscall_of_members (vs : list Z) : syscall_event := {|
  Syscall.ev_pid := member vs 0; Syscall.ev_tid := member vs 1; ts_ns := member vs 2;
  dur_us := member vs 3; u_stack_id := s64 (member vs 4); k_stack_id := s64 (member vs 5);
  ev_syscall_id := member vs 6; Syscall.ev_comm := members vs 7 16 |}.

(** The members of an OffCpuEvent. *)
Definition waker_of_members (vs : list Z) : waker_t := {|
  wk_pid := member vs 0; wk_tgid := member vs 1; wk_t_pid := member vs 2; wk_pad := member vs 3;
  wk_t_comm := members vs 4 16; wk_user_stack_id := s32 (member vs 20);
  wk_kern_stack_id := s32 (member vs 21); wk_comm := members vs 22 16; wk_oncpu_ns := member vs 38;
  wk_offcpu_ns := member vs 39; wk_onrq_ns := member vs 40; wk_offcpu_id := member vs 41;
  wk_oncpu_id := member vs 42; wk_run_delay_ns := member vs 43 |}.
Definition target_of_members (vs : list Z) : target_t := {|
  tg_pid := member vs 0; tg_tgid := member vs 1; tg_w_pid := member vs 2; tg_pad := member vs 3;
  tg_w_comm := members vs 4 16; tg_user_stack_id := s32 (member vs 20);
  tg_kern_stack_id := s32 (member vs 21); tg_comm := members vs 22 16; tg_oncpu_ns := member vs 38;
  tg_offcpu_ns := member vs 39; tg_onrq_ns := member vs 40; tg_offcpu_id := member vs 41;
  tg_oncpu_id := member vs 42; tg_run_delay_ns := member vs 43 |}.
Definition offcpu_of_members (vs : list Z) : perf_event_t := {|
  pe_waker := waker_of_members vs; pe_target := target_of_members (drop 44 vs);
  OffCpu.dur_ms := member vs 88; pe_rq_dur_ms := member vs 89; pe_ts_ns := member vs 90;
  is_sched_cache_dump := member vs 91; pe_cpu := member vs 92 |}.

(** Record [i] of a copied ring. *)
Definition record_of_members (vs : list Z) (i : nat) : sched_record :=
  let r := drop (4 + 19 * i) vs in {|
    sr_pid := member r 0; sr_prio := member r 1; sr_comm := members r 2 16; sr_ts := member r 18 |}.

(** The key of the profile and the file statistics, as C reads them. *)
Definition profile_key_of_bytes (bs : list Z) : profile_key_t :=
  let vs := c_read profile_key_layout bs in {|
    pk_pid := member vs 0; OnCpu.kern_stack := s64 (member vs 1); OnCpu.user_stack := s64 (member vs 2);
    pk_comm := members vs 3 16 |}.
Definition cache_info_of_bytes (bs : list Z) : cache_info :=
  let vs := c_read cache_info_layout bs in {|
    ci_pid := member vs 0; ci_cpu := member vs 1; ci_comm := members vs 2 16; ci_file := members vs 18 64;
    read_size := member vs 82; write_size := member vs 83; cnt := member vs 84 |}.

Section Sessions.
Context (bcc_symcache_resolve : Z -> Z -> bool -> bcc_symbol).
Context (go_functions : Z -> option (list Z * list SimpleSymbolTableEntry)).
Context (evict : Z -> SymbolCache -> SymbolCache).
(** The map of stacks, by stack id; [time.Now().Unix()]; runtime.GOARCH. *)
Context (stack_map : Z -> option (list Z)) (now : Z) (Arch : string).

(** * Stacks *)

(** [getStack] and [ResolveStack]; the callers drop the error. *)
Definition getStack (stackId : Z) : option (list Z) :=
  if stackId <? 0 then None else stack_map (u32 stackId).
Definition ResolveStack (syms : list Z) (stackId pid : Z) (userspace : bool) (s : SymSession)
    : go_result (list Z * SymSession) :=
  match getStack stackId with
  | None => Returned (syms, s)
  | Some stack => WalkStack bcc_symcache_resolve go_functions evict syms stack pid userspace s
  end.

(** The kernel's stack and the user's, with [----] between them. *)
Definition both_stacks (kern user pid : Z) (s : SymSession) : go_result (list Z * SymSession) :=
  let* (syms, s) := ResolveStack [] kern 0 false s in
  ResolveStack (syms ++ bytes_of "----") user pid true s.

(** The beginning of an event; two sessions do not set the name of its class. *)
Definition event_header (class name : string) : SpyEvent :=
  new_event <| Name := name |> <| TimeStamp := now |>
    <| Class_ := {| class_Name := class; class_Event := name |} |>.
Definition cpu_event : string -> SpyEvent := event_header DetectorCpuType.

Definition set_task (pid tid : Z) (comm : list Z) (e : SpyEvent) : SpyEvent :=
  e <| Task := new_task <| task_Pid := pid |> <| task_Tid := tid |> <| task_Comm := comm |> |>.

(** * futexsnoop.go: [HandleEvent] *)

Definition lock_event (lock : lock_stat) (e : SpyEvent) : SpyEvent :=
  set_task (u32 (hi32 (l_pid_tgid lock))) (u32 (l_pid_tgid lock)) (l_comm lock) e
    &> SetUserAttributeWithUint32 "user_cnt" (user_cnt lock)
    &> SetUserAttributeWithUint32 "max_user_cnt" (max_user_cnt lock)
    &> SetUserAttributeWithUint64 "lock_addr" (l_uaddr lock)
    &> SetUserAttributeWithUint64 "min_dur" 0
    &> SetUserAttributeWithUint64 "max_dur" 0
    &> SetUserAttributeWithUint64 "delta_dur" 0
    &> SetUserAttributeWithUint64 "avg_dur" 0
    &> SetUserAttributeWithUint64 "lock_cnt" 0
    &> SetUserAttributeWithByteBuf "stack" [].

Definition hist_event (task : hist) (e : SpyEvent) (s : SymSession) : go_result (SpyEvent * SymSession) :=
  let avg := if contended task =? 0 then 0 else total_elapsed task / contended task in
  let e := set_task (u32 (hi32 (h_pid_tgid task))) (u32 (h_pid_tgid task)) (h_comm task) e
    &> SetUserAttributeWithUint32 "user_cnt" 0
    &> SetUserAttributeWithUint32 "max_user_cnt" 0
    &> SetUserAttributeWithUint64 "lock_addr" (h_uaddr task)
    &> SetUserAttributeWithUint64 "min_dur" (min_dur task)
    &> SetUserAttributeWithUint64 "max_dur" (max_dur task)
    &> SetUserAttributeWithUint64 "delta_dur" (delta_dur task)
    &> SetUserAttributeWithUint64 "avg_dur" avg
    &> SetUserAttributeWithUint64 "lock_cnt" (contended task) in
  let* (syms, s) := ResolveStack [] (h_user_stack_id task) (task_Pid (Task e)) true s in
  Returned (SetUserAttributeWithByteBuf "stack" syms e, s).

(** Data of fewer bytes than a LockStat has still makes an event. *)
Definition futexsnoop_HandleEvent (data : list Z) (s : SymSession)
    : go_result (list SpyEvent * SymSession) :=
  let e := cpu_event model.FutexSnoop in
  match Wire.HandleEvent data with
  | None => Returned ([e], s)
  | Some (EvLock lock) => Returned ([lock_event lock e], s)
  | Some (EvHist task) => let* (e, s) := hist_event task e s in Returned ([e], s)
  end.

(** * syscall.go: [HandleEvent] *)

Definition syscall_HandleEvent (data : list Z) (s : SymSession) : go_result (list SpyEvent * SymSession) :=
  let event := syscall_of_members (read_or_zero SyscallEvent data) in
  let e := set_task (Syscall.ev_pid event) (Syscall.ev_tid event) (Syscall.ev_comm event)
             (cpu_event model.Syscall)
    &> SetUserAttributeWithUint64 "dur_us" (dur_us event)
    &> SetUserAttributeWithUint32 "pid" (Syscall.ev_pid event)
    &> SetUserAttributeWithByteBuf "comm" (Syscall.ev_comm event)
    &> SetUserAttributeWithByteBuf "syscall" (bytes_of (SyscallIdToName Arch (u32 (ev_syscall_id event)))) in
  let* (syms, s) := both_stacks (s32 (k_stack_id event)) (s32 (u_stack_id event)) (task_Pid (Task e)) s in
  Returned ([SetUserAttributeWithByteBuf "stack" syms e], s).

(** * offcpu.go *)

Definition SCHED_CACHE_DUMP_STEP : nat := 10.

(** [schedCacheDump]: the events for every tenth record of the ring that was copied for
    [cpu]; [backup] is the map of the copies. *)
Definition dump_event (cpu : Z) (vs : list Z) (i : nat) : SpyEvent :=
  let r := record_of_members vs i in
  let e := cpu_event model.OffCpu in
  e &> SetUserAttributeWithUint32 "cpu" cpu
    &> set_task 0 (sr_pid r) (sr_comm r)
    &> SetUserAttributeWithUint32 "cache_id" (Z.of_nat i)
    &> SetUserAttributeWithUint64 "ts" (sr_ts r)
    &> SetUserAttributeWithUint32 "prio" (sr_prio r).
Definition dump_indices : list nat := (fun i => i * SCHED_CACHE_DUMP_STEP)%nat <$> seq 0 52.
Definition schedCacheDump (backup : Z -> option (list Z)) (cpu : Z) : list SpyEvent :=
  match backup cpu with
  | None => []
  | Some value => dump_event cpu (read_or_zero SchedCached value) <$> dump_indices
  end.

(** [HandleEvent]: the events of the ring come first. *)
Definition offcpu_HandleEvent (backup : Z -> option (list Z)) (data : list Z) (s : SymSession)
    : go_result (list SpyEvent * SymSession) :=
  let event := offcpu_of_members (read_or_zero OffCpuEvent data) in
  let w := pe_waker event in
  let t := pe_target event in
  let dumped := if is_sched_cache_dump event =? 1 then schedCacheDump backup (pe_cpu event) else [] in
  let e := set_task (tg_tgid t) (tg_pid t) (tg_comm t) (cpu_event model.OffCpu)
    &> SetUserAttributeWithUint32 "w_tid" (wk_pid w)
    &> SetUserAttributeWithUint32 "w_pid" (wk_tgid w)
    &> SetUserAttributeWithUint32 "w_onrq_oncpu" (u32 (u64 (wk_oncpu_ns w - wk_onrq_ns w)))
    &> SetUserAttributeWithUint32 "w_offcpu_oncpu" (u32 (u64 (wk_oncpu_ns w - wk_offcpu_ns w)))
    &> SetUserAttributeWithByteBuf "w_comm" (wk_comm w) in
  let* (syms, s) := both_stacks (wk_kern_stack_id w) (wk_user_stack_id w) (wk_tgid w) s in
  let e := e
    &> SetUserAttributeWithByteBuf "w_stack" syms
    &> SetUserAttributeWithUint32 "t_tid" (tg_pid t)
    &> SetUserAttributeWithUint32 "t_pid" (tg_tgid t)
    &> SetUserAttributeWithUint32 "t_onrq_oncpu" (u32 (u64 (tg_oncpu_ns t - tg_onrq_ns t)))
    &> SetUserAttributeWithUint32 "t_offcpu_oncpu" (u32 (u64 (tg_oncpu_ns t - tg_offcpu_ns t)))
    &> SetUserAttributeWithByteBuf "t_comm" (tg_comm t)
    &> SetUserAttributeWithUint64 "t_start_time" (tg_offcpu_ns t)
    &> SetUserAttributeWithUint64 "ts" (pe_ts_ns event)
    &> SetUserAttributeWithUint64 "dur_ms" (OffCpu.dur_ms event)
    &> SetUserAttributeWithUint64 "rq_dur_ms" (pe_rq_dur_ms event) in
  let* (syms, s) := both_stacks (tg_kern_stack_id t) (tg_user_stack_id t) (tg_tgid t) s in
  Returned (dumped ++ [SetUserAttributeWithByteBuf "t_stack" syms e], s).

(** * oncpu.go: [Reset] *)

(** What is kept of an element of the map of counts. *)
Record sf := { sf_pid : Z; sf_count : Z; sf_kStack : list Z; sf_uStack : list Z; sf_comm : list Z }.

(** The element's key is the memory from the first byte of the key on. *)
Definition sf_of (kv : list Z * list Z) : sf :=
  let ck := profile_key_of_bytes kv.1 in {|
    sf_pid := pk_pid ck; sf_count := le_value (take 4 kv.2);
    sf_kStack := default [] (getStack (s32 (OnCpu.kern_stack ck)));
    sf_uStack := default [] (getStack (s32 (OnCpu.user_stack ck)));
    sf_comm := GoString (memory_from profile_key_layout 3 kv.1) |}.

(** The event of one element: the name of the thread and its stack. *)
Definition oncpu_event (sampleRate : Z) (it : sf) (s : SymSession) : go_result (SpyEvent * SymSession) :=
  let buf := sf_comm it ++ bytes_of ";" in
  let* (buf, s) := WalkStack bcc_symcache_resolve go_functions evict buf (sf_uStack it) (sf_pid it) true s in
  let* (buf, s) := WalkStack bcc_symcache_resolve go_functions evict buf (sf_kStack it) 0 false s in
  Returned (event_header "" model.OnCpu
    &> SetUserAttributeWithByteBuf "stack" buf
    &> SetUserAttributeWithUint32 "count" (sf_count it)
    &> SetUserAttributeWithUint32 "pid" (sf_pid it)
    &> SetUserAttributeWithByteBuf "comm" (sf_comm it)
    &> SetUserAttributeWithUint32 "sampleRate" sampleRate, s).

Fixpoint oncpu_events (sampleRate : Z) (sfs : list sf) (s : SymSession)
    : go_result (list SpyEvent * SymSession) :=
  match sfs with
  | [] => Returned ([], s)
  | it :: sfs =>
      let* (e, s) := oncpu_event sampleRate it s in
      let* (es, s) := oncpu_events sampleRate sfs s in
      Returned (e :: es, s)
  end.

(** The stacks that are known to be used. *)
Definition stacks_of (kv : list Z * list Z) : list Z :=
  let ck := profile_key_of_bytes kv.1 in
  (if 0 <=? OnCpu.user_stack ck then [u32 (OnCpu.user_stack ck)] else []) ++
  (if 0 <=? OnCpu.kern_stack ck then [u32 (OnCpu.kern_stack ck)] else []).

(** [Reset]: the events, the keys that are deleted from the map of counts, and the stacks
    that are deleted from theirs, [None] for all of them.  [counts] are the elements of
    the map as they were read; reading them in one batch has deleted them already. *)
Definition oncpu_Reset (sampleRate : Z) (counts : list (list Z * list Z)) (s : SymSession)
    : go_result (list SpyEvent * SymSession * option (list Z)) :=
  let s := {| SymCache := SymCache s; RoundNumber := RoundNumber s + 1 |} in
  let knownStacks := mjoin (stacks_of <$> counts) in
  let* (es, s) := oncpu_events sampleRate (sf_of <$> counts) s in
  Returned (es, s, if RoundNumber s mod 10 =? 0 then None else Some knownStacks).

(** * cachestat.go: [Reset] *)

(** The event of an element of the map; nothing is deleted from it.  [value] is the memory
    from the first byte of the element on. *)
Definition cachestat_event (value : list Z) : SpyEvent :=
  let v := cache_info_of_bytes value in
  event_header "" model.CacheStat
    &> SetUserAttributeWithByteBuf "comm" (GoString (memory_from cache_info_layout 2 value))
    &> SetUserAttributeWithByteBuf "file" (GoString (memory_from cache_info_layout 18 value))
    &> SetUserAttributeWithUint32 "pid" (ci_pid v)
    &> SetUserAttributeWithUint32 "cpu" (ci_cpu v)
    &> SetUserAttributeWithUint64 "cnt" (cnt v)
    &> SetUserAttributeWithUint64 "read_size_m" (read_size v)
    &> SetUserAttributeWithUint64 "write_size_m" (write_size v).
Definition cachestat_Reset (values : list (list Z)) : list SpyEvent := cachestat_event <$> values.
End Sessions.

(** [pollData]: data arrive one after the other, each with the time at which it is
    handled; what is sent. *)
Fixpoint pollData (HandleEvent : Z -> list Z -> SymSession -> go_result (list SpyEvent * SymSession))
    (arrivals : list (Z * list Z)) (s : SymSession) : go_result (list SpyEvent * SymSession) :=
  match arrivals with
  | [] => Returned ([], s)
  | (now, data) :: arrivals =>
      let* (es, s) := HandleEvent now data s in
      let* (more, s) := pollData HandleEvent arrivals s in
      Returned (es ++ more, s)
  end.
