(* ===== verification/AgentSpec.v ===== *)
(** From the bytes of a record to the block that is exported: properties of [Sessions]
    and [Detectors] together. *)
From S2P Require Import Prelude Layout FutexSnoop OnCpu Syscall CacheStat OffCpu Kernel Wire WireSpec WellTyped SyscallTable.
From S2P Require Import GoLib Trie SpyEvent DataBlock Detectors Symtab SymtabSpec Sessions.
Open Scope Z_scope.
Open Scope bpf_scope.

(** * Attributes of an event that is filled in *)

(** An event with these attributes and no others. *)
Definition holds (e : SpyEvent) (kvs : list KeyValue) : Prop := event_wf e /\ attributes e = kvs.

Lemma holds_header now class name : holds (event_header now class name) [].
Proof. split; [by split | done]. Qed.

Lemma holds_task pid tid comm e kvs : holds e kvs -> holds (set_task pid tid comm e) kvs.
Proof. intros [[Hl Hc] Ha]. split; [by split | done]. Qed.

Lemma holds_set e kvs kv :
  holds e kvs -> (length kvs < SpyEventFieldMax)%nat -> holds (SetUserAttribute e kv).1 (kvs ++ [kv]).
Proof.
  intros [Hwf <-] Hlen. destruct (SetUserAttribute_attributes e kv Hwf) as (Hwf' & Ha & _).
  split; [done|]. rewrite Ha. apply take_ge. rewrite length_app. cbn. lia.
Qed.

(** Setters leave the rest of an event alone. *)
Lemma set_keeps e kv :
  let e' := (SetUserAttribute e kv).1 in
  Name e' = Name e /\ Task e' = Task e /\ TimeStamp e' = TimeStamp e /\ Class_ e' = Class_ e.
Proof. unfold SetUserAttribute. by destruct (_ <? _). Qed.

Lemma Name_set e kv : Name (SetUserAttribute e kv).1 = Name e.
Proof. apply set_keeps. Qed.
Lemma Task_set e kv : Task (SetUserAttribute e kv).1 = Task e.
Proof. apply set_keeps. Qed.
Lemma TimeStamp_set e kv : TimeStamp (SetUserAttribute e kv).1 = TimeStamp e.
Proof. apply set_keeps. Qed.
Lemma Class_set e kv : Class_ (SetUserAttribute e kv).1 = Class_ e.
Proof. apply set_keeps. Qed.
#[local] Arguments SetUserAttribute : simpl never.

(** The attributes of a chain of setters. *)
Ltac unfold_setters :=
  unfold SetUserAttributeWithUint32, SetUserAttributeWithUint64, SetUserAttributeWithByteBuf, cpu_event.
Ltac solve_holds :=
  lazymatch goal with
  | |- holds (SetUserAttribute _ _).1 _ =>
      eapply holds_set; [solve_holds | cbn; unfold SpyEventFieldMax; lia]
  | |- holds (set_task _ _ _ _) _ => eapply holds_task; solve_holds
  | |- holds (event_header _ _ _) _ => apply holds_header
  end.

Lemma s64_small v : is_u32 v -> s64 v = v.
Proof. intros [? ?]. apply sN_id; lia. Qed.

Lemma s64_u32 v : s64 (u32 v) = u32 v.
Proof. apply s64_small, uN_range. lia. Qed.

Lemma u32_hi32 x : is_u64 x -> u32 (hi32 x) = hi32 x.
Proof. intros Hx. by apply uN_id, hi32_range. Qed.

(** Notes which attributes the event of the goal holds. *)
Ltac note_attributes H :=
  match goal with
  | |- context [GetUintUserAttribute ?e _] => eassert (H : holds e _) by solve_holds
  | |- context [for_attributes _ ?e _] => eassert (H : holds e _) by solve_holds
  end.

(** * Loops over attributes *)

Fixpoint go_fold {A B} (f : B -> A -> go_result A) (l : list B) (a : A) : go_result A :=
  match l with
  | [] => Returned a
  | b :: l => let* a := f b a in go_fold f l a
  end.

Lemma attributes_loop_fold {A} (body : KeyValue -> A -> go_result A) e n i a :
  (i + n <= length (UserAttributes e))%nat ->
  attributes_loop body e n i a = go_fold body (take n (drop i (UserAttributes e))) a.
Proof.
  revert i a. induction n as [|n IH]; intros i a Hlen; cbn [attributes_loop]; [done|].
  destruct (lookup_lt_is_Some_2 (UserAttributes e) i) as [kv Hkv]; [lia|].
  rewrite Hkv, (drop_S _ kv) by done. cbn [or_panic go_bind take go_fold].
  destruct (body kv a); cbn [go_bind]; try done. apply IH. lia.
Qed.

Lemma for_attributes_fold {A} (body : KeyValue -> A -> go_result A) e kvs a :
  holds e kvs -> for_attributes body e a = go_fold body kvs a.
Proof.
  intros [[Hlen Hcnt] <-]. unfold for_attributes. rewrite attributes_loop_fold by lia. by rewrite drop_0.
Qed.

Lemma holds_get e kvs key : holds e kvs -> GetUserAttribute e key = first_with key kvs.
Proof. intros [Hwf <-]. by apply GetUserAttribute_first. Qed.

(** One case of a switch. *)
Lemma int_label_uint32 label f key v labels :
  is_u32 v -> int_label label f (kv_uint32 key v) labels = Returned (AddIntValue label (s64 (f v)) labels).
Proof. intros Hv. unfold int_label. by rewrite GetUint_uint32. Qed.
Lemma int_label_uint64 label f key v labels :
  is_u64 v -> int_label label f (kv_uint64 key v) labels = Returned (AddIntValue label (s64 (f v)) labels).
Proof. intros Hv. unfold int_label. by rewrite GetUint_uint64. Qed.
Lemma string_label_bytes label f key bs labels :
  string_label label f (kv_bytes key bs) labels = Returned (AddStringValue label (f bs) labels).
Proof. done. Qed.

(** Runs the loop of a detector over known attributes. *)
Ltac run_labels :=
  cbn [go_fold label_switch app Key kv_uint32 kv_uint64 kv_bytes String.eqb Ascii.eqb Bool.eqb];
  repeat (first [rewrite int_label_uint32 by auto | rewrite int_label_uint64 by auto
                | rewrite string_label_bytes]; cbn [go_bind]).

(** Looks a key up in the attributes. *)
Ltac get_attribute H :=
  unfold GetUintUserAttribute; rewrite (holds_get _ _ _ H);
  cbn [first_with app Key kv_uint32 kv_uint64 kv_bytes String.eqb Ascii.eqb Bool.eqb].

(** Labels that are added one after the other. *)
Lemma labels_in_order (l : list (string * AttributeValue)) :
  NoDup l.*1 -> list_to_map (M := AttributeMap) (reverse l) = list_to_map l.
Proof.
  intros Hnd. apply list_to_map_proper; [|apply reverse_Permutation].
  by rewrite fmap_reverse, reverse_Permutation.
Qed.

Ltac same_labels :=
  match goal with
  | |- _ = list_to_map ?l =>
      transitivity (list_to_map (M := AttributeMap) (reverse l));
      [reflexivity | apply labels_in_order, (bool_decide_eq_true_1 (NoDup _)); vm_compute; reflexivity]
  end.

(** * Futexes *)

(** The labels of a lock's record and of a task's, with the user's stack. *)
Definition lock_labels (l : lock_stat) : AttributeMap := list_to_map [
  (model.UserCnt, intValue (user_cnt l)); (model.MaxUserCnt, intValue (max_user_cnt l));
  (model.LockAddr, intValue (s64 (l_uaddr l))); (model.MinDur, intValue 0); (model.MaxDur, intValue 0);
  (model.DeltaDur, intValue 0); (model.AvgDur, intValue 0); (model.LockCnt, intValue 0);
  (model.Stack, stringValue []);
  (model.Pid, intValue (hi32 (l_pid_tgid l))); (model.Tid, intValue (lo32 (l_pid_tgid l)));
  (model.Comm, stringValue (drop_zeros (l_comm l)))].
Definition hist_labels (h : hist) (stack : list Z) : AttributeMap := list_to_map [
  (model.UserCnt, intValue 0); (model.MaxUserCnt, intValue 0);
  (model.LockAddr, intValue (s64 (h_uaddr h))); (model.MinDur, intValue (s64 (min_dur h)));
  (model.MaxDur, intValue (s64 (max_dur h))); (model.DeltaDur, intValue (s64 (delta_dur h)));
  (model.AvgDur, intValue (s64 (total_elapsed h / contended h))); (model.LockCnt, intValue (s64 (contended h)));
  (model.Stack, stringValue stack);
  (model.Pid, intValue (hi32 (h_pid_tgid h))); (model.Tid, intValue (lo32 (h_pid_tgid h)));
  (model.Comm, stringValue (drop_zeros (h_comm h)))].

Lemma lock_event_labels now l :
  lock_typed l ->
  let e := lock_event l (cpu_event now model.FutexSnoop) in
  Name e = model.FutexSnoop /\ TimeStamp e = now /\
  formatFutexSnoopLabels e = Returned (lock_labels l) /\
  GetUintUserAttribute e "max_user_cnt" = Returned (max_user_cnt l).
Proof.
  intros []. cbv zeta. assert (is_u64 0) by done. unfold lock_event. unfold_setters.
  rewrite !Name_set, !TimeStamp_set. split; [done|]. split; [done|]. note_attributes Hholds. split.
  - unfold formatFutexSnoopLabels. rewrite (for_attributes_fold _ _ _ _ Hholds). run_labels. f_equal.
    unfold task_labels. rewrite !Task_set. cbn [Task set_task task_Pid task_Tid task_Comm new_task].
    rewrite !s64_u32, u32_hi32 by done. unfold id.
    rewrite (s64_small 0), (s64_small (user_cnt l)), (s64_small (max_user_cnt l)) by done.
    unfold lock_labels, lo32. same_labels.
  - get_attribute Hholds. by apply GetUint_uint32.
Qed.

Lemma avg_dur_u64 h : hist_typed h -> is_u64 (total_elapsed h / contended h).
Proof.
  intros Hh. destruct (ht_total h Hh) as [H1 H2], (ht_contended h Hh) as [H3 H4].
  destruct (decide (contended h = 0)) as [-> | Hne]; [by rewrite Z.div_0_r|].
  apply u64_div; [done | lia].
Qed.

Section Futex.
Context (bcc : Z -> Z -> bool -> bcc_symbol) (gof : Z -> option (list Z * list SimpleSymbolTableEntry)).
Context (evict : Z -> SymbolCache -> SymbolCache) (stack_map : Z -> option (list Z)) (now : Z).
(** The map of stacks holds stacks of 127 words. *)
Context (Hstacks : forall id st, stack_map id = Some st -> (1016 <= length st)%nat).

Lemma ResolveStack_returns syms stackId pid userspace s :
  exists text s', ResolveStack bcc gof evict stack_map syms stackId pid userspace s =
    Returned (syms ++ text, s').
Proof.
  unfold ResolveStack. destruct (getStack stack_map stackId) as [st|] eqn:E.
  - unfold getStack in E. destruct (stackId <? 0); [done|]. rewrite WalkStack_returns by by eapply Hstacks.
    destruct (resolve_all _ _ _ _ _ _). eauto.
  - exists [], s. by rewrite app_nil_r.
Qed.

Lemma both_stacks_returns kern user pid s :
  exists text1 text2 s', both_stacks bcc gof evict stack_map kern user pid s =
    Returned (text1 ++ bytes_of "----" ++ text2, s').
Proof.
  unfold both_stacks. destruct (ResolveStack_returns [] kern 0 false s) as (t1 & s1 & ->). cbn [go_bind app].
  destruct (ResolveStack_returns (t1 ++ bytes_of "----") user pid true s1) as (t2 & s2 & ->).
  exists t1, t2, s2. by rewrite <- app_assoc.
Qed.

Lemma hist_event_labels h s :
  hist_typed h ->
  exists e s' stack, hist_event bcc gof evict stack_map h (cpu_event now model.FutexSnoop) s = Returned (e, s') /\
    Name e = model.FutexSnoop /\ TimeStamp e = now /\
    formatFutexSnoopLabels e = Returned (hist_labels h stack) /\
    GetUintUserAttribute e "max_user_cnt" = Returned 0.
Proof.
  intros Hh. unfold hist_event. unfold_setters. rewrite !Task_set. cbn [Task set_task task_Pid new_task].
  rewrite u32_hi32 by by apply ht_pid_tgid.
  destruct (ResolveStack_returns [] (h_user_stack_id h) (hi32 (h_pid_tgid h)) true s) as (stack & s' & ->).
  cbn [go_bind app].
  replace (if contended h =? 0 then 0 else total_elapsed h / contended h)
    with (total_elapsed h / contended h)
    by (destruct (Z.eqb_spec (contended h) 0) as [-> |]; [by rewrite Z.div_0_r | done]).
  pose proof (avg_dur_u64 h Hh) as Havg. destruct Hh. assert (is_u32 0) by done.
  eexists _, s', stack. split; [done|]. rewrite !Name_set, !TimeStamp_set. split; [done|]. split; [done|].
  note_attributes Hholds. split.
  - unfold formatFutexSnoopLabels. rewrite (for_attributes_fold _ _ _ _ Hholds). run_labels. f_equal.
    unfold task_labels. rewrite !Task_set. cbn [Task set_task task_Pid task_Tid task_Comm new_task].
    rewrite !s64_u32. unfold id.
    rewrite !(s64_small (hi32 _)), (s64_small 0) by (done || by apply hi32_range).
    unfold hist_labels, lo32. same_labels.
  - get_attribute Hholds. by apply GetUint_uint32.
Qed.

(** The block of a record. *)
Definition futex_block (ev : fx_event) (stack : list Z) : DataBlock :=
  match ev with
  | EvLock l => NewDataBlock model.FutexSnoop (lock_labels l) now
      [NewIntMetric model.FutexMaxUerCountName (max_user_cnt l)]
  | EvHist h => NewDataBlock model.FutexSnoop (hist_labels h stack) now
      [NewIntMetric model.FutexMaxUerCountName 0]
  end.

Lemma cpu_futex_event boot fmt e c labels val :
  Name e = model.FutexSnoop -> TimeStamp e = now -> formatFutexSnoopLabels e = Returned labels ->
  GetUintUserAttribute e "max_user_cnt" = Returned val -> is_u32 val ->
  cpu_ProcessEvent boot fmt e c = Returned (c, Some (NewDataBlock model.FutexSnoop labels now
    [NewIntMetric model.FutexMaxUerCountName val])).
Proof.
  intros Hn Ht Hl Hv Hr. unfold cpu_ProcessEvent. rewrite Hn. cbn [String.eqb Ascii.eqb Bool.eqb model.FutexSnoop
    model.OffCpu model.OnCpu model.IrqOff]. unfold futexsnoopHandler. rewrite Hl. cbn [go_bind]. rewrite Hv.
  cbn [go_bind]. unfold one_metric. by rewrite Ht, s64_small.
Qed.

Lemma futex_record_exported boot fmt ev rest s :
  fx_event_typed ev -> (length rest < 8)%nat ->
  exists e s' stack,
    futexsnoop_HandleEvent bcc gof evict stack_map now (fx_bytes ev ++ rest) s = Returned ([e], s') /\
    (forall c, cpu_ProcessEvent boot fmt e c = Returned (c, Some (futex_block ev stack))) /\
    Consume (futex_block ev stack) = [futex_block ev stack].
Proof.
  intros Hev Hrest. unfold futexsnoop_HandleEvent.
  rewrite (futex_record_decodes ev rest) by (done || by apply fx_event_typed_ok).
  destruct ev as [l | h]; cbn [fx_event_typed] in Hev.
  - destruct (lock_event_labels now l Hev) as (Hn & Ht & Hl & Hv).
    eexists _, s, []. split; [done|]. split; [intros c|done].
    apply cpu_futex_event; [done.. | by apply lt_max].
  - destruct (hist_event_labels h s Hev) as (e & s' & stack & -> & Hn & Ht & Hl & Hv).
    exists e, s', stack. split; [done|]. split; [intros c|done]. by apply cpu_futex_event.
Qed.
End Futex.
