(* ===== verification/AgentOffCpu.v ===== *)
(** From the events of the off-CPU profiler to the blocks and rows that are exported. *)
From S2P Require Import Prelude Layout FutexSnoop OnCpu Syscall CacheStat OffCpu Kernel Wire WireSpec WellTyped SyscallTable.
From S2P Require Import GoLib Trie SpyEvent DataBlock Exporters Detectors Symtab SymtabSpec Sessions AgentSpec.
Open Scope Z_scope.
Open Scope bpf_scope.

#[local] Arguments SetUserAttribute : simpl never.

(** * Decoding *)

Lemma list_of_16 (l : list Z) :
  length l = 16%nat -> exists a b c d e f g h i j k m n o p q, l = [a; b; c; d; e; f; g; h; i; j; k; m; n; o; p; q].
Proof.
  intros H. do 16 (destruct l as [|? l]; [done|]). destruct l; [|done]. by repeat eexists.
Qed.

Lemma s32_of_u32 x : is_s32 x -> s32 (u32 x) = x.
Proof. intros [? ?]. rewrite sN_uN by lia. by apply sN_id. Qed.

Lemma waker_of_waker_members w rest :
  waker_typed w -> waker_of_members (waker_members w ++ rest) = w /\
  drop 44 (waker_members w ++ rest) = rest.
Proof.
  intros Hw. destruct (wkt_t_comm w Hw) as [H1 _], (wkt_comm w Hw) as [H2 _].
  pose proof (s32_of_u32 _ (wkt_ustack w Hw)) as Hu. pose proof (s32_of_u32 _ (wkt_kstack w Hw)) as Hk.
  destruct w as [? ? ? ? c1 u k c2]. cbn [wk_t_comm wk_comm wk_user_stack_id wk_kern_stack_id] in *.
  apply list_of_16 in H1 as (? & ? & ? & ? & ? & ? & ? & ? & ? & ? & ? & ? & ? & ? & ? & ? & ->).
  apply list_of_16 in H2 as (? & ? & ? & ? & ? & ? & ? & ? & ? & ? & ? & ? & ? & ? & ? & ? & ->).
  split; [|reflexivity]. unfold waker_of_members, waker_members, member, members. cbn -[uN sN]. by rewrite Hu, Hk.
Qed.

Lemma target_of_target_members t rest :
  target_typed t -> target_of_members (target_members t ++ rest) = t /\
  drop 44 (target_members t ++ rest) = rest.
Proof.
  intros Hw. destruct (tgt_w_comm t Hw) as [H1 _], (tgt_comm t Hw) as [H2 _].
  pose proof (s32_of_u32 _ (tgt_ustack t Hw)) as Hu. pose proof (s32_of_u32 _ (tgt_kstack t Hw)) as Hk.
  destruct t as [? ? ? ? c1 u k c2]. cbn [tg_w_comm tg_comm tg_user_stack_id tg_kern_stack_id] in *.
  apply list_of_16 in H1 as (? & ? & ? & ? & ? & ? & ? & ? & ? & ? & ? & ? & ? & ? & ? & ? & ->).
  apply list_of_16 in H2 as (? & ? & ? & ? & ? & ? & ? & ? & ? & ? & ? & ? & ? & ? & ? & ? & ->).
  split; [|reflexivity]. unfold target_of_members, target_members, member, members. cbn -[uN sN]. by rewrite Hu, Hk.
Qed.

Lemma offcpu_of_perf_event_members p : perf_event_typed p -> offcpu_of_members (perf_event_members p) = p.
Proof.
  intros Hp. unfold perf_event_members.
  set (fields := [OffCpu.dur_ms p; pe_rq_dur_ms p; pe_ts_ns p; is_sched_cache_dump p; pe_cpu p]).
  set (t := target_members (pe_target p) ++ fields).
  destruct (waker_of_waker_members (pe_waker p) t (pet_waker p Hp)) as [Hw Hdw].
  destruct (target_of_target_members (pe_target p) fields (pet_target p Hp)) as [Ht Hdt].
  unfold offcpu_of_members. rewrite Hw, Hdw. unfold t at 1. rewrite Ht.
  assert (Hm : forall i, (88 <= i)%nat ->
    member (waker_members (pe_waker p) ++ t) i = member fields (i - 88)).
  { intros i Hi. unfold member. replace i with (44 + (44 + (i - 88)))%nat at 1 by lia.
    rewrite <- lookup_drop, Hdw. unfold t. by rewrite <- lookup_drop, Hdt. }
  rewrite !Hm by lia. by destruct p.
Qed.

(** * Labels *)

Section OffCpu.
Context (bcc : Z -> Z -> bool -> bcc_symbol) (gof : Z -> option (list Z * list SimpleSymbolTableEntry)).
Context (evict : Z -> SymbolCache -> SymbolCache) (stack_map : Z -> option (list Z)) (now : Z).
Context (Hstacks : forall id st, stack_map id = Some st -> (1016 <= length st)%nat).
Context (boot : Z) (fmt : Z -> list Z).

(** A time since boot as a label shows it. *)
Definition shown_time (ns : Z) : list Z := fmt (BootOffsetToTime boot ns).

(** The labels of an event, with the texts of the two stacks. *)
Definition offcpu_labels (p : perf_event_t) (w_stack t_stack : list Z) : AttributeMap :=
  let w := pe_waker p in
  let t := pe_target p in
  list_to_map [
    (model.Tid_W, intValue (wk_pid w)); (model.Pid_W, intValue (wk_tgid w));
    (model.Waker, stringValue (drop_zeros (wk_comm w))); (model.Stack_W, stringValue w_stack);
    (model.Tid_T, intValue (tg_pid t)); (model.Pid_T, intValue (tg_tgid t));
    (model.RunqLatUs_T, intValue (u32 (tg_oncpu_ns t - tg_onrq_ns t) / 1000));
    (model.CpuOffUs_T, intValue (u32 (tg_oncpu_ns t - tg_offcpu_ns t) / 1000));
    (model.Wakee, stringValue (drop_zeros (tg_comm t)));
    (model.StartTime, stringValue (shown_time (tg_offcpu_ns t)));
    (model.TimeStamp, stringValue (shown_time (pe_ts_ns p)));
    (model.DurMs, intValue (s64 (OffCpu.dur_ms p))); (model.RunqDurMs, intValue (s64 (pe_rq_dur_ms p)));
    (model.Stack_T, stringValue t_stack)].

Definition offcpu_block (p : perf_event_t) (w_stack t_stack : list Z) : DataBlock :=
  NewDataBlock model.OffCpu (offcpu_labels p w_stack t_stack) now
    [NewIntMetric model.OffCpuMetricName (s64 (OffCpu.dur_ms p))].

(** The labels and the block of a record of a copied ring. *)
Definition ring_labels (cpu : Z) (r : sched_record) (i : nat) : AttributeMap := list_to_map [
  (model.Cpu, intValue cpu); (model.CacheId, intValue (Z.of_nat i));
  (model.TimeStamp, stringValue (shown_time (sr_ts r))); (model.Prio, intValue (sr_prio r))].
Definition ring_block (cpu : Z) (r : sched_record) (i : nat) : DataBlock :=
  NewDataBlock model.OffCpu (ring_labels cpu r i) now [NewIntMetric model.OffCpuMetricName 0].

Lemma time_label_uint64 label key v labels :
  is_u64 v -> time_label boot fmt label (kv_uint64 key v) labels =
    Returned (AddStringValue label (shown_time v) labels).
Proof. intros Hv. unfold time_label. by rewrite GetUint_uint64. Qed.

Lemma u32_of_u64 x : u32 (u64 x) = u32 x.
Proof. unfold uN. apply Z.mod_mod_divide. by exists (2 ^ 32). Qed.

Lemma s64_div1000 v : is_u32 v -> s64 (v / 1000) = v / 1000.
Proof.
  intros [? ?]. apply s64_small. split; [apply Z.div_pos; lia|]. apply Z.div_lt_upper_bound; lia.
Qed.

Lemma cpu_offcpu_event e c labels val :
  Name e = model.OffCpu -> TimeStamp e = now -> formatOffcpuLabels boot fmt e = Returned labels ->
  GetUintUserAttribute e "dur_ms" = Returned val ->
  cpu_ProcessEvent boot fmt e c = Returned (c, Some (NewDataBlock model.OffCpu labels now
    [NewIntMetric model.OffCpuMetricName (s64 val)])).
Proof.
  intros Hn Ht Hl Hv. unfold cpu_ProcessEvent. rewrite Hn. cbn [String.eqb Ascii.eqb Bool.eqb model.OffCpu].
  unfold offcpuHandler. rewrite Hl. cbn [go_bind]. rewrite Hv. cbn [go_bind]. unfold one_metric. by rewrite Ht.
Qed.

Ltac run_offcpu_labels :=
  cbn [go_fold label_switch app Key kv_uint32 kv_uint64 kv_bytes String.eqb Ascii.eqb Bool.eqb];
  repeat (first [rewrite int_label_uint32 by auto using u32_typed | rewrite int_label_uint64 by auto
                | rewrite time_label_uint64 by auto | rewrite string_label_bytes]; cbn [go_bind]).

(** An event from the ring. *)
Lemma dump_event_exported cpu vs i c :
  is_u32 cpu -> (i < 512)%nat -> sched_record_typed (record_of_members vs i) ->
  cpu_ProcessEvent boot fmt (dump_event now cpu vs i) c =
    Returned (c, Some (ring_block cpu (record_of_members vs i) i)).
Proof.
  intros Hcpu Hi []. assert (is_u32 (Z.of_nat i)) by (split; lia).
  set (r := record_of_members vs i) in *. unfold ring_block.
  apply (cpu_offcpu_event _ _ _ 0); unfold dump_event; fold r; unfold_setters;
    rewrite ?Name_set, ?TimeStamp_set; [done | done | |].
  - unfold formatOffcpuLabels. note_attributes Hholds. rewrite (for_attributes_fold _ _ _ _ Hholds).
    run_offcpu_labels. f_equal. unfold id. rewrite !s64_small by done. unfold ring_labels. same_labels.
  - note_attributes Hholds. by get_attribute Hholds.
Qed.

(** The event itself. *)
Lemma offcpu_event_exported backup k p rest s :
  perf_event_typed p ->
  exists es e s' w_stack t_stack,
    offcpu_HandleEvent bcc gof evict stack_map now backup (of_bytes k p ++ rest) s = Returned (es ++ [e], s') /\
    es = (if is_sched_cache_dump p =? 1 then schedCacheDump now backup (pe_cpu p) else []) /\
    forall c, cpu_ProcessEvent boot fmt e c = Returned (c, Some (offcpu_block p w_stack t_stack)).
Proof.
  intros Hp. unfold offcpu_HandleEvent.
  assert (Hdec : offcpu_of_members (read_or_zero OffCpuEvent (of_bytes k p ++ rest)) = p).
  { unfold read_or_zero. rewrite offcpu_event_decodes by by apply perf_event_typed_ok. cbn [default from_option].
    by apply offcpu_of_perf_event_members. }
  rewrite Hdec. cbv zeta.
  destruct (both_stacks_returns bcc gof evict stack_map Hstacks (wk_kern_stack_id (pe_waker p))
    (wk_user_stack_id (pe_waker p)) (wk_tgid (pe_waker p)) s) as (w1 & w2 & s1 & ->). cbn [go_bind].
  destruct (both_stacks_returns bcc gof evict stack_map Hstacks (tg_kern_stack_id (pe_target p))
    (tg_user_stack_id (pe_target p)) (tg_tgid (pe_target p)) s1) as (t1 & t2 & s2 & ->). cbn [go_bind].
  set (ws := w1 ++ bytes_of "----" ++ w2). set (ts := t1 ++ bytes_of "----" ++ t2). clearbody ws ts.
  eexists _, _, s2, ws, ts. split; [done|]. split; [done|]. intros c.
  destruct Hp as [[] [] ? ? ? ? ?].
  apply cpu_offcpu_event; unfold_setters; rewrite ?Name_set, ?TimeStamp_set; [done | done | |].
  - unfold formatOffcpuLabels. note_attributes Hholds. rewrite (for_attributes_fold _ _ _ _ Hholds).
    run_offcpu_labels. f_equal. unfold id. rewrite !u32_of_u64, !s64_div1000 by apply u32_typed.
    rewrite (s64_small (wk_pid _)), (s64_small (wk_tgid _)), (s64_small (tg_pid _)), (s64_small (tg_tgid _))
      by done. unfold offcpu_labels. same_labels.
  - note_attributes Hholds. get_attribute Hholds. by apply GetUint_uint64.
Qed.
(** * The ring *)

Lemma record_members_length r : sched_record_typed r -> length (sched_record_members r) = 19%nat.
Proof. intros Hr. destruct (srt_comm r Hr) as [Hl _]. unfold sched_record_members. rewrite !length_app, Hl. done. Qed.

Lemma drop_records i rs :
  Forall sched_record_typed rs ->
  drop (19 * i) (mjoin (sched_record_members <$> rs)) = mjoin (sched_record_members <$> drop i rs).
Proof.
  revert rs. induction i as [|i IH]; intros rs Hrs; [done|]. destruct rs as [|r rs]; [by rewrite !drop_nil|].
  apply Forall_cons in Hrs as [Hr Hrs].
  change (mjoin (sched_record_members <$> r :: rs))
    with (sched_record_members r ++ mjoin (sched_record_members <$> rs)).
  replace (19 * S i)%nat with (19 + 19 * i)%nat by lia.
  rewrite <- drop_drop, drop_app_length' by (symmetry; by apply record_members_length). by apply IH.
Qed.

Lemma record_of_record_members c i r :
  sched_cached_typed c -> records c !! i = Some r -> record_of_members (sched_cached_members c) i = r.
Proof.
  intros Hc Hi. destruct (sdt_records c Hc) as [_ Hrs].
  pose proof (proj1 (Forall_lookup _ _) Hrs i r Hi) as Hr. cbv beta in Hr.
  unfold record_of_members, sched_cached_members. rewrite <- drop_drop.
  change (drop 4 ([sc_status c; sc_cpu c; sc_id c; sc_pad c] ++ ?l)) with l.
  rewrite drop_records by done. rewrite (drop_S _ r) by done.
  change (mjoin (sched_record_members <$> r :: drop (S i) (records c)))
    with (sched_record_members r ++ mjoin (sched_record_members <$> drop (S i) (records c))).
  generalize (mjoin (sched_record_members <$> drop (S i) (records c))). intros rest.
  destruct (srt_comm r Hr) as [Hl _]. destruct r as [pid prio comm ts]. cbn [sr_comm] in Hl.
  apply list_of_16 in Hl as (? & ? & ? & ? & ? & ? & ? & ? & ? & ? & ? & ? & ? & ? & ? & ? & ->). reflexivity.
Qed.

(** Every tenth record of the copied ring becomes a block. *)
Lemma ring_exported backup cpu c rest d :
  sched_cached_typed c -> is_u32 cpu ->
  backup cpu = Some (encode sched_cached_layout (sched_cached_members c) ++ rest) ->
  length (schedCacheDump now backup cpu) = 52%nat /\
  forall j e, schedCacheDump now backup cpu !! j = Some e ->
    exists r, records c !! (10 * j)%nat = Some r /\
      cpu_ProcessEvent boot fmt e d = Returned (d, Some (ring_block cpu r (10 * j))).
Proof.
  intros Hc Hcpu Hb. unfold schedCacheDump, read_or_zero. rewrite Hb.
  rewrite sched_cached_decodes by by apply sched_cached_typed_ok. cbn [default from_option].
  split; [done|]. intros j e He. apply list_lookup_fmap_Some in He as (i & -> & Hi).
  unfold dump_indices in Hi. apply list_lookup_fmap_Some in Hi as (j' & -> & Hj').
  apply lookup_seq in Hj' as [-> Hj]. unfold SCHED_CACHE_DUMP_STEP.
  replace ((0 + j) * 10)%nat with (10 * j)%nat by lia.
  destruct (sdt_records c Hc) as [Hl Hrs]. change (Z.to_nat SCHED_CACHE_SIZE) with 512%nat in Hl.
  destruct (lookup_lt_is_Some_2 (records c) (10 * j)) as [r Hr]; [lia|]. exists r. split; [done|].
  pose proof (record_of_record_members c (10 * j) r Hc Hr) as Hrec. unfold id.
  rewrite dump_event_exported; [by rewrite Hrec | done | lia |].
  rewrite Hrec. exact (proj1 (Forall_lookup _ _) Hrs _ r Hr).
Qed.

(** * Rows *)

Lemma label_of_list (l : list (string * AttributeValue)) key :
  list_to_map (M := AttributeMap) l !! key =
    snd <$> find (fun kv => (kv.1 =? key)%string) l.
Proof.
  induction l as [|[k v] l IH]; [done|]. cbn [list_to_map foldr fst snd find].
  destruct (String.eqb_spec k key) as [-> | Hne]; [by rewrite lookup_insert_eq|].
  by rewrite lookup_insert_ne.
Qed.

Lemma u32_of_s64 x : u32 (s64 x) = u32 x.
Proof. by rewrite <- u32_of_u64, uN_sN, u32_of_u64 by lia. Qed.

Lemma offcpu_row_of p ws ts :
  perf_event_typed p ->
  row_of (offcpu_block p ws ts) = Some (OffCpuItem {|
    WakerPid := wk_pid (pe_waker p); WakerTid := wk_tgid (pe_waker p);
    WakerComm := drop_zeros (wk_comm (pe_waker p)); WakerStack := ws;
    WakeePid := wk_tgid (pe_waker p); WakeeTid := wk_pid (pe_waker p);
    WakeeComm := drop_zeros (tg_comm (pe_target p)); WakeeStack := ts;
    WakeeOffCpuTs := shown_time (tg_offcpu_ns (pe_target p));
    row_DurMs := u32 (OffCpu.dur_ms p); row_RunqDurMs := u32 (pe_rq_dur_ms p);
    row_Cpu := 0; row_CacheId := 0; row_Prio := 0 |}).
Proof.
  intros Hp. unfold row_of, offcpu_row, label_u32, label_string, GetIntLabel, GetStringValue.
  cbn [offcpu_block NewDataBlock block_Name Labels String.eqb Ascii.eqb Bool.eqb model.OffCpu].
  unfold offcpu_labels. rewrite !label_of_list.
  cbn [find fst snd fmap option_fmap option_map String.eqb Ascii.eqb Bool.eqb model.Tid_W model.Pid_W model.Waker
    model.Stack_W model.Tid_T model.Pid_T model.RunqLatUs_T model.CpuOffUs_T model.Wakee model.StartTime
    model.TimeStamp model.DurMs model.RunqDurMs model.Stack_T model.Cpu model.CacheId model.Prio].
  rewrite !u32_of_s64. destruct Hp as [[] _ _ _ _ _ _]. by rewrite !uN_id by done.
Qed.

(** C28: every event of the off-CPU profiler becomes one block that goes to the exporter,
    after the blocks of the ring if there is one; the block has the names, the waker's
    and the wakee's ids, the two texts of stacks, the times and the milliseconds of the
    record.  The microseconds that the wakee was off its CPU are right below 2^32 ns, some
    4.3 s, and wrap around beyond, while the milliseconds do not.  In the row of the SQLite
    table the ids of the waker are swapped and stand for the wakee's as well: those of
    the wakee are in no column. *)
Theorem offcpu_events_exported backup k p rest s c :
  perf_event_typed p ->
  exists es e s' ws ts,
    let b := offcpu_block p ws ts in
    let away := tg_oncpu_ns (pe_target p) - tg_offcpu_ns (pe_target p) in
    offcpu_HandleEvent bcc gof evict stack_map now backup (of_bytes k p ++ rest) s = Returned (es ++ [e], s') /\
    es = (if is_sched_cache_dump p =? 1 then schedCacheDump now backup (pe_cpu p) else []) /\
    cpu_ProcessEvent boot fmt e c = Returned (c, Some b) /\ Consume b = [b] /\
    (exists us, Labels b !! model.CpuOffUs_T = Some (intValue us) /\ us < 4294968 /\
       (0 <= away < 2 ^ 32 -> us = away / 1000)) /\
    Labels b !! model.DurMs = Some (intValue (s64 (OffCpu.dur_ms p))) /\
    Labels b !! model.Tid_T = Some (intValue (tg_pid (pe_target p))) /\
    exists row, row_of b = Some (OffCpuItem row) /\
      WakerPid row = wk_pid (pe_waker p) /\ WakerTid row = wk_tgid (pe_waker p) /\
      WakeePid row = wk_tgid (pe_waker p) /\ WakeeTid row = wk_pid (pe_waker p).
Proof.
  intros Hp. destruct (offcpu_event_exported backup k p rest s Hp) as (es & e & s' & ws & ts & Hh & Hes & Hb).
  exists es, e, s', ws, ts. cbv zeta. do 2 (split; [done|]). split; [apply Hb|]. split; [done|].
  assert (Hlabel : forall key, Labels (offcpu_block p ws ts) !! key = offcpu_labels p ws ts !! key) by done.
  split; [|split; [|split]].
  - rewrite Hlabel. unfold offcpu_labels. rewrite label_of_list. eexists. split; [reflexivity|].
    set (away := tg_oncpu_ns _ - tg_offcpu_ns _). pose proof (u32_typed away) as [? ?]. split.
    + apply Z.div_lt_upper_bound; lia.
    + intros Haway. by rewrite uN_id.
  - rewrite Hlabel. unfold offcpu_labels. by rewrite label_of_list.
  - rewrite Hlabel. unfold offcpu_labels. by rewrite label_of_list.
  - eexists. split; [exact (offcpu_row_of p ws ts Hp)|]. split; [reflexivity|]. split; [reflexivity|].
    split; reflexivity.
Qed.
End OffCpu.

(** * An absence of 5 seconds *)

Definition long_absence : perf_event_t := {|
  pe_waker := {| wk_pid := 70; wk_tgid := 7; wk_t_pid := 80; wk_pad := 0; wk_t_comm := replicate 16 97;
    wk_user_stack_id := -14; wk_kern_stack_id := -14; wk_comm := replicate 16 98; wk_oncpu_ns := 0;
    wk_offcpu_ns := 0; wk_onrq_ns := 0; wk_offcpu_id := 0; wk_oncpu_id := 0; wk_run_delay_ns := 0 |};
  pe_target := {| tg_pid := 80; tg_tgid := 8; tg_w_pid := 70; tg_pad := 0; tg_w_comm := replicate 16 98;
    tg_user_stack_id := -14; tg_kern_stack_id := -14; tg_comm := replicate 16 97;
    tg_oncpu_ns := 6000000000; tg_offcpu_ns := 1000000000; tg_onrq_ns := 5900000000; tg_offcpu_id := 0;
    tg_oncpu_id := 0; tg_run_delay_ns := 0 |};
  OffCpu.dur_ms := 5000; pe_rq_dur_ms := 100; pe_ts_ns := 6000000000; is_sched_cache_dump := 0; pe_cpu := 0 |}.

Lemma long_absence_typed : perf_event_typed long_absence.
Proof. repeat split; try apply Forall_replicate; by vm_compute. Qed.

Lemma offcpu_events_exported_witness :
  exists ws ts row, row_of (offcpu_block 9 0 (fun _ => []) long_absence ws ts) = Some (OffCpuItem row) /\
    WakeeTid row = 70 /\ tg_pid (pe_target long_absence) = 80.
Proof.
  destruct (offcpu_events_exported (fun _ _ _ => {| bcc_res := -1; bcc_name := []; bcc_demangle_name := [];
    bcc_module := []; bcc_offset := 0 |}) (fun _ => None) (fun _ sc => sc) (fun _ => None) 9 ltac:(discriminate)
    0 (fun _ => []) (fun _ => None) linux_518 long_absence [] NewSymSession NewCpuDetector long_absence_typed)
    as (es & e & s' & ws & ts & H). cbv zeta in H.
  destruct H as (_ & _ & _ & _ & _ & _ & _ & row & Hrow & _ & _ & _ & Htid).
  exists ws, ts, row. split; [exact Hrow|]. split; [exact Htid | reflexivity].
Defined.

(** The label of the microseconds shows 0.7 s. *)
Example long_absence_label ws ts :
  Labels (offcpu_block 9 0 (fun _ => []) long_absence ws ts) !! model.CpuOffUs_T = Some (intValue 705032).
Proof. cbn [offcpu_block NewDataBlock Labels]. unfold offcpu_labels. rewrite label_of_list. reflexivity. Qed.
