(* ===== verification/AgentOther.v ===== *)
(** From slow system calls, profile counts and file statistics to the blocks that are
    exported. *)
From S2P Require Import Prelude Layout FutexSnoop OnCpu Syscall CacheStat OffCpu Kernel Wire WireSpec WellTyped SyscallTable.
From S2P Require Import GoLib Trie SpyEvent DataBlock Detectors Symtab SymtabSpec Sessions AgentSpec AgentOffCpu.
Open Scope Z_scope.
Open Scope bpf_scope.

#[local] Arguments SetUserAttribute : simpl never.

(** What can be read is read the same with more bytes behind it. *)
Lemma go_read_more sizes bs rest vs : go_read sizes bs = Some vs -> go_read sizes (bs ++ rest) = Some vs.
Proof.
  revert bs vs. induction sizes as [|n sizes IH]; intros bs vs H; [done|]. cbn [go_read] in *.
  destruct (Nat.leb_spec n (length bs)) as [Hle|]; [|done].
  rewrite (proj2 (Nat.leb_le _ _)) by (rewrite length_app; lia).
  destruct (go_read sizes (drop n bs)) as [ws|] eqn:E; [|done]. cbn in H.
  rewrite drop_app_le, take_app_le, (IH _ _ E) by done. exact H.
Qed.

Lemma drop_zeros_app a b : drop_zeros (a ++ b) = drop_zeros a ++ drop_zeros b.
Proof. apply filter_app. Qed.

Section Other.
Context (bcc : Z -> Z -> bool -> bcc_symbol) (gof : Z -> option (list Z * list SimpleSymbolTableEntry)).
Context (evict : Z -> SymbolCache -> SymbolCache) (stack_map : Z -> option (list Z)) (now : Z).
Context (Hstacks : forall id st, stack_map id = Some st -> (1016 <= length st)%nat).
Context (boot : Z) (fmt : Z -> list Z) (Arch : string).

(** * System calls *)

(** The labels of a call: its name's last four characters are missing. *)
Definition syscall_labels (ev : syscall_event) (stack : list Z) : AttributeMap := list_to_map [
  (model.DurUs, intValue (s64 (dur_us ev)));
  (model.Syscall, stringValue (bytes_of (SyscallIdToName Arch (ev_syscall_id ev))));
  (model.Stack, stringValue stack); (model.Pid, intValue (Syscall.ev_pid ev));
  (model.Tid, intValue (Syscall.ev_tid ev)); (model.Comm, stringValue (drop_zeros (take 12 (Syscall.ev_comm ev))))].

Lemma syscall_of_record ev rest :
  syscall_event_typed ev -> well_formed syscall_event_layout (syscall_event_members ev) ->
  is_u32 (ev_syscall_id ev) ->
  let ev' := syscall_of_members
    (read_or_zero SyscallEvent (encode syscall_event_layout (syscall_event_members ev) ++ rest)) in
  Syscall.ev_pid ev' = Syscall.ev_pid ev /\ Syscall.ev_tid ev' = Syscall.ev_tid ev /\ dur_us ev' = dur_us ev /\
  u_stack_id ev' = u_stack_id ev /\ k_stack_id ev' = k_stack_id ev /\ ev_syscall_id ev' = ev_syscall_id ev /\
  Syscall.ev_comm ev' = replicate 4 0 ++ take 12 (Syscall.ev_comm ev).
Proof.
  intros Hev Hwf [Hid1 Hid2]. destruct (sct_comm ev Hev) as [Hl _]. unfold read_or_zero.
  erewrite go_read_more by (by apply syscall_comm_shifted). cbn [default from_option id].
  rewrite Z.mod_small, Z.div_small by lia.
  destruct Hev as [_ _ _ _ Hu Hk _ _]. destruct ev as [pid tid ts dur u k id comm].
  cbn [Syscall.ev_comm Syscall.ev_pid Syscall.ev_tid ts_ns dur_us u_stack_id k_stack_id ev_syscall_id] in *.
  apply list_of_16 in Hl as (? & ? & ? & ? & ? & ? & ? & ? & ? & ? & ? & ? & ? & ? & ? & ? & ->).
  unfold syscall_of_members, member, members.
  split_and!; try reflexivity; cbn -[sN uN]; rewrite sN_uN, sN_id; done || lia.
Qed.

Lemma cpu_syscall_event e c labels val :
  Name e = model.Syscall -> TimeStamp e = now -> formatSyscallLabels e = Returned labels ->
  GetUintUserAttribute e "dur_us" = Returned val ->
  cpu_ProcessEvent boot fmt e c = Returned (c, Some (NewDataBlock model.Syscall labels now
    [NewIntMetric model.SyscallMetricName (s64 val)])).
Proof.
  intros Hn Ht Hl Hv. unfold cpu_ProcessEvent. rewrite Hn.
  cbn [String.eqb Ascii.eqb Bool.eqb model.OffCpu model.OnCpu model.IrqOff model.FutexSnoop model.Syscall].
  unfold syscallHandler. rewrite Hl. cbn [go_bind]. rewrite Hv. cbn [go_bind]. unfold one_metric. by rewrite Ht.
Qed.

Definition syscall_block (ev : syscall_event) (stack : list Z) : DataBlock :=
  NewDataBlock model.Syscall (syscall_labels ev stack) now [NewIntMetric model.SyscallMetricName (s64 (dur_us ev))].

(** The event of a record, and its block, which does not depend on the detector. *)
Lemma syscall_record_exported ev rest s :
  syscall_event_typed ev -> well_formed syscall_event_layout (syscall_event_members ev) ->
  is_u32 (ev_syscall_id ev) ->
  exists e s' kern user,
    syscall_HandleEvent bcc gof evict stack_map now Arch
      (encode syscall_event_layout (syscall_event_members ev) ++ rest) s = Returned ([e], s') /\
    forall c, cpu_ProcessEvent boot fmt e c = Returned (c, Some (syscall_block ev (kern ++ bytes_of "----" ++ user))).
Proof.
  intros Hev Hwf Hid. unfold syscall_HandleEvent.
  destruct (syscall_of_record ev rest Hev Hwf Hid) as (Hpid & Htid & Hdur & Hu & Hk & Hsys & Hcomm).
  set (ev' := syscall_of_members _) in *. clearbody ev'. cbv zeta.
  rewrite Hpid, Htid, Hdur, Hu, Hk, Hsys, Hcomm, (uN_id 32 (ev_syscall_id ev)) by done.
  destruct (both_stacks_returns bcc gof evict stack_map Hstacks (s32 (k_stack_id ev)) (s32 (u_stack_id ev))
    (task_Pid (Task (SetUserAttributeWithByteBuf "syscall" (bytes_of (SyscallIdToName Arch (ev_syscall_id ev)))
      (SetUserAttributeWithByteBuf "comm" (replicate 4 0 ++ take 12 (Syscall.ev_comm ev))
        (SetUserAttributeWithUint32 "pid" (Syscall.ev_pid ev)
          (SetUserAttributeWithUint64 "dur_us" (dur_us ev)
            (set_task (Syscall.ev_pid ev) (Syscall.ev_tid ev) (replicate 4 0 ++ take 12 (Syscall.ev_comm ev))
              (cpu_event now model.Syscall)))))))) s) as (kern & user & s' & ->). cbn [go_bind].
  eexists _, s', kern, user. split; [done|]. intros c. destruct Hev.
  apply cpu_syscall_event; unfold_setters; rewrite ?Name_set, ?TimeStamp_set; [done | done | |].
  - unfold formatSyscallLabels. note_attributes Hholds. rewrite (for_attributes_fold _ _ _ _ Hholds). run_labels.
    f_equal. unfold task_labels. rewrite !Task_set. cbn [Task set_task task_Pid task_Tid task_Comm new_task].
    rewrite drop_zeros_app. unfold id.
    rewrite (s64_small (Syscall.ev_pid ev)), (s64_small (Syscall.ev_tid ev)) by done.
    unfold syscall_labels. same_labels.
  - note_attributes Hholds. get_attribute Hholds. by apply GetUint_uint64.
Qed.

(** C29: every record of the slow-syscall tracer becomes one block with the ids of the task,
    the call's name by its number, its duration and the two stacks, kernel first; of
    the thread's name the last four of its sixteen bytes are lost. *)
Theorem syscall_events_exported ev rest s c :
  syscall_event_typed ev -> well_formed syscall_event_layout (syscall_event_members ev) ->
  is_u32 (ev_syscall_id ev) ->
  exists e s' kern user,
    let b := NewDataBlock model.Syscall (syscall_labels ev (kern ++ bytes_of "----" ++ user)) now
      [NewIntMetric model.SyscallMetricName (s64 (dur_us ev))] in
    syscall_HandleEvent bcc gof evict stack_map now Arch
      (encode syscall_event_layout (syscall_event_members ev) ++ rest) s = Returned ([e], s') /\
    cpu_ProcessEvent boot fmt e c = Returned (c, Some b) /\ Consume b = [b].
Proof.
  intros Hev Hwf Hid. destruct (syscall_record_exported ev rest s Hev Hwf Hid) as (e & s' & kern & user & Hh & Hb).
  exists e, s', kern, user. split; [exact Hh|]. split; [apply Hb | done].
Qed.

(** * File statistics *)

(** What is in memory from the name of the file on, and from the name of the thread on;
    [rest] is behind the element. *)
Definition file_memory (i : cache_info) (rest : list Z) : list Z :=
  ci_file i ++ le_bytes 8 (read_size i) ++ le_bytes 8 (write_size i) ++ le_bytes 8 (cnt i) ++ rest.
Definition comm_memory (i : cache_info) (rest : list Z) : list Z := ci_comm i ++ file_memory i rest.

(** The labels of an element of the map. *)
Definition cachestat_labels (i : cache_info) (rest : list Z) : AttributeMap := list_to_map [
  (model.Comm, stringValue (GoString (comm_memory i rest))); (model.File, stringValue (GoString (file_memory i rest)));
  (model.Pid, intValue (ci_pid i)); (model.Cpu, intValue (ci_cpu i)); (model.Count, intValue (s64 (cnt i)));
  (model.ReadSizeM, intValue (s64 (read_size i))); (model.WriteSizeM, intValue (s64 (write_size i)))].

(** A string ends in its array if there is a zero in it, or else behind it. *)
Lemma GoString_app l l' :
  GoString (l ++ l') = if decide (0 ∈ l) then GoString l else l ++ GoString l'.
Proof.
  induction l as [|b l IH]; [done|]. cbn [app GoString]. destruct (Z.eqb_spec b 0) as [-> | Hb].
  - by rewrite decide_True by left.
  - rewrite IH. rewrite (decide_ext (0 ∈ b :: l) (0 ∈ l)) by (rewrite elem_of_cons; naive_solver).
    by case_decide.
Qed.

Lemma cache_info_fits i : cache_info_typed i -> fits (leaves 0 cache_info_layout) (cache_info_members i).
Proof.
  intros Hi. apply fits_sized.
  change (leaves 0 cache_info_layout).*2 with
    ([4; 4]%nat ++ replicate 16 1%nat ++ replicate 64 1%nat ++ [8; 8; 8]%nat).
  destruct Hi. unfold cache_info_members. cbn [app].
  repeat first [apply sized_cons; [done|] | apply sized_chars; [done|] | apply sized_nil].
Qed.

Lemma cache_info_memory i rest :
  cache_info_typed i ->
  let memory := encode cache_info_layout (cache_info_members i) ++ rest in
  memory_from cache_info_layout 2 memory = comm_memory i rest /\
  memory_from cache_info_layout 18 memory = file_memory i rest.
Proof.
  intros Hi. pose proof (cit_comm i Hi) as [Hc Hcr]. pose proof (cit_file i Hi) as [Hf Hfr].
  set (sizes := [4; 4]%nat ++ replicate 16 1%nat ++ replicate 64 1%nat ++ [8; 8; 8]%nat).
  assert (E : encode cache_info_layout (cache_info_members i) =
    le_bytes 4 (ci_pid i) ++ le_bytes 4 (ci_cpu i) ++ ci_comm i ++ ci_file i ++
    le_bytes 8 (read_size i) ++ le_bytes 8 (write_size i) ++ le_bytes 8 (cnt i)).
  { rewrite (encode_pack _ sizes); [|by vm_compute | by vm_compute | by apply cache_info_fits].
    unfold sizes, cache_info_members.
    rewrite (pack_app [4; 4]%nat _ [ci_pid i; ci_cpu i]) by done.
    rewrite (pack_app (replicate 16 1%nat)), (pack_app (replicate 64 1%nat)) by (by rewrite length_replicate).
    rewrite (pack_bytes_n 16), (pack_bytes_n 64) by done. cbn [pack]. by rewrite !app_nil_r, <- !app_assoc. }
  cbv zeta. rewrite E. unfold memory_from, comm_memory, file_memory.
  change (Z.to_nat (default 0 (fst <$> leaves 0 cache_info_layout !! 2%nat))) with 8%nat.
  change (Z.to_nat (default 0 (fst <$> leaves 0 cache_info_layout !! 18%nat))) with 24%nat.
  rewrite <- !app_assoc. split.
  - rewrite (app_assoc (le_bytes 4 _)). by rewrite drop_app_length' by (by rewrite length_app, !length_le_bytes).
  - rewrite (app_assoc (le_bytes 4 _)), (app_assoc (_ ++ _)).
    by rewrite drop_app_length' by (by rewrite !length_app, !length_le_bytes, Hc).
Qed.

Lemma cache_info_of_record i rest :
  cache_info_typed i ->
  cache_info_of_bytes (encode cache_info_layout (cache_info_members i) ++ rest) = i.
Proof.
  intros Hi. pose proof (cit_comm i Hi) as Hcomm. pose proof (cit_file i Hi) as Hfile.
  unfold cache_info_of_bytes. rewrite c_read_encode; [|by vm_compute|].
  - destruct Hcomm as [Hc _], Hfile as [Hf _]. assert (Hc' : length (ci_comm i) = 16%nat) by exact Hc.
    assert (Hf' : length (ci_file i) = 64%nat) by exact Hf. clear Hc Hf. unfold cache_info_members.
    set (sizes := [read_size i; write_size i; cnt i]).
    assert (Hm : forall j, member ([ci_pid i; ci_cpu i] ++ ci_comm i ++ ci_file i ++ sizes) (82 + j) =
      member sizes j).
    { intros j. unfold member. rewrite (lookup_app_r [_; _]), (lookup_app_r (ci_comm i)), (lookup_app_r (ci_file i))
        by (cbn [length]; lia). do 2 f_equal. cbn [length]. lia. }
    rewrite (Hm 0%nat : member _ 82 = _), (Hm 1%nat : member _ 83 = _), (Hm 2%nat : member _ 84 = _).
    unfold members.
    change (drop 2 ([ci_pid i; ci_cpu i] ++ ?l)) with l.
    change (drop 18 ([ci_pid i; ci_cpu i] ++ ?l)) with (drop 16 l).
    rewrite (take_app_length' (ci_comm i)), (drop_app_length' (ci_comm i)), (take_app_length' (ci_file i)) by done.
    by destruct i.
  - by apply cache_info_fits.
Qed.

Definition cachestat_block (i : cache_info) (rest : list Z) : DataBlock :=
  NewDataBlock model.CacheStat (cachestat_labels i rest) now [NewIntMetric model.CacheStatMetricName 0].

Lemma cachestat_exported i rest :
  cache_info_typed i ->
  mem_ProcessEvent (cachestat_event now (encode cache_info_layout (cache_info_members i) ++ rest)) =
    Returned (Some (cachestat_block i rest)).
Proof.
  intros Hi. unfold mem_ProcessEvent, cachestat_event. rewrite cache_info_of_record by done.
  destruct (cache_info_memory i rest Hi) as [-> ->]. unfold_setters.
  rewrite !Name_set. cbn [Name event_header String.eqb Ascii.eqb Bool.eqb model.CacheStat].
  unfold cachestatHandler. destruct Hi.
  match goal with |- context [formatCacheStat ?e] =>
    eassert (Hholds : holds e _) by solve_holds;
    assert (Hl : formatCacheStat e = Returned (cachestat_labels i rest)) end.
  - unfold formatCacheStat. rewrite (for_attributes_fold _ _ _ _ Hholds). run_labels. f_equal. unfold id.
    rewrite (s64_small (ci_pid i)), (s64_small (ci_cpu i)) by done. unfold cachestat_labels. same_labels.
  - rewrite Hl. cbn [go_bind]. get_attribute Hholds. cbn [go_bind]. unfold one_metric. by rewrite !TimeStamp_set.
Qed.

(** * Profile counts *)

(** The event of one element, its block when the server is the default one. *)
Definition oncpu_labels (it : sf) (stack : list Z) : AttributeMap := list_to_map [
  (model.Stack, stringValue stack); (model.Count, intValue (sf_count it));
  (model.Pid, intValue 0); (model.Tid, intValue 0); (model.Comm, stringValue [])].
Definition oncpu_block (it : sf) (stack : list Z) : DataBlock :=
  NewDataBlock model.OnCpu (oncpu_labels it stack) now [NewIntMetric model.OnCpuMetricName (sf_count it)].

Lemma profile_key_fits k : profile_key_typed k -> fits (leaves 0 profile_key_layout) (profile_key_members k).
Proof.
  intros Hk. apply fits_sized. unfold profile_key_members. cbn [app]. rewrite <- (app_nil_r (pk_comm k)).
  change (leaves 0 profile_key_layout).*2 with ([4; 8; 8]%nat ++ replicate 16 1%nat ++ []). cbn [app].
  destruct Hk. repeat (apply sized_cons; [first [done | by apply uN_range]|]).
  apply (sized_chars 16); [done | apply sized_nil].
Qed.

Lemma profile_key_read k rest :
  profile_key_typed k -> profile_key_of_bytes (encode profile_key_layout (profile_key_members k) ++ rest) = k.
Proof.
  intros Hk. destruct (pkt_comm k Hk) as [Hl _]. unfold profile_key_of_bytes.
  rewrite c_read_encode; [|by vm_compute | by apply profile_key_fits].
  destruct Hk as [_ Hkern Huser _]. destruct k as [pid kern user comm].
  cbn [pk_comm OnCpu.kern_stack OnCpu.user_stack] in *. unfold profile_key_members, members, member.
  cbn [pk_comm pk_pid OnCpu.kern_stack OnCpu.user_stack app drop lookup list_lookup default].
  assert (Hk1 : s64 (u64 kern) = kern) by (rewrite sN_uN by lia; apply sN_id; [lia | exact Hkern]).
  assert (Hu1 : s64 (u64 user) = user) by (rewrite sN_uN by lia; apply sN_id; [lia | exact Huser]).
  unfold id. rewrite drop_0, Hk1, Hu1, take_ge; [done|]. rewrite Hl. done.
Qed.

(** The name is the last member of the key, behind four bytes of padding after the process. *)
Lemma profile_key_memory k rest :
  profile_key_typed k ->
  memory_from profile_key_layout 3 (encode profile_key_layout (profile_key_members k) ++ rest) = pk_comm k ++ rest.
Proof.
  intros Hk. destruct (pkt_comm k Hk) as [Hl Hr]. destruct k as [pid kern user comm]. cbn [pk_comm] in *.
  assert (E : encode profile_key_layout (profile_key_members (Build_profile_key_t pid kern user comm)) =
    (le_bytes 4 pid ++ replicate 4 0 ++ le_bytes 8 (u64 kern) ++ le_bytes 8 (u64 user)) ++
    pack (replicate 16 1%nat) comm).
  { apply list_of_16 in Hl as (? & ? & ? & ? & ? & ? & ? & ? & ? & ? & ? & ? & ? & ? & ? & ? & ->). reflexivity. }
  rewrite E, pack_bytes_n by done. unfold memory_from.
  change (Z.to_nat (default 0 (fst <$> leaves 0 profile_key_layout !! 3%nat))) with 24%nat.
  rewrite <- app_assoc. by rewrite drop_app_length'.
Qed.

(** An element of the map as the agent reads it: its count, and the process and the thread's
    name of its key. *)
Lemma sf_of_element k v rest :
  profile_key_typed k -> is_u32 v ->
  let it := sf_of stack_map (encode profile_key_layout (profile_key_members k) ++ rest, le_bytes 4 v) in
  sf_count it = v /\ sf_pid it = pk_pid k /\ sf_comm it = GoString (pk_comm k ++ rest) /\
  sf_kStack it = default [] (getStack stack_map (s32 (OnCpu.kern_stack k))) /\
  sf_uStack it = default [] (getStack stack_map (s32 (OnCpu.user_stack k))).
Proof.
  intros Hk Hv. unfold sf_of. cbn [fst snd]. rewrite profile_key_read, profile_key_memory by done.
  cbn [sf_count sf_pid sf_comm sf_kStack sf_uStack].
  split; [|done]. rewrite take_ge by (by rewrite length_le_bytes). by rewrite le_value_bytes.
Qed.

Lemma walk_default st line pid us s :
  (st = [] \/ (1016 <= length st)%nat) ->
  exists text s', WalkStack bcc gof evict line st pid us s = Returned (line ++ text, s').
Proof.
  intros [-> | Hlen].
  - exists [], s. unfold WalkStack. cbn. by rewrite app_nil_r.
  - rewrite WalkStack_returns by done. destruct (resolve_all _ _ _ _ _ _). eauto.
Qed.

Lemma oncpu_exported rate it s c :
  (sf_uStack it = [] \/ (1016 <= length (sf_uStack it))%nat) ->
  (sf_kStack it = [] \/ (1016 <= length (sf_kStack it))%nat) ->
  is_u32 (sf_count it) -> is_u32 (sf_pid it) -> is_u32 rate -> Server c = DefaultServer ->
  exists e s' stack,
    oncpu_event bcc gof evict now rate it s = Returned (e, s') /\
    cpu_ProcessEvent boot fmt e c = Returned (c <| sampleRate := rate |>, Some (oncpu_block it stack)).
Proof.
  intros Hu Hk Hcount Hpid Hrate Hserver. unfold oncpu_event.
  destruct (walk_default (sf_uStack it) (sf_comm it ++ bytes_of ";") (sf_pid it) true s Hu) as (user & s1 & ->).
  cbn [go_bind].
  destruct (walk_default (sf_kStack it) ((sf_comm it ++ bytes_of ";") ++ user) 0 false s1 Hk) as (kern & s2 & ->).
  cbn [go_bind]. rewrite <- !app_assoc. generalize (sf_comm it ++ bytes_of ";" ++ user ++ kern). intros stack.
  eexists _, s2, stack. split; [done|]. unfold_setters.
  unfold cpu_ProcessEvent. rewrite !Name_set.
  cbn [Name event_header String.eqb Ascii.eqb Bool.eqb model.OffCpu model.OnCpu]. unfold oncpuHandler.
  note_attributes Hholds. rewrite (for_attributes_fold _ _ _ _ Hholds).
  cbn [go_fold app]. unfold oncpu_attribute.
  cbn [Key kv_uint32 kv_bytes String.eqb Ascii.eqb Bool.eqb]. rewrite !GetUint_uint32 by done.
  cbn [go_bind oa_count oa_stack oa_rate oa_labels Value kv_bytes Server]. rewrite Hserver.
  change (negb (DefaultServer =? DefaultServer)%string) with false. cbv iota.
  f_equal. f_equal; [by rewrite (uN_id 32 rate)|]. f_equal. unfold one_metric, oncpu_block.
  rewrite !TimeStamp_set, (s64_small (sf_count it)) by done. cbn [TimeStamp event_header]. unfold task_labels. rewrite !Task_set.
  cbn [Task event_header new_event new_task task_Pid task_Tid task_Comm]. rewrite (s64_small 0) by done.
  unfold oncpu_labels. apply (f_equal (fun l => NewDataBlock model.OnCpu l now _)). same_labels.
Qed.

(** The label of a file's name: the name up to its zero, or the whole 64 bytes and the bytes
    of the counters behind them. *)
Lemma file_label i rest :
  Labels (cachestat_block i rest) !! model.File = Some (stringValue
    (if decide (0 ∈ ci_file i) then GoString (ci_file i)
     else ci_file i ++ GoString (le_bytes 8 (read_size i) ++ le_bytes 8 (write_size i) ++ le_bytes 8 (cnt i) ++ rest))).
Proof.
  rewrite <- GoString_app.
  assert (Hlabel : Labels (cachestat_block i rest) !! model.File = cachestat_labels i rest !! model.File) by done.
  rewrite Hlabel. unfold cachestat_labels. rewrite label_of_list. reflexivity.
Qed.

(** C30: the readers of the maps: every element of the page-cache statistics becomes a block
    whose metric is 0, whatever was read and written, because it is taken from an
    attribute that no event has, while its labels are those of the element - but for the
    name of the file: a name of 64 bytes or more has no zero in its array and goes on with
    the bytes of the counters behind it, up to the first zero in memory.  Every count of
    the profiler becomes a block, if the server is the default one, with its stack and its
    count, but the ids and the name of the task are 0 and empty. *)
Theorem map_readers_exported i rest rate it s c :
  cache_info_typed i -> 0 ∈ file_memory i rest ->
  (sf_uStack it = [] \/ (1016 <= length (sf_uStack it))%nat) ->
  (sf_kStack it = [] \/ (1016 <= length (sf_kStack it))%nat) ->
  is_u32 (sf_count it) -> is_u32 (sf_pid it) -> is_u32 rate -> Server c = DefaultServer ->
  (exists b, mem_ProcessEvent (cachestat_event now (encode cache_info_layout (cache_info_members i) ++ rest)) =
      Returned (Some b) /\ Consume b = [b] /\ Labels b = cachestat_labels i rest /\
      Metrics b = [NewIntMetric model.CacheStatMetricName 0] /\
      Labels b !! model.File = Some (stringValue (if decide (0 ∈ ci_file i) then GoString (ci_file i)
        else ci_file i ++ GoString (le_bytes 8 (read_size i) ++ le_bytes 8 (write_size i) ++
          le_bytes 8 (cnt i) ++ rest)))) /\
  (exists e s' stack b, oncpu_event bcc gof evict now rate it s = Returned (e, s') /\
      cpu_ProcessEvent boot fmt e c = Returned (c <| sampleRate := rate |>, Some b) /\ Consume b = [b] /\
      Metrics b = [NewIntMetric model.OnCpuMetricName (sf_count it)] /\
      Labels b !! model.Stack = Some (stringValue stack) /\ Labels b !! model.Pid = Some (intValue 0) /\
      Labels b !! model.Tid = Some (intValue 0) /\ Labels b !! model.Comm = Some (stringValue [])).
Proof.
  intros Hi _ Hu Hk Hcount Hpid Hrate Hserver. split.
  - exists (cachestat_block i rest). split; [by apply cachestat_exported|]. do 3 (split; [done|]). apply file_label.
  - destruct (oncpu_exported rate it s c Hu Hk Hcount Hpid Hrate Hserver) as (e & s' & stack & He & Hb).
    exists e, s', stack, (oncpu_block it stack).
    split; [exact He|]. split; [exact Hb|]. split; [done|]. split; [done|].
    assert (Hlabel : forall key, Labels (oncpu_block it stack) !! key = oncpu_labels it stack !! key) by done.
    rewrite !Hlabel. unfold oncpu_labels. rewrite !label_of_list. split_and!; reflexivity.
Qed.
End Other.

(** * Examples *)

Definition no_bcc (pid addr : Z) (refresh : bool) : bcc_symbol := {|
  bcc_res := -1; bcc_name := []; bcc_demangle_name := []; bcc_module := []; bcc_offset := 0 |}.

Lemma demo_syscall_typed : syscall_event_typed demo_syscall_event.
Proof. split; try (vm_compute; split; [discriminate | reflexivity]); split; [reflexivity|]. repeat constructor; done. Qed.

(** The thread's name is [abcdefghijklmnop]. *)
Lemma syscall_events_exported_witness :
  exists e s' kern user,
    syscall_HandleEvent no_bcc (fun _ => None) (fun _ sc => sc) (fun _ => None) 9 "amd64"
      (encode syscall_event_layout (syscall_event_members demo_syscall_event) ++ [0; 0; 0; 0]) NewSymSession =
      Returned ([e], s') /\
    cpu_ProcessEvent 0 (fun _ => []) e NewCpuDetector = Returned (NewCpuDetector, Some
      (NewDataBlock model.Syscall (syscall_labels "amd64" demo_syscall_event (kern ++ bytes_of "----" ++ user)) 9
        [NewIntMetric model.SyscallMetricName 20000])).
Proof.
  destruct (syscall_events_exported no_bcc (fun _ => None) (fun _ sc => sc) (fun _ => None) 9 ltac:(discriminate)
    0 (fun _ => []) "amd64" demo_syscall_event [0; 0; 0; 0] NewSymSession NewCpuDetector demo_syscall_typed)
    as (e & s' & kern & user & H1 & H2 & _).
  - apply fits_sized, sizedb_sized. vm_compute. reflexivity.
  - vm_compute. split; [discriminate | reflexivity].
  - exists e, s', kern, user. split; [exact H1 | exact H2].
Defined.

Definition demo_info : cache_info := {|
  ci_pid := 7; ci_cpu := 1; ci_comm := replicate 16 97; ci_file := replicate 64 98; read_size := 4097;
  write_size := 512; cnt := 3 |}.
Definition demo_sf : sf := {|
  sf_pid := 7; sf_count := 5; sf_kStack := []; sf_uStack := []; sf_comm := bytes_of "abc" |}.

Lemma demo_info_typed : cache_info_typed demo_info.
Proof.
  split; try (vm_compute; split; [discriminate | reflexivity]);
    (split; [reflexivity|]; apply Forall_replicate; vm_compute; split; [discriminate | reflexivity]).
Qed.

(** The name of the file has 64 characters, and the 4097 bytes that were read add two. *)
Lemma map_readers_exported_witness :
  exists b, mem_ProcessEvent (cachestat_event 9 (encode cache_info_layout (cache_info_members demo_info) ++ [])) =
      Returned (Some b) /\ Metrics b = [NewIntMetric model.CacheStatMetricName 0] /\
      write_size demo_info = 512 /\
      Labels b !! model.File = Some (stringValue (replicate 64 98 ++ [1; 16])).
Proof.
  destruct (map_readers_exported no_bcc (fun _ => None) (fun _ sc => sc) 9 0 (fun _ => []) demo_info []
    99 demo_sf NewSymSession (NewCpuDetector <| Server := DefaultServer |>) demo_info_typed) as ((b & H1 & _ & _ & H2 & H3) & _);
    [ | by left | by left | by vm_compute | by vm_compute | by vm_compute | reflexivity |].
  - apply (list_elem_of_lookup_2 _ 66%nat). vm_compute. reflexivity.
  - exists b. split; [exact H1|]. split; [exact H2|]. split; [reflexivity|]. rewrite H3. vm_compute. reflexivity.
Defined.
