(* ===== verification/OnCpuReset.v ===== *)
(** How the agent empties the map of counts while the profiler goes on: Reset,
    getCountsMapValues and clearCountsMap of pkg/ebpf/cpu/oncpu.go, against the samples of
    pkg/ebpf/cpu/oncpu/oncpu.bpf.c.

    Reset reads the elements of [counts] and deletes them, sends their events, and then
    deletes the keys that it has not deleted yet.  The reading is one call if the kernel
    can do that, which deletes every element with its lookup; when nothing was read so,
    the agent iterates over the map.  Samples are taken at any time and on several CPUs:
    every access of the agent, and every single access of a sample (its lookup, its load
    of the count and its store are three), is a step of its own. *)
From S2P Require Import Prelude Prog BpfMap OnCpu OnCpuSpec.
Open Scope Z_scope.
Open Scope bpf_scope.

(** Where [Reset] is, with the elements that it has read ([keys] and [values]), or the keys
    that it still deletes. *)
Inductive phase :=
| Idle
| Batching (kvs : list (profile_key_t * Z))
| Iterating (kvs : list (profile_key_t * Z))
| Read (kvs : list (profile_key_t * Z)) (batch : bool)
| Clearing (keys : list profile_key_t).

(** Whether an element of this key has been read without being deleted. *)
Definition already_read (p : phase) (k : profile_key_t) : bool :=
  match p with
  | Iterating kvs | Read kvs false => bool_decide (k ∈ kvs.*1)
  | Clearing keys => bool_decide (k ∈ keys)
  | _ => false
  end.

(** What may happen next: a sample starts or performs its next access; the ticker and
    GetValueAndDeleteBatch, which takes one element after the other; the iteration; the
    events; clearCountsMap. *)
Inductive move :=
| StartSample (e : bpf_env) | Access (i : nat)
| Tick | BatchElement (k : profile_key_t) | BatchEnd
| IterateElement (k : profile_key_t) | IterateEnd
| SendEvents | ClearKey | ClearEnd.

Section Reset.
Context {BM : BpfMaps}.

(** A sample on its way: [fl_steps] of its accesses are done, [fl_prog] is the rest. *)
Record flight := { fl_env : bpf_env; fl_steps : nat; fl_prog : prog oc_state Z }.

(** The key of a sample, and whether it has looked its element up: its accesses are the
    lookup of [args], that of [counts], the load and the store. *)
Definition fl_key (fl : flight) : profile_key_t := sample_key (fl_env fl).
Definition looked_up (fl : flight) : bool := (2 <=? fl_steps fl)%nat.
Definition holding (k : profile_key_t) (fls : list flight) : bool :=
  existsb (fun fl => looked_up fl && bool_decide (fl_key fl = k)) fls.

(** [sent] are the elements whose events were sent.  The last three are not in the code;
    they collect keys.  [missed]: of the samples that were counted in an element after it
    had been read.  [disturbed]: deleted while a sample had looked its element up and had
    not counted itself yet.  [raced]: counted by a sample while another one was so far. *)
Record reader := {
  rd_maps : oc_state; inflight : list flight; rd_phase : phase; sent : list (profile_key_t * Z);
  missed : list profile_key_t; disturbed : list profile_key_t; raced : list profile_key_t }.

#[export] Instance eta_reader : Eta reader := fun r => {|
  rd_maps := rd_maps r; inflight := inflight r; rd_phase := rd_phase r; sent := sent r;
  missed := missed r; disturbed := disturbed r; raced := raced r |}.

Definition reader_init (a : profile_bss_args_t) : reader := {|
  rd_maps := oc_init (Some a); inflight := []; rd_phase := Idle; sent := [];
  missed := []; disturbed := []; raced := [] |}.

(** Deleting a key from [counts]. *)
Definition delete_count (k : profile_key_t) (s : oc_state) : oc_state :=
  s <| counts := (bm_delete (counts s) k).2 |>.

(** The agent deletes a key and goes on with [p]. *)
Definition take_key (k : profile_key_t) (p : phase) (r : reader) : reader :=
  r <| rd_maps := delete_count k (rd_maps r) |> <| rd_phase := p |>
    <| disturbed := disturbed r ++ (if holding k (inflight r) then [k] else []) |>.

(** The sample [i] has performed its last access, which left the maps [s]. *)
Definition end_sample (i : nat) (fl : flight) (s : oc_state) (r : reader) : reader :=
  let k := fl_key fl in
  let rest := delete i (inflight r) in
  r <| rd_maps := s |> <| inflight := rest |>
    <| missed := missed r ++ (if looked_up fl && already_read (rd_phase r) k then [k] else []) |>
    <| raced := raced r ++ (if looked_up fl && holding k rest then [k] else []) |>.

(** One move, unless it is not possible; with the sample that it finishes. *)
Definition reader_move (r : reader) (m : move) : option (reader * option bpf_env) :=
  match m, rd_phase r with
  | StartSample e, _ =>
      if bool_decide (is_u64 (current_pid_tgid e)) then
        Some (r <| inflight := inflight r ++ [{| fl_env := e; fl_steps := 0; fl_prog := do_perf_event e |}] |>, None)
      else None
  | Access i, _ =>
      fl ← inflight r !! i;
      ps ← step1 (fl_prog fl) (rd_maps r);
      match ps.1 with
      | Ret _ => Some (end_sample i fl ps.2 r, Some (fl_env fl))
      | Act _ _ => Some (r <| rd_maps := ps.2 |>
          <| inflight := <[i := {| fl_env := fl_env fl; fl_steps := S (fl_steps fl); fl_prog := ps.1 |}]> (inflight r) |>, None)
      end
  | Tick, Idle => Some (r <| rd_phase := Batching [] |>, None)
  | BatchElement k, Batching kvs =>
      v ← bm_lookup (counts (rd_maps r)) k; Some (take_key k (Batching (kvs ++ [(k, v)])) r, None)
  | BatchEnd, Batching kvs =>
      (* "batch failed or unsupported or just unlucky and got 0 stack-traces" *)
      Some (r <| rd_phase := match kvs with [] => Iterating [] | _ => Read kvs true end |>, None)
  | IterateElement k, Iterating kvs =>
      if decide (k ∈ kvs.*1) then None else
      v ← bm_lookup (counts (rd_maps r)) k; Some (r <| rd_phase := Iterating (kvs ++ [(k, v)]) |>, None)
  | IterateEnd, Iterating kvs => Some (r <| rd_phase := Read kvs false |>, None)
  | SendEvents, Read kvs batch =>
      Some (r <| sent := sent r ++ kvs |> <| rd_phase := Clearing (if batch then [] else kvs.*1) |>, None)
  | ClearKey, Clearing (k :: keys) => Some (take_key k (Clearing keys) r, None)
  | ClearEnd, Clearing [] => Some (r <| rd_phase := Idle |>, None)
  | _, _ => None
  end.

(** The moves one after the other, and the samples that were finished on the way. *)
Fixpoint reader_moves (r : reader) (ms : list move) : option (reader * list bpf_env) :=
  match ms with
  | [] => Some (r, [])
  | m :: ms => ro ← reader_move r m; re ← reader_moves ro.1 ms; Some (re.1, option_list ro.2 ++ re.2)
  end.

(** Any run. *)
Inductive reader_runs (r0 : reader) : list bpf_env -> reader -> Prop :=
| ReaderNil : reader_runs r0 [] r0
| ReaderStep es r1 m r2 o :
    reader_runs r0 es r1 -> reader_move r1 m = Some (r2, o) -> reader_runs r0 (es ++ option_list o) r2.

Lemma reader_moves_runs r0 es0 r ms r' es :
  reader_runs r0 es0 r -> reader_moves r ms = Some (r', es) -> reader_runs r0 (es0 ++ es) r'.
Proof.
  revert es0 r es. induction ms as [|m ms IH]; intros es0 r es Hr; cbn [reader_moves].
  - intros [= <- <-]. by rewrite app_nil_r.
  - intros H. apply bind_Some in H as ([r1 o] & Hm & H). apply bind_Some in H as ([r2 es2] & Hms & [= <- <-]).
    cbn [fst snd] in *. rewrite app_assoc. eapply IH; [|exact Hms]. by eapply ReaderStep.
Qed.

(** The samples of a key that were read or are still to be read. *)
Definition sent_count (k : profile_key_t) (kvs : list (profile_key_t * Z)) : Z :=
  sumZ (fun kv => if decide (kv.1 = k) then kv.2 else 0) kvs.
Definition unsent (k : profile_key_t) (r : reader) : Z :=
  match rd_phase r with
  | Batching kvs | Read kvs true => sent_count k kvs + count_of k (rd_maps r)
  | Iterating kvs | Read kvs false =>
      if decide (k ∈ kvs.*1) then sent_count k kvs else count_of k (rd_maps r)
  | Clearing keys => if decide (k ∈ keys) then 0 else count_of k (rd_maps r)
  | Idle => count_of k (rd_maps r)
  end.
End Reset.

(** * Samples and rounds *)

Section Samples.
Context {BM : BpfMaps} {BL : BpfMapsLaws BM} (a : profile_bss_args_t).
Implicit Types (r : reader) (k : profile_key_t).

Lemma sent_count_app k kvs kvs' : sent_count k (kvs ++ kvs') = sent_count k kvs + sent_count k kvs'.
Proof. apply sumZ_app. Qed.
Lemma sent_count_one k k' v : sent_count k [(k', v)] = if decide (k' = k) then v else 0.
Proof. cbn. lia. Qed.
Lemma sent_count_none k kvs : k ∉ kvs.*1 -> sent_count k kvs = 0.
Proof.
  induction kvs as [|[k' v] kvs IH]; [done|]. cbn [fmap list_fmap fst]. intros Hk. unfold sent_count in *.
  rewrite sumZ_cons, IH by set_solver. rewrite decide_False by set_solver. done.
Qed.

Lemma count_of_delete k k' s : count_of k (delete_count k' s) = if decide (k' = k) then 0 else count_of k s.
Proof. unfold count_of. cbn. rewrite bm_lookup_delete. by case_decide. Qed.
Lemma count_of_Some k v s : bm_lookup (counts s) k = Some v -> count_of k s = v.
Proof. unfold count_of. by intros ->. Qed.

Lemma occurrences_app k ks ks' : occurrences k (ks ++ ks') = occurrences k ks + occurrences k ks'.
Proof. apply sumZ_app. Qed.
Lemma occurrences_single k k' : occurrences k [k'] = if decide (k' = k) then 1 else 0.
Proof. cbn. lia. Qed.
Lemma occurrences_bounds k ks : 0 <= occurrences k ks <= Z.of_nat (length ks).
Proof.
  induction ks as [|k' ks IH]; [done|]. unfold occurrences in *. rewrite sumZ_cons. cbn [length].
  case_decide; lia.
Qed.

(** What was read with its deletion: the elements sent, and those of the batch. *)
Definition removed (k : profile_key_t) (r : reader) : Z :=
  sent_count k (sent r) +
  match rd_phase r with Batching kvs | Read kvs true => sent_count k kvs | _ => 0 end.

(** What is to be sent of a key that the iteration has not read: its count. *)
Lemma unsent_removed k r :
  already_read (rd_phase r) k = false ->
  sent_count k (sent r) + unsent k r = removed k r + count_of k (rd_maps r).
Proof.
  unfold already_read, unsent, removed. destruct (rd_phase r) as [|kvs|kvs|kvs []|keys];
    repeat first [case_bool_decide | case_decide]; done || lia.
Qed.

(** * The samples in flight *)

(** How far a sample has come, the samples [ks] having been finished, and what it knows of
    its element.  Where nobody deleted the element it is still there, and the sample has
    not loaded more than what was counted since the last deletion; where nobody else
    counted either, what it knows is up to date. *)
Inductive flight_ok (ks : list profile_key_t) (r : reader) (fl : flight) : Prop :=
| FlStart :
    is_u64 (current_pid_tgid (fl_env fl)) -> fl_steps fl = 0%nat -> fl_prog fl = do_perf_event (fl_env fl) ->
    flight_ok ks r fl
| FlLookup :
    fl_steps fl = 1%nat -> samples a (fl_env fl) = true ->
    fl_prog fl = (count_sample (fl_key fl) ;;; Ret 0) -> flight_ok ks r fl
| FlInsert :
    fl_steps fl = 2%nat -> samples a (fl_env fl) = true ->
    fl_prog fl = ((map_update l_counts (fl_key fl) 1 BPF_NOEXIST ;;; Ret tt) ;;; Ret 0) ->
    (fl_key fl ∉ disturbed r -> fl_key fl ∉ raced r -> bm_lookup (counts (rd_maps r)) (fl_key fl) = None) ->
    flight_ok ks r fl
| FlLoad v0 :
    fl_steps fl = 2%nat -> samples a (fl_env fl) = true ->
    fl_prog fl = ((v <- load l_counts (fl_key fl) v0 id ;;
      store l_counts (fl_key fl) (fun _ => u32 (v + 1))) ;;; Ret 0) ->
    0 <= v0 <= occurrences (fl_key fl) ks ->
    (fl_key fl ∉ disturbed r -> is_Some (bm_lookup (counts (rd_maps r)) (fl_key fl))) ->
    flight_ok ks r fl
| FlStore v :
    fl_steps fl = 3%nat -> samples a (fl_env fl) = true ->
    fl_prog fl = (store l_counts (fl_key fl) (fun _ => u32 (v + 1)) ;;; Ret 0) ->
    0 <= v <= occurrences (fl_key fl) ks ->
    (fl_key fl ∉ disturbed r -> is_Some (bm_lookup (counts (rd_maps r)) (fl_key fl))) ->
    (fl_key fl ∉ disturbed r -> already_read (rd_phase r) (fl_key fl) = false ->
      removed (fl_key fl) r + v <= occurrences (fl_key fl) ks) ->
    (fl_key fl ∉ disturbed r -> fl_key fl ∉ raced r -> count_of (fl_key fl) (rd_maps r) = v) ->
    flight_ok ks r fl.

(** A step of somebody else that does not disturb the key of [fl] leaves what is known. *)
Record undisturbed (k : profile_key_t) (r r' : reader) : Prop := {
  un_removed : already_read (rd_phase r') k = false ->
    already_read (rd_phase r) k = false /\ removed k r' = removed k r;
  un_there : is_Some (bm_lookup (counts (rd_maps r)) k) -> is_Some (bm_lookup (counts (rd_maps r')) k);
  un_raced : k ∉ raced r' -> (k ∉ raced r) /\ bm_lookup (counts (rd_maps r')) k = bm_lookup (counts (rd_maps r)) k
}.

Lemma flight_ok_mono ks ks' r r' fl :
  flight_ok ks r fl -> occurrences (fl_key fl) ks <= occurrences (fl_key fl) ks' ->
  (looked_up fl = true -> fl_key fl ∉ disturbed r' ->
    (fl_key fl ∉ disturbed r) /\ undisturbed (fl_key fl) r r') ->
  flight_ok ks' r' fl.
Proof.
  intros Hfl Hle Hun. assert (Hlook : fl_steps fl = 2%nat \/ fl_steps fl = 3%nat -> looked_up fl = true).
  { unfold looked_up. by intros [-> | ->]. }
  destruct Hfl as [? ? ? | ? ? ? | Hs ? ? Hn | v0 Hs ? ? ? Hn | v Hs ? ? ? Hn Hr Hv].
  - by apply FlStart.
  - by apply FlLookup.
  - apply FlInsert; [done..|]. intros Hd Hra. destruct (Hun (Hlook (or_introl Hs)) Hd) as (Hd0 & [_ _ Hu]).
    destruct (Hu Hra) as [Hra0 ->]. by apply Hn.
  - apply (FlLoad _ _ _ v0); [done.. | lia |]. intros Hd.
    destruct (Hun (Hlook (or_introl Hs)) Hd) as (Hd0 & [_ Hu _]). by apply Hu, Hn.
  - apply (FlStore _ _ _ v); [done.. | lia | | |]; intros Hd;
      destruct (Hun (Hlook (or_intror Hs)) Hd) as (Hd0 & [Hu Ht Hw]).
    + by apply Ht, Hn.
    + intros Ha. destruct (Hu Ha) as [Ha0 ->]. specialize (Hr Hd0 Ha0). lia.
    + intros Hra. destruct (Hw Hra) as [Hra0 Hl]. unfold count_of. rewrite Hl. by apply Hv.
Qed.

(** * The run so far *)

(** The samples have room: no more keys than the map has elements, no more samples of a key
    than a counter counts. *)
Definition fits (ks : list profile_key_t) : Prop :=
  (size (list_to_set ks : gset profile_key_t) <= PROFILE_MAPS_SIZE)%nat /\ forall k, occurrences k ks < 2 ^ 32.

Lemma fits_app ks ks' : fits (ks ++ ks') -> fits ks.
Proof.
  intros [Hs Ho]. split.
  - etrans; [|exact Hs]. apply subseteq_size. rewrite list_to_set_app. set_solver.
  - intros k. specialize (Ho k). rewrite occurrences_app in Ho. pose proof (occurrences_bounds k ks'). lia.
Qed.

(** After the samples [ks]: the maps count no more than them, and what was sent and is
    still to be sent of a key is no more than its samples while none of its elements was
    deleted under a sample; it is all of them but the missed ones while no two samples
    raced either and there is room. *)
Record accounted (ks : list profile_key_t) r : Prop := {
  ac_args : args (rd_maps r) = Some a;
  ac_max : bm_max (counts (rd_maps r)) = PROFILE_MAPS_SIZE;
  ac_dom k : k ∈ bm_dom (counts (rd_maps r)) -> k ∈ ks;
  ac_range k : 0 <= count_of k (rd_maps r) <= occurrences k ks;
  ac_flights : Forall (flight_ok ks r) (inflight r);
  ac_le k : k ∉ disturbed r -> sent_count k (sent r) + unsent k r <= occurrences k ks;
  ac_eq k : k ∉ disturbed r -> k ∉ raced r -> fits ks ->
    sent_count k (sent r) + unsent k r + occurrences k (missed r) = occurrences k ks
}.

Lemma accounted_init : accounted [] (reader_init a).
Proof.
  split; cbn.
  - done.
  - apply bm_max_create.
  - intros k. rewrite bm_elem_of_dom, bm_lookup_create. by intros [].
  - intros k. unfold count_of. cbn. by rewrite bm_lookup_create.
  - constructor.
  - intros k _. unfold unsent, count_of. cbn. by rewrite bm_lookup_create.
  - intros k _ _ _. unfold unsent, count_of. cbn. by rewrite bm_lookup_create.
Qed.

(** ** The agent's moves *)

(** A move that leaves the maps alone. *)
Lemma accounted_flights_moved ks r p sent' :
  accounted ks r ->
  let r' := r <| sent := sent' |> <| rd_phase := p |> in
  (forall k, sent_count k sent' + unsent k r' = sent_count k (sent r) + unsent k r) ->
  (forall k, already_read p k = false -> already_read (rd_phase r) k = false) ->
  accounted ks r'.
Proof.
  intros [Ha Hm Hd Hr Hfl Hle Heq] r' Hs Hp. split; cbn [r' rd_maps sent missed disturbed raced inflight].
  - done.
  - done.
  - done.
  - done.
  - eapply Forall_impl; [exact Hfl|]. intros fl Hok. apply (flight_ok_mono ks _ r); [done | done|].
    intros _ Hdi. split; [exact Hdi|]. split; [|done | done]. intros Hn. apply Hp in Hn as Hn0. split; [done|].
    set (k := fl_key fl) in *. pose proof (unsent_removed k r Hn0). pose proof (unsent_removed k r' Hn) as Hu'.
    specialize (Hs k). cbn [r' rd_maps sent] in Hu'. lia.
  - intros k Hk. rewrite Hs. by apply Hle.
  - intros k Hk Hk' Hfit. rewrite Hs. by apply Heq.
Qed.

Lemma holding_elem k fls fl : fl ∈ fls -> looked_up fl = true -> fl_key fl = k -> holding k fls = true.
Proof.
  intros Hin Hl <-. unfold holding. apply existsb_exists. exists fl. split; [by apply list_elem_of_In|].
  rewrite Hl. by rewrite bool_decide_true.
Qed.

(** A move that deletes [k], which has been read already or is read with its deletion. *)
Lemma accounted_take ks r k p :
  accounted ks r ->
  let r' := take_key k p r in
  (forall k', sent_count k' (sent r') + unsent k' r' = sent_count k' (sent r) + unsent k' r) ->
  (forall k', k' <> k -> already_read p k' = false -> already_read (rd_phase r) k' = false) ->
  accounted ks r'.
Proof.
  intros [Ha Hm Hd Hr Hfl Hle Heq] r' Hs Hp.
  assert (Hdis : forall k', k' ∉ disturbed r' -> k' ∉ disturbed r) by (cbn; set_solver).
  split; cbn [r' take_key rd_maps sent missed raced inflight].
  - done.
  - cbn. by rewrite bm_max_delete.
  - intros k' Hin. apply Hd. apply bm_elem_of_dom in Hin as [v Hv]. cbn in Hv. rewrite bm_lookup_delete in Hv.
    case_decide; [done|]. apply bm_elem_of_dom. by eexists.
  - intros k'. rewrite count_of_delete. pose proof (Hr k'). case_decide; lia.
  - apply Forall_forall. intros fl Hin. rewrite Forall_forall in Hfl.
    apply (flight_ok_mono ks _ r); [by apply Hfl | done|]. intros Hl Hdi. set (k1 := fl_key fl) in *.
    assert (Hne : k1 <> k).
    { intros E. apply Hdi. cbn. rewrite (holding_elem k (inflight r) fl) by done. set_solver. }
    split; [by apply Hdis|]. split; cbn [take_key rd_maps r' raced].
    + intros Hn. pose proof (Hp k1 Hne Hn) as Hn0. split; [done|].
      pose proof (unsent_removed k1 r Hn0). pose proof (unsent_removed k1 r' Hn) as Hu'. specialize (Hs k1).
      cbn [r' take_key rd_maps sent] in *. rewrite count_of_delete, decide_False in Hu' by congruence. lia.
    + cbn. by rewrite bm_lookup_delete, decide_False.
    + cbn. by rewrite bm_lookup_delete, decide_False.
  - intros k' Hk. rewrite Hs. by apply Hle, Hdis.
  - intros k' Hk Hk' Hfit. cbn [r' take_key sent] in Hs. rewrite Hs. apply Heq; [by apply Hdis | done | done].
Qed.

Lemma accounted_agent ks r m r' :
  accounted ks r -> reader_move r m = Some (r', None) ->
  match m with StartSample _ | Access _ => False | _ => True end -> accounted ks r'.
Proof.
  intros Hac Hm _'. unfold reader_move in Hm.
  destruct m as [| | |k| |k| | | |]; [done | done | ..]; clear _'; destruct (rd_phase r) as [|kvs|kvs|kvs b|keys] eqn:Hp; try done.
  - injection Hm as <-. refine (accounted_flights_moved ks r (Batching []) (sent r) Hac _ _); rewrite Hp; [|done].
    intros k'. unfold unsent. cbn. rewrite Hp. lia.
  - apply bind_Some in Hm as (v & Hl & [= <-]). apply count_of_Some in Hl.
    refine (accounted_take ks r k _ Hac _ _); rewrite ?Hp; [|done]. intros k'. unfold unsent.
    cbn [take_key rd_phase rd_maps sent]. rewrite Hp, sent_count_app, sent_count_one, count_of_delete.
    destruct (decide (k = k')) as [<- | Hne]; lia.
  - injection Hm as <-. refine (accounted_flights_moved ks r _ (sent r) Hac _ _); rewrite Hp; [|done].
    intros k'. unfold unsent. cbn [rd_phase rd_maps sent]. rewrite Hp. destruct kvs; [|done].
    cbn [fmap list_fmap]. rewrite decide_False by by apply not_elem_of_nil. cbn. lia.
  - case_decide as Hk; [done|]. apply bind_Some in Hm as (v & Hl & [= <-]). apply count_of_Some in Hl.
    refine (accounted_flights_moved ks r _ (sent r) Hac _ _); rewrite Hp.
    + intros k'. unfold unsent. cbn [rd_phase rd_maps sent]. rewrite Hp, fmap_app, sent_count_app, sent_count_one.
      cbn [fmap list_fmap fst]. destruct (decide (k = k')) as [<- | Hne].
      * rewrite (decide_True (P := k ∈ kvs.*1 ++ [k])) by (apply elem_of_app; right; left).
        rewrite decide_False, (sent_count_none k kvs) by done. lia.
      * rewrite Z.add_0_r. by rewrite (decide_ext (k' ∈ kvs.*1 ++ [k]) (k' ∈ kvs.*1)) by set_solver.
    + intros k'. cbn. rewrite !bool_decide_eq_false, fmap_app. set_solver.
  - injection Hm as <-. refine (accounted_flights_moved ks r _ (sent r) Hac _ _); rewrite Hp; [|done].
    intros k'. unfold unsent. cbn. by rewrite Hp.
  - injection Hm as <-. refine (accounted_flights_moved ks r _ (sent r ++ kvs) Hac _ _); rewrite Hp.
    + intros k'. unfold unsent. cbn [rd_phase rd_maps sent]. rewrite Hp, sent_count_app. destruct b.
      * rewrite decide_False by by apply not_elem_of_nil. lia.
      * case_decide; [lia|]. rewrite (sent_count_none k' kvs) by done. lia.
    + intros k'. by destruct b.
  - destruct keys as [|k keys]; [done|]. injection Hm as <-. refine (accounted_take ks r k _ Hac _ _); rewrite ?Hp.
    + intros k'. unfold unsent. cbn [take_key rd_phase rd_maps sent]. rewrite Hp, count_of_delete.
      destruct (decide (k = k')) as [<- | Hne].
      * rewrite (decide_True (P := k ∈ k :: keys)) by left. by case_decide.
      * by rewrite (decide_ext (k' ∈ k :: keys) (k' ∈ keys)) by set_solver.
    + intros k' Hne. cbn. rewrite !bool_decide_eq_false. set_solver.
  - destruct keys; [|done]. injection Hm as <-. refine (accounted_flights_moved ks r _ (sent r) Hac _ _); rewrite Hp; [|done].
    intros k'. unfold unsent. cbn [rd_phase rd_maps sent]. rewrite Hp. rewrite decide_False by by apply not_elem_of_nil. done.
Qed.

(** ** The accesses of a sample *)

(** What the last access of a sample leaves behind. *)
Record ended (ks : list profile_key_t) r (fl : flight) (s' : oc_state) : Prop := {
  en_samples : samples a (fl_env fl) = looked_up fl;
  en_args : args s' = Some a;
  en_max : bm_max (counts s') = PROFILE_MAPS_SIZE;
  en_same : looked_up fl = false -> s' = rd_maps r;
  en_other k : fl_key fl <> k -> bm_lookup (counts s') k = bm_lookup (counts (rd_maps r)) k;
  en_there k : is_Some (bm_lookup (counts (rd_maps r)) k) -> is_Some (bm_lookup (counts s') k);
  en_range : 0 <= count_of (fl_key fl) s' <= occurrences (fl_key fl) ks + 1;
  en_le : fl_key fl ∉ disturbed r -> already_read (rd_phase r) (fl_key fl) = false ->
    removed (fl_key fl) r + count_of (fl_key fl) s' <= occurrences (fl_key fl) ks + 1;
  en_eq : looked_up fl = true -> fl_key fl ∉ disturbed r -> fl_key fl ∉ raced r ->
    fits (ks ++ [fl_key fl]) -> count_of (fl_key fl) s' = count_of (fl_key fl) (rd_maps r) + 1
}.

(** A sample that does not pass the filters ends with its first access. *)
Lemma ended_start ks r fl :
  accounted ks r -> looked_up fl = false -> samples a (fl_env fl) = false -> ended ks r fl (rd_maps r).
Proof.
  intros [Ha Hm Hd Hr Hfl Hle Heq] Hl Hs. pose proof (Hr (fl_key fl)). split; try done; [congruence | lia | | congruence].
  intros Hdi Hn. pose proof (unsent_removed _ r Hn). specialize (Hle _ Hdi). lia.
Qed.

Lemma ended_insert ks r fl :
  accounted ks r -> fl_steps fl = 2%nat -> samples a (fl_env fl) = true ->
  (fl_key fl ∉ disturbed r -> fl_key fl ∉ raced r -> bm_lookup (counts (rd_maps r)) (fl_key fl) = None) ->
  ended ks r fl ((rd_maps r) <| counts := (bm_update (counts (rd_maps r)) (fl_key fl) 1 BPF_NOEXIST).2 |>).
Proof.
  intros [Ha Hm Hd Hr Hfl Hle Heq] Hl Hs Hn. set (k := fl_key fl) in *. pose proof (Hr k) as Hrk.
  assert (Hc : let c := count_of k ((rd_maps r) <| counts := (bm_update (counts (rd_maps r)) k 1 BPF_NOEXIST).2 |>) in
    c = 1 \/ c = count_of k (rd_maps r)).
  { cbv zeta. unfold count_of. cbn. rewrite bm_update_cases. case_decide; [by left | by right]. }
  split; cbn [args counts]; fold k.
  - unfold looked_up. by rewrite Hl.
  - done.
  - by rewrite bm_max_update.
  - unfold looked_up. by rewrite Hl.
  - intros k' Hne. by apply bm_update_ne.
  - intros k'. cbn. rewrite bm_update_cases. case_decide; [by eexists | done].
  - destruct Hc as [-> | ->]; lia.
  - intros Hdi Har. pose proof (unsent_removed _ r Har). specialize (Hle _ Hdi). destruct Hc as [-> | ->]; lia.
  - intros _ Hdi Hra [Hroom _]. specialize (Hn Hdi Hra). unfold count_of. cbn. rewrite bm_update_cases.
    rewrite decide_True; [by rewrite Hn|]. split; [done|]. apply bm_update_room; [by right | done|]. rewrite Hm.
    assert (Hnew : k ∉ bm_dom (counts (rd_maps r))) by (rewrite bm_elem_of_dom, Hn; by intros []).
    eapply Nat.lt_le_trans; [|exact Hroom]. apply subset_size. set_solver.
Qed.

Lemma ended_store ks r fl v :
  accounted ks r -> fl_steps fl = 3%nat -> samples a (fl_env fl) = true -> 0 <= v <= occurrences (fl_key fl) ks ->
  (fl_key fl ∉ disturbed r -> is_Some (bm_lookup (counts (rd_maps r)) (fl_key fl))) ->
  (fl_key fl ∉ disturbed r -> already_read (rd_phase r) (fl_key fl) = false ->
    removed (fl_key fl) r + v <= occurrences (fl_key fl) ks) ->
  (fl_key fl ∉ disturbed r -> fl_key fl ∉ raced r -> count_of (fl_key fl) (rd_maps r) = v) ->
  ended ks r fl ((rd_maps r) <| counts := bm_store (counts (rd_maps r)) (fl_key fl) (fun _ => u32 (v + 1)) |>).
Proof.
  intros [Ha Hm Hd Hr Hfl Hle Heq] Hl Hs Hv Ht Hrem Hcv. set (k := fl_key fl) in *. pose proof (Hr k) as Hrk.
  assert (Hu : 0 <= u32 (v + 1) <= v + 1) by (split; [apply uN_range; lia | apply Z.mod_le; lia]).
  assert (Hc : let c := count_of k ((rd_maps r) <| counts := bm_store (counts (rd_maps r)) k (fun _ => u32 (v + 1)) |>) in
    c = 0 \/ c = u32 (v + 1)).
  { cbv zeta. unfold count_of. cbn. rewrite bm_store_eq. destruct (bm_lookup _ k); [by right | by left]. }
  split; cbn [args counts]; fold k.
  - unfold looked_up. by rewrite Hl.
  - done.
  - by rewrite bm_max_store.
  - unfold looked_up. by rewrite Hl.
  - intros k' Hne. by apply bm_store_ne.
  - intros k'. cbn. rewrite bm_lookup_store. case_decide; [|done]. by intros [x ->]; eexists.
  - destruct Hc as [-> | ->]; lia.
  - intros Hdi Har. specialize (Hrem Hdi Har). destruct Hc as [-> | ->]; lia.
  - intros _ Hdi Hra [_ Hov]. specialize (Hov k). rewrite occurrences_app, occurrences_single, decide_True in Hov by done.
    destruct (Ht Hdi) as [x Hx]. specialize (Hcv Hdi Hra).
    unfold count_of at 1. cbn. rewrite bm_store_eq, Hx. cbn. rewrite uN_id; [lia|]. unfold is_uN. lia.
Qed.

(** The first access reads the filters. *)
Lemma do_perf_event_step e s :
  is_u64 (current_pid_tgid e) -> args s = Some a ->
  step1 (do_perf_event e) s = Some (if samples a e then (count_sample (sample_key e) ;;; Ret 0) else Ret 0, s).
Proof.
  intros He Ha. unfold do_perf_event, samples. cbn [bind get act step1 fst snd]. rewrite Ha. cbn.
  rewrite (uN_id 32 (hi32 _)) by by apply hi32_range. unfold nz.
  by destruct (tgid_filter a =? 0), (hi32 (current_pid_tgid e) =? tgid_filter a),
    (lo32 (current_pid_tgid e) =? 0), (space_filter a =? 0).
Qed.

Lemma flight_access ks r fl p' s' :
  accounted ks r -> flight_ok ks r fl -> step1 (fl_prog fl) (rd_maps r) = Some (p', s') ->
  match p' with
  | Ret _ => ended ks r fl s'
  | Act _ _ => s' = rd_maps r /\
      flight_ok ks r {| fl_env := fl_env fl; fl_steps := S (fl_steps fl); fl_prog := p' |}
  end.
Proof.
  intros Hac [He Hn Hp | Hn Hs Hp | Hn Hs Hp Hl | v0 Hn Hs Hp Hv Hl | v Hn Hs Hp Hv Hl Hrem Hc] Hstep.
  - rewrite Hp, do_perf_event_step in Hstep by (done || apply Hac).
    destruct (samples a (fl_env fl)) eqn:Hs; injection Hstep as <- <-.
    + split; [done|]. apply FlLookup; cbn; [by rewrite Hn | done | done].
    + apply ended_start; [done | unfold looked_up; by rewrite Hn | done].
  - rewrite Hp in Hstep. injection Hstep as <- <-. cbn [bind fst snd lget l_counts].
    pose proof (ac_range _ _ Hac (fl_key fl)) as Hr.
    destruct (bm_lookup (counts (rd_maps r)) (fl_key fl)) as [v0|] eqn:E; (split; [done|]).
    + apply (FlLoad _ _ _ v0); cbn; [by rewrite Hn | done | done | | by eexists].
      change (fl_key _) with (fl_key fl). by rewrite <- (count_of_Some _ _ _ E).
    + apply FlInsert; cbn; [by rewrite Hn | done | done | done].
  - rewrite Hp in Hstep. injection Hstep as <- <-. cbn [bind fst snd]. by apply ended_insert.
  - rewrite Hp in Hstep. injection Hstep as <- <-. cbn [bind fst snd lget l_counts]. split; [done|].
    set (v := id (default v0 (bm_lookup (counts (rd_maps r)) (fl_key fl)))).
    pose proof (ac_range _ _ Hac (fl_key fl)) as Hr. unfold count_of in Hr.
    assert (Hv' : 0 <= v <= occurrences (fl_key fl) ks).
    { unfold v, id. by destruct (bm_lookup (counts (rd_maps r)) (fl_key fl)). }
    assert (Hcv : fl_key fl ∉ disturbed r -> count_of (fl_key fl) (rd_maps r) = v).
    { intros Hdi. unfold v, count_of. by destruct (Hl Hdi) as [x ->]. }
    apply (FlStore _ _ _ v); cbn; [by rewrite Hn | done | done | done | done | | by intros Hdi _; apply Hcv].
    intros Hdi Har. pose proof (unsent_removed (fl_key fl) r Har) as Hu. pose proof (ac_le _ _ Hac (fl_key fl) Hdi).
    rewrite (Hcv Hdi) in Hu. change (fl_key _) with (fl_key fl). lia.
  - rewrite Hp in Hstep. injection Hstep as <- <-. cbn [bind fst snd]. by apply (ended_store _ _ _ v).
Qed.

(** An access that is not the last one changes nothing but the flight. *)
Lemma accounted_flights ks r fls :
  accounted ks r -> Forall (flight_ok ks r) fls -> accounted ks (r <| inflight := fls |>).
Proof.
  intros [Ha Hm Hd Hr _ Hle Heq] Hfl. split; cbn [rd_maps inflight disturbed raced sent missed]; try done.
  eapply Forall_impl; [exact Hfl|]. intros fl Hok. by destruct Hok; [eapply FlStart | eapply FlLookup | eapply FlInsert
    | eapply FlLoad | eapply FlStore].
Qed.

(** What is to be sent of a key that was read does not depend on the maps. *)
Lemma unsent_read k r r' :
  rd_phase r' = rd_phase r -> already_read (rd_phase r) k = true -> unsent k r' = unsent k r.
Proof.
  unfold unsent. intros ->. destruct (rd_phase r) as [|kvs|kvs|kvs []|keys]; cbn;
    rewrite ?bool_decide_eq_true; intros; try done; by rewrite ?decide_True.
Qed.

Lemma occurrences_if k k0 (b : bool) : occurrences k (if b then [k0] else []) = if b && bool_decide (k0 = k) then 1 else 0.
Proof. destruct b; [|done]. rewrite occurrences_single. cbn [andb]. by case_bool_decide; case_decide. Qed.

Lemma accounted_end ks r i fl s' :
  accounted ks r -> inflight r !! i = Some fl -> ended ks r fl s' ->
  accounted (ks ++ sampled_keys a [fl_env fl]) (end_sample i fl s' r).
Proof.
  intros Hac Hi [Hsa Ha' Hm' Hsame Hoth Hth Hra Hle' Heq']. pose proof Hac as [Ha Hm Hd Hr Hfl Hle Heq].
  set (k0 := fl_key fl) in *. set (c := looked_up fl) in *. set (r' := end_sample i fl s' r).
  assert (Hks : sampled_keys a [fl_env fl] = if c then [k0] else []).
  { unfold sampled_keys. rewrite <- Hsa. destruct (samples a (fl_env fl)) eqn:E;
      [by rewrite filter_cons_True | by rewrite filter_cons_False by by rewrite E]. }
  rewrite Hks.
  assert (Ho : forall k, occurrences k (ks ++ if c then [k0] else []) =
    occurrences k ks + if c && bool_decide (k0 = k) then 1 else 0)
    by (intros k; by rewrite occurrences_app, occurrences_if).
  assert (Hne : forall k, k0 <> k -> count_of k s' = count_of k (rd_maps r)).
  { intros k Hk. unfold count_of. by rewrite Hoth. }
  assert (Hsame0 : c = false -> forall k, count_of k s' = count_of k (rd_maps r)) by (by intros ->%Hsame).
  split.
  - done.
  - done.
  - intros k Hk. apply elem_of_app. destruct (decide (c = true /\ k0 = k)) as [[-> ->] | Hn]; [right; by left|].
    left. apply Hd, bm_elem_of_dom. apply bm_elem_of_dom in Hk. cbn in Hk.
    destruct c eqn:Ec; [rewrite <- Hoth; [done|]; naive_solver | by rewrite <- Hsame].
  - intros k. cbn [r' end_sample rd_maps]. rewrite Ho. pose proof (Hr k).
    destruct c; [|rewrite Hsame0 by done; cbn; lia]. cbn.
    case_bool_decide as Hk; [subst k; lia | rewrite Hne by done; lia].
  - cbn [r' end_sample inflight]. apply Forall_forall. intros fl1 Hin.
    assert (Hok : flight_ok ks r fl1).
    { eapply Forall_forall; [apply (Forall_delete _ _ i Hfl) | exact Hin]. }
    apply (flight_ok_mono ks _ r); [done | rewrite Ho; destruct (_ && _); lia|]. intros Hl Hdi. split; [exact Hdi|].
    split; [done | by apply Hth|]. cbn [r' raced end_sample]. fold k0 c. intros Hrc.
    split; [set_solver|]. destruct (decide (k0 = fl_key fl1)) as [E|]; [|by apply Hoth].
    destruct c; [|unfold r'; cbn [end_sample rd_maps]; by rewrite Hsame]. exfalso. apply Hrc. rewrite E, (holding_elem _ (delete i (inflight r)) fl1) by done.
    set_solver.
  - intros k Hk. specialize (Hle k Hk). rewrite Ho. destruct (already_read (rd_phase r) k) eqn:Har.
    + rewrite (unsent_read k r) by done. cbn [r' sent end_sample]. destruct (_ && _); lia.
    + pose proof (unsent_removed k r Har). pose proof (unsent_removed k r' Har) as Hu'.
      assert (Hrm : removed k r' = removed k r) by done. rewrite Hu', Hrm. cbn [r' rd_maps end_sample].
      destruct c; [|rewrite Hsame0 by done; cbn; lia]. cbn.
      case_bool_decide as Hkk; [subst k; specialize (Hle' Hk Har); lia | rewrite Hne by done; lia].
  - intros k Hk Hk1 Hfit. assert (Hk2 : k ∉ raced r) by (cbn in Hk1; set_solver).
    specialize (Heq k Hk Hk2 (fits_app _ _ Hfit)). rewrite Ho. cbn [r' end_sample missed sent]. fold k0 c.
    rewrite occurrences_app, occurrences_if. destruct (already_read (rd_phase r) k) eqn:Har.
    + rewrite (unsent_read k r) by done. destruct (decide (k0 = k)) as [->|]; [rewrite Har, andb_true_r; lia|].
      rewrite bool_decide_false, !andb_false_r by done. lia.
    + pose proof (unsent_removed k r Har). pose proof (unsent_removed k r' Har) as Hu'.
      assert (Hrm : removed k r' = removed k r) by done. cbn [r' sent end_sample] in Hu'. rewrite Hu'.
      fold r'. rewrite Hrm. cbn [r' rd_maps end_sample].
      destruct c; [|rewrite Hsame0 by done; cbn; lia]. cbn [andb].
      case_bool_decide as Hkk; [subst k|rewrite andb_false_r, Hne by done; lia].
      rewrite Har, (Heq' eq_refl Hk Hk2 Hfit). cbn. lia.
Qed.

(** Only an access can finish a sample. *)
Lemma agent_move_none r m r' o :
  reader_move r m = Some (r', o) -> match m with StartSample _ | Access _ => False | _ => True end -> o = None.
Proof.
  unfold reader_move. intros Hm Hag. destruct m as [| | |k| |k| | | |]; [done | done | ..]; clear Hag;
    destruct (rd_phase r) as [|kvs|kvs|kvs b|keys]; try discriminate Hm; try by injection Hm as _ <-.
  - by apply bind_Some in Hm as (v & _ & [= _ <-]).
  - case_decide; [done|]. by apply bind_Some in Hm as (v & _ & [= _ <-]).
  - destruct keys; [done|]. by injection Hm as _ <-.
  - destruct keys; [|done]. by injection Hm as _ <-.
Qed.

Lemma reader_move_accounted ks r m r' o :
  accounted ks r -> reader_move r m = Some (r', o) -> accounted (ks ++ sampled_keys a (option_list o)) r'.
Proof.
  intros Hac Hm. assert (Hnil : ks ++ sampled_keys a [] = ks) by apply app_nil_r.
  assert (Hagent : match m with StartSample _ | Access _ => False | _ => True end ->
    accounted (ks ++ sampled_keys a (option_list o)) r').
  { intros Hag. rewrite (agent_move_none _ _ _ _ Hm Hag) in Hm |- *.
    change (option_list None) with (@nil bpf_env). rewrite Hnil. by eapply accounted_agent. }
  destruct m as [e|i| | | | | | | |]; [clear Hagent | clear Hagent | by apply Hagent ..].
  - cbn [reader_move] in Hm. case_bool_decide as He; [|done]. injection Hm as <- <-. change (option_list None) with (@nil bpf_env).
    rewrite Hnil. apply accounted_flights; [done|]. apply Forall_app. split; [apply Hac|].
    constructor; [by apply FlStart | done].
  - cbn [reader_move] in Hm. apply bind_Some in Hm as (fl & Hi & Hm). apply bind_Some in Hm as ([p' s'] & Hs & Hm).
    pose proof (Forall_lookup_1 _ _ _ _ (ac_flights _ _ Hac) Hi) as Hok.
    pose proof (flight_access _ _ _ _ _ Hac Hok Hs) as Hnext. cbn [fst snd] in Hm. destruct p' as [x | X f q].
    + injection Hm as <- <-. by apply accounted_end.
    + destruct Hnext as [-> Hnext]. injection Hm as <- <-. change (option_list None) with (@nil bpf_env). rewrite Hnil.
      refine (accounted_flights ks r _ Hac _). by apply Forall_insert; [apply Hac|].
Qed.

Lemma sampled_keys_app es es' : sampled_keys a (es ++ es') = sampled_keys a es ++ sampled_keys a es'.
Proof. unfold sampled_keys. by rewrite filter_app, fmap_app. Qed.

Lemma reader_runs_accounted r es : reader_runs (reader_init a) es r -> accounted (sampled_keys a es) r.
Proof.
  induction 1 as [|es r1 m r2 o _ IH Hm]; [exact accounted_init|]. rewrite sampled_keys_app.
  by eapply reader_move_accounted.
Qed.

(** C18: the profile is emptied without counting a sample twice: in every interleaving of the
    single accesses of the samples with the steps of Reset, what was sent of a key and is
    still to be sent is at most the number of its samples - unless Reset deleted an element
    of the key while a sample had looked it up and had not stored its count yet.  Where no
    two samples of the key were so far at the same time either, and as long as the samples
    have at most 16384 keys and less than 2^32 samples each, it is exactly that number less
    the samples counted between the reading of an element by the iteration and its
    deletion.  Between two rounds what is to be sent is what the map holds. *)
Theorem samples_sent_once r es k :
  reader_runs (reader_init a) es r -> k ∉ disturbed r ->
  let ks := sampled_keys a es in
  let total := sent_count k (sent r) + unsent k r in
  total <= occurrences k ks /\
  (k ∉ raced r -> fits ks -> total + occurrences k (missed r) = occurrences k ks) /\
  (rd_phase r = Idle -> unsent k r = default 0 (bm_lookup (counts (rd_maps r)) k)).
Proof.
  intros Hrun%reader_runs_accounted Hk. split; [by apply (ac_le _ _ Hrun)|].
  split; [by apply (ac_eq _ _ Hrun)|]. intros Hp. unfold unsent. by rewrite Hp.
Qed.

(** While the kernel reads and deletes at once nothing is missed: only a round that has
    found the map empty, or could not read it so, misses samples. *)
Lemma batch_misses_nothing r m r' o :
  reader_move r m = Some (r', o) ->
  match rd_phase r with Idle | Batching _ | Read _ true | Clearing [] => True | _ => False end ->
  missed r' = missed r.
Proof.
  intros Hm Hp. assert (Hno : forall k, already_read (rd_phase r) k = false)
    by (intros k; by destruct (rd_phase r) as [| | |? []|[]]).
  unfold reader_move in Hm. destruct m as [e|i| |k| |k| | | |];
    [destruct (bool_decide _); [by injection Hm as <- <- | done] | |
     destruct (rd_phase r) as [|kvs|kvs|kvs []|[|k' keys]]; try done; try (by injection Hm as <- <-)..].
  2: by apply bind_Some in Hm as (v & _ & [= <- _]).
  apply bind_Some in Hm as (fl & _ & Hm). apply bind_Some in Hm as ([p' s'] & _ & Hm).
  cbn [fst snd] in Hm. destruct p'; injection Hm as <- <-; [|done]. cbn [end_sample missed]. by rewrite Hno, andb_false_r, app_nil_r.
Qed.
End Samples.

(** * Two rounds *)

Definition one_key : profile_key_t := oncpu_key 7 1.
Definition one_sample : bpf_env := oncpu_env 7 70 1.

(** A run by explicit moves. *)
Definition after (ms : list move) : reader * list bpf_env :=
  default (reader_init oncpu_args, []) (reader_moves (reader_init oncpu_args) ms).

Lemma after_runs ms :
  match reader_moves (reader_init oncpu_args) ms with Some _ => True | None => False end ->
  reader_runs (reader_init oncpu_args) (after ms).2 (after ms).1.
Proof.
  intros H. unfold after. destruct (reader_moves _ ms) as [[r es]|] eqn:E; [|done].
  exact (reader_moves_runs _ [] _ ms _ es (ReaderNil _) E).
Qed.

(** A sample from its start to its end, where [i] are in flight: it inserts its key, or
    counts itself in the element that there is. *)
Definition insert_moves (i : nat) : list move := [StartSample one_sample; Access i; Access i; Access i].
Definition count_moves (i : nat) : list move := insert_moves i ++ [Access i].

(** The agent finds the map empty, then a sample is taken and read by the iteration, then
    another one before the element is deleted: one of the two samples has been sent, and
    there is nothing more to send. *)
Definition missing_round : list move :=
  [Tick; BatchEnd] ++ insert_moves 0 ++ [IterateElement one_key] ++ count_moves 0 ++
  [IterateEnd; SendEvents; ClearKey; ClearEnd].

Lemma missing_round_ghosts :
  disturbed (after missing_round).1 = [] /\ raced (after missing_round).1 = [] /\
  sampled_keys oncpu_args (after missing_round).2 = [one_key; one_key].
Proof. split_and!; vm_compute; reflexivity. Qed.

Lemma missing_round_result :
  rd_phase (after missing_round).1 = Idle /\ sent_count one_key (sent (after missing_round).1) = 1 /\
  bm_lookup (counts (rd_maps (after missing_round).1)) one_key = None.
Proof. split_and!; vm_compute; reflexivity. Qed.

Lemma missing_round_fits : fits [one_key; one_key].
Proof.
  split; [apply Nat.leb_le; vm_compute; reflexivity|]. intros k.
  refine (Z.le_lt_trans _ _ _ (proj2 (occurrences_bounds k [one_key; one_key])) _). vm_compute. reflexivity.
Qed.

Lemma samples_sent_once_witness :
  let r := (after missing_round).1 in
  sent_count one_key (sent r) + unsent one_key r + occurrences one_key (missed r) = 2 /\
  unsent one_key r = 0 /\ sent_count one_key (sent r) = 1.
Proof.
  pose proof missing_round_ghosts as (Hd & Hra & Hks). pose proof missing_round_result as (Hp & Hs & Hl).
  intros r. destruct (samples_sent_once oncpu_args r (after missing_round).2 one_key) as (_ & H & Hi).
  - apply after_runs. vm_compute. exact I.
  - subst r. rewrite Hd. apply not_elem_of_nil.
  - subst r. rewrite Hks in H. rewrite (H ltac:(rewrite Hra; apply not_elem_of_nil) missing_round_fits), (Hi Hp), Hl, Hs.
    split; [vm_compute; reflexivity | by split].
Defined.

(** The increment is no atomic operation: after two samples a third one loads the count, the
    agent reads the element and deletes it, a fourth sample inserts the key again, and the
    third one stores its count there.  The two samples of the first element are sent twice:
    four samples make five. *)
Definition stale_round : list move :=
  insert_moves 0 ++ count_moves 0 ++ insert_moves 0 ++ [Tick; BatchElement one_key] ++
  insert_moves 1 ++ [Access 0; BatchEnd; SendEvents; ClearEnd].

Lemma stale_count_sent_twice :
  exists r es, reader_runs (reader_init oncpu_args) es r /\ rd_phase r = Idle /\
    occurrences one_key (sampled_keys oncpu_args es) = 4 /\
    sent_count one_key (sent r) = 2 /\ bm_lookup (counts (rd_maps r)) one_key = Some 3 /\
    disturbed r = [one_key].
Proof.
  exists (after stale_round).1, (after stale_round).2.
  split; [apply after_runs; vm_compute; exact I|]. split_and!; vm_compute; reflexivity.
Qed.
