(* ===== verification/Pipeline.v ===== *)
(** The agent as a pipeline: internal/app/appspy.go (createPipeline), the goroutines of the
    receiver and of the detectors, and the channels between them.

    The sessions send events into the receiver's channel.  The receiver hands each event
    to the detectors that own it, whose goroutines take it from their channels and pass
    a block on to the processor, which calls the exporter.  A send into a full channel
    waits.  Every goroutine is one step at a time here, in any order. *)
From S2P Require Import Prelude GoLib Trie SpyEvent DataBlock Detectors.
From stdpp Require Import relations.
Open Scope Z_scope.
Open Scope bpf_scope.

(** The capacities of the channels: of the receiver ([2e5]), of the CPU detector and of
    the memory detector (EventChanSize of their configurations). *)
Record capacities := { cap_receiver : nat; cap_cpu : nat; cap_mem : nat }.
Definition agent_capacities : capacities := {|
  cap_receiver := Z.to_nat 200000; cap_cpu := Z.to_nat 10000; cap_mem := Z.to_nat 1000 |}.

(** [hand] is the event the receiver is about to pass on, with the detectors that have
    not got it yet. *)
Record pipeline := {
  eventCh : list SpyEvent; hand : option (SpyEvent * list detector); cpuChan : list SpyEvent;
  memChan : list SpyEvent; cpu : CpuDetector; exported : list (detector * DataBlock)
}.

#[export] Instance eta_pipeline : Eta pipeline := fun s => {|
  eventCh := eventCh s; hand := hand s; cpuChan := cpuChan s; memChan := memChan s; cpu := cpu s;
  exported := exported s |}.

Section Pipeline.
Context (boot : Z) (fmt : Z -> list Z) (caps : capacities).

(** The detectors of an event: [createPipeline] and [GetDetectors]. *)
Definition detectors_of (e : SpyEvent) : list detector :=
  match NewDetectorManager agent_detectors with
  | Some m => GetDetectors m (class_Event (Class_ e))
  | None => []
  end.

(** The blocks that the exporter gets of a detector's block. *)
Definition delivered (d : detector) (b : option DataBlock) : list (detector * DataBlock) :=
  pair d <$> (match b with Some b => Consume b | None => [] end).

(** [ConsumeEvent] of a detector: two of them drop the event. *)
Definition room (d : detector) (s : pipeline) : Prop :=
  match d with
  | DetectorCpu => (length (cpuChan s) < cap_cpu caps)%nat
  | DetectorMem => (length (memChan s) < cap_mem caps)%nat
  | _ => True
  end.
Definition ConsumeEvent (d : detector) (e : SpyEvent) (s : pipeline) : pipeline :=
  match d with
  | DetectorCpu => s <| cpuChan := cpuChan s ++ [e] |>
  | DetectorMem => s <| memChan := memChan s ++ [e] |>
  | _ => s
  end.

(** One step, labelled by the event that a session sends. *)
Inductive pipeline_step : pipeline -> option SpyEvent -> pipeline -> Prop :=
| EmitStep s e :
    (length (eventCh s) < cap_receiver caps)%nat ->
    pipeline_step s (Some e) (s <| eventCh := eventCh s ++ [e] |>)
| TakeStep s e rest :
    hand s = None -> eventCh s = e :: rest ->
    pipeline_step s None (s <| eventCh := rest |> <| hand := Some (e, detectors_of e) |>)
| PassStep s e d ds :
    hand s = Some (e, d :: ds) -> room d s ->
    pipeline_step s None (ConsumeEvent d e s <| hand := Some (e, ds) |>)
| PassedStep s e :
    hand s = Some (e, []) -> pipeline_step s None (s <| hand := None (A := SpyEvent * list detector) |>)
| CpuStep s e rest c b :
    cpuChan s = e :: rest -> cpu_ProcessEvent boot fmt e (cpu s) = Returned (c, b) ->
    pipeline_step s None (s <| cpuChan := rest |> <| cpu := c |>
      <| exported := exported s ++ delivered DetectorCpu b |>)
| MemStep s e rest b :
    memChan s = e :: rest -> mem_ProcessEvent e = Returned b ->
    pipeline_step s None (s <| memChan := rest |> <| exported := exported s ++ delivered DetectorMem b |>)
| TickStep s t :
    ticking (cpu s) = true -> pipeline_step s None (s <| cpu := UploadTries t (cpu s) |>).

(** A run, with the events that were sent. *)
Inductive pipeline_runs : pipeline -> list SpyEvent -> pipeline -> Prop :=
| PipeNil s : pipeline_runs s [] s
| PipeStep s sent s1 o s2 :
    pipeline_runs s sent s1 -> pipeline_step s1 o s2 -> pipeline_runs s (sent ++ option_list o) s2.

(** The agent after [Init] and [Start]. *)
Definition started (remote_ok : string -> bool) (cfg : tool_config) : option pipeline :=
  let '(c, ok) := Init remote_ok cfg NewCpuDetector in
  if ok : bool then Some {| eventCh := []; hand := None; cpuChan := []; memChan := []; cpu := c; exported := [] |}
  else None.
End Pipeline.
