(* ===== verification/PipelineSpec.v ===== *)
(** The detectors do not panic on the events of the sessions, and the block they make of
    one does not depend on the events before it. *)
From S2P Require Import Prelude GoLib Trie TrieSpec SpyEvent DataBlock Detectors AgentSpec Pipeline.
Open Scope Z_scope.
Open Scope bpf_scope.

(** * Events that no detector panics on *)

Lemma for_attributes_returns {A} (body : KeyValue -> A -> go_result A) e a :
  event_ok e -> (forall kv a, kv_ok kv -> exists a', body kv a = Returned a') ->
  exists a', for_attributes body e a = Returned a'.
Proof.
  intros [Hwf Hok] Hbody. rewrite (for_attributes_fold _ _ (attributes e)) by by split.
  revert a. induction Hok as [|kv kvs Hkv _ IH]; intros a; cbn [go_fold]; [eauto|].
  destruct (Hbody kv a Hkv) as [a' ->]. apply IH.
Qed.

Lemma GetUintUserAttribute_returns e key : event_ok e -> exists v, GetUintUserAttribute e key = Returned v.
Proof.
  intros [Hwf Hok]. unfold GetUintUserAttribute. rewrite GetUserAttribute_first by done.
  induction Hok as [|kv kvs Hkv _ IH]; cbn [first_with]; [eauto|].
  destruct (Key kv =? key)%string; [by apply GetUintValue_returns | exact IH].
Qed.

Lemma label_switch_returns cases kv labels :
  (forall key f, (key, f) ∈ cases -> exists labels', f kv labels = Returned labels') ->
  exists labels', label_switch cases kv labels = Returned labels'.
Proof.
  induction cases as [|[key f] cases IH]; intros Hf; cbn [label_switch]; [eauto|].
  destruct (Key kv =? key)%string; [apply (Hf key); by left|]. apply IH. intros key' f' H. apply (Hf key').
  by right.
Qed.

Section Pipeline.
Context (boot : Z) (fmt : Z -> list Z).

Lemma int_label_returns label f kv labels :
  kv_ok kv -> exists labels', int_label label f kv labels = Returned labels'.
Proof. intros Hkv. unfold int_label. destruct (GetUintValue_returns kv Hkv) as [v ->]. by eexists. Qed.
Lemma time_label_returns label kv labels :
  kv_ok kv -> exists labels', time_label boot fmt label kv labels = Returned labels'.
Proof. intros Hkv. unfold time_label. destruct (GetUintValue_returns kv Hkv) as [v ->]. by eexists. Qed.
Lemma string_label_returns label f kv labels :
  exists labels', string_label label f kv labels = Returned labels'.
Proof. by eexists. Qed.

Ltac switch_returns :=
  apply label_switch_returns; intros key f Hf;
  repeat (apply elem_of_cons in Hf as [[= -> ->] | Hf];
          [auto using int_label_returns, time_label_returns, string_label_returns|]);
  by apply elem_of_nil in Hf.

Lemma formats_return e :
  event_ok e ->
  (exists l, formatOffcpuLabels boot fmt e = Returned l) /\ (exists l, formatFutexSnoopLabels e = Returned l) /\
  (exists l, formatSyscallLabels e = Returned l) /\ (exists l, formatCacheStat e = Returned l).
Proof.
  intros He. split_and!.
  - apply for_attributes_returns; [done|]. intros kv labels Hkv. switch_returns.
  - unfold formatFutexSnoopLabels. edestruct (for_attributes_returns (A := AttributeMap)) as [l Hl];
      [exact He | | rewrite Hl; by eexists]. intros kv labels Hkv. switch_returns.
  - unfold formatSyscallLabels. edestruct (for_attributes_returns (A := AttributeMap)) as [l Hl];
      [exact He | | rewrite Hl; by eexists]. intros kv labels Hkv. switch_returns.
  - apply for_attributes_returns; [done|]. intros kv labels Hkv. switch_returns.
Qed.

(** * The CPU detector *)

(** Every list of tries has one trie. *)
Definition tries_ok (m : gmap string (list (option Trie))) : Prop :=
  forall app l, m !! app = Some l -> exists t, l = [Some t] /\ trie_wf t.

Record cpu_ok (c : CpuDetector) : Prop := {
  co_tries : tries_ok (tries c);
  co_dom : forall app, is_Some (previousTries c !! app) -> is_Some (tries c !! app)
}.

Lemma initializeTries_ok app c : cpu_ok c -> cpu_ok (initializeTries app c).
Proof.
  intros [Ht Hd]. unfold initializeTries. destruct (previousTries c !! app) eqn:E; [by split|].
  split; cbn [tries previousTries].
  - intros a l. rewrite lookup_insert_Some. intros [[_ <-] | [_ H]]; [exists New; split; [done | apply New_wf]|].
    by eapply Ht.
  - intros a [x Hx]. rewrite lookup_insert_Some in Hx. rewrite lookup_insert. case_decide; [done|].
    destruct Hx as [[-> _] | [_ Hx]]; [done | by apply Hd].
Qed.

Lemma new_cpu_ok : cpu_ok NewCpuDetector.
Proof.
  apply initializeTries_ok. split; cbn [tries previousTries]; [intros app l H | intros app [x H]]; done.
Qed.

Lemma collect_returns app stack v c :
  cpu_ok c -> exists c', collect app stack v c = Returned c' /\ cpu_ok c' /\ Server c' = Server c /\
    uploads c' = uploads c /\ ticking c' = ticking c.
Proof.
  intros Hc. unfold collect. destruct (0 <? length stack)%nat; [|by exists c].
  set (c1 := match tries c !! app with Some _ => c | None => initializeTries app c end).
  assert (Hc1 : cpu_ok c1) by (unfold c1; destruct (tries c !! app); [done | by apply initializeTries_ok]).
  assert (Hs : Server c1 = Server c /\ uploads c1 = uploads c /\ ticking c1 = ticking c).
  { unfold c1. destruct (tries c !! app); [done|]. unfold initializeTries. by destruct (previousTries c !! app). }
  assert (Hhas : is_Some (tries c1 !! app)).
  { unfold c1. destruct (tries c !! app) eqn:E; [by rewrite E|]. unfold initializeTries.
    destruct (previousTries c !! app) eqn:Ep; [|cbn [tries]; by rewrite lookup_insert_eq].
    destruct (co_dom c Hc app) as [l1 Hl1]; [by rewrite Ep | congruence]. }
  destruct Hhas as [l Hl]. destruct (co_tries c1 Hc1 app l Hl) as (t & -> & Ht).
  rewrite Hl. cbn [default from_option lookup list_lookup or_panic go_bind id].
  destruct (Insert_updates t stack v true Ht) as (t' & -> & Ht' & _). cbn [go_bind].
  eexists. split; [done|]. split; [|exact Hs]. split; cbn [tries previousTries].
  - intros a l'. rewrite lookup_insert_Some. intros [[_ <-] | [_ H]]; [by exists t'|]. by eapply (co_tries c1 Hc1).
  - intros a Ha. rewrite lookup_insert. case_decide; [done|]. by apply (co_dom c1 Hc1).
Qed.

(** What [oncpuHandler] reads, the rate apart. *)
Definition read_alike (a1 a2 : oncpu_attributes) : Prop :=
  oa_count a1 = oa_count a2 /\ oa_stack a1 = oa_stack a2 /\ oa_labels a1 = oa_labels a2.

Lemma oncpu_attribute_alike kv a1 a2 :
  kv_ok kv -> read_alike a1 a2 ->
  exists a1' a2', oncpu_attribute kv a1 = Returned a1' /\ oncpu_attribute kv a2 = Returned a2' /\ read_alike a1' a2'.
Proof.
  intros Hkv (H1 & H2 & H3). unfold oncpu_attribute. destruct (GetUintValue_returns kv Hkv) as [v ->].
  cbn [go_bind]. repeat case_match; do 2 eexists; (split; [reflexivity|]); (split; [reflexivity|]);
    unfold read_alike; cbn [oa_count oa_stack oa_labels]; rewrite ?H1, ?H2, ?H3; done.
Qed.

Lemma oncpu_attributes_alike e a1 a2 :
  event_ok e -> read_alike a1 a2 ->
  exists a1' a2', for_attributes oncpu_attribute e a1 = Returned a1' /\
    for_attributes oncpu_attribute e a2 = Returned a2' /\ read_alike a1' a2'.
Proof.
  intros [Hwf Hok]. rewrite !(for_attributes_fold _ _ (attributes e)) by by split.
  revert a1 a2. induction Hok as [|kv kvs Hkv _ IH]; intros a1 a2 Ha; cbn [go_fold]; [eauto|].
  destruct (oncpu_attribute_alike kv a1 a2 Hkv Ha) as (b1 & b2 & -> & -> & Hb). by apply IH.
Qed.

(** The block of an event does not depend on what was collected. *)
Definition cpu_block (server : string) (e : SpyEvent) : option DataBlock :=
  match cpu_ProcessEvent boot fmt e (NewCpuDetector <| Server := server |>) with
  | Returned (_, b) => b
  | _ => None
  end.
Definition mem_block (e : SpyEvent) : option DataBlock :=
  match mem_ProcessEvent e with Returned b => b | _ => None end.

(** What every event leaves alone. *)
Definition kept (c c' : CpuDetector) : Prop :=
  cpu_ok c' /\ Server c' = Server c /\ uploads c' = uploads c /\ ticking c' = ticking c.

Lemma kept_refl c : cpu_ok c -> kept c c.
Proof. by intros; repeat split; try apply co_tries; try apply co_dom. Qed.
#[local] Hint Resolve kept_refl : core.

Lemma set_rate_ok c r : cpu_ok c -> cpu_ok (c <| sampleRate := r |>).
Proof. intros [Ht Hd]. by split. Qed.

Lemma oncpuHandler_returns e c1 c2 :
  event_ok e -> cpu_ok c1 -> cpu_ok c2 -> Server c2 = Server c1 ->
  exists c1' c2' b, oncpuHandler e c1 = Returned (c1', b) /\ oncpuHandler e c2 = Returned (c2', b) /\
    kept c1 c1'.
Proof.
  intros He H1 H2 Hs. unfold oncpuHandler.
  set (a0 c := {| oa_count := 0; oa_stack := []; oa_rate := sampleRate c; oa_labels := NewAttributeMap |}).
  destruct (oncpu_attributes_alike e (a0 c1) (a0 c2) He) as (a1 & a2 & Ha1 & Ha2 & Hcount & Hstack & Hlabels);
    [repeat split; reflexivity|]. unfold a0 in Ha1, Ha2. rewrite Ha1, Ha2. cbn [go_bind Server].
  rewrite Hs. destruct (negb _).
  - destruct (collect_returns (Name e) (oa_stack a1) (oa_count a1) _ (set_rate_ok c1 (oa_rate a1) H1))
      as (c1' & -> & Hk).
    pose proof (collect_returns (Name e) (oa_stack a2) (oa_count a2) _ (set_rate_ok c2 (oa_rate a2) H2)) as Hc2.
    cbn beta iota in Hc2. rewrite Hs in Hc2. destruct Hc2 as (c2' & -> & _). cbn [go_bind]. by exists c1', c2', None.
  - rewrite Hcount, Hlabels. do 3 eexists. split; [reflexivity|]. split; [reflexivity|].
    split; [by apply set_rate_ok | done].
Qed.

Lemma cpu_ProcessEvent_returns e c :
  event_ok e -> cpu_ok c ->
  exists c', cpu_ProcessEvent boot fmt e c = Returned (c', cpu_block (Server c) e) /\ kept c c'.
Proof.
  intros He Hc. unfold cpu_block, cpu_ProcessEvent.
  destruct (formats_return e He) as ([l1 H1] & [l2 H2] & [l3 H3] & _).
  assert (Hval : forall key, exists v, GetUintUserAttribute e key = Returned v)
    by (intros key; by apply GetUintUserAttribute_returns).
  destruct (_ =? _)%string; [|destruct (_ =? _)%string; [|destruct (_ =? _)%string;
    [|destruct (_ =? _)%string; [|destruct (_ =? _)%string]]]]; [| |by eauto| | |by eauto].
  - unfold offcpuHandler. rewrite H1. cbn [go_bind]. destruct (Hval "dur_ms"%string) as [v ->].
    cbn [go_bind]. eauto.
  - edestruct (oncpuHandler_returns e c (NewCpuDetector <| Server := Server c |>)) as (c1 & c2 & b & -> & -> & Hk);
      [done | done | destruct new_cpu_ok; by split | done |]. eauto.
  - unfold futexsnoopHandler. rewrite H2. cbn [go_bind]. destruct (Hval "max_user_cnt"%string) as [v ->].
    cbn [go_bind]. eauto.
  - unfold syscallHandler. rewrite H3. cbn [go_bind]. destruct (Hval "dur_us"%string) as [v ->].
    cbn [go_bind]. eauto.
Qed.

Lemma mem_ProcessEvent_returns e : event_ok e -> mem_ProcessEvent e = Returned (mem_block e).
Proof.
  intros He. unfold mem_block, mem_ProcessEvent. destruct (_ =? _)%string; [|done]. unfold cachestatHandler.
  destruct (formats_return e He) as (_ & _ & _ & [l ->]). cbn [go_bind].
  destruct (GetUintUserAttribute_returns e "write_size" He) as [v ->]. done.
Qed.
End Pipeline.
