(* ===== verification/Delivery.v ===== *)
(** What is sent is exported: every event once, in order, by the detectors that own it;
    and a profile is never uploaded.  Properties of [Pipeline]. *)
From S2P Require Import Prelude GoLib Trie TrieSpec SpyEvent DataBlock Detectors AgentSpec Pipeline PipelineSpec.
Open Scope Z_scope.
Open Scope bpf_scope.

(** * Routing *)

Lemma own_events_lookup d events m name :
  NoDup events ->
  default [] (foldl (own_event d) m events !! name) =
    default [] (m !! name) ++ if decide (name ∈ events) then [d] else [].
Proof.
  intros Hnd. revert m. induction Hnd as [|ev events Hnot _ IH]; intros m; cbn [foldl].
  - by rewrite app_nil_r.
  - rewrite IH. unfold own_event. destruct (decide (name = ev)) as [-> | Hne].
    + rewrite lookup_insert_eq. rewrite decide_False by done. rewrite decide_True by by left. cbn.
      by rewrite app_nil_r.
    + rewrite lookup_insert_ne by done. f_equal. apply decide_ext. rewrite elem_of_cons. naive_solver.
Qed.

Lemma OwnedEvents_NoDup d : NoDup (OwnedEvents d).
Proof. apply (bool_decide_eq_true_1 (NoDup _)). by destruct d. Qed.

(** The manager's table names the detectors that own an event, in their order. *)
Lemma manager_routes ds m name :
  NewDetectorManager ds = Some m -> GetDetectors m name = filter (fun d => name ∈ OwnedEvents d) ds.
Proof.
  unfold NewDetectorManager, GetDetectors. destruct (_ =? 0)%nat; [done|]. intros [= <-].
  cut (forall m, default [] (foldl (fun m d => foldl (own_event d) m (OwnedEvents d)) m ds !! name) =
         default [] (m !! name) ++ filter (fun d => name ∈ OwnedEvents d) ds).
  { intros H. rewrite H. by rewrite lookup_empty. }
  induction ds as [|d ds IH]; intros m; cbn [foldl].
  - by rewrite filter_nil, app_nil_r.
  - rewrite IH, own_events_lookup by apply OwnedEvents_NoDup. rewrite <- app_assoc, filter_cons.
    by destruct (decide _).
Qed.

(** [e] once for every time that [ds] names [d]. *)
Definition copies (d : detector) (e : SpyEvent) (ds : list detector) : list SpyEvent :=
  (fun _ => e) <$> filter (fun d' => d' = d) ds.

(** The events that [d] owns. *)
Definition owned (d : detector) (es : list SpyEvent) : list SpyEvent :=
  filter (fun e => class_Event (Class_ e) ∈ OwnedEvents d) es.

Lemma copies_once d e : copies d e (detectors_of e) = owned d [e].
Proof.
  unfold detectors_of. destruct (NewDetectorManager agent_detectors) as [m|] eqn:E; [|done].
  rewrite (manager_routes _ _ _ E). unfold copies, owned, agent_detectors. rewrite !filter_cons, !filter_nil.
  destruct d; repeat (case_decide; rewrite ?filter_cons, ?filter_nil); done.
Qed.

Lemma owned_app d es1 es2 : owned d (es1 ++ es2) = owned d es1 ++ owned d es2.
Proof. apply filter_app. Qed.

Lemma owned_cons d e es : owned d (e :: es) = copies d e (detectors_of e) ++ owned d es.
Proof. by rewrite copies_once, <- owned_app. Qed.

(** * Accounting *)

Section Delivery.
Context (boot : Z) (fmt : Z -> list Z) (caps : capacities).

(** What waits for [d], in the order in which it will be taken. *)
Definition chan_of (d : detector) (s : pipeline) : list SpyEvent :=
  match d with DetectorCpu => cpuChan s | DetectorMem => memChan s | _ => [] end.
Definition hand_of (d : detector) (s : pipeline) : list SpyEvent :=
  match hand s with Some (e, ds) => copies d e ds | None => [] end.
Definition queued (d : detector) (s : pipeline) : list SpyEvent :=
  chan_of d s ++ hand_of d s ++ owned d (eventCh s).

(** The blocks of a detector that were exported, and those that its events stand for. *)
Definition exported_by (d : detector) (s : pipeline) : list DataBlock :=
  (filter (fun x => x.1 = d) (exported s)).*2.
Definition event_blocks (server : string) (d : detector) (e : SpyEvent) : list DataBlock :=
  match d with
  | DetectorCpu => match cpu_block boot fmt server e with Some b => Consume b | None => [] end
  | DetectorMem => match mem_block e with Some b => Consume b | None => [] end
  | _ => []
  end.
Definition all_blocks (server : string) (d : detector) (es : list SpyEvent) : list DataBlock :=
  es ≫= event_blocks server d.

Record accounted (server : string) (sent : list SpyEvent) (s : pipeline) : Prop := {
  ac_cpu : cpu_ok (cpu s);
  ac_server : Server (cpu s) = server;
  ac_events d : exists processed, owned d sent = processed ++ queued d s /\
    exported_by d s = all_blocks server d processed
}.

Lemma exported_by_app d s l x :
  (filter (fun x : detector * DataBlock => x.1 = d) (exported s ++ delivered x l)).*2 =
    exported_by d s ++ if decide (x = d) then match l with Some b => Consume b | None => [] end else [].
Proof.
  rewrite filter_app, fmap_app. f_equal. unfold delivered.
  generalize (match l with Some b => Consume b | None => [] end). intros bs.
  induction bs as [|b bs IH]; [by destruct (decide _)|]. cbn [fmap list_fmap]. rewrite filter_cons. cbn [fst].
  destruct (decide (x = d)); cbn [fmap list_fmap]; [cbn [snd]; f_equal|]; exact IH.
Qed.

Lemma all_blocks_app server d es1 es2 :
  all_blocks server d (es1 ++ es2) = all_blocks server d es1 ++ all_blocks server d es2.
Proof. apply bind_app. Qed.

Lemma all_blocks_one server d e : all_blocks server d [e] = event_blocks server d e.
Proof. apply app_nil_r. Qed.

(** A step that moves an event along, or sends one, exports nothing. *)
Lemma accounted_moved server sent o s s' :
  accounted server sent s -> cpu_ok (cpu s') -> Server (cpu s') = Server (cpu s) -> exported s' = exported s ->
  (forall d, queued d s' = queued d s ++ owned d (option_list o)) ->
  accounted server (sent ++ option_list o) s'.
Proof.
  intros [Hc Hs He] Hc' Hs' Hx Hq. split; [done | by rewrite Hs'|]. intros d.
  destruct (He d) as (p & Hsent & Hp). exists p. rewrite owned_app, Hsent, Hq. rewrite <- !app_assoc.
  split; [done|]. unfold exported_by. by rewrite Hx.
Qed.

(** A detector's step processes the first event of its queue. *)
Lemma accounted_processed server sent s s' x e b :
  accounted server sent s -> cpu_ok (cpu s') -> Server (cpu s') = Server (cpu s) ->
  exported s' = exported s ++ delivered x b ->
  match b with Some b => Consume b | None => [] end = event_blocks server x e ->
  queued x s = e :: queued x s' -> (forall d, d <> x -> queued d s' = queued d s) ->
  accounted server sent s'.
Proof.
  intros [Hc Hs He] Hc' Hs' Hx Hb Hq Hd. split; [done | by rewrite Hs'|]. intros d.
  destruct (He d) as (p & Hsent & Hp). destruct (decide (x = d)) as [<- | Hne].
  - exists (p ++ [e]). rewrite Hsent, Hq, <- app_assoc. split; [done|].
    unfold exported_by at 1. rewrite Hx, exported_by_app, decide_True, Hb, Hp by done.
    by rewrite all_blocks_app, all_blocks_one.
  - exists p. rewrite Hd by done. split; [done|].
    unfold exported_by at 1. rewrite Hx, exported_by_app, decide_False by done. by rewrite app_nil_r.
Qed.

Lemma UploadTries_ok t c : cpu_ok c -> cpu_ok (UploadTries t c) /\ Server (UploadTries t c) = Server c.
Proof.
  intros Hc. unfold UploadTries. destruct (startTimeTruncated c); [|by destruct Hc].
  split; [|done]. destruct Hc as [Ht Hd]. split; cbn [tries previousTries].
  - intros app l. rewrite lookup_fmap_Some. intros (l0 & <- & Hl). destruct (Ht app l0 Hl) as (t0 & -> & _).
    exists New. split; [done | apply New_wf].
  - intros app Happ. rewrite lookup_fmap. apply fmap_is_Some. by apply Hd.
Qed.

Lemma copies_cons d e x ds : copies d e (x :: ds) = (if decide (x = d) then [e] else []) ++ copies d e ds.
Proof. unfold copies. rewrite filter_cons. by destruct (decide _). Qed.

Lemma delivered_none x : delivered x None = [].
Proof. done. Qed.

(** The detectors without events drop what they are handed. *)
Lemma accounted_dropped server sent s x e ds :
  accounted server sent s -> hand s = Some (e, x :: ds) -> x = DetectorIo \/ x = DetectorNet ->
  accounted server sent (ConsumeEvent x e s <| hand := Some (e, ds) |>).
Proof.
  intros Ha Hh Hx.
  assert (Hs : forall s, ConsumeEvent x e s = s) by by destruct Hx as [-> | ->]. rewrite Hs.
  pose proof (ac_cpu _ _ _ Ha) as Hc.
  apply (accounted_processed server sent s _ x e None); [done | done | reflexivity | | | |].
  - cbn [exported]. by rewrite delivered_none, app_nil_r.
  - by destruct Hx as [-> | ->].
  - unfold queued, hand_of. cbn [hand eventCh]. rewrite Hh, copies_cons, decide_True by done.
    by destruct Hx as [-> | ->].
  - intros d Hd. unfold queued, hand_of. cbn [hand eventCh]. rewrite Hh, copies_cons, decide_False by done.
    by destruct d.
Qed.

(** Every step keeps the accounts. *)
Lemma step_accounted server sent s o s' :
  accounted server sent s -> Forall event_ok sent -> pipeline_step boot fmt caps s o s' ->
  accounted server (sent ++ option_list o) s'.
Proof.
  intros Ha Hsent Hstep. pose proof (ac_cpu _ _ _ Ha) as Hc. pose proof (ac_server _ _ _ Ha) as Hs.
  assert (Hok : forall d e rest, queued d s = e :: rest -> event_ok e).
  { intros d e rest Hq. destruct (ac_events _ _ _ Ha d) as (p & Hp & _). rewrite Hq in Hp.
    assert (Hin : e ∈ owned d sent) by (rewrite Hp; set_solver).
    apply list_elem_of_filter in Hin as [_ Hin]. exact (proj1 (Forall_forall _ _) Hsent e Hin). }
  destruct Hstep as [s e Hlen | s e rest Hh Hev | s e x ds Hh Hroom | s e Hh | s e rest c b Hch Hp
                    | s e rest b Hch Hp | s t Ht]; cbn [option_list]; rewrite ?app_nil_r.
  - apply (accounted_moved server sent (Some e) s); [done.. |]. intros d. unfold queued.
    cbn [eventCh option_list]. rewrite owned_app, <- !app_assoc. done.
  - rewrite <- (app_nil_r sent). apply (accounted_moved server sent None s); [done.. |]. intros d.
    unfold queued, hand_of. cbn [eventCh hand option_list]. rewrite Hh, Hev, owned_cons, app_nil_r. done.
  - destruct x.
    1, 4: rewrite <- (app_nil_r sent); apply (accounted_moved server sent None s); [done.. |]; intros d;
      unfold queued, hand_of; cbn [eventCh hand option_list ConsumeEvent]; rewrite Hh, copies_cons, app_nil_r;
      destruct d; cbn; by rewrite <- ?app_assoc.
    1, 2: apply (accounted_dropped server sent s _ e ds); [done | done | by auto].
  - rewrite <- (app_nil_r sent). apply (accounted_moved server sent None s); [done.. |]. intros d.
    unfold queued, hand_of. cbn [eventCh hand option_list]. by rewrite Hh, app_nil_r.
  - assert (Hq : queued DetectorCpu s = e :: queued DetectorCpu (s <| cpuChan := rest |>))
      by (unfold queued; cbn [chan_of cpuChan]; by rewrite Hch).
    destruct (cpu_ProcessEvent_returns boot fmt e (cpu s) (Hok _ _ _ Hq) Hc) as (c' & Hp' & Hk).
    rewrite Hp in Hp'. injection Hp' as <- ->. destruct Hk as (Hc' & Hs' & _).
    eapply (accounted_processed server sent s _ DetectorCpu e); [exact Ha | exact Hc' | exact Hs' | reflexivity
      | by rewrite Hs | exact Hq |]. intros [] Hd; by try done.
  - assert (Hq : queued DetectorMem s = e :: queued DetectorMem (s <| memChan := rest |>))
      by (unfold queued; cbn [chan_of memChan]; by rewrite Hch).
    pose proof (mem_ProcessEvent_returns boot fmt e (Hok _ _ _ Hq)) as Hp'. rewrite Hp in Hp'. injection Hp' as ->.
    eapply (accounted_processed server sent s _ DetectorMem e); [exact Ha | exact Hc | reflexivity | reflexivity
      | done | exact Hq |]. intros [] Hd; by try done.
  - rewrite <- (app_nil_r sent). apply (accounted_moved server sent None s); [done | | | done |].
    + by apply UploadTries_ok.
    + by apply UploadTries_ok.
    + intros d. by rewrite app_nil_r.
Qed.

Lemma Init_ok remote_ok cfg c c' ok : cpu_ok c -> Init remote_ok cfg c = (c', ok) -> cpu_ok c'.
Proof.
  intros [Ht Hd]. unfold Init. destruct cfg as [server|]; [|by intros [= <- _]; split].
  destruct (negb _); [|destruct (negb _)]; intros [= <- _]; by split.
Qed.

Lemma started_accounted remote_ok cfg s :
  started remote_ok cfg = Some s -> accounted (Server (cpu s)) [] s.
Proof.
  unfold started. destruct (Init remote_ok cfg NewCpuDetector) as [c []] eqn:E; [|done]. intros [= <-].
  split; [exact (Init_ok _ _ _ _ _ new_cpu_ok E) | done |]. intros d. exists []. by destruct d.
Qed.

Lemma runs_accounted server sent s more s' :
  accounted server sent s -> Forall event_ok (sent ++ more) -> pipeline_runs boot fmt caps s more s' ->
  accounted server (sent ++ more) s'.
Proof.
  intros Ha Hok Hrun. induction Hrun as [s | s more s1 o s2 _ IH Hstep]; [by rewrite app_nil_r|].
  rewrite app_assoc in Hok |- *. apply Forall_app in Hok as [Hok _].
  by apply step_accounted with s1; [apply IH | |].
Qed.

(** * Draining *)

(** The steps that the events in the pipeline still need. *)
Definition backlog (s : pipeline) : nat :=
  (length (cpuChan s) + length (memChan s) +
  (match hand s with Some (_, ds) => S (2 * length ds) | None => 0 end) +
  sum_list_with (fun e => 2 + 2 * length (detectors_of e)) (eventCh s))%nat.

Definition drained (s : pipeline) : Prop := backlog s = 0%nat.

Lemma drained_empty s d : drained s -> queued d s = [].
Proof.
  unfold drained, backlog, queued, hand_of. intros H. destruct (hand s) as [[e ds]|]; [lia|].
  destruct (eventCh s) as [|e es]; [|cbn in H; lia]. cbn in H.
  destruct (cpuChan s) eqn:Ec; [|cbn in H; lia]. destruct (memChan s) eqn:Em; [|cbn in H; lia].
  destruct d; cbn [chan_of]; rewrite ?Ec, ?Em; done.
Qed.

(** Unless everything is drained, some goroutine can take a step that is neither a send
    nor a tick. *)
Lemma backlog_shrinks server sent s :
  (0 < cap_cpu caps)%nat -> (0 < cap_mem caps)%nat ->
  accounted server sent s -> Forall event_ok sent -> ~ drained s ->
  exists s', pipeline_step boot fmt caps s None s' /\ (backlog s' < backlog s)%nat.
Proof.
  intros Hcc Hcm Ha Hsent Hnd. unfold drained, backlog in *.
  assert (Hok : forall d e rest, chan_of d s = e :: rest -> event_ok e).
  { intros d e rest Hq. destruct (ac_events _ _ _ Ha d) as (p & Hp & _). unfold queued in Hp. rewrite Hq in Hp.
    assert (Hin : e ∈ owned d sent) by (rewrite Hp; set_solver).
    apply list_elem_of_filter in Hin as [_ Hin]. exact (proj1 (Forall_forall _ _) Hsent e Hin). }
  destruct (cpuChan s) as [|e rest] eqn:Ec.
  2:{ destruct (cpu_ProcessEvent_returns boot fmt e (cpu s) (Hok DetectorCpu e rest Ec) (ac_cpu _ _ _ Ha))
        as (c & Hp & _). eexists. split; [by eapply CpuStep|].
      cbn [cpuChan memChan hand eventCh length]. lia. }
  destruct (memChan s) as [|e rest] eqn:Em.
  2:{ pose proof (mem_ProcessEvent_returns boot fmt e (Hok DetectorMem e rest Em)) as Hp.
      eexists. split; [by eapply MemStep|]. cbn [cpuChan memChan hand eventCh length]. rewrite Ec. cbn. lia. }
  destruct (hand s) as [[e ds]|] eqn:Eh.
  - destruct ds as [|d ds].
    + eexists. split; [by eapply PassedStep|]. cbn [cpuChan memChan hand eventCh]. rewrite Ec, Em. cbn. lia.
    + eexists. split; [eapply PassStep; [done|]; destruct d; cbn [room]; rewrite ?Ec, ?Em; cbn; done || lia|].
      destruct d; cbn [ConsumeEvent cpuChan memChan hand eventCh]; rewrite ?Ec, ?Em; cbn; lia.
  - destruct (eventCh s) as [|e es] eqn:Ee; [by destruct Hnd|].
    eexists. split; [by eapply TakeStep|]. cbn [cpuChan memChan hand eventCh]. rewrite Ec, Em. cbn. lia.
Qed.

Lemma runs_app s0 es1 s1 es2 s2 :
  pipeline_runs boot fmt caps s0 es1 s1 -> pipeline_runs boot fmt caps s1 es2 s2 ->
  pipeline_runs boot fmt caps s0 (es1 ++ es2) s2.
Proof.
  intros H1 H2. induction H2 as [|s es2 s2 o s3 _ IH Hstep]; [by rewrite app_nil_r|].
  rewrite app_assoc. by apply PipeStep with s2; [apply IH|].
Qed.

Lemma pipeline_drains server sent s :
  (0 < cap_cpu caps)%nat -> (0 < cap_mem caps)%nat ->
  accounted server sent s -> Forall event_ok sent ->
  exists s', pipeline_runs boot fmt caps s [] s' /\ drained s'.
Proof.
  intros Hcc Hcm. remember (backlog s) as n eqn:Hn. revert s Hn.
  induction (lt_wf n) as [n _ IH]. intros s -> Ha Hok. destruct (decide (drained s)) as [Hd | Hd].
  - exists s. by split; [constructor|].
  - destruct (backlog_shrinks server sent s Hcc Hcm Ha Hok Hd) as (s1 & Hstep & Hlt).
    assert (Ha1 : accounted server sent s1).
    { rewrite <- (app_nil_r sent). by eapply (step_accounted _ _ s None). }
    destruct (IH _ Hlt s1 eq_refl Ha1 Hok) as (s' & Hrun & Hd'). exists s'. split; [|done].
    apply (runs_app s [] s1 [] s'); [|done]. apply (PipeStep _ _ _ s [] s None s1); [constructor | done].
Qed.

Lemma pipeline_drained server sent s :
  (0 < cap_cpu caps)%nat -> (0 < cap_mem caps)%nat ->
  accounted server sent s -> Forall event_ok sent ->
  exists s', pipeline_runs boot fmt caps s [] s' /\ drained s' /\
    forall d, queued d s' = [] /\ exported_by d s' = all_blocks server d (owned d sent).
Proof.
  intros Hcc Hcm Ha Hok. destruct (pipeline_drains server sent s Hcc Hcm Ha Hok) as (s' & Hrun' & Hd).
  exists s'. split; [done|]. split; [done|]. intros d. split; [by apply drained_empty|].
  assert (Ha' : accounted server (sent ++ []) s') by (eapply runs_accounted; [done | by rewrite app_nil_r | done]).
  rewrite app_nil_r in Ha'. destruct (ac_events _ _ _ Ha' d) as (p & Hp & Hx).
  rewrite (drained_empty s' d Hd), app_nil_r in Hp. by rewrite Hp.
Qed.

(** The sessions can send as long as the receiver's channel has room. *)
Lemma emit_all s es :
  (length (eventCh s) + length es <= cap_receiver caps)%nat ->
  pipeline_runs boot fmt caps s es (s <| eventCh := eventCh s ++ es |>).
Proof.
  induction es as [|e es IH] using rev_ind; intros Hlen.
  - rewrite app_nil_r. destruct s. constructor.
  - rewrite length_app in Hlen. cbn in Hlen. rewrite app_assoc.
    apply (PipeStep boot fmt caps s es (s <| eventCh := eventCh s ++ es |>) (Some e)); [apply IH; lia|].
    apply (EmitStep boot fmt caps (s <| eventCh := eventCh s ++ es |>) e). cbn [eventCh]. rewrite length_app. lia.
Qed.

(** Whatever the order in which the receiver and the detectors run, every detector
    processes the events that it owns once each and in the order in which they were
    sent: they are those processed and those still queued, and what was exported is the
    blocks of the processed ones.  From every reachable moment on the queues can empty,
    and then the blocks of all events sent have been exported. *)
Lemma pipeline_delivers remote_ok cfg s0 sent s :
  (0 < cap_cpu caps)%nat -> (0 < cap_mem caps)%nat ->
  started remote_ok cfg = Some s0 -> Forall event_ok sent -> pipeline_runs boot fmt caps s0 sent s ->
  let server := Server (cpu s0) in
  (forall d, exists processed, owned d sent = processed ++ queued d s /\
    exported_by d s = all_blocks server d processed) /\
  exists s', pipeline_runs boot fmt caps s [] s' /\ drained s' /\
    forall d, queued d s' = [] /\ exported_by d s' = all_blocks server d (owned d sent).
Proof.
  intros Hcc Hcm Hs0 Hok Hrun server.
  assert (Ha : accounted server sent s) by exact (runs_accounted _ [] s0 sent s (started_accounted _ _ _ Hs0) Hok Hrun).
  split; [apply (ac_events _ _ _ Ha) | by apply pipeline_drained].
Qed.
End Delivery.

(** * An event on its way *)

Definition no_remote (addr : string) : bool := false.
Definition print_nothing (t : Z) : list Z := [].
Definition demo_started (cfg : tool_config) : pipeline := {|
  eventCh := []; hand := None; cpuChan := []; memChan := []; cpu := (Init no_remote cfg NewCpuDetector).1;
  exported := [] |}.
Definition demo_event (tool : string) : SpyEvent :=
  new_event <| Name := tool |> <| Class_ := {| class_Name := "detector_cpu"; class_Event := tool |} |>.

Lemma demo_event_ok tool : Forall event_ok [demo_event tool].
Proof. constructor; [|constructor]. split; [by split | by constructor]. Qed.

(** A run that sends one event. *)
Lemma demo_sent boot fmt cfg e :
  pipeline_runs boot fmt agent_capacities (demo_started cfg) [e] ((demo_started cfg) <| eventCh := [e] |>).
Proof. apply (emit_all boot fmt agent_capacities (demo_started cfg) [e]). cbn. lia. Qed.

Lemma pipeline_delivers_witness :
  exists s', pipeline_runs 0 print_nothing agent_capacities
      ((demo_started OtherTool) <| eventCh := [demo_event model.Syscall] |>) [] s' /\
    length (exported_by DetectorCpu s') = 1%nat /\ exported_by DetectorMem s' = [].
Proof.
  destruct (pipeline_delivers 0 print_nothing agent_capacities no_remote OtherTool (demo_started OtherTool)
    [demo_event model.Syscall] ((demo_started OtherTool) <| eventCh := [demo_event model.Syscall] |>)) as (_ & s' & H).
  - cbn. lia.
  - cbn. lia.
  - reflexivity.
  - apply demo_event_ok.
  - apply demo_sent.
  - destruct H as (Hrun & _ & Hx). exists s'. split; [exact Hrun|].
    destruct (Hx DetectorCpu) as [_ Hcpu]. destruct (Hx DetectorMem) as [_ Hmem]. rewrite Hcpu, Hmem.
    split; reflexivity.
Defined.
