(* ===== verification/Uploads.v ===== *)
(** A profile is never uploaded: the condition under which the on-CPU handler collects
    stacks excludes the one under which [Init] starts the uploads.  A property of
    [Pipeline]. *)
From S2P Require Import Prelude GoLib Trie SpyEvent DataBlock Detectors AgentSpec Pipeline PipelineSpec Delivery.
Open Scope Z_scope.
Open Scope bpf_scope.

(** Nothing was uploaded, and where the ticker runs there is nothing to upload. *)
Definition no_stacks (l : list (option Trie)) : Prop := forall t, Some t ∈ l -> Trie.IsEmpty t = true.
Record quiet (c : CpuDetector) : Prop := {
  q_uploads : uploads c = [];
  q_ticking : ticking c = true -> Server c = DefaultServer /\ map_Forall (fun _ l => no_stacks l) (tries c)
}.

Lemma no_stacks_new l : no_stacks (new_tries l).
Proof. intros t Ht. unfold new_tries in Ht. apply list_elem_of_fmap in Ht as ([x|] & Hx & _); [by injection Hx as ->|done]. Qed.

Lemma no_stacks_jobs c endTime l : no_stacks l -> upload_jobs c endTime l = [].
Proof.
  intros Hl. unfold upload_jobs. induction l as [|t l IH]; [done|].
  assert (Hrest : no_stacks l) by (intros t' Ht'; apply Hl; by right).
  destruct t as [t|]; cbn [omap list_omap id]; [|by apply IH].
  rewrite filter_cons, decide_False by (rewrite (Hl t) by (by left); done). by apply IH.
Qed.

Lemma UploadTries_quiet t c : quiet c -> ticking c = true -> quiet (UploadTries t c).
Proof.
  intros [Hu Ht] Hon. destruct (Ht Hon) as [Hs Hempty]. unfold UploadTries.
  destruct (startTimeTruncated c); [|by split]. split; cbn [uploads ticking tries Server].
  - rewrite Hu. cbn [app].
    assert (Hall : Forall no_stacks (map_to_list (tries c)).*2).
    { apply Forall_fmap, Forall_forall. intros [app l] Hl. apply elem_of_map_to_list in Hl.
      exact (Hempty app l Hl). }
    induction Hall as [|l ls Hl _ IH]; [done|]. cbn [fmap list_fmap mjoin list_join].
    by rewrite no_stacks_jobs.
  - intros _. split; [done|]. intros app l. rewrite lookup_fmap_Some. intros (l0 & <- & _). apply no_stacks_new.
Qed.

Lemma initializeTries_same app c :
  let c' := initializeTries app c in Server c' = Server c /\ uploads c' = uploads c /\ ticking c' = ticking c.
Proof. unfold initializeTries. by destruct (_ !! _). Qed.

Lemma collect_same app stack v c c' :
  collect app stack v c = Returned c' ->
  Server c' = Server c /\ uploads c' = uploads c /\ ticking c' = ticking c.
Proof.
  unfold collect. destruct (0 <? length stack)%nat; [|by intros [= <-]].
  set (c1 := match tries c !! app with Some _ => c | None => initializeTries app c end).
  assert (H1 : Server c1 = Server c /\ uploads c1 = uploads c /\ ticking c1 = ticking c)
    by (unfold c1; destruct (tries c !! app); [done | apply initializeTries_same]).
  destruct (default [] (tries c1 !! app) !! 0%nat) as [[t|]|]; cbn [or_panic go_bind]; try done.
  destruct (Trie.Insert t stack v true); cbn [go_bind]; [|done..]. by intros [= <-].
Qed.

Lemma oncpuHandler_quiet e c c' b :
  oncpuHandler e c = Returned (c', b) -> quiet c ->
  quiet c' /\ Server c' = Server c /\ (Server c <> DefaultServer -> b = None).
Proof.
  unfold oncpuHandler. destruct (for_attributes _ _ _) as [a| | |]; cbn [go_bind]; [|done..]. cbn [Server].
  intros H [Hu Ht]. destruct (String.eqb_spec (Server c) DefaultServer) as [Hs | Hs]; cbn [negb] in H.
  - injection H as <- <-. split; [by split|]. by split.
  - destruct (collect _ _ _ _) as [c1| | |] eqn:E; cbn [go_bind] in H; [|done..]. injection H as <- <-.
    apply collect_same in E as (E1 & E2 & E3). cbn [Server uploads ticking] in *.
    split; [|by split]. split; [by rewrite E2|]. rewrite E3. intros Hon. by destruct (Ht Hon).
Qed.

Lemma cpu_ProcessEvent_quiet boot fmt e c c' b :
  cpu_ProcessEvent boot fmt e c = Returned (c', b) -> quiet c ->
  quiet c' /\ Server c' = Server c /\
  (Server c <> DefaultServer -> forall d, b = Some d -> block_Name d <> model.OnCpu).
Proof.
  unfold cpu_ProcessEvent. intros H Hq.
  assert (Hmade : forall r, (let* b := r in Returned (c, Some b)) = Returned (c', b) ->
    (forall d, r = Returned d -> block_Name d <> model.OnCpu) ->
    quiet c' /\ Server c' = Server c /\
    (Server c <> DefaultServer -> forall d, b = Some d -> block_Name d <> model.OnCpu)).
  { intros [d| | |] Hr Hd; cbn [go_bind] in Hr; [|done..]. injection Hr as <- <-. split; [done|]. split; [done|].
    intros _ d' [= <-]. by apply Hd. }
  repeat (destruct (_ =? _)%string in H); try (by injection H as <- <-).
  - apply Hmade with (1 := H). intros d. unfold offcpuHandler. destruct (formatOffcpuLabels _ _ _); [|done..].
    cbn [go_bind]. destruct (GetUintUserAttribute _ _); [|done..]. by intros [= <-].
  - destruct (oncpuHandler_quiet _ _ _ _ H Hq) as (H1 & H2 & H3). split; [done|]. split; [done|].
    intros Hs d Hd. by rewrite H3 in Hd.
  - apply Hmade with (1 := H). intros d. unfold futexsnoopHandler. destruct (formatFutexSnoopLabels _); [|done..].
    cbn [go_bind]. destruct (GetUintUserAttribute _ _); [|done..]. by intros [= <-].
  - apply Hmade with (1 := H). intros d. unfold syscallHandler. destruct (formatSyscallLabels _); [|done..].
    cbn [go_bind]. destruct (GetUintUserAttribute _ _); [|done..]. by intros [= <-].
Qed.

Lemma Init_quiet remote_ok cfg c : Init remote_ok cfg NewCpuDetector = (c, true) -> quiet c.
Proof.
  assert (Htries : map_Forall (fun _ l => no_stacks l) (tries NewCpuDetector)).
  { intros app l H. change (tries NewCpuDetector)
      with (<[model.OnCpu := [Some New]]> (∅ : gmap string (list (option Trie)))) in H.
    apply lookup_insert_Some in H as [[_ <-] | [_ H]]; [|by apply lookup_empty_Some in H].
    intros t Ht. apply list_elem_of_singleton in Ht. by injection Ht as ->. }
  unfold Init. destruct cfg as [server|]; [|by intros [= <-]].
  destruct (String.eqb_spec server DefaultServer) as [-> | Hne]; cbn [negb].
  - destruct (remote_ok DefaultServer); cbn [negb]; [|done]. intros [= <-]. split; [done|]. intros _. by split.
  - intros [= <-]. by split.
Qed.

Section Uploads.
Context (boot : Z) (fmt : Z -> list Z) (caps : capacities).

Record unprofiled (server : string) (s : pipeline) : Prop := {
  up_quiet : quiet (cpu s);
  up_server : Server (cpu s) = server;
  up_exported : server <> DefaultServer -> Forall (fun x => block_Name x.2 <> model.OnCpu) (exported s)
}.

Lemma delivered_names (P : DataBlock -> Prop) d b :
  (forall x, b = Some x -> P x) -> Forall (fun x => P x.2) (delivered d b).
Proof.
  intros Hb. unfold delivered. destruct b as [b|]; [|constructor]. unfold Consume.
  case_decide; [|constructor]. cbn. repeat constructor. by apply Hb.
Qed.

Lemma step_unprofiled server s o s' :
  unprofiled server s -> pipeline_step boot fmt caps s o s' -> unprofiled server s'.
Proof.
  intros Hu Hstep.
  destruct Hstep as [ | | s e x ds Hh Hroom | | s e rest c b Hch Hp | s e rest b Hch Hp | s t Ht];
    destruct Hu as [Hq Hs Hx].
  1, 2, 4: by split.
  - by destruct x.
  - destruct (cpu_ProcessEvent_quiet _ _ _ _ _ _ Hp Hq) as (Hq' & Hs' & Hb).
    split; cbn [cpu exported]; [done | by rewrite Hs' |]. intros Hne. apply Forall_app. split; [by apply Hx|].
    apply (delivered_names (fun b => block_Name b <> model.OnCpu)). apply Hb. by rewrite Hs.
  - split; cbn [cpu exported]; [done.. |]. intros Hne. apply Forall_app. split; [by apply Hx|].
    apply (delivered_names (fun b => block_Name b <> model.OnCpu)). intros d ->. revert Hp. unfold mem_ProcessEvent. destruct (_ =? _)%string; [|done].
    unfold cachestatHandler. destruct (formatCacheStat e); [|done..]. cbn [go_bind].
    destruct (GetUintUserAttribute _ _); [|done..]. by intros [= <-].
  - split; cbn [cpu exported]; [by apply UploadTries_quiet | | done]. rewrite <- Hs. unfold UploadTries.
    by destruct (startTimeTruncated _).
Qed.

(** C31: whatever the agent is configured with and whatever events arrive, no profile is
    ever uploaded: [Init] makes an upstream and starts the ticker only for the default
    server, and with the default server no stack is put into the tries.  With any other
    server the stacks are collected for uploads that never come, and no block of the
    on-CPU profiler reaches the exporter either. *)
Theorem profile_never_uploaded remote_ok cfg s0 sent s :
  started remote_ok cfg = Some s0 -> pipeline_runs boot fmt caps s0 sent s ->
  uploads (cpu s) = [] /\
  (Server (cpu s) <> DefaultServer -> Forall (fun x => block_Name x.2 <> model.OnCpu) (exported s)).
Proof.
  intros Hs0 Hrun.
  assert (H0 : unprofiled (Server (cpu s0)) s0).
  { revert Hs0. unfold started. destruct (Init remote_ok cfg NewCpuDetector) as [c []] eqn:E; [|done].
    intros [= <-]. split; [exact (Init_quiet _ _ _ E) | done | by constructor]. }
  clear Hs0.
  assert (H : unprofiled (Server (cpu s0)) s).
  { induction Hrun as [|s sent s1 o s2 _ IH Hstep]; [done|]. eapply step_unprofiled; [by apply IH | done]. }
  destruct H as [Hq Hs Hx]. split; [apply (q_uploads _ Hq)|]. by rewrite Hs.
Qed.
End Uploads.

(** A sample with another server: it is processed, and nothing comes of it. *)
Lemma profile_never_uploaded_witness :
  exists s', pipeline_runs 0 print_nothing agent_capacities (demo_started (ONCPU "http://loki:3100"))
      [demo_event model.OnCpu] s' /\ drained s' /\ uploads (cpu s') = [].
Proof.
  set (p0 := demo_started (ONCPU "http://loki:3100")).
  assert (Hp0 : started no_remote (ONCPU "http://loki:3100") = Some p0) by reflexivity.
  assert (Hc : (0 < cap_cpu agent_capacities)%nat) by (cbn; lia).
  assert (Hm : (0 < cap_mem agent_capacities)%nat) by (cbn; lia).
  pose proof (demo_sent 0 print_nothing (ONCPU "http://loki:3100") (demo_event model.OnCpu)) as Hsent.
  destruct (pipeline_drained 0 print_nothing agent_capacities _ _ _ Hc Hm
    (runs_accounted 0 print_nothing agent_capacities _ [] p0 _ _ (started_accounted _ _ _ _ _ Hp0)
      (demo_event_ok model.OnCpu) Hsent) (demo_event_ok model.OnCpu)) as (s' & Hrun & Hd & _).
  exists s'. assert (Hall : pipeline_runs 0 print_nothing agent_capacities p0 [demo_event model.OnCpu] s')
    by exact (runs_app 0 print_nothing agent_capacities _ _ _ [] _ Hsent Hrun).
  split; [exact Hall|]. split; [exact Hd|].
  exact (proj1 (profile_never_uploaded 0 print_nothing agent_capacities _ _ p0 _ s' Hp0 Hall)).
Defined.
