(* ===== verification/Config.v ===== *)
(** The configuration: pkg/app/config/config.go, [CopyStruct] of pkg/util/util.go, and what
    the sessions of pkg/ebpf make of it.

    A tool has two structures of options, one for the command line and one for the
    file spycat.yaml; [CopyStruct] copies the second into the first, member by member and
    by reflection.  The members of a Go structure are therefore also seen as a list of
    values that know their types ([GoStruct]).  A session turns the options into the
    arguments that its program finds in [args_map]. *)
From S2P Require Import Prelude Layout FutexSnoop Syscall CacheStat OffCpu OnCpu Wire SyscallTable GoLib SpyEvent.
Open Scope Z_scope.
Open Scope bpf_scope.

(** * Structures by reflection *)

Inductive goval := VInt (z : Z) | VUint (z : Z) | VBool (b : bool) | VString (s : string) | VDuration (z : Z).
Inductive gotype := TyInt | TyUint | TyBool | TyString | TyDuration.

#[export] Instance gotype_eq_dec : EqDecision gotype.
Proof. solve_decision. Defined.

Definition type_of (v : goval) : gotype :=
  match v with
  | VInt _ => TyInt
  | VUint _ => TyUint
  | VBool _ => TyBool
  | VString _ => TyString
  | VDuration _ => TyDuration
  end.

(** A structure is the list of its members, of the types it declares. *)
Class GoStruct (S : Type) := {
  fields : S -> list goval;
  build : list goval -> option S;
  types : list gotype;
  build_fields s : build (fields s) = Some s;
  fields_build vs s : build vs = Some s -> fields s = vs;
  build_typed vs : is_Some (build vs) <-> type_of <$> vs = types
}.
Arguments types S {_}.

Ltac solve_build := repeat (destruct_or?; match goal with
  | |- context [match ?l with [] => _ | _ :: _ => _ end] => is_var l; destruct l; cbn
  | |- context [match ?v with VInt _ => _ | _ => _ end] => is_var v; destruct v; cbn
  end).
Ltac go_struct :=
  first [by intros [] | intros vs s; solve_build; try done; by intros [= <-]
        | intros vs; split; [intros [s Hs]; revert Hs; solve_build; done
                            | solve_build; intros Hs; first [done | by eexists]]].

(** [reflect.Value.Set] panics unless the types are the same, [Field] unless there is such
    a member: the members from [i] on are copied. *)
Fixpoint copy_fields (i : nat) (src dest : list goval) : go_result (list goval) :=
  match src with
  | [] => Returned dest
  | v :: src =>
      let* old := or_panic (dest !! i) in
      if decide (type_of v = type_of old) then copy_fields (S i) src (<[i := v]> dest) else Panicked
  end.

(** [CopyStruct], on pointers to structures *)
Definition CopyStruct {S D} `{GoStruct S, GoStruct D} (src : S) (dest : D) : go_result D :=
  let* vs := copy_fields 0 (fields src) (fields dest) in or_panic (build vs).

(** * The options *)

Module config.
Record FUTEXSNOOP := {
  futexsnoop_LogLevel : string; futexsnoop_AppName : string; futexsnoop_Server : string;
  futexsnoop_Pid : Z; futexsnoop_Tid : Z; futexsnoop_MaxDurMs : Z; futexsnoop_MinDurMs : Z;
  futexsnoop_SymbolCacheSize : Z; futexsnoop_MaxLockHoldUsers : Z; futexsnoop_TargetLock : Z;
  futexsnoop_Stack : bool; futexsnoop_BtfPath : string; futexsnoop_Exporter : string; futexsnoop_Status : string }.
Record FUTEXSNOOP_YAML := {
  futexsnoop_yaml_LogLevel : string; futexsnoop_yaml_AppName : string; futexsnoop_yaml_Server : string;
  futexsnoop_yaml_Pid : Z; futexsnoop_yaml_Tid : Z; futexsnoop_yaml_MaxDurMs : Z; futexsnoop_yaml_MinDurMs : Z;
  futexsnoop_yaml_SymbolCacheSize : Z; futexsnoop_yaml_MaxLockHoldUsers : Z; futexsnoop_yaml_TargetLock : bool;
  futexsnoop_yaml_BtfPath : string; futexsnoop_yaml_Exporter : string; futexsnoop_yaml_Status : string }.
Record SYSCALL := {
  syscall_LogLevel : string; syscall_AppName : string; syscall_Server : string; syscall_Pid : Z;
  syscall_Tid : Z; syscall_MaxDurMs : Z; syscall_MinDurMs : Z; syscall_Syscall : string;
  syscall_SymbolCacheSize : Z; syscall_Stack : bool; syscall_BtfPath : string; syscall_Exporter : string;
  syscall_Status : string }.
Record SYSCALL_YAML := {
  syscall_yaml_LogLevel : string; syscall_yaml_AppName : string; syscall_yaml_Server : string; syscall_yaml_Pid : Z;
  syscall_yaml_Tid : Z; syscall_yaml_MaxDurMs : Z; syscall_yaml_MinDurMs : Z; syscall_yaml_Syscall : string;
  syscall_yaml_SymbolCacheSize : Z; syscall_yaml_Stack : bool; syscall_yaml_BtfPath : string;
  syscall_yaml_Exporter : string; syscall_yaml_Status : string }.
Record OFFCPU := {
  offcpu_LogLevel : string; offcpu_AppName : string; offcpu_Server : string; offcpu_Pid : Z;
  offcpu_MaxOffcpuMs : Z; offcpu_MinOffcpuMs : Z; offcpu_SymbolCacheSize : Z; offcpu_RqDurMs : Z;
  offcpu_BtfPath : string; offcpu_Exporter : string; offcpu_Status : string }.
Record OFFCPU_YAML := {
  offcpu_yaml_LogLevel : string; offcpu_yaml_AppName : string; offcpu_yaml_Server : string; offcpu_yaml_Pid : Z;
  offcpu_yaml_MaxOffcpuMs : Z; offcpu_yaml_MinOffcpuMs : Z; offcpu_yaml_SymbolCacheSize : Z; offcpu_yaml_RqDurMs : Z;
  offcpu_yaml_BtfPath : string; offcpu_yaml_Exporter : string; offcpu_yaml_Status : string }.
Record ONCPU := {
  oncpu_LogLevel : string; oncpu_AppName : string; oncpu_SampleRate : Z; oncpu_Server : string;
  oncpu_UploadThreads : Z; oncpu_UploadTimeout : Z; oncpu_UploadRate : Z; oncpu_Cpu : string;
  oncpu_SymbolCacheSize : Z; oncpu_BtfPath : string; oncpu_Exporter : string; oncpu_Status : string }.
Record ONCPU_YAML := {
  oncpu_yaml_LogLevel : string; oncpu_yaml_AppName : string; oncpu_yaml_SampleRate : Z; oncpu_yaml_Server : string;
  oncpu_yaml_UploadThreads : Z; oncpu_yaml_UploadTimeout : Z; oncpu_yaml_UploadRate : Z; oncpu_yaml_Cpu : string;
  oncpu_yaml_SymbolCacheSize : Z; oncpu_yaml_BtfPath : string; oncpu_yaml_Exporter : string; oncpu_yaml_Status : string }.
Record CACHESTAT := {
  cachestat_LogLevel : string; cachestat_AppName : string; cachestat_Server : string; cachestat_UploadRate : Z;
  cachestat_Pid : Z; cachestat_CacheType : Z; cachestat_Cpu : Z; cachestat_BtfPath : string;
  cachestat_Exporter : string; cachestat_Status : string }.
Record CACHESTAT_YAML := {
  cachestat_yaml_LogLevel : string; cachestat_yaml_AppName : string; cachestat_yaml_Server : string;
  cachestat_yaml_UploadRate : Z; cachestat_yaml_Pid : Z; cachestat_yaml_CacheType : Z; cachestat_yaml_Cpu : Z;
  cachestat_yaml_BtfPath : string; cachestat_yaml_Exporter : string; cachestat_yaml_Status : string }.
End config.

#[export, refine] Instance FUTEXSNOOP_struct : GoStruct config.FUTEXSNOOP := {|
  fields s := let '(config.Build_FUTEXSNOOP a b c d e f g h i j k l m n) := s in
    [VString a; VString b; VString c; VInt d; VInt e; VUint f; VUint g; VInt h; VUint i; VUint j; VBool k;
     VString l; VString m; VString n];
  build vs := match vs with
    | [VString a; VString b; VString c; VInt d; VInt e; VUint f; VUint g; VInt h; VUint i; VUint j; VBool k;
       VString l; VString m; VString n] => Some (config.Build_FUTEXSNOOP a b c d e f g h i j k l m n)
    | _ => None end;
  types := [TyString; TyString; TyString; TyInt; TyInt; TyUint; TyUint; TyInt; TyUint; TyUint; TyBool;
    TyString; TyString; TyString] |}.
Proof. all: abstract go_struct. Defined.

#[export, refine] Instance FUTEXSNOOP_YAML_struct : GoStruct config.FUTEXSNOOP_YAML := {|
  fields s := let '(config.Build_FUTEXSNOOP_YAML a b c d e f g h i j k l m) := s in
    [VString a; VString b; VString c; VInt d; VInt e; VUint f; VUint g; VInt h; VUint i; VBool j; VString k;
     VString l; VString m];
  build vs := match vs with
    | [VString a; VString b; VString c; VInt d; VInt e; VUint f; VUint g; VInt h; VUint i; VBool j; VString k;
       VString l; VString m] => Some (config.Build_FUTEXSNOOP_YAML a b c d e f g h i j k l m)
    | _ => None end;
  types := [TyString; TyString; TyString; TyInt; TyInt; TyUint; TyUint; TyInt; TyUint; TyBool; TyString;
    TyString; TyString] |}.
Proof. all: abstract go_struct. Defined.

#[export, refine] Instance SYSCALL_struct : GoStruct config.SYSCALL := {|
  fields s := let '(config.Build_SYSCALL a b c d e f g h i j k l m) := s in
    [VString a; VString b; VString c; VInt d; VInt e; VUint f; VUint g; VString h; VInt i; VBool j; VString k;
     VString l; VString m];
  build vs := match vs with
    | [VString a; VString b; VString c; VInt d; VInt e; VUint f; VUint g; VString h; VInt i; VBool j; VString k;
       VString l; VString m] => Some (config.Build_SYSCALL a b c d e f g h i j k l m)
    | _ => None end;
  types := [TyString; TyString; TyString; TyInt; TyInt; TyUint; TyUint; TyString; TyInt; TyBool; TyString;
    TyString; TyString] |}.
Proof. all: abstract go_struct. Defined.

#[export, refine] Instance SYSCALL_YAML_struct : GoStruct config.SYSCALL_YAML := {|
  fields s := let '(config.Build_SYSCALL_YAML a b c d e f g h i j k l m) := s in
    [VString a; VString b; VString c; VInt d; VInt e; VUint f; VUint g; VString h; VInt i; VBool j; VString k;
     VString l; VString m];
  build vs := match vs with
    | [VString a; VString b; VString c; VInt d; VInt e; VUint f; VUint g; VString h; VInt i; VBool j; VString k;
       VString l; VString m] => Some (config.Build_SYSCALL_YAML a b c d e f g h i j k l m)
    | _ => None end;
  types := [TyString; TyString; TyString; TyInt; TyInt; TyUint; TyUint; TyString; TyInt; TyBool; TyString;
    TyString; TyString] |}.
Proof. all: abstract go_struct. Defined.

#[export, refine] Instance OFFCPU_struct : GoStruct config.OFFCPU := {|
  fields s := let '(config.Build_OFFCPU a b c d e f g h i j k) := s in
    [VString a; VString b; VString c; VInt d; VUint e; VUint f; VInt g; VUint h; VString i; VString j; VString k];
  build vs := match vs with
    | [VString a; VString b; VString c; VInt d; VUint e; VUint f; VInt g; VUint h; VString i; VString j;
       VString k] => Some (config.Build_OFFCPU a b c d e f g h i j k)
    | _ => None end;
  types := [TyString; TyString; TyString; TyInt; TyUint; TyUint; TyInt; TyUint; TyString; TyString; TyString] |}.
Proof. all: abstract go_struct. Defined.

#[export, refine] Instance OFFCPU_YAML_struct : GoStruct config.OFFCPU_YAML := {|
  fields s := let '(config.Build_OFFCPU_YAML a b c d e f g h i j k) := s in
    [VString a; VString b; VString c; VInt d; VUint e; VUint f; VInt g; VUint h; VString i; VString j; VString k];
  build vs := match vs with
    | [VString a; VString b; VString c; VInt d; VUint e; VUint f; VInt g; VUint h; VString i; VString j;
       VString k] => Some (config.Build_OFFCPU_YAML a b c d e f g h i j k)
    | _ => None end;
  types := [TyString; TyString; TyString; TyInt; TyUint; TyUint; TyInt; TyUint; TyString; TyString; TyString] |}.
Proof. all: abstract go_struct. Defined.

#[export, refine] Instance ONCPU_struct : GoStruct config.ONCPU := {|
  fields s := let '(config.Build_ONCPU a b c d e f g h i j k l) := s in
    [VString a; VString b; VUint c; VString d; VInt e; VDuration f; VDuration g; VString h; VInt i; VString j;
     VString k; VString l];
  build vs := match vs with
    | [VString a; VString b; VUint c; VString d; VInt e; VDuration f; VDuration g; VString h; VInt i; VString j;
       VString k; VString l] => Some (config.Build_ONCPU a b c d e f g h i j k l)
    | _ => None end;
  types := [TyString; TyString; TyUint; TyString; TyInt; TyDuration; TyDuration; TyString; TyInt; TyString;
    TyString; TyString] |}.
Proof. all: abstract go_struct. Defined.

#[export, refine] Instance ONCPU_YAML_struct : GoStruct config.ONCPU_YAML := {|
  fields s := let '(config.Build_ONCPU_YAML a b c d e f g h i j k l) := s in
    [VString a; VString b; VUint c; VString d; VInt e; VDuration f; VDuration g; VString h; VInt i; VString j;
     VString k; VString l];
  build vs := match vs with
    | [VString a; VString b; VUint c; VString d; VInt e; VDuration f; VDuration g; VString h; VInt i; VString j;
       VString k; VString l] => Some (config.Build_ONCPU_YAML a b c d e f g h i j k l)
    | _ => None end;
  types := [TyString; TyString; TyUint; TyString; TyInt; TyDuration; TyDuration; TyString; TyInt; TyString;
    TyString; TyString] |}.
Proof. all: abstract go_struct. Defined.

#[export, refine] Instance CACHESTAT_struct : GoStruct config.CACHESTAT := {|
  fields s := let '(config.Build_CACHESTAT a b c d e f g h i j) := s in
    [VString a; VString b; VString c; VDuration d; VInt e; VInt f; VInt g; VString h; VString i; VString j];
  build vs := match vs with
    | [VString a; VString b; VString c; VDuration d; VInt e; VInt f; VInt g; VString h; VString i; VString j]
      => Some (config.Build_CACHESTAT a b c d e f g h i j)
    | _ => None end;
  types := [TyString; TyString; TyString; TyDuration; TyInt; TyInt; TyInt; TyString; TyString; TyString] |}.
Proof. all: abstract go_struct. Defined.

#[export, refine] Instance CACHESTAT_YAML_struct : GoStruct config.CACHESTAT_YAML := {|
  fields s := let '(config.Build_CACHESTAT_YAML a b c d e f g h i j) := s in
    [VString a; VString b; VString c; VDuration d; VInt e; VInt f; VInt g; VString h; VString i; VString j];
  build vs := match vs with
    | [VString a; VString b; VString c; VDuration d; VInt e; VInt f; VInt g; VString h; VString i; VString j]
      => Some (config.Build_CACHESTAT_YAML a b c d e f g h i j)
    | _ => None end;
  types := [TyString; TyString; TyString; TyDuration; TyInt; TyInt; TyInt; TyString; TyString; TyString] |}.
Proof. all: abstract go_struct. Defined.

(** * The defaults of the command line: the [def] tags *)

Definition LogLevel : string := "INFO".
Definition futexsnoop_flags : config.FUTEXSNOOP := {|
  config.futexsnoop_LogLevel := LogLevel; config.futexsnoop_AppName := "";
  config.futexsnoop_Server := "http://localhost:4040"; config.futexsnoop_Pid := 0; config.futexsnoop_Tid := 0;
  config.futexsnoop_MaxDurMs := 1000000; config.futexsnoop_MinDurMs := 1000;
  config.futexsnoop_SymbolCacheSize := 256; config.futexsnoop_MaxLockHoldUsers := 100;
  config.futexsnoop_TargetLock := 0; config.futexsnoop_Stack := false; config.futexsnoop_BtfPath := "";
  config.futexsnoop_Exporter := ""; config.futexsnoop_Status := "" |}.
Definition syscall_flags : config.SYSCALL := {|
  config.syscall_LogLevel := LogLevel; config.syscall_AppName := "";
  config.syscall_Server := "http://localhost:4040"; config.syscall_Pid := 0; config.syscall_Tid := 0;
  config.syscall_MaxDurMs := 10000; config.syscall_MinDurMs := 1; config.syscall_Syscall := "";
  config.syscall_SymbolCacheSize := 256; config.syscall_Stack := false; config.syscall_BtfPath := "";
  config.syscall_Exporter := ""; config.syscall_Status := "" |}.
Definition offcpu_flags : config.OFFCPU := {|
  config.offcpu_LogLevel := LogLevel; config.offcpu_AppName := "";
  config.offcpu_Server := "http://localhost:4040"; config.offcpu_Pid := -1;
  config.offcpu_MaxOffcpuMs := 100000000; config.offcpu_MinOffcpuMs := 0;
  config.offcpu_SymbolCacheSize := 256; config.offcpu_RqDurMs := 0; config.offcpu_BtfPath := "";
  config.offcpu_Exporter := ""; config.offcpu_Status := "" |}.
Definition oncpu_flags : config.ONCPU := {|
  config.oncpu_LogLevel := LogLevel; config.oncpu_AppName := ""; config.oncpu_SampleRate := 100;
  config.oncpu_Server := "http://localhost:4040"; config.oncpu_UploadThreads := 4;
  config.oncpu_UploadTimeout := 10 * 10 ^ 9; config.oncpu_UploadRate := 10 * 10 ^ 9; config.oncpu_Cpu := "-1";
  config.oncpu_SymbolCacheSize := 256; config.oncpu_BtfPath := ""; config.oncpu_Exporter := "";
  config.oncpu_Status := "" |}.
Definition cachestat_flags : config.CACHESTAT := {|
  config.cachestat_LogLevel := LogLevel; config.cachestat_AppName := "";
  config.cachestat_Server := "http://localhost:4040"; config.cachestat_UploadRate := 30 * 10 ^ 9;
  config.cachestat_Pid := -1; config.cachestat_CacheType := 0; config.cachestat_Cpu := -1;
  config.cachestat_BtfPath := ""; config.cachestat_Exporter := ""; config.cachestat_Status := "" |}.

(** * The arguments of the programs *)

(** FutexSnoopArgs, SyscallArgs, OffCpuArgs and CacheStatArgs: what a session keeps. *)
Module session.
Record FutexSnoopArgs := {
  fa_Tid : Z; fa_Pid : Z; fa_TargetLock : Z; fa_Stack : bool; fa_MinDurMs : Z; fa_MaxDurMs : Z;
  fa_MaxLockHoldUsers : Z }.
Record SyscallArgs := {
  sa_Pid : Z; sa_Tid : Z; sa_MinDurMs : Z; sa_MaxDurMs : Z; sa_Stack : bool; sa_SyscallId : Z }.
Record OffCpuArgs := {
  oa_Pid : Z; oa_Tgid : Z; oa_Min_offcpu_ms : Z; oa_Max_offcpu_ms : Z; oa_Rq_dur_ms : Z }.
Record CacheStatArgs := { ca_Pid : Z; ca_CacheType : Z; ca_Cpu : Z; ca_Pad : Z }.
End session.
Import session.

(** The Args of the session that the constructors make: [uint32(cfg.Pid)] and so on. *)
Definition futexsnoop_Args (cfg : config.FUTEXSNOOP) : FutexSnoopArgs := {|
  fa_Pid := u32 (config.futexsnoop_Pid cfg); fa_Tid := u32 (config.futexsnoop_Tid cfg);
  fa_MinDurMs := u32 (config.futexsnoop_MinDurMs cfg); fa_MaxDurMs := u32 (config.futexsnoop_MaxDurMs cfg);
  fa_TargetLock := u64 (config.futexsnoop_TargetLock cfg); fa_Stack := config.futexsnoop_Stack cfg;
  fa_MaxLockHoldUsers := u32 (config.futexsnoop_MaxLockHoldUsers cfg) |}.
Definition syscall_Args (goarch : string) (cfg : config.SYSCALL) : SyscallArgs := {|
  sa_Pid := u32 (config.syscall_Pid cfg); sa_Tid := u32 (config.syscall_Tid cfg);
  sa_MinDurMs := u32 (config.syscall_MinDurMs cfg); sa_MaxDurMs := u32 (config.syscall_MaxDurMs cfg);
  sa_Stack := config.syscall_Stack cfg; sa_SyscallId := SyscallNameToId goarch (config.syscall_Syscall cfg) |}.
Definition offcpu_Args (cfg : config.OFFCPU) : OffCpuArgs := {|
  oa_Pid := MaxUint32; oa_Tgid := u32 (config.offcpu_Pid cfg);
  oa_Min_offcpu_ms := u32 (config.offcpu_MinOffcpuMs cfg); oa_Max_offcpu_ms := u32 (config.offcpu_MaxOffcpuMs cfg);
  oa_Rq_dur_ms := u32 (config.offcpu_RqDurMs cfg) |}.
Definition cachestat_Args (cfg : config.CACHESTAT) : CacheStatArgs := {|
  ca_Pid := u32 (config.cachestat_Pid cfg); ca_CacheType := u32 (config.cachestat_CacheType cfg);
  ca_Cpu := u32 (config.cachestat_Cpu cfg); ca_Pad := 0 |}.

(** The Go structures as they lie in memory. *)
Definition SyscallArgs_layout : ctype := TStruct [t_u32; t_u32; t_u32; t_u32; t_u8; t_u32].
Definition OffCpuArgs_layout : ctype := TStruct [t_u32; t_u32; t_u32; t_u32; t_u32].
Definition CacheStatArgs_layout : ctype := TStruct [t_u32; t_u32; t_u32; t_u32].

(** [initArgsMap] of every session: the bytes that become entry 0 of [args_map]. *)
Definition futexsnoop_initArgsMap (a : FutexSnoopArgs) : list Z :=
  Wire.initArgsMap (fa_Pid a) (fa_Tid a) (fa_MinDurMs a) (fa_MaxDurMs a) (fa_MaxLockHoldUsers a).
Definition syscall_initArgsMap (a : SyscallArgs) : list Z :=
  encode SyscallArgs_layout
    [sa_Pid a; sa_Tid a; sa_MinDurMs a; sa_MaxDurMs a; b2z (sa_Stack a); sa_SyscallId a].
Definition offcpu_initArgsMap (a : OffCpuArgs) : list Z :=
  encode OffCpuArgs_layout
    [oa_Pid a; oa_Tgid a; oa_Min_offcpu_ms a; oa_Max_offcpu_ms a; oa_Rq_dur_ms a].
Definition cachestat_initArgsMap (a : CacheStatArgs) : list Z :=
  encode CacheStatArgs_layout [ca_Pid a; ca_CacheType a; ca_Cpu a; 0].

(** How the programs see the bytes of their arguments; the profiler's session writes none,
    and an array's entries are zero at first. *)
Definition syscall_args_of_bytes (bs : list Z) : Syscall.user_args :=
  let vs := c_read syscall_args_layout bs in {|
    Syscall.arg_pid := member vs 0; Syscall.arg_tid := member vs 1; min_syscall_ms := member vs 2;
    max_syscall_ms := member vs 3; Syscall.arg_stack := nz (member vs 4); arg_syscall_id := member vs 5 |}.
Definition offcpu_args_of_bytes (bs : list Z) : OffCpu.user_args :=
  let vs := c_read offcpu_args_layout bs in {|
    OffCpu.arg_pid := member vs 0; arg_tgid := member vs 1; min_offcpu_ms := member vs 2;
    max_offcpu_ms := member vs 3; arg_rq_dur_ms := member vs 4 |}.
Definition cachestat_args_of_bytes (bs : list Z) : CacheStat.user_args :=
  let vs := c_read cachestat_args_layout bs in {|
    CacheStat.arg_pid := member vs 0; cache_type := member vs 1; arg_cpu := member vs 2; arg_pad := member vs 3 |}.
Definition oncpu_args_unset : profile_bss_args_t :=
  let vs := c_read profile_bss_args_layout (replicate 12 0) in {|
    tgid_filter := member vs 0; cpu_filter := member vs 1; space_filter := member vs 2 |}.
