(* ===== verification/ConfigSpec.v ===== *)
(** What the options do: [CopyStruct] copies member by member, and what the filter of every
    program selects, which is not in every tool what the help says.  Properties of [Config]. *)
From S2P Require Import Prelude Prog BpfMap Layout FutexSnoop Syscall CacheStat OffCpu OnCpu Wire SyscallTable SyscallTableSpec.
From S2P Require Import SyscallSpec OnCpuSpec CacheStatSpec OffCpuSpec GoLib SpyEvent Config.
Open Scope Z_scope.
Open Scope bpf_scope.
Import session.

(** * Copies of structures *)

Section Copy.
Context {S D : Type} `{GoStruct S, GoStruct D}.

Lemma copy_fields_ok pre src old rest :
  type_of <$> src = type_of <$> old ->
  copy_fields (length pre) src (pre ++ old ++ rest) = Returned (pre ++ src ++ rest).
Proof.
  revert pre old. induction src as [|v src IH]; intros pre [|o old] Ht; try done.
  cbn in Ht. injection Ht as Hv Ht. cbn [copy_fields app].
  rewrite lookup_app_r, Nat.sub_diag by done. cbn [lookup list_lookup or_panic go_bind].
  rewrite decide_True by done. rewrite insert_app_r_alt, Nat.sub_diag by done. cbn [insert list_insert].
  specialize (IH (pre ++ [v]) old Ht). rewrite length_app, Nat.add_1_r, <- !app_assoc in IH. exact IH.
Qed.

Lemma copy_fields_panics pre src dest :
  ~ (type_of <$> src) `prefix_of` (type_of <$> dest) ->
  copy_fields (length pre) src (pre ++ dest) = Panicked.
Proof.
  revert pre dest. induction src as [|v src IH]; intros pre dest Hn; [by destruct Hn; eexists|].
  cbn [copy_fields]. rewrite lookup_app_r, Nat.sub_diag by done. destruct dest as [|d dest]; [done|].
  cbn [lookup list_lookup or_panic go_bind]. case_decide as Hv; [|done].
  rewrite insert_app_r_alt, Nat.sub_diag by done. cbn [insert list_insert].
  replace (Datatypes.S (length pre)) with (length (pre ++ [v])) by (rewrite length_app; cbn; lia).
  rewrite (cons_middle v pre dest), app_assoc. apply IH. intros [k Hk]. apply Hn. exists k. cbn.
  by rewrite Hv, Hk.
Qed.

Lemma fields_typed (s : S) : type_of <$> fields s = types S.
Proof. apply build_typed. rewrite build_fields. by eexists. Qed.

End Copy.

(** Two structures with the same types: the members are those of the source.  Where the
    types of the source are not the first types of the destination it panics. *)
Lemma CopyStruct_same {S D} `{GoStruct S, GoStruct D} (src : S) (dest d : D) :
  types S = types D -> fields d = fields src -> CopyStruct src dest = Returned d.
Proof.
  intros Ht Hd. unfold CopyStruct.
  pose proof (copy_fields_ok [] (fields src) (fields dest) []) as Hc. rewrite !app_nil_r in Hc. cbn [length app] in Hc.
  rewrite Hc by by rewrite !fields_typed. cbn [go_bind]. by rewrite <- Hd, build_fields.
Qed.

Lemma CopyStruct_panics {S D} `{GoStruct S, GoStruct D} (src : S) (dest : D) :
  ~ types S `prefix_of` types D -> CopyStruct src dest = Panicked.
Proof.
  intros Hn. unfold CopyStruct. pose proof (copy_fields_panics [] (fields src) (fields dest)) as Hc.
  cbn [length app] in Hc. rewrite Hc; [done|]. by rewrite !fields_typed.
Qed.

(** * Identifiers *)

(** Options are Go's ints, ids are not negative in the kernel. *)
Definition int32 (x : Z) : Prop := - 2 ^ 31 <= x < 2 ^ 31.
Definition kernel_id (x : Z) : Prop := 0 <= x < 2 ^ 31.

(** The option [cfg] lets [actual] pass; [all] is its value for everything. *)
Definition asked (all cfg actual : Z) : bool := (cfg =? all) || (cfg =? actual).

Lemma u32_eqb x y : int32 x -> int32 y -> (u32 x =? u32 y) = (x =? y).
Proof.
  unfold int32. intros Hx Hy. destruct (Z.eqb_spec x y) as [-> | Hne]; [apply Z.eqb_refl|].
  apply Z.eqb_neq. intros He. apply Hne. unfold uN in He. change (2 ^ 32) with (2 * 2 ^ 31) in He.
  pose proof (Z.div_mod x (2 * 2 ^ 31) ltac:(lia)). pose proof (Z.div_mod y (2 * 2 ^ 31) ltac:(lia)).
  pose proof (Z.mod_pos_bound x (2 * 2 ^ 31) ltac:(lia)). pose proof (Z.mod_pos_bound y (2 * 2 ^ 31) ltac:(lia)). nia.
Qed.

Lemma kernel_id_u32 x : kernel_id x -> u32 x = x.
Proof. unfold kernel_id. intros ?. apply uN_id. unfold is_uN. lia. Qed.

Lemma asked_u32 all cfg actual :
  int32 all -> int32 cfg -> kernel_id actual ->
  negb (negb (u32 cfg =? u32 all) && negb (u32 cfg =? actual)) = asked all cfg actual.
Proof.
  intros Ha Hc Hk. assert (Hi : int32 actual) by (unfold kernel_id, int32 in *; lia).
  pose proof (u32_eqb cfg actual Hc Hi) as He. rewrite (kernel_id_u32 actual) in He by done.
  rewrite He, (u32_eqb cfg all) by done. unfold asked. by destruct (cfg =? all), (cfg =? actual).
Qed.

(** * The arguments arrive *)

Ltac arrives := rewrite <- (app_nil_r (encode _ _)), c_read_encode;
  [done | by vm_compute | apply fits_sized; repeat (constructor; [cbn; first [apply uN_range; lia | unfold MaxUint32; lia | auto]|]); by constructor].

Lemma futexsnoop_args_arrive cfg :
  user_args_of_bytes (futexsnoop_initArgsMap (futexsnoop_Args cfg)) = {|
    FutexSnoop.targ_pid := u32 (config.futexsnoop_Tid cfg); targ_tid := u32 (config.futexsnoop_Pid cfg);
    targ_lock := 0; FutexSnoop.arg_stack := false;
    min_dur_ms := u32 (config.futexsnoop_MinDurMs cfg); max_dur_ms := u32 (config.futexsnoop_MaxDurMs cfg);
    max_lock_hold_users := u32 (config.futexsnoop_MaxLockHoldUsers cfg) |}.
Proof. unfold user_args_of_bytes, futexsnoop_initArgsMap, Wire.initArgsMap. arrives. Qed.

Lemma SyscallNameToId_range goarch name : 0 <= SyscallNameToId goarch name < 2 ^ 32.
Proof.
  rewrite SyscallNameToId_find. destruct (find_name name (table_of goarch) 0) as [j|] eqn:Hj; [|done].
  pose proof (length_table_of goarch). apply find_name_Some in Hj as (Hj0 & Hj & _); [|lia..].
  apply lookup_lt_Some in Hj. cbn. lia.
Qed.

Lemma nz_b2z b : nz (b2z b) = b.
Proof. by destruct b. Qed.

Lemma syscall_args_arrive goarch cfg :
  syscall_args_of_bytes (syscall_initArgsMap (syscall_Args goarch cfg)) = {|
    Syscall.arg_pid := u32 (config.syscall_Pid cfg); Syscall.arg_tid := u32 (config.syscall_Tid cfg);
    min_syscall_ms := u32 (config.syscall_MinDurMs cfg); max_syscall_ms := u32 (config.syscall_MaxDurMs cfg);
    Syscall.arg_stack := config.syscall_Stack cfg;
    arg_syscall_id := SyscallNameToId goarch (config.syscall_Syscall cfg) |}.
Proof.
  pose proof (SyscallNameToId_range goarch (config.syscall_Syscall cfg)) as Hid.
  assert (Hb : 0 <= b2z (config.syscall_Stack cfg) < 2 ^ 8) by by destruct (config.syscall_Stack cfg).
  unfold syscall_args_of_bytes, syscall_initArgsMap. rewrite <- (nz_b2z (config.syscall_Stack cfg)). arrives.
Qed.

Lemma offcpu_args_arrive cfg :
  offcpu_args_of_bytes (offcpu_initArgsMap (offcpu_Args cfg)) = {|
    OffCpu.arg_pid := UINT32_MAX; arg_tgid := u32 (config.offcpu_Pid cfg);
    min_offcpu_ms := u32 (config.offcpu_MinOffcpuMs cfg); max_offcpu_ms := u32 (config.offcpu_MaxOffcpuMs cfg);
    arg_rq_dur_ms := u32 (config.offcpu_RqDurMs cfg) |}.
Proof. unfold offcpu_args_of_bytes, offcpu_initArgsMap. arrives. Qed.

Lemma cachestat_args_arrive cfg :
  cachestat_args_of_bytes (cachestat_initArgsMap (cachestat_Args cfg)) = {|
    CacheStat.arg_pid := u32 (config.cachestat_Pid cfg); cache_type := u32 (config.cachestat_CacheType cfg);
    arg_cpu := u32 (config.cachestat_Cpu cfg); arg_pad := 0 |}.
Proof. unfold cachestat_args_of_bytes, cachestat_initArgsMap. arrives. Qed.

(** * Filters *)

(** The name in the options selects the calls of that name, a name that is not in the
    table every call. *)
Definition named (name : string) (id : Z) : bool :=
  bool_decide (name ∉ syscall_table_x86) || bool_decide (syscall_table_x86 !! Z.to_nat id = Some name).

Lemma named_filter name id :
  is_u32 id ->
  negb (negb (SyscallNameToId "amd64" name =? UINT32_MAX) && negb (SyscallNameToId "amd64" name =? id)) =
    named name id.
Proof.
  intros Hid.
  pose proof (name_filter "amd64" name {|
    Syscall.arg_pid := 0; Syscall.arg_tid := 0; min_syscall_ms := 0; max_syscall_ms := 0;
    Syscall.arg_stack := false; arg_syscall_id := SyscallNameToId "amd64" name |} 0 0 id eq_refl eq_refl Hid
    eq_refl x86_names_different) as Hf.
  exact Hf.
Qed.

Lemma asked_zero cfg actual :
  int32 cfg -> kernel_id actual -> negb (nz (u32 cfg) && negb (u32 cfg =? actual)) = asked 0 cfg actual.
Proof. intros Hc Hk. by apply (asked_u32 0). Qed.

Lemma asked_all cfg actual :
  int32 cfg -> kernel_id actual ->
  negb (negb (u32 cfg =? UINT32_MAX) && negb (u32 cfg =? actual)) = asked (-1) cfg actual.
Proof. intros Hc Hk. by apply (asked_u32 (-1)). Qed.

Lemma futexsnoop_filter cfg pid tid uaddr :
  kernel_id pid -> kernel_id tid -> int32 (config.futexsnoop_Pid cfg) -> int32 (config.futexsnoop_Tid cfg) ->
  enter_filter (user_args_of_bytes (futexsnoop_initArgsMap (futexsnoop_Args cfg))) pid tid uaddr =
    asked 0 (config.futexsnoop_Tid cfg) pid && asked 0 (config.futexsnoop_Pid cfg) tid.
Proof.
  intros Hp Ht H1 H2. rewrite futexsnoop_args_arrive. unfold enter_filter.
  cbn [FutexSnoop.targ_pid targ_tid targ_lock]. rewrite !asked_zero by done.
  change (nz 0) with false. by rewrite andb_true_r.
Qed.

Lemma syscall_selects cfg pid tid id :
  kernel_id pid -> kernel_id tid -> is_u32 id -> int32 (config.syscall_Pid cfg) -> int32 (config.syscall_Tid cfg) ->
  sys_filter (syscall_args_of_bytes (syscall_initArgsMap (syscall_Args "amd64" cfg))) pid tid id =
    asked 0 (config.syscall_Pid cfg) pid && asked 0 (config.syscall_Tid cfg) tid && named (config.syscall_Syscall cfg) id.
Proof.
  intros Hp Ht Hid H1 H2. rewrite syscall_args_arrive. unfold sys_filter.
  cbn [Syscall.arg_pid Syscall.arg_tid arg_syscall_id].
  by rewrite (kernel_id_u32 pid), !asked_zero, named_filter by done.
Qed.

(** The futex snooper's -1 does not stand for everything, as its help says: it selects a
    process, or a thread, that does not exist. *)
Lemma futexsnoop_minus_one cfg pid tid uaddr :
  kernel_id pid -> kernel_id tid -> int32 (config.futexsnoop_Pid cfg) -> int32 (config.futexsnoop_Tid cfg) ->
  config.futexsnoop_Pid cfg = -1 \/ config.futexsnoop_Tid cfg = -1 ->
  enter_filter (user_args_of_bytes (futexsnoop_initArgsMap (futexsnoop_Args cfg))) pid tid uaddr = false.
Proof.
  intros Hp Ht H1 H2 Hall. rewrite futexsnoop_filter by done. unfold kernel_id, asked in *. destruct Hall as [-> | ->].
  - rewrite (proj2 (Z.eqb_neq (-1) 0)), (proj2 (Z.eqb_neq (-1) tid)) by lia. apply andb_false_r.
  - by rewrite (proj2 (Z.eqb_neq (-1) 0)), (proj2 (Z.eqb_neq (-1) pid)) by lia.
Qed.

Lemma cachestat_selects cfg o :
  int32 (config.cachestat_Pid cfg) -> int32 (config.cachestat_Cpu cfg) ->
  int32 (config.cachestat_CacheType cfg) -> kernel_id (op_pid o) -> kernel_id (smp_processor_id (op_env o)) ->
  op_accepted (cachestat_args_of_bytes (cachestat_initArgsMap (cachestat_Args cfg))) o =
    asked (-1) (config.cachestat_Pid cfg) (op_pid o) &&
    asked (-1) (config.cachestat_Cpu cfg) (smp_processor_id (op_env o)) &&
    negb (config.cachestat_CacheType cfg =? if is_write o then 1 else 2).
Proof.
  intros H1 H2 H3 Hop Hcpu. rewrite cachestat_args_arrive. unfold op_accepted, cs_filter.
  cbn [CacheStat.arg_pid arg_cpu cache_type]. rewrite !asked_all by done.
  rewrite <- (u32_eqb (config.cachestat_CacheType cfg)) by (done || by destruct (is_write o)).
  by destruct (is_write o).
Qed.

(** C10: what the options [pid], [tid], [cpu], [syscall] and [cache_type] do in each tool,
    from the command line through [args_map] to the filter of the program, next to what
    the help of the options says of them.
    - [spycat syscall], [offcpu] and [cachestat] do what their help says: 0, -1 and -1
      stand for everything, any other value selects what it names; a call name that is
      not in the table selects every call.
    - [spycat futexsnoop] does not: it compares its option [tid] with the process and its
      option [pid] with the thread, on every lock whatever [target-lock] says; 0 stands
      for everything, and with -1, which its help gives for that, it selects nothing.
    - [spycat oncpu] has no argument for its program: every sample but those of the idle
      task is counted.
    The options are numbers of 32 bits. *)
Theorem options_reach_filters {BM : BpfMaps} {BL : BpfMapsLaws BM} pid tid id :
  kernel_id pid -> kernel_id tid -> is_u32 id ->
  (forall cfg, int32 (config.syscall_Pid cfg) -> int32 (config.syscall_Tid cfg) ->
     sys_filter (syscall_args_of_bytes (syscall_initArgsMap (syscall_Args "amd64" cfg))) pid tid id =
       asked 0 (config.syscall_Pid cfg) pid && asked 0 (config.syscall_Tid cfg) tid &&
       named (config.syscall_Syscall cfg) id) /\
  (forall cfg, int32 (config.offcpu_Pid cfg) ->
     is_target (Some (offcpu_args_of_bytes (offcpu_initArgsMap (offcpu_Args cfg)))) pid tid =
       asked (-1) (config.offcpu_Pid cfg) pid) /\
  (forall cfg o, int32 (config.cachestat_Pid cfg) -> int32 (config.cachestat_Cpu cfg) ->
     int32 (config.cachestat_CacheType cfg) -> kernel_id (op_pid o) -> kernel_id (smp_processor_id (op_env o)) ->
     let ua := cachestat_args_of_bytes (cachestat_initArgsMap (cachestat_Args cfg)) in
     let selected := asked (-1) (config.cachestat_Pid cfg) (op_pid o) &&
       asked (-1) (config.cachestat_Cpu cfg) (smp_processor_id (op_env o)) &&
       negb (config.cachestat_CacheType cfg =? if is_write o then 1 else 2) in
     op_accepted ua o = selected /\
     forall s, CacheStat.args_map s = Some ua -> selected = false -> (run (op_prog o) s).2 = s) /\
  (forall cfg uaddr, int32 (config.futexsnoop_Pid cfg) -> int32 (config.futexsnoop_Tid cfg) ->
     let selected := enter_filter (user_args_of_bytes (futexsnoop_initArgsMap (futexsnoop_Args cfg))) pid tid uaddr in
     selected = asked 0 (config.futexsnoop_Tid cfg) pid && asked 0 (config.futexsnoop_Pid cfg) tid /\
     (config.futexsnoop_Pid cfg = -1 \/ config.futexsnoop_Tid cfg = -1 -> selected = false)) /\
  forall e s, is_u64 (current_pid_tgid e) -> args s = Some oncpu_args_unset ->
    run (do_perf_event e) s =
      (0, if lo32 (current_pid_tgid e) =? 0 then s else (run (count_sample (sample_key e)) s).2).
Proof.
  intros Hp Ht Hid. split_and!.
  - intros cfg H1 H2. by apply syscall_selects.
  - intros cfg H1. rewrite offcpu_args_arrive. unfold is_target. cbn [OffCpu.arg_pid arg_tgid].
    rewrite Z.eqb_refl, andb_true_r, <- asked_all by done. by destruct (_ =? _), (_ =? _).
  - intros cfg o H1 H2 H3 Hop Hcpu ua selected.
    assert (Hsel : op_accepted ua o = selected) by by apply cachestat_selects.
    split; [done|]. intros s Ha Hno. by rewrite (op_prog_run ua), Hsel, Hno.
  - intros cfg uaddr H1 H2. split; [by apply futexsnoop_filter | by apply futexsnoop_minus_one].
  - intros e s He Ha. rewrite (do_perf_event_run oncpu_args_unset) by done.
    replace (samples oncpu_args_unset e) with (negb (lo32 (current_pid_tgid e) =? 0)); [by destruct (_ =? 0)|].
    unfold samples. change (tgid_filter oncpu_args_unset) with 0. change (space_filter oncpu_args_unset) with 0.
    by rewrite orb_false_r.
Qed.

(** The windows of durations: milliseconds, of which only the lowest 32 bits count. *)
Lemma configured_windows dur ts off run_delay rd :
  (forall cfg, is_u32 (config.syscall_MinDurMs cfg) -> is_u32 (config.syscall_MaxDurMs cfg) ->
     in_window (syscall_args_of_bytes (syscall_initArgsMap (syscall_Args "amd64" cfg))) dur =
       (config.syscall_MinDurMs cfg <=? dur / 1000000) && (dur / 1000000 <=? config.syscall_MaxDurMs cfg)) /\
  (forall cfg, is_u32 (config.offcpu_MinOffcpuMs cfg) -> is_u32 (config.offcpu_MaxOffcpuMs cfg) ->
     let delta := u32 (ms_between ts off) in
     reported (offcpu_args_of_bytes (offcpu_initArgsMap (offcpu_Args cfg))) ts off =
       (config.offcpu_MinOffcpuMs cfg <=? delta) && (delta <=? config.offcpu_MaxOffcpuMs cfg) && negb (off =? 0)) /\
  (forall cfg, is_u32 (config.offcpu_RqDurMs cfg) ->
     overloaded (offcpu_args_of_bytes (offcpu_initArgsMap (offcpu_Args cfg))) run_delay rd =
       (config.offcpu_RqDurMs cfg <? u32 (ms_between run_delay rd)) && negb (config.offcpu_RqDurMs cfg =? 0)).
Proof.
  split_and!.
  - intros cfg H1 H2. rewrite syscall_args_arrive. unfold in_window. cbn [min_syscall_ms max_syscall_ms].
    by rewrite !uN_id.
  - intros cfg H1 H2. rewrite offcpu_args_arrive. unfold reported. cbn [min_offcpu_ms max_offcpu_ms].
    by rewrite (uN_id 32 (config.offcpu_MinOffcpuMs cfg)), (uN_id 32 (config.offcpu_MaxOffcpuMs cfg)).
  - intros cfg H1. rewrite offcpu_args_arrive. unfold overloaded. cbn [arg_rq_dur_ms]. by rewrite (uN_id 32 (config.offcpu_RqDurMs cfg)).
Qed.

(** * Examples *)

(** [spycat futexsnoop --pid 7] and [spycat syscall --pid 7 --syscall futex] *)
Definition pid7_futex : config.FUTEXSNOOP := {|
  config.futexsnoop_LogLevel := LogLevel; config.futexsnoop_AppName := ""; config.futexsnoop_Server := "";
  config.futexsnoop_Pid := 7; config.futexsnoop_Tid := 0; config.futexsnoop_MaxDurMs := 1000000;
  config.futexsnoop_MinDurMs := 1000; config.futexsnoop_SymbolCacheSize := 256;
  config.futexsnoop_MaxLockHoldUsers := 100; config.futexsnoop_TargetLock := 0; config.futexsnoop_Stack := false;
  config.futexsnoop_BtfPath := ""; config.futexsnoop_Exporter := ""; config.futexsnoop_Status := "" |}.
Definition pid7_syscall : config.SYSCALL := {|
  config.syscall_LogLevel := LogLevel; config.syscall_AppName := ""; config.syscall_Server := "";
  config.syscall_Pid := 7; config.syscall_Tid := 0; config.syscall_MaxDurMs := 10000;
  config.syscall_MinDurMs := 1; config.syscall_Syscall := "futex"; config.syscall_SymbolCacheSize := 256;
  config.syscall_Stack := false; config.syscall_BtfPath := ""; config.syscall_Exporter := "";
  config.syscall_Status := "" |}.
(** [spycat cachestat --cache_type 1] *)
Definition reads_only : config.CACHESTAT := {|
  config.cachestat_LogLevel := LogLevel; config.cachestat_AppName := ""; config.cachestat_Server := "";
  config.cachestat_UploadRate := 30000000000; config.cachestat_Pid := -1; config.cachestat_CacheType := 1;
  config.cachestat_Cpu := -1; config.cachestat_BtfPath := ""; config.cachestat_Exporter := "";
  config.cachestat_Status := "" |}.

(** Thread 70 of process 7 is selected by the system call tracer and by the off-CPU
    profiler, but not by the futex snooper, which selects thread 7 of process 70; a write
    of process 7 is not counted when only reads are asked for; and the profiler leaves out
    the idle task. *)
Lemma options_reach_filters_witness :
  sys_filter (syscall_args_of_bytes (syscall_initArgsMap (syscall_Args "amd64" pid7_syscall))) 7 70 202 = true /\
  is_target (Some (offcpu_args_of_bytes (offcpu_initArgsMap (offcpu_Args offcpu_flags)))) 7 70 = true /\
  op_accepted (cachestat_args_of_bytes (cachestat_initArgsMap (cachestat_Args reads_only))) (cs_op true 10 3) = false /\
  enter_filter (user_args_of_bytes (futexsnoop_initArgsMap (futexsnoop_Args pid7_futex))) 7 70 4096 = false /\
  enter_filter (user_args_of_bytes (futexsnoop_initArgsMap (futexsnoop_Args pid7_futex))) 70 7 4096 = true /\
  run (do_perf_event (oncpu_env 0 0 1)) (oc_init (Some oncpu_args_unset)) = (0, oc_init (Some oncpu_args_unset)).
Proof.
  destruct (options_reach_filters 7 70 202) as (H1 & H2 & H3 & H4 & H5); try (unfold kernel_id, is_uN; lia).
  destruct (options_reach_filters 70 7 202) as (_ & _ & _ & H6 & _); try (unfold kernel_id, is_uN; lia).
  split; [rewrite H1; [vm_compute; reflexivity | unfold int32; cbn; lia..]|].
  split; [rewrite H2; [reflexivity | unfold int32; cbn; lia]|].
  split; [destruct (H3 reads_only (cs_op true 10 3)) as [-> _]; [unfold int32, kernel_id; vm_compute; intuition congruence..|reflexivity]|].
  split; [destruct (H4 pid7_futex 4096) as [-> _]; [unfold int32; cbn; lia..|reflexivity]|].
  split; [destruct (H6 pid7_futex 4096) as [-> _]; [unfold int32; cbn; lia..|reflexivity]|].
  by rewrite H5.
Defined.
