(* ===== verification/Launch.v ===== *)
(** How a tool is started: the session constructors of pkg/ebpf, internal/app/appspy.go,
    [RunSpy] of pkg/app/cmd.go, and pkg/config/config.go, which starts the tools that the
    file spycat.yaml enables.

    What comes out of it is the agent that runs: its CPU detector, how often the goroutines
    of the receiver and of the detectors were started, and the sessions.  The decoding of
    the YAML text, the cache of the symbol tables (NewSymbolCache makes one of this
    size) and the address of the upstream are parameters. *)
From S2P Require Import Prelude SyscallTable GoLib SpyEvent Detectors Config.
Open Scope Z_scope.
Open Scope bpf_scope.
Import session.

(** The zero value of a structure: [var cfg T]. *)
Definition zero_of (t : gotype) : goval :=
  match t with
  | TyInt => VInt 0
  | TyUint => VUint 0
  | TyBool => VBool false
  | TyString => VString ""
  | TyDuration => VDuration 0
  end.

Lemma zero_of_typed (ts : list gotype) : type_of <$> (zero_of <$> ts) = ts.
Proof. induction ts as [|[] ts IH]; cbn; [done|..]; by rewrite IH. Qed.

Definition zero {S} `{GoStruct S} : S :=
  is_Some_proj (proj2 (build_typed (zero_of <$> types S)) (zero_of_typed (types S))).

(** * Sessions *)

(** A session, with its name and what it keeps of the options.  The profiler's session
    never sets its BtfPath. *)
Inductive BpfSpyer :=
| FutexSnoopSession (name : string) (Args : FutexSnoopArgs) (BtfPath : string)
| SyscallSession (name : string) (Args : SyscallArgs) (BtfPath : string)
| OffcpuSession (name : string) (Args : OffCpuArgs) (BtfPath : string)
| OncpuSession (name : string) (sampleRate : Z) (UploadRate : Z)
| CacheStatSession (name : string) (Args : CacheStatArgs) (UploadRate : Z) (BtfPath : string).

(** [time.NewTicker] *)
Definition NewTicker (d : Z) : go_result Z := if d <=? 0 then Panicked else Returned d.

Section Launch.
Context (new_cache : Z -> bool) (goarch : string) (remote_ok : string -> bool).

(** The constructors; they return nil when there is no cache of symbol tables. *)
Definition NewFutexSnoopSession (name : string) (cfg : config.FUTEXSNOOP) : go_result (option BpfSpyer) :=
  if negb (new_cache (config.futexsnoop_SymbolCacheSize cfg)) then Returned None
  else Returned (Some (FutexSnoopSession name (futexsnoop_Args cfg) (config.futexsnoop_BtfPath cfg))).
Definition NewSyscallSession (name : string) (cfg : config.SYSCALL) : go_result (option BpfSpyer) :=
  if negb (new_cache (config.syscall_SymbolCacheSize cfg)) then Returned None
  else Returned (Some (SyscallSession name (syscall_Args goarch cfg) (config.syscall_BtfPath cfg))).
Definition NewOffCpuBpfSession (name : string) (cfg : config.OFFCPU) : go_result (option BpfSpyer) :=
  if negb (new_cache (config.offcpu_SymbolCacheSize cfg)) then Returned None
  else Returned (Some (OffcpuSession name (offcpu_Args cfg) (config.offcpu_BtfPath cfg))).
Definition NewOnCpuBpfSession (name : string) (cfg : config.ONCPU) : go_result (option BpfSpyer) :=
  if negb (new_cache (config.oncpu_SymbolCacheSize cfg)) then Returned None
  else
    let* ticker := NewTicker (config.oncpu_UploadRate cfg) in
    Returned (Some (OncpuSession name (u32 (config.oncpu_SampleRate cfg)) ticker)).
Definition NewCacheStatBpfSession (name : string) (cfg : config.CACHESTAT) : go_result (option BpfSpyer) :=
  let* ticker := NewTicker (config.cachestat_UploadRate cfg) in
  Returned (Some (CacheStatSession name (cachestat_Args cfg) ticker (config.cachestat_BtfPath cfg))).

(** * The agent *)

Inductive Exporter := TerminalOutputer | FileOutputer (path : string) | LokiExporter (url : string) | SqliteExporter.

(** [NewExporter] *)
Definition NewExporter (exporter server : string) : Exporter :=
  if (exporter =? model.DISK)%string then
    if (server =? "")%string then TerminalOutputer else FileOutputer server
  else if (exporter =? model.LOKI)%string then LokiExporter (server ++ "/api/prom/push")
  else if (exporter =? model.SQLITE)%string then SqliteExporter
  else TerminalOutputer.

(** [starts] is how often every goroutine of the pipeline was started. *)
Record AppSpy := { eper : Exporter; cpuDetector : CpuDetector; starts : nat; spyers : list BpfSpyer }.

#[export] Instance eta_AppSpy : Eta AppSpy := fun a => {|
  eper := eper a; cpuDetector := cpuDetector a; starts := starts a; spyers := spyers a |}.

Definition NewAppSpy (exporter server : string) : AppSpy := {|
  eper := NewExporter exporter server; cpuDetector := NewCpuDetector; starts := 0; spyers := [] |}.

(** [AppSpy.Start]: StartAllDetectors and the receiver's Start, which do not fail. *)
Definition Start (a : AppSpy) : AppSpy := a <| starts := S (starts a) |>.

(** The agent runs, or an error is returned, or it panics. *)
Inductive outcome := Running (a : AppSpy) | InitFailed | Crashed.

(** [RunSpy] of the command line and [runSpy] of the configuration file: they differ in
    what [AppSpy.Init] gets, the options of the tool ([cfg]) or the agent's own.  Only the
    CPU detector's Init does anything.  The session of a constructor that returned nil
    cannot be started. *)
Definition RunSpy (cfg : tool_config) (cb : go_result (option BpfSpyer)) (spy : AppSpy) : outcome :=
  match Detectors.Init remote_ok cfg (cpuDetector spy) with
  | (_, false) => InitFailed
  | (c, true) =>
      let spy := Start (spy <| cpuDetector := c |>) in
      match cb with
      | Returned (Some spyer) => Running (spy <| spyers := spyers spy ++ [spyer] |>)
      | _ => Crashed
      end
  end.
Definition runSpy (cb : go_result (option BpfSpyer)) (spy : AppSpy) : outcome := RunSpy OtherTool cb spy.

(** The commands: newFutexSnoopSpyCmd and the others *)
Inductive command :=
| FutexSnoopCmd (cfg : config.FUTEXSNOOP)
| SyscallCmd (cfg : config.SYSCALL)
| OffCpuCmd (cfg : config.OFFCPU)
| OnCpuCmd (cfg : config.ONCPU)
| CacheStatCmd (cfg : config.CACHESTAT).

Definition run_command (c : command) : outcome :=
  match c with
  | FutexSnoopCmd cfg =>
      RunSpy OtherTool (NewFutexSnoopSession model.FutexSnoop cfg)
        (NewAppSpy (config.futexsnoop_Exporter cfg) (config.futexsnoop_Server cfg))
  | SyscallCmd cfg =>
      RunSpy OtherTool (NewSyscallSession model.Syscall cfg)
        (NewAppSpy (config.syscall_Exporter cfg) (config.syscall_Server cfg))
  | OffCpuCmd cfg =>
      RunSpy OtherTool (NewOffCpuBpfSession model.OffCpu cfg)
        (NewAppSpy (config.offcpu_Exporter cfg) (config.offcpu_Server cfg))
  | OnCpuCmd cfg =>
      RunSpy (ONCPU (config.oncpu_Server cfg)) (NewOnCpuBpfSession model.OnCpu cfg)
        (NewAppSpy (config.oncpu_Exporter cfg) (config.oncpu_Server cfg))
  | CacheStatCmd cfg =>
      RunSpy OtherTool (NewCacheStatBpfSession model.CacheStat cfg)
        (NewAppSpy (config.cachestat_Exporter cfg) (config.cachestat_Server cfg))
  end.

(** * spycat.yaml *)

(** A pointer to the options of one tool; [Type] and [Config] of an entry of [inputs]. *)
Inductive InputType :=
| FutexsnoopInput (c : config.FUTEXSNOOP_YAML)
| OffcpuInput (c : config.OFFCPU_YAML)
| SyscallInput (c : config.SYSCALL_YAML)
| OncpuInput (c : config.ONCPU_YAML)
| CachestatInput (c : config.CACHESTAT_YAML).
Record InputConfig := { Type_ : string; Config_ : InputType }.
Record ExporterConfig := { exporter_Type : string; exporter_Server : string }.

(** [InputConfig.UnmarshalYAML] of an entry with this type and this node; the type selects
    the structure that the node is decoded into. *)
Definition UnmarshalYAML {node : Type}
    (decode_futexsnoop : node -> option config.FUTEXSNOOP_YAML) (decode_offcpu : node -> option config.OFFCPU_YAML)
    (decode_syscall : node -> option config.SYSCALL_YAML) (decode_oncpu : node -> option config.ONCPU_YAML)
    (decode_cachestat : node -> option config.CACHESTAT_YAML) (type : string) (value : node)
    : option InputConfig :=
  let input := fun c => {| Type_ := type; Config_ := c |} in
  if (type =? "futexsnoop")%string then input ∘ FutexsnoopInput <$> decode_futexsnoop value
  else if (type =? "offcpu")%string then input ∘ OffcpuInput <$> decode_offcpu value
  else if (type =? "syscall")%string then input ∘ SyscallInput <$> decode_syscall value
  else if (type =? "oncpu")%string then input ∘ OncpuInput <$> decode_oncpu value
  else if (type =? "cachestat")%string then input ∘ CachestatInput <$> decode_cachestat value
  else None.

Definition ENABLE : string := "enable".

Record ToolsConfig := {
  Tools : list string; Futexsnoop : config.FUTEXSNOOP_YAML; Offcpu : config.OFFCPU_YAML;
  Syscall_ : config.SYSCALL_YAML; Oncpu : config.ONCPU_YAML; Cachestat : config.CACHESTAT_YAML }.

#[export] Instance eta_ToolsConfig : Eta ToolsConfig := fun t => {|
  Tools := Tools t; Futexsnoop := Futexsnoop t; Offcpu := Offcpu t; Syscall_ := Syscall_ t; Oncpu := Oncpu t;
  Cachestat := Cachestat t |}.

(** [ToolsConfig{}] *)
Definition no_tools : ToolsConfig := {|
  Tools := []; Futexsnoop := zero; Offcpu := zero; Syscall_ := zero; Oncpu := zero; Cachestat := zero |}.

Definition enable (tool status : string) (t : ToolsConfig) : ToolsConfig :=
  if (status =? ENABLE)%string then t <| Tools := Tools t ++ [tool] |> else t.

(** [initToolsConfig]: one entry of [inputs]; a configuration of another type than the
    entry's is passed over. *)
Definition add_input (toolsConfig : ToolsConfig) (cf : InputConfig) : ToolsConfig :=
  if (Type_ cf =? model.OffCpu)%string then
    match Config_ cf with
    | OffcpuInput val => enable model.OffCpu (config.offcpu_yaml_Status val) (toolsConfig <| Offcpu := val |>)
    | _ => toolsConfig
    end
  else if (Type_ cf =? model.OnCpu)%string then
    match Config_ cf with
    | OncpuInput val => enable model.OnCpu (config.oncpu_yaml_Status val) (toolsConfig <| Oncpu := val |>)
    | _ => toolsConfig
    end
  else if (Type_ cf =? model.CacheStat)%string then
    match Config_ cf with
    | CachestatInput val =>
        enable model.CacheStat (config.cachestat_yaml_Status val) (toolsConfig <| Cachestat := val |>)
    | _ => toolsConfig
    end
  else if (Type_ cf =? model.Syscall)%string then
    match Config_ cf with
    | SyscallInput val => enable model.Syscall (config.syscall_yaml_Status val) (toolsConfig <| Syscall_ := val |>)
    | _ => toolsConfig
    end
  else if (Type_ cf =? model.FutexSnoop)%string then
    match Config_ cf with
    | FutexsnoopInput val =>
        enable model.FutexSnoop (config.futexsnoop_yaml_Status val) (toolsConfig <| Futexsnoop := val |>)
    | _ => toolsConfig
    end
  else toolsConfig.
Definition initToolsConfig (toolsConfig : ToolsConfig) (Inputs : list InputConfig) : ToolsConfig :=
  foldl add_input toolsConfig Inputs.

(** [defaultConfig], whose entries all have the status disable; [app] is [appName()], and
    UploadRate and UploadTimeout are in nanoseconds. *)
Definition default_futexsnoop (app status : string) : InputConfig := {|
  Type_ := "futexsnoop"; Config_ := FutexsnoopInput {|
    config.futexsnoop_yaml_LogLevel := LogLevel; config.futexsnoop_yaml_AppName := "futexsnoop_" ++ app;
    config.futexsnoop_yaml_Server := ""; config.futexsnoop_yaml_Pid := 0; config.futexsnoop_yaml_Tid := 0;
    config.futexsnoop_yaml_MaxDurMs := 1000000; config.futexsnoop_yaml_MinDurMs := 1000;
    config.futexsnoop_yaml_SymbolCacheSize := 256; config.futexsnoop_yaml_MaxLockHoldUsers := 0;
    config.futexsnoop_yaml_TargetLock := false; config.futexsnoop_yaml_BtfPath := "";
    config.futexsnoop_yaml_Exporter := ""; config.futexsnoop_yaml_Status := status |} |}.
Definition default_syscall (app status : string) : InputConfig := {|
  Type_ := "syscall"; Config_ := SyscallInput {|
    config.syscall_yaml_LogLevel := LogLevel; config.syscall_yaml_AppName := "syscall_" ++ app;
    config.syscall_yaml_Server := ""; config.syscall_yaml_Pid := 0; config.syscall_yaml_Tid := 0;
    config.syscall_yaml_MaxDurMs := 10000; config.syscall_yaml_MinDurMs := 1; config.syscall_yaml_Syscall := "";
    config.syscall_yaml_SymbolCacheSize := 256; config.syscall_yaml_Stack := false;
    config.syscall_yaml_BtfPath := ""; config.syscall_yaml_Exporter := "";
    config.syscall_yaml_Status := status |} |}.
Definition default_offcpu (app status : string) : InputConfig := {|
  Type_ := "offcpu"; Config_ := OffcpuInput {|
    config.offcpu_yaml_LogLevel := LogLevel; config.offcpu_yaml_AppName := "offcpu_" ++ app;
    config.offcpu_yaml_Server := ""; config.offcpu_yaml_Pid := -1; config.offcpu_yaml_MaxOffcpuMs := 10000;
    config.offcpu_yaml_MinOffcpuMs := 5; config.offcpu_yaml_SymbolCacheSize := 256;
    config.offcpu_yaml_RqDurMs := 0; config.offcpu_yaml_BtfPath := ""; config.offcpu_yaml_Exporter := "";
    config.offcpu_yaml_Status := status |} |}.
Definition default_oncpu (app status : string) : InputConfig := {|
  Type_ := "oncpu"; Config_ := OncpuInput {|
    config.oncpu_yaml_LogLevel := LogLevel; config.oncpu_yaml_AppName := "oncpu_" ++ app;
    config.oncpu_yaml_SampleRate := 0; config.oncpu_yaml_Server := ""; config.oncpu_yaml_UploadThreads := 2;
    config.oncpu_yaml_UploadTimeout := 5; config.oncpu_yaml_UploadRate := 10; config.oncpu_yaml_Cpu := "-1";
    config.oncpu_yaml_SymbolCacheSize := 256; config.oncpu_yaml_BtfPath := ""; config.oncpu_yaml_Exporter := "";
    config.oncpu_yaml_Status := status |} |}.
Definition default_cachestat (app status : string) : InputConfig := {|
  Type_ := "cachestat"; Config_ := CachestatInput {|
    config.cachestat_yaml_LogLevel := LogLevel; config.cachestat_yaml_AppName := "cachestat_" ++ app;
    config.cachestat_yaml_Server := ""; config.cachestat_yaml_UploadRate := 10; config.cachestat_yaml_Pid := -1;
    config.cachestat_yaml_CacheType := 0; config.cachestat_yaml_Cpu := -1; config.cachestat_yaml_BtfPath := "";
    config.cachestat_yaml_Exporter := ""; config.cachestat_yaml_Status := status |} |}.
Definition defaultInputs (app : string) : list InputConfig :=
  (fun entry => entry app "disable"%string) <$>
    [default_futexsnoop; default_syscall; default_offcpu; default_oncpu; default_cachestat].
Definition defaultExporters : list ExporterConfig :=
  [{| exporter_Type := model.DISK; exporter_Server := "/tmp/spycat/" |}].

(** [ConfigInit]: the file may not exist (it is written then, and no tool is enabled), it may
    not be readable or not be YAML, or it is decoded into the default configuration,
    where a list that it does not have stays the default one. *)
Inductive config_file :=
| NoFile
| Unreadable
| Parsed (Inputs : option (list InputConfig)) (Exporters : option (list ExporterConfig)).
Definition ConfigInit (app : string) (file : config_file) : ToolsConfig * list ExporterConfig :=
  match file with
  | Parsed Inputs Exporters =>
      (initToolsConfig no_tools (default (defaultInputs app) Inputs), default defaultExporters Exporters)
  | _ => (no_tools, defaultExporters)
  end.

(** [ConfigWithYaml]: otherwise the command line decides. *)
Definition ConfigWithYaml (t : ToolsConfig) : bool := (0 <? length (Tools t))%nat.

(** [RunWithYaml]: one tool *)
Definition copied {S D} `{GoStruct S, GoStruct D} (src : S) (new : D -> go_result (option BpfSpyer))
    (spy : AppSpy) : outcome :=
  match CopyStruct src (zero : D) with
  | Returned cfg => runSpy (new cfg) spy
  | _ => Crashed
  end.
Definition run_tool (t : ToolsConfig) (tool : string) (spy : AppSpy) : outcome :=
  if (tool =? model.OffCpu)%string then copied (Offcpu t) (NewOffCpuBpfSession model.OffCpu) spy
  else if (tool =? model.OnCpu)%string then copied (Oncpu t) (NewOnCpuBpfSession model.OnCpu) spy
  else if (tool =? model.CacheStat)%string then copied (Cachestat t) (NewCacheStatBpfSession model.CacheStat) spy
  else if (tool =? model.Syscall)%string then copied (Syscall_ t) (NewSyscallSession model.Syscall) spy
  else if (tool =? model.FutexSnoop)%string then copied (Futexsnoop t) (NewFutexSnoopSession model.FutexSnoop) spy
  else Running spy.

Fixpoint run_tools (t : ToolsConfig) (tools : list string) (spy : AppSpy) : outcome :=
  match tools with
  | [] => Running spy
  | tool :: tools =>
      match run_tool t tool spy with
      | Running spy => run_tools t tools spy
      | failed => failed
      end
  end.

(** [RunWithYaml]: [Exporters[0]] has to exist. *)
Definition RunWithYaml (Exporters : list ExporterConfig) (t : ToolsConfig) : outcome :=
  match Exporters with
  | [] => Crashed
  | e :: _ => run_tools t (Tools t) (NewAppSpy (exporter_Type e) (exporter_Server e))
  end.

(** [main], with the command that was given *)
Definition main (app : string) (file : config_file) (cmd : command) : outcome :=
  let '(t, Exporters) := ConfigInit app file in
  if ConfigWithYaml t then RunWithYaml Exporters t else run_command cmd.
End Launch.
