(* ===== verification/LaunchSpec.v ===== *)
(** What the configuration starts: the sessions of the enabled tools, with the options the
    file gives them.  Properties of [Launch]. *)
From S2P Require Import Prelude SyscallTable GoLib SpyEvent Detectors Config ConfigSpec Launch.
Open Scope Z_scope.
Open Scope bpf_scope.
Import session.

(** The tool and the status of some options. *)
Definition tool_of (c : InputType) : string :=
  match c with
  | FutexsnoopInput _ => model.FutexSnoop
  | OffcpuInput _ => model.OffCpu
  | SyscallInput _ => model.Syscall
  | OncpuInput _ => model.OnCpu
  | CachestatInput _ => model.CacheStat
  end.
Definition status_of (c : InputType) : string :=
  match c with
  | FutexsnoopInput c => config.futexsnoop_yaml_Status c
  | OffcpuInput c => config.offcpu_yaml_Status c
  | SyscallInput c => config.syscall_yaml_Status c
  | OncpuInput c => config.oncpu_yaml_Status c
  | CachestatInput c => config.cachestat_yaml_Status c
  end.

(** The entry's options are those of its type. *)
Definition decoded (i : InputConfig) : Prop := Type_ i = tool_of (Config_ i).

Lemma UnmarshalYAML_decoded {node} d1 d2 d3 d4 d5 type (value : node) i :
  UnmarshalYAML d1 d2 d3 d4 d5 type value = Some i -> decoded i /\ Type_ i = type.
Proof.
  unfold UnmarshalYAML. intros H.
  repeat match type of H with
  | (if (?t =? ?s)%string then _ else _) = _ => destruct (String.eqb_spec t s) as [-> | _]
  end; [| | | | |done]; apply fmap_Some in H as (c & _ & ->); done.
Qed.

(** The enabled entries, and the last options of a tool. *)
Definition enabled (Inputs : list InputConfig) : list InputConfig :=
  filter (fun i => status_of (Config_ i) = ENABLE) Inputs.
Definition last_config (tool : string) (Inputs : list InputConfig) : option InputType :=
  Config_ <$> last (filter (fun i => Type_ i = tool) Inputs).

Lemma last_config_snoc tool Inputs i :
  last_config tool (Inputs ++ [i]) = if decide (Type_ i = tool) then Some (Config_ i) else last_config tool Inputs.
Proof.
  unfold last_config. rewrite filter_app, filter_cons, filter_nil. case_decide; [by rewrite last_snoc|].
  by rewrite app_nil_r.
Qed.

Lemma last_config_tool tool Inputs c : Forall decoded Inputs -> last_config tool Inputs = Some c -> tool_of c = tool.
Proof.
  intros Hd Hc. apply fmap_Some in Hc as (i & Hi & ->). apply last_Some in Hi as [l Hl].
  assert (Hin : i ∈ filter (fun i => Type_ i = tool) Inputs) by (rewrite Hl; set_solver).
  apply list_elem_of_filter in Hin as [Ht Hin]. rewrite <- Ht. symmetry. exact (proj1 (Forall_forall _ _) Hd i Hin).
Qed.

(** * What is stored *)

Definition stored (t : ToolsConfig) (c : InputType) : Prop :=
  match c with
  | FutexsnoopInput c => Futexsnoop t = c
  | OffcpuInput c => Offcpu t = c
  | SyscallInput c => Syscall_ t = c
  | OncpuInput c => Oncpu t = c
  | CachestatInput c => Cachestat t = c
  end.

Lemma add_input_decoded t i :
  decoded i ->
  stored (add_input t i) (Config_ i) /\
  Tools (add_input t i) = Tools t ++ (if decide (status_of (Config_ i) = ENABLE) then [Type_ i] else []) /\
  forall c, tool_of c <> Type_ i -> stored t c -> stored (add_input t i) c.
Proof.
  unfold decoded. destruct i as [type c]. cbn [Type_ Config_]. intros ->.
  assert (He : forall tool status t, let t' := enable tool status t in
    Tools t' = Tools t ++ (if decide (status = ENABLE) then [tool] else []) /\ (forall c, stored t c -> stored t' c)).
  { intros tool status t0. unfold enable. destruct (String.eqb_spec status ENABLE) as [-> | Hn].
    - rewrite decide_True by done. split; [done|]. by intros [].
    - rewrite decide_False by done. by rewrite app_nil_r. }
  destruct c as [c|c|c|c|c]; cbv [add_input Type_ Config_ tool_of]; cbn [String.eqb Ascii.eqb Bool.eqb];
  match goal with |- context [enable ?tool ?status ?t'] => destruct (He tool status t') as [Ht Hs] end;
  (split; [by apply Hs|]); (split; [exact Ht|]); intros [] Hne Hc; try (by destruct Hne); by apply Hs.
Qed.

Lemma initToolsConfig_stores Inputs :
  Forall decoded Inputs ->
  Tools (initToolsConfig no_tools Inputs) = Type_ <$> enabled Inputs /\
  forall tool c, last_config tool Inputs = Some c -> stored (initToolsConfig no_tools Inputs) c.
Proof.
  induction Inputs as [|i Inputs IH] using rev_ind; intros Hd; [by split|].
  apply Forall_app in Hd as [Hd Hi]. rewrite Forall_singleton in Hi. destruct (IH Hd) as [Ht Hs].
  unfold initToolsConfig in *. rewrite foldl_app. cbn [foldl].
  destruct (add_input_decoded (foldl add_input no_tools Inputs) i Hi) as (H1 & H2 & H3). split.
  - rewrite H2, Ht. unfold enabled. rewrite filter_app, fmap_app. f_equal. rewrite filter_cons, filter_nil.
    by case_decide.
  - intros tool c. rewrite last_config_snoc. destruct (decide (Type_ i = tool)) as [|Htool]; [by intros [= <-]|].
    intros Hc.
    apply H3; [|by apply (Hs tool)]. rewrite (last_config_tool tool Inputs c Hd Hc). congruence.
Qed.

(** * What is started *)

Section Launch.
Context (new_cache : Z -> bool) (goarch : string) (remote_ok : string -> bool).

(** The session that the options of the file ask for, if they can be used. *)
Definition configured_spyer (c : InputType) : option BpfSpyer :=
  match c with
  | FutexsnoopInput _ => None
  | OffcpuInput c =>
      if new_cache (config.offcpu_yaml_SymbolCacheSize c) then
        Some (OffcpuSession model.OffCpu {|
          oa_Pid := MaxUint32; oa_Tgid := u32 (config.offcpu_yaml_Pid c);
          oa_Min_offcpu_ms := u32 (config.offcpu_yaml_MinOffcpuMs c);
          oa_Max_offcpu_ms := u32 (config.offcpu_yaml_MaxOffcpuMs c);
          oa_Rq_dur_ms := u32 (config.offcpu_yaml_RqDurMs c) |} (config.offcpu_yaml_BtfPath c))
      else None
  | SyscallInput c =>
      if new_cache (config.syscall_yaml_SymbolCacheSize c) then
        Some (SyscallSession model.Syscall {|
          sa_Pid := u32 (config.syscall_yaml_Pid c); sa_Tid := u32 (config.syscall_yaml_Tid c);
          sa_MinDurMs := u32 (config.syscall_yaml_MinDurMs c); sa_MaxDurMs := u32 (config.syscall_yaml_MaxDurMs c);
          sa_Stack := config.syscall_yaml_Stack c;
          sa_SyscallId := SyscallNameToId goarch (config.syscall_yaml_Syscall c) |} (config.syscall_yaml_BtfPath c))
      else None
  | OncpuInput c =>
      if new_cache (config.oncpu_yaml_SymbolCacheSize c) && (0 <? config.oncpu_yaml_UploadRate c) then
        Some (OncpuSession model.OnCpu (u32 (config.oncpu_yaml_SampleRate c)) (config.oncpu_yaml_UploadRate c))
      else None
  | CachestatInput c =>
      if 0 <? config.cachestat_yaml_UploadRate c then
        Some (CacheStatSession model.CacheStat {|
          ca_Pid := u32 (config.cachestat_yaml_Pid c); ca_CacheType := u32 (config.cachestat_yaml_CacheType c);
          ca_Cpu := u32 (config.cachestat_yaml_Cpu c); ca_Pad := 0 |} (config.cachestat_yaml_UploadRate c)
          (config.cachestat_yaml_BtfPath c))
      else None
  end.

(** One more session and one more start of everything, or the end. *)
Definition with_spyer (s : option BpfSpyer) (spy : AppSpy) : outcome :=
  match s with
  | Some s => Running (spy <| starts := S (starts spy) |> <| spyers := spyers spy ++ [s] |>)
  | None => Crashed
  end.

Lemma copied_same {S D} `{GoStruct S, GoStruct D} (src : S) (d : D) new spy :
  types S = types D -> fields d = fields src -> copied remote_ok src new spy = runSpy remote_ok (new d) spy.
Proof. intros Ht Hd. unfold copied. by rewrite (CopyStruct_same src zero d). Qed.

Lemma runSpy_with cb spy s :
  match cb with Returned s => s | _ => None end = s -> runSpy remote_ok cb spy = with_spyer s spy.
Proof. intros <-. by destruct cb as [[|]| | |]. Qed.

Lemma run_tool_stored t c spy :
  stored t c -> run_tool new_cache goarch remote_ok t (tool_of c) spy = with_spyer (configured_spyer c) spy.
Proof.
  destruct c as [c|c|c|c|c]; cbn [stored tool_of]; intros <-; unfold run_tool;
    cbn [String.eqb Ascii.eqb Bool.eqb model.OffCpu model.OnCpu model.CacheStat model.Syscall model.FutexSnoop].
  - unfold copied. rewrite CopyStruct_panics; [done|]. apply (bool_decide_eq_true_1 (~ _)). by vm_compute.
  - destruct (Offcpu t) as [a b c d e f g h i j k].
    rewrite (copied_same _ (config.Build_OFFCPU a b c d e f g h i j k)) by done. apply runSpy_with.
    unfold NewOffCpuBpfSession. cbn. by destruct (new_cache g).
  - destruct (Syscall_ t) as [a b c d e f g h i j k l m].
    rewrite (copied_same _ (config.Build_SYSCALL a b c d e f g h i j k l m)) by done. apply runSpy_with.
    unfold NewSyscallSession. cbn. by destruct (new_cache i).
  - destruct (Oncpu t) as [a b c d e f g h i j k l].
    rewrite (copied_same _ (config.Build_ONCPU a b c d e f g h i j k l)) by done. apply runSpy_with.
    unfold NewOnCpuBpfSession, NewTicker. cbn. rewrite Z.ltb_antisym. by destruct (new_cache i), (g <=? 0).
  - destruct (Cachestat t) as [a b c d e f g h i j].
    rewrite (copied_same _ (config.Build_CACHESTAT a b c d e f g h i j)) by done. apply runSpy_with.
    unfold NewCacheStatBpfSession, NewTicker. cbn. rewrite Z.ltb_antisym. by destruct (d <=? 0).
Qed.

Definition spyer_for (Inputs : list InputConfig) (tool : string) : option BpfSpyer :=
  last_config tool Inputs ≫= configured_spyer.

Lemma run_tools_all t Inputs tools spy :
  Forall decoded Inputs -> (forall tool c, last_config tool Inputs = Some c -> stored t c) ->
  Forall (fun tool => is_Some (last_config tool Inputs)) tools ->
  run_tools new_cache goarch remote_ok t tools spy =
    match mapM (spyer_for Inputs) tools with
    | Some ss => Running (spy <| starts := (starts spy + length ss)%nat |> <| spyers := spyers spy ++ ss |>)
    | None => Crashed
    end.
Proof.
  intros Hd Hs Htools. revert spy. induction Htools as [|tool tools [c Hc] _ IH]; intros spy.
  { cbn. rewrite Nat.add_0_r, app_nil_r. by destruct spy. }
  assert (Hrun : run_tool new_cache goarch remote_ok t tool spy = with_spyer (configured_spyer c) spy)
    by (rewrite <- (last_config_tool tool Inputs c Hd Hc); apply run_tool_stored; by eapply Hs).
  assert (Hsp : spyer_for Inputs tool = configured_spyer c) by (unfold spyer_for; by rewrite Hc).
  cbn [run_tools mapM]. rewrite Hrun, Hsp. cbn [mbind option_bind].
  destruct (configured_spyer c) as [s|]; [|done]. cbn [with_spyer]. rewrite IH.
  cbn [mbind option_bind]. destruct (mapM (spyer_for Inputs) tools) as [ss|]; [|done].
  cbn. rewrite <- app_assoc, Nat.add_succ_r. done.
Qed.

Lemma mapM_fmap_option {A B C} (f : B -> option C) (g : A -> B) (l : list A) :
  mapM f (g <$> l) = mapM (fun x => f (g x)) l.
Proof. induction l as [|x l IH]; [done|]. cbn [fmap list_fmap mapM]. by rewrite IH. Qed.

Lemma configured Inputs i : i ∈ Inputs -> is_Some (last_config (Type_ i) Inputs).
Proof.
  intros Hi. unfold last_config. apply fmap_is_Some, last_is_Some. intros Hn.
  assert (Hin : i ∈ filter (fun i' => Type_ i' = Type_ i) Inputs) by by apply list_elem_of_filter.
  rewrite Hn in Hin. by apply elem_of_nil in Hin.
Qed.

Lemma enabled_futexsnoop Inputs i c :
  Forall decoded Inputs -> i ∈ enabled Inputs -> Config_ i = FutexsnoopInput c ->
  mapM (fun i => spyer_for Inputs (Type_ i)) (enabled Inputs) = None.
Proof.
  intros Hd Hi Hc. apply mapM_None, Exists_exists. exists i. split; [done|].
  apply list_elem_of_filter in Hi as [_ Hi]. destruct (configured Inputs i Hi) as [c' Hc']. unfold spyer_for.
  rewrite Hc'. apply last_config_tool in Hc'; [|done]. apply (proj1 (Forall_forall _ _) Hd) in Hi.
  unfold decoded in Hi. rewrite Hi, Hc in Hc'. by destruct c'.
Qed.

(** C9: the file starts the tools that it enables, in the order of its entries, each with
    the options of the last entry of its type, which arrive one by one in the session; the
    exporter is the first of the list.  Everything in the pipeline is started once for
    every tool, and no detector sees the options, so that the CPU detector has no server.
    An entry whose cache or upload interval cannot be made ends the agent, and so does
    every entry that enables the futex snooper: [TargetLock] is a bool in the file's
    structure and a uint in the tool's. *)
Theorem yaml_starts_tools Exporters Inputs :
  Forall decoded Inputs ->
  let r := RunWithYaml new_cache goarch remote_ok Exporters (initToolsConfig no_tools Inputs) in
  r = match Exporters, mapM (fun i => spyer_for Inputs (Type_ i)) (enabled Inputs) with
      | e :: _, Some ss => Running {|
          eper := NewExporter (exporter_Type e) (exporter_Server e); cpuDetector := NewCpuDetector;
          starts := length ss; spyers := ss |}
      | _, _ => Crashed
      end /\
  forall i c, i ∈ enabled Inputs -> Config_ i = FutexsnoopInput c -> r = Crashed.
Proof.
  intros Hd r.
  assert (Hr : r = match Exporters, mapM (fun i => spyer_for Inputs (Type_ i)) (enabled Inputs) with
      | e :: _, Some ss => Running {|
          eper := NewExporter (exporter_Type e) (exporter_Server e); cpuDetector := NewCpuDetector;
          starts := length ss; spyers := ss |}
      | _, _ => Crashed
      end).
  { destruct (initToolsConfig_stores Inputs Hd) as [Ht Hs]. unfold r, RunWithYaml.
    destruct Exporters as [|e Exporters]; [done|]. rewrite Ht, (run_tools_all _ Inputs); [|done..|].
    - rewrite mapM_fmap_option. by destruct (mapM _ _).
    - apply Forall_fmap, Forall_forall. intros i Hi. apply list_elem_of_filter in Hi as [_ Hi].
      by apply configured. }
  split; [done|]. intros i c Hi Hc. rewrite Hr, (enabled_futexsnoop Inputs i c) by done. by destruct Exporters.
Qed.
End Launch.

(** * Examples *)

Definition positive (size : Z) : bool := 0 <? size.
Definition no_upstream (addr : string) : bool := false.

(** The default file with two tools enabled: both are started, and the pipeline twice. *)
Lemma yaml_starts_tools_witness :
  exists spy,
    RunWithYaml positive "amd64" no_upstream defaultExporters (initToolsConfig no_tools
      [default_futexsnoop "host" "disable"; default_offcpu "host" ENABLE; default_cachestat "host" ENABLE]) = Running spy /\
    starts spy = 2%nat /\ eper spy = FileOutputer "/tmp/spycat/" /\
    RunWithYaml positive "amd64" no_upstream defaultExporters (initToolsConfig no_tools
      [default_offcpu "host" ENABLE; default_futexsnoop "host" ENABLE]) = Crashed.
Proof.
  eexists. split.
  - rewrite (proj1 (yaml_starts_tools positive "amd64" no_upstream defaultExporters
      [default_futexsnoop "host" "disable"; default_offcpu "host" ENABLE; default_cachestat "host" ENABLE]
      ltac:(repeat constructor))). reflexivity.
  - split; [reflexivity|]. split; [reflexivity|].
    eapply (proj2 (yaml_starts_tools positive "amd64" no_upstream defaultExporters
      [default_offcpu "host" ENABLE; default_futexsnoop "host" ENABLE] ltac:(repeat constructor))
      (default_futexsnoop "host" ENABLE)); [by right; left | reflexivity].
Defined.
