(* ===== verification/Workers.v ===== *)
(** The agent with as many goroutines as were started: internal/app/appspy.go ([Start]), the
    receiver's consumeEvents and the detectors' ConsumeChanEvents.

    [AppSpy.Start] starts one goroutine of the receiver and one of every detector.  The
    configuration file's [runSpy] calls it once for every tool, and then several
    goroutines take events from the same channels.  The channels, the CPU detector and
    the blocks that were exported are those of [Pipeline] (whose [hand] is not used); a
    goroutine of a detector takes an event, makes its block and passes it on in
    three steps.  Making a block is one step: the handlers write the detector's sample
    rate without a lock, which no other goroutine depends on, and its tries. *)
From S2P Require Import Prelude GoLib Trie SpyEvent DataBlock Detectors Pipeline Launch.
Open Scope Z_scope.
Open Scope bpf_scope.

(** A detector's goroutine, in ConsumeChanEvents: it waits, it has an event, or it has
    what ProcessEvent made of it. *)
Inductive goroutine := Waiting | Handling (e : SpyEvent) | Passing (b : option DataBlock).

(** [receivers] are the goroutines of the receiver, with the event that each is about to
    pass on and the detectors that have not got it yet. *)
Record agent := {
  shared : pipeline; receivers : list (option (SpyEvent * list detector));
  cpus : list goroutine; mems : list goroutine
}.

#[export] Instance eta_agent : Eta agent := fun s => {|
  shared := shared s; receivers := receivers s; cpus := cpus s; mems := mems s |}.

Section Workers.
Context (boot : Z) (fmt : Z -> list Z) (caps : capacities).

(** One step of one goroutine, labelled by the event that a session sends. *)
Inductive agent_step : agent -> option SpyEvent -> agent -> Prop :=
| AgentEmit s e :
    (length (eventCh (shared s)) < cap_receiver caps)%nat ->
    agent_step s (Some e) (s <| shared := (shared s) <| eventCh := eventCh (shared s) ++ [e] |> |>)
| AgentTake s i e rest :
    receivers s !! i = Some None -> eventCh (shared s) = e :: rest ->
    agent_step s None (s <| shared := (shared s) <| eventCh := rest |> |>
      <| receivers := <[i := Some (e, detectors_of e)]> (receivers s) |>)
| AgentPass s i e d ds :
    receivers s !! i = Some (Some (e, d :: ds)) -> room caps d (shared s) ->
    agent_step s None (s <| shared := ConsumeEvent d e (shared s) |>
      <| receivers := <[i := Some (e, ds)]> (receivers s) |>)
| AgentPassed s i e :
    receivers s !! i = Some (Some (e, [])) ->
    agent_step s None (s <| receivers := <[i := None]> (receivers s) |>)
| CpuTake s i e rest :
    cpus s !! i = Some Waiting -> cpuChan (shared s) = e :: rest ->
    agent_step s None (s <| shared := (shared s) <| cpuChan := rest |> |>
      <| cpus := <[i := Handling e]> (cpus s) |>)
| CpuHandle s i e c b :
    cpus s !! i = Some (Handling e) -> cpu_ProcessEvent boot fmt e (cpu (shared s)) = Returned (c, b) ->
    agent_step s None (s <| shared := (shared s) <| cpu := c |> |> <| cpus := <[i := Passing b]> (cpus s) |>)
| CpuPass s i b :
    cpus s !! i = Some (Passing b) ->
    agent_step s None
      (s <| shared := (shared s) <| exported := exported (shared s) ++ delivered DetectorCpu b |> |>
         <| cpus := <[i := Waiting]> (cpus s) |>)
| MemTake s i e rest :
    mems s !! i = Some Waiting -> memChan (shared s) = e :: rest ->
    agent_step s None (s <| shared := (shared s) <| memChan := rest |> |>
      <| mems := <[i := Handling e]> (mems s) |>)
| MemHandle s i e b :
    mems s !! i = Some (Handling e) -> mem_ProcessEvent e = Returned b ->
    agent_step s None (s <| mems := <[i := Passing b]> (mems s) |>)
| MemPass s i b :
    mems s !! i = Some (Passing b) ->
    agent_step s None
      (s <| shared := (shared s) <| exported := exported (shared s) ++ delivered DetectorMem b |> |>
         <| mems := <[i := Waiting]> (mems s) |>)
| AgentTick s t :
    ticking (cpu (shared s)) = true ->
    agent_step s None (s <| shared := (shared s) <| cpu := UploadTries t (cpu (shared s)) |> |>).

(** A run, with the events that were sent. *)
Inductive agent_runs : agent -> list SpyEvent -> agent -> Prop :=
| AgentNil s : agent_runs s [] s
| AgentStep s sent s1 o s2 :
    agent_runs s sent s1 -> agent_step s1 o s2 -> agent_runs s (sent ++ option_list o) s2.
End Workers.

(** The agent that was launched. *)
Definition launched (a : AppSpy) : agent := {|
  shared := {| eventCh := []; hand := None; cpuChan := []; memChan := []; cpu := cpuDetector a; exported := [] |};
  receivers := replicate (starts a) None; cpus := replicate (starts a) Waiting;
  mems := replicate (starts a) Waiting |}.
