(* ===== verification/WorkersSpec.v ===== *)
(** What the agent delivers, however many goroutines take events from its channels: every
    event once, and in order only if everything was started once.  Properties of
    [Workers] and [Launch]. *)
From AAC_tactics Require Import AAC.
From AAC_tactics Require Instances.
From S2P Require Import Prelude GoLib Trie TrieSpec SpyEvent DataBlock Detectors AgentSpec Pipeline PipelineSpec.
From S2P Require Import Delivery Uploads Config Launch LaunchSpec Workers.
Import Instances.Lists.
Open Scope Z_scope.
Open Scope bpf_scope.

(** Concatenations up to the order of their parts. *)
#[local] Instance permutation_lift {A} : AAC_lift (@Permutation A) (@Permutation A).
Proof. split; apply _. Qed.

(** * Lists of goroutines *)

Section Goroutines.
Context {A B : Type} (f : A -> list B).

(** What one goroutine contributes, and the others. *)
Lemma bind_one l i x : l !! i = Some x -> l ≫= f ≡ₚ f x ++ (delete i l ≫= f).
Proof. intros Hi. by rewrite (delete_Permutation l i x Hi) at 1. Qed.

Lemma bind_changed l i x y : l !! i = Some x -> <[i := y]> l ≫= f ≡ₚ f y ++ (delete i l ≫= f).
Proof.
  revert i. induction l as [|a l IH]; intros [|i] Hi; [done.. |].
  change (f a ++ (<[i := y]> l ≫= f) ≡ₚ f y ++ f a ++ (delete i l ≫= f)).
  rewrite (IH i Hi). apply Permutation_app_swap_app.
Qed.
End Goroutines.

(** * Accounting *)

Definition received_by (d : detector) (h : option (SpyEvent * list detector)) : list SpyEvent :=
  match h with Some (e, ds) => copies d e ds | None => [] end.
Definition handled (g : goroutine) : list SpyEvent := match g with Handling e => [e] | _ => [] end.
Definition passed (g : goroutine) : list DataBlock :=
  match g with Passing (Some b) => Consume b | _ => [] end.
Definition pool (d : detector) (s : agent) : list goroutine :=
  match d with DetectorCpu => cpus s | DetectorMem => mems s | _ => [] end.

(** The events of [d] that are not blocks yet, and the blocks that are not exported yet. *)
Definition flying (d : detector) (s : agent) : list SpyEvent :=
  (pool d s ≫= handled) ++ chan_of d (shared s) ++ (receivers s ≫= received_by d) ++
  owned d (eventCh (shared s)).
Definition made (d : detector) (s : agent) : list DataBlock := pool d s ≫= passed.

Section Workers.
Context (boot : Z) (fmt : Z -> list Z) (caps : capacities).

(** Blocks that [d] made: exported, or about to be. *)
Definition out (d : detector) (s : agent) : list DataBlock := exported_by d (shared s) ++ made d s.

Record settled (server : string) (sent : list SpyEvent) (s : agent) : Prop := {
  se_cpu : cpu_ok (cpu (shared s));
  se_server : Server (cpu (shared s)) = server;
  se_events d : exists processed, owned d sent ≡ₚ processed ++ flying d s /\
    out d s ≡ₚ all_blocks boot fmt server d processed
}.

(** A step that makes no block. *)
Lemma settled_moved server sent o s s' :
  settled server sent s -> cpu_ok (cpu (shared s')) -> Server (cpu (shared s')) = Server (cpu (shared s)) ->
  (forall d, out d s' ≡ₚ out d s) ->
  (forall d, flying d s' ≡ₚ flying d s ++ owned d (option_list o)) ->
  settled server (sent ++ option_list o) s'.
Proof.
  intros [Hc Hs He] Hc' Hs' Hx Hf. split; [done | by rewrite Hs'|]. intros d.
  destruct (He d) as (p & Hsent & Hp). exists p. rewrite owned_app, Hsent, Hf, Hx. split; [|done].
  aac_reflexivity.
Qed.

(** A step of [x] that makes the blocks of one event. *)
Lemma settled_made server sent s s' x e :
  settled server sent s -> cpu_ok (cpu (shared s')) -> Server (cpu (shared s')) = Server (cpu (shared s)) ->
  flying x s ≡ₚ e :: flying x s' -> out x s' ≡ₚ out x s ++ event_blocks boot fmt server x e ->
  (forall d, d <> x -> flying d s' = flying d s /\ out d s' = out d s) ->
  settled server sent s'.
Proof.
  intros [Hc Hs He] Hc' Hs' Hf Hx Hd. split; [done | by rewrite Hs'|]. intros d.
  destruct (He d) as (p & Hsent & Hp). destruct (decide (x = d)) as [<- | Hne].
  - exists (p ++ [e]). rewrite Hsent, Hf, Hx, Hp, all_blocks_app, all_blocks_one. split; [|done].
    change (e :: flying x s') with ([e] ++ flying x s'). aac_reflexivity.
  - exists p. destruct (Hd d) as [-> ->]; done.
Qed.

Lemma flying_ok d e sent s server : settled server sent s -> Forall event_ok sent -> e ∈ flying d s -> event_ok e.
Proof.
  intros Hs Hok He. destruct (se_events _ _ _ Hs d) as (p & Hp & _).
  assert (Hin : e ∈ owned d sent) by (rewrite Hp; set_solver).
  apply list_elem_of_filter in Hin as [_ Hin]. exact (proj1 (Forall_forall _ _) Hok e Hin).
Qed.

(** The parts of [flying] and [out] that a step of a goroutine changes. *)
Lemma receivers_changed d l i h h' :
  l !! i = Some h ->
  l ≫= received_by d ≡ₚ received_by d h ++ (delete i l ≫= received_by d) /\
  <[i := h']> l ≫= received_by d ≡ₚ received_by d h' ++ (delete i l ≫= received_by d).
Proof. intros Hi. by split; [apply bind_one | apply bind_changed with h]. Qed.

Lemma pool_changed l i g g' :
  l !! i = Some g ->
  (l ≫= handled ≡ₚ handled g ++ (delete i l ≫= handled) /\
   <[i := g']> l ≫= handled ≡ₚ handled g' ++ (delete i l ≫= handled)) /\
  l ≫= passed ≡ₚ passed g ++ (delete i l ≫= passed) /\
  <[i := g']> l ≫= passed ≡ₚ passed g' ++ (delete i l ≫= passed).
Proof. intros Hi. by split; (split; [apply bind_one | apply bind_changed with g]). Qed.

Lemma handled_flying l i e : l !! i = Some (Handling e) -> e ∈ l ≫= handled.
Proof. intros Hi. rewrite (bind_one handled l i _ Hi). set_solver. Qed.

Lemma exported_by_snoc d x s b :
  exported_by d (s <| exported := exported s ++ delivered x b |>) =
    exported_by d s ++ if decide (x = d) then match b with Some b => Consume b | None => [] end else [].
Proof. apply exported_by_app. Qed.

(** A goroutine of the receiver does something. *)
Lemma settled_receiver server sent s s' i h h' :
  settled server sent s -> receivers s !! i = Some h ->
  cpu (shared s') = cpu (shared s) -> exported (shared s') = exported (shared s) ->
  cpus s' = cpus s -> mems s' = mems s -> receivers s' = <[i := h']> (receivers s) ->
  (forall d, chan_of d (shared s') ++ received_by d h' ++ owned d (eventCh (shared s')) ≡ₚ
             chan_of d (shared s) ++ received_by d h ++ owned d (eventCh (shared s))) ->
  settled server sent s'.
Proof.
  intros Hs Hi Hc Hx Hcs Hms Hr Hd. rewrite <- (app_nil_r sent).
  assert (Hpool : forall d, pool d s' = pool d s) by by intros []; cbn.
  apply (settled_moved server sent None s); [done | by rewrite Hc; apply Hs | by rewrite Hc | |].
  - intros d. unfold out, made, exported_by. by rewrite Hx, Hpool.
  - intros d. destruct (receivers_changed d (receivers s) i h h' Hi) as [H1 H2]. specialize (Hd d).
    unfold flying. rewrite Hpool, Hr, H1, H2, app_nil_r.
    set (others := delete i (receivers s) ≫= received_by d). clearbody others.
    transitivity ((pool d s ≫= handled) ++ others ++
      (chan_of d (shared s') ++ received_by d h' ++ owned d (eventCh (shared s')))); [aac_reflexivity|].
    rewrite Hd. aac_reflexivity.
Qed.

(** A goroutine of [x] does something, [g'] is its new state. *)
Lemma settled_pool server sent s s' x i g g' (e : SpyEvent) :
  settled server sent s -> pool x s !! i = Some g -> pool x s' = <[i := g']> (pool x s) ->
  receivers s' = receivers s -> eventCh (shared s') = eventCh (shared s) ->
  (forall d, d <> x -> pool d s' = pool d s /\ chan_of d (shared s') = chan_of d (shared s) /\
     exported_by d (shared s') = exported_by d (shared s)) ->
  cpu_ok (cpu (shared s')) -> Server (cpu (shared s')) = Server (cpu (shared s)) ->
  (handled g' ++ chan_of x (shared s') ≡ₚ handled g ++ chan_of x (shared s) /\
     exported_by x (shared s') ++ passed g' ≡ₚ exported_by x (shared s) ++ passed g) \/
  (g = Handling e /\ chan_of x (shared s') = chan_of x (shared s) /\ handled g' = [] /\
     exported_by x (shared s') = exported_by x (shared s) /\ passed g' = event_blocks boot fmt server x e) ->
  settled server sent s'.
Proof.
  intros Hs Hi Hp Hr He Hd Hc Hserver Hcase. destruct (pool_changed _ i g g' Hi) as [[H1 H2] [H3 H4]].
  assert (Hother : forall d, d <> x -> flying d s' = flying d s /\ out d s' = out d s).
  { intros d Hne. destruct (Hd d Hne) as (E1 & E2 & E3). unfold flying, out, made. by rewrite E1, E2, E3, Hr, He. }
  unfold flying, out, made in Hother |- *.
  destruct Hcase as [[Hf Ho] | (-> & Hch & Hh & Hx & Hb)].
  - rewrite <- (app_nil_r sent). apply (settled_moved server sent None s); [done.. | |].
    + intros d. destruct (decide (d = x)) as [-> | Hne]; [|by apply reflexive_eq, Hother].
      unfold out, made. rewrite Hp, H3, H4. set (rest := delete i (pool x s) ≫= passed). clearbody rest.
      transitivity ((exported_by x (shared s') ++ passed g') ++ rest); [aac_reflexivity|]. rewrite Ho. aac_reflexivity.
    + intros d. rewrite app_nil_r. destruct (decide (d = x)) as [-> | Hne]; [|by apply reflexive_eq, Hother].
      unfold flying. rewrite Hp, Hr, He, H1, H2.
      set (rest := delete i (pool x s) ≫= handled). clearbody rest.
      set (later := (receivers s ≫= received_by x) ++ owned x (eventCh (shared s))). clearbody later.
      transitivity ((handled g' ++ chan_of x (shared s')) ++ rest ++ later); [aac_reflexivity|].
      rewrite Hf. aac_reflexivity.
  - apply (settled_made server sent s s' x e); [done.. | | | exact Hother].
    + unfold flying. rewrite Hp, Hr, He, H1, H2, Hh, Hch. done.
    + unfold out, made. rewrite Hp, Hx, H3, H4, Hb. cbn [passed]. 
      set (rest := delete i (pool x s) ≫= passed). clearbody rest. aac_reflexivity.
Qed.

(** The detectors without events drop what they are handed. *)
Lemma settled_dropped server sent s i x e ds :
  settled server sent s -> receivers s !! i = Some (Some (e, x :: ds)) -> x = DetectorIo \/ x = DetectorNet ->
  settled server sent (s <| shared := ConsumeEvent x e (shared s) |>
    <| receivers := <[i := Some (e, ds)]> (receivers s) |>).
Proof.
  intros Hs Hi Hx.
  assert (Hsame : ConsumeEvent x e (shared s) = shared s) by by destruct Hx as [-> | ->]. rewrite Hsame.
  assert (Hrec : forall d, receivers s ≫= received_by d ≡ₚ (if decide (x = d) then [e] else []) ++
    (<[i := Some (e, ds)]> (receivers s) ≫= received_by d)).
  { intros d. destruct (receivers_changed d _ i _ (Some (e, ds)) Hi) as [-> ->]. cbn [received_by].
    by rewrite copies_cons, app_assoc. }
  set (s' := _ : agent). assert (Hpool : forall d, pool d s' = pool d s) by by intros [].
  assert (Hfly : forall d, flying d s ≡ₚ (if decide (x = d) then [e] else []) ++ flying d s').
  { intros d. unfold flying. rewrite Hpool, (Hrec d). change (shared s') with (shared s).
    change (receivers s') with (<[i := Some (e, ds)]> (receivers s)). aac_reflexivity. }
  assert (Hout : forall d, out d s' = out d s) by (intros d; unfold out, made; by rewrite Hpool).
  split; [apply Hs.. |]. intros d. destruct (se_events _ _ _ Hs d) as (p & Hp & Ho). rewrite Hout.
  rewrite Hfly in Hp. destruct (decide (x = d)) as [<- | Hne].
  - exists (p ++ [e]). rewrite all_blocks_app, all_blocks_one, Hp. split; [aac_reflexivity|].
    destruct Hx as [-> | ->]; cbn [event_blocks]; rewrite app_nil_r; exact Ho.
  - by exists p.
Qed.

(** Every step keeps the accounts. *)
Lemma agent_step_settled server sent s o s' :
  settled server sent s -> Forall event_ok sent -> agent_step boot fmt caps s o s' ->
  settled server (sent ++ option_list o) s'.
Proof.
  intros Hs Hok Hstep. pose proof (se_cpu _ _ _ Hs) as Hc. pose proof (se_server _ _ _ Hs) as Hserver.
  destruct Hstep as [s e Hlen | s i e rest Hi Hev | s i e x ds Hi Hroom | s i e Hi | s i e rest Hi Hch
    | s i e c b Hi Hp | s i b Hi | s i e rest Hi Hch | s i e b Hi Hp | s i b Hi | s t Ht];
    cbn [option_list]; rewrite ?app_nil_r.
  - apply (settled_moved server sent (Some e) s); [done.. |]. intros d. unfold flying.
    cbn [shared eventCh option_list receivers chan_of pool cpus mems]. rewrite owned_app.
    rewrite <- !app_assoc. by destruct d.
  - apply (settled_receiver server sent s _ i None (Some (e, detectors_of e))); [done.. |].
    intros d. cbn [shared eventCh received_by]. rewrite Hev, owned_cons. by destruct d.
  - destruct x.
    1, 4: apply (settled_receiver server sent s _ i (Some (e, _ :: ds)) (Some (e, ds)) Hs Hi); [done.. |];
      intros d; cbn [shared received_by ConsumeEvent]; rewrite copies_cons;
      destruct d; cbn [chan_of cpuChan memChan eventCh]; case_decide; try done; aac_reflexivity.
    1, 2: by apply (settled_dropped server sent s i _ e ds); auto.
  - apply (settled_receiver server sent s _ i (Some (e, [])) None); [done.. |]. by intros [].
  - apply (settled_pool server sent s _ DetectorCpu i Waiting (Handling e) e); [done.. | | done | done |].
    + intros [] Hne; done.
    + left. cbn [shared chan_of cpuChan handled passed exported_by exported]. rewrite Hch. done.
  - assert (He : event_ok e).
    { apply (flying_ok DetectorCpu e sent s server Hs Hok). unfold flying. apply elem_of_app. left.
      by apply handled_flying with i. }
    destruct (cpu_ProcessEvent_returns boot fmt e (cpu (shared s)) He Hc) as (c' & Hp' & Hk).
    rewrite Hp in Hp'. injection Hp' as <- ->. destruct Hk as (Hc' & Hs' & _). rewrite Hserver.
    apply (settled_pool server sent s _ DetectorCpu i (Handling e) (Passing (cpu_block boot fmt server e)) e);
      [done.. | | done | done |].
    + intros [] Hne; done.
    + right. done.
  - apply (settled_pool server sent s _ DetectorCpu i (Passing b) Waiting new_event); [done.. | | done | done |].
    + intros [] Hne; try done; unfold exported_by; cbn [shared exported]; rewrite exported_by_app, decide_False by done;
        by rewrite app_nil_r.
    + left. split; [done|]. cbn [shared passed]. rewrite exported_by_snoc, decide_True, app_nil_r by done. by destruct b.
  - apply (settled_pool server sent s _ DetectorMem i Waiting (Handling e) e); [done.. | | done | done |].
    + intros [] Hne; done.
    + left. cbn [shared chan_of memChan handled passed exported_by exported]. rewrite Hch. done.
  - assert (He : event_ok e).
    { apply (flying_ok DetectorMem e sent s server Hs Hok). unfold flying. apply elem_of_app. left.
      by apply handled_flying with i. }
    pose proof (mem_ProcessEvent_returns boot fmt e He) as Hp'. rewrite Hp in Hp'. injection Hp' as ->.
    apply (settled_pool server sent s _ DetectorMem i (Handling e) (Passing (mem_block e)) e); [done.. | | done | done |].
    + intros [] Hne; done.
    + right. done.
  - apply (settled_pool server sent s _ DetectorMem i (Passing b) Waiting new_event); [done.. | | done | done |].
    + intros [] Hne; try done; unfold exported_by; cbn [shared exported]; rewrite exported_by_app, decide_False by done;
        by rewrite app_nil_r.
    + left. split; [done|]. cbn [shared passed]. rewrite exported_by_snoc, decide_True, app_nil_r by done. by destruct b.
  - destruct (UploadTries_ok t (cpu (shared s)) Hc) as [Hc' Hs']. rewrite <- (app_nil_r sent).
    apply (settled_moved server sent None s); [done.. |]. intros d. rewrite app_nil_r. by destruct d.
Qed.

Lemma agent_runs_settled server sent s more s' :
  settled server sent s -> Forall event_ok (sent ++ more) -> agent_runs boot fmt caps s more s' ->
  settled server (sent ++ more) s'.
Proof.
  intros Ha Hok Hrun. induction Hrun as [s | s more s1 o s2 _ IH Hstep]; [by rewrite app_nil_r|].
  rewrite app_assoc in Hok |- *. apply Forall_app in Hok as [Hok _].
  by apply agent_step_settled with s1; [apply IH | |].
Qed.

Lemma agent_runs_app s0 sent s1 more s2 :
  agent_runs boot fmt caps s0 sent s1 -> agent_runs boot fmt caps s1 more s2 ->
  agent_runs boot fmt caps s0 (sent ++ more) s2.
Proof.
  intros H1 H2. induction H2 as [|s1 more s2 o s3 _ IH Hstep]; [by rewrite app_nil_r|].
  rewrite app_assoc. by eapply AgentStep; [apply IH|].
Qed.

(** * Draining *)

(** The steps that the events in the agent still need. *)
Definition todo (g : goroutine) : nat := match g with Waiting => 0 | Handling _ => 2 | Passing _ => 1 end.
Definition to_pass (h : option (SpyEvent * list detector)) : nat :=
  match h with Some (_, ds) => S (4 * length ds) | None => 0 end.
Definition agent_backlog (s : agent) : nat :=
  (sum_list_with todo (cpus s) + sum_list_with todo (mems s) +
  3 * length (cpuChan (shared s)) + 3 * length (memChan (shared s)) +
  sum_list_with to_pass (receivers s) +
  sum_list_with (fun e => 2 + 4 * length (detectors_of e)) (eventCh (shared s)))%nat.

Definition agent_drained (s : agent) : Prop := agent_backlog s = 0%nat.

(** Goroutines never end. *)
Record alive (k : nat) (s : agent) : Prop := {
  al_receivers : length (receivers s) = k; al_cpus : length (cpus s) = k; al_mems : length (mems s) = k }.

Lemma agent_step_alive k s o s' : alive k s -> agent_step boot fmt caps s o s' -> alive k s'.
Proof.
  intros [H1 H2 H3] Hstep.
  destruct Hstep; split; cbn [receivers cpus mems]; rewrite ?length_insert; done.
Qed.

Lemma agent_runs_alive k s sent s' : alive k s -> agent_runs boot fmt caps s sent s' -> alive k s'.
Proof. intros Ha Hrun. induction Hrun; [done | eauto using agent_step_alive]. Qed.

Lemma sum_changed {A} (f : A -> nat) l i x y :
  l !! i = Some x -> (sum_list_with f (<[i := y]> l) + f x = sum_list_with f l + f y)%nat.
Proof.
  revert i. induction l as [|a l IH]; intros [|i] Hi; [done.. | |].
  - cbn in Hi. injection Hi as ->. cbn [insert list_insert sum_list_with]. lia.
  - specialize (IH i Hi). change (<[S i := y]> (a :: l)) with (a :: <[i := y]> l). cbn [sum_list_with]. lia.
Qed.

Lemma sum_busy {A} (f : A -> nat) l :
  sum_list_with f l = 0%nat \/ exists i x, l !! i = Some x /\ f x <> 0%nat.
Proof.
  induction l as [|a l [IH | (i & x & Hi & Hx)]]; [by left | | right; by exists (S i), x].
  destruct (decide (f a = 0%nat)) as [Ha | Ha]; [left; cbn; lia | right; by exists 0%nat, a].
Qed.

Lemma sum_idle {A} (f : A -> nat) l x : (0 < length l)%nat -> (forall y, f y = 0%nat -> y = x) ->
  sum_list_with f l = 0%nat -> l !! 0%nat = Some x.
Proof. destruct l as [|a l]; cbn; [lia|]. intros _ Hx Hs. f_equal. apply Hx. lia. Qed.

Lemma todo_waiting g : todo g = 0%nat -> g = Waiting.
Proof. by destruct g. Qed.
Lemma to_pass_none h : to_pass h = 0%nat -> h = None.
Proof. by destruct h as [[]|]. Qed.

(** A goroutine of a detector that is not waiting can go on. *)
Lemma busy_steps server sent s :
  settled server sent s -> Forall event_ok sent ->
  (exists i g, cpus s !! i = Some g /\ todo g <> 0%nat) \/ (exists i g, mems s !! i = Some g /\ todo g <> 0%nat) ->
  exists s', agent_step boot fmt caps s None s' /\ (agent_backlog s' < agent_backlog s)%nat.
Proof.
  intros Hs Hok [(i & g & Hi & Hg) | (i & g & Hi & Hg)]; destruct g as [|e|b]; try done.
  - assert (He : event_ok e) by (apply (flying_ok DetectorCpu e sent s server Hs Hok), elem_of_app; left;
      by apply handled_flying with i).
    destruct (cpu_ProcessEvent_returns boot fmt e (cpu (shared s)) He (se_cpu _ _ _ Hs)) as (c & Hp & _).
    eexists. split; [by eapply CpuHandle|]. unfold agent_backlog. cbn [cpus mems shared receivers cpuChan memChan eventCh].
    pose proof (sum_changed todo (cpus s) i _ (Passing (cpu_block boot fmt (Server (cpu (shared s))) e)) Hi) as H.
    cbn [todo] in H. lia.
  - eexists. split; [by eapply CpuPass|]. unfold agent_backlog. cbn [cpus mems shared receivers cpuChan memChan eventCh].
    pose proof (sum_changed todo (cpus s) i _ Waiting Hi) as H. cbn [todo] in H. lia.
  - assert (He : event_ok e) by (apply (flying_ok DetectorMem e sent s server Hs Hok), elem_of_app; left;
      by apply handled_flying with i).
    eexists. split; [eapply MemHandle; [done | by apply mem_ProcessEvent_returns]|].
    unfold agent_backlog. cbn [cpus mems shared receivers cpuChan memChan eventCh].
    pose proof (sum_changed todo (mems s) i _ (Passing (mem_block e)) Hi) as H. cbn [todo] in H. lia.
  - eexists. split; [by eapply MemPass|]. unfold agent_backlog. cbn [cpus mems shared receivers cpuChan memChan eventCh].
    pose proof (sum_changed todo (mems s) i _ Waiting Hi) as H. cbn [todo] in H. lia.
Qed.

(** Unless everything is drained, some goroutine can take a step that is neither a send
    nor a tick. *)
Lemma agent_backlog_shrinks k server sent s :
  (0 < k)%nat -> (0 < cap_cpu caps)%nat -> (0 < cap_mem caps)%nat ->
  alive k s -> settled server sent s -> Forall event_ok sent -> ~ agent_drained s ->
  exists s', agent_step boot fmt caps s None s' /\ (agent_backlog s' < agent_backlog s)%nat.
Proof.
  intros Hk Hcc Hcm [Hr Hcs Hms] Hs Hok Hnd. unfold agent_drained in Hnd.
  destruct (sum_busy todo (cpus s)) as [Ec | Hb]; [|by eapply busy_steps; eauto].
  destruct (sum_busy todo (mems s)) as [Em | Hb]; [|by eapply busy_steps; eauto].
  pose proof (sum_idle todo (cpus s) Waiting ltac:(lia) todo_waiting Ec) as Hc0.
  pose proof (sum_idle todo (mems s) Waiting ltac:(lia) todo_waiting Em) as Hm0.
  destruct (cpuChan (shared s)) as [|e rest] eqn:Hcc0.
  2:{ eexists. split; [by eapply CpuTake|]. unfold agent_backlog. cbn [cpus mems shared receivers cpuChan memChan eventCh].
      pose proof (sum_changed todo (cpus s) 0 _ (Handling e) Hc0) as H. cbn [todo] in H. rewrite Hcc0. cbn [length]. lia. }
  destruct (memChan (shared s)) as [|e rest] eqn:Hmc0.
  2:{ eexists. split; [by eapply MemTake|]. unfold agent_backlog. cbn [cpus mems shared receivers cpuChan memChan eventCh].
      pose proof (sum_changed todo (mems s) 0 _ (Handling e) Hm0) as H. cbn [todo] in H. rewrite Hmc0. cbn [length]. lia. }
  destruct (sum_busy to_pass (receivers s)) as [Er | (i & [[e ds]|] & Hi & Hh)]; [| |done].
  - destruct (eventCh (shared s)) as [|e rest] eqn:Hev.
    { destruct Hnd. unfold agent_backlog. rewrite Ec, Em, Er, Hcc0, Hmc0, Hev. done. }
    pose proof (sum_idle to_pass (receivers s) None ltac:(lia) to_pass_none Er) as Hr0.
    eexists. split; [by eapply AgentTake|]. unfold agent_backlog. cbn [cpus mems shared receivers cpuChan memChan eventCh].
    pose proof (sum_changed to_pass (receivers s) 0 _ (Some (e, detectors_of e)) Hr0) as H. cbn [to_pass] in H.
    rewrite Hev. cbn [sum_list_with]. lia.
  - destruct ds as [|d ds].
    + eexists. split; [by eapply AgentPassed|]. unfold agent_backlog. cbn [cpus mems shared receivers cpuChan memChan eventCh].
      pose proof (sum_changed to_pass (receivers s) i _ None Hi) as H. cbn [to_pass] in H. lia.
    + eexists. split.
      * eapply AgentPass; [done|]. destruct d; cbn [room]; rewrite ?Hcc0, ?Hmc0; cbn; done || lia.
      * unfold agent_backlog. cbn [cpus mems shared receivers].
        pose proof (sum_changed to_pass (receivers s) i _ (Some (e, ds)) Hi) as H. cbn [to_pass length] in H.
        destruct d; cbn [ConsumeEvent cpuChan memChan eventCh]; rewrite ?Hcc0, ?Hmc0; cbn [length app]; lia.
Qed.
End Workers.
