(* ===== verification/AgentDelivery.v ===== *)
(** What the agent delivers, whoever started it: every event is exported once, and in order
    when there is one goroutine of each kind, which is a refinement of [Pipeline].  With
    two tools of the configuration file the order is lost. *)
From S2P Require Import Prelude GoLib Trie TrieSpec SpyEvent DataBlock Detectors AgentSpec Pipeline PipelineSpec.
From S2P Require Import Delivery Uploads Config Launch LaunchSpec Workers WorkersSpec.
Open Scope Z_scope.
Open Scope bpf_scope.

(** * What is launched *)

Section Launched.
Context (new_cache : Z -> bool) (goarch : string) (remote_ok : string -> bool).

(** Everything was started once more, and the detector is as it should be. *)
Definition more_started (spy spy' : AppSpy) : Prop :=
  starts spy' = S (starts spy) /\ (cpu_ok (cpuDetector spy) -> cpu_ok (cpuDetector spy')).

Lemma RunSpy_running cfg cb spy spy' : RunSpy remote_ok cfg cb spy = Running spy' -> more_started spy spy'.
Proof.
  unfold RunSpy. destruct (Detectors.Init remote_ok cfg (cpuDetector spy)) as [c []] eqn:E; [|done].
  destruct cb as [[s|]| | |]; intros [= <-]. split; [done|]. cbn. intros Hc. by eapply Init_ok.
Qed.

Lemma copied_running {S D} `{GoStruct S, GoStruct D} (src : S) (new : D -> go_result (option BpfSpyer)) spy spy' :
  copied remote_ok src new spy = Running spy' -> more_started spy spy'.
Proof. unfold copied. destruct (CopyStruct _ _); [|done..]. apply RunSpy_running. Qed.

Definition known_tools : list string := [model.OffCpu; model.OnCpu; model.CacheStat; model.Syscall; model.FutexSnoop].

Lemma run_tool_running t tool spy spy' :
  tool ∈ known_tools -> run_tool new_cache goarch remote_ok t tool spy = Running spy' -> more_started spy spy'.
Proof.
  unfold known_tools, run_tool. intros Hin.
  repeat (apply elem_of_cons in Hin as [-> | Hin]; [apply copied_running|]). by apply elem_of_nil in Hin.
Qed.

Lemma run_tools_running t tools spy spy' :
  Forall (fun tool => tool ∈ known_tools) tools -> run_tools new_cache goarch remote_ok t tools spy = Running spy' ->
  starts spy' = (starts spy + length tools)%nat /\ (cpu_ok (cpuDetector spy) -> cpu_ok (cpuDetector spy')).
Proof.
  intros Htools. revert spy. induction Htools as [|tool tools Htool _ IH]; intros spy; cbn [run_tools length].
  { intros [= <-]. by rewrite Nat.add_0_r. }
  destruct (run_tool _ _ _ t tool spy) as [spy1| |] eqn:E; [|done..]. intros Hrun.
  destruct (run_tool_running _ _ _ _ Htool E) as [H1 H2]. destruct (IH _ Hrun) as [H3 H4].
  rewrite H3, H1. split; [lia | auto].
Qed.

Lemma enable_known tool status t :
  tool ∈ known_tools -> Forall (fun tool => tool ∈ known_tools) (Tools t) ->
  Forall (fun tool => tool ∈ known_tools) (Tools (enable tool status t)).
Proof.
  intros Hin Ht. unfold enable. destruct (_ =? _)%string; [|done].
  apply Forall_app. by rewrite Forall_singleton.
Qed.

Lemma initToolsConfig_known Inputs t :
  Forall (fun tool => tool ∈ known_tools) (Tools t) ->
  Forall (fun tool => tool ∈ known_tools) (Tools (initToolsConfig t Inputs)).
Proof.
  revert t. induction Inputs as [|i Inputs IH]; intros t Ht; [done|]. apply IH. unfold add_input.
  repeat (destruct (_ =? _)%string; [destruct (Config_ i); try done; apply enable_known; [unfold known_tools; set_solver | done]|]).
  done.
Qed.

(** An agent that runs has a goroutine of every kind. *)
Lemma main_running app file cmd spy :
  main new_cache goarch remote_ok app file cmd = Running spy -> (0 < starts spy)%nat /\ cpu_ok (cpuDetector spy).
Proof.
  unfold main. destruct (ConfigInit app file) as [t es] eqn:E.
  assert (Ht : Forall (fun tool => tool ∈ known_tools) (Tools t)).
  { destruct file; injection E as <- _; [constructor.. | by apply initToolsConfig_known]. }
  unfold ConfigWithYaml. destruct (Nat.ltb_spec 0 (length (Tools t))) as [Hlen | _].
  - unfold RunWithYaml. destruct es as [|e es]; [done|]. intros Hrun.
    destruct (run_tools_running _ _ _ _ Ht Hrun) as [H1 H2]. split; [rewrite H1; cbn; lia | apply H2, new_cpu_ok].
  - assert (Hnew : forall e s spy', more_started (NewAppSpy e s) spy' -> (0 < starts spy')%nat /\ cpu_ok (cpuDetector spy')).
    { intros e s spy' [H1 H2]. split; [rewrite H1; lia | apply H2, new_cpu_ok]. }
    destruct cmd as [cfg|cfg|cfg|cfg|cfg]; intros Hrun; eapply Hnew, RunSpy_running, Hrun.
Qed.
End Launched.

Section Delivery.
Context (boot : Z) (fmt : Z -> list Z) (caps : capacities).

Lemma launched_settled a :
  cpu_ok (cpuDetector a) -> settled boot fmt (Server (cpuDetector a)) [] (launched a).
Proof.
  intros Hc. split; [done | done |]. intros d. exists [].
  assert (Hnone : forall {B} (f : goroutine -> list B) k, f Waiting = [] -> replicate k Waiting ≫= f = []).
  { intros B f k Hf. induction k as [|k IH]; [done|]. cbn [replicate mbind list_bind]. rewrite Hf. exact IH. }
  assert (Hrec : forall k, replicate k None ≫= received_by d = []) by (intros k; by induction k).
  unfold flying, out, made, launched. destruct d; cbn [pool shared chan_of receivers cpus mems eventCh cpuChan memChan];
    rewrite ?Hnone, ?Hrec by done; done.
Qed.

Lemma launched_alive a : alive (starts a) (launched a).
Proof. split; apply length_replicate. Qed.

Lemma agent_drains k server sent s :
  (0 < k)%nat -> (0 < cap_cpu caps)%nat -> (0 < cap_mem caps)%nat ->
  alive k s -> settled boot fmt server sent s -> Forall event_ok sent ->
  exists s', agent_runs boot fmt caps s [] s' /\ agent_drained s'.
Proof.
  intros Hk Hcc Hcm. remember (agent_backlog s) as n eqn:Hn. revert s Hn.
  induction (lt_wf n) as [n _ IH]. intros s -> Hal Ha Hok.
  destruct (decide (agent_backlog s = 0%nat)) as [Hd | Hd]; [exists s; by split; [constructor|]|].
  destruct (agent_backlog_shrinks boot fmt caps k server sent s Hk Hcc Hcm Hal Ha Hok Hd) as (s1 & Hstep & Hlt).
  assert (Ha1 : settled boot fmt server sent s1).
  { rewrite <- (app_nil_r sent). by eapply (agent_step_settled _ _ caps _ _ s None). }
  destruct (IH _ Hlt s1 eq_refl (agent_step_alive _ _ _ _ _ _ _ Hal Hstep) Ha1 Hok) as (s' & Hrun & Hd').
  exists s'. split; [|done]. apply (agent_runs_app _ _ _ s [] s1 [] s'); [|done].
  apply (AgentStep _ _ _ s [] s None s1); [constructor | done].
Qed.

Lemma agent_drained_empty s d : agent_drained s -> flying d s = [] /\ made d s = [].
Proof.
  unfold agent_drained, agent_backlog. intros H.
  assert (Hg : forall l, sum_list_with todo l = 0%nat -> l ≫= handled = [] /\ l ≫= passed = []).
  { induction l as [|[|e|b] l IH]; cbn [sum_list_with todo]; intros Hl; [done | | lia | lia].
    destruct (IH Hl) as [H1 H2]. by split. }
  assert (Hr : forall l, sum_list_with to_pass l = 0%nat -> l ≫= received_by d = []).
  { induction l as [|[[e ds]|] l IH]; cbn [sum_list_with to_pass]; intros Hl; [done | lia |]. by apply IH. }
  destruct (Hg (cpus s)) as [H1 H2]; [lia|]. destruct (Hg (mems s)) as [H3 H4]; [lia|].
  destruct (eventCh (shared s)) eqn:E1; [|cbn in H; lia].
  destruct (cpuChan (shared s)) eqn:E2; [|cbn in H; lia]. destruct (memChan (shared s)) eqn:E3; [|cbn in H; lia].
  unfold flying, made. rewrite (Hr (receivers s)), E1 by lia.
  destruct d; cbn [pool chan_of]; by rewrite ?H1, ?H2, ?H3, ?H4, ?E2, ?E3.
Qed.

(** * One goroutine of each kind *)

(** An event that a detector handles still waits in its channel, which has room for one
    more; the block of an event is exported when it is made. *)
Definition wider : capacities := {|
  cap_receiver := cap_receiver caps; cap_cpu := S (cap_cpu caps); cap_mem := S (cap_mem caps) |}.

Record simulates (s : agent) (p : pipeline) : Prop := {
  sim_hand : receivers s = [hand p];
  sim_event : eventCh p = eventCh (shared s);
  sim_cpu : cpu p = cpu (shared s);
  sim_cpus : exists g, cpus s = [g] /\ cpuChan p = handled g ++ cpuChan (shared s);
  sim_mems : exists g, mems s = [g] /\ memChan p = handled g ++ memChan (shared s);
  sim_out d : exported_by d p = out d s
}.

Lemma singleton_lookup {A} (x y : A) i : [x] !! i = Some y -> i = 0%nat /\ y = x.
Proof. by intros [-> ->]%list_lookup_singleton_Some. Qed.

Lemma pipeline_one p o p' : pipeline_step boot fmt wider p o p' -> pipeline_runs boot fmt wider p (option_list o) p'.
Proof. intros Hstep. apply (PipeStep _ _ _ p [] p o p'); [constructor | done]. Qed.

(** The parts of [simulates] that a step leaves alone. *)
Ltac frame Ho :=
  split; cbn [receivers hand eventCh shared cpu cpus mems cpuChan memChan];
  first [done | by eauto | exact Ho | by f_equal | idtac].

(** A goroutine of a detector takes an event or passes a block on. *)
Ltac same_out Ho Hg :=
  intros d; rewrite Ho; unfold out, made; cbn [shared];
  rewrite ?exported_by_snoc, <- ?app_assoc; destruct d; cbn [pool cpus mems]; rewrite ?Hg; cbn;
  rewrite ?app_nil_r; done.

(** It makes a block. *)
Ltac more_out Ho Hg :=
  intros d; unfold exported_by at 1; cbn [exported]; rewrite exported_by_app, Ho; unfold out, made; cbn [shared];
  rewrite <- app_assoc; f_equal; destruct d; cbn [pool cpus mems]; rewrite ?Hg; cbn; by rewrite ?app_nil_r.

Lemma step_simulated s p o s' :
  simulates s p -> agent_step boot fmt caps s o s' ->
  exists p', pipeline_runs boot fmt wider p (option_list o) p' /\ simulates s' p'.
Proof.
  intros Hsim Hstep. destruct Hsim as [Hh He Hc (g & Hg & Hgc) (m & Hm & Hmc) Ho].
  destruct Hstep as [s e Hlen | s i e rest Hi Hev | s i e x ds Hi Hroom | s i e Hi | s i e rest Hi Hch
    | s i e c b Hi Hp | s i b Hi | s i e rest Hi Hch | s i e b Hi Hp | s i b Hi | s t Ht];
    try (rewrite Hh in Hi; apply singleton_lookup in Hi as [-> Hi]);
    try (rewrite Hg in Hi; apply singleton_lookup in Hi as [-> <-]);
    try (rewrite Hm in Hi; apply singleton_lookup in Hi as [-> <-]).
  - eexists. split; [apply pipeline_one, EmitStep; by rewrite He|]. frame Ho.
  - eexists. split; [eapply pipeline_one, TakeStep; [by symmetry | by rewrite He]|]. frame Ho. by rewrite Hh.
  - eexists. split; [eapply (pipeline_one _ None), PassStep; [by symmetry|]|].
    + assert (length (handled g) <= 1 /\ length (handled m) <= 1)%nat by (destruct g, m; cbn; lia).
      destruct x; cbn [room cap_cpu cap_mem wider] in *; rewrite ?Hgc, ?Hmc, ?length_app; done || lia.
    + destruct x; split; cbn [ConsumeEvent receivers hand eventCh shared cpu cpus mems cpuChan memChan];
        first [by rewrite Hh | done | eexists; split; [done|]; by rewrite ?Hgc, ?Hmc, ?app_assoc | exact Ho].
  - eexists. split; [eapply (pipeline_one _ None), PassedStep; by symmetry|]. frame Ho. by rewrite Hh.
  - exists p. split; [constructor|]. frame Ho; [|same_out Ho Hg]. exists (Handling e). by rewrite Hg, Hgc, Hch.
  - eexists. split; [eapply (pipeline_one _ None), CpuStep; [exact Hgc | by rewrite Hc]|].
    frame Ho; [|more_out Ho Hg]. exists (Passing b). by rewrite Hg.
  - exists p. split; [constructor|]. frame Ho; [|destruct b as [block|]; same_out Ho Hg]. exists Waiting. by rewrite Hg.
  - exists p. split; [constructor|]. frame Ho; [|same_out Ho Hm]. exists (Handling e). by rewrite Hm, Hmc, Hch.
  - eexists. split; [eapply (pipeline_one _ None), MemStep; [exact Hmc | done]|].
    frame Ho; [|more_out Ho Hm]. exists (Passing b). by rewrite Hm.
  - exists p. split; [constructor|]. frame Ho; [|destruct b as [block|]; same_out Ho Hm]. exists Waiting. by rewrite Hm.
  - eexists. split; [eapply (pipeline_one _ None), (TickStep _ _ _ p t); by rewrite Hc|]. frame Ho.
Qed.

Lemma runs_simulated s p sent s' :
  simulates s p -> agent_runs boot fmt caps s sent s' ->
  exists p', pipeline_runs boot fmt wider p sent p' /\ simulates s' p'.
Proof.
  intros Hsim Hrun. induction Hrun as [s | s sent s1 o s2 _ IH Hstep]; [exists p; by split; [constructor|]|].
  destruct (IH Hsim) as (p1 & Hp1 & Hs1). destruct (step_simulated _ _ _ _ Hs1 Hstep) as (p2 & Hp2 & Hs2).
  exists p2. split; [by eapply runs_app | done].
Qed.

(** The events of the goroutines and the channels, in order. *)
Lemma simulated_queue s p d : simulates s p -> queued d p = flying d s.
Proof.
  intros [Hh He _ (g & Hg & Hgc) (m & Hm & Hmc) _]. unfold queued, flying, hand_of. rewrite Hh, He.
  assert (Hr : [hand p] ≫= received_by d = received_by d (hand p)) by apply app_nil_r. rewrite Hr.
  destruct d; cbn [chan_of pool]; rewrite ?Hg, ?Hm, ?Hgc, ?Hmc; cbn; rewrite ?app_nil_r, <- ?app_assoc; done.
Qed.

Lemma launched_once_simulates a :
  starts a = 1%nat ->
  simulates (launched a) {| eventCh := []; hand := None; cpuChan := []; memChan := []; cpu := cpuDetector a; exported := [] |}.
Proof.
  intros H1. unfold launched. rewrite H1. split; cbn [receivers hand eventCh shared cpu cpus mems cpuChan memChan];
    [done | done | done | by exists Waiting | by exists Waiting |]. by intros [].
Qed.

Lemma launched_once_ordered a sent s d :
  starts a = 1%nat -> cpu_ok (cpuDetector a) -> Forall event_ok sent ->
  agent_runs boot fmt caps (launched a) sent s ->
  exists processed, owned d sent = processed ++ flying d s /\
    out d s = all_blocks boot fmt (Server (cpuDetector a)) d processed.
Proof.
  intros H1 Hc Hok Hrun.
  destruct (runs_simulated _ _ _ _ (launched_once_simulates a H1) Hrun) as (p & Hp & Hsim).
  set (p0 := {| eventCh := []; hand := None; cpuChan := []; memChan := []; cpu := cpuDetector a; exported := [] |}) in Hp.
  assert (H0 : accounted boot fmt (Server (cpuDetector a)) [] p0) by (split; [done.. |]; intros []; by exists []).
  pose proof (runs_accounted _ _ _ _ _ _ _ _ H0 Hok Hp) as Ha.
  destruct (ac_events _ _ _ _ _ Ha d) as (processed & Hsent & Hx). exists processed.
  rewrite <- (simulated_queue s p d), <- (sim_out _ _ Hsim) by done. done.
Qed.

(** Started once, it can always be brought to where everything has been exported, in order. *)
Lemma launched_once_exported a sent s :
  starts a = 1%nat -> cpu_ok (cpuDetector a) -> (0 < cap_cpu caps)%nat -> (0 < cap_mem caps)%nat ->
  Forall event_ok sent -> agent_runs boot fmt caps (launched a) sent s ->
  exists s', agent_runs boot fmt caps s [] s' /\ agent_drained s' /\
    forall d, exported_by d (shared s') = all_blocks boot fmt (Server (cpuDetector a)) d (owned d sent).
Proof.
  intros H1 Hc Hcc Hcm Hok Hrun.
  pose proof (agent_runs_settled _ _ _ _ [] _ sent s (launched_settled a Hc) Hok Hrun) as Hs.
  pose proof (agent_runs_alive _ _ _ _ _ _ _ (launched_alive a) Hrun) as Hal.
  destruct (agent_drains (starts a) _ _ s ltac:(lia) Hcc Hcm Hal Hs Hok) as (s' & Hrun' & Hd).
  exists s'. split; [done|]. split; [done|]. intros d.
  assert (Hall : agent_runs boot fmt caps (launched a) sent s').
  { rewrite <- (app_nil_r sent). by eapply agent_runs_app. }
  destruct (launched_once_ordered a sent s' d H1 Hc Hok Hall) as (processed & Hp & Ho).
  destruct (agent_drained_empty s' d Hd) as [Hf Hm]. rewrite Hf, app_nil_r in Hp. unfold out in Ho.
  rewrite Hm, app_nil_r in Ho. by rewrite Ho, Hp.
Qed.
End Delivery.

(** C8: whatever started the agent, a command or the file, and however its goroutines run:
    the events that a detector owns are those it made blocks of and those on their way,
    and the blocks it made, exported or about to be, are those of these events, no event
    twice and none lost.  With one goroutine of each kind they are in order, with more
    they may not be.  Everything on its way can be exported, and then the blocks of all
    the events sent have been. *)
Theorem agent_delivers new_cache goarch remote_ok app file cmd a boot fmt caps sent s :
  main new_cache goarch remote_ok app file cmd = Running a ->
  (0 < cap_cpu caps)%nat -> (0 < cap_mem caps)%nat -> Forall event_ok sent ->
  agent_runs boot fmt caps (launched a) sent s ->
  let blocks := all_blocks boot fmt (Server (cpuDetector a)) in
  (forall d, exists processed, owned d sent ≡ₚ processed ++ flying d s /\ out d s ≡ₚ blocks d processed) /\
  (starts a = 1%nat ->
     forall d, exists processed, owned d sent = processed ++ flying d s /\ out d s = blocks d processed) /\
  exists s', agent_runs boot fmt caps s [] s' /\ agent_drained s' /\
    forall d, exported_by d (shared s') ≡ₚ blocks d (owned d sent).
Proof.
  intros Hmain Hcc Hcm Hok Hrun blocks. destruct (main_running _ _ _ _ _ _ _ Hmain) as [Hk Hc].
  pose proof (agent_runs_settled _ _ _ _ [] _ sent s (launched_settled boot fmt a Hc) Hok Hrun) as Hs.
  pose proof (agent_runs_alive _ _ _ _ _ _ _ (launched_alive a) Hrun) as Hal.
  split; [exact (se_events _ _ _ _ _ Hs)|].
  split; [intros H1 d; by eapply launched_once_ordered|].
  destruct (agent_drains boot fmt caps (starts a) _ _ s Hk Hcc Hcm Hal Hs Hok) as (s' & Hrun' & Hd).
  exists s'. split; [done|]. split; [done|]. intros d.
  assert (Hok' : Forall event_ok (sent ++ [])) by by rewrite app_nil_r.
  pose proof (agent_runs_settled _ _ _ _ _ _ [] s' Hs Hok' Hrun') as Hs'. rewrite app_nil_r in Hs'.
  destruct (se_events _ _ _ _ _ Hs' d) as (p & Hp & Ho). destruct (agent_drained_empty s' d Hd) as [Hf Hm].
  rewrite Hf, app_nil_r in Hp. unfold out in Ho. rewrite Hm, app_nil_r in Ho. rewrite Ho. unfold blocks, all_blocks.
  by rewrite Hp.
Qed.

(** * Two goroutines of each kind *)

Section Reordered.
Context (boot : Z) (fmt : Z -> list Z) (caps : capacities) (e1 e2 : SpyEvent).

Definition two (c : CpuDetector) (ev : list SpyEvent) (r : option (SpyEvent * list detector))
    (ch : list SpyEvent) (w1 w2 : goroutine) (ex : list (detector * DataBlock)) : agent := {|
  shared := {| eventCh := ev; hand := None; cpuChan := ch; memChan := []; cpu := c; exported := ex |};
  receivers := [r; None]; cpus := [w1; w2]; mems := [Waiting; Waiting] |}.

Lemma agent_next s sent sent' s1 o s2 :
  agent_runs boot fmt caps s sent s1 -> agent_step boot fmt caps s1 o s2 -> sent' = sent ++ option_list o ->
  agent_runs boot fmt caps s sent' s2.
Proof. intros H1 H2 ->. by eapply AgentStep. Qed.

Tactic Notation "next" constr(R) tactic3(step) := eapply agent_next; [exact R | step | reflexivity].

(** Both events are taken, one by each goroutine of the CPU detector. *)
Lemma both_taken a :
  starts a = 2%nat -> detectors_of e1 = [DetectorCpu] -> detectors_of e2 = [DetectorCpu] ->
  (2 <= cap_receiver caps)%nat -> (2 <= cap_cpu caps)%nat ->
  agent_runs boot fmt caps (launched a) [e1; e2]
    (two (cpuDetector a) [] None [] (Handling e1) (Handling e2) []).
Proof.
  intros H2 Hd1 Hd2 Hcr Hcc. set (c := cpuDetector a).
  assert (R : agent_runs boot fmt caps (launched a) [] (two c [] None [] Waiting Waiting [])).
  { unfold launched. rewrite H2. constructor. }
  assert (R1 : agent_runs boot fmt caps (launched a) [e1] (two c [e1] None [] Waiting Waiting []))
    by next R (refine (AgentEmit _ _ _ _ _ _); cbn; lia).
  assert (R2 : agent_runs boot fmt caps (launched a) [e1; e2] (two c [e1; e2] None [] Waiting Waiting []))
    by next R1 (refine (AgentEmit _ _ _ _ _ _); cbn; lia).
  assert (R3 : agent_runs boot fmt caps (launched a) [e1; e2]
    (two c [e2] (Some (e1, detectors_of e1)) [] Waiting Waiting [])) by next R2 (by refine (AgentTake _ _ _ _ 0 _ _ _ _)).
  rewrite Hd1 in R3.
  assert (R4 : agent_runs boot fmt caps (launched a) [e1; e2] (two c [e2] (Some (e1, [])) [e1] Waiting Waiting []))
    by next R3 (refine (AgentPass _ _ _ _ 0 e1 DetectorCpu [] _ _); [done | cbn; lia]).
  assert (R5 : agent_runs boot fmt caps (launched a) [e1; e2] (two c [e2] None [e1] Waiting Waiting []))
    by next R4 (by refine (AgentPassed _ _ _ _ 0 e1 _)).
  assert (R6 : agent_runs boot fmt caps (launched a) [e1; e2]
    (two c [] (Some (e2, detectors_of e2)) [e1] Waiting Waiting [])) by next R5 (by refine (AgentTake _ _ _ _ 0 _ _ _ _)).
  rewrite Hd2 in R6.
  assert (R7 : agent_runs boot fmt caps (launched a) [e1; e2] (two c [] (Some (e2, [])) [e1; e2] Waiting Waiting []))
    by next R6 (refine (AgentPass _ _ _ _ 0 e2 DetectorCpu [] _ _); [done | cbn; lia]).
  assert (R8 : agent_runs boot fmt caps (launched a) [e1; e2] (two c [] None [e1; e2] Waiting Waiting []))
    by next R7 (by refine (AgentPassed _ _ _ _ 0 e2 _)).
  assert (R9 : agent_runs boot fmt caps (launched a) [e1; e2] (two c [] None [e2] (Handling e1) Waiting []))
    by next R8 (by refine (CpuTake _ _ _ _ 0 _ _ _ _)).
  assert (R10 : agent_runs boot fmt caps (launched a) [e1; e2] (two c [] None [] (Handling e1) (Handling e2) []))
    by next R9 (by refine (CpuTake _ _ _ _ 1 _ _ _ _)).
  exact R10.
Qed.

(** With two goroutines the second event can overtake the first: two tools of the file
    lose the order of their events. *)
Lemma two_starts_reorder a :
  starts a = 2%nat -> cpu_ok (cpuDetector a) -> event_ok e1 -> event_ok e2 ->
  detectors_of e1 = [DetectorCpu] -> detectors_of e2 = [DetectorCpu] ->
  (2 <= cap_receiver caps)%nat -> (2 <= cap_cpu caps)%nat ->
  exists s, agent_runs boot fmt caps (launched a) [e1; e2] s /\ agent_drained s /\
    exported_by DetectorCpu (shared s) =
      all_blocks boot fmt (Server (cpuDetector a)) DetectorCpu [e2; e1].
Proof.
  intros H2 Hc He1 He2 Hd1 Hd2 Hcr Hcc. pose proof (both_taken a H2 Hd1 Hd2 Hcr Hcc) as R10.
  set (c := cpuDetector a) in *.
  destruct (cpu_ProcessEvent_returns boot fmt e2 c He2 Hc) as (c1 & Hp1 & Hk1). destruct Hk1 as (Hc1 & Hs1 & _).
  destruct (cpu_ProcessEvent_returns boot fmt e1 c1 He1 Hc1) as (c2 & Hp2 & _). rewrite Hs1 in Hp2.
  set (b1 := cpu_block boot fmt (Server c) e1) in *. set (b2 := cpu_block boot fmt (Server c) e2) in *.
  assert (R11 : agent_runs boot fmt caps (launched a) [e1; e2] (two c1 [] None [] (Handling e1) (Passing b2) []))
    by next R10 (refine (CpuHandle _ _ _ _ 1 e2 _ _ _ _); [reflexivity | exact Hp1]).
  assert (R12 : agent_runs boot fmt caps (launched a) [e1; e2]
    (two c1 [] None [] (Handling e1) Waiting ([] ++ delivered DetectorCpu b2)))
    by next R11 (by refine (CpuPass _ _ _ _ 1 _ _)).
  assert (R13 : agent_runs boot fmt caps (launched a) [e1; e2]
    (two c2 [] None [] (Passing b1) Waiting ([] ++ delivered DetectorCpu b2)))
    by next R12 (refine (CpuHandle _ _ _ _ 0 e1 _ _ _ _); [reflexivity | exact Hp2]).
  exists (two c2 [] None [] Waiting Waiting (([] ++ delivered DetectorCpu b2) ++ delivered DetectorCpu b1)).
  split; [next R13 (by refine (CpuPass _ _ _ _ 0 _ _))|]. split; [reflexivity|].
  pose proof (exported_by_app DetectorCpu (shared (two c2 [] None [] Waiting Waiting ([] ++ delivered DetectorCpu b2)))
    b1 DetectorCpu) as H1. cbn [shared two exported] in H1. unfold exported_by at 1. cbn [shared exported two].
  rewrite H1, decide_True by done.
  pose proof (exported_by_app DetectorCpu (shared (two c2 [] None [] Waiting Waiting [])) b2 DetectorCpu) as H0.
  cbn [shared two exported] in H0. unfold exported_by at 1. cbn [exported]. rewrite H0, decide_True by done.
  cbn. by rewrite app_nil_r.
Qed.
End Reordered.

(** Without a server the samples of the profiler go into tries that are never uploaded, and
    no block is made of them: the agent that the file starts never has one. *)
Lemma no_server_no_profile boot fmt e :
  event_ok e -> Name e = model.OnCpu -> event_blocks boot fmt "" DetectorCpu e = [].
Proof.
  intros He Hn. cbn [event_blocks].
  assert (Hb : cpu_block boot fmt "" e = None); [|by rewrite Hb].
  set (c := NewCpuDetector <| Server := ""%string |>).
  assert (Hc : cpu_ok c) by (destruct new_cpu_ok; by split).
  destruct (cpu_ProcessEvent_returns boot fmt e c He Hc) as (c' & Hp & _). change (Server c) with ""%string in Hp.
  unfold cpu_ProcessEvent in Hp. rewrite Hn in Hp.
  change (model.OnCpu =? model.OffCpu)%string with false in Hp. change (model.OnCpu =? model.OnCpu)%string with true in Hp.
  apply oncpuHandler_quiet in Hp as (_ & _ & H); [by apply H|]. by split.
Qed.

(** * Examples *)

(** Two tools of the file, and a system call's event. *)
Definition two_tools : config_file :=
  Parsed (Some [default_offcpu "host" ENABLE; default_cachestat "host" ENABLE]) None.
Definition two_tools_agent : AppSpy := {|
  eper := FileOutputer "/tmp/spycat/"; cpuDetector := NewCpuDetector; starts := 2; spyers := [
    OffcpuSession "offcpu" (offcpu_Args {|
      config.offcpu_LogLevel := LogLevel; config.offcpu_AppName := ""; config.offcpu_Server := "";
      config.offcpu_Pid := -1; config.offcpu_MaxOffcpuMs := 10000; config.offcpu_MinOffcpuMs := 5;
      config.offcpu_SymbolCacheSize := 256; config.offcpu_RqDurMs := 0; config.offcpu_BtfPath := "";
      config.offcpu_Exporter := ""; config.offcpu_Status := "" |}) "";
    CacheStatSession "cachestat" (cachestat_Args cachestat_flags) 10 ""] |}.

Lemma two_tools_run cmd : main positive "amd64" no_upstream "host" two_tools cmd = Running two_tools_agent.
Proof. reflexivity. Qed.

Lemma two_tools_sent :
  agent_runs 0 print_nothing agent_capacities (launched two_tools_agent) [demo_event model.Syscall]
    ((launched two_tools_agent) <| shared := (shared (launched two_tools_agent)) <| eventCh := [demo_event model.Syscall] |> |>).
Proof.
  apply (AgentStep _ _ _ (launched two_tools_agent) [] (launched two_tools_agent) (Some (demo_event model.Syscall)));
    [constructor|]. refine (AgentEmit _ _ _ _ _ _). cbn. lia.
Qed.

Lemma demo_blocks_one : length (all_blocks 0 print_nothing "" DetectorCpu (owned DetectorCpu [demo_event model.Syscall])) = 1%nat.
Proof. vm_compute. reflexivity. Qed.

Lemma agent_delivers_witness :
  exists s', agent_runs 0 print_nothing agent_capacities
      ((launched two_tools_agent) <| shared := (shared (launched two_tools_agent)) <| eventCh := [demo_event model.Syscall] |> |>)
      [] s' /\
    length (exported_by DetectorCpu (shared s')) = 1%nat.
Proof.
  destruct (agent_delivers positive "amd64" no_upstream "host" two_tools (SyscallCmd syscall_flags) two_tools_agent
    0 print_nothing agent_capacities [demo_event model.Syscall] _ (two_tools_run _) ltac:(cbn; lia) ltac:(cbn; lia)
    (demo_event_ok _) two_tools_sent) as (_ & _ & s' & Hrun & _ & Hx).
  exists s'. split; [exact Hrun|]. rewrite (Hx DetectorCpu). exact demo_blocks_one.
Defined.
