(* ===== verification/Host.v ===== *)
(** What the agent asks the host before it attaches its programs: pkg/util/util.go (CpuGet,
    ReadCPURange, KprobeExists) and attachProgs of pkg/ebpf/cpu/offcpu.go.

    The CPUs that the profiler opens an event on are read from a list of ranges like
    [0-3,6]; the function that the off-CPU profiler probes depends on the symbols of the
    kernel.  The contents of the files are arguments, [None] where a file cannot be read.
    A string is the list of its bytes. *)
From stdpp Require Import strings.
From S2P Require Import Prelude GoLib Symtab.
Open Scope Z_scope.
Open Scope bpf_scope.

(** * strings and strconv *)

(** [strings.Trim(s, "\n ")] *)
Definition in_cutset (b : Z) : bool := (b =? 10) || (b =? 32).
Fixpoint trim_left (s : list Z) : list Z :=
  match s with
  | [] => []
  | b :: r => if in_cutset b then trim_left r else s
  end.
Definition Trim (s : list Z) : list Z := reverse (trim_left (reverse (trim_left s))).

(** [strings.SplitN(s, sep, 2)]: what is before the first [sep], and what follows. *)
Fixpoint cut (sep : Z) (s : list Z) : list Z * option (list Z) :=
  match s with
  | [] => ([], None)
  | b :: s =>
      if b =? sep then ([], Some s)
      else let '(before, after) := cut sep s in (b :: before, after)
  end.

(** [strings.Split(s, sep)] *)
Fixpoint Split (sep : Z) (s : list Z) : list (list Z) :=
  match s with
  | [] => [[]]
  | b :: s =>
      if b =? sep then [] :: Split sep s
      else match Split sep s with
           | part :: parts => (b :: part) :: parts
           | [] => [[b]]
           end
  end.

(** [strconv.ParseUint(s, 10, 32)] *)
Definition parse_digit (n : option Z) (b : Z) : option Z :=
  n ← n;
  if (48 <=? b) && (b <=? 57) then
    let n1 := n * 10 + (b - 48) in if 2 ^ 32 - 1 <? n1 then None else Some n1
  else None.
Definition ParseUint (s : list Z) : option Z :=
  match s with [] => None | _ => foldl parse_digit (Some 0) s end.

(** * CPUs *)

(** The CPUs of one range; the loop counts up in a uint64. *)
Definition cpu_range (cpuRange : list Z) : option (list Z) :=
  match cut 45 cpuRange with
  | (first, None) => first ← ParseUint first; Some [first]
  | (first, Some last) =>
      first ← ParseUint first; last ← ParseUint last; Some (seqZ first (last - first + 1))
  end.

(** [ReadCPURange]; the error of a range is returned. *)
Fixpoint read_ranges (cpus : list Z) (ranges : list (list Z)) : option (list Z) :=
  match ranges with
  | [] => Some cpus
  | r :: ranges => more ← cpu_range r; read_ranges (cpus ++ more) ranges
  end.
Definition ReadCPURange (cpuRangeStr : list Z) : option (list Z) := read_ranges [] (Split 44 (Trim cpuRangeStr)).

(** [CpuGet] *)
Definition CpuGet (online : option (list Z)) : option (list Z) := online ≫= ReadCPURange.

(** * Symbols *)

(** [readKprobeBlacklist]: the second word of the lines that have two. *)
Definition readKprobeBlacklist (lines : list (list Z)) : list (list Z) :=
  omap (fun line => match Split 32 line with [_; name] => Some name | _ => None end) lines.

(** [checkKallsyms]: some line has the name for its third word. *)
Definition checkKallsyms (name : list Z) (lines : list (list Z)) : bool :=
  existsb (fun line => match Split 32 line with _ :: _ :: s :: _ => bool_decide (s = name) | _ => false end) lines.

(** [KprobeExists] *)
Definition KprobeExists (name : list Z) (blacklist kallsyms : option (list (list Z))) : bool :=
  if bool_decide (name ∈ default [] (readKprobeBlacklist <$> blacklist)) then false
  else match kallsyms with Some lines => checkKallsyms name lines | None => false end.

(** [attachProgs] of the off-CPU profiler: where sched_switch_hook is attached. *)
Definition sched_switch_target (blacklist kallsyms : option (list (list Z))) : list Z :=
  let name := bytes_of "finish_task_switch"%string in
  if KprobeExists name blacklist kallsyms then name else bytes_of "finish_task_switch.isra.0"%string.
