(* ===== verification/HostSpec.v ===== *)
(** The lists of CPUs that the kernel prints are read back.  Properties of [Host]. *)
From stdpp Require Import strings.
From S2P Require Import Prelude GoLib Symtab Host.
Open Scope Z_scope.
Open Scope bpf_scope.

(** * The kernel's lists *)

(** A number in decimal: [digits] has the lowest first. *)
Fixpoint digits (fuel : nat) (n : Z) : list Z :=
  match fuel with
  | O => []
  | S fuel => (48 + n mod 10) :: (if n / 10 =? 0 then [] else digits fuel (n / 10))
  end.
Definition decimal (n : Z) : list Z := reverse (digits 10 n).

(** The kernel's way to print a list of ranges of CPUs. *)
Definition print_range (r : Z * Z) : list Z :=
  if r.1 =? r.2 then decimal r.1 else decimal r.1 ++ [45] ++ decimal r.2.
Fixpoint print_ranges (rs : list (Z * Z)) : list Z :=
  match rs with
  | [] => []
  | [r] => print_range r
  | r :: rs => print_range r ++ [44] ++ print_ranges rs
  end.
Definition cpus_of (rs : list (Z * Z)) : list Z := rs ≫= fun r => seqZ r.1 (r.2 - r.1 + 1).

(** * Numbers *)

Definition digit (b : Z) : Prop := 48 <= b <= 57.

Lemma digits_digit fuel n : 0 <= n -> Forall digit (digits fuel n).
Proof.
  revert n. induction fuel as [|fuel IH]; intros n Hn; cbn [digits]; constructor.
  - unfold digit. pose proof (Z.mod_pos_bound n 10). lia.
  - case_match; [constructor|]. apply IH, Z.div_pos; lia.
Qed.

Lemma decimal_digit n : 0 <= n -> Forall digit (decimal n).
Proof. intros Hn. unfold decimal. rewrite Forall_reverse. by apply digits_digit. Qed.

Lemma parse_digits fuel n :
  0 <= n < 2 ^ 32 -> n < 10 ^ Z.of_nat fuel -> foldl parse_digit (Some 0) (reverse (digits fuel n)) = Some n.
Proof.
  revert n. induction fuel as [|fuel IH]; intros n Hn Hf; [cbn in *; f_equal; lia|]. cbn [digits].
  rewrite reverse_cons, foldl_app. cbn [foldl].
  assert (Hp : 10 ^ Z.of_nat (S fuel) = 10 * 10 ^ Z.of_nat fuel)
    by (rewrite Nat2Z.inj_succ, Z.pow_succ_r by lia; lia).
  assert (Hrest : foldl parse_digit (Some 0) (reverse (if n / 10 =? 0 then [] else digits fuel (n / 10))) = Some (n / 10)).
  { destruct (Z.eqb_spec (n / 10) 0) as [-> | Hne]; [done|]. apply IH.
    - split; [apply Z.div_pos; lia|]. apply Z.div_lt_upper_bound; lia.
    - apply Z.div_lt_upper_bound; lia. }
  rewrite Hrest. unfold parse_digit. cbn [mbind option_bind].
  pose proof (Z.mod_pos_bound n 10 ltac:(lia)). pose proof (Z.div_mod n 10 ltac:(lia)).
  rewrite (proj2 (Z.leb_le 48 _)), (proj2 (Z.leb_le _ 57)) by lia. cbn [andb].
  replace (n / 10 * 10 + (48 + n mod 10 - 48)) with n by lia.
  by rewrite (proj2 (Z.ltb_ge _ _)) by lia.
Qed.

Lemma decimal_nonempty n : decimal n <> [].
Proof. unfold decimal. cbn [digits]. rewrite reverse_cons. by destruct (reverse _). Qed.

Lemma ParseUint_decimal n : is_u32 n -> ParseUint (decimal n) = Some n.
Proof.
  intros Hn. unfold ParseUint. pose proof (decimal_nonempty n) as Hne.
  destruct (decimal n) eqn:E; [done|]. rewrite <- E. apply parse_digits; [exact Hn|].
  unfold is_uN in Hn. change (10 ^ Z.of_nat 10) with 10000000000. lia.
Qed.

(** * Separators *)

Lemma cut_none sep s : sep ∉ s -> cut sep s = (s, None).
Proof.
  induction s as [|b s IH]; intros Hs; [done|]. cbn [cut]. rewrite (proj2 (Z.eqb_neq b sep)) by set_solver.
  by rewrite IH by set_solver.
Qed.

Lemma cut_some sep s r : sep ∉ s -> cut sep (s ++ sep :: r) = (s, Some r).
Proof.
  induction s as [|b s IH]; intros Hs; cbn [app cut]; [by rewrite Z.eqb_refl|].
  rewrite (proj2 (Z.eqb_neq b sep)) by set_solver. by rewrite IH by set_solver.
Qed.

Lemma Split_none sep s : sep ∉ s -> Split sep s = [s].
Proof.
  induction s as [|b s IH]; intros Hs; [done|]. cbn [Split]. rewrite (proj2 (Z.eqb_neq b sep)) by set_solver.
  by rewrite IH by set_solver.
Qed.

Lemma Split_some sep s r : sep ∉ s -> Split sep (s ++ sep :: r) = s :: Split sep r.
Proof.
  induction s as [|b s IH]; intros Hs; cbn [app Split]; [by rewrite Z.eqb_refl|].
  rewrite (proj2 (Z.eqb_neq b sep)) by set_solver. by rewrite IH by set_solver.
Qed.

Lemma digits_without sep s : Forall digit s -> ~ digit sep -> sep ∉ s.
Proof. intros Hs Hn Hin. exact (Hn (proj1 (Forall_forall _ _) Hs sep Hin)). Qed.

(** The characters of a list. *)
Definition list_char (b : Z) : Prop := digit b \/ b = 45 \/ b = 44.

Definition range_ok (r : Z * Z) : Prop := 0 <= r.1 <= r.2 /\ r.2 < 2 ^ 32.

Lemma print_range_chars r : range_ok r -> Forall (fun b => digit b \/ b = 45) (print_range r) /\ print_range r <> [].
Proof.
  intros [Hr _]. pose proof (decimal_digit r.1 ltac:(lia)) as H1. pose proof (decimal_digit r.2 ltac:(lia)) as H2.
  assert (Hd : forall n, Forall digit n -> Forall (fun b => digit b \/ b = 45) n)
    by (intros n Hn; apply (Forall_impl _ _ _ Hn); auto).
  unfold print_range. destruct (_ =? _); [split; [auto | apply decimal_nonempty]|].
  split; [repeat (apply Forall_app; split); auto; by repeat constructor; right|].
  intros H. apply app_eq_nil in H as [H _]. by apply decimal_nonempty in H.
Qed.

Lemma cpu_range_print r : range_ok r -> cpu_range (print_range r) = Some (seqZ r.1 (r.2 - r.1 + 1)).
Proof.
  destruct r as [a b]. intros [Hr Hb]. cbn [fst snd] in *. unfold cpu_range, print_range. cbn [fst snd].
  assert (Hno : 45 ∉ decimal a) by (apply digits_without; [apply decimal_digit; lia | unfold digit; lia]).
  assert (Ha : is_u32 a) by (unfold is_uN; lia). assert (Hb' : is_u32 b) by (unfold is_uN; lia).
  destruct (Z.eqb_spec a b) as [<- | Hne].
  - rewrite cut_none, ParseUint_decimal by done. cbn. by replace (a - a + 1) with 1 by lia.
  - cbn [app]. rewrite cut_some, !ParseUint_decimal by done. done.
Qed.

Lemma read_ranges_app cpus ranges :
  read_ranges cpus ranges = more ← read_ranges [] ranges; Some (cpus ++ more).
Proof.
  revert cpus. induction ranges as [|r ranges IH]; intros cpus; cbn [read_ranges].
  { cbn. by rewrite app_nil_r. }
  destruct (cpu_range r) as [more|]; [|done]. cbn [mbind option_bind app]. rewrite (IH (cpus ++ more)), (IH more).
  destruct (read_ranges [] ranges) as [rest|]; [|done]. cbn. by rewrite app_assoc.
Qed.

Lemma Split_print rs :
  rs <> [] -> Forall range_ok rs -> read_ranges [] (Split 44 (print_ranges rs)) = Some (cpus_of rs).
Proof.
  intros Hne Hok. induction Hok as [|r rs Hr Hok IH]; [done|].
  assert (Hno : 44 ∉ print_range r).
  { intros Hin. destruct (print_range_chars r Hr) as [Hc _].
    apply (proj1 (Forall_forall _ _) Hc) in Hin as [Hin | Hin]; [unfold digit in Hin; lia | lia]. }
  destruct rs as [|r' rs].
  - cbn [print_ranges]. rewrite Split_none by done. cbn [read_ranges]. rewrite cpu_range_print by done. cbn.
    by rewrite app_nil_r.
  - change (print_ranges (r :: r' :: rs)) with (print_range r ++ 44 :: print_ranges (r' :: rs)).
    rewrite Split_some by done. cbn [read_ranges]. rewrite cpu_range_print by done. cbn [mbind option_bind app].
    rewrite read_ranges_app, IH by done. done.
Qed.

(** * The file *)

Lemma trim_left_kept s : Forall (fun b => in_cutset b = false) s -> trim_left s = s.
Proof. destruct 1 as [|b s Hb _]; [done|]. cbn [trim_left]. by rewrite Hb. Qed.

Lemma Trim_line s : Forall (fun b => in_cutset b = false) s -> Trim (s ++ [10]) = s.
Proof.
  intros Hs. unfold Trim. destruct s as [|b s]; [done|].
  assert (Ht : trim_left ((b :: s) ++ [10]) = (b :: s) ++ [10])
    by (cbn [app trim_left]; by rewrite (Forall_inv Hs)).
  rewrite Ht, reverse_app. change (reverse [10]) with [10]. cbn [app trim_left in_cutset Z.eqb Pos.eqb orb].
  rewrite trim_left_kept by by rewrite Forall_reverse. apply reverse_involutive.
Qed.

Lemma print_ranges_chars rs : Forall range_ok rs -> Forall (fun b => in_cutset b = false) (print_ranges rs).
Proof.
  assert (Hc : forall b, digit b \/ b = 45 \/ b = 44 -> in_cutset b = false).
  { intros b Hb. unfold in_cutset, digit in *. apply orb_false_iff. rewrite !Z.eqb_neq. lia. }
  assert (Hr : forall r, range_ok r -> Forall (fun b => in_cutset b = false) (print_range r)).
  { intros r Hr. destruct (print_range_chars r Hr) as [Hp _]. apply (Forall_impl _ _ _ Hp). naive_solver. }
  induction 1 as [|r rs Hok Hrs IH]; [constructor|]. destruct rs as [|r' rs]; [by apply Hr|].
  apply Forall_app. split; [by apply Hr|]. constructor; [apply Hc; auto | exact IH].
Qed.

(** The CPUs that an event is opened on are those of the ranges of the kernel's file. *)
Lemma CpuGet_reads rs :
  rs <> [] -> Forall range_ok rs ->
  CpuGet (Some (print_ranges rs ++ [10])) = Some (cpus_of rs) /\
  forall cpu, cpu ∈ cpus_of rs <-> exists r, r ∈ rs /\ r.1 <= cpu <= r.2.
Proof.
  intros Hne Hok. split.
  - unfold CpuGet, ReadCPURange. cbn [mbind option_bind]. rewrite Trim_line by by apply print_ranges_chars.
    by apply Split_print.
  - intros cpu. unfold cpus_of. rewrite list_elem_of_bind. setoid_rewrite elem_of_seqZ. split.
    + intros (r & Hcpu & Hr). exists r. split; [done | lia].
    + intros (r & Hr & Hcpu). exists r. split; [lia | done].
Qed.

Example CpuGet_list :
  CpuGet (Some [48; 45; 50; 44; 53; 10]) = Some [0; 1; 2; 5] /\ CpuGet (Some [48; 45; 10]) = None.
Proof. split; reflexivity. Qed.

(** * The probed function *)

(** The name that gcc gives to a copy of the function is probed unless the symbols have
    the function itself. *)
Lemma sched_switch_target_known blacklist kallsyms :
  sched_switch_target blacklist kallsyms = bytes_of "finish_task_switch"%string <->
  bytes_of "finish_task_switch"%string ∉ default [] (readKprobeBlacklist <$> blacklist) /\
  exists lines line a t rest, kallsyms = Some lines /\ line ∈ lines /\
    Split 32 line = [a; t; bytes_of "finish_task_switch"%string] ++ rest.
Proof.
  unfold sched_switch_target, KprobeExists. set (name := bytes_of "finish_task_switch"%string).
  assert (Hother : bytes_of "finish_task_switch.isra.0"%string <> name) by by vm_compute.
  destruct (decide (name ∈ default [] (readKprobeBlacklist <$> blacklist))) as [Hb | Hb].
  { rewrite bool_decide_true by done. naive_solver. }
  rewrite bool_decide_false by done. destruct kallsyms as [lines|]; [|naive_solver].
  destruct (checkKallsyms name lines) eqn:E.
  - split; [|done]. intros _. split; [done|]. apply existsb_exists in E as (line & Hin & Hl).
    destruct (Split 32 line) as [|a [|t [|s rest]]] eqn:Hs; try done. apply bool_decide_eq_true in Hl as ->.
    exists lines, line, a, t, rest. by rewrite list_elem_of_In.
  - split; [done|]. intros (_ & lines' & line & a & t & rest & [= <-] & Hin & Hs).
    enough (checkKallsyms name lines = true) by congruence. apply existsb_exists. exists line.
    split; [by apply list_elem_of_In|]. rewrite Hs. by apply bool_decide_eq_true.
Qed.
