(* ===== verification/EndToEnd.v ===== *)
(** The whole way: what the programs send becomes what is exported.  The properties of
    the machine, of the sessions and of the pipeline together. *)
From S2P Require Import Prelude Prog BpfMap Layout FutexSnoop Kernel Wire WireSpec WellTyped WellTypedProgs Machine MachineSpec.
From S2P Require Import GoLib Trie SpyEvent DataBlock Detectors Symtab SymtabSpec Sessions AgentSpec Pipeline.
From S2P Require Import PipelineSpec Delivery.
From stdpp Require Import relations.
Open Scope Z_scope.
Open Scope bpf_scope.

#[local] Arguments SetUserAttribute : simpl never.

(** * The sessions send events that no detector panics on *)

(** An event of a tool. *)
Record event_of (tool : string) (e : SpyEvent) : Prop := {
  eo_ok : event_ok e;
  eo_name : Name e = tool;
  eo_class : class_Event (Class_ e) = tool
}.

Lemma event_of_set tool e kv : event_of tool e -> kv_ok kv -> event_of tool (SetUserAttribute e kv).1.
Proof.
  intros [[Hwf Hok] Hn Hc] Hkv. destruct (SetUserAttribute_attributes e kv Hwf) as (Hwf' & Ha & _).
  split; [|by rewrite Name_set | by rewrite Class_set]. split; [done|]. rewrite Ha.
  apply Forall_take, Forall_app. by split; [|constructor].
Qed.

Lemma event_of_task tool pid tid comm e : event_of tool e -> event_of tool (set_task pid tid comm e).
Proof. intros [[[Hl Hc] Ha] Hn Hcl]. split; [split; [by split | done] | done | done]. Qed.

Lemma event_of_header now class tool : event_of tool (event_header now class tool).
Proof. split; [split; [by split | by constructor] | done | done]. Qed.

Ltac made_event :=
  repeat first [apply event_of_set; [|apply kv_ok_made; constructor] | apply event_of_task
               | apply event_of_header].

Section Sessions.
Context (bcc : Z -> Z -> bool -> bcc_symbol) (gof : Z -> option (list Z * list SimpleSymbolTableEntry)).
Context (evict : Z -> SymbolCache -> SymbolCache) (stack_map : Z -> option (list Z)) (now : Z) (Arch : string).

Lemma futexsnoop_events data s es s' :
  futexsnoop_HandleEvent bcc gof evict stack_map now data s = Returned (es, s') ->
  Forall (event_of model.FutexSnoop) es.
Proof.
  unfold futexsnoop_HandleEvent. destruct (Wire.HandleEvent data) as [[l | h]|].
  - intros [= <- _]. constructor; [|constructor]. unfold lock_event. unfold_setters. made_event.
  - unfold hist_event. destruct (ResolveStack _ _ _ _ _ _ _ _ _) as [[syms s1]| | |]; cbn [go_bind]; [|done..].
    intros [= <- _]. constructor; [|constructor]. unfold_setters. made_event.
  - intros [= <- _]. constructor; [|constructor]. made_event.
Qed.

Lemma syscall_events data s es s' :
  syscall_HandleEvent bcc gof evict stack_map now Arch data s = Returned (es, s') ->
  Forall (event_of model.Syscall) es.
Proof.
  unfold syscall_HandleEvent. cbv zeta. destruct (both_stacks _ _ _ _ _ _ _ _) as [[syms s1]| | |]; cbn [go_bind];
    [|done..].
  intros [= <- _]. constructor; [|constructor]. unfold_setters. made_event.
Qed.

Lemma offcpu_events backup data s es s' :
  offcpu_HandleEvent bcc gof evict stack_map now backup data s = Returned (es, s') ->
  Forall (event_of model.OffCpu) es.
Proof.
  unfold offcpu_HandleEvent. cbv zeta. destruct (both_stacks _ _ _ _ _ _ _ _) as [[syms s1]| | |]; cbn [go_bind];
    [|done..].
  destruct (both_stacks _ _ _ _ _ _ _ _) as [[syms' s2]| | |]; cbn [go_bind]; [|done..].
  intros [= <- _]. apply Forall_app. split.
  - destruct (_ =? 1); [|constructor]. unfold schedCacheDump. destruct (backup _) as [value|]; [|constructor].
    apply Forall_fmap, Forall_forall. intros i _. unfold compose, dump_event. unfold_setters. made_event.
  - constructor; [|constructor]. unfold_setters. made_event.
Qed.

Lemma oncpu_events_of rate sfs s es s' :
  oncpu_events bcc gof evict now rate sfs s = Returned (es, s') -> Forall (event_of model.OnCpu) es.
Proof.
  revert s es. induction sfs as [|it sfs IH]; intros s es; cbn [oncpu_events]; [by intros [= <- _]|].
  unfold oncpu_event. destruct (WalkStack _ _ _ _ _ _ _ _) as [[buf s1]| | |]; cbn [go_bind]; [|done..].
  destruct (WalkStack _ _ _ _ _ _ _ _) as [[buf' s2]| | |]; cbn [go_bind]; [|done..].
  destruct (oncpu_events _ _ _ _ _ _ _) as [[more s3]| | |] eqn:E; cbn [go_bind]; [|done..].
  intros [= <- Hs]. subst s3. constructor; [|by eapply IH]. unfold_setters. made_event.
Qed.

Lemma cachestat_events values : Forall (event_of model.CacheStat) (cachestat_Reset now values).
Proof.
  apply Forall_fmap, Forall_forall. intros v _. unfold compose, cachestat_event. unfold_setters. made_event.
Qed.
End Sessions.

Lemma pollData_events tool handle arrivals s es s' :
  (forall now data s es s', handle now data s = Returned (es, s') -> Forall (event_of tool) es) ->
  pollData handle arrivals s = Returned (es, s') -> Forall (event_of tool) es.
Proof.
  intros Hh. revert s es. induction arrivals as [|[now data] arrivals IH]; intros s es; cbn [pollData];
    [by intros [= <- _]|].
  destruct (handle now data s) as [[es1 s1]| | |] eqn:E1; cbn [go_bind]; [|done..].
  destruct (pollData handle arrivals s1) as [[es2 s2]| | |] eqn:E2; cbn [go_bind]; [|done..].
  intros [= <- Hs]. subst s2. apply Forall_app. split; [by eapply Hh | by eapply IH].
Qed.

(** * The blocks of a tool *)

Lemma filter_all {A} (P : A -> Prop) `{!forall x, Decision (P x)} l : Forall P l -> filter P l = l.
Proof. induction 1 as [|x l Hx _ IH]; [done|]. by rewrite filter_cons, decide_True, IH. Qed.
Lemma filter_none {A} (P : A -> Prop) `{!forall x, Decision (P x)} l : Forall (fun x => ~ P x) l -> filter P l = [].
Proof. induction 1 as [|x l Hx _ IH]; [done|]. by rewrite filter_cons, decide_False. Qed.

Lemma handler_name boot fmt e c c' b :
  cpu_ProcessEvent boot fmt e c = Returned (c', Some b) -> block_Name b = Name e.
Proof.
  unfold cpu_ProcessEvent, offcpuHandler, oncpuHandler, futexsnoopHandler, syscallHandler.
  destruct (String.eqb_spec (Name e) model.OffCpu) as [-> | _];
    [|destruct (String.eqb_spec (Name e) model.OnCpu) as [-> | _];
    [|destruct (Name e =? model.IrqOff)%string; [done|];
      destruct (String.eqb_spec (Name e) model.FutexSnoop) as [-> | _];
    [|destruct (String.eqb_spec (Name e) model.Syscall) as [-> | _]; [|done]]]].
  1: destruct (formatOffcpuLabels boot fmt e).
  6: destruct (formatFutexSnoopLabels e).
  10: destruct (formatSyscallLabels e).
  all: cbn [go_bind]; try done; try (destruct (GetUintUserAttribute e _); cbn [go_bind]; try done;
    by intros [= _ <-]).
  destruct (for_attributes _ e _); cbn [go_bind]; try done. destruct (negb _).
  - destruct (collect _ _ _ _); cbn [go_bind]; done.
  - by intros [= _ <-].
Qed.

Lemma event_blocks_name boot fmt server e :
  Forall (fun b => block_Name b = Name e) (event_blocks boot fmt server DetectorCpu e).
Proof.
  unfold event_blocks, cpu_block. destruct (cpu_ProcessEvent _ _ _ _) as [[c [b|]]| | |] eqn:E; try constructor.
  unfold Consume. case_decide; [|constructor]. repeat constructor. by eapply handler_name.
Qed.

(** The blocks of a tool are those of its events. *)
Lemma tool_blocks boot fmt server tool es :
  filter (fun b => block_Name b = tool) (all_blocks boot fmt server DetectorCpu es) =
    all_blocks boot fmt server DetectorCpu (filter (fun e => Name e = tool) es).
Proof.
  induction es as [|e es IH]; [done|]. unfold all_blocks in *. cbn [mbind list_bind].
  rewrite filter_app, IH, filter_cons. pose proof (event_blocks_name boot fmt server e) as Hb.
  destruct (decide (Name e = tool)) as [He | He]; cbn [mbind list_bind].
  - f_equal. rewrite filter_all; [done|]. eapply Forall_impl; [exact Hb|]. by intros b ->.
  - rewrite filter_none; [done|]. eapply Forall_impl; [exact Hb|]. by intros b ->.
Qed.

Lemma owned_tool d tool es :
  tool ∈ OwnedEvents d -> Forall (event_of tool) es -> owned d es = es.
Proof.
  intros Ht Hes. apply filter_all. eapply Forall_impl; [exact Hes|]. by intros e [_ _ ->].
Qed.

(** Once the queues are empty, what was exported of a tool is the blocks of its events. *)
Lemma tool_exported boot fmt caps remote_ok cfg p0 tool sent p :
  (0 < cap_cpu caps)%nat -> (0 < cap_mem caps)%nat -> started remote_ok cfg = Some p0 ->
  Forall event_ok sent -> pipeline_runs boot fmt caps p0 sent p ->
  exists p', pipeline_runs boot fmt caps p [] p' /\ drained p' /\
    filter (fun b => block_Name b = tool) (exported_by DetectorCpu p') =
      all_blocks boot fmt (Server (cpu p0)) DetectorCpu (filter (fun e => Name e = tool) (owned DetectorCpu sent)).
Proof.
  intros Hcc Hcm Hp0 Hsent Hpipe.
  assert (Ha : accounted boot fmt (Server (cpu p0)) sent p)
    by exact (runs_accounted boot fmt caps _ [] p0 sent p (started_accounted _ _ _ _ _ Hp0) Hsent Hpipe).
  destruct (pipeline_drained boot fmt caps _ sent p Hcc Hcm Ha Hsent) as (p' & Hrun' & Hd & Hx).
  exists p'. split; [done|]. split; [done|]. destruct (Hx DetectorCpu) as [_ ->]. apply tool_blocks.
Qed.

(** An event whose block does not depend on what the detector has collected. *)
Lemma event_block_of boot fmt server e b :
  (forall c, cpu_ProcessEvent boot fmt e c = Returned (c, Some b)) -> Consume b = [b] ->
  event_blocks boot fmt server DetectorCpu e = [b].
Proof. intros He Hb. unfold event_blocks, cpu_block. by rewrite He. Qed.

(** * Futexes *)

Section Futex.
Context {BM : BpfMaps} {BL : BpfMapsLaws BM}.
Context (bcc : Z -> Z -> bool -> bcc_symbol) (gof : Z -> option (list Z * list SimpleSymbolTableEntry)).
Context (evict : Z -> SymbolCache -> SymbolCache).
(** The map of stacks at a time; its stacks have 127 words. *)
Context (stack_map : Z -> Z -> option (list Z)).
Context (Hstacks : forall now id st, stack_map now id = Some st -> (1016 <= length st)%nat).
Context (boot : Z) (fmt : Z -> list Z) (caps : capacities).

Definition handle_futex (now : Z) : list Z -> SymSession -> go_result (list SpyEvent * SymSession) :=
  futexsnoop_HandleEvent bcc gof evict (stack_map now) now.

(** A record that arrives: the time, what was sent, and the padding. *)
Definition arrival : Type := Z * fx_event * list Z.
Definition arrived (a : arrival) : Z * list Z := let '(now, ev, rest) := a in (now, fx_bytes ev ++ rest).
Definition arrival_block (a : arrival) (stack : list Z) : DataBlock :=
  let '(now, ev, _) := a in futex_block now ev stack.
Definition arrival_ok (a : arrival) : Prop :=
  let '(_, ev, rest) := a in fx_event_typed ev /\ (length rest < 8)%nat.

Lemma handle_futex_event now data s es s' :
  handle_futex now data s = Returned (es, s') -> Forall (event_of model.FutexSnoop) es.
Proof. apply futexsnoop_events. Qed.

(** One event for each. *)
Lemma poll_futex_length data s es s' :
  pollData handle_futex data s = Returned (es, s') -> length es = length data.
Proof.
  revert s es. induction data as [|[now bs] data IH]; intros s es; cbn [pollData]; [by intros [= <- _]|].
  destruct (handle_futex now bs s) as [[es1 s1]| | |] eqn:E1; cbn [go_bind]; [|done..].
  destruct (pollData handle_futex data s1) as [[es2 s2]| | |] eqn:E2; cbn [go_bind]; [|done..].
  intros [= <- Hs]. subst s2. rewrite length_app, (IH _ _ E2). cbn [length]. f_equal.
  revert E1. unfold handle_futex, futexsnoop_HandleEvent, hist_event.
  destruct (Wire.HandleEvent bs) as [[l | h]|]; [by intros [= <- _] | | by intros [= <- _]].
  destruct (ResolveStack _ _ _ _ _ _ _ _ _) as [[syms s3]| | |]; cbn [go_bind]; [|done..]. by intros [= <- _].
Qed.

Lemma arrivals_become_blocks arrivals s :
  Forall arrival_ok arrivals ->
  exists es s' stacks, pollData handle_futex (arrived <$> arrivals) s = Returned (es, s') /\
    length stacks = length arrivals /\
    forall server, all_blocks boot fmt server DetectorCpu es = zip_with arrival_block arrivals stacks.
Proof.
  intros Harr. revert s. induction Harr as [|[[now ev] rest] arrivals [Hev Hrest] _ IH]; intros s.
  - by exists [], s, [].
  - destruct (futex_record_exported bcc gof evict (stack_map now) now (Hstacks now) boot fmt ev rest s Hev Hrest)
      as (e & s1 & stack & Hhandle & Hblock & Hconsume).
    destruct (IH s1) as (es & s2 & stacks & Hpoll & Hlen & Hall).
    exists (e :: es), s2, (stack :: stacks). cbn [fmap list_fmap arrived pollData].
    unfold handle_futex at 1. rewrite Hhandle. cbn [go_bind]. rewrite Hpoll. split; [done|].
    split; [cbn [length]; by rewrite Hlen|]. intros server. cbn [zip_with arrival_block].
    change (all_blocks boot fmt server DetectorCpu (e :: es)) with
      (event_blocks boot fmt server DetectorCpu e ++ all_blocks boot fmt server DetectorCpu es).
    by rewrite Hall, (event_block_of _ _ _ _ _ Hblock Hconsume).
Qed.

(** C5: from the kernel to the exporter: take any interleaving of the programs' runs on any
    machine, any of the records that the futex snooper has sent, in any order and with any
    padding, and any run of the agent in which the session's events for them are sent
    among those of the other sessions.  Then the agent can go on until its queues are
    empty, and the blocks of the futex snooper that have then been exported are exactly
    those of the records, in the order in which they arrived. *)
Theorem futex_records_reach_exporter amd has_state ncpu fa oa sa ca fo hs ps m arrivals remote_ok cfg p0 s :
  Z.of_nat ncpu <= 2 ^ 32 -> Forall handler_typed hs ->
  rtc pool_step (handler_prog amd has_state <$> hs, machine_init ncpu fa oa sa ca fo) (ps, m) ->
  Forall (fun '(_, ev, rest) => ev ∈ FutexSnoop.perf_map (m_futex m) /\ (length rest < 8)%nat) arrivals ->
  (0 < cap_cpu caps)%nat -> (0 < cap_mem caps)%nat -> started remote_ok cfg = Some p0 ->
  exists es s' stacks, pollData handle_futex (arrived <$> arrivals) s = Returned (es, s') /\
    length stacks = length arrivals /\
    forall sent p, Forall event_ok sent -> filter (fun e => Name e = model.FutexSnoop) (owned DetectorCpu sent) = es ->
      pipeline_runs boot fmt caps p0 sent p ->
      exists p', pipeline_runs boot fmt caps p [] p' /\ drained p' /\
        filter (fun b => block_Name b = model.FutexSnoop) (exported_by DetectorCpu p') =
          zip_with arrival_block arrivals stacks.
Proof.
  intros Hn Hhs Hrun Harr Hcc Hcm Hp0.
  pose proof (handlers_typed _ _ _ _ _ _ Hhs (machine_init_typed _ _ _ _ _ _ Hn) Hrun Futex) as Hfx. cbn in Hfx.
  destruct (arrivals_become_blocks arrivals s) as (es & s' & stacks & Hpoll & Hlen & Hall).
  { eapply Forall_impl; [exact Harr|]. intros [[now ev] rest] [Hev Hrest]. split; [|done].
    exact (proj1 (Forall_forall _ _) (fx_wt_perf _ Hfx) ev Hev). }
  exists es, s', stacks. split; [done|]. split; [done|]. intros sent p Hsent Hes Hpipe.
  destruct (tool_exported boot fmt caps remote_ok cfg p0 model.FutexSnoop sent p Hcc Hcm Hp0 Hsent Hpipe)
    as (p' & Hrun' & Hd & Hx).
  exists p'. split; [done|]. split; [done|]. by rewrite Hx, Hes, Hall.
Qed.
End Futex.

(** * The record of the demonstration run *)

Definition no_bcc (pid addr : Z) (refresh : bool) : bcc_symbol := {|
  bcc_res := -1; bcc_name := []; bcc_demangle_name := []; bcc_module := []; bcc_offset := 0 |}.
(** The arguments of [demo_machine]. *)
Definition demo_args : user_args := {|
  targ_pid := 0; targ_tid := 0; targ_lock := 0; FutexSnoop.arg_stack := false;
  min_dur_ms := 0; max_dur_ms := 1000; max_lock_hold_users := 1 |}.
Definition demo_arrivals : list arrival := [(9, demo_record, [0; 0; 0; 0])].

Lemma futex_records_reach_exporter_witness :
  exists sent p' stacks, pipeline_runs 0 print_nothing agent_capacities (demo_started OtherTool) sent p' /\
    length stacks = 1%nat /\
    filter (fun b => block_Name b = model.FutexSnoop) (exported_by DetectorCpu p') =
      zip_with arrival_block demo_arrivals stacks.
Proof.
  destruct (futex_records_reach_exporter no_bcc (fun _ => None) (fun _ sc => sc) (fun _ _ => None)
    ltac:(discriminate) 0 print_nothing agent_capacities false true 2 (Some demo_args) None None None None
    demo_handlers demo_run.1 demo_run.2 demo_arrivals no_remote OtherTool (demo_started OtherTool) NewSymSession)
    as (es & s' & stacks & Hpoll & Hlen & H).
  - lia.
  - exact demo_handlers_typed.
  - exact demo_run_steps.
  - constructor; [|constructor]. split; [|cbn; lia].
    replace (FutexSnoop.perf_map (m_futex demo_run.2)) with [demo_record] by (vm_compute; reflexivity). left.
  - cbn. lia.
  - cbn. lia.
  - reflexivity.
  - assert (Hes : Forall (event_of model.FutexSnoop) es).
    { eapply pollData_events; [|exact Hpoll]. intros ? ? ? ? ?. apply handle_futex_event. }
    assert (Hone : length es = 1%nat) by (rewrite (poll_futex_length _ _ _ _ _ _ _ _ Hpoll); reflexivity).
    destruct (H es ((demo_started OtherTool) <| eventCh := es |>)) as (p' & Hrun & _ & Hx).
    + eapply Forall_impl; [exact Hes|]. intros e [He _ _]. exact He.
    + rewrite (owned_tool DetectorCpu model.FutexSnoop) by (exact Hes || (do 3 right; left)).
      apply filter_all. eapply Forall_impl; [exact Hes|]. intros e [_ He _]. exact He.
    + apply (emit_all 0 print_nothing agent_capacities (demo_started OtherTool) es). rewrite Hone. cbn. lia.
    + exists es, p', stacks. split; [|split; [exact Hlen | exact Hx]].
      eapply (runs_app 0 print_nothing agent_capacities _ es _ []) in Hrun; [rewrite app_nil_r in Hrun; exact Hrun|].
      apply (emit_all 0 print_nothing agent_capacities (demo_started OtherTool) es). rewrite Hone. cbn. lia.
Defined.
