(* ===== verification/EndToEndOffCpu.v ===== *)
(** The whole way of the off-CPU profiler's records, with the copies of the rings that the
    agent reads on the way. *)
From S2P Require Import Prelude Prog BpfMap Layout OffCpu OffCpuSpec Kernel Wire WireSpec WellTyped WellTypedProgs Machine MachineSpec.
From S2P Require Import GoLib Trie SpyEvent DataBlock Detectors Symtab SymtabSpec Sessions AgentSpec AgentOffCpu.
From S2P Require Import Pipeline PipelineSpec Delivery EndToEnd.
From stdpp Require Import relations.
Open Scope Z_scope.
Open Scope bpf_scope.

Section OffCpu.
Context {BM : BpfMaps} {BL : BpfMapsLaws BM}.
Context (bcc : Z -> Z -> bool -> bcc_symbol) (gof : Z -> option (list Z * list SimpleSymbolTableEntry)).
Context (evict : Z -> SymbolCache -> SymbolCache).
(** The map of stacks at a time; its stacks have 127 words. *)
Context (stack_map : Z -> Z -> option (list Z)).
Context (Hstacks : forall now id st, stack_map now id = Some st -> (1016 <= length st)%nat).
(** The copy of a CPU's ring that is in the map at a time. *)
Context (copies : Z -> Z -> option sched_cached).
Context (boot : Z) (fmt : Z -> list Z) (caps : capacities).

(** The map's value as the agent gets it. *)
Definition backup (now cpu : Z) : option (list Z) :=
  (fun c => encode sched_cached_layout (sched_cached_members c)) <$> copies now cpu.

Definition handle_offcpu (now : Z) : list Z -> SymSession -> go_result (list SpyEvent * SymSession) :=
  offcpu_HandleEvent bcc gof evict (stack_map now) now (backup now).

(** A record that arrives: the time, what was sent, and the padding. *)
Definition off_arrival : Type := Z * perf_event_t * list Z.
Definition off_arrived (k : kernel) (a : off_arrival) : Z * list Z :=
  let '(now, p, rest) := a in (now, of_bytes k p ++ rest).

(** The blocks of the ring that comes with a record: every tenth record of the copy. *)
Definition ring_blocks (now cpu : Z) (c : sched_cached) : list DataBlock :=
  omap (fun j => (fun r => ring_block now boot fmt cpu r (10 * j)) <$> records c !! (10 * j)%nat) (seq 0 52).
Definition ring_of (now : Z) (p : perf_event_t) : list DataBlock :=
  if is_sched_cache_dump p =? 1
  then match copies now (pe_cpu p) with Some c => ring_blocks now (pe_cpu p) c | None => [] end
  else [].

(** The blocks of a record, with the texts of the waker's and the wakee's stacks. *)
Definition off_blocks (a : off_arrival) (stacks : list Z * list Z) : list DataBlock :=
  let '(now, p, _) := a in ring_of now p ++ [offcpu_block now boot fmt p stacks.1 stacks.2].

Lemma dump_blocks server now cpu c js :
  sched_cached_typed c -> is_u32 cpu -> Forall (fun j => j < 52)%nat js ->
  all_blocks boot fmt server DetectorCpu
    (dump_event now cpu (sched_cached_members c) <$> ((fun j => j * SCHED_CACHE_DUMP_STEP)%nat <$> js)) =
  omap (fun j => (fun r => ring_block now boot fmt cpu r (10 * j)) <$> records c !! (10 * j)%nat) js.
Proof.
  intros Hc Hcpu Hjs. induction Hjs as [|j js Hj _ IH]; [done|].
  destruct (sdt_records c Hc) as [Hl Hrs]. change (Z.to_nat SCHED_CACHE_SIZE) with 512%nat in Hl.
  destruct (lookup_lt_is_Some_2 (records c) (10 * j)) as [r Hr]; [lia|].
  cbn [fmap list_fmap omap list_omap]. rewrite Hr. cbn [fmap option_fmap option_map].
  unfold SCHED_CACHE_DUMP_STEP at 1. replace (j * 10)%nat with (10 * j)%nat by lia.
  pose proof (record_of_record_members c (10 * j) r Hc Hr) as Hrec.
  unfold all_blocks at 1. cbn [mbind list_bind]. rewrite (event_block_of boot fmt server _ (ring_block now boot fmt cpu r (10 * j))).
  - cbn [app]. f_equal. exact IH.
  - intros d. rewrite dump_event_exported; [by rewrite Hrec | done | lia |].
    rewrite Hrec. exact (proj1 (Forall_lookup _ _) Hrs _ r Hr).
  - done.
Qed.

(** What is copied is well typed. *)
Definition copies_typed : Prop := forall now cpu c, copies now cpu = Some c -> sched_cached_typed c.

Lemma schedCacheDump_blocks server now p :
  copies_typed -> perf_event_typed p ->
  all_blocks boot fmt server DetectorCpu
    (if is_sched_cache_dump p =? 1 then schedCacheDump now (backup now) (pe_cpu p) else []) = ring_of now p.
Proof.
  intros Hcopies Hp. unfold ring_of. destruct (_ =? 1); [|done]. unfold schedCacheDump, backup.
  destruct (copies now (pe_cpu p)) as [c|] eqn:E; [|done]. cbn [fmap option_fmap option_map].
  unfold read_or_zero. rewrite <- (app_nil_r (encode _ _)), sched_cached_decodes
    by by eapply sched_cached_typed_ok, Hcopies. cbn [default from_option].
  apply dump_blocks; [by eapply Hcopies | by destruct Hp |]. apply Forall_forall. intros j Hj.
  apply elem_of_seq in Hj. lia.
Qed.

Lemma off_arrivals_become_blocks k arrivals s :
  copies_typed -> Forall (fun a : off_arrival => perf_event_typed a.1.2) arrivals ->
  exists es s' stacks, pollData handle_offcpu (off_arrived k <$> arrivals) s = Returned (es, s') /\
    length stacks = length arrivals /\
    forall server, all_blocks boot fmt server DetectorCpu es = mjoin (zip_with off_blocks arrivals stacks).
Proof.
  intros Hcopies Harr. revert s. induction Harr as [|[[now p] rest] arrivals Hp _ IH]; intros s.
  - by exists [], s, [].
  - destruct (offcpu_event_exported bcc gof evict (stack_map now) now (Hstacks now) boot fmt (backup now) k p rest s Hp)
      as (ring & e & s1 & ws & ts & Hhandle & Hring & Hblock).
    destruct (IH s1) as (es & s2 & stacks & Hpoll & Hlen & Hall).
    exists ((ring ++ [e]) ++ es), s2, ((ws, ts) :: stacks). cbn [fmap list_fmap off_arrived pollData].
    unfold handle_offcpu at 1. rewrite Hhandle. cbn [go_bind]. rewrite Hpoll. split; [done|].
    split; [cbn [length]; by rewrite Hlen|]. intros server. rewrite !all_blocks_app, all_blocks_one, Hall.
    rewrite (event_block_of _ _ _ _ _ Hblock) by done.
    rewrite Hring, schedCacheDump_blocks by done. reflexivity.
Qed.

(** C6: from the kernel to the exporter, for the off-CPU profiler: take any interleaving of
    the programs' runs, any of the records that were sent, in any order and with any
    padding, and let what the agent reads of a CPU's copied ring be the copy at some moment
    of some such interleaving.  Then whatever other sessions send at the same time, the
    agent can go on until its queues are empty, and the blocks of the profiler that have
    then been exported are, record by record, those of the 52 records that are dumped of
    the ring, if the record asks for them and there is a copy, and then its own. *)
Theorem offcpu_records_reach_exporter k amd has_state ncpu fa oa sa ca fo hs ps m arrivals remote_ok cfg p0 s :
  Z.of_nat ncpu <= 2 ^ 32 -> Forall handler_typed hs ->
  rtc pool_step (handler_prog amd has_state <$> hs, machine_init ncpu fa oa sa ca fo) (ps, m) ->
  Forall (fun a : off_arrival => a.1.2 ∈ OffCpu.perf_map (m_offcpu m)) arrivals ->
  (forall now cpu c, copies now cpu = Some c -> exists ps' m',
    rtc pool_step (handler_prog amd has_state <$> hs, machine_init ncpu fa oa sa ca fo) (ps', m') /\
    bm_lookup (sched_cache_backup_map (m_offcpu m')) cpu = Some c) ->
  (0 < cap_cpu caps)%nat -> (0 < cap_mem caps)%nat -> started remote_ok cfg = Some p0 ->
  exists es s' stacks, pollData handle_offcpu (off_arrived k <$> arrivals) s = Returned (es, s') /\
    length stacks = length arrivals /\
    forall sent p, Forall event_ok sent -> filter (fun e => Name e = model.OffCpu) (owned DetectorCpu sent) = es ->
      pipeline_runs boot fmt caps p0 sent p ->
      exists p', pipeline_runs boot fmt caps p [] p' /\ drained p' /\
        filter (fun b => block_Name b = model.OffCpu) (exported_by DetectorCpu p') =
          mjoin (zip_with off_blocks arrivals stacks).
Proof.
  intros Hn Hhs Hrun Harr Hcopies Hcc Hcm Hp0.
  assert (Htyped : forall ps m, rtc pool_step (handler_prog amd has_state <$> hs, machine_init ncpu fa oa sa ca fo) (ps, m) ->
    of_wt (m_offcpu m)).
  { intros ps' m' Hrun'.
    exact (handlers_typed _ _ _ _ _ _ Hhs (machine_init_typed _ _ _ _ _ _ Hn) Hrun' OffCpu). }
  destruct (off_arrivals_become_blocks k arrivals s) as (es & s' & stacks & Hpoll & Hlen & Hall).
  - intros now cpu c Hc. destruct (Hcopies now cpu c Hc) as (ps' & m' & Hrun' & Hl).
    by eapply of_wt_backup; [apply (Htyped ps' m' Hrun')|].
  - eapply Forall_impl; [exact Harr|]. intros [[now p] rest] Hp.
    exact (proj1 (Forall_forall _ _) (of_wt_perf _ (Htyped ps m Hrun)) p Hp).
  - exists es, s', stacks. split; [done|]. split; [done|]. intros sent p Hsent Hes Hpipe.
    destruct (tool_exported boot fmt caps remote_ok cfg p0 model.OffCpu sent p Hcc Hcm Hp0 Hsent Hpipe)
      as (p' & Hrun' & Hd & Hx).
    exists p'. split; [done|]. split; [done|]. by rewrite Hx, Hes, Hall.
Qed.
End OffCpu.

(** * A sleep of 20 ms and a wait of 8 ms *)

(** Task 70 sleeps from 10 to 30 ms and is woken by thread 80; after its wait for the CPU
    the ring of the CPU is copied. *)
Definition off_demo_handlers : list handler := [
  SchedSwitch (off_task 70 0) (off_task 80 0) (off_env 10 80 0);
  TryToWakeUp (off_task 70 0) 3 (off_env 22 80 1);
  SchedSwitch (off_task 80 0) (off_task 70 8) (off_env 30 70 0)].

Lemma off_demo_handlers_typed : Forall handler_typed off_demo_handlers.
Proof.
  assert (Hcomm : forall b, 0 <= b < 256 -> Forall is_u8 (replicate 16 b)) by (intros b Hb; by apply Forall_replicate).
  repeat (apply Forall_cons; split; [|]); [| | | by apply Forall_nil].
  all: repeat split; try (by vm_compute); by apply Hcomm.
Qed.

Definition off_demo_init : machine := machine_init 2 None None None None (Some off_args).
Definition off_demo_turns : list nat := (replicate 90 0 ++ replicate 20 1 ++ replicate 90 2)%nat.
Definition off_demo_run : list (prog machine Z) * machine :=
  run_schedule off_demo_turns (handler_prog false true <$> off_demo_handlers) off_demo_init.

Lemma off_demo_steps :
  rtc pool_step (handler_prog false true <$> off_demo_handlers, machine_init 2 None None None None (Some off_args))
    (off_demo_run.1, off_demo_run.2).
Proof. rewrite <- surjective_pairing. apply run_schedule_steps. Qed.

Definition off_demo_record : perf_event_t :=
  default zero_perf_event (head (OffCpu.perf_map (m_offcpu off_demo_run.2))).
Lemma off_demo_sent : OffCpu.perf_map (m_offcpu off_demo_run.2) = [off_demo_record].
Proof. vm_compute. reflexivity. Qed.
Definition off_demo_copies (now cpu : Z) : option sched_cached :=
  bm_lookup (sched_cache_backup_map (m_offcpu off_demo_run.2)) cpu.
Definition off_demo_arrivals : list off_arrival := [(9, off_demo_record, [0; 0; 0; 0])].

Lemma off_demo_arrivals_sent :
  Forall (fun a : off_arrival => a.1.2 ∈ OffCpu.perf_map (m_offcpu off_demo_run.2)) off_demo_arrivals.
Proof. rewrite off_demo_sent. constructor; [left | constructor]. Qed.

Lemma off_demo_copied now cpu c : off_demo_copies now cpu = Some c -> exists ps' m',
  rtc pool_step (handler_prog false true <$> off_demo_handlers, machine_init 2 None None None None (Some off_args))
    (ps', m') /\
  bm_lookup (sched_cache_backup_map (m_offcpu m')) cpu = Some c.
Proof.
  unfold off_demo_copies. intros Hc. exists off_demo_run.1, off_demo_run.2. split; [exact off_demo_steps | exact Hc].
Qed.

Definition no_stacks_map (now id : Z) : option (list Z) := None.
Definition keep_cache (pid : Z) (sc : SymbolCache) : SymbolCache := sc.
Definition no_go (pid : Z) : option (list Z * list SimpleSymbolTableEntry) := None.

(** The 52 events of the ring and that of the record. *)
Lemma off_demo_polled :
  go_map (fun x => length x.1) (pollData (handle_offcpu no_bcc no_go keep_cache no_stacks_map off_demo_copies)
    (off_arrived linux_518 <$> off_demo_arrivals) NewSymSession) = Returned 53%nat.
Proof. vm_compute. reflexivity. Qed.

Lemma offcpu_records_reach_exporter_witness :
  exists sent p' stacks, pipeline_runs 0 print_nothing agent_capacities (demo_started OtherTool) sent p' /\
    length sent = 53%nat /\ length stacks = 1%nat /\
    filter (fun b => block_Name b = model.OffCpu) (exported_by DetectorCpu p') =
      mjoin (zip_with (off_blocks off_demo_copies 0 print_nothing) off_demo_arrivals stacks).
Proof.
  destruct (offcpu_records_reach_exporter no_bcc no_go keep_cache no_stacks_map ltac:(discriminate)
    off_demo_copies 0 print_nothing agent_capacities linux_518 false true 2 None None None None (Some off_args)
    off_demo_handlers off_demo_run.1 off_demo_run.2 off_demo_arrivals no_remote OtherTool (demo_started OtherTool)
    NewSymSession) as (es & s' & stacks & Hpoll & Hlen & H).
  - lia.
  - exact off_demo_handlers_typed.
  - exact off_demo_steps.
  - exact off_demo_arrivals_sent.
  - exact off_demo_copied.
  - cbn. lia.
  - cbn. lia.
  - reflexivity.
  - assert (Hes : Forall (event_of model.OffCpu) es).
    { eapply pollData_events; [|exact Hpoll]. intros ? ? ? ? ?. apply offcpu_events. }
    pose proof off_demo_polled as Hcount. rewrite Hpoll in Hcount. injection Hcount as Hcount.
    destruct (H es ((demo_started OtherTool) <| eventCh := es |>)) as (p' & Hrun & _ & Hx).
    + eapply Forall_impl; [exact Hes|]. intros e [He _ _]. exact He.
    + rewrite (owned_tool DetectorCpu model.OffCpu) by (exact Hes || left).
      apply filter_all. eapply Forall_impl; [exact Hes|]. intros e [_ He _]. exact He.
    + apply (emit_all 0 print_nothing agent_capacities (demo_started OtherTool) es). rewrite Hcount. cbn. lia.
    + exists es, p', stacks. split; [|split; [exact Hcount | split; [exact Hlen | exact Hx]]].
      eapply (runs_app 0 print_nothing agent_capacities _ es _ []) in Hrun; [rewrite app_nil_r in Hrun; exact Hrun|].
      apply (emit_all 0 print_nothing agent_capacities (demo_started OtherTool) es). rewrite Hcount. cbn. lia.
Defined.
