(* ===== verification/EndToEndSyscall.v ===== *)
(** From the options to the exporter, for the tracer of slow system calls: the command
    that starts it, the arguments that its programs get, the calls that they see, the
    session and the goroutines of the agent. *)
From stdpp Require Import strings.
From S2P Require Import Prelude Prog BpfMap Layout Syscall SyscallSpec Wire WireSpec WellTyped SyscallTable.
From S2P Require Import GoLib Trie SpyEvent DataBlock Detectors Symtab SymtabSpec Sessions AgentSpec AgentOther.
From S2P Require Import Pipeline PipelineSpec Delivery Config ConfigSpec Launch LaunchSpec Workers WorkersSpec AgentDelivery EndToEnd.
Open Scope Z_scope.
Open Scope bpf_scope.

(** * What the options ask for *)

Definition call_pid (c : done_call) : Z := hi32 (current_pid_tgid (done_env c)).
Definition call_tid (c : done_call) : Z := lo32 (current_pid_tgid (done_env c)).
Definition call_ns (c : done_call) : Z := u64 (ktime_ns (done_env c) - done_ts c).

(** The completed calls of the process, thread, name and duration in the options; an
    interrupted call is not one of them. *)
Definition selected (cfg : config.SYSCALL) (c : done_call) : bool :=
  negb (done_id c =? -1) &&
  (asked 0 (config.syscall_Pid cfg) (call_pid c) && asked 0 (config.syscall_Tid cfg) (call_tid c) &&
   named (config.syscall_Syscall cfg) (u32 (done_id c))) &&
  ((config.syscall_MinDurMs cfg <=? call_ns c / 1000000) && (call_ns c / 1000000 <=? config.syscall_MaxDurMs cfg)).

(** The block of a call that is exported, with the text of its stacks. *)
Definition call_labels (c : done_call) (stack : list Z) : AttributeMap := list_to_map [
  (model.DurUs, intValue (call_ns c / 1000));
  (model.Syscall, stringValue (bytes_of (SyscallIdToName "amd64" (u32 (done_id c)))));
  (model.Stack, stringValue stack); (model.Pid, intValue (call_pid c)); (model.Tid, intValue (call_tid c));
  (model.Comm, stringValue (drop_zeros (take 12 (current_comm (done_env c)))))].
Definition call_block (now : Z) (c : done_call) (stack : list Z) : DataBlock :=
  NewDataBlock model.Syscall (call_labels c stack) now [NewIntMetric model.SyscallMetricName (call_ns c / 1000)].

(** The options that are numbers are small enough for the types they are converted to. *)
Record options_ok (cfg : config.SYSCALL) : Prop := {
  opt_pid : int32 (config.syscall_Pid cfg);
  opt_tid : int32 (config.syscall_Tid cfg);
  opt_min : is_u32 (config.syscall_MinDurMs cfg);
  opt_max : is_u32 (config.syscall_MaxDurMs cfg)
}.

(** The values of the helpers in a run have their types, and ids are the kernel's. *)
Definition call_env (c : sc_call) : bpf_env := match c with CallEnter _ e | CallExit _ e => e end.
Definition env_of_kernel (e : bpf_env) : Prop :=
  env_typed e /\ kernel_id (hi32 (current_pid_tgid e)) /\ kernel_id (lo32 (current_pid_tgid e)).
Definition done_ok (c : done_call) : Prop := is_u64 (done_ts c) /\ env_of_kernel (done_env c).

(** * The records *)

(** What the tracer sends for a completed call. *)
Abbreviation args_of cfg := (syscall_args_of_bytes (syscall_initArgsMap (syscall_Args "amd64" cfg))).
Definition sent_record (cfg : config.SYSCALL) (c : done_call) : syscall_event :=
  call_record (args_of cfg) (done_ts c) (done_id c) (done_env c).

Lemma call_records_selected cfg c :
  options_ok cfg -> done_ok c ->
  call_records (args_of cfg) (done_ts c) (done_id c) (done_env c) = if selected cfg c then [sent_record cfg c] else [].
Proof.
  intros [H1 H2 H3 H4] (_ & He & Hp & Ht). unfold call_records, selected, call_traced.
  assert (Hs : s32 (hi32 (current_pid_tgid (done_env c))) = hi32 (current_pid_tgid (done_env c)))
    by (apply sN_id; [lia | unfold kernel_id in Hp; lia]).
  rewrite Hs, syscall_selects by (done || by apply uN_range).
  destruct (configured_windows (call_ns c) 0 0 0 0) as (Hw & _). rewrite <- (Hw cfg H3 H4). reflexivity.
Qed.

Lemma selected_records cfg calls :
  options_ok cfg -> Forall done_ok calls ->
  (calls ≫= fun c => call_records (args_of cfg) (done_ts c) (done_id c) (done_env c)) =
    sent_record cfg <$> filter (fun c => selected cfg c = true) calls.
Proof.
  intros Hcfg. induction 1 as [|c calls Hc _ IH]; [done|]. cbn [mbind list_bind].
  rewrite IH, call_records_selected, filter_cons by done.
  destruct (selected cfg c); [by rewrite decide_True | by rewrite decide_False].
Qed.

Lemma completed_ok cs seen inside calls :
  Forall (fun c => env_of_kernel (call_env c)) cs -> (forall t pt id ts, inside !! t = Some (pt, id, ts) -> is_u64 ts) ->
  completed seen inside cs = Some calls -> Forall done_ok calls.
Proof.
  intros Hcs. revert seen inside calls. induction Hcs as [|[args e | args e] cs He _ IH]; intros seen inside calls Hin;
    cbn [completed]; [by intros [= <-]|..].
  - destruct (inside !! _); [done|]. apply IH. intros t pt id ts. rewrite lookup_insert_Some.
    intros [[_ [= _ _ <-]] | [_ Hl]]; [apply env_time, He | by eapply Hin].
  - destruct (inside !! _) as [[[pt id] ts]|] eqn:Hl; [|case_decide; [done | by apply IH]].
    destruct (_ && _); [|done]. destruct (completed _ _ cs) as [more|] eqn:Hc; [|done]. intros [= <-].
    constructor; [split; [by eapply Hin | done]|]. eapply IH; [|done]. intros t pt' id' ts' [_ Hl']%lookup_delete_Some.
    by eapply Hin.
Qed.

(** * The session *)

Lemma sent_record_typed cfg c : done_ok c -> syscall_event_typed (sent_record cfg c).
Proof.
  intros (Hts & He & Hp & Ht). pose proof (env_typed_comm _ He) as Hcomm.
  assert (Hdur : is_u64 (u64 (ktime_ns (done_env c) - done_ts c))) by by apply uN_range.
  split; cbn; try done.
  - by apply uN_range.
  - by apply uN_range.
  - by apply u64_div.
  - case_match; [apply s64_typed | done].
  - case_match; [apply s64_typed | done].
  - apply u32_u64, uN_range. lia.
Qed.

Lemma syscall_event_fits ev :
  syscall_event_typed ev -> well_formed syscall_event_layout (syscall_event_members ev).
Proof.
  intros []. apply fits_sized. unfold syscall_event_members. rewrite <- (app_nil_r (Syscall.ev_comm ev)).
  change (leaves 0 syscall_event_layout).*2 with ([4; 4; 8; 8; 8; 8; 8]%nat ++ replicate 16 1%nat ++ []). cbn [app].
  repeat (apply sized_cons; [first [done | by apply uN_range]|]). apply (sized_chars 16); [done | apply sized_nil].
Qed.

Lemma call_block_of now cfg c stack :
  done_ok c -> syscall_block now "amd64" (sent_record cfg c) stack = call_block now c stack.
Proof.
  intros (_ & He & Hp & Ht). pose proof (uN_range 64 ltac:(lia) (ktime_ns (done_env c) - done_ts c)) as [Hd1 Hd2].
  assert (Hdur : s64 (call_ns c / 1000) = call_ns c / 1000).
  { apply sN_id; [lia|]. unfold call_ns. split; [|apply Z.div_lt_upper_bound; lia].
    pose proof (Z.div_pos _ 1000 Hd1 ltac:(lia)). lia. }
  assert (Hpid : u32 (hi32 (current_pid_tgid (done_env c))) = hi32 (current_pid_tgid (done_env c)))
    by by apply kernel_id_u32.
  unfold syscall_block, call_block, syscall_labels, call_labels, sent_record, call_record.
  cbn [dur_us Syscall.ev_pid Syscall.ev_tid ev_syscall_id Syscall.ev_comm]. fold (call_ns c).
  by rewrite Hdur, Hpid.
Qed.

Section Session.
Context {BM : BpfMaps} {BL : BpfMapsLaws BM}.
Context (bcc : Z -> Z -> bool -> bcc_symbol) (gof : Z -> option (list Z * list SimpleSymbolTableEntry)).
Context (evict : Z -> SymbolCache -> SymbolCache).
(** The map of stacks at a time; its stacks have 127 words. *)
Context (stack_map : Z -> Z -> option (list Z)).
Context (Hstacks : forall now id st, stack_map now id = Some st -> (1016 <= length st)%nat).
Context (boot : Z) (fmt : Z -> list Z) (caps : capacities).

Definition handle_syscall (now : Z) : list Z -> SymSession -> go_result (list SpyEvent * SymSession) :=
  syscall_HandleEvent bcc gof evict (stack_map now) now "amd64".

(** A record that arrives: the time, what was sent, and the padding. *)
Definition sys_arrival : Type := Z * syscall_event * list Z.
Definition sys_arrived (a : sys_arrival) : Z * list Z :=
  let '(now, ev, rest) := a in (now, encode syscall_event_layout (syscall_event_members ev) ++ rest).

(** The block of a call whose record arrives. *)
Definition arrives_as (cfg : config.SYSCALL) (a : sys_arrival) (c : done_call) (b : DataBlock) : Prop :=
  a.1.2 = sent_record cfg c /\ exists stack, b = call_block a.1.1 c stack.

Lemma arrivals_become_calls cfg calls arrivals s :
  Forall done_ok calls -> (fun a : sys_arrival => a.1.2) <$> arrivals = sent_record cfg <$> calls ->
  exists es s' blocks, pollData handle_syscall (sys_arrived <$> arrivals) s = Returned (es, s') /\
    Forall3 (arrives_as cfg) arrivals calls blocks /\
    forall server, all_blocks boot fmt server DetectorCpu es = blocks.
Proof.
  intros Hok. revert arrivals s. induction Hok as [|c calls Hc _ IH]; intros [|[[now ev] rest] arrivals] s; try done.
  { intros _. exists [], s, []. repeat split. constructor. }
  cbn [fmap list_fmap fst snd]. intros [= -> Harr].
  destruct (syscall_record_exported bcc gof evict (stack_map now) now (Hstacks now) boot fmt "amd64"
    (sent_record cfg c) rest s) as (e & s1 & kern & user & Hhandle & Hblock).
  { by apply sent_record_typed. } { by apply syscall_event_fits, sent_record_typed. } { apply uN_range. lia. }
  destruct (IH arrivals s1 Harr) as (es & s2 & blocks & Hpoll & Hall & Hblocks).
  set (stack := kern ++ bytes_of "----" ++ user) in *.
  exists (e :: es), s2, (call_block now c stack :: blocks). cbn [sys_arrived pollData].
  unfold handle_syscall at 1. rewrite Hhandle. cbn [go_bind]. rewrite Hpoll. split; [done|].
  split; [constructor; [split; [done | by exists stack] | done]|]. intros server.
  change (all_blocks boot fmt server DetectorCpu (e :: es)) with
    (event_blocks boot fmt server DetectorCpu e ++ all_blocks boot fmt server DetectorCpu es).
  rewrite (event_block_of _ _ _ _ (call_block now c stack)); [by rewrite Hblocks | | done].
  intros d. by rewrite Hblock, call_block_of.
Qed.

(** * The command *)

(** The arguments that the session of the agent writes into [args_map]. *)
Definition tracer_args (a : AppSpy) : option user_args :=
  match spyers a with
  | [SyscallSession _ args _] => Some (syscall_args_of_bytes (syscall_initArgsMap args))
  | _ => None
  end.

Lemma syscall_command new_cache remote_ok app file cfg a :
  Tools (ConfigInit app file).1 = [] -> main new_cache "amd64" remote_ok app file (SyscallCmd cfg) = Running a ->
  tracer_args a = Some (args_of cfg) /\ starts a = 1%nat /\ cpu_ok (cpuDetector a).
Proof.
  intros Hfile Hmain. destruct (main_running _ _ _ _ _ _ _ Hmain) as [_ Hc]. revert Hmain. unfold main.
  destruct (ConfigInit app file) as [t es]. cbn [fst] in Hfile. unfold ConfigWithYaml. rewrite Hfile.
  cbn [length Nat.ltb Nat.leb run_command]. unfold RunSpy, NewSyscallSession.
  destruct (Detectors.Init _ _ _) as [c []]; [|done]. destruct (negb _); [done|]. by intros [= <-].
Qed.

(** C7: from the options to the exporter: [spycat syscall] with any options, and any sequence
    of system calls by no more threads than [start] has room for, in which no thread is in
    two calls at a time.  If the records that the programs send arrive, in any order, then
    whatever other sessions send at the same time and however the goroutines run, the
    agent can go on until it has nothing to do, and its blocks of system calls are then
    exactly those of the calls that the options ask for: of that process, thread, name
    and number of milliseconds, completed and not interrupted, one block each with the
    call's duration, its name and the ids, in the order in which the records arrived. *)
Theorem slow_calls_reach_exporter new_cache remote_ok app file cfg a cs calls arrivals s :
  Tools (ConfigInit app file).1 = [] -> main new_cache "amd64" remote_ok app file (SyscallCmd cfg) = Running a ->
  options_ok cfg -> Forall (fun c => env_of_kernel (call_env c)) cs ->
  completed ∅ ∅ cs = Some calls -> (size (threads cs) <= MAX_ENTRIES)%nat ->
  (fun a : sys_arrival => a.1.2) <$> arrivals ≡ₚ perf_map (run_all (call_prog <$> cs) (sc_init (tracer_args a))) ->
  (0 < cap_cpu caps)%nat -> (0 < cap_mem caps)%nat ->
  exists es s' order blocks, pollData handle_syscall (sys_arrived <$> arrivals) s = Returned (es, s') /\
    order ≡ₚ filter (fun c => selected cfg c = true) calls /\ Forall3 (arrives_as cfg) arrivals order blocks /\
    forall sent st, Forall event_ok sent -> filter (fun e => Name e = model.Syscall) (owned DetectorCpu sent) = es ->
      agent_runs boot fmt caps (launched a) sent st ->
      exists st', agent_runs boot fmt caps st [] st' /\ agent_drained st' /\
        filter (fun b => block_Name b = model.Syscall) (exported_by DetectorCpu (shared st')) = blocks.
Proof.
  intros Hfile Hmain Hcfg Hcs Hcalls Hroom Harr Hcc Hcm.
  destruct (syscall_command _ _ _ _ _ _ Hfile Hmain) as (Hargs & Honce & Hdet).
  assert (Hok : Forall done_ok calls) by (eapply completed_ok; [done | | done]; by intros).
  rewrite Hargs, (completed_records _ cs calls), selected_records in Harr by done.
  apply Permutation_map_inv in Harr as (order & Horder & Hperm).
  assert (Hok' : Forall done_ok order).
  { rewrite Forall_forall in Hok. rewrite <- Hperm, Forall_forall. intros c [_ Hc]%list_elem_of_filter. by apply Hok. }
  destruct (arrivals_become_calls cfg order arrivals s Hok' Horder) as (es & s' & blocks & Hpoll & Hall & Hblocks).
  exists es, s', order, blocks. split; [done|]. split; [done|]. split; [done|]. intros sent st Hsent Hes Hrun.
  destruct (launched_once_exported boot fmt caps a sent st Honce Hdet Hcc Hcm Hsent Hrun) as (st' & Hrun' & Hd & Hx).
  exists st'. split; [done|]. split; [done|]. by rewrite Hx, tool_blocks, Hes.
Qed.
End Session.

(** * spycat syscall --pid 7 --syscall futex *)

(** Thread 71 was already in a call; thread 70 waits 20 ms on a futex, thread 80 of another
    process does so too. *)
Definition futex_calls : list sc_call := [
  CallExit read_call (sc_env 7 71 500);
  CallEnter futex_call (sc_env 7 70 1000); CallEnter futex_call (sc_env 8 80 2000);
  CallExit futex_call (sc_env 8 80 20002000); CallExit futex_call (sc_env 7 70 20001000)].
Definition futex_ends : list done_call := [
  {| done_id := 202; done_ts := 2000; done_env := sc_env 8 80 20002000 |};
  {| done_id := 202; done_ts := 1000; done_env := sc_env 7 70 20001000 |}].

Lemma sc_env_of_kernel tgid tid ts :
  kernel_id tgid -> kernel_id tid -> is_u64 ts -> env_of_kernel (sc_env tgid tid ts).
Proof.
  unfold kernel_id. intros Hg Ht Hts.
  assert (Hhi : hi32 (tgid * 2 ^ 32 + tid) = tgid).
  { unfold hi32. rewrite Z.shiftr_div_pow2 by lia. rewrite Z.div_add_l, Z.div_small by lia. lia. }
  assert (Hlo : lo32 (tgid * 2 ^ 32 + tid) = tid).
  { unfold lo32, uN. rewrite Z.add_comm, Z.mod_add by lia. apply Z.mod_small. lia. }
  split; [|cbn; rewrite Hhi, Hlo; by split]. split.
  - split; [done | unfold is_uN; cbn; lia | by vm_compute | done].
  - split; [done|]. by apply Forall_replicate.
Qed.

Lemma futex_calls_kernel : Forall (fun c => env_of_kernel (call_env c)) futex_calls.
Proof. repeat (constructor; [apply sc_env_of_kernel; unfold kernel_id, is_uN; lia|]). constructor. Qed.

Definition pid7_agent : AppSpy := {|
  eper := TerminalOutputer; cpuDetector := NewCpuDetector; starts := 1;
  spyers := [SyscallSession "syscall" (syscall_Args "amd64" pid7_syscall) ""] |}.
Lemma pid7_running : main positive "amd64" no_upstream "host" NoFile (SyscallCmd pid7_syscall) = Running pid7_agent.
Proof. reflexivity. Qed.

Definition futex_sent : syscall_event :=
  sent_record pid7_syscall {| done_id := 202; done_ts := 1000; done_env := sc_env 7 70 20001000 |}.
Definition futex_arrivals : list sys_arrival := [(9, futex_sent, [])].

Lemma futex_sent_only : perf_map (run_all (call_prog <$> futex_calls) (sc_init (tracer_args pid7_agent))) = [futex_sent].
Proof. vm_compute. reflexivity. Qed.

Lemma futex_polled :
  go_map (fun x => length x.1) (pollData (handle_syscall no_bcc (fun _ => None) (fun _ sc => sc) (fun _ _ => None))
    (sys_arrived <$> futex_arrivals) NewSymSession) = Returned 1%nat.
Proof. vm_compute. reflexivity. Qed.

Lemma emitted e : event_ok e ->
  agent_runs 0 print_nothing agent_capacities (launched pid7_agent) [e]
    ((launched pid7_agent) <| shared := (shared (launched pid7_agent)) <| eventCh := [e] |> |>).
Proof.
  intros _. apply (AgentStep _ _ _ (launched pid7_agent) [] (launched pid7_agent) (Some e)); [constructor|].
  refine (AgentEmit _ _ _ _ _ _). cbn. lia.
Qed.

Lemma slow_calls_reach_exporter_witness :
  exists sent st' stack, agent_runs 0 print_nothing agent_capacities (launched pid7_agent) sent st' /\
    filter (fun b => block_Name b = model.Syscall) (exported_by DetectorCpu (shared st')) =
      [call_block 9 {| done_id := 202; done_ts := 1000; done_env := sc_env 7 70 20001000 |} stack].
Proof.
  destruct (slow_calls_reach_exporter no_bcc (fun _ => None) (fun _ sc => sc) (fun _ _ => None) ltac:(discriminate)
    0 print_nothing agent_capacities positive no_upstream "host" NoFile pid7_syscall pid7_agent futex_calls futex_ends
    futex_arrivals NewSymSession) as (es & s' & order & blocks & Hpoll & Horder & Hall & H).
  - reflexivity.
  - exact pid7_running.
  - split; [unfold int32; cbn; lia | unfold int32; cbn; lia | done | done].
  - exact futex_calls_kernel.
  - vm_compute. reflexivity.
  - apply Nat.leb_le. vm_compute. reflexivity.
  - rewrite futex_sent_only. reflexivity.
  - cbn. lia.
  - cbn. lia.
  - assert (Hes : Forall (event_of model.Syscall) es).
    { eapply pollData_events; [|exact Hpoll]. intros ? ? ? ? ?. apply syscall_events. }
    pose proof futex_polled as Hcount. rewrite Hpoll in Hcount. injection Hcount as Hcount.
    destruct es as [|e [|]]; try discriminate Hcount. pose proof (Forall_inv Hes) as He.
    replace (filter _ futex_ends) with [{| done_id := 202; done_ts := 1000; done_env := sc_env 7 70 20001000 |}]
      in Horder by (vm_compute; reflexivity).
    apply Permutation_singleton_r in Horder as ->.
    assert (Hb : exists stack, blocks = [call_block 9 {| done_id := 202; done_ts := 1000; done_env := sc_env 7 70 20001000 |} stack]).
    { inversion Hall as [|a1 c1 b1 l1 l2 l3 [_ [stack Hb]] Hrest]; subst. inversion Hrest. by exists stack. }
    destruct Hb as [stack ->]. destruct (H [e] ((launched pid7_agent) <| shared := (shared (launched pid7_agent)) <| eventCh := [e] |> |>))
      as (st' & Hrun & _ & Hx).
    + constructor; [apply He | constructor].
    + rewrite (owned_tool DetectorCpu model.Syscall) by (exact Hes || (do 4 right; left)).
      apply filter_all. constructor; [apply He | constructor].
    + apply emitted, He.
    + exists [e], st', stack. split; [|exact Hx].
      exact (agent_runs_app _ _ _ _ [e] _ [] _ (emitted e (eo_ok _ _ He)) Hrun).
Defined.
